(* ===== verification/_CoqProject ===== *)
-Q . S2P
Prelude.v
Collections.v
EvmRpcTypes.v
MultiRpcResult.v
Externals.v
Types.v
Instances.v
Providers.v
Memory.v
ProviderApi.v
Numbers.v
Hex.v
Wire.v
CandidTypes.v
JsonTypes.v
Json.v
JsonCodec.v
JsonInstances.v
JsonLaws.v
CkethConversion.v
EthRpcError.v
EthRpc.v
Http.v
RpcClient.v
ProviderChoice.v
CandidRpc.v
Replies.v
Parameters.v
Main.v
Pages.v
Admin.v
Consensus.v
Invariant.v
Storage.v
Endpoints.v
Liveness.v
Secrecy.v
Privacy.v
Alloy.v
ClientLibrary.v
EndToEnd.v
Interleaving.v
UnitTests.v
