(* ===== verification/Prelude.v ===== *)
(** * The EVM RPC canister: a verification library

    The program is a canister (a WebAssembly service of the Internet Computer) that forwards
    Ethereum JSON-RPC requests to several providers by HTTPS outcalls and answers with the
    result on which enough of them agree. This library models the Rust code of [src/src] (the
    canister), [src/evm_rpc_types/src] (its interface) and [src/evm_rpc_client/src] (the
    library of its users) as functions, and proves what makes it correct. All paths below are
    relative to the repository, under [src/].

    ** The parts of the program and where they are modelled

    - Prelude.v (this file): notations, [Result], panics ([Outcome]), machine integers,
      strings, the hint database [canister]. Collections.v: the orders that Rust derives,
      [BTreeSet] and [BTreeMap] as sorted lists, the stable sort.
    - Externals.v: the third-party crates, as classes of operations; the laws that some
      theorems need are classes of their own ([HexLaws], [BigUintLaws], [ReduceLaws], ...) and
      state documented behaviour. Instances.v gives a concrete function for each of them and
      proves the laws: the theorems do not use it, their examples do.
    - EvmRpcTypes.v, MultiRpcResult.v ([evm_rpc_types/src/rpc_client], [.../result]): services,
      configurations, errors; the results of several providers and the maps over them.
    - Types.v, Providers.v, Memory.v, ProviderApi.v ([src/types], [src/constants.rs],
      [src/validate.rs], [src/providers.rs], [src/memory.rs]): API keys, the table of
      providers, the ranking by recent successes, the state [CanisterState] (one field per
      thread-local cell) with one operation per accessor, and where a provider is reached.
      Code that uses the state is in the monad [M], state passing with panics.
    - Numbers.v, Hex.v, CandidTypes.v, JsonTypes.v, CkethConversion.v
      ([evm_rpc_types/src/lib.rs], [.../request], [.../response], [src/rpc_client/amount],
      [src/rpc_client/json], [src/candid_rpc/cketh_conversion.rs]): 256-bit numbers, the
      hexadecimal types, the two families of types and the conversions between them.
    - Wire.v ([evm_rpc_types/src/lib.rs], [src/rpc_client/amount], [src/rpc_client/json]): how
      the numbers and the hexadecimal types are printed and how they look as Candid.
    - Json.v, JsonCodec.v, JsonInstances.v, JsonLaws.v ([src/rpc_client/json],
      [src/rpc_client/amount]): JSON values; a combinator for each [serde] attribute that the
      source uses, with the meaning [serde] documents for it; the JSON form of every type of
      requests and replies, written with them; concrete crates for the examples; the laws of
      the forms. Parameters.v: the parameters that are sent, from the arguments of a call.
    - EthRpcError.v, EthRpc.v ([src/rpc_client/eth_rpc_error], [src/rpc_client/eth_rpc]): how
      replies are made canonical before the replicas compare them. Replies.v: the same with
      the texts of JSON-RPC replies around the JSON forms of JsonCodec.v, and the
      transformation that each request asks for.
    - Http.v ([src/http.rs]): the layers of the outcall client: ids, metrics, retries, cycles,
      the header of the content type.
    - RpcClient.v, CandidRpc.v, Main.v ([src/rpc_client/mod.rs], [src/candid_rpc/mod.rs],
      [src/main.rs]): the choice of providers, the parallel call, the reduction of the
      answers, the endpoints, the guard and the life cycle.
    - Storage.v ([src/memory.rs], the [Storable] types of [src/types]): the regions of stable
      memory, the encodings of what they hold, and the operations on them.
    - Pages.v ([src/metrics.rs], [src/logs], [http_request] of [src/main.rs]): the pages of
      metrics and logs that the canister serves.
    - Alloy.v ([evm_rpc_types/src/alloy.rs] and the [alloy.rs] of its [request], [response] and
      [result]): the conversions to and from the types of the crate alloy.
    - ClientLibrary.v ([evm_rpc_client/src]): the library with which another canister calls
      this one: its requests and their builders, the client and the stub runtime of its tests.
    - Consensus.v, Admin.v, Invariant.v, Endpoints.v, Liveness.v, Secrecy.v, Privacy.v,
      EndToEnd.v, Interleaving.v: the theorems about several parts together. Secrecy.v also has
      the printed forms of services and APIs ([evm_rpc_types/src/rpc_client]). UnitTests.v: the
      unit tests of the repository, evaluated on the model.

    A definition has the name of the Rust item it models, after the name of its type when it
    is a method ([Providers::new] is [Providers_new]), and is translated line by line; logging
    is left out.

    ** What the theorems show

    - Consensus.v: each endpoint is the same query of several providers with its own
      parameters ([endpoints_are_queries]); a consistent answer is backed by as many different
      providers as the caller asked for ([consistent_answer_backed]); when all of them give the
      same answer, that is the answer ([unanimous_answer]); an inconsistent answer shows the
      answers of all of them ([inconsistent_answer_complete]).
    - EndToEnd.v: the same for the value that a user of the client library gets, after the
      conversions of the canister and of the library ([client_answer_backed]).
    - Liveness.v: the exact condition under which a query is answered instead of trapping.
    - ProviderChoice.v: which providers are asked, for every strategy and source, and the
      limits of the checks on the caller's list.
    - Admin.v, Invariant.v: who may change API keys and what a change does; what an upgrade
      keeps; the invariant of all reachable states, by induction on a relation [evolves] in
      which anything may run while a message waits, and what follows from it. Storage.v: the
      operations on the encoded regions of stable memory refine those on the state. Secrecy.v:
      nothing that is shown, counted or decided depends on the API keys, a relational property
      of two states that differ in their keys; Privacy.v: neither does the answer to a message
      nor the state it leaves, across its outcalls.
    - Endpoints.v: the range check of [eth_getLogs], the accounting of inconsistent answers,
      the announced price of a raw request, the provider that makes queries trap.
    - Http.v: retries end, attempts are counted once, the price of an outcall, canonical raw
      responses. EthRpc.v and EthRpcError.v: cleaned replies are canonical, the table of
      recognized errors. MultiRpcResult.v: mapping results composes although it collapses.
    - JsonLaws.v: what is written is read back; neither the order of the members nor unknown
      members matter; missing and repeated members are refused. Replies.v: two replies that
      differ only in layout become the same reply, which is still read as the same value.
      Parameters.v: two calls send the same parameters only if they are equal up to defaults.
    - Numbers.v, Hex.v, Wire.v, CkethConversion.v: ranges, round trips, what is accepted from
      a caller, and that no conversion confuses two values. Providers.v, ProviderApi.v: services resolve to their provider, and
      keys end up where the provider expects them.
    - Interleaving.v: the calls of a query to its providers as threads: each of them is a call
      of [http_client], the whole execution is one of the worlds of the other theorems, the ids
      in flight differ, and the calls end in any order.
    - Pages.v: what the pages show: every counter of the listed metrics with its labels, the
      entries of the requested priority and time; up to which value a metric is exact.
    - Alloy.v: which values alloy can represent and that the others are refused, that the
      conversions lose nothing, and that they never make up an agreement of providers.
    - ClientLibrary.v: what the builders of the client put into a call, and what the stub
      runtime answers; when two requests are equal.

    ** Bounds and fuel

    Fixed-width integers are [Z] with their wrap-around or saturation written out ([wrap],
    [saturating_add]). Two recursions are not structural: emptying the vector of principals
    takes its length as fuel ([pop_all]), and the retry layer takes 22 attempts
    ([RETRY_FUEL]): each retry doubles the limit of the response size or reaches 2,000,000
    bytes, which is less than 2^21, so that the fuel is never used up
    ([Http.retry_call_terminates]).

    ** Concurrency

    A message that waits for an outcall lets other messages run. The model splits the code at
    its waits: the state after a wait is an arbitrary function of the state before it
    ([meanwhile], [during_await]), given with the answers of the outside world ([Outside],
    [World]). The theorems hold for every such function, or, in Invariant.v, for those that
    are themselves evolutions of the canister.

    The outcalls of one query run at the same time. Interleaving.v cuts them at their waits
    and lets them, and other messages, take their steps in any order ([step]); it shows that
    the results are those of [http_client] in the model without threads.

    ** What is not modelled

    The third-party crates (their code is not in the repository): what the program uses of
    them are the classes of Externals.v and of the files that need them, among them the layout
    of stable memory inside a region, the Prometheus encoder, the log buffers, the layers of
    the outcall client below its observability layer, the types of alloy that the source does
    not fill in itself, and the JSON forms of numbers, addresses and bytes. The Candid code
    that [candid] derives for whole records and the [serde] code of the stored types, derived
    [Debug], [Clone] and [Ord] code that no other code reads, the log lines, the readings of
    the system (time, cycle balance, sizes of the memories: arguments of the definitions), the
    generators of [src/arbitrary.rs], the integration tests, the build scripts and the Motoko
    library. Of the rest of the three crates, every type and function with behaviour of its own
    has a definition here. *)

From stdpp Require Export base decidable countable list strings gmap.
From stdpp Require Export numbers pretty.

(** ** Notations of the development *)

Declare Scope canister_scope.
Delimit Scope canister_scope with canister.

(** Rust's fixed-width integers are integers; the operations that can leave the range
    write their wrap-around or saturation out ([wrap], [saturating_add], ...). *)
Abbreviation u8 := Z (only parsing).
Abbreviation u16 := Z (only parsing).
Abbreviation u32 := Z (only parsing).
Abbreviation i64 := Z (only parsing).
Abbreviation u64 := Z (only parsing).
Abbreviation u128 := Z (only parsing).
Abbreviation u256 := Z (only parsing).
(** A byte of a [Vec<u8>]. *)
Abbreviation byte := Z (only parsing).

(** ** Automation *)

(** The lemmas that settle common side conditions: ranges of integers, states that a
    computation leaves alone. *)
Create HintDb canister.

(** Closes a goal by evaluation: an equation between closed terms, or a proposition with a
    [Decision] that evaluates to [true]. *)
Ltac by_compute :=
  solve [ vm_compute; reflexivity | apply (bool_decide_unpack _); vm_compute; exact I ].

(** ** [Result] and panics *)

(** Rust's [Result<T, E>]. *)
Inductive Result (T E : Type) : Type :=
| Ok (t : T)
| Err (e : E).
Arguments Ok {T E} t.
Arguments Err {T E} e.

(** The outcome of running code that may panic: on the Internet Computer a panic traps
    the message, so there is no value (and no state) to go on with. *)
Inductive Outcome (A : Type) : Type :=
| Return (a : A)
| Panic (msg : string).
Arguments Return {A} a.
Arguments Panic {A} msg.

#[export] Instance Result_eq_dec {T E} `{EqDecision T, EqDecision E} :
  EqDecision (Result T E).
Proof. solve_decision. Defined.

#[export] Instance Outcome_eq_dec {A} `{EqDecision A} : EqDecision (Outcome A).
Proof. solve_decision. Defined.

#[export] Instance Outcome_ret : MRet Outcome := fun A a => Return a.
#[export] Instance Outcome_bind : MBind Outcome := fun A B f m =>
  match m with
  | Return a => f a
  | Panic msg => Panic msg
  end.

(** *** [PartialEq]: the equality test of a type, which the laws tie to equality *)

Class PartialEq (A : Type) := peq : A -> A -> bool.
Class PartialEqLaws (A : Type) `{PartialEq A} := peq_spec (x y : A) : peq x y = true <-> x = y.

(** The test a derived [PartialEq] performs on a type whose parts all have decidable
    equality. It is not an instance, so that a type whose equality test differs (one
    with floating-point parts) never gets it by accident. *)
Definition PartialEq_dec {A} `{EqDecision A} : PartialEq A := fun x y => bool_decide (x = y).
Lemma PartialEq_dec_laws {A} `{EqDecision A} : @PartialEqLaws A PartialEq_dec.
Proof. intros x y. apply bool_decide_eq_true. Qed.

Definition result_peq {T E} `{PartialEq T, PartialEq E} (r s : Result T E) : bool :=
  match r, s with
  | Ok x, Ok y => peq x y
  | Err x, Err y => peq x y
  | _, _ => false
  end.
#[export] Instance PartialEq_result {T E} `{PartialEq T, PartialEq E} :
  PartialEq (Result T E) := result_peq.
#[export] Instance PartialEqLaws_result {T E} `{PartialEqLaws T, PartialEqLaws E} :
  PartialEqLaws (Result T E).
Proof.
  intros [x|x] [y|y]; unfold peq, PartialEq_result, result_peq;
    rewrite ?peq_spec; naive_solver.
Qed.

(** [Result::map], [Result::map_err] and [Result::and_then]. *)
Definition result_map {T U E} (f : T -> U) (r : Result T E) : Result U E :=
  match r with
  | Ok t => Ok (f t)
  | Err e => Err e
  end.

Definition result_map_err {T E F} (f : E -> F) (r : Result T E) : Result T F :=
  match r with
  | Ok t => Ok t
  | Err e => Err (f e)
  end.

Definition result_and_then {T U E} (r : Result T E) (f : T -> Result U E) : Result U E :=
  match r with
  | Ok t => f t
  | Err e => Err e
  end.

(** [Option::ok_or]. *)
Definition ok_or {T E} (o : option T) (e : E) : Result T E :=
  match o with
  | Some t => Ok t
  | None => Err e
  end.

Definition is_ok {T E} (r : Result T E) : bool :=
  match r with
  | Ok _ => true
  | Err _ => false
  end.

(** The [?] operator on results. *)
Notation "'let?' x := r 'in' k" := (result_and_then r (fun x => k))
  (at level 10, x name, r at level 100, k at level 200) : canister_scope.

(** [.map(f).collect::<Result<Vec<_>, _>>()]: stops at the first error. *)
Fixpoint result_collect {T U E} (f : T -> Result U E) (l : list T) : Result (list U) E :=
  match l with
  | [] => Ok []
  | x :: l =>
      result_and_then (f x) (fun y =>
      result_and_then (result_collect f l) (fun ys => Ok (y :: ys)))
  end.

(** [Option::map(f).transpose()]. *)
Definition option_transpose {T E} (o : option (Result T E)) : Result (option T) E :=
  match o with
  | None => Ok None
  | Some (Ok t) => Ok (Some t)
  | Some (Err e) => Err e
  end.

(** [if b then .. else ..] whose branches know the value of the test. *)
Definition if_test {A} (b : bool) : (b = true -> A) -> (b = false -> A) -> A :=
  match b with
  | true => fun t _ => t eq_refl
  | false => fun _ f => f eq_refl
  end.
Lemma if_test_true {A} (b : bool) (t : b = true -> A) f (H : b = true) : if_test b t f = t H.
Proof. destruct b; [|done]. simpl. f_equal. apply proof_irrel. Qed.
Lemma if_test_false {A} (b : bool) t (f : b = false -> A) (H : b = false) : if_test b t f = f H.
Proof. destruct b; [done|]. simpl. f_equal. apply proof_irrel. Qed.

(** ** Lists *)

Lemma length_removelast {A} (l : list A) : length (removelast l) = pred (length l).
Proof.
  induction l as [|x l IH]; [done|].
  destruct l as [|y l]; [done|].
  change (removelast (x :: y :: l)) with (x :: removelast (y :: l)).
  simpl. simpl in IH. by rewrite IH.
Qed.

(** ** Machine integers *)

Definition max_of (bits : Z) : Z := (2 ^ bits - 1)%Z.
Definition in_range (bits z : Z) : Prop := (0 <= z < 2 ^ bits)%Z.
(** Truncation to the low bits: a cast [as u8], or [wrapping_add]. *)
Definition wrap (bits z : Z) : Z := (z mod 2 ^ bits)%Z.
Definition saturating_add (bits a b : Z) : Z := Z.min (a + b) (max_of bits).
Definition saturating_mul (bits a b : Z) : Z := Z.min (a * b) (max_of bits).

Lemma wrap_in_range bits z : (0 <= bits)%Z -> in_range bits (wrap bits z).
Proof. intros H. apply Z.mod_pos_bound. by apply Z.pow_pos_nonneg. Qed.

Lemma wrap_small bits z : in_range bits z -> wrap bits z = z.
Proof. intros H. by apply Z.mod_small. Qed.

Lemma wrap_le bits z : (0 <= bits)%Z -> (0 <= z)%Z -> (wrap bits z <= z)%Z.
Proof. intros Hb Hz. apply Z.mod_le; [done | by apply Z.pow_pos_nonneg]. Qed.

Lemma saturating_add_range bits a b :
  in_range bits a -> in_range bits b -> in_range bits (saturating_add bits a b).
Proof. unfold in_range, saturating_add, max_of. lia. Qed.

Lemma saturating_mul_range bits a b :
  in_range bits a -> in_range bits b -> in_range bits (saturating_mul bits a b).
Proof. unfold in_range, saturating_mul, max_of. nia. Qed.

#[export] Hint Resolve wrap_in_range saturating_add_range saturating_mul_range : canister.

(** ** Strings *)

(** A Rust [String] is its UTF-8 bytes; [str::len] counts bytes. *)
Definition str_len (s : string) : Z := Z.of_nat (String.length s).
Definition bytes_of_string (s : string) : list byte :=
  (fun c => Z.of_N (Ascii.N_of_ascii c)) <$> String.list_ascii_of_string s.

Definition string_of_bytes (bytes : list byte) : string :=
  String.string_of_list_ascii (map (fun b => Ascii.ascii_of_N (Z.to_N b)) bytes).
Lemma string_of_bytes_of_string s : string_of_bytes (bytes_of_string s) = s.
Proof.
  unfold string_of_bytes, bytes_of_string. change (?f <$> ?l) with (map f l). rewrite map_map.
  rewrite <- (String.string_of_list_ascii_of_string s) at 2. f_equal.
  etransitivity; [|apply map_id]. apply map_ext. intros c.
  by rewrite N2Z.id, Ascii.ascii_N_embedding.
Qed.

(** [{:?}] of a string without characters to escape. *)
Definition quoted (s : string) : string :=
  String (Ascii.ascii_of_N 34) (s +:+ String (Ascii.ascii_of_N 34) EmptyString).

Definition starts_with (p s : string) : bool := String.prefix p s.

(** [str::contains] with a string pattern. *)
Fixpoint contains (needle s : string) : bool :=
  starts_with needle s ||
  match s with
  | EmptyString => false
  | String _ s => contains needle s
  end.

(** [str::contains] with a character pattern. *)
Fixpoint contains_char (c : Ascii.ascii) (s : string) : bool :=
  match s with
  | EmptyString => false
  | String d s => Ascii.eqb c d || contains_char c s
  end.

(** [str::replace] with a non-empty pattern: the matches are the leftmost ones that do
    not overlap. [skip] counts the bytes of a match that are still to be dropped. *)
Fixpoint replace_from (skip : nat) (pat to s : string) : string :=
  match s with
  | EmptyString => EmptyString
  | String c s' =>
      match skip with
      | S skip => replace_from skip pat to s'
      | O =>
          if starts_with pat s
          then to +:+ replace_from (String.length pat - 1) pat to s'
          else String c (replace_from 0 pat to s')
      end
  end.
Definition replace (s pat to : string) : string := replace_from 0 pat to s.

Definition string_forall (P : Ascii.ascii -> bool) (s : string) : bool :=
  forallb P (String.list_ascii_of_string s).

Definition is_ascii (s : string) : bool :=
  string_forall (fun c => N.ltb (Ascii.N_of_ascii c) 128) s.

Definition is_ascii_uppercase (c : Ascii.ascii) : bool :=
  (N.leb 65 (Ascii.N_of_ascii c) && N.leb (Ascii.N_of_ascii c) 90)%N.

Definition ascii_lowercase_char (c : Ascii.ascii) : Ascii.ascii :=
  if is_ascii_uppercase c then Ascii.ascii_of_N (Ascii.N_of_ascii c + 32) else c.

Fixpoint to_ascii_lowercase (s : string) : string :=
  match s with
  | EmptyString => EmptyString
  | String c s => String (ascii_lowercase_char c) (to_ascii_lowercase s)
  end.

Lemma starts_with_app p s : starts_with p (p +:+ s) = true.
Proof.
  induction p as [|c p IH]; simpl; [by destruct s|].
  rewrite Ascii.eqb_refl || destruct (Ascii.ascii_dec c c); done.
Qed.

Lemma contains_app needle a b : contains needle (a +:+ needle +:+ b) = true.
Proof.
  induction a as [|c a IH].
  - assert (H : starts_with needle (needle +:+ b) = true) by apply starts_with_app.
    change ("" +:+ (needle +:+ b)) with (needle +:+ b).
    destruct (needle +:+ b); cbn [contains]; by rewrite H.
  - simpl. rewrite IH. apply orb_true_r.
Qed.

Lemma contains_char_app c a b :
  contains_char c (a +:+ b) = contains_char c a || contains_char c b.
Proof. induction a as [|d a IH]; simpl; [done|]. by rewrite IH, orb_assoc. Qed.

Lemma contains_char_starts_with c p s :
  starts_with p s = true -> contains_char c p = true -> contains_char c s = true.
Proof.
  revert s. induction p as [|d p IH]; intros [|e s]; simpl; try done.
  destruct (Ascii.ascii_dec d e) as [->|]; [|done]. intros Hs.
  destruct (Ascii.eqb c e); simpl; [done|]. by apply IH.
Qed.

(** A string that contains another contains its characters. *)
Lemma contains_contains_char c needle s :
  contains needle s = true -> contains_char c needle = true -> contains_char c s = true.
Proof.
  intros Hs Hc. induction s as [|d s IH]; cbn [contains] in Hs.
  - rewrite orb_false_r in Hs. eauto using contains_char_starts_with.
  - apply orb_true_iff in Hs as [Hs|Hs]; [eauto using contains_char_starts_with|].
    simpl. by rewrite IH, orb_true_r.
Qed.

Lemma contains_char_elem c s :
  contains_char c s = true <-> c ∈ String.list_ascii_of_string s.
Proof.
  induction s as [|d s IH]; simpl.
  { split; [done|]. intros Hin. inversion Hin. }
  rewrite orb_true_iff, IH, elem_of_cons, Ascii.eqb_eq. done.
Qed.

Lemma string_app_cons c (a b : string) : String c a +:+ b = String c (a +:+ b).
Proof. done. Qed.

Lemma string_app_nil_r (s : string) : s +:+ "" = s.
Proof. induction s as [|c s IH]; [done|]. by rewrite string_app_cons, IH. Qed.

Lemma string_length_app (s t : string) :
  String.length (s +:+ t) = (String.length s + String.length t)%nat.
Proof. induction s as [|c s IH]; simpl; [done|]. by rewrite IH. Qed.
Lemma string_app_assoc (a b c : string) : (a +:+ b) +:+ c = a +:+ (b +:+ c).
Proof. induction a as [|d a IH]; [done|]. by rewrite !string_app_cons, IH. Qed.

Lemma string_app_inv_tail (k a b : string) : a +:+ k = b +:+ k -> a = b.
Proof.
  assert (Hl : forall a b : string, String.length (a +:+ b) =
    (String.length a + String.length b)%nat).
  { intros x y. induction x as [|c x IH]; [done|]. rewrite string_app_cons. simpl. by rewrite IH. }
  revert b. induction a as [|c a IH]; intros [|d b] E; [done|..].
  1, 2: apply (f_equal String.length) in E; rewrite !Hl in E; simpl in E; lia.
  rewrite !string_app_cons in E. injection E as -> E. by rewrite (IH b E).
Qed.

(** A string starts with its prefixes only. *)
Lemma starts_with_inv p s : starts_with p s = true -> exists rest, s = p +:+ rest.
Proof.
  unfold starts_with. revert s. induction p as [|c p IH]; intros s Hs; [by exists s|].
  destruct s as [|d s]; [done|]. cbn [String.prefix] in Hs.
  destruct (Ascii.ascii_dec c d) as [->|]; [|done].
  destruct (IH s Hs) as [rest ->]. by exists rest.
Qed.

#[export] Instance option_map_inj {A B} (f : A -> B) :
  Inj (=) (=) f -> Inj (=) (=) (option_map f).
Proof. intros Hf [x|] [y|] E; simpl in E; try done. f_equal. apply Hf. congruence. Qed.

#[export] Instance map_inj {A B} (f : A -> B) :
  Inj (=) (=) f -> Inj (=) (=) (map f).
Proof.
  intros Hf l. induction l as [|x l IH]; intros [|y k] E; simpl in E; try done.
  injection E as E1 E2. f_equal; [by apply Hf | by apply IH].
Qed.

Lemma elem_of_take_inv {A} (x : A) k l : x ∈ take k l -> x ∈ l.
Proof. intros Hx. rewrite <- (take_drop k l). apply elem_of_app. by left. Qed.
