(* ===== verification/Collections.v ===== *)
(** Ordered collections of Rust's standard library, as the canister uses them: the [Ord]
    trait (with what [#[derive(Ord)]] gives), [BTreeSet], [BTreeMap] and the stable sort
    [slice::sort_by]. A set or a map is the list of its entries in iteration order. *)

From S2P Require Import Prelude.
From stdpp Require Export sorting.

Open Scope Z_scope.

Lemma StronglySorted_weaken {A} (R S : A -> A -> Prop) (l : list A) :
  (forall x y, R x y -> S x y) -> StronglySorted R l -> StronglySorted S l.
Proof.
  intros HRS. induction 1 as [|x l Hl IH Hx]; constructor; [done|].
  eapply Forall_impl; [exact Hx|]. auto.
Qed.

(** ** The [Ord] trait *)

Class RustOrd (A : Type) := rcmp : A -> A -> comparison.

Class RustOrdLaws (A : Type) `{RustOrd A} := {
  rcmp_eq (x y : A) : rcmp x y = Eq <-> x = y;
  rcmp_antisym (x y : A) : rcmp y x = CompOpp (rcmp x y);
  rcmp_trans (x y z : A) : rcmp x y = Lt -> rcmp y z = Lt -> rcmp x z = Lt;
}.

Definition rlt {A} `{RustOrd A} (x y : A) : Prop := rcmp x y = Lt.

Section OrdLaws.
Context {A : Type} `{RustOrdLaws A}.

Lemma rcmp_refl (x : A) : rcmp x x = Eq.
Proof. by apply rcmp_eq. Qed.

Lemma rcmp_gt (x y : A) : rcmp x y = Gt -> rlt y x.
Proof. intros E. unfold rlt. by rewrite rcmp_antisym, E. Qed.

Lemma rlt_irrefl (x : A) : ~ rlt x x.
Proof. unfold rlt. by rewrite rcmp_refl. Qed.

#[export] Instance rlt_trans : Transitive rlt.
Proof. intros x y z. apply rcmp_trans. Qed.

Lemma rlt_neq (x y : A) : rlt x y -> x <> y.
Proof. intros E ->. by apply rlt_irrefl in E. Qed.

(** Decidable equality from the order. *)
Definition rust_ord_eq_dec : EqDecision A.
Proof.
  intros x y. destruct (rcmp x y) eqn:E.
  - left. by apply rcmp_eq.
  - right. intros ->. by rewrite rcmp_refl in E.
  - right. intros ->. by rewrite rcmp_refl in E.
Defined.
End OrdLaws.

(** *** Instances: integers, and the combinators of [#[derive(Ord)]] *)

#[export] Instance RustOrd_Z : RustOrd Z := Z.compare.
#[export] Instance RustOrdLaws_Z : RustOrdLaws Z.
Proof.
  split; unfold rcmp, RustOrd_Z.
  - intros x y. apply Z.compare_eq_iff.
  - intros x y. apply Z.compare_antisym.
  - intros x y z. rewrite !Z.compare_lt_iff. lia.
Qed.

(** The derived comparison of fields, in declaration order. *)
Definition then_cmp (c d : comparison) : comparison :=
  match c with
  | Eq => d
  | _ => c
  end.

Definition pair_cmp {A B} `{RustOrd A, RustOrd B} (p q : A * B) : comparison :=
  then_cmp (rcmp p.1 q.1) (rcmp p.2 q.2).
#[export] Instance RustOrd_pair {A B} `{RustOrd A, RustOrd B} : RustOrd (A * B) := pair_cmp.
#[export] Instance RustOrdLaws_pair {A B} `{RustOrdLaws A, RustOrdLaws B} :
  RustOrdLaws (A * B).
Proof.
  split; unfold rcmp, RustOrd_pair, pair_cmp.
  - intros [a b] [a' b']; simpl. split.
    + destruct (rcmp a a') eqn:E; [|done..]. simpl. intros E'.
      by apply rcmp_eq in E as ->; apply rcmp_eq in E' as ->.
    + intros [= -> ->]. by rewrite !rcmp_refl.
  - intros [a b] [a' b']; simpl. rewrite (rcmp_antisym a a'), (rcmp_antisym b b').
    by destruct (rcmp a a').
  - intros [a1 b1] [a2 b2] [a3 b3]; simpl.
    destruct (rcmp a1 a2) eqn:E1, (rcmp a2 a3) eqn:E2; simpl; try done.
    + apply rcmp_eq in E1 as ->. apply rcmp_eq in E2 as ->.
      rewrite rcmp_refl; simpl. apply rcmp_trans.
    + apply rcmp_eq in E1 as ->. by rewrite E2.
    + apply rcmp_eq in E2 as ->. by rewrite E1.
    + by rewrite (rcmp_trans _ _ _ E1 E2).
Qed.

Definition option_cmp {A} `{RustOrd A} (o p : option A) : comparison :=
  match o, p with
  | None, None => Eq
  | None, Some _ => Lt
  | Some _, None => Gt
  | Some x, Some y => rcmp x y
  end.
#[export] Instance RustOrd_option {A} `{RustOrd A} : RustOrd (option A) := option_cmp.
#[export] Instance RustOrdLaws_option {A} `{RustOrdLaws A} : RustOrdLaws (option A).
Proof.
  split; unfold rcmp, RustOrd_option, option_cmp.
  - intros [x|] [y|]; try done. rewrite rcmp_eq. naive_solver.
  - intros [x|] [y|]; try done. apply rcmp_antisym.
  - intros [x|] [y|] [z|]; try done. apply rcmp_trans.
Qed.

Fixpoint list_cmp {A} `{RustOrd A} (l k : list A) : comparison :=
  match l, k with
  | [], [] => Eq
  | [], _ :: _ => Lt
  | _ :: _, [] => Gt
  | x :: l, y :: k => then_cmp (rcmp x y) (list_cmp l k)
  end.
#[export] Instance RustOrd_list {A} `{RustOrd A} : RustOrd (list A) := list_cmp.
#[export] Instance RustOrdLaws_list {A} `{RustOrdLaws A} : RustOrdLaws (list A).
Proof.
  split; unfold rcmp, RustOrd_list.
  - induction x as [|x l IH]; intros [|y k]; simpl; try done.
    destruct (rcmp x y) eqn:E; simpl.
    + apply rcmp_eq in E as ->. rewrite IH. naive_solver.
    + split; [done|]. intros [= -> _]. by rewrite rcmp_refl in E.
    + split; [done|]. intros [= -> _]. by rewrite rcmp_refl in E.
  - induction x as [|x l IH]; intros [|y k]; simpl; try done.
    rewrite IH, (rcmp_antisym x y). by destruct (rcmp x y).
  - induction x as [|x l IH]; intros [|y k] [|z m]; simpl; try done.
    destruct (rcmp x y) eqn:E1, (rcmp y z) eqn:E2; simpl; try done.
    + apply rcmp_eq in E1 as ->. apply rcmp_eq in E2 as ->.
      rewrite rcmp_refl; simpl. apply IH.
    + apply rcmp_eq in E1 as ->. by rewrite E2.
    + apply rcmp_eq in E2 as ->. by rewrite E1.
    + by rewrite (rcmp_trans _ _ _ E1 E2).
Qed.

(** A type whose order is the one of an injective key: a fieldless enum by its
    discriminant, a string by its bytes. *)
Definition cmp_by {A B} `{RustOrd B} (f : A -> B) (x y : A) : comparison := rcmp (f x) (f y).
Lemma RustOrdLaws_by {A B} `{RustOrdLaws B} (f : A -> B) `{Hf : !Inj (=) (=) f} :
  @RustOrdLaws A (cmp_by f).
Proof.
  split; unfold rcmp, cmp_by.
  - intros x y. rewrite rcmp_eq. split; [apply Hf | by intros ->].
  - intros x y. apply rcmp_antisym.
  - intros x y z. apply rcmp_trans.
Qed.

Lemma bytes_of_string_inj : Inj (=) (=) bytes_of_string.
Proof.
  intros s t. unfold bytes_of_string. intros E.
  apply list_fmap_eq_inj in E.
  - by rewrite <- (String.string_of_list_ascii_of_string s), E,
      String.string_of_list_ascii_of_string.
  - intros a b Hab. apply N2Z.inj in Hab.
    by rewrite <- (Ascii.ascii_N_embedding a), Hab, Ascii.ascii_N_embedding.
Qed.

#[export] Instance RustOrd_string : RustOrd string := cmp_by bytes_of_string.
#[export] Instance RustOrdLaws_string : RustOrdLaws string.
Proof. apply RustOrdLaws_by, bytes_of_string_inj. Qed.

(** ** [BTreeSet] *)

Section BTreeSet.
Context {A : Type} `{RustOrd A}.

Fixpoint btree_insert (x : A) (s : list A) : list A :=
  match s with
  | [] => [x]
  | y :: s' =>
      match rcmp x y with
      | Lt => x :: s
      | Eq => s
      | Gt => y :: btree_insert x s'
      end
  end.

(** [.into_iter().collect::<BTreeSet<_>>()]. *)
Definition btree_from_iter (l : list A) : list A := foldl (fun s x => btree_insert x s) [] l.

Context `{!RustOrdLaws A}.

Lemma elem_of_btree_insert x y s : x ∈ btree_insert y s <-> x = y \/ x ∈ s.
Proof.
  induction s as [|z s IH]; simpl; [set_solver|].
  destruct (rcmp y z) eqn:E; [apply rcmp_eq in E as ->| |]; set_solver.
Qed.

Lemma elem_of_btree_from_iter x l : x ∈ btree_from_iter l <-> x ∈ l.
Proof.
  unfold btree_from_iter.
  assert (Hg : forall s, x ∈ foldl (fun s x => btree_insert x s) s l <-> x ∈ s \/ x ∈ l).
  { induction l as [|y l IH]; intros s; simpl; [set_solver|].
    rewrite IH, elem_of_btree_insert. set_solver. }
  rewrite Hg. set_solver.
Qed.

Lemma btree_insert_sorted x s :
  StronglySorted rlt s -> StronglySorted rlt (btree_insert x s).
Proof.
  induction 1 as [|y s Hs IH Hy]; simpl; [repeat constructor|].
  destruct (rcmp x y) eqn:E.
  - by constructor.
  - repeat constructor; [done..|]. eapply Forall_impl; [done|].
    intros z Hz. by transitivity y.
  - constructor; [done|]. apply Forall_forall. intros z Hz.
    apply elem_of_btree_insert in Hz as [->|Hz]; [by apply rcmp_gt|].
    by eapply Forall_forall in Hy.
Qed.

Lemma btree_from_iter_sorted l : StronglySorted rlt (btree_from_iter l).
Proof.
  unfold btree_from_iter.
  assert (Hg : forall s, StronglySorted rlt s ->
    StronglySorted rlt (foldl (fun s x => btree_insert x s) s l)).
  { induction l as [|y l IH]; intros s Hs; simpl; [done|].
    by apply IH, btree_insert_sorted. }
  apply Hg. constructor.
Qed.

Lemma sorted_NoDup (s : list A) : StronglySorted rlt s -> NoDup s.
Proof.
  induction 1 as [|y s Hs IH Hy]; constructor; [|done].
  intros Hin. eapply Forall_forall in Hy; [|done]. by apply rlt_irrefl in Hy.
Qed.

Lemma btree_from_iter_NoDup l : NoDup (btree_from_iter l).
Proof. apply sorted_NoDup, btree_from_iter_sorted. Qed.

Lemma btree_from_iter_Permutation l : NoDup l -> btree_from_iter l ≡ₚ l.
Proof.
  intros Hl. apply NoDup_Permutation; [apply btree_from_iter_NoDup|done|].
  intros x. apply elem_of_btree_from_iter.
Qed.

Lemma length_btree_from_iter l : NoDup l -> length (btree_from_iter l) = length l.
Proof. intros Hl. by rewrite btree_from_iter_Permutation. Qed.

Lemma length_btree_from_iter_le l : (length (btree_from_iter l) <= length l)%nat.
Proof.
  apply submseteq_length, NoDup_submseteq; [apply btree_from_iter_NoDup|].
  intros x. by rewrite elem_of_btree_from_iter.
Qed.

Lemma btree_from_iter_nil_inv l : btree_from_iter l = [] -> l = [].
Proof.
  intros E. destruct l as [|x l]; [done|].
  assert (Hx : x ∈ btree_from_iter (x :: l)) by (rewrite elem_of_btree_from_iter; left).
  rewrite E in Hx. by apply not_elem_of_nil in Hx.
Qed.

(** Two collections of the same elements give the same set. *)
Lemma sorted_ext (s t : list A) :
  StronglySorted rlt s -> StronglySorted rlt t -> (forall x, x ∈ s <-> x ∈ t) -> s = t.
Proof.
  intros Hs Ht Hst. assert (Hp : s ≡ₚ t).
  { apply NoDup_Permutation; [by apply sorted_NoDup..|done]. }
  clear Hst. revert t Ht Hp. induction Hs as [|x s Hs IH Hx]; intros t Ht Hp.
  - by apply Permutation_nil_l in Hp.
  - destruct Ht as [|y t Ht Hy]; [by apply Permutation_nil_r in Hp|].
    assert (x = y) as ->.
    { assert (Hxt : x ∈ y :: t) by (rewrite <- Hp; left).
      assert (Hys : y ∈ x :: s) by (rewrite Hp; left).
      apply elem_of_cons in Hxt as [->|Hxt]; [done|].
      apply elem_of_cons in Hys as [->|Hys]; [done|].
      eapply Forall_forall in Hx; [|done]. eapply Forall_forall in Hy; [|done].
      destruct (rlt_irrefl x). by transitivity y. }
    f_equal. apply IH; [done|]. by apply Permutation_cons_inv in Hp.
Qed.

Lemma btree_from_iter_ext l k :
  (forall x, x ∈ l <-> x ∈ k) -> btree_from_iter l = btree_from_iter k.
Proof.
  intros E. apply sorted_ext; [apply btree_from_iter_sorted..|].
  intros x. by rewrite !elem_of_btree_from_iter.
Qed.
End BTreeSet.

(** ** [BTreeMap] *)

Section BTreeMap.
Context {K V : Type} `{RustOrd K}.

Fixpoint btree_map_insert (k : K) (v : V) (m : list (K * V)) : list (K * V) :=
  match m with
  | [] => [(k, v)]
  | (k', v') :: m' =>
      match rcmp k k' with
      | Lt => (k, v) :: m
      | Eq => (k, v) :: m'
      | Gt => (k', v') :: btree_map_insert k v m'
      end
  end.

Fixpoint btree_map_get (k : K) (m : list (K * V)) : option V :=
  match m with
  | [] => None
  | (k', v) :: m =>
      match rcmp k k' with
      | Eq => Some v
      | _ => btree_map_get k m
      end
  end.

Definition btree_map_from_iter (l : list (K * V)) : list (K * V) :=
  foldl (fun m '(k, v) => btree_map_insert k v m) [] l.

Context `{!RustOrdLaws K}.

Lemma btree_map_get_insert k k' v m :
  btree_map_get k (btree_map_insert k' v m) =
  match rcmp k k' with Eq => Some v | _ => btree_map_get k m end.
Proof.
  induction m as [|[k1 v1] m IH]; simpl.
  - by destruct (rcmp k k').
  - destruct (rcmp k' k1) eqn:E1; simpl.
    + apply rcmp_eq in E1 as ->. by destruct (rcmp k k1).
    + by destruct (rcmp k k').
    + rewrite IH. destruct (rcmp k k1) eqn:E2, (rcmp k k') eqn:E3; try done.
      apply rcmp_eq in E2 as ->. apply rcmp_eq in E3 as ->. by rewrite rcmp_refl in E1.
Qed.
End BTreeMap.

(** ** [slice::sort_by]: the stable sort *)

Section StableSort.
Context {A : Type} (cmp : A -> A -> comparison).

(** [x] comes before [y] in the slice: it stays before it unless it is greater. *)
Fixpoint sort_insert (x : A) (l : list A) : list A :=
  match l with
  | [] => [x]
  | y :: l' =>
      match cmp x y with
      | Gt => y :: sort_insert x l'
      | _ => x :: l
      end
  end.

Definition sort_by (l : list A) : list A := foldr sort_insert [] l.

Lemma sort_insert_Permutation x l : sort_insert x l ≡ₚ x :: l.
Proof.
  induction l as [|y l IH]; simpl; [done|].
  destruct (cmp x y); [done..|]. rewrite IH. by rewrite Permutation_swap.
Qed.

Lemma sort_by_Permutation l : sort_by l ≡ₚ l.
Proof.
  induction l as [|x l IH]; simpl; [done|]. by rewrite sort_insert_Permutation, IH.
Qed.

Definition cmp_le (x y : A) : Prop := cmp x y <> Gt.

Hypothesis cmp_total : forall x y, cmp x y = Gt -> cmp y x <> Gt.
Hypothesis cmp_le_trans : forall x y z, cmp_le x y -> cmp_le y z -> cmp_le x z.

Lemma sort_insert_sorted x l :
  StronglySorted cmp_le l -> StronglySorted cmp_le (sort_insert x l).
Proof.
  induction 1 as [|y l Hl IH Hy]; simpl; [repeat constructor|].
  assert (Hle : cmp_le x y -> StronglySorted cmp_le (x :: y :: l)).
  { intros Hxy. repeat constructor; [done..|].
    eapply Forall_impl; [done|]. intros z Hz. by eapply cmp_le_trans. }
  destruct (cmp x y) eqn:E; [apply Hle; unfold cmp_le; by rewrite E..|].
  constructor; [done|]. rewrite sort_insert_Permutation.
  constructor; [|done]. unfold cmp_le. by apply cmp_total.
Qed.

Lemma sort_by_sorted l : StronglySorted cmp_le (sort_by l).
Proof.
  induction l as [|x l IH]; simpl; [constructor|]. by apply sort_insert_sorted.
Qed.

(** When no two elements of the slice compare as equal, the sorted slice does not
    depend on the order in which the elements came. *)
Lemma sort_by_unique l k :
  (forall x y, x ∈ l -> y ∈ l -> cmp x y <> Gt -> cmp y x <> Gt -> x = y) ->
  l ≡ₚ k -> sort_by l = sort_by k.
Proof.
  intros Hanti Hlk.
  assert (Hp : sort_by l ≡ₚ sort_by k) by (by rewrite !sort_by_Permutation).
  assert (Hin : forall x, x ∈ sort_by l -> x ∈ l) by (intros x; by rewrite sort_by_Permutation).
  pose proof (sort_by_sorted k) as Hk. revert Hp Hin Hk. generalize (sort_by k) as t.
  induction (sort_by_sorted l) as [|x s Hs IH Hx]; intros t Hp Hin Ht.
  - by apply Permutation_nil_l in Hp.
  - destruct Ht as [|y t Ht Hy]; [by apply Permutation_nil_r in Hp|].
    assert (x = y) as ->.
    { assert (Hxt : x ∈ y :: t) by (rewrite <- Hp; left).
      assert (Hys : y ∈ x :: s) by (rewrite Hp; left).
      apply elem_of_cons in Hxt as [->|Hxt]; [done|].
      apply elem_of_cons in Hys as [->|Hys]; [done|].
      apply Hanti; [apply Hin; left|apply Hin; by right| |].
      - by eapply Forall_forall in Hx.
      - by eapply Forall_forall in Hy. }
    f_equal. apply IH; [by apply Permutation_cons_inv in Hp| |done].
    intros z Hz. apply Hin. by right.
Qed.
End StableSort.
