(* ===== verification/EvmRpcTypes.v ===== *)
(** The data shared by the canister and its clients (crate [evm_rpc_types]): services and
    their configuration, the error types, and [MultiRpcResult] with its algebra.

    An enum [E] of the source is the module [E], which declares the type [E] with the
    source's constructors: [RpcService.Custom] reads as it does in Rust. *)

From S2P Require Import Prelude Collections.
Open Scope Z_scope.

(** ** Services ([evm_rpc_types/src/rpc_client/mod.rs]) *)

Module EthMainnetService.
Inductive EthMainnetService := Alchemy | Ankr | BlockPi | PublicNode | Cloudflare | Llama.
Definition EthMainnetService_all : list EthMainnetService :=
  [Alchemy; Ankr; BlockPi; PublicNode; Cloudflare; Llama].
#[global] Instance eq_dec : EqDecision EthMainnetService.
Proof. solve_decision. Defined.
(** The discriminant, which the derived [Ord] compares. *)
Definition discriminant (s : EthMainnetService) : Z :=
  match s with
  | Alchemy => 0 | Ankr => 1 | BlockPi => 2 | PublicNode => 3 | Cloudflare => 4 | Llama => 5
  end.
#[global] Instance discriminant_inj : Inj (=) (=) discriminant.
Proof. by intros [] []. Qed.
End EthMainnetService.
Abbreviation EthMainnetService := EthMainnetService.EthMainnetService.

Module EthSepoliaService.
Inductive EthSepoliaService := Alchemy | Ankr | BlockPi | PublicNode | Sepolia.
Definition EthSepoliaService_all : list EthSepoliaService :=
  [Alchemy; Ankr; BlockPi; PublicNode; Sepolia].
#[global] Instance eq_dec : EqDecision EthSepoliaService.
Proof. solve_decision. Defined.
Definition discriminant (s : EthSepoliaService) : Z :=
  match s with Alchemy => 0 | Ankr => 1 | BlockPi => 2 | PublicNode => 3 | Sepolia => 4 end.
#[global] Instance discriminant_inj : Inj (=) (=) discriminant.
Proof. by intros [] []. Qed.
End EthSepoliaService.
Abbreviation EthSepoliaService := EthSepoliaService.EthSepoliaService.

Module L2MainnetService.
Inductive L2MainnetService := Alchemy | Ankr | BlockPi | PublicNode | Llama.
Definition L2MainnetService_all : list L2MainnetService :=
  [Alchemy; Ankr; BlockPi; PublicNode; Llama].
#[global] Instance eq_dec : EqDecision L2MainnetService.
Proof. solve_decision. Defined.
Definition discriminant (s : L2MainnetService) : Z :=
  match s with Alchemy => 0 | Ankr => 1 | BlockPi => 2 | PublicNode => 3 | Llama => 4 end.
#[global] Instance discriminant_inj : Inj (=) (=) discriminant.
Proof. by intros [] []. Qed.
End L2MainnetService.
Abbreviation L2MainnetService := L2MainnetService.L2MainnetService.

(** An HTTP header, re-exported from [ic_management_canister_types]: the source builds and
    matches it by its two fields. That crate also gives it the order that [RpcApi] derives
    its own from; the order is a parameter of the development ([RustOrd HttpHeader]). *)
Record HttpHeader := { header_name : string; header_value : string }.
#[global] Instance HttpHeader_eq_dec : EqDecision HttpHeader.
Proof. solve_decision. Defined.

Record RpcApi := { url : string; headers : option (list HttpHeader) }.
#[global] Instance RpcApi_eq_dec : EqDecision RpcApi.
Proof. solve_decision. Defined.

Module RpcService.
Inductive RpcService :=
| Provider (id : u64)
| Custom (api : RpcApi)
| EthMainnet (service : EthMainnetService)
| EthSepolia (service : EthSepoliaService)
| ArbitrumOne (service : L2MainnetService)
| BaseMainnet (service : L2MainnetService)
| OptimismMainnet (service : L2MainnetService).
#[global] Instance eq_dec : EqDecision RpcService.
Proof. solve_decision. Defined.

(** The derived order: the variants in declaration order, then their payloads. *)
Definition ord_key (s : RpcService) : Z * (Z * option (string * option (list HttpHeader))) :=
  match s with
  | Provider id => (0, (id, None))
  | Custom api => (1, (0, Some (url api, headers api)))
  | EthMainnet s => (2, (EthMainnetService.discriminant s, None))
  | EthSepolia s => (3, (EthSepoliaService.discriminant s, None))
  | ArbitrumOne s => (4, (L2MainnetService.discriminant s, None))
  | BaseMainnet s => (5, (L2MainnetService.discriminant s, None))
  | OptimismMainnet s => (6, (L2MainnetService.discriminant s, None))
  end.
#[global] Instance ord_key_inj : Inj (=) (=) ord_key.
Proof.
  intros [id|[u h]|s|s|s|s|s] [id'|[u' h']|s'|s'|s'|s'|s']; simpl; intros E;
    simplify_eq; done.
Qed.

Section Ord.
Context `{HttpHeaderOrd : RustOrd HttpHeader}.
#[global] Instance ord : RustOrd RpcService := cmp_by ord_key.
#[global] Instance ord_laws `{!RustOrdLaws HttpHeader} : RustOrdLaws RpcService.
Proof. apply (RustOrdLaws_by ord_key). Qed.
End Ord.
End RpcService.
Abbreviation RpcService := RpcService.RpcService.

Module RpcServices.
Inductive RpcServices :=
| Custom (chain_id : u64) (services : list RpcApi)
| EthMainnet (services : option (list EthMainnetService))
| EthSepolia (services : option (list EthSepoliaService))
| ArbitrumOne (services : option (list L2MainnetService))
| BaseMainnet (services : option (list L2MainnetService))
| OptimismMainnet (services : option (list L2MainnetService)).
End RpcServices.
Abbreviation RpcServices := RpcServices.RpcServices.

Module ConsensusStrategy.
Inductive ConsensusStrategy :=
| Equality
| Threshold (total : option u8) (min : u8).
(** [#[default]]. *)
Definition ConsensusStrategy_default : ConsensusStrategy := Equality.
End ConsensusStrategy.
Abbreviation ConsensusStrategy := ConsensusStrategy.ConsensusStrategy.

Record RpcConfig := {
  response_size_estimate : option u64;
  response_consensus : option ConsensusStrategy;
}.
(** [#[derive(Default)]]. *)
Definition RpcConfig_default : RpcConfig :=
  {| response_size_estimate := None; response_consensus := None |}.

Module GetLogsRpcConfig.
Record GetLogsRpcConfig := {
  response_size_estimate : option u64;
  response_consensus : option ConsensusStrategy;
  max_block_range : option u32;
}.
Definition GetLogsRpcConfig_default : GetLogsRpcConfig :=
  {| response_size_estimate := None; response_consensus := None; max_block_range := None |}.

Definition DEFAULT_ETH_GET_LOGS_MAX_BLOCK_RANGE : u32 := 500.
Definition max_block_range_or_default (self : GetLogsRpcConfig) : u32 :=
  default DEFAULT_ETH_GET_LOGS_MAX_BLOCK_RANGE (max_block_range self).
End GetLogsRpcConfig.
Abbreviation GetLogsRpcConfig := GetLogsRpcConfig.GetLogsRpcConfig.

(** The two [From] conversions between the configurations. *)
Definition RpcConfig_from_GetLogsRpcConfig (config : GetLogsRpcConfig) : RpcConfig :=
  {| response_size_estimate := GetLogsRpcConfig.response_size_estimate config;
     response_consensus := GetLogsRpcConfig.response_consensus config |}.
Definition GetLogsRpcConfig_from_RpcConfig (config : RpcConfig) : GetLogsRpcConfig :=
  {| GetLogsRpcConfig.response_size_estimate := response_size_estimate config;
     GetLogsRpcConfig.response_consensus := response_consensus config;
     GetLogsRpcConfig.max_block_range := None |}.

(** ** Errors ([evm_rpc_types/src/result/mod.rs]) *)

(** [ic_error_types::RejectCode], whose variants the conversion below lists. *)
Module RejectCode.
Inductive RejectCode :=
| SysFatal | SysTransient | DestinationInvalid | CanisterReject | CanisterError | SysUnknown.
#[global] Instance eq_dec : EqDecision RejectCode.
Proof. solve_decision. Defined.
End RejectCode.
Abbreviation RejectCode := RejectCode.RejectCode.

Module LegacyRejectionCode.
Inductive LegacyRejectionCode :=
| NoError | SysFatal | SysTransient | DestinationInvalid | CanisterReject | CanisterError
| Unknown.
#[global] Instance eq_dec : EqDecision LegacyRejectionCode.
Proof. solve_decision. Defined.
(** [#[repr(i32)]]: explicit discriminants, and the next integer for the last one. *)
Definition discriminant (c : LegacyRejectionCode) : Z :=
  match c with
  | NoError => 0 | SysFatal => 1 | SysTransient => 2 | DestinationInvalid => 3
  | CanisterReject => 4 | CanisterError => 5 | Unknown => 6
  end.
#[global] Instance discriminant_inj : Inj (=) (=) discriminant.
Proof. by intros [] []. Qed.
#[global] Instance countable : Countable LegacyRejectionCode.
Proof. apply (inj_countable' discriminant
  (fun z => nth (Z.to_nat z)
    [NoError; SysFatal; SysTransient; DestinationInvalid; CanisterReject; CanisterError; Unknown]
    NoError)). by intros []. Defined.
Definition from_RejectCode (value : RejectCode) : LegacyRejectionCode :=
  match value with
  | RejectCode.SysFatal => SysFatal
  | RejectCode.SysTransient => SysTransient
  | RejectCode.DestinationInvalid => DestinationInvalid
  | RejectCode.CanisterReject => CanisterReject
  | RejectCode.CanisterError => CanisterError
  | RejectCode.SysUnknown => Unknown
  end.
End LegacyRejectionCode.
Abbreviation LegacyRejectionCode := LegacyRejectionCode.LegacyRejectionCode.

Module ProviderError.
Inductive ProviderError :=
| NoPermission
| TooFewCycles (expected received : u128)
| ProviderNotFound
| MissingRequiredProvider
| InvalidRpcConfig (message : string).
#[global] Instance eq_dec : EqDecision ProviderError.
Proof. solve_decision. Defined.
End ProviderError.
Abbreviation ProviderError := ProviderError.ProviderError.

Module HttpOutcallError.
Inductive HttpOutcallError :=
| IcError (code : LegacyRejectionCode) (message : string)
| InvalidHttpJsonRpcResponse (status : u16) (body : string) (parsing_error : option string).
#[global] Instance eq_dec : EqDecision HttpOutcallError.
Proof. solve_decision. Defined.
End HttpOutcallError.
Abbreviation HttpOutcallError := HttpOutcallError.HttpOutcallError.

Record JsonRpcError := { code : i64; message : string }.
#[global] Instance JsonRpcError_eq_dec : EqDecision JsonRpcError.
Proof. solve_decision. Defined.

Module ValidationError.
Inductive ValidationError :=
| Custom (message : string)
| InvalidHex (message : string).
#[global] Instance eq_dec : EqDecision ValidationError.
Proof. solve_decision. Defined.
End ValidationError.
Abbreviation ValidationError := ValidationError.ValidationError.

(** The [From] conversions into [RpcError] are its constructors. *)
Module RpcError.
Inductive RpcError :=
| ProviderError (e : ProviderError)
| HttpOutcallError (e : HttpOutcallError)
| JsonRpcError (e : JsonRpcError)
| ValidationError (e : ValidationError).
#[global] Instance eq_dec : EqDecision RpcError.
Proof. solve_decision. Defined.
#[global] Instance partial_eq : PartialEq RpcError := PartialEq_dec.
#[global] Instance partial_eq_laws : PartialEqLaws RpcError := PartialEq_dec_laws.
End RpcError.
Abbreviation RpcError := RpcError.RpcError.
Abbreviation RpcResult T := (Result T RpcError).
(** [impl From<ProviderError> for RpcError] and the others: the conversions behind [?]. *)
Definition RpcError_from_ProviderError (err : ProviderError) : RpcError :=
  RpcError.ProviderError err.
Definition RpcError_from_HttpOutcallError (err : HttpOutcallError) : RpcError :=
  RpcError.HttpOutcallError err.
Definition RpcError_from_JsonRpcError (err : JsonRpcError) : RpcError := RpcError.JsonRpcError err.
Definition RpcError_from_ValidationError (err : ValidationError) : RpcError :=
  RpcError.ValidationError err.
