(* ===== verification/MultiRpcResult.v ===== *)
(** [MultiRpcResult] ([evm_rpc_types/src/result/mod.rs]): the outcome of asking several
    providers, and the maps that carry it from the JSON types to the Candid types and from
    those to a client's own types. *)

From S2P Require Import Prelude Collections EvmRpcTypes.

Inductive MultiRpcResult (T : Type) :=
| Consistent (result : RpcResult T)
| Inconsistent (results : list (RpcService * RpcResult T)).
Arguments Consistent {T} result.
Arguments Inconsistent {T} results.

(** [impl<T> From<RpcResult<T>> for MultiRpcResult<T>]. *)
Definition MultiRpcResult_from_result {T} (result : RpcResult T) : MultiRpcResult T :=
  Consistent result.

(** [collapse]: an [Inconsistent] whose results all match is [Consistent]. *)
Definition collapse {T} `{PartialEq T} (self : MultiRpcResult T) : MultiRpcResult T :=
  match self with
  | Consistent r => Consistent r
  | Inconsistent v =>
      match v with
      | (_, first) :: _ =>
          if forallb (fun '(_, result) => peq result first) v
          then Consistent first
          else Inconsistent v
      | [] => Inconsistent v
      end
  end.

Definition multi_map {T R} `{PartialEq R} (f : T -> R) (self : MultiRpcResult T) :
  MultiRpcResult R :=
  match self with
  | Consistent result => Consistent (result_map f result)
  | Inconsistent results =>
      collapse (Inconsistent
        (map (fun '(service, result) =>
          (service, match result with Ok ok => Ok (f ok) | Err err => Err err end)) results))
  end.

Definition multi_and_then {T R} `{PartialEq R} (f : T -> RpcResult R)
    (self : MultiRpcResult T) : MultiRpcResult R :=
  match self with
  | Consistent result => Consistent (result_and_then result f)
  | Inconsistent results =>
      collapse (Inconsistent
        (map (fun '(service, result) =>
          (service, match result with Ok ok => f ok | Err err => Err err end)) results))
  end.

(** [{:?}] of the two payloads is a parameter: only the panic message shows it. *)
Definition expect_consistent {T} (debug : list (RpcService * RpcResult T) -> string)
    (self : MultiRpcResult T) : Outcome (RpcResult T) :=
  match self with
  | Consistent result => Return result
  | Inconsistent inconsistent_result =>
      Panic ("Expected consistent, but got: " +:+ debug inconsistent_result)
  end.

Definition expect_inconsistent {T} (debug : RpcResult T -> string)
    (self : MultiRpcResult T) : Outcome (list (RpcService * RpcResult T)) :=
  match self with
  | Consistent consistent_result =>
      Panic ("Expected inconsistent:, but got: " +:+ debug consistent_result)
  | Inconsistent results => Return results
  end.

(** ** The algebra of the maps *)

Section Collapse.
Context {R : Type} `{PartialEqLaws R}.

Lemma collapse_same (v : list (RpcService * RpcResult R)) (r : RpcResult R) :
  v <> [] -> Forall (fun '(_, r') => r' = r) v -> collapse (Inconsistent v) = Consistent r.
Proof.
  destruct v as [|[s r0] v]; [done|]. intros _ Hv.
  assert (r0 = r) as -> by by inversion Hv.
  unfold collapse. rewrite (proj2 (forallb_forall _ _)); [done|].
  intros [s' r'] Hin. apply peq_spec. rewrite Forall_forall in Hv.
  by apply (Hv (s', r')), list_elem_of_In.
Qed.

Lemma collapse_Inconsistent_inv (v : list (RpcService * RpcResult R)) :
  (exists r, v <> [] /\ Forall (fun '(_, r') => r' = r) v /\
     collapse (Inconsistent v) = Consistent r) \/
  (collapse (Inconsistent v) = Inconsistent v /\
     ~ exists r, v <> [] /\ Forall (fun '(_, r') => r' = r) v).
Proof.
  destruct v as [|[s r] v]; [right; split; [done|]; by intros (? & ? & ?)|].
  destruct (decide (Forall (fun '(_, r') => peq r' r = true) ((s, r) :: v))) as [Hd|Hd].
  - left. exists r. assert (Ha : Forall (fun '(_, r') => r' = r) ((s, r) :: v)).
    { eapply Forall_impl; [exact Hd|]. intros [s' r']. apply peq_spec. }
    split_and!; [done..|]. by apply collapse_same.
  - right. split.
    + unfold collapse.
      destruct (forallb _ _) eqn:E; [|done]. contradict Hd.
      apply Forall_forall. intros [s' r'] Hin. rewrite forallb_forall in E.
      by apply (E (s', r')), list_elem_of_In.
    + intros (r1 & _ & Ha). contradict Hd.
      assert (r = r1) as <- by by inversion Ha.
      eapply Forall_impl; [exact Ha|]. intros [s' r']. apply peq_spec.
Qed.

End Collapse.

Section Algebra.
Context {T R U : Type} `{PartialEqLaws R} `{PartialEqLaws U}.

Lemma map_is_and_then (f : T -> R) (r : MultiRpcResult T) :
  multi_map f r = multi_and_then (fun x => Ok (f x)) r.
Proof. by destruct r as [[]|]. Qed.

(** One step of [multi_and_then] after another on the per-provider entries. *)
Lemma and_then_entries (f : T -> RpcResult R) (g : R -> RpcResult U)
    (v : list (RpcService * RpcResult T)) :
  multi_and_then g (collapse (Inconsistent
    (map (fun '(s, r) => (s, result_and_then r f)) v))) =
  collapse (Inconsistent
    (map (fun '(s, r) => (s, result_and_then r (fun x => result_and_then (f x) g))) v)).
Proof.
  set (w := map _ v).
  assert (Hw : map (fun '(s, r) => (s, result_and_then r g)) w =
    map (fun '(s, r) => (s, result_and_then r (fun x => result_and_then (f x) g))) v).
  { unfold w. rewrite map_map. apply map_ext. by intros [s [x|e]]. }
  destruct (collapse_Inconsistent_inv w) as [(r & Hne & Hall & ->)|[-> _]].
  - symmetry. rewrite <- Hw. apply collapse_same.
    + by destruct w.
    + apply Forall_map. eapply Forall_impl; [exact Hall|]. by intros [s' r'] ->.
  - by rewrite <- Hw.
Qed.
End Algebra.

(** C27: an inconsistent outcome becomes consistent exactly when the mapped results of all its
    providers are equal, and there is at least one of them; then it is that result. Otherwise it
    stays inconsistent, with the mapped result of each provider, in the same order, and no
    other way: no result is dropped, and none of several different ones is preferred. A
    consistent outcome stays consistent, its error or the mapped value. This is for results that
    [==] says to be equal exactly when they are ([PartialEqLaws]): any but those with
    floating-point numbers, such as fee histories. *)
Theorem and_then_collapses {T R} `{PartialEqLaws R} (f : T -> RpcResult R)
    (r : MultiRpcResult T) :
  match r with
  | Consistent result =>
      multi_and_then f r =
      Consistent match result with Ok x => f x | Err e => Err e end
  | Inconsistent v =>
      let mapped := map (fun '(s, x) =>
        (s, match x with Ok ok => f ok | Err err => Err err end)) v in
      let all_are result := v <> [] /\ Forall (fun entry => entry.2 = result) mapped in
      (forall result, multi_and_then f r = Consistent result <-> all_are result) /\
      (forall w, multi_and_then f r = Inconsistent w <->
         w = mapped /\ ~ exists result, all_are result)
  end.
Proof.
  destruct r as [[x|e]|v]; [done..|]. intros mapped all_are.
  assert (Hall : forall result, all_are result <->
    mapped <> [] /\ Forall (fun '(_, r') => r' = result) mapped).
  { intros result. unfold all_are, mapped. rewrite !Forall_map. split; intros [Hne Ha]; split;
      try (by destruct v); (eapply Forall_impl; [exact Ha|]); by intros [s x]. }
  unfold multi_and_then. fold mapped.
  destruct (collapse_Inconsistent_inv mapped) as [(r & Hne & Ha & ->)|[-> Hno]].
  - assert (Hr : all_are r) by by apply Hall. split.
    + intros result. split; [by intros [= <-]|]. intros [_ Hr']. f_equal. destruct Hr as [Hv Hr].
      unfold mapped in *. destruct v as [|[s x] v]; [done|]. cbn [map] in *.
      apply Forall_cons in Hr as [Hr _], Hr' as [Hr' _]. simpl in *. congruence.
    + intros w. split; [done|]. intros [_ Hno]. destruct Hno. by exists r.
  - assert (Hno' : ~ exists result, all_are result).
    { intros [result Hr%Hall]. apply Hno. by exists result. }
    split.
    + intros result. split; [done|]. intros Hr. destruct Hno'. by exists result.
    + intros w. split; [by intros [= <-]|by intros [-> _]].
Qed.

(** Mapping the per-provider results twice is mapping them once by the composed map, although
    either step may collapse an inconsistent outcome into a consistent one. *)
Theorem and_then_assoc {T R U} `{PartialEqLaws R} `{PartialEqLaws U}
    (f : T -> RpcResult R) (g : R -> RpcResult U) (r : MultiRpcResult T) :
  multi_and_then g (multi_and_then f r) =
  multi_and_then (fun x => result_and_then (f x) g) r.
Proof.
  destruct r as [[x|e]|v]; [done..|].
  apply (and_then_entries f g).
Qed.

#[local] Instance Z_peq : PartialEq Z := PartialEq_dec.
#[local] Instance Z_peq_laws : PartialEqLaws Z := PartialEq_dec_laws.

Lemma and_then_collapses_witness :
  let half x : RpcResult Z := Ok (x / 2)%Z in
  let entry id x := (RpcService.Provider id, Ok x) in
  multi_and_then half (Inconsistent [entry 0 2; entry 1 3]%Z) = Consistent (Ok 1%Z) /\
  multi_and_then half (Inconsistent [entry 0 2; entry 1 4]%Z) =
    Inconsistent [entry 0 1; entry 1 2]%Z.
Proof.
  intros half entry. split.
  - apply (and_then_collapses half (Inconsistent [entry 0 2; entry 1 3]%Z)).
    split; [done|by repeat constructor].
  - apply (and_then_collapses half (Inconsistent [entry 0 2; entry 1 4]%Z)).
    split; [done|]. intros (result & _ & Ha). apply Forall_cons in Ha as [E1 Ha].
    apply Forall_cons in Ha as [E2 _]. vm_compute in E1, E2. congruence.
Defined.
