(* ===== verification/Externals.v ===== *)
(** Interfaces of the third-party crates the canister calls. Each class lists the
    operations the source uses; a class named [...Laws] states the documented behaviour
    that a theorem relies on. Every definition of the development that calls such a crate
    takes the interface as a parameter, so nothing here is assumed of the real crate that
    the laws do not say. *)

From S2P Require Import Prelude Collections EvmRpcTypes.
Open Scope Z_scope.

(** ** [str::to_lowercase]

    The Unicode lowercase mapping. On ASCII it is the ASCII mapping, and no character has
    an ASCII capital letter in its lowercase. *)
Class Lowercase := to_lowercase : string -> string.
Class LowercaseLaws `{Lowercase} := {
  to_lowercase_ascii (s : string) : is_ascii s = true -> to_lowercase s = to_ascii_lowercase s;
  to_lowercase_no_capital (s : string) :
    string_forall (fun c => negb (is_ascii_uppercase c)) (to_lowercase s) = true;
}.

(** ** Crate [regex], behind [canlog::RegexString] *)
Class RegexCrate := {
  Regex : Type;
  regex_Error : Type;
  regex_Error_to_string : regex_Error -> string;
  (** [{:?}] *)
  regex_Error_debug : regex_Error -> string;
  regex_compile : string -> Result Regex regex_Error;
  (** [regex.replace_all(haystack, replacement)] *)
  regex_replace_all : Regex -> string -> string -> string;
}.

(** [canlog::RegexSubstitution]; the pattern is a [RegexString], a string. *)
Record RegexSubstitution := { pattern : string; replacement : string }.
#[export] Instance RegexSubstitution_eq_dec : EqDecision RegexSubstitution.
Proof. solve_decision. Defined.

(** ** Crate [url] *)
Module Host.
Inductive Host := Domain (domain : string) | Ipv4 (address : string) | Ipv6 (address : string).
End Host.
Abbreviation Host := Host.Host.

Class UrlCrate := {
  Url : Type;
  url_parse : string -> option Url;
  url_host : Url -> option Host;
  url_host_str : Url -> option string;
}.

(** ** Crate [canhttp], module [multi] *)

(** A [Timestamp]: nanoseconds since the Unix epoch. *)
Abbreviation Timestamp := u64 (only parsing).

(** [TimedSizedMap<K, V>] records timed values per key; the values of a key are a
    [TimedSizedVec<V>]. [sort_keys_by keys extractor] orders the given keys by what the
    extractor says of their values (here an integer, in ascending order). *)
Class TimedSizedMapApi (K V : Type) := {
  TimedSizedMap : Type;
  TimedSizedVec : Type;
  tsm_new (expiration_nanos : Z) (capacity : nat) : TimedSizedMap;
  tsm_insert_evict (now : Timestamp) (key : K) (value : V) (m : TimedSizedMap) : TimedSizedMap;
  tsm_evict_expired (keys : list K) (now : Timestamp) (m : TimedSizedMap) : TimedSizedMap;
  tsm_get (m : TimedSizedMap) (key : K) : option TimedSizedVec;
  tsv_len (v : TimedSizedVec) : Z;
  tsm_sort_keys_by (m : TimedSizedMap) (keys : list K)
    (extractor : option TimedSizedVec -> Z) : list K;
}.

(** [sort_keys_by] is a stable sort of the keys. *)
Class TimedSizedMapLaws (K V : Type) `{TimedSizedMapApi K V} := {
  tsm_sort_keys_by_stable m keys extractor :
    tsm_sort_keys_by m keys extractor =
    sort_by (fun a b => extractor (tsm_get m a) ?= extractor (tsm_get m b)) keys;
  tsm_get_new expiration capacity key : tsm_get (tsm_new expiration capacity) key = None;
  (** eviction only removes values *)
  tsm_get_evict keys now m key :
    tsm_get m key = None -> tsm_get (tsm_evict_expired keys now m) key = None;
}.

(** ** Crate [canlog] and the Internet Computer's principals *)

(** The log filter is stored and read back, never inspected by the canister's own code. *)
Class CanlogCrate := {
  LogFilter : Type;
  LogFilter_default : LogFilter;
}.

(** A [Principal] is a slice of bytes. *)
Abbreviation Principal := (list byte) (only parsing).

(** ** Crate [hex] *)

Definition is_bytes (b : list byte) : Prop := Forall (in_range 8) b.
Definition is_u8 (b : byte) : bool := (0 <=? b) && (b <? 256).

(** [[u8; n]]. *)
Definition bytes_ok (n : nat) (bs : list byte) : bool :=
  (length bs =? n)%nat && forallb is_u8 bs.
Definition Bytes (n : nat) : Type := { bs : list byte | bytes_ok n bs = true }.

Lemma bytes_ok_spec n bs : bytes_ok n bs = true <-> length bs = n /\ is_bytes bs.
Proof.
  unfold bytes_ok. rewrite andb_true_iff, Nat.eqb_eq, forallb_forall. unfold is_bytes.
  rewrite Forall_forall. unfold is_u8, in_range. change (2 ^ 8) with 256.
  split; intros [Hl Hb]; (split; [done|]); intros x Hx; specialize (Hb x).
  - apply list_elem_of_In in Hx. specialize (Hb Hx). lia.
  - apply list_elem_of_In in Hx. specialize (Hb Hx). lia.
Qed.

Definition Bytes_make {n} (bs : list byte) (H : bytes_ok n bs = true) : Bytes n := exist _ bs H.
#[export] Instance Bytes_eq_dec n : EqDecision (Bytes n).
Proof. intros x y. apply (decide_rel (=)). Defined.
Lemma Bytes_eq {n} (x y : Bytes n) : `x = `y -> x = y.
Proof. apply eq_sig_hprop. intros bs H1 H2. apply proof_irrel. Qed.

Class HexCrate := {
  FromHexError : Type;
  FromHexError_to_string : FromHexError -> string;
  hex_encode : list byte -> string;
  (** [Vec<u8>::from_hex], that is [hex::decode] *)
  hex_decode : string -> Result (list byte) FromHexError;
  (** [<[u8; n]>::from_hex], that is [hex::decode_to_slice] *)
  hex_decode_array (n : nat) : string -> Result (Bytes n) FromHexError;
}.
Class HexLaws `{HexCrate} := {
  hex_decode_encode b : is_bytes b -> hex_decode (hex_encode b) = Ok b;
  hex_decode_bytes s b :
    hex_decode s = Ok b -> is_bytes b /\ String.length s = (2 * length b)%nat;
  hex_decode_array_spec n s (b : Bytes n) :
    hex_decode_array n s = Ok b <-> hex_decode s = Ok (`b);
  hex_encode_length b : String.length (hex_encode b) = (2 * length b)%nat;
}.

(** A digit in base 16, small or capital. *)
Definition is_hex_digit (c : Ascii.ascii) : bool :=
  let n := Ascii.N_of_ascii c in
  (N.leb 48 n && N.leb n 57) || (N.leb 65 n && N.leb n 70) || (N.leb 97 n && N.leb n 102).
Definition hex_digits (s : string) : bool := string_forall is_hex_digit s.

(** What is decoded: pairs of digits, small or capital; what is encoded has small digits. *)
Class HexDigitsLaws `{HexCrate} := {
  hex_decode_accepts s :
    (exists b, hex_decode s = Ok b) <-> hex_digits s = true /\ Nat.even (String.length s) = true;
  hex_encode_decode s b : hex_decode s = Ok b -> hex_encode b = to_ascii_lowercase s;
}.

(** ** Crates [num_bigint] (behind [candid::Nat]) and [ethnum] *)

(** The value of a big-endian sequence of bytes. *)
Definition be_value (bs : list byte) : Z := foldl (fun acc b => 256 * acc + b) 0 bs.

(** A [BigUint] is a non-negative integer. *)
Class BigUintCrate := {
  to_bytes_be : Z -> list byte;
  to_bytes_le : Z -> list byte;
  from_bytes_be : list byte -> Z;
  u64_try_from : Z -> Result u64 string;
  nat_debug : Z -> string;
  nat_display : Z -> string;
}.
Class BigUintLaws `{BigUintCrate} := {
  to_bytes_be_value n : 0 <= n -> is_bytes (to_bytes_be n) /\ be_value (to_bytes_be n) = n;
  (** the minimal number of bytes, and one byte for zero *)
  to_bytes_be_length n k :
    0 <= n -> (1 <= k)%nat -> (length (to_bytes_be n) <= k)%nat <-> n < 256 ^ Z.of_nat k;
  to_bytes_le_rev n : 0 <= n -> to_bytes_le n = rev (to_bytes_be n);
  from_bytes_be_value bs : is_bytes bs -> from_bytes_be bs = be_value bs;
  u64_try_from_Ok n z : 0 <= n -> u64_try_from n = Ok z <-> z = n /\ n < 2 ^ 64;
}.

(** [ethnum::u256]. *)
Definition is_u256 (z : Z) : bool := (0 <=? z) && (z <? 2 ^ 256).
Definition U256 : Type := { z : Z | is_u256 z = true }.
#[export] Instance U256_eq_dec : EqDecision U256.
Proof. intros x y. apply (decide_rel (=)). Defined.
Lemma U256_eq (x y : U256) : `x = `y -> x = y.
Proof. apply eq_sig_hprop. intros z H1 H2. apply proof_irrel. Qed.
Lemma is_u256_spec z : is_u256 z = true <-> 0 <= z < 2 ^ 256.
Proof. unfold is_u256. rewrite andb_true_iff, Z.leb_le, Z.ltb_lt. done. Qed.
(** [ethnum::u256::from], from an unsigned integer of at most 128 bits. *)
Definition U256_from (z : Z) (H : is_u256 z = true) : U256 := exist _ z H.

Class EthnumCrate := {
  u256_from_be_bytes : Bytes 32 -> U256;
  u256_to_be_bytes : U256 -> Bytes 32;
}.
Class EthnumLaws `{EthnumCrate} := {
  u256_from_be_bytes_value bs : proj1_sig (u256_from_be_bytes bs) = be_value (proj1_sig bs);
  u256_to_be_bytes_value z : be_value (proj1_sig (u256_to_be_bytes z)) = proj1_sig z;
}.

(** ** Crate [ic_ethereum_types]: [Address::new] and [into_bytes] *)
Record Address := Address_new { Address_into_bytes : Bytes 20 }.
#[export] Instance Address_eq_dec : EqDecision Address.
Proof. solve_decision. Defined.

(** ** Crate [serde_json] *)

(** Reading and writing a type as JSON; the error of reading is shown as a string. *)
Class SerdeJson (T : Type) := {
  from_slice : list byte -> Result T string;
  to_vec : T -> list byte;
}.
Class SerdeJsonLaws (T : Type) `{SerdeJson T} := from_to_vec (t : T) : from_slice (to_vec t) = Ok t.

(** [serde_json::Value], which the canister reads and writes but never inspects. *)
Class SerdeValue := {
  serde_Value : Type;
  #[global] serde_Value_json :: SerdeJson serde_Value;
}.

(** ** Crate [sha2] *)
Class Sha256 := sha256 : list byte -> list byte.

(** ** Crate [canhttp], module [http::json] *)

Class JsonRpcId := {
  Id : Type;
  (** [Id::ZERO], the id of a request until another is set *)
  Id_ZERO : Id;
  Id_from : u64 -> Id;
}.

(** A JSON-RPC request: [JsonRpcRequest::new(method, params)] has the id [Id::ZERO]. *)
Record JsonRpcRequest {I : JsonRpcId} (P : Type) := {
  request_method : string; request_params : option P; request_id : Id }.
Arguments request_method {I P} _.
Arguments request_params {I P} _.
Arguments request_id {I P} _.

Definition JsonRpcRequest_new `{JsonRpcId} {P} (method : string) (params : P) :
  JsonRpcRequest P :=
  {| request_method := method; request_params := Some params; request_id := Id_ZERO |}.

(** The error object of a JSON-RPC response; [data] is a JSON value. *)
Record RpcErrorObject `{SerdeValue} := {
  error_code : i64; error_message : string; error_data : option serde_Value }.

(** A JSON-RPC response is its two parts, [from_parts] and [into_parts]. *)
Record JsonRpcResponse `{JsonRpcId} `{SerdeValue} (T : Type) := {
  response_id : Id; response_result : Result T RpcErrorObject }.
Arguments response_id {_ _ T} _.
Arguments response_result {_ _ T} _.
Arguments Build_JsonRpcResponse {_ _ T} _ _.

(** ** Crate [ethers_core]: the hash of an RLP-encoded transaction, if it decodes *)
Class EthersCrate := rlp_transaction_hash : list byte -> option (Bytes 32).

(** ** Crate [http]: building a request *)

Class HttpCrate := {
  http_Error : Type;
  http_Error_to_string : http_Error -> string;
  (** The first error of the URL and the headers given to the builder, if there is one:
      the builder keeps it until [body] is called. *)
  http_check : string -> list HttpHeader -> option http_Error;
  (** [uri.host()] *)
  uri_host : string -> option string;
}.

(** [http::request::Builder] and [http::Request], with the extensions of [canhttp]. *)
Record Builder := {
  builder_uri : string;
  builder_headers : list HttpHeader;
  builder_max_response_bytes : option u64;
  builder_transform_context : option (string * list byte);
}.
Record HttpRequest (B : Type) := {
  req_uri : string;
  req_headers : list HttpHeader;
  req_max_response_bytes : option u64;
  req_transform_context : option (string * list byte);
  req_body : B;
}.
Arguments req_uri {B} _.
Arguments req_headers {B} _.
Arguments req_max_response_bytes {B} _.
Arguments req_transform_context {B} _.
Arguments req_body {B} _.

Definition Request_post (uri : string) : Builder :=
  {| builder_uri := uri; builder_headers := []; builder_max_response_bytes := None;
     builder_transform_context := None |}.
Definition Builder_header (name value : string) (b : Builder) : Builder :=
  {| builder_uri := builder_uri b;
     builder_headers := builder_headers b ++ [{| header_name := name; header_value := value |}];
     builder_max_response_bytes := builder_max_response_bytes b;
     builder_transform_context := builder_transform_context b |}.
Definition Builder_max_response_bytes (n : u64) (b : Builder) : Builder :=
  {| builder_uri := builder_uri b; builder_headers := builder_headers b;
     builder_max_response_bytes := Some n;
     builder_transform_context := builder_transform_context b |}.
Definition Builder_transform_context (name : string) (context : list byte) (b : Builder) :
  Builder :=
  {| builder_uri := builder_uri b; builder_headers := builder_headers b;
     builder_max_response_bytes := builder_max_response_bytes b;
     builder_transform_context := Some (name, context) |}.
Definition Builder_body `{HttpCrate} {B} (body : B) (b : Builder) :
  Result (HttpRequest B) http_Error :=
  match http_check (builder_uri b) (builder_headers b) with
  | Some e => Err e
  | None =>
      Ok {| req_uri := builder_uri b; req_headers := builder_headers b;
            req_max_response_bytes := builder_max_response_bytes b;
            req_transform_context := builder_transform_context b; req_body := body |}
  end.

(** ** Crate [canhttp], module [multi]: the results of several keys *)

Class MultiResultsApi (K : Type) := {
  MultiResults : Type -> Type -> Type;
  mr_default {V E} : MultiResults V E;
  (** panics when the key is already there *)
  mr_insert_once {V E} : K -> Result V E -> MultiResults V E -> Outcome (MultiResults V E);
  mr_into_inner {V E} : MultiResults V E -> list (K * V) * list (K * E);
  mr_add_errors {V E} : list (K * E) -> MultiResults V E -> MultiResults V E;
  mr_ok_results {V E} : MultiResults V E -> list (K * V);
  mr_len {V E} : MultiResults V E -> nat;
  mr_into_iter {V E} : MultiResults V E -> list (K * Result V E);
  (** [parallel_call(client, requests)], with the client's answer to each request *)
  mr_parallel_call {I V E} : (K -> I -> Result V E) -> list (K * I) -> MultiResults V E;
}.

Definition ok_entry {K V E} (e : K * Result V E) : option (K * V) :=
  match e with (k, Ok v) => Some (k, v) | (_, Err _) => None end.
Definition err_entry {K V E} (e : K * Result V E) : option (K * E) :=
  match e with (_, Ok _) => None | (k, Err x) => Some (k, x) end.

(** The collection holds one result per key; the order of its entries is not specified. *)
Class MultiResultsLaws (K : Type) `{MultiResultsApi K} := {
  mr_default_entries {V E} : mr_into_iter (mr_default (V:=V) (E:=E)) = [];
  mr_insert_once_entries {V E} k (r : Result V E) m :
    k ∉ (mr_into_iter m).*1 ->
    exists m', mr_insert_once k r m = Return m' /\ mr_into_iter m' ≡ₚ (k, r) :: mr_into_iter m;
  mr_into_inner_entries {V E} (m : MultiResults V E) :
    (mr_into_inner m).1 ≡ₚ omap ok_entry (mr_into_iter m) /\
    (mr_into_inner m).2 ≡ₚ omap err_entry (mr_into_iter m);
  mr_add_errors_entries {V E} (es : list (K * E)) (m : MultiResults V E) :
    NoDup (es.*1 ++ (mr_into_iter m).*1) ->
    mr_into_iter (mr_add_errors es m) ≡ₚ
    map (fun '(k, e) => (k, Err e)) es ++ mr_into_iter m;
  mr_ok_results_entries {V E} (m : MultiResults V E) :
    mr_ok_results m ≡ₚ omap ok_entry (mr_into_iter m);
  mr_len_entries {V E} (m : MultiResults V E) : mr_len m = length (mr_into_iter m);
  mr_parallel_call_entries {I V E} (f : K -> I -> Result V E) (requests : list (K * I)) :
    NoDup requests.*1 ->
    mr_into_iter (mr_parallel_call f requests) ≡ₚ
    map (fun '(k, i) => (k, f k i)) requests;
}.

Module ReductionError.
Inductive ReductionError (K : Type) {M : MultiResultsApi K} (V E : Type) :=
| ConsistentError (e : E)
| InconsistentResults (results : MultiResults V E).
End ReductionError.
Arguments ReductionError.ConsistentError {K M V E} e.
Arguments ReductionError.InconsistentResults {K M V E} results.
Abbreviation ReductionError := ReductionError.ReductionError.

(** The two reducers. They compare values by the type's equality and by the hash of its
    JSON text, respectively; the hash is taken to tell different texts apart. *)
Class ReduceApi (K V E : Type) `{MultiResultsApi K} := {
  reduce_with_equality : MultiResults V E -> Result V (ReductionError K V E);
  reduce_with_threshold (min : u8) : MultiResults V E -> Result V (ReductionError K V E);
}.

Class ReduceLaws (K V E : Type) `{ReduceApi K V E} `{PartialEq V} `{SerdeJson V} := {
  equality_Ok m v :
    reduce_with_equality m = Ok v ->
    mr_into_iter m <> [] /\
    Forall (fun '(_, r) => exists x, r = Ok x /\ peq x v = true) (mr_into_iter m);
  threshold_Ok min m v :
    reduce_with_threshold min m = Ok v ->
    exists entries,
      entries ⊆+ mr_into_iter m /\ min <= Z.of_nat (length entries) /\
      Forall (fun '(_, r) => exists x, r = Ok x /\ to_vec x = to_vec v) entries;
  (** a consistent error is the error of a result *)
  reduce_ConsistentError m e :
    reduce_with_equality m = Err (ReductionError.ConsistentError e) \/
    (exists min, reduce_with_threshold min m = Err (ReductionError.ConsistentError e)) ->
    exists k, (k, Err e) ∈ mr_into_iter m;
  reduce_Inconsistent m m' :
    reduce_with_equality m = Err (ReductionError.InconsistentResults m') \/
    (exists min, reduce_with_threshold min m = Err (ReductionError.InconsistentResults m')) ->
    mr_into_iter m' ≡ₚ mr_into_iter m;
}.
