(* ===== verification/Types.v ===== *)
(** The canister's own types ([src/types/mod.rs]), with the constants and the validation
    of API keys ([src/constants.rs], [src/validate.rs]) and the URL helpers of
    [src/util.rs]. [Provider::api] and [ResolvedRpcService] read the canister's memory and
    are in ProviderApi.v. *)

From Stdlib Require Import Ascii.
From S2P Require Import Prelude Collections EvmRpcTypes Externals.
Open Scope Z_scope.

(** ** Constants ([src/constants.rs]) *)

Definition DEFAULT_MAX_RESPONSE_BYTES : u64 := 2000000.
Definition COLLATERAL_CYCLES_PER_NODE : u128 := 10000000.
Definition API_KEY_MAX_SIZE : u32 := 512.
Definition MESSAGE_FILTER_MAX_SIZE : u32 := 1000.
Definition NODES_IN_SUBNET : u32 := 34.
Definition API_KEY_REPLACE_STRING : string := "{API_KEY}".
Definition VALID_API_KEY_CHARS : string :=
  "0123456789ABCDEFGHIJKLMNOPQRTSUVWXYZabcdefghijklmnopqrstuvwxyz$-_.+!*".
Definition CONTENT_TYPE_VALUE : string := "application/json".
Definition ETH_MAINNET_CHAIN_ID : u64 := 1.
Definition ETH_SEPOLIA_CHAIN_ID : u64 := 11155111.
Definition ARBITRUM_ONE_CHAIN_ID : u64 := 42161.
Definition BASE_MAINNET_CHAIN_ID : u64 := 8453.
Definition OPTIMISM_MAINNET_CHAIN_ID : u64 := 10.

(** ** API keys ([src/validate.rs], [ApiKey] of [src/types/mod.rs]) *)

(** The valid characters are ASCII, so a character outside them has a byte outside them
    and the check may be made byte by byte. *)
Definition validate_api_key (api_key : string) : Result unit string :=
  if String.eqb api_key "" then Err "API key must not be an empty string"
  else if (200 <? str_len api_key)%Z then Err "API key must be <= 200 characters"
  else if existsb (fun char => negb (contains_char char VALID_API_KEY_CHARS))
            (String.list_ascii_of_string api_key)
  then Err "Invalid character in API key"
  else Ok ().

Record ApiKey := { api_key_0 : string }.
#[export] Instance ApiKey_eq_dec : EqDecision ApiKey.
Proof. solve_decision. Defined.
Definition ApiKey_read (self : ApiKey) : string := api_key_0 self.
(** [impl fmt::Debug for ApiKey]. *)
Definition ApiKey_debug (self : ApiKey) : string := API_KEY_REPLACE_STRING.
Definition ApiKey_try_from (key : string) : Result ApiKey string :=
  result_and_then (validate_api_key key) (fun _ => Ok {| api_key_0 := key |}).
(** [Storable for ApiKey]: the bytes of the string. *)
Definition ApiKey_to_bytes (self : ApiKey) : list byte := bytes_of_string (api_key_0 self).

(** ** [util::hostname_from_url] *)
Section Hostname.
Context `{UrlCrate}.

Definition hostname_from_url (url : string) : option string :=
  match url_parse url with
  | None => None
  | Some url =>
      match url_host url with
      | Some (Host.Domain domain) =>
          if negb (contains_char "{"%char domain || contains_char "}"%char domain)
          then Some domain
          else None
      | _ => None
      end
  end.
End Hostname.

(** ** Providers *)

Module SupportedRpcService.
Inductive SupportedRpcService :=
| EthMainnet (service : EthMainnetService)
| EthSepolia (service : EthSepoliaService)
| ArbitrumOne (service : L2MainnetService)
| BaseMainnet (service : L2MainnetService)
| OptimismMainnet (service : L2MainnetService).
#[global] Instance eq_dec : EqDecision SupportedRpcService.
Proof. solve_decision. Defined.
Definition ord_key (s : SupportedRpcService) : Z * Z :=
  match s with
  | EthMainnet s => (0, EthMainnetService.discriminant s)
  | EthSepolia s => (1, EthSepoliaService.discriminant s)
  | ArbitrumOne s => (2, L2MainnetService.discriminant s)
  | BaseMainnet s => (3, L2MainnetService.discriminant s)
  | OptimismMainnet s => (4, L2MainnetService.discriminant s)
  end.
#[global] Instance ord_key_inj : Inj (=) (=) ord_key.
Proof. intros [s|s|s|s|s] [s'|s'|s'|s'|s']; simpl; intros E; simplify_eq; done. Qed.
#[global] Instance ord : RustOrd SupportedRpcService := cmp_by ord_key.
#[global] Instance ord_laws : RustOrdLaws SupportedRpcService.
Proof. apply (RustOrdLaws_by ord_key). Qed.
End SupportedRpcService.
Abbreviation SupportedRpcService := SupportedRpcService.SupportedRpcService.

Abbreviation ProviderId := u64 (only parsing).

(** A header of the table of providers. *)
Record ConstHeader := { const_name : string; const_value : string }.
Definition HttpHeader_from_ConstHeader (header : ConstHeader) : HttpHeader :=
  {| header_name := const_name header; header_value := const_value header |}.

Module RpcAuth.
Inductive RpcAuth :=
| BearerToken (url : string)
| UrlParameter (url_pattern : string).
#[global] Instance eq_dec : EqDecision RpcAuth.
Proof. solve_decision. Defined.
End RpcAuth.
Abbreviation RpcAuth := RpcAuth.RpcAuth.

Module RpcAccess.
Inductive RpcAccess :=
| Authenticated (auth : RpcAuth) (public_url : option string)
| Unauthenticated (public_url : string).
#[global] Instance eq_dec : EqDecision RpcAccess.
Proof. solve_decision. Defined.
Definition RpcAccess_public_url (self : RpcAccess) : option string :=
  match self with
  | Authenticated _ public_url => public_url
  | Unauthenticated public_url => Some public_url
  end.
End RpcAccess.
Abbreviation RpcAccess := RpcAccess.RpcAccess.

Record Provider := {
  provider_id : ProviderId;
  chain_id : u64;
  access : RpcAccess;
  alias : option SupportedRpcService;
}.
#[export] Instance Provider_eq_dec : EqDecision Provider.
Proof. solve_decision. Defined.

Definition Provider_hostname `{UrlCrate} (self : Provider) : option string :=
  hostname_from_url
    match access self with
    | RpcAccess.Authenticated auth _ =>
        match auth with
        | RpcAuth.BearerToken url => url
        | RpcAuth.UrlParameter url_pattern => url_pattern
        end
    | RpcAccess.Unauthenticated public_url => public_url
    end.

(** ** [OverrideProvider] *)

Record OverrideProvider := { override_url : option RegexSubstitution }.
Definition OverrideProvider_default : OverrideProvider := {| override_url := None |}.

Section OverrideProvider.
Context `{RegexCrate}.

Definition OverrideProvider_apply (self : OverrideProvider) (api : RpcApi) :
  Result RpcApi regex_Error :=
  match override_url self with
  | None => Ok api
  | Some substitution =>
      result_and_then (regex_compile (pattern substitution)) (fun regex =>
      let new_url := regex_replace_all regex (url api) (replacement substitution) in
      Ok {| url := new_url; headers := None |})
  end.

(** [TryFrom<evm_rpc_types::OverrideProvider>]: the pattern must compile. The source
    type has the same single field. *)
Definition OverrideProvider_try_from (value : option RegexSubstitution) :
  Result OverrideProvider regex_Error :=
  result_map (fun substitution => {| override_url := substitution |})
    (option_transpose
      (option_map (fun url => result_map (fun _ => url) (regex_compile (pattern url))) value)).
End OverrideProvider.

(** ** Metrics *)

Module RpcMethod.
Inductive RpcMethod :=
| EthCall | EthFeeHistory | EthGetLogs | EthGetBlockByNumber | EthGetTransactionCount
| EthGetTransactionReceipt | EthSendRawTransaction.
Definition RpcMethod_name (self : RpcMethod) : string :=
  match self with
  | EthCall => "eth_call"
  | EthFeeHistory => "eth_feeHistory"
  | EthGetLogs => "eth_getLogs"
  | EthGetBlockByNumber => "eth_getBlockByNumber"
  | EthGetTransactionCount => "eth_getTransactionCount"
  | EthGetTransactionReceipt => "eth_getTransactionReceipt"
  | EthSendRawTransaction => "eth_sendRawTransaction"
  end.
End RpcMethod.
Abbreviation RpcMethod := RpcMethod.RpcMethod.

(** [MetricRpcMethod], [MetricRpcHost] and [MetricHttpStatusCode] wrap a string. *)
Abbreviation MetricRpcMethod := string (only parsing).
Abbreviation MetricRpcHost := string (only parsing).
Abbreviation MetricHttpStatusCode := string (only parsing).
Definition MetricRpcHost_from (hostname : string) : string := hostname.
Definition MetricRpcMethod_from (method : RpcMethod) : MetricRpcMethod :=
  RpcMethod.RpcMethod_name method.
Definition MetricHttpStatusCode_from (value : u32) : MetricHttpStatusCode := pretty value.

Record Metrics := {
  requests : gmap (MetricRpcMethod * MetricRpcHost) u64;
  responses : gmap (MetricRpcMethod * MetricRpcHost * MetricHttpStatusCode) u64;
  inconsistent_responses : gmap (MetricRpcMethod * MetricRpcHost) u64;
  cycles_charged : gmap (MetricRpcMethod * MetricRpcHost) u128;
  err_http_outcall : gmap (MetricRpcMethod * MetricRpcHost * LegacyRejectionCode) u64;
  err_max_response_size_exceeded : gmap (MetricRpcMethod * MetricRpcHost) u64;
}.
Definition Metrics_default : Metrics :=
  {| requests := ∅; responses := ∅; inconsistent_responses := ∅; cycles_charged := ∅;
     err_http_outcall := ∅; err_max_response_size_exceeded := ∅ |}.

(** [add_metric_entry!]: a counter is created on its first increment; the additions of the
    release build wrap around. *)
Definition add_metric_entry {K} `{Countable K} (key : K) (amount : u64) (m : gmap K u64) :
  gmap K u64 :=
  if amount =? 0 then m
  else
    match m !! key with
    | Some counter => <[key := wrap 64 (counter + amount)]> m
    | None => <[key := amount]> m
    end.

(** ** Lemmas on keys and counters *)

Lemma validate_api_key_Ok (k : string) :
  validate_api_key k = Ok () <->
  k <> "" /\ str_len k <= 200 /\
  Forall (fun c => contains_char c VALID_API_KEY_CHARS = true) (String.list_ascii_of_string k).
Proof.
  unfold validate_api_key. split.
  - intros E. destruct (String.eqb_spec k ""); [done|].
    destruct (Z.ltb_spec 200 (str_len k)); [done|].
    destruct (existsb _ _) eqn:Ee; [done|]. split_and!; [done|lia|].
    apply Forall_forall. intros c Hc. apply not_false_iff_true. intros Hf.
    apply not_true_iff_false in Ee. apply Ee, existsb_exists. exists c.
    rewrite Hf. split; [by apply list_elem_of_In|done].
  - intros (Hne & Hlen & Hall).
    destruct (String.eqb_spec k ""); [done|].
    destruct (Z.ltb_spec 200 (str_len k)); [lia|].
    destruct (existsb _ _) eqn:Ee; [|done]. apply existsb_exists in Ee as (c & Hc & Hn).
    rewrite Forall_forall in Hall. rewrite (Hall c) in Hn; [done|]. by apply list_elem_of_In.
Qed.

(** A valid key fits in its place in stable memory. *)
Lemma valid_key_bytes (key : ApiKey) :
  validate_api_key (ApiKey_read key) = Ok () ->
  Z.of_nat (length (ApiKey_to_bytes key)) <= API_KEY_MAX_SIZE.
Proof.
  intros (_ & Hlen & _)%validate_api_key_Ok. unfold str_len, ApiKey_read in Hlen.
  unfold ApiKey_to_bytes, bytes_of_string, API_KEY_MAX_SIZE. rewrite length_fmap.
  assert (El : forall k, length (String.list_ascii_of_string k) = String.length k).
  { induction k as [|c k IH]; simpl; [done|by rewrite IH]. }
  rewrite El. lia.
Qed.
Lemma ApiKey_try_from_Ok (s : string) (k : ApiKey) :
  ApiKey_try_from s = Ok k <-> k = {| api_key_0 := s |} /\ validate_api_key s = Ok ().
Proof.
  unfold ApiKey_try_from. destruct (validate_api_key s) as [[]|e]; simpl; naive_solver.
Qed.

Lemma lookup_add_metric_entry {K} `{Countable K} (key key' : K) amount m :
  amount <> 0 ->
  add_metric_entry key amount m !! key' =
  if decide (key = key')
  then Some match m !! key with Some c => wrap 64 (c + amount) | None => amount end
  else m !! key'.
Proof.
  intros Ha. unfold add_metric_entry. destruct (Z.eqb_spec amount 0); [done|].
  case_decide; subst; destruct (m !! _); by simplify_map_eq.
Qed.

Lemma add_metric_entry_comm {K} `{Countable K} (k1 k2 : K) (m : gmap K u64) :
  add_metric_entry k1 1 (add_metric_entry k2 1 m) = add_metric_entry k2 1 (add_metric_entry k1 1 m).
Proof.
  destruct (decide (k1 = k2)) as [->|Hne]; [done|]. apply map_eq. intros k.
  repeat (rewrite lookup_add_metric_entry by done; try case_decide); by simplify_eq.
Qed.
