(* ===== verification/Instances.v ===== *)
(** Concrete functions for the interfaces of Externals.v, with proofs of their laws. The
    theorems of the development do not use them: they show that the laws can hold, and the
    examples are evaluated with them. They are active where [Concrete] is imported. *)

From Stdlib Require Import Ascii.
From S2P Require Import Prelude Collections EvmRpcTypes Externals Types.
Open Scope Z_scope.

(** ** Sequences of digits in a base *)

Section Digits.
Fixpoint le_digits (fuel : nat) (n : Z) : list byte :=
  match fuel with
  | O => []
  | S fuel => if n =? 0 then [] else (n mod 256) :: le_digits fuel (n / 256)
  end.

Definition bytes_le (n : Z) : list byte :=
  if n =? 0 then [0] else le_digits (S (Z.to_nat (Z.log2 n))) n.

Lemma be_value_snoc bs b : be_value (bs ++ [b]) = 256 * be_value bs + b.
Proof. unfold be_value. by rewrite foldl_app. Qed.

Lemma le_digits_value fuel n :
  0 <= n < 2 ^ Z.of_nat fuel ->
  is_bytes (le_digits fuel n) /\ be_value (rev (le_digits fuel n)) = n.
Proof.
  revert n. induction fuel as [|fuel IH]; intros n Hn; cbn [le_digits].
  - split; [constructor|]. simpl in *. change (be_value []) with 0. lia.
  - destruct (Z.eqb_spec n 0) as [->|Hz]; [by split; [constructor|]|].
    assert (Hq : 0 <= n / 256 < 2 ^ Z.of_nat fuel).
    { rewrite Nat2Z.inj_succ, Z.pow_succ_r in Hn by lia.
      split; [apply Z.div_pos; lia|]. apply Z.div_lt_upper_bound; lia. }
    destruct (IH _ Hq) as [Hb Hv]. split.
    + constructor; [|done]. unfold in_range. apply Z.mod_pos_bound. lia.
    + simpl. rewrite be_value_snoc, Hv. pose proof (Z.div_mod n 256). lia.
Qed.

Lemma le_digits_length fuel n k :
  0 <= n < 2 ^ Z.of_nat fuel ->
  (length (le_digits fuel n) <= k)%nat <-> n < 256 ^ Z.of_nat k.
Proof.
  revert n k. induction fuel as [|fuel IH]; intros n k Hn; cbn [le_digits].
  - simpl in *. assert (0 < 256 ^ Z.of_nat k) by (apply Z.pow_pos_nonneg; lia).
    split; [lia|]. intros _. lia.
  - destruct (Z.eqb_spec n 0) as [->|Hz].
    + assert (0 < 256 ^ Z.of_nat k) by (apply Z.pow_pos_nonneg; lia). simpl. split; lia.
    + assert (Hq : 0 <= n / 256 < 2 ^ Z.of_nat fuel).
      { rewrite Nat2Z.inj_succ, Z.pow_succ_r in Hn by lia.
        split; [apply Z.div_pos; lia|]. apply Z.div_lt_upper_bound; lia. }
      simpl length. destruct k as [|k].
      * split; [lia|]. simpl. lia.
      * rewrite <- Nat.succ_le_mono, (IH _ k Hq), Nat2Z.inj_succ, Z.pow_succ_r by lia.
        split; intros Hlt.
        -- pose proof (Z.div_mod n 256). pose proof (Z.mod_pos_bound n 256). lia.
        -- apply Z.div_lt_upper_bound; lia.
Qed.

Lemma log2_fuel n : 0 < n -> n < 2 ^ Z.of_nat (S (Z.to_nat (Z.log2 n))).
Proof.
  intros Hn. rewrite Nat2Z.inj_succ, Z2Nat.id by apply Z.log2_nonneg.
  by apply Z.log2_spec.
Qed.
End Digits.

(** ** Hexadecimal text *)

Definition hex_digit (d : Z) : Ascii.ascii :=
  Ascii.ascii_of_N (Z.to_N (if d <? 10 then 48 + d else 87 + d)).
Definition hex_value (c : Ascii.ascii) : option Z :=
  let n := Z.of_N (Ascii.N_of_ascii c) in
  if (48 <=? n) && (n <=? 57) then Some (n - 48)
  else if (65 <=? n) && (n <=? 70) then Some (n - 55)
  else if (97 <=? n) && (n <=? 102) then Some (n - 87)
  else None.

Fixpoint hex_text (b : list byte) : string :=
  match b with
  | [] => EmptyString
  | x :: b => String (hex_digit (x / 16)) (String (hex_digit (x mod 16)) (hex_text b))
  end.
Fixpoint hex_parse (s : string) : option (list byte) :=
  match s with
  | EmptyString => Some []
  | String c (String d s) =>
      match hex_value c, hex_value d, hex_parse s with
      | Some x, Some y, Some b => Some (16 * x + y :: b)
      | _, _, _ => None
      end
  | _ => None
  end.

Lemma hex_value_digit d : 0 <= d < 16 -> hex_value (hex_digit d) = Some d.
Proof.
  intros Hd.
  assert (Hall : forallb (fun d => bool_decide (hex_value (hex_digit d) = Some d))
    (map Z.of_nat (seq 0 16)) = true) by by vm_compute.
  rewrite forallb_forall in Hall. specialize (Hall d).
  rewrite bool_decide_eq_true in Hall. apply Hall.
  apply in_map_iff. exists (Z.to_nat d). rewrite in_seq. lia.
Qed.

Lemma hex_value_range c d : hex_value c = Some d -> 0 <= d < 16.
Proof. unfold hex_value. intros E. repeat case_match; simplify_eq; lia. Qed.

Lemma hex_parse_text b : is_bytes b -> hex_parse (hex_text b) = Some b.
Proof.
  induction 1 as [|x b Hx Hb IH]; [done|]. cbn [hex_text hex_parse].
  unfold in_range in Hx. change (2 ^ 8) with 256 in Hx.
  rewrite !hex_value_digit, IH.
  - do 2 f_equal. pose proof (Z.div_mod x 16). lia.
  - apply Z.mod_pos_bound. lia.
  - split; [apply Z.div_pos; lia|]. apply Z.div_lt_upper_bound; lia.
Qed.

Lemma hex_parse_bytes s b :
  hex_parse s = Some b -> is_bytes b /\ String.length s = (2 * length b)%nat.
Proof.
  revert b. remember (String.length s) as n eqn:Hn. revert s Hn.
  induction n as [n IH] using lt_wf_ind. intros [|c [|d s]] Hn b E; simpl in *.
  - simplify_eq. split; [constructor|done].
  - done.
  - destruct (hex_value c) as [x|] eqn:Ec; [|done].
    destruct (hex_value d) as [y|] eqn:Ed; [|done].
    destruct (hex_parse s) as [b'|] eqn:Es; [|done]. simplify_eq.
    destruct (IH (String.length s) ltac:(lia) s eq_refl b' Es) as [Hb Hl].
    apply hex_value_range in Ec, Ed. split; [|simpl; lia].
    constructor; [|done]. unfold in_range. change (2 ^ 8) with 256. lia.
Qed.

Lemma hex_value_digit_Some c : is_Some (hex_value c) <-> is_hex_digit c = true.
Proof.
  assert (Hall : forall c, bool_decide (is_Some (hex_value c)) = is_hex_digit c).
  { intros [[] [] [] [] [] [] [] []]; by vm_compute. }
  rewrite <- Hall. by rewrite bool_decide_eq_true.
Qed.
Lemma hex_digit_value c d : hex_value c = Some d -> hex_digit d = ascii_lowercase_char c.
Proof.
  assert (Hall : forall c, match hex_value c with
    | Some d => bool_decide (hex_digit d = ascii_lowercase_char c) | None => true end = true).
  { intros [[] [] [] [] [] [] [] []]; by vm_compute. }
  intros E. specialize (Hall c). rewrite E in Hall. by apply bool_decide_eq_true in Hall.
Qed.

(** Texts are read in pairs of characters. *)
Lemma pairs_ind (P : string -> Prop) :
  P "" -> (forall c, P (String c "")) -> (forall c d s, P s -> P (String c (String d s))) ->
  forall s, P s.
Proof.
  intros H0 H1 H2. fix IH 1. intros [|c [|d s]]; [done|done|]. apply H2, IH.
Qed.

Lemma hex_parse_accepts s :
  is_Some (hex_parse s) <-> hex_digits s = true /\ Nat.even (String.length s) = true.
Proof.
  unfold hex_digits, string_forall. induction s as [|c|c d s IH] using pairs_ind.
  - split; [done|]. intros _. by exists [].
  - simpl. split; [by intros []|by intros [_ ?]].
  - cbn [hex_parse String.list_ascii_of_string forallb String.length Nat.even].
    pose proof (hex_value_digit_Some c) as Hc. pose proof (hex_value_digit_Some d) as Hd.
    rewrite !andb_true_iff, <- Hc, <- Hd. split.
    + intros [b Hb]. destruct (hex_value c) as [x|]; [|done].
      destruct (hex_value d) as [y|]; [|done]. destruct (hex_parse s) as [b'|]; [|done].
      destruct (proj1 IH ltac:(by eexists)). split_and!; try done; by eexists.
    + intros [(Hx & Hy & Hs) He]. destruct Hx as [x ->], Hy as [y ->].
      destruct (proj2 IH ltac:(done)) as [b ->]. by eexists.
Qed.

Lemma hex_text_parse s b : hex_parse s = Some b -> hex_text b = to_ascii_lowercase s.
Proof.
  revert b. induction s as [|c|c d s IH] using pairs_ind; intros b E; cbn [hex_parse] in E.
  - by injection E as <-.
  - done.
  - destruct (hex_value c) as [x|] eqn:Ex; [|done]. destruct (hex_value d) as [y|] eqn:Ey; [|done].
    destruct (hex_parse s) as [b'|]; [|done]. injection E as <-.
    pose proof (hex_value_range _ _ Ex). pose proof (hex_value_range _ _ Ey).
    cbn [hex_text to_ascii_lowercase]. rewrite <- (IH b' eq_refl).
    rewrite <- (hex_digit_value c x Ex), <- (hex_digit_value d y Ey).
    assert ((16 * x + y) / 16 = x) as -> by (symmetry; apply (Z.div_unique _ _ _ y); lia).
    by assert ((16 * x + y) mod 16 = y) as -> by (symmetry; apply (Z.mod_unique _ _ x); lia).
Qed.

Definition make_bytes (n : nat) (bs : list byte) : Result (Bytes n) string :=
  if_test (bytes_ok n bs) (fun H => Ok (Bytes_make bs H)) (fun _ => Err "invalid length").

Lemma make_bytes_Ok n bs (b : Bytes n) : make_bytes n bs = Ok b <-> bs = `b.
Proof.
  unfold make_bytes. destruct (Sumbool.sumbool_of_bool (bytes_ok n bs)) as [H|H].
  - rewrite (if_test_true _ _ _ H).
    split; [by intros [= <-]|]. intros E. f_equal. by apply Bytes_eq.
  - rewrite (if_test_false _ _ _ H).
    split; [done|]. intros ->. destruct b as [b Hb]. simpl in H. congruence.
Qed.

(** The bytes of a 256-bit integer: [n] digits of base 256, the last one first. *)
Fixpoint le_bytes (n : nat) (z : Z) : list byte :=
  match n with
  | O => []
  | S n => z mod 256 :: le_bytes n (z / 256)
  end.

Lemma le_bytes_ok n z : bytes_ok n (rev (le_bytes n z)) = true.
Proof.
  apply bytes_ok_spec. rewrite length_rev. split.
  - revert z. induction n as [|n IH]; intros z; simpl; [done|]. by rewrite IH.
  - apply Forall_rev. revert z. induction n as [|n IH]; intros z; simpl; constructor; [|done].
    apply Z.mod_pos_bound. by vm_compute.
Qed.

Lemma le_bytes_value n z :
  0 <= z < 256 ^ Z.of_nat n -> be_value (rev (le_bytes n z)) = z.
Proof.
  revert z. induction n as [|n IH]; intros z Hz.
  - simpl in *. change (be_value []) with 0. lia.
  - rewrite Nat2Z.inj_succ, Z.pow_succ_r in Hz by lia.
    cbn [le_bytes rev]. rewrite be_value_snoc, IH.
    + pose proof (Z.div_mod z 256). lia.
    + split; [apply Z.div_pos; lia|]. apply Z.div_lt_upper_bound; lia.
Qed.

Lemma be_value_bound bs :
  is_bytes bs -> 0 <= be_value bs < 256 ^ Z.of_nat (length bs).
Proof.
  induction bs as [|b bs IH] using rev_ind; intros Hb.
  - change (be_value []) with 0. simpl. lia.
  - apply Forall_app in Hb as [Hb Hx]. specialize (IH Hb). rewrite Forall_singleton in Hx.
    unfold in_range in Hx. change (2 ^ 8) with 256 in Hx.
    rewrite be_value_snoc, length_app. cbn [length].
    rewrite Nat.add_1_r, Nat2Z.inj_succ, Z.pow_succ_r by lia. lia.
Qed.

Lemma be_value_u256 (bs : Bytes 32) : is_u256 (be_value (`bs)) = true.
Proof.
  destruct bs as [bs H]. simpl. apply bytes_ok_spec in H as [Hl Hb].
  apply is_u256_spec. pose proof (be_value_bound bs Hb) as Hv. rewrite Hl in Hv.
  exact Hv.
Qed.

Module Concrete.

#[export] Instance lowercase : Lowercase := to_ascii_lowercase.
#[export] Instance lowercase_laws : LowercaseLaws.
Proof.
  split; [done|]. intros s. unfold to_lowercase, lowercase.
  induction s as [|c s IH]; [done|]. unfold string_forall in *. simpl. rewrite IH.
  rewrite andb_true_r. unfold ascii_lowercase_char. destruct (is_ascii_uppercase c) eqn:E.
  - unfold is_ascii_uppercase in *. apply andb_true_iff in E as [E1 E2].
    apply N.leb_le in E1, E2. rewrite Ascii.N_ascii_embedding by lia.
    apply negb_true_iff, andb_false_iff. right. apply N.leb_gt. lia.
  - by rewrite E.
Qed.

#[export] Instance regex_crate : RegexCrate := {
  Regex := string;
  regex_Error := string;
  regex_Error_to_string := id;
  regex_Error_debug := quoted;
  regex_compile p := if String.eqb p "" then Err "empty pattern" else Ok p;
  regex_replace_all r s to := replace s r to;
}.

(** The host of an [https] URL: what follows the scheme, up to the first slash. *)
Fixpoint until_slash (s : string) : string :=
  match s with
  | EmptyString => EmptyString
  | String c s => if Ascii.eqb c "/"%char then EmptyString else String c (until_slash s)
  end.
Definition https_host (s : string) : option string :=
  if starts_with "https://" s
  then Some (until_slash (String.substring 8 (String.length s - 8) s))
  else None.

#[export] Instance url_crate : UrlCrate := {
  Url := string;
  url_parse := https_host;
  url_host h := Some (Host.Domain h);
  url_host_str h := Some h;
}.

#[export] Instance timed_sized_map {K : Type} `{EqDecision K} : TimedSizedMapApi K unit := {
  TimedSizedMap := list (K * Timestamp);
  TimedSizedVec := list Timestamp;
  tsm_new _ _ := [];
  tsm_insert_evict now k _ m := m ++ [(k, now)];
  tsm_evict_expired _ _ m := m;
  tsm_get m k :=
    match map snd (List.filter (fun e => bool_decide (e.1 = k)) m) with [] => None | ts => Some ts end;
  tsv_len ts := Z.of_nat (length ts);
  tsm_sort_keys_by m keys f :=
    let get k :=
      match map snd (List.filter (fun e => bool_decide (e.1 = k)) m) with
      | [] => None | ts => Some ts end in
    sort_by (fun a b => f (get a) ?= f (get b)) keys;
}.
#[export] Instance timed_sized_map_laws {K : Type} `{EqDecision K} : TimedSizedMapLaws K unit.
Proof. split; by intros. Qed.

#[export] Instance canlog_crate : CanlogCrate := { LogFilter := unit; LogFilter_default := () }.

#[export] Instance HttpHeader_ord : RustOrd HttpHeader :=
  cmp_by (fun h => (header_name h, header_value h)).
#[export] Instance HttpHeader_ord_laws : RustOrdLaws HttpHeader.
Proof.
  assert (Inj (=) (=) (fun h => (header_name h, header_value h))).
  { intros [n v] [n' v'] E. simpl in E. by simplify_eq. }
  apply (RustOrdLaws_by (fun h => (header_name h, header_value h))).
Qed.

#[export] Instance hex_crate : HexCrate := {
  FromHexError := string;
  FromHexError_to_string := id;
  hex_encode := hex_text;
  hex_decode s := ok_or (hex_parse s) "invalid hex";
  hex_decode_array n s :=
    result_and_then (ok_or (hex_parse s) "invalid hex") (make_bytes n);
}.
#[export] Instance hex_laws : HexLaws.
Proof.
  split; simpl.
  - intros b Hb. by rewrite hex_parse_text.
  - intros s b. destruct (hex_parse s) eqn:E; [|done]. simpl. intros. simplify_eq.
    by apply hex_parse_bytes.
  - intros n s b. destruct (hex_parse s) as [b'|]; simpl; [|naive_solver].
    rewrite make_bytes_Ok. naive_solver.
  - induction b as [|x b IH]; simpl; [done|]. rewrite IH. lia.
Qed.

#[export] Instance hex_digits_laws : HexDigitsLaws.
Proof.
  split; cbn [hex_decode hex_encode hex_crate].
  - intros s. rewrite <- hex_parse_accepts. unfold ok_or.
    destruct (hex_parse s); split; try (by intros []); by eexists.
  - intros s b. unfold ok_or. destruct (hex_parse s) eqn:E; [|done]. intros [= <-].
    by apply hex_text_parse.
Qed.

#[export] Instance biguint_crate : BigUintCrate := {
  to_bytes_le := bytes_le;
  to_bytes_be n := rev (bytes_le n);
  from_bytes_be := be_value;
  u64_try_from n := if n <? 2 ^ 64 then Ok n else Err "TryFromBigIntError(())";
  nat_debug n := pretty n;
  nat_display n := pretty n;
}.
#[export] Instance biguint_laws : BigUintLaws.
Proof.
  split; cbn [to_bytes_be to_bytes_le biguint_crate].
  - intros n Hn. unfold bytes_le. destruct (Z.eqb_spec n 0) as [->|Hz].
    + split; [|done]. by apply Forall_singleton.
    + destruct (le_digits_value (S (Z.to_nat (Z.log2 n))) n) as [Hb Hv].
      { split; [lia|]. apply log2_fuel. lia. }
      split; [|done]. unfold is_bytes. by apply Forall_rev.
  - intros n k Hn Hk. rewrite length_rev. unfold bytes_le.
    destruct (Z.eqb_spec n 0) as [->|Hz].
    + assert (0 < 256 ^ Z.of_nat k) by (apply Z.pow_pos_nonneg; lia). simpl. split; lia.
    + apply le_digits_length. split; [lia|]. apply log2_fuel. lia.
  - intros n _. by rewrite rev_involutive.
  - done.
  - intros n z Hn. cbn [u64_try_from biguint_crate]. destruct (Z.ltb_spec n (2 ^ 64)).
    + naive_solver.
    + split; [done|]. lia.
Qed.

#[export] Instance ethnum_crate : EthnumCrate := {
  u256_from_be_bytes bs := U256_from (be_value (`bs)) (be_value_u256 bs);
  u256_to_be_bytes z := Bytes_make (rev (le_bytes 32 (`z))) (le_bytes_ok 32 (`z));
}.
#[export] Instance ethnum_laws : EthnumLaws.
Proof.
  split; [done|]. intros [z Hz]. simpl. apply (le_bytes_value 32). by apply is_u256_spec in Hz.
Qed.

#[export] Instance serde_value : SerdeValue := {
  serde_Value := list byte;
  serde_Value_json := {| from_slice := Ok; to_vec := id |};
}.
#[export] Instance sha256_crate : Sha256 := id.
#[export] Instance json_rpc_id : JsonRpcId := { Id := Z; Id_ZERO := 0; Id_from := id }.

#[export] Instance ethers_crate : EthersCrate := fun bytes =>
  match bytes with
  | [] => None
  | _ => Some (Bytes_make (rev (le_bytes 32 (be_value bytes))) (le_bytes_ok 32 _))
  end.

#[export] Instance http_crate : HttpCrate := {
  http_Error := string;
  http_Error_to_string := id;
  http_check uri headers :=
    if negb (starts_with "http" uri) then Some "invalid uri"
    else if existsb (fun h => contains_char " "%char (header_name h)) headers
    then Some "invalid header"
    else None;
  uri_host := https_host;
}.

(** *** [MultiResults]: the list of its entries *)

#[export] Instance multi_results {K : Type} `{EqDecision K} : MultiResultsApi K := {
  MultiResults V E := list (K * Result V E);
  mr_default V E := [];
  mr_insert_once V E k r m :=
    if decide (k ∈ m.*1) then Panic "duplicate key" else Return (m ++ [(k, r)]);
  mr_into_inner V E m := (omap ok_entry m, omap err_entry m);
  mr_add_errors V E es m := m ++ map (fun '(k, e) => (k, Err e)) es;
  mr_ok_results V E m := omap ok_entry m;
  mr_len V E m := length m;
  mr_into_iter V E m := m;
  mr_parallel_call I V E f requests := map (fun '(k, i) => (k, f k i)) requests;
}.
#[export] Instance multi_results_laws {K : Type} `{EqDecision K} : MultiResultsLaws K.
Proof.
  split; simpl; try done.
  - intros V E k r m Hk. rewrite decide_False by done. eexists; split; [done|].
    by rewrite Permutation_app_comm.
  - intros V E es m _. apply Permutation_app_comm.
Qed.

(** A serialization of a countable type: the number of a value. *)
Definition number_serde {T} `{Countable T} : SerdeJson T := {|
  from_slice bs := match bs with
    | [z] => match decode (Z.to_pos z) with Some t => Ok t | None => Err "not a value" end
    | _ => Err "not a number"
    end;
  to_vec t := [Z.pos (encode t)] |}.
Lemma number_serde_laws {T} `{Countable T} : @SerdeJsonLaws T number_serde.
Proof. intros t. simpl. by rewrite decode_encode. Qed.

Section Reducers.
Context {K V E : Type} `{EqDecision K} `{EqDecision E} `{PartialEq V} `{SerdeJson V}.

Definition inconsistent (m : list (K * Result V E)) : ReductionError K V E :=
  @ReductionError.InconsistentResults K multi_results V E m.

Definition equality (m : list (K * Result V E)) : Result V (ReductionError K V E) :=
  match m with
  | (_, Ok v) :: _ =>
      if forallb (fun '(_, r) => match r with Ok x => peq x v | Err _ => false end) m
      then Ok v else Err (inconsistent m)
  | (_, Err e) :: _ =>
      if forallb (fun '(_, r) => match r with Ok _ => false | Err x => bool_decide (x = e) end) m
      then Err (ReductionError.ConsistentError e)
      else Err (inconsistent m)
  | [] => Err (inconsistent m)
  end.

Definition supports (v : V) (e : K * Result V E) : bool :=
  match e.2 with Ok x => bool_decide (to_vec x = to_vec v) | Err _ => false end.

Definition threshold (min : u8) (m : list (K * Result V E)) : Result V (ReductionError K V E) :=
  match List.find (fun e => match e.2 with
                       | Ok v => min <=? Z.of_nat (length (List.filter (supports v) m))
                       | Err _ => false end) m with
  | Some (_, Ok v) => Ok v
  | _ => Err (inconsistent m)
  end.

#[export] Instance reduce_api : ReduceApi K V E := {
  reduce_with_equality := equality;
  reduce_with_threshold := threshold;
}.

Lemma filter_submseteq_bool {A} (f : A -> bool) (l : list A) : List.filter f l ⊆+ l.
Proof.
  induction l as [|x l IH]; simpl; [done|]. destruct (f x).
  - by apply submseteq_skip.
  - by apply submseteq_cons.
Qed.

#[export] Instance reduce_laws : ReduceLaws K V E.
Proof.
  split; cbn [reduce_with_equality reduce_with_threshold reduce_api mr_into_iter multi_results].
  - intros m v. unfold equality. destruct m as [|[k [x|e]] m]; [done| |by case_match].
    destruct (forallb _ _) eqn:Ef; [|done]. intros [= ->]. split; [done|].
    apply Forall_forall. intros [k' r] Hin. rewrite forallb_forall in Ef.
    specialize (Ef (k', r)). rewrite <- list_elem_of_In in Ef. specialize (Ef Hin).
    destruct r as [y|]; [|done]. eauto.
  - intros min m v. unfold threshold.
    destruct (List.find _ m) as [[k [x|e]]|] eqn:Ef; [|done..]. intros [= ->].
    apply find_some in Ef as [_ Hmin]. cbn in Hmin.
    exists (List.filter (supports v) m). split_and!; [apply filter_submseteq_bool|lia|].
    apply Forall_forall. intros [k' r] Hin. rewrite list_elem_of_In, filter_In in Hin.
    destruct Hin as [_ Hs]. unfold supports in Hs. simpl in Hs. destruct r as [y|]; [|done].
    apply bool_decide_eq_true in Hs. eauto.
  - intros m e [E1|[min E1]].
    + unfold equality in E1. destruct m as [|[k [x|e0]] m]; [done|by case_match|].
      destruct (forallb _ _); [|done]. injection E1 as ->. exists k. left.
    + unfold threshold in E1. repeat case_match; naive_solver.
  - intros m m' [E1|[min E1]].
    + unfold equality in E1. repeat case_match; naive_solver.
    + unfold threshold in E1. repeat case_match; naive_solver.
Qed.
End Reducers.
End Concrete.
