(* ===== verification/Providers.v ===== *)
(** The providers the canister knows ([src/providers.rs]): the static table, the maps built
    from it, the resolution of a service to a provider, the ordered lists of supported
    services and the record of the services' recent successes. *)

From S2P Require Import Prelude Collections EvmRpcTypes Externals Types.
Open Scope Z_scope.

(** ** The table *)

Definition provider_0 : Provider :=
  {| provider_id := 0; chain_id := ETH_MAINNET_CHAIN_ID;
     access := RpcAccess.Authenticated
       (RpcAuth.BearerToken "https://cloudflare-eth.com/v1/mainnet")
       (Some "https://cloudflare-eth.com/v1/mainnet");
     alias := Some (SupportedRpcService.EthMainnet EthMainnetService.Cloudflare) |}.
Definition provider_1 : Provider :=
  {| provider_id := 1; chain_id := ETH_MAINNET_CHAIN_ID;
     access := RpcAccess.Authenticated
       (RpcAuth.UrlParameter "https://rpc.ankr.com/eth/{API_KEY}")
       (Some "https://rpc.ankr.com/eth");
     alias := Some (SupportedRpcService.EthMainnet EthMainnetService.Ankr) |}.
Definition provider_2 : Provider :=
  {| provider_id := 2; chain_id := ETH_MAINNET_CHAIN_ID;
     access := RpcAccess.Unauthenticated "https://ethereum-rpc.publicnode.com";
     alias := Some (SupportedRpcService.EthMainnet EthMainnetService.PublicNode) |}.
Definition provider_3 : Provider :=
  {| provider_id := 3; chain_id := ETH_MAINNET_CHAIN_ID;
     access := RpcAccess.Authenticated
       (RpcAuth.UrlParameter "https://ethereum.blockpi.network/v1/rpc/{API_KEY}")
       (Some "https://ethereum.public.blockpi.network/v1/rpc/public");
     alias := Some (SupportedRpcService.EthMainnet EthMainnetService.BlockPi) |}.
Definition provider_4 : Provider :=
  {| provider_id := 4; chain_id := ETH_SEPOLIA_CHAIN_ID;
     access := RpcAccess.Unauthenticated "https://rpc.sepolia.org";
     alias := Some (SupportedRpcService.EthSepolia EthSepoliaService.Sepolia) |}.
Definition provider_5 : Provider :=
  {| provider_id := 5; chain_id := ETH_SEPOLIA_CHAIN_ID;
     access := RpcAccess.Authenticated
       (RpcAuth.UrlParameter "https://rpc.ankr.com/eth_sepolia/{API_KEY}")
       (Some "https://rpc.ankr.com/eth_sepolia");
     alias := Some (SupportedRpcService.EthSepolia EthSepoliaService.Ankr) |}.
Definition provider_6 : Provider :=
  {| provider_id := 6; chain_id := ETH_SEPOLIA_CHAIN_ID;
     access := RpcAccess.Authenticated
       (RpcAuth.UrlParameter "https://ethereum-sepolia.blockpi.network/v1/rpc/{API_KEY}")
       None;
     alias := Some (SupportedRpcService.EthSepolia EthSepoliaService.BlockPi) |}.
Definition provider_7 : Provider :=
  {| provider_id := 7; chain_id := ETH_SEPOLIA_CHAIN_ID;
     access := RpcAccess.Unauthenticated "https://ethereum-sepolia-rpc.publicnode.com";
     alias := Some (SupportedRpcService.EthSepolia EthSepoliaService.PublicNode) |}.
Definition provider_8 : Provider :=
  {| provider_id := 8; chain_id := ETH_MAINNET_CHAIN_ID;
     access := RpcAccess.Authenticated
       (RpcAuth.BearerToken "https://eth-mainnet.g.alchemy.com/v2")
       (Some "https://eth-mainnet.g.alchemy.com/v2/demo");
     alias := Some (SupportedRpcService.EthMainnet EthMainnetService.Alchemy) |}.
Definition provider_9 : Provider :=
  {| provider_id := 9; chain_id := ETH_SEPOLIA_CHAIN_ID;
     access := RpcAccess.Authenticated
       (RpcAuth.BearerToken "https://eth-sepolia.g.alchemy.com/v2")
       (Some "https://eth-sepolia.g.alchemy.com/v2/demo");
     alias := Some (SupportedRpcService.EthSepolia EthSepoliaService.Alchemy) |}.
Definition provider_10 : Provider :=
  {| provider_id := 10; chain_id := ARBITRUM_ONE_CHAIN_ID;
     access := RpcAccess.Authenticated
       (RpcAuth.UrlParameter "https://rpc.ankr.com/arbitrum/{API_KEY}")
       (Some "https://rpc.ankr.com/arbitrum");
     alias := Some (SupportedRpcService.ArbitrumOne L2MainnetService.Ankr) |}.
Definition provider_11 : Provider :=
  {| provider_id := 11; chain_id := ARBITRUM_ONE_CHAIN_ID;
     access := RpcAccess.Authenticated
       (RpcAuth.BearerToken "https://arb-mainnet.g.alchemy.com/v2")
       (Some "https://arb-mainnet.g.alchemy.com/v2/demo");
     alias := Some (SupportedRpcService.ArbitrumOne L2MainnetService.Alchemy) |}.
Definition provider_12 : Provider :=
  {| provider_id := 12; chain_id := ARBITRUM_ONE_CHAIN_ID;
     access := RpcAccess.Authenticated
       (RpcAuth.UrlParameter "https://arbitrum.blockpi.network/v1/rpc/{API_KEY}")
       (Some "https://arbitrum.public.blockpi.network/v1/rpc/public");
     alias := Some (SupportedRpcService.ArbitrumOne L2MainnetService.BlockPi) |}.
Definition provider_13 : Provider :=
  {| provider_id := 13; chain_id := ARBITRUM_ONE_CHAIN_ID;
     access := RpcAccess.Unauthenticated "https://arbitrum-one-rpc.publicnode.com";
     alias := Some (SupportedRpcService.ArbitrumOne L2MainnetService.PublicNode) |}.
Definition provider_14 : Provider :=
  {| provider_id := 14; chain_id := BASE_MAINNET_CHAIN_ID;
     access := RpcAccess.Authenticated
       (RpcAuth.UrlParameter "https://rpc.ankr.com/base/{API_KEY}")
       (Some "https://rpc.ankr.com/base");
     alias := Some (SupportedRpcService.BaseMainnet L2MainnetService.Ankr) |}.
Definition provider_15 : Provider :=
  {| provider_id := 15; chain_id := BASE_MAINNET_CHAIN_ID;
     access := RpcAccess.Authenticated
       (RpcAuth.BearerToken "https://base-mainnet.g.alchemy.com/v2")
       (Some "https://base-mainnet.g.alchemy.com/v2/demo");
     alias := Some (SupportedRpcService.BaseMainnet L2MainnetService.Alchemy) |}.
Definition provider_16 : Provider :=
  {| provider_id := 16; chain_id := BASE_MAINNET_CHAIN_ID;
     access := RpcAccess.Authenticated
       (RpcAuth.UrlParameter "https://base.blockpi.network/v1/rpc/{API_KEY}")
       (Some "https://base.public.blockpi.network/v1/rpc/public");
     alias := Some (SupportedRpcService.BaseMainnet L2MainnetService.BlockPi) |}.
Definition provider_17 : Provider :=
  {| provider_id := 17; chain_id := BASE_MAINNET_CHAIN_ID;
     access := RpcAccess.Unauthenticated "https://base-rpc.publicnode.com";
     alias := Some (SupportedRpcService.BaseMainnet L2MainnetService.PublicNode) |}.
Definition provider_18 : Provider :=
  {| provider_id := 18; chain_id := OPTIMISM_MAINNET_CHAIN_ID;
     access := RpcAccess.Authenticated
       (RpcAuth.UrlParameter "https://rpc.ankr.com/optimism/{API_KEY}")
       (Some "https://rpc.ankr.com/optimism");
     alias := Some (SupportedRpcService.OptimismMainnet L2MainnetService.Ankr) |}.
Definition provider_19 : Provider :=
  {| provider_id := 19; chain_id := OPTIMISM_MAINNET_CHAIN_ID;
     access := RpcAccess.Authenticated
       (RpcAuth.BearerToken "https://opt-mainnet.g.alchemy.com/v2")
       (Some "https://opt-mainnet.g.alchemy.com/v2/demo");
     alias := Some (SupportedRpcService.OptimismMainnet L2MainnetService.Alchemy) |}.
Definition provider_20 : Provider :=
  {| provider_id := 20; chain_id := OPTIMISM_MAINNET_CHAIN_ID;
     access := RpcAccess.Authenticated
       (RpcAuth.UrlParameter "https://optimism.blockpi.network/v1/rpc/{API_KEY}")
       (Some "https://optimism.public.blockpi.network/v1/rpc/public");
     alias := Some (SupportedRpcService.OptimismMainnet L2MainnetService.BlockPi) |}.
Definition provider_21 : Provider :=
  {| provider_id := 21; chain_id := OPTIMISM_MAINNET_CHAIN_ID;
     access := RpcAccess.Unauthenticated "https://optimism-rpc.publicnode.com";
     alias := Some (SupportedRpcService.OptimismMainnet L2MainnetService.PublicNode) |}.
Definition provider_22 : Provider :=
  {| provider_id := 22; chain_id := ETH_MAINNET_CHAIN_ID;
     access := RpcAccess.Unauthenticated "https://eth.llamarpc.com";
     alias := Some (SupportedRpcService.EthMainnet EthMainnetService.Llama) |}.
Definition provider_23 : Provider :=
  {| provider_id := 23; chain_id := ARBITRUM_ONE_CHAIN_ID;
     access := RpcAccess.Unauthenticated "https://arbitrum.llamarpc.com";
     alias := Some (SupportedRpcService.ArbitrumOne L2MainnetService.Llama) |}.
Definition provider_24 : Provider :=
  {| provider_id := 24; chain_id := BASE_MAINNET_CHAIN_ID;
     access := RpcAccess.Unauthenticated "https://base.llamarpc.com";
     alias := Some (SupportedRpcService.BaseMainnet L2MainnetService.Llama) |}.
Definition provider_25 : Provider :=
  {| provider_id := 25; chain_id := OPTIMISM_MAINNET_CHAIN_ID;
     access := RpcAccess.Unauthenticated "https://optimism.llamarpc.com";
     alias := Some (SupportedRpcService.OptimismMainnet L2MainnetService.Llama) |}.

Definition PROVIDERS : list Provider :=
  [provider_0; provider_1; provider_2; provider_3; provider_4; provider_5; provider_6;
   provider_7; provider_8; provider_9; provider_10; provider_11; provider_12; provider_13;
   provider_14; provider_15; provider_16; provider_17; provider_18; provider_19;
   provider_20; provider_21; provider_22; provider_23; provider_24; provider_25].

Definition PROVIDER_MAP : list (ProviderId * Provider) :=
  btree_map_from_iter (map (fun provider => (provider_id provider, provider)) PROVIDERS).

Definition SERVICE_PROVIDER_MAP : list (SupportedRpcService * ProviderId) :=
  btree_map_from_iter
    (omap (fun provider =>
       alias provider ≫= fun service => Some (service, provider_id provider)) PROVIDERS).

Definition find_provider (f : Provider -> bool) : option Provider := List.find f PROVIDERS.

Definition get_known_chain_id (service : RpcService) : option u64 :=
  match service with
  | RpcService.Provider _ => None
  | RpcService.Custom _ => None
  | RpcService.EthMainnet _ => Some ETH_MAINNET_CHAIN_ID
  | RpcService.EthSepolia _ => Some ETH_SEPOLIA_CHAIN_ID
  | RpcService.ArbitrumOne _ => Some ARBITRUM_ONE_CHAIN_ID
  | RpcService.BaseMainnet _ => Some BASE_MAINNET_CHAIN_ID
  | RpcService.OptimismMainnet _ => Some OPTIMISM_MAINNET_CHAIN_ID
  end.

(** ** Resolution *)

(** [ResolvedRpcService] of [src/types/mod.rs]. *)
Module ResolvedRpcService.
Inductive ResolvedRpcService :=
| Api (api : RpcApi)
| Provider (provider : Provider).
End ResolvedRpcService.
Abbreviation ResolvedRpcService := ResolvedRpcService.ResolvedRpcService.

Definition lookup_provider_for_service (service : SupportedRpcService) :
    Result Provider ProviderError :=
  result_and_then
    (ok_or (btree_map_get service SERVICE_PROVIDER_MAP) ProviderError.MissingRequiredProvider)
    (fun provider_id =>
       ok_or (btree_map_get provider_id PROVIDER_MAP) ProviderError.ProviderNotFound).

Definition resolve_rpc_service (service : RpcService) :
    Result ResolvedRpcService ProviderError :=
  match service with
  | RpcService.Provider id =>
      result_map ResolvedRpcService.Provider
        (ok_or (btree_map_get id PROVIDER_MAP) ProviderError.ProviderNotFound)
  | RpcService.Custom {| url := url; headers := headers |} =>
      Ok (ResolvedRpcService.Api {| url := url; headers := headers |})
  | RpcService.EthMainnet service =>
      result_map ResolvedRpcService.Provider
        (lookup_provider_for_service (SupportedRpcService.EthMainnet service))
  | RpcService.EthSepolia service =>
      result_map ResolvedRpcService.Provider
        (lookup_provider_for_service (SupportedRpcService.EthSepolia service))
  | RpcService.ArbitrumOne service =>
      result_map ResolvedRpcService.Provider
        (lookup_provider_for_service (SupportedRpcService.ArbitrumOne service))
  | RpcService.BaseMainnet service =>
      result_map ResolvedRpcService.Provider
        (lookup_provider_for_service (SupportedRpcService.BaseMainnet service))
  | RpcService.OptimismMainnet service =>
      result_map ResolvedRpcService.Provider
        (lookup_provider_for_service (SupportedRpcService.OptimismMainnet service))
  end.

(** ** Supported services *)

Definition SupportedRpcService_new (service : RpcService) : option SupportedRpcService :=
  match service with
  | RpcService.Provider id =>
      find_provider (fun provider => provider_id provider =? id) ≫= alias
  | RpcService.Custom _ => None
  | RpcService.EthMainnet service => Some (SupportedRpcService.EthMainnet service)
  | RpcService.EthSepolia service => Some (SupportedRpcService.EthSepolia service)
  | RpcService.ArbitrumOne service => Some (SupportedRpcService.ArbitrumOne service)
  | RpcService.BaseMainnet service => Some (SupportedRpcService.BaseMainnet service)
  | RpcService.OptimismMainnet service => Some (SupportedRpcService.OptimismMainnet service)
  end.

Definition eth_mainnet : list SupportedRpcService :=
  [SupportedRpcService.EthMainnet EthMainnetService.BlockPi;
   SupportedRpcService.EthMainnet EthMainnetService.Ankr;
   SupportedRpcService.EthMainnet EthMainnetService.PublicNode;
   SupportedRpcService.EthMainnet EthMainnetService.Llama;
   SupportedRpcService.EthMainnet EthMainnetService.Alchemy;
   SupportedRpcService.EthMainnet EthMainnetService.Cloudflare].
Definition eth_sepolia : list SupportedRpcService :=
  [SupportedRpcService.EthSepolia EthSepoliaService.PublicNode;
   SupportedRpcService.EthSepolia EthSepoliaService.Ankr;
   SupportedRpcService.EthSepolia EthSepoliaService.BlockPi;
   SupportedRpcService.EthSepolia EthSepoliaService.Alchemy;
   SupportedRpcService.EthSepolia EthSepoliaService.Sepolia].
Definition arbitrum_one : list SupportedRpcService :=
  [SupportedRpcService.ArbitrumOne L2MainnetService.Llama;
   SupportedRpcService.ArbitrumOne L2MainnetService.BlockPi;
   SupportedRpcService.ArbitrumOne L2MainnetService.PublicNode;
   SupportedRpcService.ArbitrumOne L2MainnetService.Alchemy;
   SupportedRpcService.ArbitrumOne L2MainnetService.Ankr].
Definition base_mainnet : list SupportedRpcService :=
  [SupportedRpcService.BaseMainnet L2MainnetService.Llama;
   SupportedRpcService.BaseMainnet L2MainnetService.BlockPi;
   SupportedRpcService.BaseMainnet L2MainnetService.PublicNode;
   SupportedRpcService.BaseMainnet L2MainnetService.Alchemy;
   SupportedRpcService.BaseMainnet L2MainnetService.Ankr].
Definition optimism_mainnet : list SupportedRpcService :=
  [SupportedRpcService.OptimismMainnet L2MainnetService.Llama;
   SupportedRpcService.OptimismMainnet L2MainnetService.BlockPi;
   SupportedRpcService.OptimismMainnet L2MainnetService.PublicNode;
   SupportedRpcService.OptimismMainnet L2MainnetService.Alchemy;
   SupportedRpcService.OptimismMainnet L2MainnetService.Ankr].

(** [impl From<SupportedRpcService> for RpcService]. *)
Definition RpcService_from (value : SupportedRpcService) : RpcService :=
  match value with
  | SupportedRpcService.EthMainnet service => RpcService.EthMainnet service
  | SupportedRpcService.EthSepolia service => RpcService.EthSepolia service
  | SupportedRpcService.ArbitrumOne service => RpcService.ArbitrumOne service
  | SupportedRpcService.BaseMainnet service => RpcService.BaseMainnet service
  | SupportedRpcService.OptimismMainnet service => RpcService.OptimismMainnet service
  end.

(** ** [SupportedRpcServiceUsage]: when a supported service last gave a good answer *)

Section Usage.
Context `{TimedSizedMapApi SupportedRpcService unit}.

Record SupportedRpcServiceUsage := { usage_0 : TimedSizedMap }.

(** [Duration::from_secs(20 * 60)], in nanoseconds, and at most 500 entries per key. *)
Definition SupportedRpcServiceUsage_new : SupportedRpcServiceUsage :=
  {| usage_0 := tsm_new (20 * 60 * 1000000000) 500 |}.

Definition record_evict (self : SupportedRpcServiceUsage) (service : SupportedRpcService)
    (now : Timestamp) : SupportedRpcServiceUsage :=
  {| usage_0 := tsm_insert_evict now service () (usage_0 self) |}.

(** [Reverse] of the number of elements: more recent successes come first. *)
Definition ascending_num_elements (values : option TimedSizedVec) : Z :=
  - default 0 (option_map tsv_len values).

Definition rank_ascending_evict (self : SupportedRpcServiceUsage)
    (services : list SupportedRpcService) (now : Timestamp) :
    list SupportedRpcService * SupportedRpcServiceUsage :=
  let usage := tsm_evict_expired services now (usage_0 self) in
  (tsm_sort_keys_by usage services ascending_num_elements, {| usage_0 := usage |}).

(** The number of recent successes of a service. *)
Definition num_elements (self : SupportedRpcServiceUsage) (s : SupportedRpcService) : Z :=
  default 0 (option_map tsv_len (tsm_get (usage_0 self) s)).
End Usage.

(** ** The static maps *)

Lemma provider_map_get (id : ProviderId) :
  btree_map_get id PROVIDER_MAP = find_provider (fun provider => provider_id provider =? id).
Proof.
  unfold find_provider. change (List.find _ PROVIDERS) with
    (List.find (fun provider => provider_id provider =? id) PROVIDERS).
  assert (E : PROVIDER_MAP = map (fun p => (provider_id p, p)) PROVIDERS) by by vm_compute.
  rewrite E. generalize PROVIDERS as l.
  induction l as [|p l IH]; simpl; [done|]. rewrite IH. unfold rcmp, RustOrd_Z.
  destruct (Z.compare_spec id (provider_id p)), (Z.eqb_spec (provider_id p) id); lia || done.
Qed.

Lemma provider_ids : map provider_id PROVIDERS = map Z.of_nat (seq 0 26).
Proof. by vm_compute. Qed.

(** A property of every provider of the table, checked entry by entry. *)
Lemma PROVIDERS_forall (P : Provider -> bool) :
  forallb P PROVIDERS = true -> forall p, p ∈ PROVIDERS -> P p = true.
Proof. intros Hp p Hin. rewrite forallb_forall in Hp. by apply Hp, list_elem_of_In. Qed.

Lemma find_provider_Some (id : ProviderId) (p : Provider) :
  find_provider (fun provider => provider_id provider =? id) = Some p <->
  p ∈ PROVIDERS /\ provider_id p = id.
Proof.
  unfold find_provider. split.
  - intros E. apply find_some in E as [Hin Hid]. rewrite list_elem_of_In.
    split; [done|]. by apply Z.eqb_eq.
  - intros [Hin <-]. revert p Hin.
    cut (Forall (fun p => List.find (fun q => provider_id q =? provider_id p) PROVIDERS = Some p)
           PROVIDERS).
    { intros Hf p Hp. by rewrite Forall_forall in Hf; apply Hf. }
    repeat constructor.
Qed.

Lemma find_provider_None (id : ProviderId) :
  find_provider (fun provider => provider_id provider =? id) = None <-> ~ 0 <= id < 26.
Proof.
  destruct (find_provider _) as [p|] eqn:E.
  - apply find_provider_Some in E as [Hin <-]. split; [done|]. intros Hn. exfalso. apply Hn.
    assert (Hb : (0 <=? provider_id p) && (provider_id p <? 26) = true).
    { by apply (PROVIDERS_forall (fun p => (0 <=? provider_id p) && (provider_id p <? 26))). }
    lia.
  - split; [|done]. intros _ Hr. unfold find_provider in E.
    assert (Hin : id ∈ map provider_id PROVIDERS).
    { rewrite provider_ids. apply list_elem_of_In, in_map_iff.
      exists (Z.to_nat id). split; [lia|]. apply in_seq. lia. }
    apply list_elem_of_In, in_map_iff in Hin as (p & <- & Hp).
    by apply (find_none _ _ E), Z.eqb_neq in Hp.
Qed.

(** The services of a list, resolved: the boolean form of [resolve_supported]. *)
Definition all_supported : list SupportedRpcService :=
  eth_mainnet ++ eth_sepolia ++ arbitrum_one ++ base_mainnet ++ optimism_mainnet.

Lemma all_supported_complete (s : SupportedRpcService) : s ∈ all_supported.
Proof.
  assert (Hb : bool_decide (s ∈ all_supported) = true)
    by (destruct s as [[]|[]|[]|[]|[]]; by vm_compute).
  by apply bool_decide_eq_true in Hb.
Qed.

Lemma RpcService_from_inj : Inj (=) (=) RpcService_from.
Proof. intros [s|s|s|s|s] [s'|s'|s'|s'|s'] E; simpl in *; simplify_eq; done. Qed.

(** The default lists name each service of their chain exactly once. *)
Lemma supported_lists_complete :
  eth_mainnet ≡ₚ map SupportedRpcService.EthMainnet EthMainnetService.EthMainnetService_all /\
  eth_sepolia ≡ₚ map SupportedRpcService.EthSepolia EthSepoliaService.EthSepoliaService_all /\
  arbitrum_one ≡ₚ map SupportedRpcService.ArbitrumOne L2MainnetService.L2MainnetService_all /\
  base_mainnet ≡ₚ map SupportedRpcService.BaseMainnet L2MainnetService.L2MainnetService_all /\
  optimism_mainnet ≡ₚ
    map SupportedRpcService.OptimismMainnet L2MainnetService.L2MainnetService_all.
Proof. split_and!; apply (bool_decide_unpack _); by vm_compute. Qed.

Lemma supported_lists_NoDup :
  NoDup eth_mainnet /\ NoDup eth_sepolia /\ NoDup arbitrum_one /\ NoDup base_mainnet /\
  NoDup optimism_mainnet.
Proof. split_and!; apply (bool_decide_unpack _); by vm_compute. Qed.

(** A supported service resolves to a provider of the table which has that service as
    its alias and serves the service's chain; the service is recovered from the service
    value and from the id of its provider, and both resolve to the same provider. *)
Theorem resolve_supported (s : SupportedRpcService) :
  exists p,
    resolve_rpc_service (RpcService_from s) = Ok (ResolvedRpcService.Provider p) /\
    resolve_rpc_service (RpcService.Provider (provider_id p)) =
      Ok (ResolvedRpcService.Provider p) /\
    p ∈ PROVIDERS /\ alias p = Some s /\
    get_known_chain_id (RpcService_from s) = Some (chain_id p) /\
    SupportedRpcService_new (RpcService_from s) = Some s /\
    SupportedRpcService_new (RpcService.Provider (provider_id p)) = Some s.
Proof.
  destruct s as [[]|[]|[]|[]|[]]; eexists; (split; [by_compute|]); split_and!; by_compute.
Qed.

(** Resolving by id finds exactly the table's entry of that id, and fails with
    [ProviderNotFound] exactly when no entry has the id. *)
Theorem resolve_by_id (id : ProviderId) :
  (forall p, resolve_rpc_service (RpcService.Provider id) = Ok (ResolvedRpcService.Provider p) <->
     p ∈ PROVIDERS /\ provider_id p = id) /\
  (resolve_rpc_service (RpcService.Provider id) = Err ProviderError.ProviderNotFound <->
     ~ 0 <= id < 26).
Proof.
  unfold resolve_rpc_service. rewrite provider_map_get. split.
  - intros p. rewrite <- find_provider_Some.
    destruct (find_provider _) as [p'|]; simpl; naive_solver.
  - rewrite <- find_provider_None. destruct (find_provider _) as [p'|]; simpl; naive_solver.
Qed.

(** Ranking permutes the services it is given, whatever was recorded of them. *)
Section Ranking.
Context `{TimedSizedMapLaws SupportedRpcService unit}.
Implicit Types (u : SupportedRpcServiceUsage) (services : list SupportedRpcService).

Definition usage_cmp u (a b : SupportedRpcService) : comparison :=
  - num_elements u a ?= - num_elements u b.

Lemma rank_is_stable_sort u services now :
  let '(ranked, u') := rank_ascending_evict u services now in
  ranked = sort_by (usage_cmp u') services.
Proof.
  unfold rank_ascending_evict. rewrite tsm_sort_keys_by_stable. reflexivity.
Qed.

Lemma rank_Permutation u services now :
  (rank_ascending_evict u services now).1 ≡ₚ services.
Proof.
  pose proof (rank_is_stable_sort u services now) as E.
  destruct (rank_ascending_evict u services now) as [r u']. simpl. rewrite E.
  apply sort_by_Permutation.
Qed.

Lemma rank_sorted u services now :
  let '(ranked, u') := rank_ascending_evict u services now in
  StronglySorted (fun a b => num_elements u' b <= num_elements u' a) ranked.
Proof.
  pose proof (rank_is_stable_sort u services now) as E.
  destruct (rank_ascending_evict u services now) as [r u']. rewrite E.
  assert (Hs : StronglySorted (cmp_le (usage_cmp u')) (sort_by (usage_cmp u') services)).
  { apply sort_by_sorted; unfold cmp_le, usage_cmp; intros *; rewrite ?Z.compare_le_iff;
      rewrite ?Z.compare_gt_iff; lia. }
  revert Hs. apply StronglySorted_weaken. unfold cmp_le, usage_cmp. intros a b.
  rewrite Z.compare_le_iff. lia.
Qed.
End Ranking.
