(* ===== verification/Memory.v ===== *)
(** The canister's memory ([src/memory.rs]): the state, the monad of the code that uses it,
    and one operation per accessor.

    The thread-local cells of the source are the fields of [CanisterState], under the
    source's names. The first three live on the heap, which an upgrade resets; the others
    live in stable memory, which an upgrade preserves. *)

From S2P Require Import Prelude Collections EvmRpcTypes Externals Types Providers.
Open Scope Z_scope.

Section Memory.
Context `{TSM : TimedSizedMapApi SupportedRpcService unit} `{Canlog : CanlogCrate}.

Record CanisterState := {
  UNSTABLE_METRICS : Metrics;
  UNSTABLE_HTTP_REQUEST_COUNTER : u64;
  UNSTABLE_RPC_SERVICE_OK_RESULTS_TIMESTAMPS : SupportedRpcServiceUsage;
  IS_DEMO_ACTIVE : bool;
  API_KEY_MAP : gmap ProviderId ApiKey;
  MANAGE_API_KEYS : list Principal;
  LOG_FILTER : LogFilter;
  OVERRIDE_PROVIDER : OverrideProvider;
  NUM_SUBNET_NODES : u32;
}.

(** The cells as they are first initialised. *)
Definition initial_state : CanisterState := {|
  UNSTABLE_METRICS := Metrics_default;
  UNSTABLE_HTTP_REQUEST_COUNTER := 0;
  UNSTABLE_RPC_SERVICE_OK_RESULTS_TIMESTAMPS := SupportedRpcServiceUsage_new;
  IS_DEMO_ACTIVE := false;
  API_KEY_MAP := ∅;
  MANAGE_API_KEYS := [];
  LOG_FILTER := LogFilter_default;
  OVERRIDE_PROVIDER := OverrideProvider_default;
  NUM_SUBNET_NODES := NODES_IN_SUBNET;
|}.

(** The state a new version of the code starts from: the heap cells are initialised again
    and the stable cells are read back. *)
Definition upgraded_state (s : CanisterState) : CanisterState := {|
  UNSTABLE_METRICS := Metrics_default;
  UNSTABLE_HTTP_REQUEST_COUNTER := 0;
  UNSTABLE_RPC_SERVICE_OK_RESULTS_TIMESTAMPS := SupportedRpcServiceUsage_new;
  IS_DEMO_ACTIVE := IS_DEMO_ACTIVE s;
  API_KEY_MAP := API_KEY_MAP s;
  MANAGE_API_KEYS := MANAGE_API_KEYS s;
  LOG_FILTER := LOG_FILTER s;
  OVERRIDE_PROVIDER := OVERRIDE_PROVIDER s;
  NUM_SUBNET_NODES := NUM_SUBNET_NODES s;
|}.

(** ** The monad: state passing, with panics *)

Definition M (A : Type) : Type := CanisterState -> Outcome (A * CanisterState).

#[export] Instance M_ret : MRet M := fun A a s => Return (a, s).
#[export] Instance M_bind : MBind M := fun A B f m s =>
  match m s with
  | Return (a, s') => f a s'
  | Panic msg => Panic msg
  end.

Definition get_state : M CanisterState := fun s => Return (s, s).
Definition modify (f : CanisterState -> CanisterState) : M unit := fun s => Return ((), f s).
Definition panic {A} (msg : string) : M A := fun s => Panic msg.
Definition lift_outcome {A} (o : Outcome A) : M A := fun s =>
  match o with
  | Return a => Return (a, s)
  | Panic msg => Panic msg
  end.

(** [for x in l { f(x) }]. *)
Fixpoint for_each {A} (l : list A) (f : A -> M unit) : M unit :=
  match l with
  | [] => mret ()
  | x :: l => f x ;; for_each l f
  end.

(** ** Field updates *)

Definition set_metrics (v : Metrics) (s : CanisterState) : CanisterState := {|
  UNSTABLE_METRICS := v;
  UNSTABLE_HTTP_REQUEST_COUNTER := UNSTABLE_HTTP_REQUEST_COUNTER s;
  UNSTABLE_RPC_SERVICE_OK_RESULTS_TIMESTAMPS := UNSTABLE_RPC_SERVICE_OK_RESULTS_TIMESTAMPS s;
  IS_DEMO_ACTIVE := IS_DEMO_ACTIVE s; API_KEY_MAP := API_KEY_MAP s;
  MANAGE_API_KEYS := MANAGE_API_KEYS s; LOG_FILTER := LOG_FILTER s;
  OVERRIDE_PROVIDER := OVERRIDE_PROVIDER s; NUM_SUBNET_NODES := NUM_SUBNET_NODES s |}.
Definition set_counter (v : u64) (s : CanisterState) : CanisterState := {|
  UNSTABLE_METRICS := UNSTABLE_METRICS s;
  UNSTABLE_HTTP_REQUEST_COUNTER := v;
  UNSTABLE_RPC_SERVICE_OK_RESULTS_TIMESTAMPS := UNSTABLE_RPC_SERVICE_OK_RESULTS_TIMESTAMPS s;
  IS_DEMO_ACTIVE := IS_DEMO_ACTIVE s; API_KEY_MAP := API_KEY_MAP s;
  MANAGE_API_KEYS := MANAGE_API_KEYS s; LOG_FILTER := LOG_FILTER s;
  OVERRIDE_PROVIDER := OVERRIDE_PROVIDER s; NUM_SUBNET_NODES := NUM_SUBNET_NODES s |}.
Definition set_usage (v : SupportedRpcServiceUsage) (s : CanisterState) : CanisterState := {|
  UNSTABLE_METRICS := UNSTABLE_METRICS s;
  UNSTABLE_HTTP_REQUEST_COUNTER := UNSTABLE_HTTP_REQUEST_COUNTER s;
  UNSTABLE_RPC_SERVICE_OK_RESULTS_TIMESTAMPS := v;
  IS_DEMO_ACTIVE := IS_DEMO_ACTIVE s; API_KEY_MAP := API_KEY_MAP s;
  MANAGE_API_KEYS := MANAGE_API_KEYS s; LOG_FILTER := LOG_FILTER s;
  OVERRIDE_PROVIDER := OVERRIDE_PROVIDER s; NUM_SUBNET_NODES := NUM_SUBNET_NODES s |}.
Definition set_demo (v : bool) (s : CanisterState) : CanisterState := {|
  UNSTABLE_METRICS := UNSTABLE_METRICS s;
  UNSTABLE_HTTP_REQUEST_COUNTER := UNSTABLE_HTTP_REQUEST_COUNTER s;
  UNSTABLE_RPC_SERVICE_OK_RESULTS_TIMESTAMPS := UNSTABLE_RPC_SERVICE_OK_RESULTS_TIMESTAMPS s;
  IS_DEMO_ACTIVE := v; API_KEY_MAP := API_KEY_MAP s;
  MANAGE_API_KEYS := MANAGE_API_KEYS s; LOG_FILTER := LOG_FILTER s;
  OVERRIDE_PROVIDER := OVERRIDE_PROVIDER s; NUM_SUBNET_NODES := NUM_SUBNET_NODES s |}.
Definition set_keys (v : gmap ProviderId ApiKey) (s : CanisterState) : CanisterState := {|
  UNSTABLE_METRICS := UNSTABLE_METRICS s;
  UNSTABLE_HTTP_REQUEST_COUNTER := UNSTABLE_HTTP_REQUEST_COUNTER s;
  UNSTABLE_RPC_SERVICE_OK_RESULTS_TIMESTAMPS := UNSTABLE_RPC_SERVICE_OK_RESULTS_TIMESTAMPS s;
  IS_DEMO_ACTIVE := IS_DEMO_ACTIVE s; API_KEY_MAP := v;
  MANAGE_API_KEYS := MANAGE_API_KEYS s; LOG_FILTER := LOG_FILTER s;
  OVERRIDE_PROVIDER := OVERRIDE_PROVIDER s; NUM_SUBNET_NODES := NUM_SUBNET_NODES s |}.
Definition set_principals (v : list Principal) (s : CanisterState) : CanisterState := {|
  UNSTABLE_METRICS := UNSTABLE_METRICS s;
  UNSTABLE_HTTP_REQUEST_COUNTER := UNSTABLE_HTTP_REQUEST_COUNTER s;
  UNSTABLE_RPC_SERVICE_OK_RESULTS_TIMESTAMPS := UNSTABLE_RPC_SERVICE_OK_RESULTS_TIMESTAMPS s;
  IS_DEMO_ACTIVE := IS_DEMO_ACTIVE s; API_KEY_MAP := API_KEY_MAP s;
  MANAGE_API_KEYS := v; LOG_FILTER := LOG_FILTER s;
  OVERRIDE_PROVIDER := OVERRIDE_PROVIDER s; NUM_SUBNET_NODES := NUM_SUBNET_NODES s |}.
Definition set_filter (v : LogFilter) (s : CanisterState) : CanisterState := {|
  UNSTABLE_METRICS := UNSTABLE_METRICS s;
  UNSTABLE_HTTP_REQUEST_COUNTER := UNSTABLE_HTTP_REQUEST_COUNTER s;
  UNSTABLE_RPC_SERVICE_OK_RESULTS_TIMESTAMPS := UNSTABLE_RPC_SERVICE_OK_RESULTS_TIMESTAMPS s;
  IS_DEMO_ACTIVE := IS_DEMO_ACTIVE s; API_KEY_MAP := API_KEY_MAP s;
  MANAGE_API_KEYS := MANAGE_API_KEYS s; LOG_FILTER := v;
  OVERRIDE_PROVIDER := OVERRIDE_PROVIDER s; NUM_SUBNET_NODES := NUM_SUBNET_NODES s |}.
Definition set_override (v : OverrideProvider) (s : CanisterState) : CanisterState := {|
  UNSTABLE_METRICS := UNSTABLE_METRICS s;
  UNSTABLE_HTTP_REQUEST_COUNTER := UNSTABLE_HTTP_REQUEST_COUNTER s;
  UNSTABLE_RPC_SERVICE_OK_RESULTS_TIMESTAMPS := UNSTABLE_RPC_SERVICE_OK_RESULTS_TIMESTAMPS s;
  IS_DEMO_ACTIVE := IS_DEMO_ACTIVE s; API_KEY_MAP := API_KEY_MAP s;
  MANAGE_API_KEYS := MANAGE_API_KEYS s; LOG_FILTER := LOG_FILTER s;
  OVERRIDE_PROVIDER := v; NUM_SUBNET_NODES := NUM_SUBNET_NODES s |}.
Definition set_nodes (v : u32) (s : CanisterState) : CanisterState := {|
  UNSTABLE_METRICS := UNSTABLE_METRICS s;
  UNSTABLE_HTTP_REQUEST_COUNTER := UNSTABLE_HTTP_REQUEST_COUNTER s;
  UNSTABLE_RPC_SERVICE_OK_RESULTS_TIMESTAMPS := UNSTABLE_RPC_SERVICE_OK_RESULTS_TIMESTAMPS s;
  IS_DEMO_ACTIVE := IS_DEMO_ACTIVE s; API_KEY_MAP := API_KEY_MAP s;
  MANAGE_API_KEYS := MANAGE_API_KEYS s; LOG_FILTER := LOG_FILTER s;
  OVERRIDE_PROVIDER := OVERRIDE_PROVIDER s; NUM_SUBNET_NODES := v |}.

(** ** The accessors *)

Definition get_api_key (provider_id : ProviderId) : M (option ApiKey) :=
  s ← get_state; mret (API_KEY_MAP s !! provider_id).

Definition insert_api_key (provider_id : ProviderId) (api_key : ApiKey) : M unit :=
  modify (fun s => set_keys (<[provider_id := api_key]> (API_KEY_MAP s)) s).

Definition remove_api_key (provider_id : ProviderId) : M unit :=
  modify (fun s => set_keys (delete provider_id (API_KEY_MAP s)) s).

Definition is_api_key_principal (principal : Principal) : M bool :=
  s ← get_state;
  mret (existsb (fun other => bool_decide (other = principal)) (MANAGE_API_KEYS s)).

(** [while !principals.is_empty() { principals.pop(); }]: the fuel is the length. *)
Fixpoint pop_all (fuel : nat) (principals : list Principal) : list Principal :=
  match fuel with
  | O => principals
  | S fuel =>
      match principals with
      | [] => []
      | _ => pop_all fuel (removelast principals)
      end
  end.

Definition set_api_key_principals (new_principals : list Principal) : M unit :=
  modify (fun s =>
    let principals := pop_all (length (MANAGE_API_KEYS s)) (MANAGE_API_KEYS s) in
    set_principals (foldl (fun ps principal => ps ++ [principal]) principals new_principals) s).

Definition is_demo_active : M bool := s ← get_state; mret (IS_DEMO_ACTIVE s).
Definition set_demo_active (is_active : bool) : M unit := modify (set_demo is_active).
Definition get_log_filter : M LogFilter := s ← get_state; mret (LOG_FILTER s).
Definition set_log_filter (filter : LogFilter) : M unit := modify (set_filter filter).
Definition get_override_provider : M OverrideProvider :=
  s ← get_state; mret (OVERRIDE_PROVIDER s).
Definition set_override_provider (provider : OverrideProvider) : M unit :=
  modify (set_override provider).

(** The id is the JSON-RPC id made from the counter ([Id::from]); here its number. *)
Definition next_request_id : M u64 :=
  s ← get_state;
  let current_request_id := UNSTABLE_HTTP_REQUEST_COUNTER s in
  modify (set_counter (wrap 64 (current_request_id + 1))) ;;
  mret current_request_id.

Definition get_num_subnet_nodes : M u32 := s ← get_state; mret (NUM_SUBNET_NODES s).
Definition set_num_subnet_nodes (nodes : u32) : M unit := modify (set_nodes nodes).

Definition record_ok_result (service : SupportedRpcService) (now : Timestamp) : M unit :=
  modify (fun s =>
    set_usage (record_evict (UNSTABLE_RPC_SERVICE_OK_RESULTS_TIMESTAMPS s) service now) s).

Definition rank_providers (services : list SupportedRpcService) (now : Timestamp) :
    M (list SupportedRpcService) := fun s =>
  let '(ranked, usage) :=
    rank_ascending_evict (UNSTABLE_RPC_SERVICE_OK_RESULTS_TIMESTAMPS s) services now in
  Return (ranked, set_usage usage s).

(** [add_metric_entry!] on the canister's metrics. *)
Definition update_metrics (f : Metrics -> Metrics) : M unit :=
  modify (fun s => set_metrics (f (UNSTABLE_METRICS s)) s).

(** ** Lemmas *)

Lemma M_bind_Return {A B} (m : M A) (f : A -> M B) s a s' :
  m s = Return (a, s') -> (m ≫= f) s = f a s'.
Proof. intros E. unfold mbind, M_bind. by rewrite E. Qed.

Lemma M_bind_inv {A B} (m : M A) (f : A -> M B) s b s'' :
  (m ≫= f) s = Return (b, s'') -> exists a s', m s = Return (a, s') /\ f a s' = Return (b, s'').
Proof.
  unfold mbind, M_bind. destruct (m s) as [[a s']|msg] eqn:E; [|done]. intros E'. eauto.
Qed.

Lemma pop_all_nil fuel principals :
  (length principals <= fuel)%nat -> pop_all fuel principals = [].
Proof.
  revert principals. induction fuel as [|fuel IH]; intros ps Hle; simpl.
  - destruct ps; simpl in *; [done|lia].
  - destruct ps as [|p ps]; [done|]. apply IH.
    pose proof (length_removelast (p :: ps)) as H.
    rewrite H. simpl in *. lia.
Qed.

Lemma foldl_push {A} (l k : list A) : foldl (fun ps p => ps ++ [p]) k l = k ++ l.
Proof.
  revert k. induction l as [|x l IH]; intros k; simpl; [by rewrite app_nil_r|].
  by rewrite IH, <- app_assoc.
Qed.
End Memory.

Arguments M {TSM Canlog} A.

(** Steps through a computation of the canister's monad. *)
Ltac m_inv :=
  repeat match goal with
  | H : (_ ≫= _) _ = Return (_, _) |- _ =>
      apply M_bind_inv in H as (? & ? & ? & ?)
  | H : Return (_, _) = Return (_, _) |- _ => injection H as ? ?; subst
  end.

Lemma set_api_key_principals_eq `{TimedSizedMapApi SupportedRpcService unit} `{CanlogCrate}
    (new_principals : list Principal) (s : CanisterState) :
  set_api_key_principals new_principals s = Return ((), set_principals new_principals s).
Proof.
  unfold set_api_key_principals, modify. rewrite pop_all_nil by done. by rewrite foldl_push.
Qed.

Lemma is_api_key_principal_eq `{TimedSizedMapApi SupportedRpcService unit} `{CanlogCrate}
    (principal : Principal) (s : CanisterState) :
  is_api_key_principal principal s = Return (bool_decide (principal ∈ MANAGE_API_KEYS s), s).
Proof.
  unfold is_api_key_principal, get_state, mbind, M_bind, mret, M_ret. do 2 f_equal.
  apply eq_true_iff_eq. rewrite existsb_exists, bool_decide_eq_true, list_elem_of_In.
  split.
  - intros (x & Hx & ->%bool_decide_eq_true). done.
  - intros Hin. exists principal. by rewrite bool_decide_eq_true.
Qed.

(** [?] in the canister's monad: the computation goes on with the value of [Ok], and an
    [Err] is the result. *)
Definition M_and_then `{TimedSizedMapApi SupportedRpcService unit} `{CanlogCrate} {A B E}
    (m : M (Result A E)) (f : A -> M (Result B E)) : M (Result B E) :=
  r ← m; match r with Ok a => f a | Err e => mret (Err e) end.
Notation "'let*' x := m 'in' k" := (M_and_then m (fun x => k))
  (at level 10, x name, m at level 100, k at level 200) : canister_scope.
