(* ===== verification/ProviderApi.v ===== *)
(** Where a provider is reached ([Provider::api] and [ResolvedRpcService] of
    [src/types/mod.rs]): the stored API keys are read from the canister's memory, and the
    override of the controller is applied to the result. *)

From Stdlib Require Import Ascii.
From S2P Require Import Prelude Collections EvmRpcTypes Externals Types Providers Memory.
From S2P Require Instances.
Open Scope Z_scope.

Section ProviderApi.
Context `{TSM : TimedSizedMapApi SupportedRpcService unit} `{Canlog : CanlogCrate}.

Definition Provider_api (self : Provider) : M RpcApi :=
  match access self with
  | RpcAccess.Authenticated auth public_url =>
      key ← get_api_key (provider_id self);
      match key with
      | Some api_key =>
          mret match auth with
               | RpcAuth.BearerToken url =>
                   {| url := url;
                      headers := Some
                        [{| header_name := "Authorization";
                            header_value := "Bearer " +:+ ApiKey_read api_key |}] |}
               | RpcAuth.UrlParameter url_pattern =>
                   {| url := replace url_pattern API_KEY_REPLACE_STRING (ApiKey_read api_key);
                      headers := None |}
               end
      | None =>
          match public_url with
          | Some public_url => mret {| url := public_url; headers := None |}
          | None =>
              panic ("API key not yet initialized for provider: " +:+ pretty (provider_id self))
          end
      end
  | RpcAccess.Unauthenticated public_url => mret {| url := public_url; headers := None |}
  end.

Context `{RegexCrate}.

Definition ResolvedRpcService_api (self : ResolvedRpcService)
    (override_provider : OverrideProvider) : M (RpcResult RpcApi) :=
  initial_api ← match self with
                | ResolvedRpcService.Api api => mret api
                | ResolvedRpcService.Provider provider => Provider_api provider
                end;
  mret (result_map_err
    (fun regex_error => RpcError.ValidationError (ValidationError.Custom
      ("BUG: regex should have been validated when initially set. Error: "
         +:+ regex_Error_to_string regex_error)))
    (OverrideProvider_apply override_provider initial_api)).

Definition ResolvedRpcService_post (self : ResolvedRpcService)
    (override_provider : OverrideProvider) : M (RpcResult Builder) :=
  api ← ResolvedRpcService_api self override_provider;
  mret (result_map (fun api =>
      foldl (fun request_builder h =>
          Builder_header (header_name h) (header_value h) request_builder)
        (Request_post (url api)) (default [] (headers api)))
    api).

(** ** What the stored keys change *)

(** Only reads the memory. *)
Lemma Provider_api_state p s api s' : Provider_api p s = Return (api, s') -> s' = s.
Proof.
  unfold Provider_api, get_api_key, get_state, panic, mbind, M_bind, mret, M_ret.
  repeat case_match; naive_solver.
Qed.

Lemma post_headers api :
  foldl (fun request_builder h =>
      Builder_header (header_name h) (header_value h) request_builder)
    (Request_post (url api)) (default [] (headers api)) =
  {| builder_uri := url api; builder_headers := default [] (headers api);
     builder_max_response_bytes := None; builder_transform_context := None |}.
Proof.
  assert (Hg : forall hs b, foldl (fun request_builder h =>
      Builder_header (header_name h) (header_value h) request_builder) b hs =
    {| builder_uri := builder_uri b; builder_headers := builder_headers b ++ hs;
       builder_max_response_bytes := builder_max_response_bytes b;
       builder_transform_context := builder_transform_context b |}).
  { induction hs as [|[n v] hs IH]; intros b; simpl.
    - rewrite app_nil_r. by destruct b.
    - rewrite IH. simpl. by rewrite <- app_assoc. }
  by rewrite Hg.
Qed.
End ProviderApi.

(** A key of the table that is inserted in a URL: the pattern ends with the placeholder,
    and what precedes it has no brace. *)
Lemma url_pattern_table p pattern public :
  p ∈ PROVIDERS -> access p = RpcAccess.Authenticated (RpcAuth.UrlParameter pattern) public ->
  exists prefix, pattern = prefix +:+ API_KEY_REPLACE_STRING /\
    contains_char "{"%char prefix = false /\
    forall key, replace pattern API_KEY_REPLACE_STRING key = prefix +:+ key.
Proof.
  intros Hp Ha.
  assert (Hs : exists prefix, pattern = prefix +:+ API_KEY_REPLACE_STRING /\
    contains_char "{"%char prefix = false).
  { exists (String.substring 0 (String.length pattern - 9) pattern).
    pose proof (PROVIDERS_forall (fun p =>
      match access p with
      | RpcAccess.Authenticated (RpcAuth.UrlParameter pattern) _ =>
          let prefix := String.substring 0 (String.length pattern - 9) pattern in
          String.eqb pattern (prefix +:+ API_KEY_REPLACE_STRING) &&
          negb (contains_char "{"%char prefix)
      | _ => true
      end) ltac:(by vm_compute) p Hp) as Hb. simpl in Hb. rewrite Ha in Hb.
    apply andb_true_iff in Hb as [Hb1%String.eqb_eq Hb2%negb_true_iff]. done. }
  destruct Hs as (prefix & -> & Hprefix). exists prefix. split_and!; [done..|].
  intros key. unfold replace. revert Hprefix. clear.
  induction prefix as [|c prefix IH]; intros Hprefix.
  - simpl. by rewrite string_app_nil_r.
  - cbn [contains_char] in Hprefix. apply orb_false_iff in Hprefix as [Hc Hprefix].
    rewrite !string_app_cons, <- (IH Hprefix). unfold API_KEY_REPLACE_STRING.
    cbn [replace_from]. apply Ascii.eqb_neq in Hc. unfold starts_with, String.prefix.
    by destruct (Ascii.ascii_dec "{"%char c).
Qed.

Lemma valid_key_no_brace key : validate_api_key key = Ok () -> contains_char "{"%char key = false.
Proof.
  intros (_ & _ & Hall)%validate_api_key_Ok. apply not_true_iff_false.
  rewrite contains_char_elem. intros Hin. rewrite Forall_forall in Hall.
  by apply Hall in Hin; vm_compute in Hin.
Qed.

(** Using a provider of the table traps exactly when it is the Sepolia endpoint of
    BlockPi and no API key is stored for it: every other provider has a public URL. *)
Theorem provider_api_panics `{TimedSizedMapApi SupportedRpcService unit} `{CanlogCrate}
    (p : Provider) (s : CanisterState) :
  p ∈ PROVIDERS ->
  (exists msg, Provider_api p s = Panic msg) <->
  alias p = Some (SupportedRpcService.EthSepolia EthSepoliaService.BlockPi) /\
  API_KEY_MAP s !! provider_id p = None.
Proof.
  intros Hp.
  pose proof (PROVIDERS_forall (fun p =>
    match access p with
    | RpcAccess.Authenticated _ public =>
        bool_decide (public = None <->
          alias p = Some (SupportedRpcService.EthSepolia EthSepoliaService.BlockPi))
    | _ => bool_decide (alias p <> Some (SupportedRpcService.EthSepolia EthSepoliaService.BlockPi))
    end) ltac:(by vm_compute) p Hp) as Ht. simpl in Ht.
  unfold Provider_api, get_api_key, get_state, mbind, M_bind, mret, M_ret, panic.
  destruct (access p) as [auth [public|]|public]; apply bool_decide_eq_true in Ht;
    destruct (API_KEY_MAP s !! provider_id p); naive_solver.
Qed.

(** No public URL of the table has the placeholder. *)
Lemma public_url_table p :
  p ∈ PROVIDERS ->
  match access p with
  | RpcAccess.Authenticated _ (Some public) | RpcAccess.Unauthenticated public =>
      contains API_KEY_REPLACE_STRING public = false
  | RpcAccess.Authenticated _ None => True
  end.
Proof.
  intros Hp. pose proof (PROVIDERS_forall (fun p =>
    match access p with
    | RpcAccess.Authenticated _ (Some public) | RpcAccess.Unauthenticated public =>
        negb (contains API_KEY_REPLACE_STRING public)
    | RpcAccess.Authenticated _ None => true
    end) ltac:(by vm_compute) p Hp) as Hb. simpl in Hb.
  destruct (access p) as [auth [public|]|public]; by apply negb_true_iff in Hb || done.
Qed.

(** C17: where a provider of the table is reached. With a valid API key, the key ends the URL of a
    provider that takes it there, and such a URL has no headers; a provider that takes a
    bearer token gets its fixed URL and the key in the authorization header. Without a stored
    key the public URL is used, without headers, as for the providers that take no key; when
    there is no public URL either, the message traps. The placeholder of the key is in none
    of these URLs, and the state does not change. *)
Theorem provider_api_key `{TimedSizedMapApi SupportedRpcService unit} `{CanlogCrate}
    (p : Provider) (s : CanisterState) :
  p ∈ PROVIDERS ->
  (forall key, API_KEY_MAP s !! provider_id p = Some key ->
     validate_api_key (ApiKey_read key) = Ok ()) ->
  let reached url headers :=
    Provider_api p s = Return ({| EvmRpcTypes.url := url; EvmRpcTypes.headers := headers |}, s) /\
    contains API_KEY_REPLACE_STRING url = false in
  match access p with
  | RpcAccess.Unauthenticated public => reached public None
  | RpcAccess.Authenticated auth public =>
      match API_KEY_MAP s !! provider_id p, auth, public with
      | Some key, RpcAuth.BearerToken fixed, _ =>
          reached fixed (Some [{| header_name := "Authorization";
                                  header_value := "Bearer " +:+ ApiKey_read key |}])
      | Some key, RpcAuth.UrlParameter pattern, _ =>
          exists prefix, pattern = prefix +:+ API_KEY_REPLACE_STRING /\
            reached (prefix +:+ ApiKey_read key) None
      | None, _, Some public => reached public None
      | None, _, None => exists msg, Provider_api p s = Panic msg
      end
  end.
Proof.
  intros Hp Hv reached. pose proof (public_url_table p Hp) as Hpub.
  unfold reached, Provider_api, get_api_key, get_state, mbind, M_bind, mret, M_ret, panic.
  destruct (access p) as [auth public|public] eqn:Ha; [|done].
  destruct (API_KEY_MAP s !! provider_id p) as [key|] eqn:Hk;
    [|destruct public, auth; simpl; rewrite ?Hk; eauto].
  specialize (Hv key eq_refl). simpl. rewrite ?Hk. destruct auth as [fixed|pattern].
  - split; [done|].
    pose proof (PROVIDERS_forall (fun p =>
      match access p with
      | RpcAccess.Authenticated (RpcAuth.BearerToken url) _ =>
          negb (contains API_KEY_REPLACE_STRING url)
      | _ => true end) ltac:(by vm_compute) p Hp) as Hb. simpl in Hb. rewrite Ha in Hb.
    by apply negb_true_iff in Hb.
  - destruct (url_pattern_table p pattern public Hp Ha) as (prefix & Epat & Hbrace & Hrep).
    exists prefix. rewrite Hrep. split_and!; [done..|].
    apply not_true_iff_false. intros Hc. apply (contains_contains_char "{"%char) in Hc; [|done].
    by rewrite contains_char_app, Hbrace, valid_key_no_brace in Hc.
Qed.

(** ** Witnesses *)

Section Witnesses.
Import Instances.Concrete.

Lemma provider_api_panics_witness :
  provider_6 ∈ PROVIDERS /\ exists msg, Provider_api provider_6 initial_state = Panic msg.
Proof.
  split; [by_compute|].
  apply (proj2 (provider_api_panics provider_6 initial_state ltac:(by_compute))).
  split; reflexivity.
Defined.

Lemma provider_api_key_witness :
  let s := set_keys (<[1 := {| api_key_0 := "key-1" |}]> ∅) initial_state in
  Provider_api provider_1 s =
    Return ({| url := "https://rpc.ankr.com/eth/key-1"; headers := None |}, s) /\
  Provider_api provider_1 initial_state =
    Return ({| url := "https://rpc.ankr.com/eth"; headers := None |}, initial_state).
Proof.
  intros s. split.
  - destruct (provider_api_key provider_1 s ltac:(by_compute)) as (prefix & Ep & E & _).
    + intros key E. by injection E as <-.
    + rewrite E. apply (string_app_inv_tail API_KEY_REPLACE_STRING
        "https://rpc.ankr.com/eth/" prefix) in Ep. by rewrite <- Ep.
  - apply (provider_api_key provider_1 initial_state ltac:(by_compute)). intros key [=].
Defined.
End Witnesses.
