(* ===== verification/Numbers.v ===== *)
(** Numbers and hexadecimal strings: [Nat256], the hex types and [Byte] of
    [evm_rpc_types/src/lib.rs], [Amount] of [src/rpc_client/amount/mod.rs] with the units of
    [src/rpc_client/numeric/mod.rs], and the byte arrays of [src/rpc_client/json/mod.rs]. *)

From S2P Require Import Prelude Collections EvmRpcTypes Externals.
From S2P Require Instances.
Open Scope Z_scope.

(** A computation that is known not to panic has a value. *)
Definition is_return {A} (o : Outcome A) : bool :=
  match o with Return _ => true | Panic _ => false end.
Definition the_value {A} (o : Outcome A) : is_return o = true -> A :=
  match o with
  | Return a => fun _ => a
  | Panic _ => fun H => match Bool.diff_false_true H with end
  end.
Lemma the_value_Return {A} (o : Outcome A) (H : is_return o = true) : o = Return (the_value o H).
Proof. by destruct o. Qed.
Lemma the_value_eq {A} (o : Outcome A) (H : is_return o = true) a : o = Return a -> the_value o H = a.
Proof. intros E. rewrite (the_value_Return o H) in E. by injection E. Qed.

(** ** [Nat256] *)

Section Nat256.
Context `{BigUintCrate}.

(** The test of [TryFrom<Nat>]; a [Nat] is not negative. *)
Definition Nat256_fits (value : Z) : bool :=
  (0 <=? value) && (length (to_bytes_le value) <=? 32)%nat.

(** The field is private: the only ways to a [Nat256] go through the test. *)
Record Nat256 := { nat256_0 : Z; nat256_fits : Nat256_fits nat256_0 = true }.
Lemma Nat256_eq (x y : Nat256) : nat256_0 x = nat256_0 y -> x = y.
Proof. destruct x as [x Hx], y as [y Hy]. simpl. intros ->. f_equal. apply proof_irrel. Qed.
#[export] Instance Nat256_eq_dec : EqDecision Nat256.
Proof.
  intros x y. destruct (decide (nat256_0 x = nat256_0 y)) as [E|E].
  - left. by apply Nat256_eq.
  - right. by intros ->.
Defined.

Definition Nat256_try_from (value : Z) : Result Nat256 string :=
  if_test (Nat256_fits value)
    (fun fits => Ok {| nat256_0 := value; nat256_fits := fits |})
    (fun _ => Err "Nat does not fit in a U256").

(** [Result::unwrap] and [Result::expect]. *)
Definition expect {T E} (msg : string) (r : Result T E) : Outcome T :=
  match r with Ok t => Return t | Err _ => Panic msg end.

(** [impl From<u8>], ..., [From<u128>]. *)
Definition Nat256_from (v : u128) : Outcome Nat256 := expect "unwrap" (Nat256_try_from v).

Definition u64_try_from_Nat256 (value : Nat256) : RpcResult u64 :=
  result_map_err (fun e => RpcError.ValidationError (ValidationError.Custom e))
    (u64_try_from (nat256_0 value)).

Context `{!BigUintLaws}.

Lemma Nat256_fits_spec value : Nat256_fits value = true <-> 0 <= value < 2 ^ 256.
Proof.
  unfold Nat256_fits. rewrite andb_true_iff, Z.leb_le, Nat.leb_le.
  split; intros [Hn Hl]; (split; [done|]).
  - rewrite to_bytes_le_rev, length_rev, to_bytes_be_length in Hl by lia.
    by change (2 ^ 256) with (256 ^ Z.of_nat 32).
  - rewrite to_bytes_le_rev, length_rev, to_bytes_be_length by lia. done.
Qed.

Lemma nat256_range (n : Nat256) : 0 <= nat256_0 n < 2 ^ 256.
Proof. apply Nat256_fits_spec, nat256_fits. Qed.

Lemma pad_ok (bs : list byte) :
  is_bytes bs -> (length bs <=? 32)%nat = true ->
  bytes_ok 32 (replicate (32 - length bs) 0 ++ bs) = true.
Proof.
  intros Hb Hl%Nat.leb_le. apply bytes_ok_spec. rewrite length_app, length_replicate.
  split; [lia|]. apply Forall_app. split; [|done]. by apply Forall_replicate.
Qed.

(** The number written at the end of 32 zero bytes. *)
Definition Nat256_into_be_bytes (self : Nat256) : Outcome (Bytes 32) :=
  let value_bytes := to_bytes_be (nat256_0 self) in
  if_test (length value_bytes <=? 32)%nat
    (fun Hl =>
      Return (Bytes_make (replicate (32 - length value_bytes) 0 ++ value_bytes)
        (pad_ok value_bytes (proj1 (to_bytes_be_value _ (proj1 (nat256_range self)))) Hl)))
    (fun _ => Panic ("BUG: Nat does not fit in a U256: " +:+ nat_debug (nat256_0 self))).

Definition Nat256_from_be_bytes (value : Bytes 32) : Outcome Nat256 :=
  expect "BUG: Nat should fit in a U256" (Nat256_try_from (from_bytes_be (`value))).

(** *** Neither conversion panics, and both keep the value *)

Lemma be_value_replicate_0 k bs : be_value (replicate k 0 ++ bs) = be_value bs.
Proof.
  unfold be_value. rewrite foldl_app. f_equal.
  induction k as [|k IH]; simpl; [done|]. exact IH.
Qed.

Lemma into_be_bytes_value self :
  exists bs, Nat256_into_be_bytes self = Return bs /\ be_value (`bs) = nat256_0 self.
Proof.
  assert (Hl : (length (to_bytes_be (nat256_0 self)) <=? 32)%nat = true).
  { apply Nat.leb_le, to_bytes_be_length; [apply nat256_range|lia|].
    change (256 ^ Z.of_nat 32) with (2 ^ 256). apply nat256_range. }
  unfold Nat256_into_be_bytes. rewrite (if_test_true _ _ _ Hl).
  eexists; split; [done|]. simpl.
  rewrite be_value_replicate_0. apply to_bytes_be_value, nat256_range.
Qed.

Lemma Nat256_try_from_Ok value n :
  Nat256_try_from value = Ok n <-> nat256_0 n = value.
Proof.
  unfold Nat256_try_from. destruct (Sumbool.sumbool_of_bool (Nat256_fits value)) as [fits|fits].
  - rewrite (if_test_true _ _ _ fits).
    split; [by intros [= <-]|]. intros E. f_equal. by apply Nat256_eq.
  - rewrite (if_test_false _ _ _ fits).
    split; [done|]. intros <-. by rewrite nat256_fits in fits.
Qed.

Lemma Nat256_try_from_Err value e :
  Nat256_try_from value = Err e <->
  e = "Nat does not fit in a U256" /\ Nat256_fits value = false.
Proof.
  unfold Nat256_try_from. destruct (Sumbool.sumbool_of_bool (Nat256_fits value)) as [fits|fits].
  - rewrite (if_test_true _ _ _ fits). split; [done|]. intros [_ Hf]. congruence.
  - rewrite (if_test_false _ _ _ fits).
    split; [by intros [= <-]|by intros [-> _]].
Qed.

Lemma be_value_Bytes_bound (bs : Bytes 32) : 0 <= be_value (`bs) < 2 ^ 256.
Proof. apply is_u256_spec, Instances.be_value_u256. Qed.

Lemma from_be_bytes_value value :
  exists n, Nat256_from_be_bytes value = Return n /\ nat256_0 n = be_value (`value).
Proof.
  assert (Hfits : Nat256_fits (be_value (`value)) = true)
    by apply Nat256_fits_spec, be_value_Bytes_bound.
  exists {| nat256_0 := be_value (`value); nat256_fits := Hfits |}. split; [|done].
  unfold Nat256_from_be_bytes. rewrite from_bytes_be_value.
  - by rewrite (proj2 (Nat256_try_from_Ok _ {| nat256_0 := _; nat256_fits := Hfits |})).
  - destruct value as [bs Hbs]. simpl. by destruct (proj1 (bytes_ok_spec _ _) Hbs).
Qed.

Lemma into_be_bytes_returns self : is_return (Nat256_into_be_bytes self) = true.
Proof. destruct (into_be_bytes_value self) as (? & -> & _). done. Qed.
Lemma from_be_bytes_returns value : is_return (Nat256_from_be_bytes value) = true.
Proof. destruct (from_be_bytes_value value) as (? & -> & _). done. Qed.
Lemma Nat256_from_returns v : in_range 128 v -> is_return (Nat256_from v) = true.
Proof.
  intros Hv. assert (Hf : Nat256_fits v = true).
  { apply Nat256_fits_spec. unfold in_range in Hv. split; [lia|].
    transitivity (2 ^ 128); [lia|by vm_compute]. }
  unfold Nat256_from. by rewrite (proj2 (Nat256_try_from_Ok _ {| nat256_0 := v; nat256_fits := Hf |})).
Qed.
End Nat256.

(** ** [Amount] and the units *)

Record Amount (Unit : Type) := { amount_0 : U256 }.
Arguments Build_Amount {Unit} _.
Arguments amount_0 {Unit} _.
#[export] Instance Amount_eq_dec {Unit} : EqDecision (Amount Unit).
Proof. solve_decision. Defined.
Lemma Amount_eq {Unit} (x y : Amount Unit) : proj1_sig (amount_0 x) = proj1_sig (amount_0 y) -> x = y.
Proof. destruct x as [x], y as [y]. intros E. by rewrite (U256_eq x y E). Qed.

(** [new], [from_inner] and the constants. *)
Definition Amount_new {Unit} (value : u128) (H : is_u256 value = true) : Amount Unit :=
  Build_Amount (U256_from value H).
Definition Amount_ZERO {Unit} : Amount Unit := Amount_new 0 eq_refl.
Definition Amount_ONE {Unit} : Amount Unit := Amount_new 1 eq_refl.
Definition Amount_TWO {Unit} : Amount Unit := Amount_new 2 eq_refl.
Definition Amount_MAX {Unit} : Amount Unit := Amount_new (2 ^ 256 - 1) eq_refl.
(** [PartialOrd] and [Ord]. *)
#[export] Instance Amount_ord {Unit} : RustOrd (Amount Unit) :=
  cmp_by (fun a => proj1_sig (amount_0 a)).
#[export] Instance Amount_ord_laws {Unit} : RustOrdLaws (Amount Unit).
Proof.
  assert (Inj (=) (=) (fun a : Amount Unit => proj1_sig (amount_0 a))) by (intros x y; apply Amount_eq).
  apply (RustOrdLaws_by (fun a : Amount Unit => proj1_sig (amount_0 a))).
Qed.

Section AmountConversions.
Context `{BigUintLaws} `{EthnumCrate} {Unit : Type}.

Definition Amount_from_be_bytes (bytes : Bytes 32) : Amount Unit :=
  Build_Amount (u256_from_be_bytes bytes).
Definition Amount_to_be_bytes (self : Amount Unit) : Bytes 32 :=
  u256_to_be_bytes (amount_0 self).

(** [From<Nat256> for Amount] and [From<Amount> for Nat256]; the conversions on the way
    return, as shown above. *)
Definition Amount_from_Nat256 (value : Nat256) : Amount Unit :=
  Amount_from_be_bytes (the_value (Nat256_into_be_bytes value) (into_be_bytes_returns value)).
Definition Nat256_from_Amount (value : Amount Unit) : Nat256 :=
  let bytes := Amount_to_be_bytes value in
  the_value (Nat256_from_be_bytes bytes) (from_be_bytes_returns bytes).

Context `{!EthnumLaws}.

Lemma Amount_from_Nat256_value n : proj1_sig (amount_0 (Amount_from_Nat256 n)) = nat256_0 n.
Proof.
  destruct (into_be_bytes_value n) as (bs & E & Hv).
  unfold Amount_from_Nat256. rewrite (the_value_eq _ _ _ E). simpl.
  by rewrite u256_from_be_bytes_value.
Qed.

Lemma Nat256_from_Amount_value a : nat256_0 (Nat256_from_Amount a) = proj1_sig (amount_0 a).
Proof.
  destruct (from_be_bytes_value (Amount_to_be_bytes a)) as (n & E & Hv).
  unfold Nat256_from_Amount. rewrite (the_value_eq _ _ _ E), Hv.
  apply u256_to_be_bytes_value.
Qed.

Lemma Amount_from_Nat256_inj : Inj (=) (=) Amount_from_Nat256.
Proof.
  intros x y E. apply Nat256_eq. by rewrite <- !Amount_from_Nat256_value, E.
Qed.
Lemma Nat256_from_Amount_inj : Inj (=) (=) Nat256_from_Amount.
Proof.
  intros x y E. apply Amount_eq. by rewrite <- !Nat256_from_Amount_value, E.
Qed.
End AmountConversions.

(** The units are empty types. *)
Inductive WeiTag := .
Inductive WeiPerGasUnit := .
Inductive TransactionCountTag := .
Inductive TransactionNonceTag := .
Inductive TransactionIndexTag := .
Inductive BlockNumberTag := .
Inductive GasUnit := .
Inductive EthLogIndexTag := .
Inductive DifficultyTag := .
Inductive BlockNonceTag := .
Inductive NumBlocksTag := .
Inductive NumBytesTag := .
Inductive TimestampTag := .
Inductive ChainIdTag := .
Definition Wei : Type := Amount WeiTag.
Definition WeiPerGas : Type := Amount WeiPerGasUnit.
Definition TransactionCount : Type := Amount TransactionCountTag.
Definition TransactionNonce : Type := Amount TransactionNonceTag.
Definition TransactionIndex : Type := Amount TransactionIndexTag.
Definition BlockNumber : Type := Amount BlockNumberTag.
Definition GasAmount : Type := Amount GasUnit.
Definition LogIndex : Type := Amount EthLogIndexTag.
Definition Difficulty : Type := Amount DifficultyTag.
Definition BlockNonce : Type := Amount BlockNonceTag.
Definition NumBlocks : Type := Amount NumBlocksTag.
Definition NumBytes : Type := Amount NumBytesTag.
Definition block_Timestamp : Type := Amount TimestampTag.
Definition ChainId : Type := Amount ChainIdTag.

(** ** Properties *)

(** A natural number becomes a [Nat256] exactly when it is below 2^256, and keeps its
    value; a [Nat256] becomes a [u64] exactly when it is below 2^64, and every unsigned
    integer of at most 128 bits becomes a [Nat256]. *)
Theorem nat256_bounds `{BigUintLaws} (value : Z) :
  0 <= value ->
  ((exists n, Nat256_try_from value = Ok n /\ nat256_0 n = value) <-> value < 2 ^ 256) /\
  (2 ^ 256 <= value -> Nat256_try_from value = Err "Nat does not fit in a U256") /\
  (value < 2 ^ 128 -> exists n, Nat256_from value = Return n /\ nat256_0 n = value) /\
  (forall n, nat256_0 n = value -> forall z, u64_try_from_Nat256 n = Ok z <->
     z = value /\ value < 2 ^ 64).
Proof.
  intros Hv. split_and!.
  - split.
    + intros (n & _ & <-). apply nat256_range.
    + intros Hlt. assert (Hf : Nat256_fits value = true) by by apply Nat256_fits_spec.
      exists {| nat256_0 := value; nat256_fits := Hf |}. by rewrite Nat256_try_from_Ok.
  - intros Hle. apply Nat256_try_from_Err. split; [done|].
    apply not_true_iff_false. rewrite Nat256_fits_spec. lia.
  - intros Hlt. pose proof (Nat256_from_returns value (conj Hv Hlt)) as Hr.
    unfold Nat256_from in *. destruct (Nat256_try_from value) as [n|] eqn:E; [|done].
    exists n. by apply Nat256_try_from_Ok in E.
  - intros n <- z. unfold u64_try_from_Nat256. rewrite <- (u64_try_from_Ok _ z Hv).
    destruct (u64_try_from (nat256_0 n)); simpl; naive_solver.
Qed.

(** The two big-endian conversions of [Nat256] never panic and are inverse to each
    other, and so are the conversions between [Nat256] and an amount of any unit; all of
    them keep the value. *)
Theorem nat256_amount_roundtrip `{BigUintLaws} `{EthnumLaws} {Unit : Type}
    (n : Nat256) (a : Amount Unit) :
  (exists bs, Nat256_into_be_bytes n = Return bs /\ Nat256_from_be_bytes bs = Return n) /\
  proj1_sig (amount_0 (Amount_from_Nat256 (Unit := Unit) n)) = nat256_0 n /\
  nat256_0 (Nat256_from_Amount a) = proj1_sig (amount_0 a) /\
  Nat256_from_Amount (Amount_from_Nat256 (Unit := Unit) n) = n /\
  Amount_from_Nat256 (Nat256_from_Amount a) = a.
Proof.
  split_and!.
  - destruct (into_be_bytes_value n) as (bs & E & Hv). exists bs. split; [done|].
    destruct (from_be_bytes_value bs) as (n' & -> & Hv').
    f_equal. apply Nat256_eq. by rewrite Hv', Hv.
  - apply Amount_from_Nat256_value.
  - apply Nat256_from_Amount_value.
  - apply Nat256_eq. by rewrite Nat256_from_Amount_value, Amount_from_Nat256_value.
  - apply Amount_eq. by rewrite Amount_from_Nat256_value, Nat256_from_Amount_value.
Qed.

Section Witnesses.
Import Instances.Concrete.

Lemma nat256_bounds_witness :
  Nat256_try_from (2 ^ 256) = Err "Nat does not fit in a U256" /\
  exists n, Nat256_try_from (2 ^ 256 - 1) = Ok n /\ nat256_0 n = 2 ^ 256 - 1.
Proof.
  split.
  - apply (nat256_bounds (2 ^ 256) ltac:(by vm_compute)). reflexivity || lia.
  - apply (nat256_bounds (2 ^ 256 - 1) ltac:(by vm_compute)). reflexivity || lia.
Defined.

Definition nat_1000 : Nat256 := {| nat256_0 := 1000; nat256_fits := eq_refl |}.

Lemma nat256_amount_roundtrip_witness :
  Nat256_from_Amount (Amount_from_Nat256 (Unit := WeiTag) nat_1000) = nat_1000.
Proof. apply (nat256_amount_roundtrip (Unit := WeiTag) nat_1000 Amount_ONE). Defined.
End Witnesses.
