(* ===== verification/Hex.v ===== *)
(** Hexadecimal strings: the types [HexByte], [Hex20], [Hex32], [Hex256] and [Hex] with [Byte]
    ([evm_rpc_types/src/lib.rs]), and the byte arrays of the JSON types
    ([src/rpc_client/json/mod.rs]) with [util::hex_to_bytes]. *)

From Stdlib Require Import Ascii.
From S2P Require Import Prelude Collections EvmRpcTypes Externals.
From S2P Require Instances.
Open Scope Z_scope.

(** [&s[2..]]. *)
Definition str_skip2 (s : string) : string := String.substring 2 (String.length s - 2) s.

Lemma substring_all (s : string) : String.substring 0 (String.length s) s = s.
Proof. induction s as [|c s IH]; simpl; [done|]. by rewrite IH. Qed.

Lemma str_skip2_0x (s : string) : str_skip2 ("0x" +:+ s) = s.
Proof.
  unfold str_skip2.
  change (String.length ("0x" +:+ s)) with (S (S (String.length s))).
  change ("0x" +:+ s) with (String "0"%char (String "x"%char s)). simpl.
  rewrite Nat.sub_0_r. apply substring_all.
Qed.

Lemma starts_with_0x (s : string) : starts_with "0x" s = true -> s = "0x" +:+ str_skip2 s.
Proof.
  intros (rest & ->)%starts_with_inv. by rewrite str_skip2_0x.
Qed.

Section Hex.
Context `{HexCrate}.

(** [util::hex_to_bytes]. *)
Definition hex_to_bytes (hex : string) : option (list byte) :=
  if negb (starts_with "0x" hex) then None
  else match hex_decode (str_skip2 hex) with Ok b => Some b | Err _ => None end.

(** *** [Byte] *)

Record Byte := { byte_0 : Bytes 1 }.
Definition Byte_into_byte (self : Byte) : u8 := hd 0 (proj1_sig (byte_0 self)).
Definition Byte_from (value : u8) (Hv : bytes_ok 1 [value] = true) : Byte :=
  {| byte_0 := Bytes_make [value] Hv |}.
(** A single character is read as if a zero came before it. *)
Definition Byte_from_hex (hex : string) : Result Byte FromHexError :=
  match hex with
  | String a EmptyString =>
      result_map Build_Byte (hex_decode_array 1 (String "0"%char (String a EmptyString)))
  | h => result_map Build_Byte (hex_decode_array 1 h)
  end.

(** *** The macro [impl_hex_string]

    [Display] (also [From<$name> for String]) and [FromStr] (also [TryFrom<String>]). *)
Definition hex_string_display (data : list byte) : string := "0x" +:+ hex_encode data.

Definition hex_string_from_str {D} (from_hex : string -> Result D FromHexError) (s : string) :
  Result D string :=
  if negb (starts_with "0x" s) then Err "Ethereum hex string doesn't start with 0x"
  else
    result_map_err (fun e => "Invalid Ethereum hex string: " +:+ FromHexError_to_string e)
      (from_hex (str_skip2 s)).

Record HexByte := { HexByte_0 : Byte }.
Record Hex20 := { Hex20_0 : Bytes 20 }.
Record Hex32 := { Hex32_0 : Bytes 32 }.
Record Hex256 := { Hex256_0 : Bytes 256 }.
Record Hex := { Hex_0 : list byte }.

Definition HexByte_to_string (h : HexByte) : string :=
  hex_string_display (proj1_sig (byte_0 (HexByte_0 h))).
Definition Hex20_to_string (h : Hex20) : string := hex_string_display (proj1_sig (Hex20_0 h)).
Definition Hex32_to_string (h : Hex32) : string := hex_string_display (proj1_sig (Hex32_0 h)).
Definition Hex256_to_string (h : Hex256) : string := hex_string_display (proj1_sig (Hex256_0 h)).
Definition Hex_to_string (h : Hex) : string := hex_string_display (Hex_0 h).

Definition HexByte_from_str (s : string) : Result HexByte string :=
  result_map Build_HexByte (hex_string_from_str Byte_from_hex s).
Definition Hex20_from_str (s : string) : Result Hex20 string :=
  result_map Build_Hex20 (hex_string_from_str (hex_decode_array 20) s).
Definition Hex32_from_str (s : string) : Result Hex32 string :=
  result_map Build_Hex32 (hex_string_from_str (hex_decode_array 32) s).
Definition Hex256_from_str (s : string) : Result Hex256 string :=
  result_map Build_Hex256 (hex_string_from_str (hex_decode_array 256) s).
Definition Hex_from_str (s : string) : Result Hex string :=
  result_map Build_Hex (hex_string_from_str hex_decode s).

Definition HexByte_into_byte (self : HexByte) : u8 := Byte_into_byte (HexByte_0 self).
Definition HexByte_from (value : u8) (Hv : bytes_ok 1 [value] = true) : HexByte :=
  {| HexByte_0 := Byte_from value Hv |}.
Definition Hex20_as_array (self : Hex20) : Bytes 20 := Hex20_0 self.
Definition Hex32_as_array (self : Hex32) : Bytes 32 := Hex32_0 self.
Definition Hex256_as_array (self : Hex256) : Bytes 256 := Hex256_0 self.

(** *** The macro [bytes_array] of the JSON types *)

Definition bytes_array_from_str (size : nat) (s : string) : Result (Bytes size) string :=
  if negb (starts_with "0x" s) then Err "Ethereum hex string doesn't start with 0x"
  else
    result_map_err (fun e => "failed to decode hash from hex: " +:+ FromHexError_to_string e)
      (hex_decode_array size (str_skip2 s)).
(** [Display], [Debug] and [LowerHex]. *)
Definition bytes_array_display {size} (value : Bytes size) : string :=
  "0x" +:+ hex_encode (`value).

(** [impl AsRef<[u8]>]. *)
Definition bytes_array_as_ref {size} (value : Bytes size) : list byte := `value.

Record FixedSizeData := FixedSizeData_new { FixedSizeData_into_bytes : Bytes 32 }.
Record Hash := Hash_new { Hash_into_bytes : Bytes 32 }.
Record LogsBloom := LogsBloom_new { LogsBloom_into_bytes : Bytes 256 }.
Record StorageKey := StorageKey_new { StorageKey_into_bytes : Bytes 32 }.

Definition FixedSizeData_from_str (s : string) : Result FixedSizeData string :=
  result_map FixedSizeData_new (bytes_array_from_str 32 s).
Definition Hash_from_str (s : string) : Result Hash string :=
  result_map Hash_new (bytes_array_from_str 32 s).
Definition LogsBloom_from_str (s : string) : Result LogsBloom string :=
  result_map LogsBloom_new (bytes_array_from_str 256 s).
Definition StorageKey_from_str (s : string) : Result StorageKey string :=
  result_map StorageKey_new (bytes_array_from_str 32 s).

Record JsonByte := { JsonByte_0 : Byte }.
Definition JsonByte_new (value : u8) (Hv : bytes_ok 1 [value] = true) : JsonByte :=
  {| JsonByte_0 := Byte_from value Hv |}.
Definition JsonByte_into_byte (self : JsonByte) : u8 := Byte_into_byte (JsonByte_0 self).

(** ** Lemmas *)

#[export] Instance Byte_eq_dec : EqDecision Byte.
Proof. solve_decision. Defined.
#[export] Instance HexByte_eq_dec : EqDecision HexByte.
Proof. solve_decision. Defined.
#[export] Instance Hex20_eq_dec : EqDecision Hex20.
Proof. solve_decision. Defined.
#[export] Instance Hex32_eq_dec : EqDecision Hex32.
Proof. solve_decision. Defined.
#[export] Instance Hex256_eq_dec : EqDecision Hex256.
Proof. solve_decision. Defined.
#[export] Instance Hex_eq_dec : EqDecision Hex.
Proof. solve_decision. Defined.
#[export] Instance FixedSizeData_eq_dec : EqDecision FixedSizeData.
Proof. solve_decision. Defined.
#[export] Instance Hash_eq_dec : EqDecision Hash.
Proof. solve_decision. Defined.
#[export] Instance LogsBloom_eq_dec : EqDecision LogsBloom.
Proof. solve_decision. Defined.
#[export] Instance StorageKey_eq_dec : EqDecision StorageKey.
Proof. solve_decision. Defined.
#[export] Instance JsonByte_eq_dec : EqDecision JsonByte.
Proof. solve_decision. Defined.

(** A byte is the value of its only entry. *)
Lemma Byte_ok (b : Byte) : bytes_ok 1 [Byte_into_byte b] = true.
Proof.
  destruct b as [[[|x [|y l]] Hb]]; unfold Byte_into_byte; simpl in *; [done|done|].
  by apply bytes_ok_spec in Hb as [? _].
Qed.
Lemma Byte_from_into (b : Byte) (Hv : bytes_ok 1 [Byte_into_byte b] = true) :
  Byte_from (Byte_into_byte b) Hv = b.
Proof.
  destruct b as [[l Hb]]. unfold Byte_from. f_equal. apply Bytes_eq. simpl.
  pose proof (proj1 (bytes_ok_spec _ _) Hb) as [Hl _]. unfold Byte_into_byte. simpl.
  by destruct l as [|x [|y l]].
Qed.

Context `{!HexLaws}.

Lemma hex_decode_array_encode {n} (b : Bytes n) : hex_decode_array n (hex_encode (`b)) = Ok b.
Proof.
  apply hex_decode_array_spec, hex_decode_encode. destruct b as [b Hb]. simpl.
  by destruct (proj1 (bytes_ok_spec _ _) Hb).
Qed.

Lemma hex_string_from_str_Ok {D} (from_hex : string -> Result D FromHexError) s d :
  hex_string_from_str from_hex s = Ok d <->
  exists digits, s = "0x" +:+ digits /\ from_hex digits = Ok d.
Proof.
  unfold hex_string_from_str. split.
  - destruct (starts_with "0x" s) eqn:E; [|done]. simpl.
    destruct (from_hex _) eqn:Ef; [|done]. simpl. intros [= ->].
    eexists. split; [by apply starts_with_0x|done].
  - intros (digits & -> & Ed). rewrite starts_with_app. simpl.
    by rewrite str_skip2_0x, Ed.
Qed.

Lemma bytes_array_from_str_display {size} (b : Bytes size) :
  bytes_array_from_str size (bytes_array_display b) = Ok b.
Proof.
  unfold bytes_array_from_str, bytes_array_display. rewrite starts_with_app. simpl.
  by rewrite str_skip2_0x, hex_decode_array_encode.
Qed.

Lemma Byte_from_hex_encode (b : Byte) : Byte_from_hex (hex_encode (proj1_sig (byte_0 b))) = Ok b.
Proof.
  pose proof (hex_encode_length (proj1_sig (byte_0 b))) as Hl.
  assert (length (proj1_sig (byte_0 b)) = 1%nat) as E1.
  { destruct b as [[l Hb]]. simpl. by destruct (proj1 (bytes_ok_spec _ _) Hb). }
  rewrite E1 in Hl. unfold Byte_from_hex.
  assert (Hd : hex_decode_array 1 (hex_encode (proj1_sig (byte_0 b))) = Ok (byte_0 b))
    by apply hex_decode_array_encode.
  destruct (hex_encode (proj1_sig (byte_0 b))) as [|c [|d t]]; simpl in Hl; [lia|lia|].
  rewrite Hd. by destruct b.
Qed.
End Hex.

(** ** Properties *)

(** Reading what was written gives the value back, for every hexadecimal type of the
    Candid interface and for the byte arrays of the JSON types. *)
Theorem hex_roundtrip `{HexLaws} (h1 : HexByte) (h20 : Hex20) (h32 : Hex32) (h256 : Hex256)
    (h : Hex) (j32 : Hash) (j256 : LogsBloom) :
  HexByte_from_str (HexByte_to_string h1) = Ok h1 /\
  Hex20_from_str (Hex20_to_string h20) = Ok h20 /\
  Hex32_from_str (Hex32_to_string h32) = Ok h32 /\
  Hex256_from_str (Hex256_to_string h256) = Ok h256 /\
  (is_bytes (Hex_0 h) -> Hex_from_str (Hex_to_string h) = Ok h) /\
  Hash_from_str (bytes_array_display (Hash_into_bytes j32)) = Ok j32 /\
  LogsBloom_from_str (bytes_array_display (LogsBloom_into_bytes j256)) = Ok j256.
Proof.
  assert (Hs : forall D (from_hex : string -> Result D FromHexError) data d,
    from_hex (hex_encode data) = Ok d ->
    hex_string_from_str from_hex (hex_string_display data) = Ok d).
  { intros D from_hex data d Ed. apply hex_string_from_str_Ok. by eexists. }
  unfold HexByte_from_str, Hex20_from_str, Hex32_from_str, Hex256_from_str, Hex_from_str,
    Hash_from_str, LogsBloom_from_str, HexByte_to_string, Hex20_to_string, Hex32_to_string,
    Hex256_to_string, Hex_to_string.
  split_and!; [| | | |intros Hb| |]; rewrite ?bytes_array_from_str_display;
    [..|by destruct j32|by destruct j256].
  - destruct h1 as [b]. erewrite Hs; [done|]. apply Byte_from_hex_encode.
  - destruct h20 as [b]. erewrite Hs; [done|]. apply hex_decode_array_encode.
  - destruct h32 as [b]. erewrite Hs; [done|]. apply hex_decode_array_encode.
  - destruct h256 as [b]. erewrite Hs; [done|]. apply hex_decode_array_encode.
  - destruct h as [b]. erewrite Hs; [done|]. by apply hex_decode_encode.
Qed.

(** A text is read as a 32-byte value exactly when it is [0x] followed by 64 characters
    that the [hex] crate decodes to these bytes; a text without the prefix is refused with
    the documented message. A [HexByte] may also be written with a single digit. *)
Theorem hex_from_str_accepts `{HexLaws} (s : string) :
  (forall h, Hex32_from_str s = Ok h <->
     exists digits, s = "0x" +:+ digits /\ String.length digits = 64%nat /\
       hex_decode digits = Ok (proj1_sig (Hex32_0 h))) /\
  (starts_with "0x" s = false ->
     Hex32_from_str s = Err "Ethereum hex string doesn't start with 0x" /\
     HexByte_from_str s = Err "Ethereum hex string doesn't start with 0x") /\
  (forall c h, HexByte_from_str ("0x" +:+ String "0"%char (String c "")) = Ok h <->
     HexByte_from_str ("0x" +:+ String c "") = Ok h).
Proof.
  split_and!.
  - intros h. unfold Hex32_from_str. destruct h as [b]. split.
    + destruct (hex_string_from_str _ s) as [b'|] eqn:E; simpl; [|done]. intros [= ->].
      apply hex_string_from_str_Ok in E as (digits & -> & Ed%hex_decode_array_spec).
      exists digits. split_and!; [done| |done].
      apply hex_decode_bytes in Ed as [_ ->]. destruct b as [b Hb]. simpl.
      destruct (proj1 (bytes_ok_spec _ _) Hb) as [-> _]. done.
    + intros (digits & -> & _ & Ed). simpl in Ed.
      rewrite (proj2 (hex_string_from_str_Ok _ _ b)); [done|].
      exists digits. by rewrite hex_decode_array_spec.
  - intros E. unfold Hex32_from_str, HexByte_from_str, hex_string_from_str. by rewrite E.
  - intros c h. unfold HexByte_from_str, hex_string_from_str.
    rewrite !starts_with_app, !str_skip2_0x. done.
Qed.

Section Witnesses.
Import Instances.Concrete.

Lemma hex_roundtrip_witness :
  Hex_from_str (Hex_to_string {| Hex_0 := [171; 205] |}) = Ok {| Hex_0 := [171; 205] |} /\
  Hex_to_string {| Hex_0 := [171; 205] |} = "0xabcd".
Proof.
  split; [|reflexivity].
  apply (hex_roundtrip
    {| HexByte_0 := {| byte_0 := @Bytes_make 1 [0] eq_refl |} |}
    {| Hex20_0 := @Bytes_make 20 (replicate 20 0) eq_refl |}
    {| Hex32_0 := @Bytes_make 32 (replicate 32 0) eq_refl |}
    {| Hex256_0 := @Bytes_make 256 (replicate 256 0) eq_refl |}
    {| Hex_0 := [171; 205] |}
    (Hash_new (@Bytes_make 32 (replicate 32 0) eq_refl))
    (LogsBloom_new (@Bytes_make 256 (replicate 256 0) eq_refl))).
  repeat constructor; lia.
Defined.

Lemma hex_from_str_accepts_witness :
  Hex32_from_str "abcd" = Err "Ethereum hex string doesn't start with 0x".
Proof. apply (hex_from_str_accepts "abcd"). reflexivity. Defined.
End Witnesses.
