(* ===== verification/Wire.v ===== *)
(** The forms in which numbers and hexadecimal values leave the program and come back: the
    hand-written Candid, [serde] and formatting code of [evm_rpc_types/src/lib.rs],
    [src/rpc_client/amount/mod.rs] and [src/rpc_client/json/mod.rs]. *)

From Stdlib Require Import Ascii.
From S2P Require Import Prelude Collections EvmRpcTypes Externals Numbers Hex.
From S2P Require Instances.
Open Scope Z_scope.
Open Scope canister_scope.

(** ** Crates *)

(** Crate [serde]: a data format, as its [Serializer] and its [Deserializer] present it to the
    two types that the source converts to, [candid::Nat] and [String]. *)
Class SerdeSerializer := {
  serde_Output : Type;
  serde_Error : Type;
  serialize_Nat : Z -> Result serde_Output serde_Error;
  serialize_String : string -> Result serde_Output serde_Error;
}.
Class SerdeDeserializer (Input : Type) := {
  deserialize_Nat : Input -> Result Z string;
  deserialize_String : Input -> Result string string;
}.

(** Crate [candid]: the types of values and the two methods of its own [Serializer] that the
    source calls; what was written is read through [serde]. *)
Class CandidCrate := {
  CandidTy : Type;
  Nat_ty : CandidTy;
  String_ty : CandidTy;
  Wire : Type;
  serializer_Error : Type;
  serialize_nat : Z -> Result Wire serializer_Error;
  serialize_text : string -> Result Wire serializer_Error;
  #[global] candid_deserializer :: SerdeDeserializer Wire;
}.
(** A natural number and a text survive Candid. *)
Class CandidLaws `{CandidCrate} := {
  serialize_nat_Ok n : 0 <= n -> exists w, serialize_nat n = Ok w /\ deserialize_Nat w = Ok n;
  serialize_text_Ok s : exists w, serialize_text s = Ok w /\ deserialize_String w = Ok s;
}.

(** Crate [thousands], on [ethnum::u256]: the decimal digits with separators. *)
Class ThousandsCrate := separate_with_underscores : U256 -> string.
Fixpoint without_underscores (s : string) : string :=
  match s with
  | EmptyString => EmptyString
  | String c s =>
      if Ascii.eqb c "_"%char then without_underscores s else String c (without_underscores s)
  end.
Class ThousandsLaws `{ThousandsCrate} :=
  separate_digits (z : U256) : without_underscores (separate_with_underscores z) = pretty (proj1_sig z).

(** [ethnum::u256] and [hex] in base 16, with lower-case and upper-case digits. *)
Class HexFormatting := {
  u256_lower_hex : U256 -> string;
  u256_upper_hex : U256 -> string;
  hex_encode_upper : list byte -> string;
}.
Class HexFormattingLaws `{HexCrate} `{!HexFormatting} :=
  hex_decode_encode_upper b : is_bytes b -> hex_decode (hex_encode_upper b) = Ok b.

(** ** [Nat256] *)

Section Nat256.
Context `{BigUintCrate}.

(** [impl Display] and [impl Debug]: the number without separators. *)
Definition Nat256_display (self : Nat256) : string := nat_display (nat256_0 self).
Definition Nat256_debug (self : Nat256) : string := nat_display (nat256_0 self).
(** [Nat256::ZERO]; [impl AsRef<Nat>], [impl From<Nat256> for Nat]. *)
Definition Nat256_ZERO (fits : Nat256_fits 0 = true) : Nat256 :=
  {| nat256_0 := 0; nat256_fits := fits |}.
Definition Nat256_as_ref (self : Nat256) : Z := nat256_0 self.
Definition Nat_from_Nat256 (value : Nat256) : Z := nat256_0 value.

Context `{CandidCrate}.
(** [impl CandidType]. *)
Definition Nat256_ty : CandidTy := Nat_ty.
Definition Nat256_idl_serialize (self : Nat256) : Result Wire serializer_Error :=
  serialize_nat (Nat256_as_ref self).
(** [#[serde(try_from = candid::Nat, into = candid::Nat)]]: in any format, the form of the
    [candid::Nat]. *)
Definition Nat256_serialize `{SerdeSerializer} (self : Nat256) :
  Result serde_Output serde_Error :=
  serialize_Nat (Nat_from_Nat256 self).
Definition Nat256_deserialize `{SerdeDeserializer Input} (w : Input) : Result Nat256 string :=
  let? value := deserialize_Nat w in Nat256_try_from value.
End Nat256.

(** ** The types of the macro [impl_hex_string] *)

(** What the macro is given, the type of the data with its [FromHex] and its bytes, and what
    it derives from it: [From<$data>], [From<$name> for $data], [Display], [FromStr]. *)
Class HexString `{HexCrate} (T D : Type) := {
  hex_from : D -> T;
  hex_data : T -> D;
  hex_as_ref : T -> list byte;
  hex_to_string : T -> string;
  hex_from_str : string -> Result T string;
}.

Section HexString.
Context `{HexCrate}.

#[export] Instance HexByte_string : HexString HexByte Byte := {|
  hex_from := Build_HexByte; hex_data := HexByte_0;
  hex_as_ref h := proj1_sig (byte_0 (HexByte_0 h));
  hex_to_string := HexByte_to_string; hex_from_str := HexByte_from_str |}.
#[export] Instance Hex20_string : HexString Hex20 (Bytes 20) := {|
  hex_from := Build_Hex20; hex_data := Hex20_0; hex_as_ref h := proj1_sig (Hex20_0 h);
  hex_to_string := Hex20_to_string; hex_from_str := Hex20_from_str |}.
#[export] Instance Hex32_string : HexString Hex32 (Bytes 32) := {|
  hex_from := Build_Hex32; hex_data := Hex32_0; hex_as_ref h := proj1_sig (Hex32_0 h);
  hex_to_string := Hex32_to_string; hex_from_str := Hex32_from_str |}.
#[export] Instance Hex256_string : HexString Hex256 (Bytes 256) := {|
  hex_from := Build_Hex256; hex_data := Hex256_0; hex_as_ref h := proj1_sig (Hex256_0 h);
  hex_to_string := Hex256_to_string; hex_from_str := Hex256_from_str |}.
#[export] Instance Hex_string : HexString Hex (list byte) := {|
  hex_from := Build_Hex; hex_data := Hex_0; hex_as_ref h := Hex_0 h;
  hex_to_string := Hex_to_string; hex_from_str := Hex_from_str |}.

Context {T D : Type} `{!HexString T D} `{CandidCrate}.

(** [impl Debug]: as [Display]. *)
Definition hex_debug (self : T) : string := hex_to_string self.
(** [impl CandidType]. *)
Definition hex_ty : CandidTy := String_ty.
Definition hex_idl_serialize (self : T) : Result Wire serializer_Error :=
  serialize_text (hex_to_string self).
(** [impl TryFrom<String>], [impl From<$name> for String] and
    [#[serde(try_from = String, into = String)]]: in any format, the form of the [String]. *)
Definition hex_try_from (value : string) : Result T string := hex_from_str value.
Definition String_from_hex (value : T) : string := hex_to_string value.
Definition hex_serialize `{SerdeSerializer} (self : T) : Result serde_Output serde_Error :=
  serialize_String (String_from_hex self).
Definition hex_deserialize `{SerdeDeserializer Input} (w : Input) : Result T string :=
  let? value := deserialize_String w in hex_try_from value.
End HexString.

(** [impl AsRef<[u8]> for Byte], [impl From<HexByte> for u8]. *)
Definition Byte_as_ref (self : Byte) : list byte := proj1_sig (byte_0 self).
Definition u8_from_HexByte (value : HexByte) : u8 := Byte_into_byte (HexByte_0 value).

(** ** The byte arrays of the JSON types: [UpperHex] *)

Definition bytes_array_upper_hex `{HexFormatting} {size} (value : Bytes size) : string :=
  "0x" +:+ hex_encode_upper (`value).

(** ** [Amount] *)

Section Amount.
Context {Unit : Type}.

(** [impl_from!]: from an unsigned integer of at most 128 bits. *)
Definition Amount_from (value : u128) (H : is_u256 value = true) : Amount Unit :=
  Build_Amount (U256_from value H).
(** The digits of the number, and the digits with separators ([Display] and [Debug]). *)
Definition Amount_to_string_inner (self : Amount Unit) : string := pretty (proj1_sig (amount_0 self)).
Definition Amount_display `{ThousandsCrate} (self : Amount Unit) : string :=
  separate_with_underscores (amount_0 self).
Definition Amount_debug `{ThousandsCrate} (self : Amount Unit) : string :=
  separate_with_underscores (amount_0 self).
Definition Amount_lower_hex `{HexFormatting} (self : Amount Unit) : string :=
  u256_lower_hex (amount_0 self).
Definition Amount_upper_hex `{HexFormatting} (self : Amount Unit) : string :=
  u256_upper_hex (amount_0 self).
(** [PartialEq], [PartialOrd] and [Ord]: those of the number. *)
Definition Amount_eq_test (self rhs : Amount Unit) : bool :=
  proj1_sig (amount_0 self) =? proj1_sig (amount_0 rhs).
Definition Amount_cmp (self rhs : Amount Unit) : comparison :=
  proj1_sig (amount_0 self) ?= proj1_sig (amount_0 rhs).
Definition Amount_partial_cmp (self rhs : Amount Unit) : option comparison :=
  Some (Amount_cmp self rhs).
End Amount.

(** ** Lemmas *)

(** The values of a hexadecimal type that its text gives back; a byte of the model is an
    integer, so that for [Hex] they are the lists of bytes. *)
Class HexStringLaws (T D : Type) `{HexString T D} (ok : T -> Prop) := {
  hex_from_to_string (x : T) : ok x -> hex_from_str (hex_to_string x) = Ok x;
  hex_from_data (x : T) : hex_from (hex_data x) = x;
  hex_data_from (d : D) : hex_data (hex_from d) = d;
}.

Section HexLaws.
Context `{HexLaws}.

Lemma hex_string_from_str_display {D} (from_hex : string -> Result D FromHexError) data d :
  from_hex (hex_encode data) = Ok d ->
  hex_string_from_str from_hex (hex_string_display data) = Ok d.
Proof. intros Ed. apply hex_string_from_str_Ok. by eexists. Qed.

#[export] Instance HexByte_string_laws : HexStringLaws HexByte Byte (fun _ => True).
Proof.
  split; [|by intros []|done]. intros [b] _. cbv [hex_from_str hex_to_string HexByte_string].
  unfold HexByte_from_str, HexByte_to_string.
  by erewrite hex_string_from_str_display by apply Byte_from_hex_encode.
Qed.
#[export] Instance Hex20_string_laws : HexStringLaws Hex20 (Bytes 20) (fun _ => True).
Proof.
  split; [|by intros []|done]. intros [b] _. cbv [hex_from_str hex_to_string Hex20_string].
  unfold Hex20_from_str, Hex20_to_string.
  by erewrite hex_string_from_str_display by apply hex_decode_array_encode.
Qed.
#[export] Instance Hex32_string_laws : HexStringLaws Hex32 (Bytes 32) (fun _ => True).
Proof.
  split; [|by intros []|done]. intros [b] _. cbv [hex_from_str hex_to_string Hex32_string].
  unfold Hex32_from_str, Hex32_to_string.
  by erewrite hex_string_from_str_display by apply hex_decode_array_encode.
Qed.
#[export] Instance Hex256_string_laws : HexStringLaws Hex256 (Bytes 256) (fun _ => True).
Proof.
  split; [|by intros []|done]. intros [b] _. cbv [hex_from_str hex_to_string Hex256_string].
  unfold Hex256_from_str, Hex256_to_string.
  by erewrite hex_string_from_str_display by apply hex_decode_array_encode.
Qed.
#[export] Instance Hex_string_laws : HexStringLaws Hex (list byte) (fun h => is_bytes (Hex_0 h)).
Proof.
  split; [|by intros []|done]. intros [b] Hb. cbv [hex_from_str hex_to_string Hex_string].
  unfold Hex_from_str, Hex_to_string.
  by erewrite hex_string_from_str_display by by apply hex_decode_encode.
Qed.
End HexLaws.

(** The forms of any type of the macro, from the laws of the type. *)
Section HexWire.
Context `{HexCrate} {T D : Type} `{!HexString T D}.

Lemma hex_deserialize_Ok `{SerdeDeserializer Input} (w : Input) (h : T) :
  hex_deserialize w = Ok h <->
  exists s, deserialize_String w = Ok s /\ hex_from_str s = Ok h.
Proof.
  unfold hex_deserialize, hex_try_from. destruct (deserialize_String w) as [s|]; simpl; [|naive_solver].
  split; [by exists s|]. by intros (t & [= <-] & E).
Qed.

Lemma hex_candid_roundtrip `{CandidLaws} ok `{!HexStringLaws T D ok} (x : T) :
  ok x -> exists w, hex_idl_serialize x = Ok w /\ hex_deserialize w = Ok x.
Proof.
  intros Hx. destruct (serialize_text_Ok (hex_to_string x)) as (w & Ew & Er).
  exists w. split; [done|]. rewrite hex_deserialize_Ok. eexists. split; [exact Er|].
  by apply (hex_from_to_string (ok := ok)).
Qed.

Lemma hex_serde_roundtrip `{SerdeSerializer} `{!SerdeDeserializer serde_Output} ok
    `{!HexStringLaws T D ok} (x : T) w :
  ok x -> hex_serialize x = Ok w -> deserialize_String w = Ok (hex_to_string x) ->
  hex_deserialize w = Ok x.
Proof.
  intros Hx _ Er. rewrite hex_deserialize_Ok. eexists. split; [exact Er|].
  by apply (hex_from_to_string (ok := ok)).
Qed.
End HexWire.

(** The texts that a hexadecimal type accepts: [0x] and digits, small or capital, as many of
    them as the type takes; a single digit of a byte stands for two. *)
Section HexAccepts.
Context `{HexLaws} `{!HexDigitsLaws}.

Lemma hex_decode_array_accepts n s :
  (exists b, hex_decode_array n s = Ok b) <-> hex_digits s = true /\ String.length s = (2 * n)%nat.
Proof.
  split.
  - intros [[b Hb] E%hex_decode_array_spec]. simpl in E.
    destruct (proj1 (hex_decode_accepts s) ltac:(by eexists)) as [Hd _]. split; [done|].
    apply hex_decode_bytes in E as [_ ->]. by destruct (proj1 (bytes_ok_spec _ _) Hb) as [-> _].
  - intros [Hd Hl]. destruct (proj2 (hex_decode_accepts s)) as [b Eb].
    { split; [done|]. rewrite Hl. apply Nat.even_spec. by exists n. }
    pose proof (hex_decode_bytes s b Eb) as [Hb Hlb].
    assert (Hok : bytes_ok n b = true) by (apply bytes_ok_spec; split; [lia|done]).
    exists (Bytes_make b Hok). by apply hex_decode_array_spec.
Qed.

(** A byte: one digit or two. *)
Definition byte_digits (s : string) : string :=
  match s with String a EmptyString => String "0"%char s | _ => s end.

Lemma Byte_from_hex_eq s :
  Byte_from_hex s = result_map Build_Byte (hex_decode_array 1 (byte_digits s)).
Proof. by destruct s as [|a [|b s]]. Qed.
Lemma Byte_from_hex_accepts s :
  (exists b, Byte_from_hex s = Ok b) <->
  hex_digits s = true /\ (String.length s = 1%nat \/ String.length s = 2%nat).
Proof.
  rewrite Byte_from_hex_eq. transitivity (exists b, hex_decode_array 1 (byte_digits s) = Ok b).
  { destruct (hex_decode_array 1 _) as [b|e]; simpl; [|naive_solver].
    split; intros _; by eexists. }
  rewrite hex_decode_array_accepts. unfold hex_digits, string_forall.
  destruct s as [|a [|b [|c s]]]; simpl; try lia; intuition congruence || lia.
Qed.

(** The digits as they are shown: in small letters, two for a byte. *)
Class HexAccepts (T D : Type) `{HexString T D} (size_ok : nat -> Prop) (pad : string -> string) := {
  hex_accepts s : (exists h : T, hex_from_str s = Ok h) <->
    exists digits, s = "0x" +:+ digits /\ hex_digits digits = true /\ size_ok (String.length digits);
  hex_accepted_value digits (h : T) :
    hex_from_str ("0x" +:+ digits) = Ok h ->
    hex_to_string h = "0x" +:+ to_ascii_lowercase (pad digits);
}.

Lemma hex_string_accepts {D T} (from_hex : string -> Result D FromHexError) (build : D -> T)
    (size_ok : nat -> Prop) s :
  (forall digits, (exists d, from_hex digits = Ok d) <->
     hex_digits digits = true /\ size_ok (String.length digits)) ->
  (exists h, result_map build (hex_string_from_str from_hex s) = Ok h) <->
  exists digits, s = "0x" +:+ digits /\ hex_digits digits = true /\ size_ok (String.length digits).
Proof.
  intros Ha. transitivity (exists d, hex_string_from_str from_hex s = Ok d).
  { destruct (hex_string_from_str _ _) as [d|e]; simpl; [|naive_solver].
    split; intros _; by eexists. }
  split.
  - intros (d & (digits & -> & E)%hex_string_from_str_Ok). exists digits. split; [done|].
    apply Ha. by exists d.
  - intros (digits & -> & [d E]%Ha). exists d. apply hex_string_from_str_Ok. by exists digits.
Qed.

Lemma hex_string_value {D T} (from_hex : string -> Result D FromHexError) (build : D -> T)
    digits h :
  result_map build (hex_string_from_str from_hex ("0x" +:+ digits)) = Ok h ->
  exists d, from_hex digits = Ok d /\ h = build d.
Proof.
  destruct (hex_string_from_str _ _) as [d|e] eqn:E; simpl; [|done]. intros [= <-].
  apply hex_string_from_str_Ok in E as (digits' & Ed & E). apply (f_equal str_skip2) in Ed.
  rewrite !str_skip2_0x in Ed. subst digits'. by exists d.
Qed.

Lemma array_shown n digits (b : Bytes n) :
  hex_decode_array n digits = Ok b -> hex_string_display (`b) = "0x" +:+ to_ascii_lowercase digits.
Proof.
  intros E%hex_decode_array_spec. unfold hex_string_display. by rewrite (hex_encode_decode digits).
Qed.

#[export] Instance HexByte_accepts : HexAccepts HexByte Byte (fun n => n = 1%nat \/ n = 2%nat) byte_digits.
Proof.
  split.
  - intros s. exact (hex_string_accepts Byte_from_hex Build_HexByte
      (fun n => n = 1%nat \/ n = 2%nat) s Byte_from_hex_accepts).
  - intros digits h E. apply (hex_string_value Byte_from_hex Build_HexByte) in E as (b & E & ->).
    rewrite Byte_from_hex_eq in E. destruct (hex_decode_array 1 _) as [b'|] eqn:E'; [|done].
    injection E as <-. exact (array_shown 1 _ b' E').
Qed.
#[export] Instance Hex20_accepts : HexAccepts Hex20 (Bytes 20) (fun n => n = 40%nat) id.
Proof.
  split.
  - intros s. exact (hex_string_accepts (hex_decode_array 20) Build_Hex20 (fun n => n = 40%nat) s
      (hex_decode_array_accepts 20)).
  - intros digits h E. apply (hex_string_value (hex_decode_array 20) Build_Hex20) in E as (b & E & ->).
    exact (array_shown 20 _ b E).
Qed.
#[export] Instance Hex32_accepts : HexAccepts Hex32 (Bytes 32) (fun n => n = 64%nat) id.
Proof.
  split.
  - intros s. exact (hex_string_accepts (hex_decode_array 32) Build_Hex32 (fun n => n = 64%nat) s
      (hex_decode_array_accepts 32)).
  - intros digits h E. apply (hex_string_value (hex_decode_array 32) Build_Hex32) in E as (b & E & ->).
    exact (array_shown 32 _ b E).
Qed.
#[export] Instance Hex256_accepts : HexAccepts Hex256 (Bytes 256) (fun n => n = 512%nat) id.
Proof.
  split.
  - intros s. exact (hex_string_accepts (hex_decode_array 256) Build_Hex256 (fun n => n = 512%nat) s
      (hex_decode_array_accepts 256)).
  - intros digits h E. apply (hex_string_value (hex_decode_array 256) Build_Hex256) in E as (b & E & ->).
    exact (array_shown 256 _ b E).
Qed.
#[export] Instance Hex_accepts : HexAccepts Hex (list byte) (fun n => Nat.even n = true) id.
Proof.
  split.
  - intros s. exact (hex_string_accepts hex_decode Build_Hex (fun n => Nat.even n = true) s
      hex_decode_accepts).
  - intros digits h E. apply (hex_string_value hex_decode Build_Hex) in E as (b & E & ->).
    cbv [hex_to_string Hex_string Hex_to_string hex_string_display Hex_0].
    by rewrite (hex_encode_decode digits).
Qed.

Lemma hex_deserialize_accepts {T D size_ok pad} `{HA : HexAccepts T D size_ok pad}
    `{SerdeDeserializer Input} (w : Input) :
  ((exists h : T, hex_deserialize w = Ok h) <->
   exists digits, deserialize_String w = Ok ("0x" +:+ digits) /\ hex_digits digits = true /\
     size_ok (String.length digits)) /\
  forall digits (h : T), deserialize_String w = Ok ("0x" +:+ digits) -> hex_deserialize w = Ok h ->
    hex_to_string h = "0x" +:+ to_ascii_lowercase (pad digits).
Proof.
  split.
  - setoid_rewrite hex_deserialize_Ok. split.
    + intros (h & s & Es & Eh). destruct (proj1 (hex_accepts s)) as (digits & -> & Hd);
        [by exists h|]. by exists digits.
    + intros (digits & Es & Hd). destruct (proj2 (hex_accepts ("0x" +:+ digits))) as [h Eh];
        [by exists digits|]. exists h, ("0x" +:+ digits). done.
  - intros digits h Es (s & Es' & Eh)%hex_deserialize_Ok. rewrite Es in Es'. injection Es' as <-.
    by apply hex_accepted_value.
Qed.
End HexAccepts.

Lemma Nat256_deserialize_spec `{BigUintLaws} `{SerdeDeserializer Input} (w : Input) :
  ((exists n, Nat256_deserialize w = Ok n) <->
     exists v, deserialize_Nat w = Ok v /\ 0 <= v < 2 ^ 256) /\
  (forall n, Nat256_deserialize w = Ok n -> deserialize_Nat w = Ok (nat256_0 n)) /\
  (forall v, deserialize_Nat w = Ok v -> 2 ^ 256 <= v ->
     Nat256_deserialize w = Err "Nat does not fit in a U256").
Proof.
  split_and!; unfold Nat256_deserialize.
  - split.
    + destruct (deserialize_Nat w) as [v|] eqn:E; [|by intros [n En]]. simpl.
      intros [n <-%Nat256_try_from_Ok]. exists (nat256_0 n). split; [done|]. apply nat256_range.
    + intros (v & E & Hv). rewrite E. simpl.
      assert (Hf : Nat256_fits v = true) by by apply Nat256_fits_spec.
      eexists {| nat256_0 := v; nat256_fits := Hf |}. by apply Nat256_try_from_Ok.
  - intros n. destruct (deserialize_Nat w) as [v|]; [|done]. simpl.
    by intros <-%Nat256_try_from_Ok.
  - intros v E Hv. rewrite E. simpl. apply Nat256_try_from_Err. split; [done|].
    apply not_true_iff_false. rewrite Nat256_fits_spec. lia.
Qed.

(** ** Properties *)

(** C39: what a [Nat256] or a hexadecimal value is written as is read back as the same value, in
    the two encodings that the source implements apart from each other. In Candid, under the
    type of a natural number or of a text, always; in a format of [serde], as soon as the
    format gives back what it writes for that natural number, or for the text of the value. A
    [Hex] is a list of bytes here. *)
Theorem wire_roundtrip `{BigUintLaws} `{HexLaws} `{CandidLaws} `{SerdeSerializer}
    `{!SerdeDeserializer serde_Output} (n : Nat256) (h1 : HexByte)
    (h20 : Hex20) (h32 : Hex32) (h256 : Hex256) (h : Hex) :
  let candid {T : Type} (ty expected : CandidTy) (idl : Result Wire serializer_Error)
      (read : Wire -> Result T string) (x : T) :=
    ty = expected /\ exists w, idl = Ok w /\ read w = Ok x in
  let survives {T E : Type} (write : Result serde_Output E) (read : serde_Output -> Result T string)
      (x : T) := exists w, write = Ok w /\ read w = Ok x in
  let text (s : string) := survives (serialize_String s) deserialize_String s in
  candid Nat256_ty Nat_ty (Nat256_idl_serialize n) Nat256_deserialize n /\
  candid hex_ty String_ty (hex_idl_serialize h1) hex_deserialize h1 /\
  candid hex_ty String_ty (hex_idl_serialize h20) hex_deserialize h20 /\
  candid hex_ty String_ty (hex_idl_serialize h32) hex_deserialize h32 /\
  candid hex_ty String_ty (hex_idl_serialize h256) hex_deserialize h256 /\
  (is_bytes (Hex_0 h) -> candid hex_ty String_ty (hex_idl_serialize h) hex_deserialize h) /\
  (survives (serialize_Nat (nat256_0 n)) deserialize_Nat (nat256_0 n) ->
     survives (Nat256_serialize n) Nat256_deserialize n) /\
  (text (HexByte_to_string h1) -> survives (hex_serialize h1) hex_deserialize h1) /\
  (text (Hex20_to_string h20) -> survives (hex_serialize h20) hex_deserialize h20) /\
  (text (Hex32_to_string h32) -> survives (hex_serialize h32) hex_deserialize h32) /\
  (text (Hex256_to_string h256) -> survives (hex_serialize h256) hex_deserialize h256) /\
  (is_bytes (Hex_0 h) -> text (Hex_to_string h) -> survives (hex_serialize h) hex_deserialize h).
Proof.
  intros candid survives text. unfold text, survives, candid.
  assert (Hn : forall Input (SD : SerdeDeserializer Input) (w : Input),
    deserialize_Nat w = Ok (nat256_0 n) -> Nat256_deserialize w = Ok n).
  { intros Input SD w E. unfold Nat256_deserialize. rewrite E. by apply Nat256_try_from_Ok. }
  split_and!; try done.
  - destruct (serialize_nat_Ok (nat256_0 n)) as (w & Ew & Er); [apply nat256_range|].
    exists w. split; [done|]. by apply Hn.
  - by apply (hex_candid_roundtrip (fun _ => True)).
  - by apply (hex_candid_roundtrip (fun _ => True)).
  - by apply (hex_candid_roundtrip (fun _ => True)).
  - by apply (hex_candid_roundtrip (fun _ => True)).
  - intros Hb. split; [done|]. by apply (hex_candid_roundtrip (fun h => is_bytes (Hex_0 h))).
  - intros (w & Ew & Er). exists w. split; [done|]. by apply Hn.
  - intros (w & Ew & Er). exists w. split; [done|].
    by apply (hex_serde_roundtrip (fun _ => True)).
  - intros (w & Ew & Er). exists w. split; [done|].
    by apply (hex_serde_roundtrip (fun _ => True)).
  - intros (w & Ew & Er). exists w. split; [done|].
    by apply (hex_serde_roundtrip (fun _ => True)).
  - intros (w & Ew & Er). exists w. split; [done|].
    by apply (hex_serde_roundtrip (fun _ => True)).
  - intros Hb (w & Ew & Er). exists w. split; [done|].
    by apply (hex_serde_roundtrip (fun h => is_bytes (Hex_0 h))).
Qed.

(** C40: what a caller sends, in Candid or in any other format, is accepted as a 256-bit number
    exactly when it is a natural number below 2^256, and a larger one is refused with the
    documented message; it is accepted as a hexadecimal value exactly when it is a text that
    starts with [0x] and goes on with digits of base 16, small or capital: 1 or 2 of them for
    a byte, 40, 64 and 512 for the values of a fixed size, and an even number for data. The
    accepted value is shown as the same text in small letters, with two digits for a byte. *)
Theorem wire_accepts `{BigUintLaws} `{HexLaws} `{!HexDigitsLaws} `{SerdeDeserializer Input}
    (w : Input) :
  let accepted (T D : Type) `{HexString T D} (size_ok : nat -> Prop) (shown : string -> string) :=
    ((exists h : T, hex_deserialize w = Ok h) <->
     exists digits, deserialize_String w = Ok ("0x" +:+ digits) /\ hex_digits digits = true /\
       size_ok (String.length digits)) /\
    forall digits (h : T), deserialize_String w = Ok ("0x" +:+ digits) ->
      hex_deserialize w = Ok h -> hex_to_string h = "0x" +:+ to_ascii_lowercase (shown digits) in
  ((exists n, Nat256_deserialize w = Ok n) <->
     exists v, deserialize_Nat w = Ok v /\ 0 <= v < 2 ^ 256) /\
  (forall n, Nat256_deserialize w = Ok n -> deserialize_Nat w = Ok (nat256_0 n)) /\
  (forall v, deserialize_Nat w = Ok v -> 2 ^ 256 <= v ->
     Nat256_deserialize w = Err "Nat does not fit in a U256") /\
  accepted HexByte Byte (fun n => n = 1%nat \/ n = 2%nat) byte_digits /\
  accepted Hex20 (Bytes 20) (fun n => n = 40%nat) id /\
  accepted Hex32 (Bytes 32) (fun n => n = 64%nat) id /\
  accepted Hex256 (Bytes 256) (fun n => n = 512%nat) id /\
  accepted Hex (list byte) (fun n => Nat.even n = true) id.
Proof.
  destruct (Nat256_deserialize_spec w) as (Hn & Hv & He).
  refine (conj Hn (conj Hv (conj He _))).
  exact (conj (hex_deserialize_accepts (HA := HexByte_accepts) w)
    (conj (hex_deserialize_accepts (HA := Hex20_accepts) w)
    (conj (hex_deserialize_accepts (HA := Hex32_accepts) w)
    (conj (hex_deserialize_accepts (HA := Hex256_accepts) w)
      (hex_deserialize_accepts (HA := Hex_accepts) w))))).
Qed.

(** Two amounts that are shown the same are equal, with and without separators; the text of
    a byte array in capitals is read as the same bytes as the one in small letters; a byte
    that becomes a [HexByte] and a [HexByte] that becomes a byte keep their value. *)
Theorem shown_values `{HexLaws} `{HexFormatting, !HexFormattingLaws} `{ThousandsLaws}
    {Unit : Type} (a b : Amount Unit) (h : Hash) (v : u8) (Hv : bytes_ok 1 [v] = true)
    (hb : HexByte) :
  (Amount_display a = Amount_display b -> a = b) /\
  (Amount_to_string_inner a = Amount_to_string_inner b -> a = b) /\
  without_underscores (Amount_display a) = Amount_to_string_inner a /\
  Hash_from_str (bytes_array_upper_hex (Hash_into_bytes h)) = Ok h /\
  Hash_from_str (bytes_array_display (Hash_into_bytes h)) = Ok h /\
  u8_from_HexByte (HexByte_from v Hv) = v /\
  (forall Hb, HexByte_from (u8_from_HexByte hb) Hb = hb).
Proof.
  assert (Hi : Amount_to_string_inner a = Amount_to_string_inner b -> a = b).
  { unfold Amount_to_string_inner. intros E. apply Amount_eq. by apply (inj (R := (=)) (pretty (A := Z))) in E. }
  split_and!; try done.
  - intros E. apply Hi. apply (f_equal without_underscores) in E. unfold Amount_display in E.
    by rewrite !separate_digits in E.
  - apply separate_digits.
  - destruct h as [x]. unfold Hash_from_str, bytes_array_upper_hex, bytes_array_from_str.
    rewrite starts_with_app, str_skip2_0x. simpl.
    rewrite (proj2 (hex_decode_array_spec _ _ x)); [done|].
    apply hex_decode_encode_upper. destruct x as [x Hx]. by destruct (proj1 (bytes_ok_spec _ _) Hx).
  - unfold Hash_from_str. rewrite bytes_array_from_str_display. by destruct h.
  - intros Hb. destruct hb as [b0]. unfold HexByte_from. f_equal. apply Byte_from_into.
Qed.

Section Witnesses.
Import Instances.Concrete.

(** Values on the wire. *)
Inductive wire_value := WNat (n : Z) | WText (s : string).
#[local] Instance wire_deserializer : SerdeDeserializer wire_value := {|
  deserialize_Nat w := match w with WNat n => Ok n | WText _ => Err "not a nat" end;
  deserialize_String w := match w with WText s => Ok s | WNat _ => Err "not a text" end |}.
#[local] Instance candid_crate : CandidCrate := {|
  CandidTy := string; Nat_ty := "nat"; String_ty := "text"; Wire := wire_value;
  serializer_Error := string;
  serialize_nat n := Ok (WNat n); serialize_text s := Ok (WText s) |}.
#[local] Instance candid_laws : CandidLaws.
Proof. split; simpl; by eexists. Qed.
(** A format of texts: a number is written by its digits, which it does not read back. *)
#[local] Instance text_serializer : SerdeSerializer := {|
  serde_Output := string; serde_Error := string;
  serialize_Nat n := Ok (pretty n); serialize_String s := Ok s |}.
#[local] Instance text_deserializer : SerdeDeserializer string := {|
  deserialize_Nat w := Err "invalid type: string"; deserialize_String w := Ok w |}.
#[local] Instance thousands : ThousandsCrate := fun z => pretty (proj1_sig z).
Lemma pretty_without_underscores x s :
  without_underscores (pretty_N_go x s) = pretty_N_go x (without_underscores s).
Proof.
  revert s. induction (N.lt_wf_0 x) as [x _ IH]. intros s.
  destruct (decide (x = 0)%N) as [->|Hx]; [done|].
  rewrite (pretty_N_go_step x s), (pretty_N_go_step x (without_underscores s)) by lia.
  rewrite IH by (apply N.div_lt; lia). f_equal. simpl. unfold pretty_N_char.
  by repeat case_match.
Qed.
#[local] Instance thousands_laws : ThousandsLaws.
Proof.
  intros [z Hz]. pose proof (proj1 (is_u256_spec z) Hz) as Hr. unfold separate_with_underscores, thousands. simpl.
  destruct z as [|p|p]; [done| |lia]. apply (pretty_without_underscores (Npos p) "").
Qed.
#[local] Instance hex_formatting : HexFormatting := {|
  u256_lower_hex z := Instances.hex_text (proj1_sig (u256_to_be_bytes z));
  u256_upper_hex z := Instances.hex_text (proj1_sig (u256_to_be_bytes z));
  hex_encode_upper := Instances.hex_text |}.
#[local] Instance hex_formatting_laws : HexFormattingLaws.
Proof. intros b Hb. exact (hex_decode_encode b Hb). Qed.

Lemma wire_roundtrip_witness :
  exists w, hex_idl_serialize {| Hex_0 := [171; 205] |} = Ok w /\
    hex_deserialize w = Ok {| Hex_0 := [171; 205] |} /\ w = WText "0xabcd" /\
    exists t : string, hex_serialize {| Hex_0 := [171; 205] |} = Ok t /\
      hex_deserialize t = Ok {| Hex_0 := [171; 205] |}.
Proof.
  assert (Hb : is_bytes [171; 205]) by (repeat constructor; lia).
  destruct (wire_roundtrip nat_1000
    {| HexByte_0 := {| byte_0 := @Bytes_make 1 [0] eq_refl |} |}
    {| Hex20_0 := @Bytes_make 20 (replicate 20 0) eq_refl |}
    {| Hex32_0 := @Bytes_make 32 (replicate 32 0) eq_refl |}
    {| Hex256_0 := @Bytes_make 256 (replicate 256 0) eq_refl |}
    {| Hex_0 := [171; 205] |}) as (_ & _ & _ & _ & _ & Hc & _ & _ & _ & _ & _ & Hs).
  destruct (Hc Hb) as (_ & w & Ew & Er). exists w. split_and!; [exact Ew|exact Er| |].
  - by injection Ew as <-.
  - apply (Hs Hb). by eexists.
Defined.

Lemma wire_accepts_witness :
  Nat256_deserialize (WNat (2 ^ 256)) = Err "Nat does not fit in a U256" /\
  (exists n, Nat256_deserialize (WNat (2 ^ 256 - 1)) = Ok n) /\
  (exists h : HexByte, hex_deserialize "0xF" = Ok h) /\
  ~ exists h : Hex20, hex_deserialize "0xF" = Ok h.
Proof.
  split_and!.
  - apply (wire_accepts (WNat (2 ^ 256))) with (v := 2 ^ 256); [reflexivity|lia].
  - apply (wire_accepts (WNat (2 ^ 256 - 1))). exists (2 ^ 256 - 1). split; [reflexivity|lia].
  - apply (wire_accepts "0xF"). exists "F". split_and!; [reflexivity|reflexivity|by left].
  - destruct (wire_accepts "0xF") as (_ & _ & _ & _ & H20 & _). intros Hh.
    apply H20 in Hh as (digits & E & _ & Hl).
    change (Ok (E := string) "0xF" = Ok ("0x" +:+ digits)) in E. injection E as E.
    change ("F" = digits) in E. subst digits. discriminate Hl.
Defined.

Lemma shown_values_witness :
  Amount_display (Unit := WeiTag) (Amount_from 1000 eq_refl) = "1000" /\
  (forall b, Amount_display (Unit := WeiTag) (Amount_from 1000 eq_refl) = Amount_display b ->
     Amount_from (Unit := WeiTag) 1000 eq_refl = b) /\
  u8_from_HexByte (HexByte_from 7 eq_refl) = 7.
Proof.
  pose (h := Hash_new (@Bytes_make 32 (replicate 32 0) eq_refl)).
  split_and!; [reflexivity| |].
  - intros b. apply (shown_values (Unit := WeiTag) (Amount_from 1000 eq_refl) b h 7 eq_refl (HexByte_from 7 eq_refl)).
  - apply (shown_values (Unit := WeiTag) Amount_ONE Amount_ONE h 7 eq_refl (HexByte_from 7 eq_refl)).
Defined.
End Witnesses.
