(* ===== verification/CandidTypes.v ===== *)
(** The requests and responses of the Candid interface ([evm_rpc_types/src/request/mod.rs]
    and [evm_rpc_types/src/response/mod.rs]). A record [R] of the source is the module [R],
    which declares the record and its fields under the source's names. *)

From S2P Require Import Prelude Collections EvmRpcTypes Externals Numbers Hex.
Open Scope Z_scope.

(** An [f64] is its 64 bits. [==] on floating-point numbers is neither reflexive (NaN) nor
    finer than the representation (the two zeros). *)
Definition f64 : Type := Z.
Definition f64_is_nan (x : f64) : bool :=
  (Z.land (Z.shiftr x 52) 2047 =? 2047) && negb (Z.land x (2 ^ 52 - 1) =? 0).
Definition f64_is_zero (x : f64) : bool := Z.land x (2 ^ 63 - 1) =? 0.
Definition f64_eqb (x y : f64) : bool :=
  negb (f64_is_nan x) && negb (f64_is_nan y) &&
  ((x =? y) || (f64_is_zero x && f64_is_zero y)).

(** [==] on vectors. *)
Fixpoint vec_eqb {A} (eqb : A -> A -> bool) (l k : list A) : bool :=
  match l, k with
  | [], [] => true
  | x :: l, y :: k => eqb x y && vec_eqb eqb l k
  | _, _ => false
  end.

(** ** Requests *)

Module BlockTag.
Inductive BlockTag `{BigUintCrate} :=
| Latest | Finalized | Safe | Earliest | Pending
| Number (n : Nat256).
#[global] Instance eq_dec `{BigUintCrate} : EqDecision BlockTag.
Proof. solve_decision. Defined.
(** [#[default]]. *)
Definition BlockTag_default `{BigUintCrate} : BlockTag := Latest.
End BlockTag.
Abbreviation BlockTag := BlockTag.BlockTag.

Module FeeHistoryArgs.
Record FeeHistoryArgs `{BigUintCrate} := {
  block_count : Nat256;
  newest_block : BlockTag;
  reward_percentiles : option (list u8);
}.
#[global] Instance eq_dec `{BigUintCrate} : EqDecision FeeHistoryArgs.
Proof. solve_decision. Defined.
End FeeHistoryArgs.
Abbreviation FeeHistoryArgs := FeeHistoryArgs.FeeHistoryArgs.

(** [impl From<(T, U)> for FeeHistoryArgs], after the conversions of the two parts. *)
Definition FeeHistoryArgs_from `{BigUintCrate} (p : Nat256 * BlockTag) : FeeHistoryArgs :=
  let '(block_count, newest_block) := p in
  {| FeeHistoryArgs.block_count := block_count; FeeHistoryArgs.newest_block := newest_block;
     FeeHistoryArgs.reward_percentiles := None |}.

Module GetLogsArgs.
Record GetLogsArgs `{BigUintCrate} := {
  from_block : option BlockTag;
  to_block : option BlockTag;
  addresses : list Hex20;
  topics : option (list (list Hex32));
}.
#[global] Instance eq_dec `{BigUintCrate} : EqDecision GetLogsArgs.
Proof. solve_decision. Defined.
End GetLogsArgs.
Abbreviation GetLogsArgs := GetLogsArgs.GetLogsArgs.

Module GetTransactionCountArgs.
Record GetTransactionCountArgs `{BigUintCrate} := {
  address : Hex20;
  block : BlockTag;
}.
#[global] Instance eq_dec `{BigUintCrate} : EqDecision GetTransactionCountArgs.
Proof. solve_decision. Defined.
End GetTransactionCountArgs.
Abbreviation GetTransactionCountArgs := GetTransactionCountArgs.GetTransactionCountArgs.

(** [impl From<(T, U)> for GetTransactionCountArgs]. *)
Definition GetTransactionCountArgs_from `{BigUintCrate} (p : Hex20 * BlockTag) :
  GetTransactionCountArgs :=
  let '(address, block) := p in
  {| GetTransactionCountArgs.address := address; GetTransactionCountArgs.block := block |}.

Module AccessListEntry.
Record AccessListEntry := {
  address : Hex20;
  storage_keys : list Hex32;
}.
#[global] Instance eq_dec : EqDecision AccessListEntry.
Proof. solve_decision. Defined.
End AccessListEntry.
Abbreviation AccessListEntry := AccessListEntry.AccessListEntry.

Record AccessList := { AccessList_0 : list AccessListEntry }.
#[export] Instance AccessList_eq_dec : EqDecision AccessList.
Proof. solve_decision. Defined.

Module TransactionRequest.
Record TransactionRequest `{BigUintCrate} := {
  tx_type : option HexByte;
  nonce : option Nat256;
  to : option Hex20;
  from : option Hex20;
  gas : option Nat256;
  value : option Nat256;
  input : option Hex;
  gas_price : option Nat256;
  max_priority_fee_per_gas : option Nat256;
  max_fee_per_gas : option Nat256;
  max_fee_per_blob_gas : option Nat256;
  access_list : option AccessList;
  blob_versioned_hashes : option (list Hex32);
  blobs : option (list Hex);
  chain_id : option Nat256;
}.
#[global] Instance eq_dec `{BigUintCrate} : EqDecision TransactionRequest.
Proof. solve_decision. Defined.
End TransactionRequest.
Abbreviation TransactionRequest := TransactionRequest.TransactionRequest.

(** [#[derive(Default)]]. *)
Definition TransactionRequest_default `{BigUintCrate} : TransactionRequest := {|
  TransactionRequest.tx_type := None;
  TransactionRequest.nonce := None;
  TransactionRequest.to := None;
  TransactionRequest.from := None;
  TransactionRequest.gas := None;
  TransactionRequest.value := None;
  TransactionRequest.input := None;
  TransactionRequest.gas_price := None;
  TransactionRequest.max_priority_fee_per_gas := None;
  TransactionRequest.max_fee_per_gas := None;
  TransactionRequest.max_fee_per_blob_gas := None;
  TransactionRequest.access_list := None;
  TransactionRequest.blob_versioned_hashes := None;
  TransactionRequest.blobs := None;
  TransactionRequest.chain_id := None
|}.

Module CallArgs.
Record CallArgs `{BigUintCrate} := {
  transaction : TransactionRequest;
  block : option BlockTag;
}.
#[global] Instance eq_dec `{BigUintCrate} : EqDecision CallArgs.
Proof. solve_decision. Defined.
End CallArgs.
Abbreviation CallArgs := CallArgs.CallArgs.

(** ** Responses *)

Module FeeHistory.
Record FeeHistory `{BigUintCrate} := {
  oldest_block : Nat256;
  base_fee_per_gas : list Nat256;
  gas_used_ratio : list f64;
  reward : list (list Nat256);
}.
(** The derived [PartialEq]; two ratios that are not numbers are different. *)
#[global] Instance partial_eq `{BigUintCrate} : PartialEq FeeHistory := fun x y =>
  bool_decide (oldest_block x = oldest_block y) &&
  bool_decide (base_fee_per_gas x = base_fee_per_gas y) &&
  vec_eqb f64_eqb (gas_used_ratio x) (gas_used_ratio y) &&
  bool_decide (reward x = reward y).
End FeeHistory.
Abbreviation FeeHistory := FeeHistory.FeeHistory.

Module LogEntry.
Record LogEntry `{BigUintCrate} := {
  address : Hex20;
  topics : list Hex32;
  data : Hex;
  block_number : option Nat256;
  transaction_hash : option Hex32;
  transaction_index : option Nat256;
  block_hash : option Hex32;
  log_index : option Nat256;
  removed : bool;
}.
#[global] Instance eq_dec `{BigUintCrate} : EqDecision LogEntry.
Proof. solve_decision. Defined.
End LogEntry.
Abbreviation LogEntry := LogEntry.LogEntry.

Module TransactionReceipt.
Record TransactionReceipt `{BigUintCrate} := {
  block_hash : Hex32;
  block_number : Nat256;
  effective_gas_price : Nat256;
  gas_used : Nat256;
  cumulative_gas_used : Nat256;
  status : option Nat256;
  root : option Hex32;
  transaction_hash : Hex32;
  contract_address : option Hex20;
  from : Hex20;
  logs : list LogEntry;
  logs_bloom : Hex256;
  to : option Hex20;
  transaction_index : Nat256;
  tx_type : HexByte;
}.
#[global] Instance eq_dec `{BigUintCrate} : EqDecision TransactionReceipt.
Proof. solve_decision. Defined.
End TransactionReceipt.
Abbreviation TransactionReceipt := TransactionReceipt.TransactionReceipt.

Module Block.
Record Block `{BigUintCrate} := {
  base_fee_per_gas : option Nat256;
  number : Nat256;
  difficulty : option Nat256;
  extra_data : Hex;
  gas_limit : Nat256;
  gas_used : Nat256;
  hash : Hex32;
  logs_bloom : Hex256;
  miner : Hex20;
  mix_hash : Hex32;
  nonce : Nat256;
  parent_hash : Hex32;
  receipts_root : Hex32;
  sha3_uncles : Hex32;
  size : Nat256;
  state_root : Hex32;
  timestamp : Nat256;
  total_difficulty : option Nat256;
  transactions : list Hex32;
  transactions_root : option Hex32;
  uncles : list Hex32;
}.
#[global] Instance eq_dec `{BigUintCrate} : EqDecision Block.
Proof. solve_decision. Defined.
End Block.
Abbreviation Block := Block.Block.

Module SendRawTransactionStatus.
Inductive SendRawTransactionStatus :=
| Ok (hash : option Hex32)
| InsufficientFunds
| NonceTooLow
| NonceTooHigh.
#[global] Instance eq_dec : EqDecision SendRawTransactionStatus.
Proof. solve_decision. Defined.
End SendRawTransactionStatus.
Abbreviation SendRawTransactionStatus := SendRawTransactionStatus.SendRawTransactionStatus.
