(* ===== verification/JsonTypes.v ===== *)
(** The types of the JSON-RPC requests and responses exchanged with the providers
    ([src/rpc_client/json/requests.rs] and [src/rpc_client/json/responses.rs]). A record [R]
    of the source is the module [R], with the source's field names. *)

From S2P Require Import Prelude Collections EvmRpcTypes Externals Numbers Hex.
From S2P Require CandidTypes.
Open Scope Z_scope.

Abbreviation f64 := CandidTypes.f64.

Record Data := { Data_0 : list byte }.
#[export] Instance Data_eq_dec : EqDecision Data.
Proof. solve_decision. Defined.
(** [impl From<Vec<u8>> for Data]. *)
Definition Data_from (data : list byte) : Data := {| Data_0 := data |}.

(** [impl AsRef<[u8]> for Data]. *)
Definition Data_as_ref (self : Data) : list byte := Data_0 self.

(** ** Requests *)

Module BlockTag.
Inductive BlockTag := Latest | Safe | Finalized | Earliest | Pending.
#[global] Instance eq_dec : EqDecision BlockTag.
Proof. solve_decision. Defined.
Definition BlockTag_default : BlockTag := Latest.
(** [impl Display for BlockTag]; the JSON names are the same. *)
Definition BlockTag_display (self : BlockTag) : string :=
  match self with
  | Latest => "latest"
  | Safe => "safe"
  | Finalized => "finalized"
  | Earliest => "earliest"
  | Pending => "pending"
  end.
End BlockTag.
Abbreviation BlockTag := BlockTag.BlockTag.

Module BlockSpec.
Inductive BlockSpec :=
| Number (n : BlockNumber)
| Tag (tag : BlockTag).
#[global] Instance eq_dec : EqDecision BlockSpec.
Proof. solve_decision. Defined.
Definition BlockSpec_default : BlockSpec := Tag BlockTag.BlockTag_default.
(** [impl From<BlockNumber> for BlockSpec]. *)
Definition BlockSpec_from (value : BlockNumber) : BlockSpec := Number value.
End BlockSpec.
Abbreviation BlockSpec := BlockSpec.BlockSpec.

Module GetTransactionCountParams.
Record GetTransactionCountParams := {
  address : Address;
  block : BlockSpec;
}.
#[global] Instance eq_dec : EqDecision GetTransactionCountParams.
Proof. solve_decision. Defined.
End GetTransactionCountParams.
Abbreviation GetTransactionCountParams := GetTransactionCountParams.GetTransactionCountParams.

(** The parameters are written as a JSON array of their fields. *)
Definition GetTransactionCountParams_into_tuple (params : GetTransactionCountParams) : Address * BlockSpec :=
  (GetTransactionCountParams.address params, GetTransactionCountParams.block params).

Module GetLogsParam.
Record GetLogsParam := {
  from_block : BlockSpec;
  to_block : BlockSpec;
  address : list Address;
  topics : list (list FixedSizeData);
}.
#[global] Instance eq_dec : EqDecision GetLogsParam.
Proof. solve_decision. Defined.
End GetLogsParam.
Abbreviation GetLogsParam := GetLogsParam.GetLogsParam.

Module FeeHistoryParams.
Record FeeHistoryParams := {
  block_count : NumBlocks;
  highest_block : BlockSpec;
  reward_percentiles : list u8;
}.
#[global] Instance eq_dec : EqDecision FeeHistoryParams.
Proof. solve_decision. Defined.
End FeeHistoryParams.
Abbreviation FeeHistoryParams := FeeHistoryParams.FeeHistoryParams.

(** The parameters are written as a JSON array of their fields. *)
Definition FeeHistoryParams_into_tuple (params : FeeHistoryParams) : NumBlocks * BlockSpec * list u8 :=
  (FeeHistoryParams.block_count params, FeeHistoryParams.highest_block params, FeeHistoryParams.reward_percentiles params).

Module GetBlockByNumberParams.
Record GetBlockByNumberParams := {
  block : BlockSpec;
  include_full_transactions : bool;
}.
#[global] Instance eq_dec : EqDecision GetBlockByNumberParams.
Proof. solve_decision. Defined.
End GetBlockByNumberParams.
Abbreviation GetBlockByNumberParams := GetBlockByNumberParams.GetBlockByNumberParams.

(** The parameters are written as a JSON array of their fields. *)
Definition GetBlockByNumberParams_into_tuple (params : GetBlockByNumberParams) : BlockSpec * bool :=
  (GetBlockByNumberParams.block params, GetBlockByNumberParams.include_full_transactions params).

Module AccessListItem.
Record AccessListItem := {
  address : Address;
  storage_keys : list StorageKey;
}.
#[global] Instance eq_dec : EqDecision AccessListItem.
Proof. solve_decision. Defined.
End AccessListItem.
Abbreviation AccessListItem := AccessListItem.AccessListItem.

Record AccessList := { AccessList_0 : list AccessListItem }.
#[export] Instance AccessList_eq_dec : EqDecision AccessList.
Proof. solve_decision. Defined.
(** [AccessList::new], also the default. *)
Definition AccessList_new : AccessList := {| AccessList_0 := [] |}.

Module TransactionRequest.
Record TransactionRequest := {
  tx_type : option JsonByte;
  nonce : option TransactionNonce;
  to : option Address;
  from : option Address;
  gas : option GasAmount;
  value : option Wei;
  input : option Data;
  gas_price : option WeiPerGas;
  max_priority_fee_per_gas : option WeiPerGas;
  max_fee_per_gas : option WeiPerGas;
  max_fee_per_blob_gas : option WeiPerGas;
  access_list : option AccessList;
  blob_versioned_hashes : option (list Hash);
  blobs : option (list Data);
  chain_id : option ChainId;
}.
#[global] Instance eq_dec : EqDecision TransactionRequest.
Proof. solve_decision. Defined.
End TransactionRequest.
Abbreviation TransactionRequest := TransactionRequest.TransactionRequest.

Module EthCallParams.
Record EthCallParams := {
  transaction : TransactionRequest;
  block : BlockSpec;
}.
#[global] Instance eq_dec : EqDecision EthCallParams.
Proof. solve_decision. Defined.
End EthCallParams.
Abbreviation EthCallParams := EthCallParams.EthCallParams.

(** The parameters are written as a JSON array of their fields. *)
Definition EthCallParams_into_tuple (params : EthCallParams) : TransactionRequest * BlockSpec :=
  (EthCallParams.transaction params, EthCallParams.block params).

(** ** Responses *)

Module TransactionStatus.
Inductive TransactionStatus := Success | Failure.
#[global] Instance eq_dec : EqDecision TransactionStatus.
Proof. solve_decision. Defined.
(** [impl From<TransactionStatus> for ethnum::u256]. *)
Definition u256_from (value : TransactionStatus) : U256 :=
  match value with
  | Success => U256_from 1 eq_refl
  | Failure => U256_from 0 eq_refl
  end.
(** [impl TryFrom<ethnum::u256> for TransactionStatus]. *)
Definition TransactionStatus_try_from (value : U256) : Result TransactionStatus string :=
  if proj1_sig value =? 0 then Ok Failure
  else if proj1_sig value =? 1 then Ok Success
  else Err ("invalid transaction status: " +:+ pretty (proj1_sig value)).
Definition TransactionStatus_display (self : TransactionStatus) : string :=
  match self with Success => "Success" | Failure => "Failure" end.
End TransactionStatus.
Abbreviation TransactionStatus := TransactionStatus.TransactionStatus.

Module LogEntry.
Record LogEntry := {
  address : Address;
  topics : list FixedSizeData;
  data : Data;
  block_number : option BlockNumber;
  transaction_hash : option Hash;
  transaction_index : option TransactionIndex;
  block_hash : option Hash;
  log_index : option LogIndex;
  removed : bool;
}.
#[global] Instance eq_dec : EqDecision LogEntry.
Proof. solve_decision. Defined.
End LogEntry.
Abbreviation LogEntry := LogEntry.LogEntry.

Module TransactionReceipt.
Record TransactionReceipt := {
  block_hash : Hash;
  block_number : BlockNumber;
  effective_gas_price : WeiPerGas;
  cumulative_gas_used : GasAmount;
  gas_used : GasAmount;
  status : option TransactionStatus;
  root : option Hash;
  transaction_hash : Hash;
  contract_address : option Address;
  from : Address;
  logs : list LogEntry;
  logs_bloom : LogsBloom;
  to : option Address;
  transaction_index : TransactionIndex;
  tx_type : JsonByte;
}.
#[global] Instance eq_dec : EqDecision TransactionReceipt.
Proof. solve_decision. Defined.
End TransactionReceipt.
Abbreviation TransactionReceipt := TransactionReceipt.TransactionReceipt.

Module Block.
Record Block := {
  base_fee_per_gas : option Wei;
  number : BlockNumber;
  difficulty : option Difficulty;
  extra_data : Data;
  gas_limit : GasAmount;
  gas_used : GasAmount;
  hash : Hash;
  logs_bloom : LogsBloom;
  miner : Address;
  mix_hash : Hash;
  nonce : BlockNonce;
  parent_hash : Hash;
  receipts_root : Hash;
  sha3_uncles : Hash;
  size : NumBytes;
  state_root : Hash;
  timestamp : block_Timestamp;
  transactions : list Hash;
  transactions_root : option Hash;
  uncles : list Hash;
}.
#[global] Instance eq_dec : EqDecision Block.
Proof. solve_decision. Defined.
End Block.
Abbreviation Block := Block.Block.

Module FeeHistory.
Record FeeHistory := {
  oldest_block : BlockNumber;
  base_fee_per_gas : list WeiPerGas;
  gas_used_ratio : list f64;
  reward : list (list WeiPerGas);
}.
#[global] Instance partial_eq : PartialEq FeeHistory := fun x y =>
  bool_decide (oldest_block x = oldest_block y) &&
  bool_decide (base_fee_per_gas x = base_fee_per_gas y) &&
  CandidTypes.vec_eqb CandidTypes.f64_eqb (gas_used_ratio x) (gas_used_ratio y) &&
  bool_decide (reward x = reward y).
End FeeHistory.
Abbreviation FeeHistory := FeeHistory.FeeHistory.

Module SendRawTransactionResult.
Inductive SendRawTransactionResult := Ok | InsufficientFunds | NonceTooLow | NonceTooHigh.
#[global] Instance eq_dec : EqDecision SendRawTransactionResult.
Proof. solve_decision. Defined.
End SendRawTransactionResult.
Abbreviation SendRawTransactionResult := SendRawTransactionResult.SendRawTransactionResult.
