(* ===== verification/Json.v ===== *)
(** JSON as [serde] sees it: the values, when two of them differ only in layout, the traits
    [Serialize] and [Deserialize], and the meaning of the attributes that the JSON types of
    [src/rpc_client/json] carry ([rename], [default], [skip_serializing_if], [transparent],
    [into], [untagged]), as combinators with which JsonCodec.v writes those types. *)

From S2P Require Import Prelude.

(** ** Values *)

(** The numbers of [serde_json], and those that are integers of at most 64 bits. *)
Class JsonNumbers := { json_number : Type; json_integer : json_number -> bool }.

(** A value as it stands in a text: the members of an object have an order, and a name may
    occur more than once. *)
Inductive Json `{JsonNumbers} : Type :=
| Null
| Bool (b : bool)
| Num (n : json_number)
| Str (s : string)
| Arr (l : list Json)
| Obj (members : list (string * Json)).

Section Values.
Context `{JsonNumbers}.
Implicit Types (j : Json) (ms : list (string * Json)).

Definition json_rect_nested (P : Json -> Prop)
    (null : P Null) (bool : forall b, P (Bool b)) (num : forall n, P (Num n))
    (str : forall s, P (Str s)) (arr : forall l, Forall P l -> P (Arr l))
    (obj : forall ms, Forall (fun m => P m.2) ms -> P (Obj ms)) : forall j, P j :=
  fix go j : P j :=
    match j with
    | Null => null
    | Bool b => bool b
    | Num n => num n
    | Str s => str s
    | Arr l =>
        arr l ((fix all l : Forall P l :=
          match l with
          | [] => @List.Forall_nil _ P
          | x :: l => @List.Forall_cons _ P x l (go x) (all l)
          end) l)
    | Obj ms =>
        obj ms ((fix all ms : Forall (fun m : string * Json => P m.2) ms :=
          match ms with
          | [] => @List.Forall_nil _ (fun m => P m.2)
          | m :: ms => @List.Forall_cons _ (fun m => P m.2) m ms (go m.2) (all ms)
          end) ms)
    end.

(** Two members with the same name and related values. *)
Definition same_member (R : Json -> Json -> Prop) (a b : string * Json) : Prop :=
  a.1 = b.1 /\ R a.2 b.2.

(** Equal up to the order of the members of objects, at any depth. *)
Inductive same_json : Json -> Json -> Prop :=
| same_null : same_json Null Null
| same_bool b : same_json (Bool b) (Bool b)
| same_num n : same_json (Num n) (Num n)
| same_str s : same_json (Str s) (Str s)
| same_arr l k : Forall2 same_json l k -> same_json (Arr l) (Arr k)
| same_obj l k' k :
    Forall2 (same_member same_json) l k' -> k' ≡ₚ k -> same_json (Obj l) (Obj k).

(** A permutation of one side of [Forall2] is matched by one of the other side. *)
Lemma Forall2_perm_r {A B} (R : A -> B -> Prop) l k k' :
  Forall2 R l k -> k ≡ₚ k' -> exists l', l ≡ₚ l' /\ Forall2 R l' k'.
Proof.
  intros HR Hp. revert l HR. induction Hp as [|x k k' Hp IH|x y k|k1 k2 k3 Hp1 IH1 Hp2 IH2];
    intros l HR.
  - inversion HR. by exists [].
  - inversion HR as [|a ? l0 ? Hx HR']; subst. destruct (IH _ HR') as (l' & Hl & HR'').
    exists (a :: l'). split; [by constructor|by constructor].
  - inversion HR as [|a ? l0 ? Hx HR']; subst. inversion HR' as [|b ? l1 ? Hy HR'']; subst.
    exists (b :: a :: l1). split; [constructor|by repeat constructor].
  - destruct (IH1 _ HR) as (l1 & H1 & HR1). destruct (IH2 _ HR1) as (l2 & H2 & HR2).
    exists l2. split; [by transitivity l1|done].
Qed.

#[export] Instance same_json_refl : Reflexive same_json.
Proof.
  intros j. induction j as [| | | |l IH|ms IH] using json_rect_nested; try constructor.
  - by induction IH; constructor.
  - apply (same_obj _ ms); [|done]. induction IH; constructor; [by split|done].
Qed.

#[export] Instance same_json_sym : Symmetric same_json.
Proof.
  intros j. induction j as [| | | |l IH|ms IH] using json_rect_nested; intros j' Hs;
    inversion Hs as [| | | |? k HF|? k' k HF Hp]; subst; try constructor.
  - clear Hs. revert k HF. induction IH as [|x l Hx _ IH]; intros k HF; inversion HF; subst;
      constructor; eauto.
  - assert (HF' : Forall2 (same_member same_json) k' ms).
    { clear Hs Hp. revert k' HF. induction IH as [|x l Hx _ IH]; intros k' HF;
        inversion HF as [|? y ? ? [Hn Hy]]; subst; constructor; [split; eauto|eauto]. }
    destruct (Forall2_perm_r (fun a b => same_member same_json b a) ms k' k) as (ms' & Hm & HF2).
    { by apply Forall2_flip in HF'. } { done. }
    apply (same_obj _ ms'); [|by symmetry]. by apply Forall2_flip in HF2.
Qed.

#[export] Instance same_json_trans : Transitive same_json.
Proof.
  intros j. induction j as [| | | |l IH|ms IH] using json_rect_nested; intros j2 j3 H12 H23;
    inversion H12 as [| | | |? k HF|? k' k HF Hp]; subst; try exact H23.
  - inversion H23 as [| | | |? m HG|]; subst. constructor. clear H12 H23.
    revert k m HF HG. induction IH as [|x l Hx _ IH]; intros k m HF HG;
      inversion HF; subst; inversion HG; subst; constructor; eauto.
  - inversion H23 as [| | | | |? m' m HG Hq]; subst.
    destruct (Forall2_perm_r (fun a b => same_member same_json b a) m' k k') as (n & Hn & HG').
    { by apply Forall2_flip in HG. } { by symmetry. }
    apply (same_obj _ n); [|by rewrite <- Hn].
    apply Forall2_flip in HG'. simpl in HG'. clear Hp Hq Hn H12 H23 HG.
    revert k' n HF HG'. induction IH as [|x l Hx _ IH]; intros k' n HF HG;
      inversion HF as [|? y ? ? [Hy1 Hy2]]; subst;
      inversion HG as [|? z ? ? [Hz1 Hz2]]; subst; constructor; [|eauto].
    split; [congruence|eauto].
Qed.

#[export] Instance same_json_equivalence : Equivalence same_json.
Proof. split; apply _. Qed.

(** Objects with the same members in another order. *)
Lemma same_json_perm ms ms' : ms ≡ₚ ms' -> same_json (Obj ms) (Obj ms').
Proof.
  intros Hp. apply (same_obj _ ms); [|done]. clear Hp.
  induction ms as [|m ms IH]; constructor; [by split|done].
Qed.

(** The values that [name] has in an object. *)
Definition named (name : string) (ms : list (string * Json)) : list Json :=
  omap (fun '(n, j) => if String.eqb n name then Some j else None) ms.

Lemma named_app name ms ms' : named name (ms ++ ms') = named name ms ++ named name ms'.
Proof. apply omap_app. Qed.

Lemma named_concat name mss : named name (concat mss) = concat (map (named name) mss).
Proof. induction mss as [|ms mss IH]; [done|]. simpl. by rewrite named_app, IH. Qed.

Lemma named_same name l k :
  Forall2 (same_member same_json) l k -> Forall2 same_json (named name l) (named name k).
Proof.
  induction 1 as [|[n1 j1] [n2 j2] l k [Hn Hj] _ IH]; [constructor|].
  simpl in Hn. subst. unfold named. simpl. destruct (String.eqb n2 name); [|done].
  by constructor.
Qed.
End Values.

(** ** The traits [Serialize] and [Deserialize] *)

Section Traits.
Context `{JsonNumbers}.

Class Serialize (T : Type) := serialize : T -> Json.
(** [None] is any error: the position and the words of an error depend on the text that is
    read, and are those of the interface [SerdeJson]. *)
Class Deserialize (T : Type) := deserialize : Json -> option T.

(** The values of the Rust type among those of the model: a byte of the model is an integer,
    and not every [f64] survives as a JSON number. *)
Class Representable (T : Type) := representable : T -> Prop.

Class RoundTrip (T : Type) `{Serialize T, Deserialize T, Representable T} :=
  deserialize_serialize (x : T) : representable x -> deserialize (serialize x) = Some x.
Class NotNull (T : Type) `{Serialize T} := serialize_not_null (x : T) : serialize x <> Null.
Class ReadsLayout (T : Type) `{Deserialize T} :=
  #[global] deserialize_layout :: Proper (same_json ==> (=)) (deserialize (T := T)).

(** Types whose values are all representable. *)
Class AllRepresentable (T : Type) `{Representable T} := all_representable (x : T) : representable x.

(** Values whose text is exact: [serde_json] reads arrays and objects up to a depth, here [n],
    and may round a floating-point number that it reads from a text. *)
Fixpoint plain (n : nat) (j : Json) : Prop :=
  match j, n with
  | Num k, _ => json_integer k = true
  | Arr l, S n => Forall (plain n) l
  | Obj ms, S n => Forall (fun m => plain n m.2) ms
  | Arr _, O | Obj _, O => False
  | _, _ => True
  end.
Class Plain (T : Type) `{Serialize T} (n : nat) := serialize_plain (x : T) : plain n (serialize x).

Lemma serialize_inj (T : Type) `{RoundTrip T} (x y : T) :
  representable x -> representable y -> serialize x = serialize y -> x = y.
Proof.
  intros Hx Hy E. apply (f_equal deserialize) in E.
  rewrite !deserialize_serialize in E by done. congruence.
Qed.

(** *** Booleans, options, vectors, pairs *)

#[export] Instance serialize_bool : Serialize bool := Bool.
#[export] Instance deserialize_bool : Deserialize bool := fun j =>
  match j with Bool b => Some b | _ => None end.
#[export] Instance representable_bool : Representable bool := fun _ => True.
#[export] Instance all_representable_bool : AllRepresentable bool.
Proof. by intros x. Qed.
#[export] Instance roundtrip_bool : RoundTrip bool.
Proof. by intros x. Qed.
#[export] Instance not_null_bool : NotNull bool.
Proof. by intros x. Qed.
#[export] Instance layout_bool : ReadsLayout bool.
Proof. by intros ? ? []. Qed.
#[export] Instance plain_bool n : Plain bool n.
Proof. by destruct n. Qed.

(** A [String]. *)
#[export] Instance serialize_string : Serialize string := Str.

#[export] Instance serialize_option {T} `{Serialize T} : Serialize (option T) := fun o =>
  match o with Some x => serialize x | None => Null end.
#[export] Instance deserialize_option {T} `{Deserialize T} : Deserialize (option T) := fun j =>
  match j with Null => Some None | _ => Some <$> deserialize j end.
#[export] Instance representable_option {T} `{Representable T} : Representable (option T) :=
  fun o => match o with Some x => representable x | None => True end.
#[export] Instance roundtrip_option {T} `{RoundTrip T} `{!NotNull T} : RoundTrip (option T).
Proof.
  intros [x|] Hx; [|done]. unfold deserialize, deserialize_option, serialize, serialize_option.
  pose proof (serialize_not_null x) as Hn. pose proof (deserialize_serialize x Hx) as E.
  destruct (serialize x); by rewrite ?E.
Qed.
#[export] Instance layout_option {T} `{ReadsLayout T} : ReadsLayout (option T).
Proof.
  intros j k Hjk. pose proof (deserialize_layout _ _ Hjk) as E.
  destruct Hjk; unfold deserialize, deserialize_option; by rewrite ?E.
Qed.
#[export] Instance plain_option {T} `{Plain T n} : Plain (option T) n.
Proof. intros [x|]; [exact (serialize_plain (T := T) x)|]. by destruct n. Qed.

#[export] Instance serialize_list {T} `{Serialize T} : Serialize (list T) := fun l =>
  Arr (map serialize l).
#[export] Instance deserialize_list {T} `{Deserialize T} : Deserialize (list T) := fun j =>
  match j with Arr l => mapM deserialize l | _ => None end.
#[export] Instance representable_list {T} `{Representable T} : Representable (list T) :=
  Forall representable.
#[export] Instance roundtrip_list {T} `{RoundTrip T} : RoundTrip (list T).
Proof.
  intros l Hl. unfold deserialize, deserialize_list, serialize, serialize_list.
  apply mapM_Some. induction Hl; constructor; [by apply deserialize_serialize|done].
Qed.
#[export] Instance not_null_list {T} `{Serialize T} : NotNull (list T).
Proof. by intros l. Qed.
Lemma mapM_layout {T} `{ReadsLayout T} l k :
  Forall2 same_json l k -> mapM (deserialize (T := T)) l = mapM deserialize k.
Proof. induction 1 as [|x y l k Hxy _ IH]; [done|]. simpl. by rewrite (deserialize_layout _ _ Hxy), IH. Qed.
#[export] Instance layout_list {T} `{ReadsLayout T} : ReadsLayout (list T).
Proof. intros ? ? [| | | |l k HF|]; try done. by apply mapM_layout. Qed.
#[export] Instance plain_list {T} `{Plain T n} : Plain (list T) (S n).
Proof. intros l. apply Forall_map, Forall_forall. intros x _. apply serialize_plain. Qed.

#[export] Instance all_representable_option {T} `{AllRepresentable T} :
  AllRepresentable (option T).
Proof. by intros [x|]; [apply (all_representable x)|]. Qed.
#[export] Instance all_representable_list {T} `{AllRepresentable T} : AllRepresentable (list T).
Proof. intros l. apply Forall_forall. intros x _. apply all_representable. Qed.

(** A tuple is written as an array. *)
#[export] Instance serialize_pair {A B} `{Serialize A, Serialize B} : Serialize (A * B) :=
  fun p => Arr [serialize p.1; serialize p.2].

Lemma serialize_pair_inj {A B} `{RoundTrip A} `{RoundTrip B} (p q : A * B) :
  representable p.1 -> representable p.2 -> representable q.1 -> representable q.2 ->
  serialize p = serialize q -> p = q.
Proof.
  destruct p as [a b], q as [a' b']. simpl. intros Ha Hb Ha' Hb' E.
  change (Arr [serialize a; serialize b] = Arr [serialize a'; serialize b']) in E.
  injection E as Ea Eb.
  apply (serialize_inj A) in Ea; [|done..]. apply (serialize_inj B) in Eb; congruence.
Qed.

(** *** Enumerations without data: a variant is its name *)

Definition variant_named {T} (names : list (string * T)) (s : string) : option T :=
  snd <$> List.find (fun v => String.eqb v.1 s) names.
(** The variant of a name, also in the form [{name: null}]. *)
Definition deserialize_enum {T} (names : list (string * T)) (j : Json) : option T :=
  match j with
  | Str s => variant_named names s
  | Obj [(s, Null)] => variant_named names s
  | _ => None
  end.
Lemma deserialize_enum_layout {T} (names : list (string * T)) :
  Proper (same_json ==> (=)) (deserialize_enum names).
Proof.
  intros ? ? [| | | | |l k' k HF Hp]; try done. simpl.
  destruct HF as [|[n j] [n' j'] l k' [Hn Hj] HF].
  - apply Permutation_nil_l in Hp. by subst.
  - simpl in Hn. subst. destruct HF as [|? ? ? ? ? HF].
    + apply Permutation_singleton_l in Hp. subst. simpl in Hj. by destruct Hj.
    + apply Permutation_length in Hp. simpl in Hp.
      destruct k as [|[? []] [|]]; simpl in Hp; try lia; by destruct j.
Qed.

(** [#[serde(untagged)]]: the first variant that can be read. *)
Definition deserialize_untagged {A B T} `{Deserialize A, Deserialize B} (f : A -> T) (g : B -> T)
    (j : Json) : option T :=
  match deserialize j with
  | Some a => Some (f a)
  | None => g <$> deserialize j
  end.

(** ** Structs: writing *)

(** A struct is written as an object with one member per field, in the order of its
    declaration; a field with [skip_serializing_if] may have none. *)
Definition member {T} `{Serialize T} (name : string) (x : T) : list (string * Json) :=
  [(name, serialize x)].
(** [skip_serializing_if = Option::is_none] *)
Definition member_some {T} `{Serialize T} (name : string) (o : option T) : list (string * Json) :=
  match o with Some _ => [(name, serialize o)] | None => [] end.
(** [skip_serializing_if = Vec::is_empty] *)
Definition member_nonempty {T} `{Serialize T} (name : string) (l : list T) :
  list (string * Json) :=
  match l with [] => [] | _ => [(name, serialize l)] end.
Definition serialize_struct (fields : list (list (string * Json))) : Json := Obj (concat fields).

Lemma named_member {T} `{Serialize T} name n (x : T) :
  named name (member n x) = if String.eqb n name then [serialize x] else [].
Proof. unfold named. simpl. by destruct (String.eqb n name). Qed.
Lemma named_member_some {T} `{Serialize T} name n (o : option T) :
  named name (member_some n o) =
  if String.eqb n name then match o with Some x => [serialize x] | None => [] end else [].
Proof. unfold named. destruct o; simpl; by destruct (String.eqb n name). Qed.

Lemma member_nonempty_inj {T} `{RoundTrip T} name (l k : list T) :
  representable l -> representable k ->
  member_nonempty name l = member_nonempty name k -> l = k.
Proof.
  intros Hl Hk E. apply (serialize_inj (list T)); [done..|].
  destruct l as [|x l], k as [|y k]; try done.
  apply (f_equal (map snd)) in E. change ([serialize (x :: l)] = [serialize (y :: k)]) in E.
  congruence.
Qed.

Lemma serialize_struct_plain (fields : list (list (string * Json))) n :
  Forall (Forall (fun m => plain n m.2)) fields -> plain (S n) (serialize_struct fields).
Proof. intros Hf. by apply Forall_concat. Qed.
Lemma member_plain {T} `{Plain T n} name (x : T) :
  Forall (fun m => plain n m.2) (member name x).
Proof. constructor; [apply serialize_plain|constructor]. Qed.
Lemma member_some_plain {T} `{Plain T n} name (o : option T) :
  Forall (fun m => plain n m.2) (member_some name o).
Proof. destruct o; constructor; [apply serialize_plain|constructor]. Qed.

(** ** Structs: reading

    A struct is read from an object, member by member, or from an array, element by element
    in the order of its fields. *)

Inductive Input :=
| Members (ms : list (string * Json))
| Elements (l : list Json).

Definition Reader (A : Type) : Type := Input -> option (A * Input).
#[export] Instance Reader_ret : MRet Reader := fun A a i => Some (a, i).
#[export] Instance Reader_bind : MBind Reader := fun A B f r i =>
  match r i with Some (a, i') => f a i' | None => None end.

(** A field: [missing] is its value when no member has its name, [absent] when the array
    ends before it. A name that occurs twice is an error, a name that no field has is not. *)
Definition field {A} `{Deserialize A} (name : string) (missing absent : option A) : Reader A :=
  fun i =>
    match i with
    | Members ms =>
        match named name ms with
        | [] => (fun a => (a, i)) <$> missing
        | [j] => (fun a => (a, i)) <$> deserialize j
        | _ => None
        end
    | Elements [] => (fun a => (a, i)) <$> absent
    | Elements (j :: l) => (fun a => (a, Elements l)) <$> deserialize j
    end.
(** A field without attributes; without a member an [Option] is [None]. *)
Definition required {A} `{Deserialize A} (name : string) : Reader A := field name None None.
Definition optional {A} `{Deserialize A} (name : string) : Reader (option A) :=
  field name (Some None) None.
(** [#[serde(default)]] *)
Definition defaulted {A} `{Deserialize A} (name : string) (d : A) : Reader A :=
  field name (Some d) (Some d).

Definition deserialize_struct {T} (reader : Reader T) (j : Json) : option T :=
  match j with
  | Obj ms => fst <$> reader (Members ms)
  | Arr l =>
      match reader (Elements l) with
      | Some (t, Elements []) => Some t
      | _ => None
      end
  | _ => None
  end.

(** *** Reading what was written *)

Lemma bind_run {A B} (r : Reader A) (f : A -> Reader B) i a i' :
  r i = Some (a, i') -> (r ≫= f) i = f a i'.
Proof. intros E. unfold mbind, Reader_bind. by rewrite E. Qed.

Lemma required_run {A} `{RoundTrip A} name ms (x : A) :
  named name ms = [serialize x] -> representable x ->
  required name (Members ms) = Some (x, Members ms).
Proof. intros E Hx. unfold required, field. by rewrite E, deserialize_serialize. Qed.
Lemma defaulted_run {A} `{RoundTrip A} name ms (x d : A) :
  named name ms = [serialize x] -> representable x ->
  defaulted name d (Members ms) = Some (x, Members ms).
Proof. intros E Hx. unfold defaulted, field. by rewrite E, deserialize_serialize. Qed.
Lemma optional_run {A} `{RoundTrip A} `{!NotNull A} name ms (o : option A) :
  named name ms = [serialize o] -> representable o ->
  optional name (Members ms) = Some (o, Members ms).
Proof. intros E Hx. unfold optional, field. by rewrite E, deserialize_serialize. Qed.
Lemma optional_run_some {A} `{RoundTrip A} `{!NotNull A} name ms (o : option A) :
  named name ms = match o with Some x => [serialize x] | None => [] end -> representable o ->
  optional name (Members ms) = Some (o, Members ms).
Proof.
  intros E Hx. unfold optional, field. rewrite E. destruct o as [x|]; [|done].
  change (serialize x) with (serialize (Some x)). by rewrite (deserialize_serialize (Some x) Hx).
Qed.

(** *** What a reader does not look at *)

(** Two results that agree on the value and leave related inputs. *)
Definition same_result {A} (R : Input -> Input -> Prop) (x y : option (A * Input)) : Prop :=
  match x, y with
  | Some (a, i), Some (b, k) => a = b /\ R i k
  | None, None => True
  | _, _ => False
  end.
Definition respects {A} (R : Input -> Input -> Prop) (r : Reader A) : Prop :=
  forall i k, R i k -> same_result R (r i) (r k).

Lemma respects_ret {A} R (a : A) : respects R (mret a).
Proof. by intros i k Hik. Qed.
Lemma respects_bind {A B} R (r : Reader A) (f : A -> Reader B) :
  respects R r -> (forall a, respects R (f a)) -> respects R (r ≫= f).
Proof.
  intros Hr Hf i k Hik. specialize (Hr i k Hik). unfold mbind, Reader_bind.
  destruct (r i) as [[a i']|], (r k) as [[b k']|]; simpl in Hr; try done.
  destruct Hr as [-> Hr]. by apply Hf.
Qed.

(** The order of members, here and inside the values. *)
Inductive same_input : Input -> Input -> Prop :=
| same_members l k : same_json (Obj l) (Obj k) -> same_input (Members l) (Members k)
| same_elements l k : Forall2 same_json l k -> same_input (Elements l) (Elements k).

Lemma named_layout name l k :
  same_json (Obj l) (Obj k) ->
  exists js, Forall2 same_json (named name l) js /\ js ≡ₚ named name k.
Proof.
  intros Hs. inversion Hs as [| | | | |? k' ? HF Hp]; subst.
  exists (named name k'). split; [by apply named_same|]. unfold named. by rewrite Hp.
Qed.

Lemma same_result_fmap {A} (R : Input -> Input -> Prop) (x : option A) i k :
  R i k -> same_result R ((fun a => (a, i)) <$> x) ((fun a => (a, k)) <$> x).
Proof. by destruct x. Qed.

Lemma respects_layout_field {A} `{ReadsLayout A} name missing absent :
  respects same_input (field (A := A) name missing absent).
Proof.
  intros i k Hik. destruct Hik as [l k Hs|l k [|x y l' k' Hxy HF]]; unfold field.
  - destruct (named_layout name l k Hs) as (js & HF & Hp).
    pose proof (Permutation_length Hp) as Hl.
    destruct HF as [|x y l1 k1 Hxy [|? ? ? ? ? HF]].
    + destruct (named name k); [|done]. apply same_result_fmap. by constructor.
    + apply Permutation_singleton_l in Hp. rewrite <- Hp, (deserialize_layout _ _ Hxy).
      apply same_result_fmap. by constructor.
    + destruct (named name k) as [|? [|]]; done.
  - apply same_result_fmap. by repeat constructor.
  - rewrite (deserialize_layout _ _ Hxy). apply same_result_fmap. by constructor.
Qed.

Lemma deserialize_struct_layout {T} (reader : Reader T) :
  respects same_input reader -> Proper (same_json ==> (=)) (deserialize_struct reader).
Proof.
  intros Hr j k Hjk. destruct Hjk as [| | | |l k HF|l k' k HF Hp]; try done; simpl.
  - assert (Hi : same_input (Elements l) (Elements k)) by by constructor.
    specialize (Hr _ _ Hi).
    destruct (reader (Elements l)) as [[a i]|], (reader (Elements k)) as [[b i']|];
      simpl in Hr; try done.
    destruct Hr as [-> [? ? _|? ? [|? ? ? ? _ _]]]; done.
  - assert (Hi : same_input (Members l) (Members k)) by (constructor; by apply (same_obj _ k')).
    specialize (Hr _ _ Hi).
    destruct (reader (Members l)) as [[a i]|], (reader (Members k)) as [[b i']|];
      simpl in Hr; try done.
    by destruct Hr as [-> _].
Qed.

(** One more member, with another name than the fields. *)
Inductive more_members (extra : string * Json) : Input -> Input -> Prop :=
| more ms : more_members extra (Members (extra :: ms)) (Members ms).

Lemma respects_more_field {A} `{Deserialize A} extra name missing absent :
  String.eqb extra.1 name = false ->
  respects (more_members extra) (field (A := A) name missing absent).
Proof.
  intros Hn i k [ms]. unfold field.
  assert (E : named name (extra :: ms) = named name ms).
  { unfold named. destruct extra as [n j]. simpl in *. by rewrite Hn. }
  rewrite E. destruct (named name ms) as [|x [|]]; try done; apply same_result_fmap; constructor.
Qed.

Lemma deserialize_struct_more {T} (reader : Reader T) extra ms :
  respects (more_members extra) reader ->
  deserialize_struct reader (Obj (extra :: ms)) = deserialize_struct reader (Obj ms).
Proof.
  intros Hr. specialize (Hr _ _ (more extra ms)). simpl.
  destruct (reader (Members (extra :: ms))) as [[a i]|], (reader (Members ms)) as [[b k]|];
    simpl in Hr; try done.
  by destruct Hr as [-> _].
Qed.

(** *** What a reader refuses *)

(** A member that is required and does not occur exactly once, or that occurs twice. *)
Lemma required_refused {A} `{Deserialize A} name ms :
  length (named name ms) <> 1%nat -> required (A := A) name (Members ms) = None.
Proof. intros Hl. unfold required, field. by destruct (named name ms) as [|? [|]]. Qed.
Lemma field_refused {A} `{Deserialize A} name missing absent ms :
  (2 <= length (named name ms))%nat -> field (A := A) name missing absent (Members ms) = None.
Proof. intros Hl. unfold field. destruct (named name ms) as [|? [|]]; simpl in Hl; done || lia. Qed.
Lemma bind_refused {A B} (r : Reader A) (f : A -> Reader B) i : r i = None -> (r ≫= f) i = None.
Proof. intros E. unfold mbind, Reader_bind. by rewrite E. Qed.
(** A field of an object leaves the object for the fields after it. *)
Lemma bind_refused_later {A B} `{Deserialize A} name missing absent (f : A -> Reader B) ms :
  (forall a, f a (Members ms) = None) ->
  (field name missing absent ≫= f) (Members ms) = None.
Proof.
  intros Hf. unfold mbind, Reader_bind, field.
  destruct (named name ms) as [|j [|]]; [destruct missing|destruct (deserialize j)|]; by simpl.
Qed.
Lemma deserialize_struct_refused {T} (reader : Reader T) ms :
  reader (Members ms) = None -> deserialize_struct reader (Obj ms) = None.
Proof. intros E. simpl. by rewrite E. Qed.

(** *** What a reader returns *)

Class ReadsRepresentable (T : Type) `{Deserialize T, Representable T} :=
  deserialize_representable (j : Json) (x : T) : deserialize j = Some x -> representable x.

#[export] Instance reads_all {T} `{Deserialize T, Representable T} `{!AllRepresentable T} :
  ReadsRepresentable T | 10.
Proof. intros j x _. apply all_representable. Qed.
#[export] Instance reads_option {T} `{ReadsRepresentable T} : ReadsRepresentable (option T).
Proof.
  intros j [x|]; [|done]. unfold deserialize, deserialize_option. intros E.
  apply (deserialize_representable (T := T) j). destruct j; try done;
    destruct (deserialize _); simpl in E; congruence.
Qed.
#[export] Instance reads_list {T} `{ReadsRepresentable T} : ReadsRepresentable (list T).
Proof.
  intros j l. unfold deserialize, deserialize_list. destruct j as [| | | |js|]; try done.
  intros E%mapM_Some. induction E as [|x y l k E _ IH]; constructor; [|done].
  by apply deserialize_representable in E.
Qed.

Definition returns {A} (P : A -> Prop) (r : Reader A) : Prop :=
  forall i a i', r i = Some (a, i') -> P a.
Lemma returns_ret {A} (P : A -> Prop) a : P a -> returns P (mret a).
Proof. intros Ha i b i' [= <- _]. done. Qed.
Lemma returns_bind {A B} (P : A -> Prop) (Q : B -> Prop) (r : Reader A) (f : A -> Reader B) :
  returns P r -> (forall a, P a -> returns Q (f a)) -> returns Q (r ≫= f).
Proof.
  intros Hr Hf i b i' E. unfold mbind, Reader_bind in E.
  destruct (r i) as [[a k]|] eqn:Er; [|done]. eapply Hf; [|done]. by eapply Hr.
Qed.
Lemma returns_field {A} `{ReadsRepresentable A} name (missing absent : option A) :
  (forall d, missing = Some d \/ absent = Some d -> representable d) ->
  returns representable (field name missing absent).
Proof.
  intros Hd i a i' E. unfold field in E.
  assert (Hf : forall (o : option A) k, (fun a => (a, k)) <$> o = Some (a, i') -> o = Some a).
  { intros [b|] k; [|done]. by intros [= -> _]. }
  repeat case_match; subst; try done; apply Hf in E; eauto;
    by apply deserialize_representable in E.
Qed.
Lemma deserialize_struct_returns {T} (P : T -> Prop) (reader : Reader T) j x :
  returns P reader -> deserialize_struct reader j = Some x -> P x.
Proof.
  intros Hr E. destruct j as [| | | |l|ms]; try done; simpl in E.
  - destruct (reader (Elements l)) as [[a [|[|]]]|] eqn:Er; try done.
    injection E as ->. by eapply Hr.
  - destruct (reader (Members ms)) as [[a i]|] eqn:Er; [|done].
    injection E as ->. by eapply Hr.
Qed.
End Traits.

(** By the shape of the reader: layout, other members, refusals and results. *)
Ltac reads_layout :=
  apply deserialize_struct_layout;
  repeat (apply respects_bind; [apply respects_layout_field | intros ?]); apply respects_ret.
Ltac reads_more :=
  apply deserialize_struct_more;
  repeat (apply respects_bind; [apply respects_more_field | intros ?]); try apply respects_ret;
  apply String.eqb_neq.
Ltac refuses :=
  apply deserialize_struct_refused;
  repeat first
    [ apply bind_refused; apply required_refused; assumption
    | apply bind_refused; apply field_refused; assumption
    | apply bind_refused_later; intros ? ].
Ltac returns_representable :=
  let E := fresh in
  intros ? ? E; eapply deserialize_struct_returns; [|exact E];
  repeat (eapply returns_bind;
    [apply returns_field; intros ? [Hd|Hd]; simplify_eq; try apply all_representable; try constructor
    | intros ? ?]);
  apply returns_ret; try done.
