(* ===== verification/JsonCodec.v ===== *)
(** How the types of [src/rpc_client/json] are written and read as JSON: for every type the
    [Serialize] and [Deserialize] that its attributes describe, field by field, with the
    combinators of Json.v. The laws of these forms are in JsonLaws.v. *)

From S2P Require Import Prelude Collections EvmRpcTypes Externals Numbers Hex JsonTypes Json.
From S2P Require CandidTypes.
From S2P Require Instances.
Open Scope Z_scope.

(** ** The crates that the types rely on *)

(** A value that is neither an array nor an object. *)
Definition is_scalar `{JsonNumbers} (j : Json) : bool :=
  match j with Arr _ | Obj _ => false | _ => true end.

(** A type that is written as a text, and not read from arrays and objects. *)
Class Textual `{JsonNumbers} (T : Type) `{!Serialize T, !Deserialize T} := {
  textual_written (x : T) : exists s, serialize x = Str s;
  textual_read (j : Json) : is_scalar j = false -> deserialize (T := T) j = None;
}.

Section Textual.
Context `{JsonNumbers} {T : Type} `{!Serialize T, !Deserialize T, !Textual T}.
#[export] Instance textual_not_null : NotNull T | 10.
Proof. intros x. by destruct (textual_written x) as [s ->]. Qed.
#[export] Instance textual_layout : ReadsLayout T | 10.
Proof. intros ? ? [| | | |l k HF|l k' k HF Hp]; try done; by rewrite !textual_read. Qed.
#[export] Instance textual_plain n : Plain T n | 10.
Proof. intros x. destruct (textual_written x) as [s ->]. by destruct n. Qed.
End Textual.

(** Floating-point numbers in [serde_json]: infinities and NaN are not numbers of JSON, and
    without the feature [float_roundtrip] a finite number may be read as one that is near. *)
Class JsonScalars `{JsonNumbers} := {
  number_from_u8 : u8 -> json_number;
  #[global] f64_serialize :: Serialize f64;
  #[global] f64_deserialize :: Deserialize f64;
}.
Class JsonScalarsLaws `{JsonScalars} := {
  number_from_u8_inj : Inj (=) (=) number_from_u8;
  #[global] f64_layout :: ReadsLayout f64;
}.
(** The numbers that are read back exactly as they were. *)
#[export] Instance representable_f64 `{JsonScalars} : Representable f64 :=
  fun x => deserialize (serialize x) = Some x.
#[export] Instance f64_roundtrip `{JsonScalars} : RoundTrip f64.
Proof. by intros x Hx. Qed.

(** [ethnum::u256], with the feature [serde]: a text, and no text that begins with a letter. *)
Definition is_ascii_lowercase (c : Ascii.ascii) : bool :=
  (N.leb 97 (Ascii.N_of_ascii c) && N.leb (Ascii.N_of_ascii c) 122)%N.
Class EthnumJson `{JsonNumbers} := {
  #[global] u256_serialize :: Serialize U256;
  #[global] u256_deserialize :: Deserialize U256;
}.
Class EthnumJsonLaws `{EthnumJson} := {
  #[global] u256_textual :: Textual U256;
  u256_deserialize_serialize (z : U256) : deserialize (serialize z) = Some z;
  u256_letter c s : is_ascii_lowercase c = true -> deserialize (T := U256) (Str (String c s)) = None;
}.

(** [ic_ethereum_types]: the module [serde_data], for types that can be written as bytes and
    have a [FromHex], and the type [Address]. *)
Class EthereumTypes `{JsonNumbers} `{HexCrate} := {
  serde_data_serialize : list byte -> Json;
  serde_data_deserialize {D} (from_hex : string -> Result D FromHexError) : Json -> option D;
  #[global] address_serialize :: Serialize Address;
  #[global] address_deserialize :: Deserialize Address;
}.
Class EthereumTypesLaws `{EthereumTypes} := {
  serde_data_text b : serde_data_serialize b = Str ("0x" +:+ hex_encode b);
  serde_data_reads {D} (from_hex : string -> Result D FromHexError) j d :
    serde_data_deserialize from_hex j = Some d <->
    exists digits, j = Str ("0x" +:+ digits) /\ from_hex digits = Ok d;
  #[global] address_textual :: Textual Address;
  address_deserialize_serialize (a : Address) : deserialize (serialize a) = Some a;
}.

(** ** Scalars *)

Section Codecs.
Context `{JsonScalars} `{!EthnumJson} `{HexCrate} `{!EthereumTypes}.

#[export] Instance representable_address : Representable Address := fun _ => True.

(** [impl Serialize for Amount] and [impl Deserialize for Amount]. *)
#[export] Instance serialize_Amount {Unit} : Serialize (Amount Unit) := fun a =>
  serialize (amount_0 a).
#[export] Instance deserialize_Amount {Unit} : Deserialize (Amount Unit) := fun j =>
  Build_Amount <$> deserialize j.
#[export] Instance representable_Amount {Unit} : Representable (Amount Unit) := fun _ => True.

(** The macro [bytes_array], [Data] and [JsonByte]: [transparent] with [serde_data]. *)
#[export] Instance serialize_FixedSizeData : Serialize FixedSizeData := fun x =>
  serde_data_serialize (proj1_sig (FixedSizeData_into_bytes x)).
#[export] Instance deserialize_FixedSizeData : Deserialize FixedSizeData := fun j =>
  FixedSizeData_new <$> serde_data_deserialize (hex_decode_array 32) j.
#[export] Instance representable_FixedSizeData : Representable FixedSizeData := fun _ => True.
#[export] Instance serialize_Hash : Serialize Hash := fun x =>
  serde_data_serialize (proj1_sig (Hash_into_bytes x)).
#[export] Instance deserialize_Hash : Deserialize Hash := fun j =>
  Hash_new <$> serde_data_deserialize (hex_decode_array 32) j.
#[export] Instance representable_Hash : Representable Hash := fun _ => True.
#[export] Instance serialize_LogsBloom : Serialize LogsBloom := fun x =>
  serde_data_serialize (proj1_sig (LogsBloom_into_bytes x)).
#[export] Instance deserialize_LogsBloom : Deserialize LogsBloom := fun j =>
  LogsBloom_new <$> serde_data_deserialize (hex_decode_array 256) j.
#[export] Instance representable_LogsBloom : Representable LogsBloom := fun _ => True.
#[export] Instance serialize_StorageKey : Serialize StorageKey := fun x =>
  serde_data_serialize (proj1_sig (StorageKey_into_bytes x)).
#[export] Instance deserialize_StorageKey : Deserialize StorageKey := fun j =>
  StorageKey_new <$> serde_data_deserialize (hex_decode_array 32) j.
#[export] Instance representable_StorageKey : Representable StorageKey := fun _ => True.
#[export] Instance serialize_JsonByte : Serialize JsonByte := fun x =>
  serde_data_serialize (proj1_sig (byte_0 (JsonByte_0 x))).
#[export] Instance deserialize_JsonByte : Deserialize JsonByte := fun j =>
  Build_JsonByte <$> serde_data_deserialize Byte_from_hex j.
#[export] Instance representable_JsonByte : Representable JsonByte := fun _ => True.
#[export] Instance serialize_Data : Serialize Data := fun x => serde_data_serialize (Data_0 x).
#[export] Instance deserialize_Data : Deserialize Data := fun j =>
  Build_Data <$> serde_data_deserialize hex_decode j.
#[export] Instance representable_Data : Representable Data := fun x => is_bytes (Data_0 x).

(** [try_from = ethnum::u256], [into = ethnum::u256]. *)
#[export] Instance serialize_TransactionStatus : Serialize TransactionStatus := fun x =>
  serialize (TransactionStatus.u256_from x).
#[export] Instance deserialize_TransactionStatus : Deserialize TransactionStatus := fun j =>
  z ← deserialize j;
  match TransactionStatus.TransactionStatus_try_from z with Ok x => Some x | Err _ => None end.
#[export] Instance representable_TransactionStatus : Representable TransactionStatus :=
  fun _ => True.

(** Enumerations: the names of the variants are those of [rename], or of the variants. *)
Definition BlockTag_names : list (string * BlockTag) :=
  [("latest", BlockTag.Latest); ("safe", BlockTag.Safe); ("finalized", BlockTag.Finalized);
   ("earliest", BlockTag.Earliest); ("pending", BlockTag.Pending)].
#[export] Instance serialize_BlockTag : Serialize BlockTag := fun x =>
  Str match x with
      | BlockTag.Latest => "latest"
      | BlockTag.Safe => "safe"
      | BlockTag.Finalized => "finalized"
      | BlockTag.Earliest => "earliest"
      | BlockTag.Pending => "pending"
      end.
#[export] Instance deserialize_BlockTag : Deserialize BlockTag := deserialize_enum BlockTag_names.
#[export] Instance representable_BlockTag : Representable BlockTag := fun _ => True.

Definition SendRawTransactionResult_names : list (string * SendRawTransactionResult) :=
  [("Ok", SendRawTransactionResult.Ok);
   ("InsufficientFunds", SendRawTransactionResult.InsufficientFunds);
   ("NonceTooLow", SendRawTransactionResult.NonceTooLow);
   ("NonceTooHigh", SendRawTransactionResult.NonceTooHigh)].
#[export] Instance serialize_SendRawTransactionResult : Serialize SendRawTransactionResult :=
  fun x =>
  Str match x with
      | SendRawTransactionResult.Ok => "Ok"
      | SendRawTransactionResult.InsufficientFunds => "InsufficientFunds"
      | SendRawTransactionResult.NonceTooLow => "NonceTooLow"
      | SendRawTransactionResult.NonceTooHigh => "NonceTooHigh"
      end.
#[export] Instance deserialize_SendRawTransactionResult : Deserialize SendRawTransactionResult :=
  deserialize_enum SendRawTransactionResult_names.
#[export] Instance representable_SendRawTransactionResult :
  Representable SendRawTransactionResult := fun _ => True.

(** [untagged]: a number, else a tag. *)
#[export] Instance serialize_BlockSpec : Serialize BlockSpec := fun x =>
  match x with
  | BlockSpec.Number n => serialize n
  | BlockSpec.Tag tag => serialize tag
  end.
#[export] Instance deserialize_BlockSpec : Deserialize BlockSpec :=
  deserialize_untagged BlockSpec.Number BlockSpec.Tag.
#[export] Instance representable_BlockSpec : Representable BlockSpec := fun _ => True.

(** ** Requests *)

(** [into]: the parameters are written as their tuple. *)
#[export] Instance serialize_GetTransactionCountParams : Serialize GetTransactionCountParams :=
  fun x => serialize (GetTransactionCountParams_into_tuple x).
#[export] Instance serialize_GetBlockByNumberParams : Serialize GetBlockByNumberParams :=
  fun x => serialize (GetBlockByNumberParams_into_tuple x).
(** A [Vec<u8>] without [serde_data] is an array of numbers. *)
Definition serialize_bytes (l : list u8) : Json := Arr (map (fun b => Num (number_from_u8 b)) l).
#[export] Instance serialize_FeeHistoryParams : Serialize FeeHistoryParams := fun x =>
  let '(block_count, highest_block, reward_percentiles) := FeeHistoryParams_into_tuple x in
  Arr [serialize block_count; serialize highest_block; serialize_bytes reward_percentiles].

#[export] Instance serialize_GetLogsParam : Serialize GetLogsParam := fun x =>
  serialize_struct
    [member "fromBlock" (GetLogsParam.from_block x);
     member "toBlock" (GetLogsParam.to_block x);
     member "address" (GetLogsParam.address x);
     member_nonempty "topics" (GetLogsParam.topics x)].
#[export] Instance deserialize_GetLogsParam : Deserialize GetLogsParam := deserialize_struct (
  from_block ← required "fromBlock";
  to_block ← required "toBlock";
  address ← required "address";
  topics ← required "topics";
  mret {| GetLogsParam.from_block := from_block; GetLogsParam.to_block := to_block;
          GetLogsParam.address := address; GetLogsParam.topics := topics |}).
#[export] Instance representable_GetLogsParam : Representable GetLogsParam := fun _ => True.

#[export] Instance serialize_AccessListItem : Serialize AccessListItem := fun x =>
  serialize_struct
    [member "address" (AccessListItem.address x);
     member "storageKeys" (AccessListItem.storage_keys x)].
#[export] Instance deserialize_AccessListItem : Deserialize AccessListItem := deserialize_struct (
  address ← required "address";
  storage_keys ← required "storageKeys";
  mret {| AccessListItem.address := address; AccessListItem.storage_keys := storage_keys |}).
#[export] Instance representable_AccessListItem : Representable AccessListItem := fun _ => True.

(** [transparent]. *)
#[export] Instance serialize_AccessList : Serialize AccessList := fun x =>
  serialize (AccessList_0 x).
#[export] Instance deserialize_AccessList : Deserialize AccessList := fun j =>
  Build_AccessList <$> deserialize j.
#[export] Instance representable_AccessList : Representable AccessList := fun _ => True.

#[export] Instance serialize_TransactionRequest : Serialize TransactionRequest := fun x =>
  serialize_struct
    [member_some "type" (TransactionRequest.tx_type x);
     member_some "nonce" (TransactionRequest.nonce x);
     member_some "to" (TransactionRequest.to x);
     member_some "from" (TransactionRequest.from x);
     member_some "gas" (TransactionRequest.gas x);
     member_some "value" (TransactionRequest.value x);
     member_some "input" (TransactionRequest.input x);
     member_some "gasPrice" (TransactionRequest.gas_price x);
     member_some "maxPriorityFeePerGas" (TransactionRequest.max_priority_fee_per_gas x);
     member_some "maxFeePerGas" (TransactionRequest.max_fee_per_gas x);
     member_some "maxFeePerBlobGas" (TransactionRequest.max_fee_per_blob_gas x);
     member_some "accessList" (TransactionRequest.access_list x);
     member_some "blobVersionedHashes" (TransactionRequest.blob_versioned_hashes x);
     member_some "blobs" (TransactionRequest.blobs x);
     member_some "chainId" (TransactionRequest.chain_id x)].
#[export] Instance deserialize_TransactionRequest : Deserialize TransactionRequest :=
  deserialize_struct (
  tx_type ← optional "type";
  nonce ← optional "nonce";
  to ← optional "to";
  from ← optional "from";
  gas ← optional "gas";
  value ← optional "value";
  input ← optional "input";
  gas_price ← optional "gasPrice";
  max_priority_fee_per_gas ← optional "maxPriorityFeePerGas";
  max_fee_per_gas ← optional "maxFeePerGas";
  max_fee_per_blob_gas ← optional "maxFeePerBlobGas";
  access_list ← optional "accessList";
  blob_versioned_hashes ← optional "blobVersionedHashes";
  blobs ← optional "blobs";
  chain_id ← optional "chainId";
  mret {| TransactionRequest.tx_type := tx_type; TransactionRequest.nonce := nonce;
          TransactionRequest.to := to; TransactionRequest.from := from;
          TransactionRequest.gas := gas; TransactionRequest.value := value;
          TransactionRequest.input := input; TransactionRequest.gas_price := gas_price;
          TransactionRequest.max_priority_fee_per_gas := max_priority_fee_per_gas;
          TransactionRequest.max_fee_per_gas := max_fee_per_gas;
          TransactionRequest.max_fee_per_blob_gas := max_fee_per_blob_gas;
          TransactionRequest.access_list := access_list;
          TransactionRequest.blob_versioned_hashes := blob_versioned_hashes;
          TransactionRequest.blobs := blobs; TransactionRequest.chain_id := chain_id |}).
#[export] Instance representable_TransactionRequest : Representable TransactionRequest := fun x =>
  representable (TransactionRequest.input x) /\ representable (TransactionRequest.blobs x).

#[export] Instance serialize_EthCallParams : Serialize EthCallParams := fun x =>
  serialize (EthCallParams_into_tuple x).

(** ** Responses *)

#[export] Instance serialize_LogEntry : Serialize LogEntry := fun x =>
  serialize_struct
    [member "address" (LogEntry.address x);
     member "topics" (LogEntry.topics x);
     member "data" (LogEntry.data x);
     member "blockNumber" (LogEntry.block_number x);
     member "transactionHash" (LogEntry.transaction_hash x);
     member "transactionIndex" (LogEntry.transaction_index x);
     member "blockHash" (LogEntry.block_hash x);
     member "logIndex" (LogEntry.log_index x);
     member "removed" (LogEntry.removed x)].
#[export] Instance deserialize_LogEntry : Deserialize LogEntry := deserialize_struct (
  address ← required "address";
  topics ← required "topics";
  data ← required "data";
  block_number ← optional "blockNumber";
  transaction_hash ← optional "transactionHash";
  transaction_index ← optional "transactionIndex";
  block_hash ← optional "blockHash";
  log_index ← optional "logIndex";
  removed ← defaulted "removed" false;
  mret {| LogEntry.address := address; LogEntry.topics := topics; LogEntry.data := data;
          LogEntry.block_number := block_number; LogEntry.transaction_hash := transaction_hash;
          LogEntry.transaction_index := transaction_index; LogEntry.block_hash := block_hash;
          LogEntry.log_index := log_index; LogEntry.removed := removed |}).
#[export] Instance representable_LogEntry : Representable LogEntry := fun x =>
  representable (LogEntry.data x).

#[export] Instance serialize_TransactionReceipt : Serialize TransactionReceipt := fun x =>
  serialize_struct
    [member "blockHash" (TransactionReceipt.block_hash x);
     member "blockNumber" (TransactionReceipt.block_number x);
     member "effectiveGasPrice" (TransactionReceipt.effective_gas_price x);
     member "cumulativeGasUsed" (TransactionReceipt.cumulative_gas_used x);
     member "gasUsed" (TransactionReceipt.gas_used x);
     member "status" (TransactionReceipt.status x);
     member "root" (TransactionReceipt.root x);
     member "transactionHash" (TransactionReceipt.transaction_hash x);
     member "contractAddress" (TransactionReceipt.contract_address x);
     member "from" (TransactionReceipt.from x);
     member "logs" (TransactionReceipt.logs x);
     member "logsBloom" (TransactionReceipt.logs_bloom x);
     member "to" (TransactionReceipt.to x);
     member "transactionIndex" (TransactionReceipt.transaction_index x);
     member "type" (TransactionReceipt.tx_type x)].
#[export] Instance deserialize_TransactionReceipt : Deserialize TransactionReceipt :=
  deserialize_struct (
  block_hash ← required "blockHash";
  block_number ← required "blockNumber";
  effective_gas_price ← required "effectiveGasPrice";
  cumulative_gas_used ← required "cumulativeGasUsed";
  gas_used ← required "gasUsed";
  status ← optional "status";
  root ← optional "root";
  transaction_hash ← required "transactionHash";
  contract_address ← optional "contractAddress";
  from ← required "from";
  logs ← required "logs";
  logs_bloom ← required "logsBloom";
  to ← optional "to";
  transaction_index ← required "transactionIndex";
  tx_type ← required "type";
  mret {| TransactionReceipt.block_hash := block_hash;
          TransactionReceipt.block_number := block_number;
          TransactionReceipt.effective_gas_price := effective_gas_price;
          TransactionReceipt.cumulative_gas_used := cumulative_gas_used;
          TransactionReceipt.gas_used := gas_used; TransactionReceipt.status := status;
          TransactionReceipt.root := root;
          TransactionReceipt.transaction_hash := transaction_hash;
          TransactionReceipt.contract_address := contract_address;
          TransactionReceipt.from := from; TransactionReceipt.logs := logs;
          TransactionReceipt.logs_bloom := logs_bloom; TransactionReceipt.to := to;
          TransactionReceipt.transaction_index := transaction_index;
          TransactionReceipt.tx_type := tx_type |}).
#[export] Instance representable_TransactionReceipt : Representable TransactionReceipt := fun x =>
  representable (TransactionReceipt.logs x).

#[export] Instance serialize_Block : Serialize Block := fun x =>
  serialize_struct
    [member "baseFeePerGas" (Block.base_fee_per_gas x);
     member "number" (Block.number x);
     member "difficulty" (Block.difficulty x);
     member "extraData" (Block.extra_data x);
     member "gasLimit" (Block.gas_limit x);
     member "gasUsed" (Block.gas_used x);
     member "hash" (Block.hash x);
     member "logsBloom" (Block.logs_bloom x);
     member "miner" (Block.miner x);
     member "mixHash" (Block.mix_hash x);
     member "nonce" (Block.nonce x);
     member "parentHash" (Block.parent_hash x);
     member "receiptsRoot" (Block.receipts_root x);
     member "sha3Uncles" (Block.sha3_uncles x);
     member "size" (Block.size x);
     member "stateRoot" (Block.state_root x);
     member "timestamp" (Block.timestamp x);
     member "transactions" (Block.transactions x);
     member "transactionsRoot" (Block.transactions_root x);
     member "uncles" (Block.uncles x)].
#[export] Instance deserialize_Block : Deserialize Block := deserialize_struct (
  base_fee_per_gas ← optional "baseFeePerGas";
  number ← required "number";
  difficulty ← optional "difficulty";
  extra_data ← required "extraData";
  gas_limit ← required "gasLimit";
  gas_used ← required "gasUsed";
  hash ← required "hash";
  logs_bloom ← required "logsBloom";
  miner ← required "miner";
  mix_hash ← required "mixHash";
  nonce ← required "nonce";
  parent_hash ← required "parentHash";
  receipts_root ← required "receiptsRoot";
  sha3_uncles ← required "sha3Uncles";
  size ← required "size";
  state_root ← required "stateRoot";
  timestamp ← required "timestamp";
  transactions ← defaulted "transactions" [];
  transactions_root ← optional "transactionsRoot";
  uncles ← defaulted "uncles" [];
  mret {| Block.base_fee_per_gas := base_fee_per_gas; Block.number := number;
          Block.difficulty := difficulty; Block.extra_data := extra_data;
          Block.gas_limit := gas_limit; Block.gas_used := gas_used; Block.hash := hash;
          Block.logs_bloom := logs_bloom; Block.miner := miner; Block.mix_hash := mix_hash;
          Block.nonce := nonce; Block.parent_hash := parent_hash;
          Block.receipts_root := receipts_root; Block.sha3_uncles := sha3_uncles;
          Block.size := size; Block.state_root := state_root; Block.timestamp := timestamp;
          Block.transactions := transactions; Block.transactions_root := transactions_root;
          Block.uncles := uncles |}).
#[export] Instance representable_Block : Representable Block := fun x =>
  representable (Block.extra_data x).

#[export] Instance serialize_FeeHistory : Serialize FeeHistory := fun x =>
  serialize_struct
    [member "oldestBlock" (FeeHistory.oldest_block x);
     member "baseFeePerGas" (FeeHistory.base_fee_per_gas x);
     member "gasUsedRatio" (FeeHistory.gas_used_ratio x);
     member "reward" (FeeHistory.reward x)].
#[export] Instance deserialize_FeeHistory : Deserialize FeeHistory := deserialize_struct (
  oldest_block ← required "oldestBlock";
  base_fee_per_gas ← required "baseFeePerGas";
  gas_used_ratio ← defaulted "gasUsedRatio" [];
  reward ← defaulted "reward" [];
  mret {| FeeHistory.oldest_block := oldest_block;
          FeeHistory.base_fee_per_gas := base_fee_per_gas;
          FeeHistory.gas_used_ratio := gas_used_ratio; FeeHistory.reward := reward |}).
#[export] Instance representable_FeeHistory : Representable FeeHistory := fun x =>
  representable (FeeHistory.gas_used_ratio x).
End Codecs.
