(* ===== verification/JsonInstances.v ===== *)
(** Concrete functions for the crates that the JSON types rely on, with their laws: numbers
    are integers, 256-bit integers and bytes are texts in base 16. *)

From Stdlib Require Import Ascii.
From S2P Require Import Prelude Collections EvmRpcTypes Externals Numbers Hex JsonTypes Json.
From S2P Require Import JsonCodec.
From S2P Require Instances.
Import Instances.Concrete.
Open Scope Z_scope.

#[export] Instance json_numbers : JsonNumbers :=
  {| json_number := Z; json_integer _ := true |}.

(** A finite [f64] is the number of its bits. *)
Definition f64_finite_dec (x : f64) : bool := negb (Z.land (Z.shiftr x 52) 2047 =? 2047).
#[export] Instance json_scalars : JsonScalars := {|
  number_from_u8 b := b;
  f64_serialize x := if f64_finite_dec x then Num x else Null;
  f64_deserialize j :=
    match j with Num x => if f64_finite_dec x then Some x else None | _ => None end;
|}.
#[export] Instance json_scalars_laws : JsonScalarsLaws.
Proof.
  split.
  - by intros x y.
  - by intros ? ? [].
Qed.

(** [0x] and digits; a zero is put before an odd number of them. *)
Definition u256_read (s : string) : option U256 :=
  if starts_with "0x" s then
    let digits := str_skip2 s in
    let digits := if Nat.odd (String.length digits) then String "0"%char digits else digits in
    b ← Instances.hex_parse digits;
    if_test (is_u256 (be_value b)) (fun H => Some (U256_from (be_value b) H)) (fun _ => None)
  else None.
#[export] Instance ethnum_json : EthnumJson := {|
  u256_serialize z := Str ("0x" +:+ Instances.hex_text (proj1_sig (u256_to_be_bytes z)));
  u256_deserialize j := match j with Str s => u256_read s | _ => None end;
|}.
#[export] Instance ethnum_json_laws : EthnumJsonLaws.
Proof.
  split.
  - split; [by eexists|]. by intros [].
  - intros z. cbv [serialize deserialize u256_serialize u256_deserialize ethnum_json].
    unfold u256_read. rewrite starts_with_app, str_skip2_0x.
    pose proof (u256_to_be_bytes_value z) as Hv.
    destruct (u256_to_be_bytes z) as [b Hb]. cbn [proj1_sig] in *.
    pose proof (hex_encode_length b) as Hl. cbv [hex_encode hex_crate] in Hl.
    rewrite Hl, Nat.odd_mul. cbn [Nat.odd andb negb Nat.even].
    rewrite Instances.hex_parse_text by (by apply bytes_ok_spec in Hb as [_ ?]).
    assert (Hz : is_u256 (be_value b) = true) by (rewrite Hv; apply (proj2_sig z)).
    cbv [mbind option_bind]. rewrite (if_test_true _ _ _ Hz). f_equal. by apply U256_eq.
  - intros c s Hc. cbv [deserialize u256_deserialize ethnum_json]. unfold u256_read, starts_with. cbn [String.prefix].
    destruct (Ascii.ascii_dec "0" c) as [<-|]; [done|done].
Qed.

Definition data_read {D E} (from_hex : string -> Result D E) (j : Json) : option D :=
  match j with
  | Str s =>
      if starts_with "0x" s
      then match from_hex (str_skip2 s) with Ok d => Some d | Err _ => None end
      else None
  | _ => None
  end.
#[export] Instance ethereum_types : EthereumTypes := {|
  serde_data_serialize b := Str ("0x" +:+ hex_encode b);
  serde_data_deserialize D := data_read;
  address_serialize a := Str ("0x" +:+ hex_encode (proj1_sig (Address_into_bytes a)));
  address_deserialize j := Address_new <$> data_read (hex_decode_array 20) j;
|}.
Lemma data_read_spec {D E} (from_hex : string -> Result D E) j d :
  data_read from_hex j = Some d <->
  exists digits, j = Str ("0x" +:+ digits) /\ from_hex digits = Ok d.
Proof.
  split.
  - destruct j as [| | |s| |]; try done. unfold data_read.
    destruct (starts_with "0x" s) eqn:Es; [|done]. apply starts_with_0x in Es.
    destruct (from_hex (str_skip2 s)) eqn:E1; [|done]. intros [= ->].
    exists (str_skip2 s). by rewrite <- Es.
  - intros (digits & -> & E1). unfold data_read. by rewrite starts_with_app, str_skip2_0x, E1.
Qed.
#[export] Instance ethereum_types_laws : EthereumTypesLaws.
Proof.
  split.
  - done.
  - intros D from_hex j d. apply data_read_spec.
  - split; [by eexists|]. by intros [].
  - intros [a]. cbv [serialize deserialize address_serialize address_deserialize ethereum_types].
    erewrite (proj2 (data_read_spec _ _ a)); [done|].
    eexists. split; [done|]. apply (hex_decode_array_encode a).
Qed.
