(* ===== verification/JsonLaws.v ===== *)
(** What is written as JSON is read back, and reading depends only on the members that the
    types name: their order, here and in the values, and other members make no difference. *)

From S2P Require Import Prelude Collections EvmRpcTypes Externals Numbers Hex JsonTypes Json.
From S2P Require Import JsonCodec.
From S2P Require CandidTypes.
From S2P Require Instances JsonInstances.
Open Scope Z_scope.

(** Reads the fields one after another from the object they were written to. *)
Ltac solve_representable := first [assumption | apply all_representable].
Ltac read_field :=
  first
    [ erewrite bind_run; [|eapply required_run; [reflexivity|solve_representable]]
    | erewrite bind_run; [|eapply defaulted_run; [reflexivity|solve_representable]]
    | erewrite bind_run; [|eapply optional_run; [reflexivity|solve_representable]] ].
Ltac struct_roundtrip x :=
  unfold serialize_struct, deserialize_struct; simpl; repeat read_field; by destruct x.

(** The same for a field that is left out when it is [None]. *)
Ltac read_option :=
  erewrite bind_run;
  [|eapply optional_run_some;
    [rewrite named_concat; cbn [map]; rewrite !named_member_some; simpl;
     rewrite ?app_nil_r; reflexivity
    |solve_representable]].

(** A struct is as plain as its fields. *)
Ltac struct_plain :=
  intros ?; apply serialize_struct_plain;
  repeat (constructor; [first [apply member_plain | apply member_some_plain]|]); constructor.

Section Laws.
Context `{JsonScalarsLaws} `{!EthnumJson, !EthnumJsonLaws}.
Context `{HexLaws} `{!EthereumTypes, !EthereumTypesLaws}.

(** ** Scalars *)

#[export] Instance Amount_all {Unit} : AllRepresentable (Amount Unit).
Proof. by intros x. Qed.
#[export] Instance address_all : AllRepresentable Address.
Proof. by intros x. Qed.
#[export] Instance FixedSizeData_all : AllRepresentable FixedSizeData.
Proof. by intros x. Qed.
#[export] Instance Hash_all : AllRepresentable Hash.
Proof. by intros x. Qed.
#[export] Instance LogsBloom_all : AllRepresentable LogsBloom.
Proof. by intros x. Qed.
#[export] Instance StorageKey_all : AllRepresentable StorageKey.
Proof. by intros x. Qed.
#[export] Instance JsonByte_all : AllRepresentable JsonByte.
Proof. by intros x. Qed.
#[export] Instance TransactionStatus_all : AllRepresentable TransactionStatus.
Proof. by intros x. Qed.
#[export] Instance BlockSpec_all : AllRepresentable BlockSpec.
Proof. by intros x. Qed.
#[export] Instance AccessListItem_all : AllRepresentable AccessListItem.
Proof. by intros x. Qed.
#[export] Instance AccessList_all : AllRepresentable AccessList.
Proof. by intros x. Qed.

#[export] Instance Amount_textual {Unit} : Textual (Amount Unit).
Proof.
  split.
  - intros x. apply (textual_written (amount_0 x)).
  - intros j Hj. unfold deserialize, deserialize_Amount. by rewrite (textual_read j Hj).
Qed.
#[export] Instance Amount_roundtrip {Unit} : RoundTrip (Amount Unit).
Proof.
  intros x _. unfold deserialize, deserialize_Amount, serialize, serialize_Amount.
  rewrite u256_deserialize_serialize. by destruct x.
Qed.
#[export] Instance address_roundtrip : RoundTrip Address.
Proof. intros x _. apply address_deserialize_serialize. Qed.

(** A type that is [serde_data] up to a constructor. *)
Lemma serde_data_textual {D T} (from_hex : string -> Result D FromHexError) (make : D -> T)
    (bytes : T -> list byte) :
  @Textual _ T (fun x => serde_data_serialize (bytes x))
    (fun j => make <$> serde_data_deserialize from_hex j).
Proof.
  split.
  - intros x. unfold serialize. eexists. apply serde_data_text.
  - intros j Hj. unfold deserialize. destruct (serde_data_deserialize from_hex j) eqn:E; [|done].
    by apply serde_data_reads in E as (digits & -> & _).
Qed.
Lemma serde_data_roundtrip {D T} (from_hex : string -> Result D FromHexError) (make : D -> T)
    (d : D) b :
  from_hex (hex_encode b) = Ok d ->
  make <$> serde_data_deserialize from_hex (serde_data_serialize b) = Some (make d).
Proof.
  intros E. erewrite (proj2 (serde_data_reads from_hex _ d)); [done|].
  exists (hex_encode b). by rewrite serde_data_text.
Qed.

#[export] Instance FixedSizeData_textual : Textual FixedSizeData := serde_data_textual _ _ _.
#[export] Instance Hash_textual : Textual Hash := serde_data_textual _ _ _.
#[export] Instance LogsBloom_textual : Textual LogsBloom := serde_data_textual _ _ _.
#[export] Instance StorageKey_textual : Textual StorageKey := serde_data_textual _ _ _.
#[export] Instance JsonByte_textual : Textual JsonByte := serde_data_textual _ _ _.
#[export] Instance Data_textual : Textual Data := serde_data_textual _ _ _.

#[export] Instance FixedSizeData_roundtrip : RoundTrip FixedSizeData.
Proof. intros [x] _. apply serde_data_roundtrip, hex_decode_array_encode. Qed.
#[export] Instance Hash_roundtrip : RoundTrip Hash.
Proof. intros [x] _. apply serde_data_roundtrip, hex_decode_array_encode. Qed.
#[export] Instance LogsBloom_roundtrip : RoundTrip LogsBloom.
Proof. intros [x] _. apply serde_data_roundtrip, hex_decode_array_encode. Qed.
#[export] Instance StorageKey_roundtrip : RoundTrip StorageKey.
Proof. intros [x] _. apply serde_data_roundtrip, hex_decode_array_encode. Qed.
#[export] Instance JsonByte_roundtrip : RoundTrip JsonByte.
Proof. intros [x] _. apply serde_data_roundtrip, Byte_from_hex_encode. Qed.
#[export] Instance Data_roundtrip : RoundTrip Data.
Proof. intros [x] Hx. by apply serde_data_roundtrip, hex_decode_encode. Qed.

#[export] Instance TransactionStatus_textual : Textual TransactionStatus.
Proof.
  split.
  - intros x. apply (textual_written (TransactionStatus.u256_from x)).
  - intros j Hj. unfold deserialize, deserialize_TransactionStatus. by rewrite (textual_read j Hj).
Qed.
#[export] Instance TransactionStatus_roundtrip : RoundTrip TransactionStatus.
Proof.
  intros x _. unfold deserialize, deserialize_TransactionStatus, serialize,
    serialize_TransactionStatus. rewrite u256_deserialize_serialize. by destruct x.
Qed.

(** ** Enumerations *)

#[export] Instance BlockTag_roundtrip : RoundTrip BlockTag.
Proof. by intros [] _. Qed.
#[export] Instance BlockTag_layout : ReadsLayout BlockTag := deserialize_enum_layout BlockTag_names.
#[export] Instance BlockTag_not_null : NotNull BlockTag.
Proof. by intros []. Qed.
#[export] Instance SendRawTransactionResult_roundtrip : RoundTrip SendRawTransactionResult.
Proof. by intros [] _. Qed.
#[export] Instance SendRawTransactionResult_layout : ReadsLayout SendRawTransactionResult :=
  deserialize_enum_layout SendRawTransactionResult_names.

(** No tag is a number. *)
Lemma BlockTag_not_number (tag : BlockTag) : deserialize (T := U256) (serialize tag) = None.
Proof. destruct tag; by apply u256_letter. Qed.
#[export] Instance BlockSpec_roundtrip : RoundTrip BlockSpec.
Proof.
  intros [n|tag] _; unfold deserialize, deserialize_BlockSpec, deserialize_untagged.
  - cbn [serialize serialize_BlockSpec]. by rewrite deserialize_serialize.
  - unfold deserialize at 1, deserialize_Amount. cbn [serialize serialize_BlockSpec].
    rewrite BlockTag_not_number. simpl. by rewrite deserialize_serialize.
Qed.
#[export] Instance BlockSpec_layout : ReadsLayout BlockSpec.
Proof.
  intros j k Hjk. unfold deserialize, deserialize_BlockSpec, deserialize_untagged.
  by rewrite !(deserialize_layout _ _ Hjk).
Qed.

(** ** Structs *)

#[export] Instance AccessListItem_roundtrip : RoundTrip AccessListItem.
Proof.
  intros x _. unfold deserialize, deserialize_AccessListItem, serialize, serialize_AccessListItem.
  struct_roundtrip x.
Qed.
#[export] Instance AccessListItem_layout : ReadsLayout AccessListItem.
Proof. reads_layout. Qed.
#[export] Instance AccessListItem_plain : Plain AccessListItem 2.
Proof. struct_plain. Qed.

#[export] Instance AccessList_roundtrip : RoundTrip AccessList.
Proof.
  intros x _. unfold deserialize, deserialize_AccessList, serialize, serialize_AccessList.
  rewrite deserialize_serialize by apply all_representable. by destruct x.
Qed.
#[export] Instance AccessList_layout : ReadsLayout AccessList.
Proof.
  intros j k Hjk. unfold deserialize, deserialize_AccessList.
  by rewrite !(deserialize_layout _ _ Hjk).
Qed.
#[export] Instance AccessList_not_null : NotNull AccessList.
Proof. by intros x. Qed.
#[export] Instance AccessList_plain : Plain AccessList 3.
Proof. intros x. exact (serialize_plain (AccessList_0 x)). Qed.

#[export] Instance TransactionRequest_roundtrip : RoundTrip TransactionRequest.
Proof.
  intros x [Hi Hb]. unfold deserialize, deserialize_TransactionRequest, serialize,
    serialize_TransactionRequest, serialize_struct, deserialize_struct.
  repeat read_option. by destruct x.
Qed.
#[export] Instance TransactionRequest_layout : ReadsLayout TransactionRequest.
Proof. reads_layout. Qed.
#[export] Instance TransactionRequest_plain : Plain TransactionRequest 4.
Proof. struct_plain. Qed.

#[export] Instance GetLogsParam_layout : ReadsLayout GetLogsParam.
Proof. reads_layout. Qed.

#[export] Instance LogEntry_roundtrip : RoundTrip LogEntry.
Proof.
  intros x Hx. unfold deserialize, deserialize_LogEntry, serialize, serialize_LogEntry.
  struct_roundtrip x.
Qed.
#[export] Instance LogEntry_layout : ReadsLayout LogEntry.
Proof. reads_layout. Qed.
#[export] Instance LogEntry_plain : Plain LogEntry 2.
Proof. struct_plain. Qed.

#[export] Instance TransactionReceipt_roundtrip : RoundTrip TransactionReceipt.
Proof.
  intros x Hx. unfold deserialize, deserialize_TransactionReceipt, serialize, serialize_TransactionReceipt.
  struct_roundtrip x.
Qed.
#[export] Instance TransactionReceipt_layout : ReadsLayout TransactionReceipt.
Proof. reads_layout. Qed.
#[export] Instance TransactionReceipt_not_null : NotNull TransactionReceipt.
Proof. by intros x. Qed.
#[export] Instance TransactionReceipt_plain : Plain TransactionReceipt 4.
Proof. struct_plain. Qed.

#[export] Instance Block_roundtrip : RoundTrip Block.
Proof.
  intros x Hx. unfold deserialize, deserialize_Block, serialize, serialize_Block.
  struct_roundtrip x.
Qed.
#[export] Instance Block_layout : ReadsLayout Block.
Proof. reads_layout. Qed.
#[export] Instance Block_plain : Plain Block 2.
Proof. struct_plain. Qed.

#[export] Instance FeeHistory_roundtrip : RoundTrip FeeHistory.
Proof.
  intros x Hx. unfold deserialize, deserialize_FeeHistory, serialize, serialize_FeeHistory.
  struct_roundtrip x.
Qed.
#[export] Instance FeeHistory_layout : ReadsLayout FeeHistory.
Proof. reads_layout. Qed.

(** ** What is read is representable *)

#[export] Instance Data_reads : ReadsRepresentable Data.
Proof.
  intros j x. unfold deserialize, deserialize_Data.
  destruct (serde_data_deserialize hex_decode j) as [b|] eqn:E; [|done]. intros [= <-].
  apply serde_data_reads in E as (digits & _ & E). by apply hex_decode_bytes in E as [Hb _].
Qed.
#[export] Instance LogEntry_reads : ReadsRepresentable LogEntry.
Proof. returns_representable. Qed.
#[export] Instance TransactionReceipt_reads : ReadsRepresentable TransactionReceipt.
Proof. returns_representable. Qed.
#[export] Instance Block_reads : ReadsRepresentable Block.
Proof. returns_representable. Qed.
#[export] Instance TransactionRequest_reads : ReadsRepresentable TransactionRequest.
Proof. returns_representable. Qed.
End Laws.

(** ** Properties *)

(** The members that an object must have for each type, and those that it may have. *)
Definition Block_required : list string :=
  ["number"; "extraData"; "gasLimit"; "gasUsed"; "hash"; "logsBloom"; "miner"; "mixHash";
   "nonce"; "parentHash"; "receiptsRoot"; "sha3Uncles"; "size"; "stateRoot"; "timestamp"].
Definition Block_optional : list string :=
  ["baseFeePerGas"; "difficulty"; "transactions"; "transactionsRoot"; "uncles"].
Definition TransactionReceipt_required : list string :=
  ["blockHash"; "blockNumber"; "effectiveGasPrice"; "cumulativeGasUsed"; "gasUsed";
   "transactionHash"; "from"; "logs"; "logsBloom"; "transactionIndex"; "type"].
Definition TransactionReceipt_optional : list string :=
  ["status"; "root"; "contractAddress"; "to"].
Definition LogEntry_required : list string := ["address"; "topics"; "data"].
Definition LogEntry_optional : list string :=
  ["blockNumber"; "transactionHash"; "transactionIndex"; "blockHash"; "logIndex"; "removed"].
Definition FeeHistory_required : list string := ["oldestBlock"; "baseFeePerGas"].
Definition FeeHistory_optional : list string := ["gasUsedRatio"; "reward"].

(** Takes an element of a list of names apart, one goal for each name. *)
Ltac each_name Hn :=
  repeat (apply elem_of_cons in Hn as [->|Hn]); [..|by apply elem_of_nil in Hn].
(** The names that a list does not have, in the hypotheses. *)
Ltac other_name Hn := repeat apply not_elem_of_cons in Hn as [? Hn].

Section Properties.
Context `{JsonScalarsLaws} `{!EthnumJson, !EthnumJsonLaws}.
Context `{HexLaws} `{!EthereumTypes, !EthereumTypesLaws}.


(** C36: the order of the members of objects, at any depth, makes no difference to what is
    read, and neither do members that the type does not have. *)
Theorem json_layout_irrelevant (j k : Json) (extra : string * Json)
    (ms : list (string * Json)) :
  (same_json j k ->
     deserialize (T := Block) j = deserialize k /\
     deserialize (T := option TransactionReceipt) j = deserialize k /\
     deserialize (T := list LogEntry) j = deserialize k /\
     deserialize (T := FeeHistory) j = deserialize k /\
     deserialize (T := SendRawTransactionResult) j = deserialize k /\
     deserialize (T := TransactionRequest) j = deserialize k) /\
  (extra.1 ∉ Block_required ++ Block_optional ->
     deserialize (T := Block) (Obj (extra :: ms)) = deserialize (Obj ms)) /\
  (extra.1 ∉ TransactionReceipt_required ++ TransactionReceipt_optional ->
     deserialize (T := TransactionReceipt) (Obj (extra :: ms)) = deserialize (Obj ms)) /\
  (extra.1 ∉ LogEntry_required ++ LogEntry_optional ->
     deserialize (T := LogEntry) (Obj (extra :: ms)) = deserialize (Obj ms)) /\
  (extra.1 ∉ FeeHistory_required ++ FeeHistory_optional ->
     deserialize (T := FeeHistory) (Obj (extra :: ms)) = deserialize (Obj ms)).
Proof.
  split_and!.
  - intros Hs. split_and!; by apply deserialize_layout.
  - intros Hn. other_name Hn. reads_more; assumption.
  - intros Hn. other_name Hn. reads_more; assumption.
  - intros Hn. other_name Hn. reads_more; assumption.
  - intros Hn. other_name Hn. reads_more; assumption.
Qed.

(** C37: an object is refused when a required member does not occur exactly once, or when any
    member of the type occurs twice. *)
Theorem json_members_refused (ms : list (string * Json)) (name : string) :
  (name ∈ Block_required -> length (named name ms) <> 1%nat ->
     deserialize (T := Block) (Obj ms) = None) /\
  (name ∈ Block_optional -> (2 <= length (named name ms))%nat ->
     deserialize (T := Block) (Obj ms) = None) /\
  (name ∈ TransactionReceipt_required -> length (named name ms) <> 1%nat ->
     deserialize (T := TransactionReceipt) (Obj ms) = None) /\
  (name ∈ TransactionReceipt_optional -> (2 <= length (named name ms))%nat ->
     deserialize (T := TransactionReceipt) (Obj ms) = None) /\
  (name ∈ LogEntry_required -> length (named name ms) <> 1%nat ->
     deserialize (T := LogEntry) (Obj ms) = None) /\
  (name ∈ LogEntry_optional -> (2 <= length (named name ms))%nat ->
     deserialize (T := LogEntry) (Obj ms) = None) /\
  (name ∈ FeeHistory_required -> length (named name ms) <> 1%nat ->
     deserialize (T := FeeHistory) (Obj ms) = None) /\
  (name ∈ FeeHistory_optional -> (2 <= length (named name ms))%nat ->
     deserialize (T := FeeHistory) (Obj ms) = None).
Proof. split_and!; intros Hn Hl; each_name Hn; refuses. Qed.

Lemma serialize_bytes_inj : Inj (=) (=) serialize_bytes.
Proof.
  intros l k [= E]. revert k E. induction l as [|x l IH]; intros [|y k] E; try done.
  simpl in E. injection E as Ex E. apply number_from_u8_inj in Ex as ->. f_equal. by apply IH.
Qed.

Lemma GetLogsParam_members f t a l f' t' a' l' :
  serialize (GetLogsParam.Build_GetLogsParam f t a l) =
  serialize (GetLogsParam.Build_GetLogsParam f' t' a' l') ->
  serialize f = serialize f' /\ serialize t = serialize t' /\ serialize a = serialize a' /\
  member_nonempty "topics" l = member_nonempty "topics" l'.
Proof.
  unfold serialize at 1 2, serialize_GetLogsParam, serialize_struct. intros [= ? ? Ea E].
  split_and!; [done|done|exact (f_equal Arr Ea)|]. by rewrite !app_nil_r in E.
Qed.
Lemma FeeHistoryParams_elements n b l n' b' l' :
  serialize (FeeHistoryParams.Build_FeeHistoryParams n b l) =
  serialize (FeeHistoryParams.Build_FeeHistoryParams n' b' l') ->
  serialize n = serialize n' /\ serialize b = serialize b' /\ serialize_bytes l = serialize_bytes l'.
Proof. intros [= En Eb El]. split_and!; [done..|exact (f_equal Arr El)]. Qed.

(** The parameters that are sent determine the request: two different requests of the same
    method are never written the same. *)
Theorem params_determine_request :
  (forall x y : GetTransactionCountParams, serialize x = serialize y -> x = y) /\
  (forall x y : GetLogsParam, serialize x = serialize y -> x = y) /\
  (forall x y : FeeHistoryParams, serialize x = serialize y -> x = y) /\
  (forall x y : GetBlockByNumberParams, serialize x = serialize y -> x = y) /\
  (forall x y : EthCallParams,
     representable (EthCallParams.transaction x) -> representable (EthCallParams.transaction y) ->
     serialize x = serialize y -> x = y).
Proof.
  split_and!.
  - intros x y E. apply (serialize_pair_inj (GetTransactionCountParams_into_tuple x)
      (GetTransactionCountParams_into_tuple y)) in E; [|done..].
    destruct x, y. by injection E as -> ->.
  - intros [f t a l] [f' t' a' l'] E. apply GetLogsParam_members in E as (Ef & Et & Ea & El).
    apply (serialize_inj BlockSpec) in Ef, Et; [|done..].
    apply (serialize_inj (list Address)) in Ea; [|apply all_representable..]. subst. f_equal.
    by apply member_nonempty_inj in El; [|apply all_representable..].
  - intros [n b l] [n' b' l'] E. apply FeeHistoryParams_elements in E as (En & Eb & El).
    apply (serialize_inj NumBlocks) in En; [|done..]. apply (serialize_inj BlockSpec) in Eb; [|done..]. apply serialize_bytes_inj in El. congruence.
  - intros x y E. apply (serialize_pair_inj (GetBlockByNumberParams_into_tuple x)
      (GetBlockByNumberParams_into_tuple y)) in E; [|done..].
    destruct x, y. by injection E as -> ->.
  - intros x y Hx Hy E.
    apply (serialize_pair_inj (EthCallParams_into_tuple x) (EthCallParams_into_tuple y)) in E;
      [|done..].
    destruct x, y. by injection E as -> ->.
Qed.

(** The parameter of [eth_getLogs] without topics leaves the member [topics] out, and can
    therefore not be read back, although its type is [Deserialize]; with topics it can. *)
Theorem get_logs_param_roundtrip (x : GetLogsParam) :
  deserialize (serialize x) =
  match GetLogsParam.topics x with [] => None | _ => Some x end.
Proof.
  unfold deserialize, deserialize_GetLogsParam, serialize, serialize_GetLogsParam.
  unfold serialize_struct. destruct x as [f t a [|x l]]; simpl.
  - do 3 read_field. by rewrite bind_refused.
  - repeat read_field. done.
Qed.
End Properties.

Section Witnesses.
Import Instances.Concrete JsonInstances.

Definition some_log : LogEntry := {|
  LogEntry.address := Address_new (@Bytes_make 20 (replicate 20 0) eq_refl);
  LogEntry.topics := []; LogEntry.data := {| Data_0 := [171] |};
  LogEntry.block_number := Some Amount_ONE; LogEntry.transaction_hash := None;
  LogEntry.transaction_index := None; LogEntry.block_hash := None;
  LogEntry.log_index := None; LogEntry.removed := true |}.
Definition some_history : FeeHistory := {|
  FeeHistory.oldest_block := Amount_ONE; FeeHistory.base_fee_per_gas := [Amount_TWO];
  FeeHistory.gas_used_ratio := [0]; FeeHistory.reward := [[]] |}.

(** A log without its optional members, with its data in capital letters, and with a member
    that logs do not have. *)
Definition sparse_log : list (string * Json) :=
  [("data", Str "0xAB"); ("topics", Arr []);
   ("address", Str "0x0000000000000000000000000000000000000000")].
Example sparse_log_reads :
  deserialize (T := LogEntry) (Obj (("blobGas", Null) :: sparse_log)) = Some
    {| LogEntry.address := LogEntry.address some_log; LogEntry.topics := [];
       LogEntry.data := {| Data_0 := [171] |}; LogEntry.block_number := None;
       LogEntry.transaction_hash := None; LogEntry.transaction_index := None;
       LogEntry.block_hash := None; LogEntry.log_index := None; LogEntry.removed := false |}.
Proof. by vm_compute. Qed.
(** The same log as an array of its fields. *)
Example log_as_array :
  deserialize (T := LogEntry) (Arr [Str "0x0000000000000000000000000000000000000000"; Arr [];
    Str "0xab"; Str "0x1"; Null; Null; Null; Null]) =
  option_map (fun l => {|
    LogEntry.address := LogEntry.address l; LogEntry.topics := LogEntry.topics l;
    LogEntry.data := LogEntry.data l; LogEntry.block_number := LogEntry.block_number some_log;
    LogEntry.transaction_hash := None; LogEntry.transaction_index := None;
    LogEntry.block_hash := None; LogEntry.log_index := None; LogEntry.removed := false |})
    (deserialize (Obj sparse_log)).
Proof. by vm_compute. Qed.


Lemma json_layout_irrelevant_witness :
  deserialize (T := list LogEntry) (Arr [Obj sparse_log]) =
    deserialize (Arr [Obj (rev sparse_log)]) /\
  deserialize (T := LogEntry) (Obj (("blobGas", Null) :: sparse_log)) = deserialize (Obj sparse_log).
Proof.
  assert (Hs : same_json (Arr [Obj sparse_log]) (Arr [Obj (rev sparse_log)])).
  { constructor. constructor; [|constructor]. apply same_json_perm, Permutation_rev. }
  destruct (json_layout_irrelevant (Arr [Obj sparse_log]) (Arr [Obj (rev sparse_log)])
    ("blobGas", Null) sparse_log) as (H1 & _ & _ & H4 & _).
  split; [by apply (H1 Hs)|]. apply H4. apply (bool_decide_unpack _). by vm_compute.
Defined.

Lemma json_members_refused_witness :
  deserialize (T := LogEntry) (Obj (("data", Str "0x") :: sparse_log)) = None /\
  deserialize (T := LogEntry) (Obj (tail sparse_log)) = None.
Proof.
  destruct (json_members_refused (("data", Str "0x") :: sparse_log) "data")
    as (_ & _ & _ & _ & H1 & _).
  destruct (json_members_refused (tail sparse_log) "data") as (_ & _ & _ & _ & H2 & _).
  split; [apply H1|apply H2]; try (apply (bool_decide_unpack _); by vm_compute); discriminate.
Defined.

Definition some_param (topics : list (list FixedSizeData)) : GetLogsParam := {|
  GetLogsParam.from_block := BlockSpec.BlockSpec_default;
  GetLogsParam.to_block := BlockSpec.Number Amount_ONE;
  GetLogsParam.address := []; GetLogsParam.topics := topics |}.
Lemma params_determine_request_witness :
  serialize (some_param [[]]) <> serialize (some_param []).
Proof.
  intros E. apply (proj1 (proj2 params_determine_request)) in E. discriminate E.
Defined.

Lemma get_logs_param_roundtrip_witness :
  deserialize (T := GetLogsParam) (serialize (some_param [])) = None.
Proof. apply (get_logs_param_roundtrip (some_param [])). Defined.
End Witnesses.
