(* ===== verification/CkethConversion.v ===== *)
(** The conversions between the JSON types and the Candid types
    ([src/candid_rpc/cketh_conversion.rs]). A name such as [CandidTypes.Block.hash] is the
    field of the Candid record, and [JsonTypes.Block.hash] the one of the JSON record. *)

From S2P Require Import Prelude Collections EvmRpcTypes Externals Numbers Hex.
From S2P Require CandidTypes JsonTypes Instances.
Import CandidTypes JsonTypes.
Open Scope Z_scope.

Section Conversions.
Context `{BigUintLaws} `{EthnumCrate}.

Definition into_block_spec (value : CandidTypes.BlockTag) : BlockSpec :=
  match value with
  | CandidTypes.BlockTag.Number n => BlockSpec.Number (Amount_from_Nat256 n)
  | CandidTypes.BlockTag.Latest => BlockSpec.Tag BlockTag.Latest
  | CandidTypes.BlockTag.Safe => BlockSpec.Tag BlockTag.Safe
  | CandidTypes.BlockTag.Finalized => BlockSpec.Tag BlockTag.Finalized
  | CandidTypes.BlockTag.Earliest => BlockSpec.Tag BlockTag.Earliest
  | CandidTypes.BlockTag.Pending => BlockSpec.Tag BlockTag.Pending
  end.

Definition into_get_logs_param (value : GetLogsArgs) : GetLogsParam := {|
  GetLogsParam.from_block :=
    default BlockSpec.BlockSpec_default
      (option_map into_block_spec (GetLogsArgs.from_block value));
  GetLogsParam.to_block :=
    default BlockSpec.BlockSpec_default
      (option_map into_block_spec (GetLogsArgs.to_block value));
  GetLogsParam.address :=
    map (fun address => Address_new (Hex20_0 address)) (GetLogsArgs.addresses value);
  GetLogsParam.topics :=
    map (fun topic => map (fun t => FixedSizeData_new (Hex32_0 t)) topic)
      (default [] (GetLogsArgs.topics value));
|}.

Definition from_log_entry (value : JsonTypes.LogEntry) : CandidTypes.LogEntry := {|
  CandidTypes.LogEntry.address :=
    {| Hex20_0 := Address_into_bytes (JsonTypes.LogEntry.address value) |};
  CandidTypes.LogEntry.topics :=
    map (fun t => {| Hex32_0 := FixedSizeData_into_bytes t |}) (JsonTypes.LogEntry.topics value);
  CandidTypes.LogEntry.data := {| Hex_0 := Data_0 (JsonTypes.LogEntry.data value) |};
  CandidTypes.LogEntry.block_number :=
    option_map Nat256_from_Amount (JsonTypes.LogEntry.block_number value);
  CandidTypes.LogEntry.transaction_hash :=
    option_map (fun x => {| Hex32_0 := Hash_into_bytes x |})
      (JsonTypes.LogEntry.transaction_hash value);
  CandidTypes.LogEntry.transaction_index :=
    option_map Nat256_from_Amount (JsonTypes.LogEntry.transaction_index value);
  CandidTypes.LogEntry.block_hash :=
    option_map (fun x => {| Hex32_0 := Hash_into_bytes x |})
      (JsonTypes.LogEntry.block_hash value);
  CandidTypes.LogEntry.log_index :=
    option_map Nat256_from_Amount (JsonTypes.LogEntry.log_index value);
  CandidTypes.LogEntry.removed := JsonTypes.LogEntry.removed value;
|}.

Definition from_log_entries (value : list JsonTypes.LogEntry) : list CandidTypes.LogEntry :=
  map from_log_entry value.

Definition into_fee_history_params (value : FeeHistoryArgs) : FeeHistoryParams := {|
  FeeHistoryParams.block_count := Amount_from_Nat256 (FeeHistoryArgs.block_count value);
  FeeHistoryParams.highest_block := into_block_spec (FeeHistoryArgs.newest_block value);
  FeeHistoryParams.reward_percentiles :=
    default [] (FeeHistoryArgs.reward_percentiles value);
|}.

Definition from_fee_history (value : JsonTypes.FeeHistory) : CandidTypes.FeeHistory := {|
  CandidTypes.FeeHistory.oldest_block :=
    Nat256_from_Amount (JsonTypes.FeeHistory.oldest_block value);
  CandidTypes.FeeHistory.base_fee_per_gas :=
    map Nat256_from_Amount (JsonTypes.FeeHistory.base_fee_per_gas value);
  CandidTypes.FeeHistory.gas_used_ratio := JsonTypes.FeeHistory.gas_used_ratio value;
  CandidTypes.FeeHistory.reward :=
    map (fun x => map Nat256_from_Amount x) (JsonTypes.FeeHistory.reward value);
|}.

Definition into_get_transaction_count_params (value : GetTransactionCountArgs) :
  GetTransactionCountParams := {|
  GetTransactionCountParams.address :=
    Address_new (Hex20_0 (GetTransactionCountArgs.address value));
  GetTransactionCountParams.block := into_block_spec (GetTransactionCountArgs.block value);
|}.

(** [Nat256::from(1_u8)] and [Nat256::from(0_u8)]. *)
Definition Nat256_from_u8 (v : Z) (Hv : in_range 128 v) : Nat256 :=
  the_value (Nat256_from v) (Nat256_from_returns v Hv).
Lemma one_in_range : in_range 128 1.
Proof. unfold in_range. lia. Qed.
Lemma zero_in_range : in_range 128 0.
Proof. unfold in_range. lia. Qed.

Definition from_transaction_status (v : TransactionStatus) : Nat256 :=
  match v with
  | TransactionStatus.Success => Nat256_from_u8 1 one_in_range
  | TransactionStatus.Failure => Nat256_from_u8 0 zero_in_range
  end.

Definition from_transaction_receipt (value : JsonTypes.TransactionReceipt) :
  CandidTypes.TransactionReceipt := {|
  CandidTypes.TransactionReceipt.block_hash :=
    {| Hex32_0 := Hash_into_bytes (JsonTypes.TransactionReceipt.block_hash value) |};
  CandidTypes.TransactionReceipt.block_number :=
    Nat256_from_Amount (JsonTypes.TransactionReceipt.block_number value);
  CandidTypes.TransactionReceipt.effective_gas_price :=
    Nat256_from_Amount (JsonTypes.TransactionReceipt.effective_gas_price value);
  CandidTypes.TransactionReceipt.gas_used :=
    Nat256_from_Amount (JsonTypes.TransactionReceipt.gas_used value);
  CandidTypes.TransactionReceipt.cumulative_gas_used :=
    Nat256_from_Amount (JsonTypes.TransactionReceipt.cumulative_gas_used value);
  CandidTypes.TransactionReceipt.status :=
    option_map from_transaction_status (JsonTypes.TransactionReceipt.status value);
  CandidTypes.TransactionReceipt.root :=
    option_map (fun x => {| Hex32_0 := Hash_into_bytes x |})
      (JsonTypes.TransactionReceipt.root value);
  CandidTypes.TransactionReceipt.transaction_hash :=
    {| Hex32_0 := Hash_into_bytes (JsonTypes.TransactionReceipt.transaction_hash value) |};
  CandidTypes.TransactionReceipt.contract_address :=
    option_map (fun address => {| Hex20_0 := Address_into_bytes address |})
      (JsonTypes.TransactionReceipt.contract_address value);
  CandidTypes.TransactionReceipt.from :=
    {| Hex20_0 := Address_into_bytes (JsonTypes.TransactionReceipt.from value) |};
  CandidTypes.TransactionReceipt.logs :=
    from_log_entries (JsonTypes.TransactionReceipt.logs value);
  CandidTypes.TransactionReceipt.logs_bloom :=
    {| Hex256_0 := LogsBloom_into_bytes (JsonTypes.TransactionReceipt.logs_bloom value) |};
  CandidTypes.TransactionReceipt.to :=
    option_map (fun address => {| Hex20_0 := Address_into_bytes address |})
      (JsonTypes.TransactionReceipt.to value);
  CandidTypes.TransactionReceipt.transaction_index :=
    Nat256_from_Amount (JsonTypes.TransactionReceipt.transaction_index value);
  CandidTypes.TransactionReceipt.tx_type :=
    HexByte_from (JsonByte_into_byte (JsonTypes.TransactionReceipt.tx_type value))
      (Byte_ok (JsonByte_0 (JsonTypes.TransactionReceipt.tx_type value)));
|}.

Definition from_block (value : JsonTypes.Block) : CandidTypes.Block := {|
  CandidTypes.Block.base_fee_per_gas :=
    option_map Nat256_from_Amount (JsonTypes.Block.base_fee_per_gas value);
  CandidTypes.Block.number := Nat256_from_Amount (JsonTypes.Block.number value);
  CandidTypes.Block.difficulty :=
    option_map Nat256_from_Amount (JsonTypes.Block.difficulty value);
  CandidTypes.Block.extra_data := {| Hex_0 := Data_0 (JsonTypes.Block.extra_data value) |};
  CandidTypes.Block.gas_limit := Nat256_from_Amount (JsonTypes.Block.gas_limit value);
  CandidTypes.Block.gas_used := Nat256_from_Amount (JsonTypes.Block.gas_used value);
  CandidTypes.Block.hash := {| Hex32_0 := Hash_into_bytes (JsonTypes.Block.hash value) |};
  CandidTypes.Block.logs_bloom :=
    {| Hex256_0 := LogsBloom_into_bytes (JsonTypes.Block.logs_bloom value) |};
  CandidTypes.Block.miner :=
    {| Hex20_0 := Address_into_bytes (JsonTypes.Block.miner value) |};
  CandidTypes.Block.mix_hash :=
    {| Hex32_0 := Hash_into_bytes (JsonTypes.Block.mix_hash value) |};
  CandidTypes.Block.nonce := Nat256_from_Amount (JsonTypes.Block.nonce value);
  CandidTypes.Block.parent_hash :=
    {| Hex32_0 := Hash_into_bytes (JsonTypes.Block.parent_hash value) |};
  CandidTypes.Block.receipts_root :=
    {| Hex32_0 := Hash_into_bytes (JsonTypes.Block.receipts_root value) |};
  CandidTypes.Block.sha3_uncles :=
    {| Hex32_0 := Hash_into_bytes (JsonTypes.Block.sha3_uncles value) |};
  CandidTypes.Block.size := Nat256_from_Amount (JsonTypes.Block.size value);
  CandidTypes.Block.state_root :=
    {| Hex32_0 := Hash_into_bytes (JsonTypes.Block.state_root value) |};
  CandidTypes.Block.timestamp := Nat256_from_Amount (JsonTypes.Block.timestamp value);
  CandidTypes.Block.total_difficulty := None;
  CandidTypes.Block.transactions :=
    map (fun tx => {| Hex32_0 := Hash_into_bytes tx |}) (JsonTypes.Block.transactions value);
  CandidTypes.Block.transactions_root :=
    option_map (fun x => {| Hex32_0 := Hash_into_bytes x |})
      (JsonTypes.Block.transactions_root value);
  CandidTypes.Block.uncles :=
    map (fun tx => {| Hex32_0 := Hash_into_bytes tx |}) (JsonTypes.Block.uncles value);
|}.

Definition from_send_raw_transaction_result (transaction_hash : option Hex32)
    (value : SendRawTransactionResult) : SendRawTransactionStatus :=
  match value with
  | SendRawTransactionResult.Ok => SendRawTransactionStatus.Ok transaction_hash
  | SendRawTransactionResult.InsufficientFunds => SendRawTransactionStatus.InsufficientFunds
  | SendRawTransactionResult.NonceTooLow => SendRawTransactionStatus.NonceTooLow
  | SendRawTransactionResult.NonceTooHigh => SendRawTransactionStatus.NonceTooHigh
  end.

Definition into_hash (value : Hex32) : Hash := Hash_new (Hex32_0 value).
Definition from_data (value : Data) : Hex := {| Hex_0 := Data_0 value |}.
Definition into_data (value : Hex) : Data := Data_from (Hex_0 value).

Definition map_access_list (list : CandidTypes.AccessList) : AccessList := {|
  AccessList_0 :=
    map (fun entry => {|
        AccessListItem.address := Address_new (Hex20_0 (AccessListEntry.address entry));
        AccessListItem.storage_keys :=
          map (fun key => StorageKey_new (Hex32_0 key)) (AccessListEntry.storage_keys entry);
      |})
      (CandidTypes.AccessList_0 list);
|}.

Definition into_transaction_request (t : CandidTypes.TransactionRequest) :
  TransactionRequest := {|
  TransactionRequest.tx_type :=
    option_map (fun t => JsonByte_new (HexByte_into_byte t) (Byte_ok (HexByte_0 t)))
      (CandidTypes.TransactionRequest.tx_type t);
  TransactionRequest.nonce :=
    option_map Amount_from_Nat256 (CandidTypes.TransactionRequest.nonce t);
  TransactionRequest.to :=
    option_map (fun address => Address_new (Hex20_0 address))
      (CandidTypes.TransactionRequest.to t);
  TransactionRequest.from :=
    option_map (fun address => Address_new (Hex20_0 address))
      (CandidTypes.TransactionRequest.from t);
  TransactionRequest.gas := option_map Amount_from_Nat256 (CandidTypes.TransactionRequest.gas t);
  TransactionRequest.value :=
    option_map Amount_from_Nat256 (CandidTypes.TransactionRequest.value t);
  TransactionRequest.input := option_map into_data (CandidTypes.TransactionRequest.input t);
  TransactionRequest.gas_price :=
    option_map Amount_from_Nat256 (CandidTypes.TransactionRequest.gas_price t);
  TransactionRequest.max_priority_fee_per_gas :=
    option_map Amount_from_Nat256 (CandidTypes.TransactionRequest.max_priority_fee_per_gas t);
  TransactionRequest.max_fee_per_gas :=
    option_map Amount_from_Nat256 (CandidTypes.TransactionRequest.max_fee_per_gas t);
  TransactionRequest.max_fee_per_blob_gas :=
    option_map Amount_from_Nat256 (CandidTypes.TransactionRequest.max_fee_per_blob_gas t);
  TransactionRequest.access_list :=
    option_map map_access_list (CandidTypes.TransactionRequest.access_list t);
  TransactionRequest.blob_versioned_hashes :=
    option_map (fun hashes => map into_hash hashes)
      (CandidTypes.TransactionRequest.blob_versioned_hashes t);
  TransactionRequest.blobs :=
    option_map (fun blobs => map into_data blobs) (CandidTypes.TransactionRequest.blobs t);
  TransactionRequest.chain_id :=
    option_map Amount_from_Nat256 (CandidTypes.TransactionRequest.chain_id t);
|}.

Definition into_eth_call_params (value : CallArgs) : EthCallParams := {|
  EthCallParams.transaction := into_transaction_request (CallArgs.transaction value);
  EthCallParams.block :=
    into_block_spec (default CandidTypes.BlockTag.BlockTag_default (CallArgs.block value));
|}.
End Conversions.

(** ** What the conversions keep *)

#[export] Instance Data_inj : Inj (=) (=) Data_0.
Proof. by intros [x] [y] [= ->]. Qed.
#[export] Instance Hash_inj : Inj (=) (=) Hash_into_bytes.
Proof. by intros [x] [y] [= ->]. Qed.
#[export] Instance LogsBloom_inj : Inj (=) (=) LogsBloom_into_bytes.
Proof. by intros [x] [y] [= ->]. Qed.
#[export] Instance Address_inj : Inj (=) (=) Address_into_bytes.
Proof. by intros [x] [y] [= ->]. Qed.
#[export] Instance Hex20_inj : Inj (=) (=) Hex20_0.
Proof. by intros [x] [y] [= ->]. Qed.
#[export] Instance Hex32_inj : Inj (=) (=) Hex32_0.
Proof. by intros [x] [y] [= ->]. Qed.
#[export] Instance Hex_inj : Inj (=) (=) Hex_0.
Proof. by intros [x] [y] [= ->]. Qed.

(** Turns each equation [f a = f b] of an injective [f] into [a = b]. *)
Ltac inj_hyps :=
  repeat match goal with
  | H : ?f _ = ?f _ |- _ => apply (inj f) in H
  end.

(** Two records that are converted to the same record: their fields are equal. *)
Tactic Notation "record_inj" reference(conversion) :=
  intros [] [] E; unfold conversion in E; cbn in E; injection E as E; inj_hyps; by subst.

Section Injective.
Context `{BigUintLaws} `{EthnumLaws}.

#[local] Instance hash32_inj : Inj (=) (=) (fun x => {| Hex32_0 := Hash_into_bytes x |}).
Proof. intros [x] [y] [= ->]. done. Qed.
#[local] Instance topic_inj : Inj (=) (=) (fun t => {| Hex32_0 := FixedSizeData_into_bytes t |}).
Proof. intros [x] [y] [= ->]. done. Qed.
#[local] Instance address_inj : Inj (=) (=) (fun x => {| Hex20_0 := Address_into_bytes x |}).
Proof. intros [x] [y] [= ->]. done. Qed.
#[local] Instance amount_inj {U} : Inj (=) (=) (Nat256_from_Amount (Unit := U)).
Proof. apply Nat256_from_Amount_inj. Qed.
#[local] Instance nat256_inj {U} : Inj (=) (=) (Amount_from_Nat256 (Unit := U)).
Proof. apply Amount_from_Nat256_inj. Qed.

Lemma Nat256_from_u8_value v Hv : nat256_0 (Nat256_from_u8 v Hv) = v.
Proof.
  unfold Nat256_from_u8. pose proof (the_value_Return _ (Nat256_from_returns v Hv)) as E.
  revert E. generalize (the_value (Nat256_from v) (Nat256_from_returns v Hv)). intros n.
  unfold Nat256_from. destruct (Nat256_try_from v) eqn:E; simpl; [|done].
  intros [= ->]. by apply Nat256_try_from_Ok.
Qed.

#[local] Instance status_inj : Inj (=) (=) from_transaction_status.
Proof.
  intros [] [] E; try done; apply (f_equal nat256_0) in E; simpl in E;
    by rewrite !Nat256_from_u8_value in E.
Qed.

#[local] Instance Byte_into_byte_inj : Inj (=) (=) Byte_into_byte.
Proof.
  intros x y E. rewrite <- (Byte_from_into x (Byte_ok x)), <- (Byte_from_into y (Byte_ok y)).
  unfold Byte_from. f_equal. apply Bytes_eq. simpl. by rewrite E.
Qed.
#[local] Instance tx_type_inj :
  Inj (=) (=) (fun t => HexByte_from (JsonByte_into_byte t) (Byte_ok (JsonByte_0 t))).
Proof.
  intros [x] [y] E. unfold HexByte_from, JsonByte_into_byte in E. cbn in E.
  rewrite !Byte_from_into in E. by injection E as ->.
Qed.
#[local] Instance JsonByte_into_byte_inj : Inj (=) (=) JsonByte_into_byte.
Proof. intros [x] [y] E. f_equal. by apply (inj Byte_into_byte). Qed.
#[local] Instance json_byte_inj :
  Inj (=) (=) (fun t => JsonByte_new (HexByte_into_byte t) (Byte_ok (HexByte_0 t))).
Proof.
  intros [x] [y] E. unfold JsonByte_new, HexByte_into_byte in E. cbn in E.
  rewrite !Byte_from_into in E. by injection E as ->.
Qed.

#[local] Instance from_log_entry_inj : Inj (=) (=) from_log_entry.
Proof. record_inj from_log_entry. Qed.
#[local] Instance from_log_entries_inj : Inj (=) (=) from_log_entries.
Proof. intros x y E. by apply (inj (map from_log_entry)). Qed.
#[local] Instance from_fee_history_inj : Inj (=) (=) from_fee_history.
Proof. record_inj from_fee_history. Qed.
#[local] Instance from_transaction_receipt_inj : Inj (=) (=) from_transaction_receipt.
Proof. record_inj from_transaction_receipt. Qed.
#[local] Instance from_block_inj : Inj (=) (=) from_block.
Proof. record_inj from_block. Qed.

#[local] Instance into_data_inj : Inj (=) (=) into_data.
Proof. intros [x] [y] [= ->]. done. Qed.
#[local] Instance into_hash_inj : Inj (=) (=) into_hash.
Proof. intros [x] [y] [= ->]. done. Qed.
#[local] Instance from_data_inj : Inj (=) (=) from_data.
Proof. intros [x] [y] [= ->]. done. Qed.
#[local] Instance storage_key_inj : Inj (=) (=) (fun key => StorageKey_new (Hex32_0 key)).
Proof. intros [x] [y] [= ->]. done. Qed.
#[local] Instance address_new_inj : Inj (=) (=) (fun a => Address_new (Hex20_0 a)).
Proof. intros [x] [y] [= ->]. done. Qed.
#[local] Instance access_list_inj : Inj (=) (=) map_access_list.
Proof.
  intros [x] [y] E. injection E as E. f_equal. revert E. apply inj, map_inj.
  intros [] [] E. cbn in E. injection E as E. inj_hyps. by subst.
Qed.
#[local] Instance into_transaction_request_inj : Inj (=) (=) into_transaction_request.
Proof. record_inj into_transaction_request. Qed.
#[local] Instance into_block_spec_inj : Inj (=) (=) into_block_spec.
Proof.
  intros [| | | | |n] [| | | | |m] E; try done. f_equal.
  apply (inj (Amount_from_Nat256 (Unit := BlockNumberTag))). unfold into_block_spec in E.
  congruence.
Qed.

(** C34: Converting a response loses nothing: two different answers of the providers stay
    different for the caller, in every one of the methods. The dropped field
    [totalDifficulty] is not part of the answer: it is always absent. *)
Theorem responses_injective :
  Inj (=) (=) from_log_entries /\ Inj (=) (=) from_transaction_receipt /\
  Inj (=) (=) from_block /\ Inj (=) (=) from_fee_history /\ Inj (=) (=) from_data /\
  (forall hash, Inj (=) (=) (from_send_raw_transaction_result hash)) /\
  (forall block, CandidTypes.Block.total_difficulty (from_block block) = None).
Proof. split_and!; try apply _; [|done]. by intros hash [] [] E. Qed.

(** Converting a request loses nothing either, except what the defaults say: an absent
    block is the latest one, absent topics and percentiles are empty lists. *)
Theorem requests_injective :
  Inj (=) (=) into_transaction_request /\ Inj (=) (=) into_block_spec /\
  Inj (=) (=) into_get_transaction_count_params /\
  (forall x y, into_eth_call_params x = into_eth_call_params y <->
     CallArgs.transaction x = CallArgs.transaction y /\
  default CandidTypes.BlockTag.Latest (CallArgs.block x) =
     default CandidTypes.BlockTag.Latest (CallArgs.block y)) /\
  (forall x y, into_get_logs_param x = into_get_logs_param y <->
     default CandidTypes.BlockTag.Latest (GetLogsArgs.from_block x) =
     default CandidTypes.BlockTag.Latest (GetLogsArgs.from_block y) /\
  default CandidTypes.BlockTag.Latest (GetLogsArgs.to_block x) =
     default CandidTypes.BlockTag.Latest (GetLogsArgs.to_block y) /\
  GetLogsArgs.addresses x = GetLogsArgs.addresses y /\
  default [] (GetLogsArgs.topics x) = default [] (GetLogsArgs.topics y)) /\
  (forall x y, into_fee_history_params x = into_fee_history_params y <->
     FeeHistoryArgs.block_count x = FeeHistoryArgs.block_count y /\
  FeeHistoryArgs.newest_block x = FeeHistoryArgs.newest_block y /\
  default [] (FeeHistoryArgs.reward_percentiles x) =
     default [] (FeeHistoryArgs.reward_percentiles y)).
Proof.
  assert (Hd : forall o, default BlockSpec.BlockSpec_default (option_map into_block_spec o) =
    into_block_spec (default CandidTypes.BlockTag.Latest o)) by by intros [|].
  assert (Ht : Inj (=) (=) (map (fun t => FixedSizeData_new (Hex32_0 t)))).
  { apply map_inj. by intros [x] [y] [= ->]. }
  split_and!; [apply _..| | | |].
  - intros [] [] E. injection E as E1 E2. inj_hyps. by subst.
  - intros x y. unfold into_eth_call_params. split.
    + intros E. pose proof (f_equal EthCallParams.transaction E) as E1.
      pose proof (f_equal EthCallParams.block E) as E2. simpl in E1, E2. inj_hyps. done.
    + intros [E1 E2]. unfold CandidTypes.BlockTag.BlockTag_default. by rewrite E1, E2.
  - intros x y. unfold into_get_logs_param. rewrite !Hd. split.
    + intros E. pose proof (f_equal GetLogsParam.from_block E) as E1.
      pose proof (f_equal GetLogsParam.to_block E) as E2.
      pose proof (f_equal GetLogsParam.address E) as E3.
      pose proof (f_equal GetLogsParam.topics E) as E4. simpl in E1, E2, E3, E4.
      inj_hyps. done.
    + intros (-> & -> & -> & ->). done.
  - intros x y. unfold into_fee_history_params. split.
    + intros E. pose proof (f_equal FeeHistoryParams.block_count E) as E1.
      pose proof (f_equal FeeHistoryParams.highest_block E) as E2.
      pose proof (f_equal FeeHistoryParams.reward_percentiles E) as E3. simpl in E1, E2, E3.
      inj_hyps. done.
    + intros (-> & -> & ->). done.
Qed.

(** A transaction status is read back from its number, exactly the numbers 0 and 1 are
    read, and the number given to the caller is the one the provider sent. *)
Lemma transaction_status_roundtrip (status : TransactionStatus) (value : U256) :
  TransactionStatus.TransactionStatus_try_from (TransactionStatus.u256_from status) = Ok status /\
  (TransactionStatus.TransactionStatus_try_from value = Ok status <->
     value = TransactionStatus.u256_from status) /\
  ((exists e, TransactionStatus.TransactionStatus_try_from value = Err e) <->
     1 < proj1_sig value) /\
  nat256_0 (from_transaction_status status) = proj1_sig (TransactionStatus.u256_from status).
Proof.
  pose proof (proj1 (is_u256_spec _) (proj2_sig value)) as Hr.
  unfold TransactionStatus.TransactionStatus_try_from. split_and!.
  - by destruct status.
  - destruct (Z.eqb_spec (proj1_sig value) 0) as [E|E];
      [|destruct (Z.eqb_spec (proj1_sig value) 1) as [E'|E']].
    + split; [intros [= <-]; by apply U256_eq|]. intros ->. by destruct status.
    + split; [intros [= <-]; by apply U256_eq|]. intros ->. by destruct status.
    + split; [done|]. intros ->. by destruct status.
  - destruct (Z.eqb_spec (proj1_sig value) 0); [|destruct (Z.eqb_spec (proj1_sig value) 1)];
      split; try (intros [? ?]); try done; try lia; eauto.
  - destruct status; simpl; by rewrite Nat256_from_u8_value.
Qed.
End Injective.

Section Witnesses.
Import Instances.Concrete.

Lemma responses_injective_witness : Inj (=) (=) from_block.
Proof. apply responses_injective. Defined.
Lemma requests_injective_witness : Inj (=) (=) into_transaction_request.
Proof. apply requests_injective. Defined.
End Witnesses.
