(* ===== verification/EthRpcError.v ===== *)
(** The errors of [eth_sendRawTransaction] ([src/rpc_client/eth_rpc_error/mod.rs]): one parser
    per Ethereum client, their combination, and the sanitization that hides from consensus
    that sending a transaction is not idempotent. *)

From Stdlib Require Import Ascii.
From S2P Require Import Prelude Collections EvmRpcTypes Externals Numbers Hex JsonTypes.
From S2P Require Instances.
Open Scope Z_scope.

Module SendRawTransactionError.
Inductive SendRawTransactionError :=
| AlreadyKnown | InsufficientFunds | NonceTooLow | NonceTooHigh.
#[global] Instance eq_dec : EqDecision SendRawTransactionError.
Proof. solve_decision. Defined.
End SendRawTransactionError.
Abbreviation SendRawTransactionError := SendRawTransactionError.SendRawTransactionError.

(** The trait [ErrorParser]: an implementor is the function it provides. *)
Class ErrorParser := try_parse_send_raw_transaction_error :
  i64 -> string -> option SendRawTransactionError.

Section Parsers.
Context `{Lowercase}.

Definition GoEthereumParser : ErrorParser := fun code message =>
  let msg := to_lowercase message in
  if (code =? -32000) && contains "already known" msg then
    Some SendRawTransactionError.AlreadyKnown
  else if (code =? -32000) && contains "insufficient funds" msg then
    Some SendRawTransactionError.InsufficientFunds
  else if (code =? -32000) && contains "nonce too low" msg then
    Some SendRawTransactionError.NonceTooLow
  else if (code =? -32000) && contains "nonce too high" msg then
    Some SendRawTransactionError.NonceTooHigh
  else None.

Definition NethermindParser : ErrorParser := fun code message =>
  let msg := to_lowercase message in
  if (code =? -32010) && contains "AlreadyKnown" msg then
    Some SendRawTransactionError.AlreadyKnown
  else if (code =? -32010) && contains "InsufficientFunds" msg then
    Some SendRawTransactionError.InsufficientFunds
  else if (code =? -32010) && contains "OldNonce" msg then
    Some SendRawTransactionError.NonceTooLow
  else if (code =? -32010) && contains "NonceGap" msg then
    Some SendRawTransactionError.NonceTooHigh
  else None.

Definition ErigonParser : ErrorParser := fun code message =>
  let msg := to_lowercase message in
  if (code =? -32000) && contains "already known" msg then
    Some SendRawTransactionError.AlreadyKnown
  else if (code =? -32000) && contains "insufficient funds" msg then
    Some SendRawTransactionError.InsufficientFunds
  else if (code =? -32000) && contains "nonce too low" msg then
    Some SendRawTransactionError.NonceTooLow
  else None.

Definition BesuParser : ErrorParser := fun code message =>
  let msg := to_lowercase message in
  if (code =? -32000) && contains "known transaction" msg then
    Some SendRawTransactionError.AlreadyKnown
  else if (code =? -32000) && contains "out of gas" msg then
    Some SendRawTransactionError.InsufficientFunds
  else if (code =? -32001) && contains "nonce too low" msg then
    Some SendRawTransactionError.NonceTooLow
  else if (code =? -32006) && contains "nonce too high" msg then
    Some SendRawTransactionError.NonceTooHigh
  else None.

Record Parser := { parsers : list ErrorParser }.
Definition Parser_new : Parser :=
  {| parsers := [GoEthereumParser; NethermindParser; ErigonParser; BesuParser] |}.

(** [Iterator::find_map]. *)
Fixpoint find_map {A B} (f : A -> option B) (l : list A) : option B :=
  match l with
  | [] => None
  | x :: l => match f x with Some y => Some y | None => find_map f l end
  end.

Definition Parser_try_parse (self : Parser) : ErrorParser := fun code message =>
  find_map (fun parser : ErrorParser => parser code message) (parsers self).
End Parsers.

Section Sanitize.
Context `{JsonRpcId} `{SerdeValue}.
Context `{SerdeJson (JsonRpcResponse Hash)} `{SerdeJson (JsonRpcResponse SendRawTransactionResult)}.

Definition sanitize_result (parser : ErrorParser) (result : Result Hash RpcErrorObject) :
  Result SendRawTransactionResult RpcErrorObject :=
  match result with
  | Ok _ => Ok SendRawTransactionResult.Ok
  | Err e =>
      match parser (error_code e) (error_message e) with
      | Some error =>
          match error with
          | SendRawTransactionError.AlreadyKnown => Ok SendRawTransactionResult.Ok
          | SendRawTransactionError.InsufficientFunds =>
              Ok SendRawTransactionResult.InsufficientFunds
          | SendRawTransactionError.NonceTooLow => Ok SendRawTransactionResult.NonceTooLow
          | SendRawTransactionError.NonceTooHigh => Ok SendRawTransactionResult.NonceTooHigh
          end
      | None =>
          Err {| error_code := error_code e; error_message := error_message e;
                 error_data := error_data e |}
      end
  end.

(** The new bytes of the body; they are the old ones when the body does not parse. *)
Definition sanitize_send_raw_transaction_result (body_bytes : list byte)
    (parser : ErrorParser) : list byte :=
  match from_slice (T := JsonRpcResponse Hash) body_bytes with
  | Err _ => body_bytes
  | Ok response =>
      let '(id, result) := (response_id response, response_result response) in
      let sanitized_result := sanitize_result parser result in
      let sanitized_reply : JsonRpcResponse SendRawTransactionResult :=
        {| response_id := id; response_result := sanitized_result |} in
      to_vec sanitized_reply
  end.
End Sanitize.

(** ** Properties *)

(** The rows of a table of (code, message, error), in order of priority. *)
Definition lookup_error (table : list (i64 * string * SendRawTransactionError)) (code : i64)
    (msg : string) : option SendRawTransactionError :=
  find_map (fun '(c, needle, error) =>
    if (code =? c) && contains needle msg then Some error else None) table.

(** What the combined parser recognizes, as a single table. *)
Definition recognized_errors : list (i64 * string * SendRawTransactionError) :=
  [(-32000, "already known", SendRawTransactionError.AlreadyKnown);
   (-32000, "insufficient funds", SendRawTransactionError.InsufficientFunds);
   (-32000, "nonce too low", SendRawTransactionError.NonceTooLow);
   (-32000, "nonce too high", SendRawTransactionError.NonceTooHigh);
   (-32000, "known transaction", SendRawTransactionError.AlreadyKnown);
   (-32000, "out of gas", SendRawTransactionError.InsufficientFunds);
   (-32001, "nonce too low", SendRawTransactionError.NonceTooLow);
   (-32006, "nonce too high", SendRawTransactionError.NonceTooHigh)].

(** A lowercase text does not contain a text with a capital. *)
Lemma lowercase_not_contains `{LowercaseLaws} c needle s :
  contains_char c needle = true -> is_ascii_uppercase c = true ->
  contains needle (to_lowercase s) = false.
Proof.
  intros Hc Hu. apply not_true_iff_false. intros Hn.
  apply (contains_contains_char c) in Hn; [|done].
  apply contains_char_elem in Hn. pose proof (to_lowercase_no_capital s) as Hl.
  unfold string_forall in Hl. rewrite forallb_forall in Hl.
  apply list_elem_of_In in Hn. specialize (Hl c Hn). by rewrite Hu in Hl.
Qed.

Lemma NethermindParser_None `{LowercaseLaws} code message :
  NethermindParser code message = None.
Proof.
  unfold NethermindParser.
  rewrite (lowercase_not_contains "A"%char "AlreadyKnown") by done.
  rewrite (lowercase_not_contains "I"%char "InsufficientFunds") by done.
  rewrite (lowercase_not_contains "O"%char "OldNonce") by done.
  rewrite (lowercase_not_contains "N"%char "NonceGap") by done.
  by rewrite !andb_false_r.
Qed.

(** C21: the four parsers together recognize exactly the errors of one table, in its order of
    priority and whatever the case of the message; the code of Nethermind, -32010, is in no
    row: its parser looks for capitals in a text it has put in lowercase. *)
Theorem parser_table `{LowercaseLaws} (code : i64) (message : string) :
  Parser_try_parse Parser_new code message =
    lookup_error recognized_errors code (to_lowercase message) /\
  NethermindParser code message = None /\
  (code = -32010 -> Parser_try_parse Parser_new code message = None).
Proof.
  assert (E : Parser_try_parse Parser_new code message =
    lookup_error recognized_errors code (to_lowercase message)).
  { unfold Parser_try_parse. cbn [parsers Parser_new find_map].
    rewrite NethermindParser_None. unfold GoEthereumParser, ErigonParser, BesuParser.
    cbn [lookup_error find_map recognized_errors].
    destruct (Z.eqb_spec code (-32000)) as [->|Hc]; simpl.
    - repeat case_match; try done; congruence.
    - repeat case_match; try done; congruence. }
  split_and!; [done|apply NethermindParser_None|]. intros ->. by rewrite E.
Qed.


Section Witnesses.
Import Instances.Concrete.

Lemma parser_table_witness :
  Parser_try_parse Parser_new (-32000) "Nonce too LOW: next nonce 3" =
  Some SendRawTransactionError.NonceTooLow.
Proof.
  rewrite (proj1 (parser_table (-32000) "Nonce too LOW: next nonce 3")). reflexivity.
Defined.

(** A provider that accepted the transaction, and one that knew it. *)
Definition reply_accepted : JsonRpcResponse Hash :=
  {| response_id := 7;
     response_result := Ok (Hash_new (@Bytes_make 32 (replicate 32 0) eq_refl)) |}.
Definition reply_known : JsonRpcResponse Hash :=
  {| response_id := 7;
     response_result := Err {| error_code := -32000; error_message := "ALREADY known: 0x01";
                               error_data := None |} |}.
Definition replies_serde : SerdeJson (JsonRpcResponse Hash) := {|
  from_slice body := match body with [] => Ok reply_accepted | _ => Ok reply_known end;
  to_vec _ := [] |}.
Definition results_serde : SerdeJson (JsonRpcResponse SendRawTransactionResult) := {|
  from_slice _ := Err "not used";
  to_vec r := match response_result r with Ok _ => [1] | Err _ => [0] end |}.

End Witnesses.
