(* ===== verification/EthRpc.v ===== *)
(** The responses of the providers before consensus ([src/rpc_client/eth_rpc/mod.rs]): the
    transformations of [cleanup_response] that make the replicas' answers identical, and
    the estimate of a response's size. *)

From S2P Require Import Prelude Collections EvmRpcTypes Externals Numbers Hex JsonTypes.
From S2P Require Import EthRpcError.
From S2P Require Instances.
Open Scope Z_scope.

Definition HEADER_SIZE_LIMIT : u64 := 2 * 1024.
Definition HTTP_MAX_SIZE : u64 := 2000000.
Definition MAX_PAYLOAD_SIZE : u64 := HTTP_MAX_SIZE - HEADER_SIZE_LIMIT.

Module ResponseTransform.
Inductive ResponseTransform :=
| Block | LogEntries | TransactionReceipt | FeeHistory | SendRawTransaction.
#[global] Instance eq_dec : EqDecision ResponseTransform.
Proof. solve_decision. Defined.
End ResponseTransform.
Abbreviation ResponseTransform := ResponseTransform.ResponseTransform.

(** Crate [minicbor], for this type. *)
Class MinicborCrate := {
  minicbor_encode : ResponseTransform -> list byte;
  minicbor_decode : list byte -> Result ResponseTransform string;
}.
Class MinicborLaws `{MinicborCrate} := {
  minicbor_decode_encode t : minicbor_decode (minicbor_encode t) = Ok t;
  minicbor_encode_nonempty t : minicbor_encode t <> [];
}.

(** The trait [HttpResponsePayload]: the transformation of each response type. *)
Class HttpResponsePayload (T : Type) := response_transform : option ResponseTransform.
#[export] Instance payload_option {T} `{HttpResponsePayload T} :
  HttpResponsePayload (option T) := None.
#[export] Instance payload_TransactionCount : HttpResponsePayload TransactionCount := None.
#[export] Instance payload_Wei : HttpResponsePayload Wei := None.
#[export] Instance payload_TransactionReceipt : HttpResponsePayload TransactionReceipt :=
  Some ResponseTransform.TransactionReceipt.
#[export] Instance payload_LogEntries : HttpResponsePayload (list LogEntry) :=
  Some ResponseTransform.LogEntries.
#[export] Instance payload_Block : HttpResponsePayload Block := Some ResponseTransform.Block.
#[export] Instance payload_FeeHistory : HttpResponsePayload FeeHistory :=
  Some ResponseTransform.FeeHistory.
#[export] Instance payload_SendRawTransactionResult :
  HttpResponsePayload SendRawTransactionResult := Some ResponseTransform.SendRawTransaction.
#[export] Instance payload_Data : HttpResponsePayload Data := None.

(** ** [ResponseSizeEstimate] *)

Record ResponseSizeEstimate := { estimate_0 : u64 }.
Definition ResponseSizeEstimate_new (num_bytes : u64) : Outcome ResponseSizeEstimate :=
  if negb (0 <? num_bytes) then Panic "assertion failed: num_bytes > 0"
  else if negb (num_bytes <=? MAX_PAYLOAD_SIZE) then
    Panic "assertion failed: num_bytes <= MAX_PAYLOAD_SIZE"
  else Return {| estimate_0 := num_bytes |}.
Definition ResponseSizeEstimate_get (self : ResponseSizeEstimate) : u64 := estimate_0 self.
(** [impl Display]. *)
Definition ResponseSizeEstimate_display (self : ResponseSizeEstimate) : string :=
  pretty (estimate_0 self).

(** ** Transformations *)

Section SortByHash.
Context {T : Type} `{Sha256} `{SerdeJson T}.

Definition hash_cmp (a b : T) : comparison := rcmp (sha256 (to_vec a)) (sha256 (to_vec b)).
Definition sort_by_hash (to_sort : list T) : list T := sort_by hash_cmp to_sort.

Lemma hash_cmp_le_trans x y z :
  cmp_le hash_cmp x y -> cmp_le hash_cmp y z -> cmp_le hash_cmp x z.
Proof.
  unfold cmp_le, hash_cmp. generalize (sha256 (to_vec x)) (sha256 (to_vec y))
    (sha256 (to_vec z)). intros a b c Hab Hbc Hac.
  destruct (rcmp a b) eqn:E1; [apply rcmp_eq in E1 as ->; done| |done].
  destruct (rcmp b c) eqn:E2; [apply rcmp_eq in E2 as ->; congruence| |done].
  by rewrite (rcmp_trans _ _ _ E1 E2) in Hac.
Qed.

Lemma hash_cmp_total x y : hash_cmp x y = Gt -> hash_cmp y x <> Gt.
Proof. unfold hash_cmp. rewrite (rcmp_antisym (sha256 (to_vec x))). intros ->. done. Qed.

(** Values whose hashes are different are compared by them. *)
Lemma sort_by_hash_unique (l k : list T) :
  (forall x y, x ∈ l -> y ∈ l -> sha256 (to_vec x) = sha256 (to_vec y) -> x = y) ->
  l ≡ₚ k -> sort_by_hash l = sort_by_hash k.
Proof.
  intros Hinj Hp. apply (sort_by_unique hash_cmp hash_cmp_total hash_cmp_le_trans); [|done].
  intros x y Hx Hy H1 H2. apply Hinj; [done..|]. unfold hash_cmp in H1, H2.
  rewrite (rcmp_antisym (sha256 (to_vec x))) in H2.
  destruct (rcmp (sha256 (to_vec x)) (sha256 (to_vec y))) eqn:E; [|done..].
  by apply rcmp_eq in E.
Qed.
End SortByHash.

(** [TransformArgs] and [HttpResponse] of the management canister; the status is a natural
    number. *)
Record IcHttpResponse := {
  resp_status : Z; resp_headers : list HttpHeader; resp_body : list byte }.
Record TransformArgs := { args_response : IcHttpResponse; args_context : list byte }.

Section Transform.
Context `{JsonRpcId} `{SerdeValue} `{Sha256} `{Lowercase} `{MinicborCrate}.
Context `{SerdeJson LogEntry}.
Context `{SerdeJson (JsonRpcResponse Block)} `{SerdeJson (JsonRpcResponse (list LogEntry))}.
Context `{SerdeJson (JsonRpcResponse TransactionReceipt)}.
Context `{SerdeJson (JsonRpcResponse FeeHistory)} `{SerdeJson (JsonRpcResponse Hash)}.
Context `{SerdeJson (JsonRpcResponse SendRawTransactionResult)}.

Definition redact_response (T : Type) `{SerdeJson (JsonRpcResponse T)} (body : list byte) :
  list byte :=
  match from_slice (T := JsonRpcResponse T) body with
  | Err _ => body
  | Ok response => to_vec response
  end.

Definition redact_collection_response (T : Type) `{SerdeJson T}
    `{SerdeJson (JsonRpcResponse (list T))} (body : list byte) : list byte :=
  match from_slice (T := JsonRpcResponse (list T)) body with
  | Err _ => body
  | Ok response =>
      let response : JsonRpcResponse (list T) :=
        match response_result response with
        | Ok result =>
            {| response_id := response_id response;
               response_result := Ok (sort_by_hash result) |}
        | Err _ => response
        end in
      to_vec response
  end.

Definition ResponseTransform_apply (self : ResponseTransform) (body_bytes : list byte) :
  list byte :=
  match self with
  | ResponseTransform.Block => redact_response Block body_bytes
  | ResponseTransform.LogEntries => redact_collection_response LogEntry body_bytes
  | ResponseTransform.TransactionReceipt => redact_response TransactionReceipt body_bytes
  | ResponseTransform.FeeHistory => redact_response FeeHistory body_bytes
  | ResponseTransform.SendRawTransaction =>
      sanitize_send_raw_transaction_result body_bytes (Parser_try_parse Parser_new)
  end.

Definition cleanup_response (args : TransformArgs) : IcHttpResponse :=
  let response := args_response args in
  let status_ok := (200 <=? resp_status response) && (resp_status response <? 300) in
  let body :=
    if status_ok && negb (bool_decide (args_context args = [])) then
      match minicbor_decode (args_context args) with
      | Ok transform => ResponseTransform_apply transform (resp_body response)
      | Err _ => resp_body response
      end
    else resp_body response in
  {| resp_status := resp_status response; resp_headers := []; resp_body := body |}.

(** A successful response to a request that carried the transformation [t]. *)
Lemma cleanup_response_transform `{!MinicborLaws} t response :
  200 <= resp_status response < 300 ->
  cleanup_response {| args_response := response; args_context := minicbor_encode t |} =
  {| resp_status := resp_status response; resp_headers := [];
     resp_body := ResponseTransform_apply t (resp_body response) |}.
Proof.
  intros Hs. unfold cleanup_response. cbn [args_response args_context].
  rewrite minicbor_decode_encode.
  rewrite (bool_decide_eq_false_2 _ (minicbor_encode_nonempty t)).
  destruct (Z.leb_spec 200 (resp_status response)); [|lia].
  destruct (Z.ltb_spec (resp_status response) 300); [done|lia].
Qed.

(** The cleaned response has the status of the original and no headers, and the body of
    an unsuccessful response is left as it is. Two providers' nodes that send the same
    block, receipt or fee history in different JSON texts give the same cleaned response. *)
Theorem cleanup_response_canonical `{!MinicborLaws} (args : TransformArgs)
    (r1 r2 : IcHttpResponse) (b : JsonRpcResponse Block) (rc : JsonRpcResponse TransactionReceipt)
    (fh : JsonRpcResponse FeeHistory) (t : ResponseTransform) :
  resp_status (cleanup_response args) = resp_status (args_response args) /\
  resp_headers (cleanup_response args) = [] /\
  (~ 200 <= resp_status (args_response args) < 300 ->
     resp_body (cleanup_response args) = resp_body (args_response args)) /\
  (200 <= resp_status r1 < 300 -> resp_status r1 = resp_status r2 ->
   match t with
   | ResponseTransform.Block =>
       from_slice (resp_body r1) = Ok b /\ from_slice (resp_body r2) = Ok b
   | ResponseTransform.TransactionReceipt =>
       from_slice (resp_body r1) = Ok rc /\ from_slice (resp_body r2) = Ok rc
   | ResponseTransform.FeeHistory =>
       from_slice (resp_body r1) = Ok fh /\ from_slice (resp_body r2) = Ok fh
   | _ => False
   end ->
   cleanup_response {| args_response := r1; args_context := minicbor_encode t |} =
   cleanup_response {| args_response := r2; args_context := minicbor_encode t |}).
Proof.
  split_and!; [done..| |].
  - intros Hs. unfold cleanup_response. cbn [resp_body].
    destruct (Z.leb_spec 200 (resp_status (args_response args))); [|done].
    destruct (Z.ltb_spec (resp_status (args_response args)) 300); [lia|done].
  - intros Hs E Hb. rewrite !cleanup_response_transform by (congruence || lia).
    rewrite E. f_equal.
    destruct t; try done; destruct Hb as [Hb1 Hb2]; simpl;
      unfold redact_response; by rewrite Hb1, Hb2.
Qed.

(** C22: replies to [eth_getLogs] that list the same logs in different orders give the same
    cleaned response, as long as no two of the logs have the same hash; the cleaned reply
    lists the same logs. *)
Theorem cleanup_logs_order `{!MinicborLaws} (r1 r2 : IcHttpResponse)
    (id : Id) (logs1 logs2 : list LogEntry) :
  let reply logs : JsonRpcResponse (list LogEntry) :=
    {| response_id := id; response_result := Ok logs |} in
  let cleaned r := cleanup_response
    {| args_response := r; args_context := minicbor_encode ResponseTransform.LogEntries |} in
  200 <= resp_status r1 < 300 -> resp_status r1 = resp_status r2 ->
  from_slice (resp_body r1) = Ok (reply logs1) ->
  from_slice (resp_body r2) = Ok (reply logs2) ->
  logs1 ≡ₚ logs2 ->
  (forall x y, x ∈ logs1 -> y ∈ logs1 -> sha256 (to_vec x) = sha256 (to_vec y) -> x = y) ->
  cleaned r1 = cleaned r2 /\
  exists sorted, resp_body (cleaned r1) = to_vec (reply sorted) /\ sorted ≡ₚ logs1.
Proof.
  intros reply cleaned Hs E E1 E2 Hp Hinj. unfold cleaned.
  rewrite !cleanup_response_transform by (congruence || lia). simpl.
  unfold redact_collection_response. rewrite E1, E2, E. simpl.
  rewrite (sort_by_hash_unique logs1 logs2) by done.
  split; [done|]. exists (sort_by_hash logs2). split; [done|].
  unfold sort_by_hash. by rewrite sort_by_Permutation.
Qed.
End Transform.

(** An estimate of the response size is accepted exactly between 1 and the largest
    payload, which with the headers is the limit of the Internet Computer; any other one,
    also when it comes from the caller's configuration, traps. *)
Theorem response_size_estimate_bounds (num_bytes : u64) :
  ((exists e, ResponseSizeEstimate_new num_bytes = Return e /\
      ResponseSizeEstimate_get e = num_bytes) <-> 1 <= num_bytes <= MAX_PAYLOAD_SIZE) /\
  ((exists msg, ResponseSizeEstimate_new num_bytes = Panic msg) <->
     num_bytes <= 0 \/ MAX_PAYLOAD_SIZE < num_bytes) /\
  MAX_PAYLOAD_SIZE + HEADER_SIZE_LIMIT = 2000000.
Proof.
  unfold ResponseSizeEstimate_new.
  destruct (Z.ltb_spec 0 num_bytes); simpl; [destruct (Z.leb_spec num_bytes MAX_PAYLOAD_SIZE)|];
    simpl; (split_and!; [split|split|done]); try (intros (? & ? & ?)); try (intros (? & ?));
    try done; try lia; eauto.
Qed.

Section Witnesses.
Import Instances.Concrete.

Definition minicbor_crate : MinicborCrate := {|
  minicbor_encode t :=
    match t with
    | ResponseTransform.Block => [130; 0]
    | ResponseTransform.LogEntries => [130; 1]
    | ResponseTransform.TransactionReceipt => [130; 2]
    | ResponseTransform.FeeHistory => [130; 3]
    | ResponseTransform.SendRawTransaction => [130; 4]
    end;
  minicbor_decode bytes :=
    match bytes with
    | [130; 0] => Ok ResponseTransform.Block
    | [130; 1] => Ok ResponseTransform.LogEntries
    | [130; 2] => Ok ResponseTransform.TransactionReceipt
    | [130; 3] => Ok ResponseTransform.FeeHistory
    | [130; 4] => Ok ResponseTransform.SendRawTransaction
    | _ => Err "unknown transformation"
    end |}.
Lemma minicbor_laws : @MinicborLaws minicbor_crate.
Proof. split; by intros []. Qed.

(** Reading returns a fixed value; writing keeps nothing. *)
Definition constant_serde {T} (t : T) : SerdeJson T :=
  {| from_slice _ := Ok t; to_vec _ := [] |}.

Definition log_entry (removed : bool) : LogEntry := {|
  LogEntry.address := Address_new (@Bytes_make 20 (replicate 20 0) eq_refl);
  LogEntry.topics := []; LogEntry.data := {| Data_0 := [] |};
  LogEntry.block_number := None; LogEntry.transaction_hash := None;
  LogEntry.transaction_index := None; LogEntry.block_hash := None;
  LogEntry.log_index := None; LogEntry.removed := removed |}.
Definition log_entry_serde : SerdeJson LogEntry := {|
  from_slice _ := Err "not used";
  to_vec l := if LogEntry.removed l then [1] else [0] |}.
Definition reply_id : Id := Id_from 3.
Definition logs_reply (logs : list LogEntry) : JsonRpcResponse (list LogEntry) :=
  {| response_id := reply_id; response_result := Ok logs |}.
(** A body lists the logs by one byte each. *)
Definition logs_serde : SerdeJson (JsonRpcResponse (list LogEntry)) := {|
  from_slice body := Ok (logs_reply (map (fun b => log_entry (b =? 1)) body));
  to_vec r :=
    match response_result r with
    | Ok logs => map (fun l : LogEntry => if LogEntry.removed l then 1 else 0) logs
    | Err _ => []
    end |}.
Definition no_reply {T} : JsonRpcResponse T :=
  {| response_id := 0;
     response_result := Err {| error_code := 0; error_message := ""; error_data := None |} |}.
Definition http_ok (headers : list HttpHeader) (body : list byte) : IcHttpResponse :=
  {| resp_status := 200; resp_headers := headers; resp_body := body |}.

#[local] Existing Instance minicbor_crate.
#[local] Existing Instance minicbor_laws.
#[local] Existing Instance log_entry_serde.
#[local] Existing Instance logs_serde.
#[local] Instance other_serde {T} : SerdeJson (JsonRpcResponse T) | 100 :=
  constant_serde no_reply.

Lemma cleanup_response_canonical_witness :
  let h := [{| header_name := "Date"; header_value := "now" |}] in
  let c := minicbor_encode ResponseTransform.Block in
  cleanup_response {| args_response := http_ok h [1]; args_context := c |} =
  cleanup_response {| args_response := http_ok [] [2]; args_context := c |}.
Proof.
  intros h c.
  apply (cleanup_response_canonical {| args_response := http_ok h [1]; args_context := c |}
    (http_ok h [1]) (http_ok [] [2]) no_reply no_reply no_reply ResponseTransform.Block).
  - unfold http_ok. simpl. lia.
  - reflexivity.
  - split; reflexivity.
Defined.

Lemma cleanup_logs_order_witness :
  let c := minicbor_encode ResponseTransform.LogEntries in
  cleanup_response {| args_response := http_ok [] [1; 0]; args_context := c |} =
  cleanup_response {| args_response := http_ok [] [0; 1]; args_context := c |}.
Proof.
  intros c.
  apply (cleanup_logs_order (http_ok [] [1; 0]) (http_ok [] [0; 1]) reply_id
    [log_entry true; log_entry false] [log_entry false; log_entry true]).
  - unfold http_ok. simpl. lia.
  - reflexivity.
  - reflexivity.
  - reflexivity.
  - apply Permutation_swap.
  - intros x y Hx Hy E. set_unfold.
    destruct Hx as [->|[->|[]]], Hy as [->|[->|[]]]; try reflexivity; discriminate E.
Defined.
End Witnesses.
