(* ===== verification/Http.v ===== *)
(** The HTTP client of the canister ([src/http.rs]): building a request, the layers around an
    outcall (metrics, request ids, retries), the conversion of the client's errors, the
    charging policy and the transformation of raw responses. *)

From S2P Require Import Prelude Collections EvmRpcTypes Externals Types Providers Memory.
From S2P Require Import ProviderApi EthRpc.
From S2P Require Instances.
Open Scope Z_scope.
Open Scope canister_scope.

(** ** The errors of the client *)

Record IcError := { ic_code : RejectCode; ic_message : string }.
(** [FilterNonSuccessfulHttpResponseError::UnsuccessfulResponse]. *)
Record UnsuccessfulResponse := { unsuccessful_status : u16; unsuccessful_body : list byte }.
(** [JsonResponseConversionError::InvalidJsonResponse]. *)
Record InvalidJsonResponse := {
  invalid_status : u16; invalid_body : string; invalid_parsing_error : string }.

(** What the canister uses of [canhttp] here, with the size limit of the system. *)
Class CanhttpCrate `{JsonRpcId} := {
  is_response_too_large : IcError -> bool;
  (** [ConsistentResponseIdFilterError::InconsistentId] as text *)
  inconsistent_id_to_string : u16 -> Id -> Id -> string;
  (** [CyclesCostEstimator::new(num_nodes).cost_of_http_request(request)] *)
  IcHttpRequest : Type;
  cost_of_http_request : u32 -> IcHttpRequest -> u128;
  (** [String::from_utf8_lossy] *)
  from_utf8_lossy : list byte -> string;
}.

(** The three layers of [tower_http] and [canhttp] that the requests go through: a header
    unless it is there ([SetRequestHeaderLayer]), the body as JSON ([JsonRequestConverter]), and
    the arguments of the management canister ([HttpRequestConverter]). The errors are texts. *)
Class ConvertCrate `{CanhttpCrate} := {
  insert_request_header_if_not_present {B : Type} (name value : string) :
    HttpRequest B -> HttpRequest B;
  json_request_convert {I : Type} : HttpRequest (JsonRpcRequest I) -> Result (HttpRequest (list byte)) string;
  http_request_convert : HttpRequest (list byte) -> Result IcHttpRequest string;
}.

Module HttpClientError.
Inductive HttpClientError `{JsonRpcId} :=
| IcError (e : IcError)
| NotHandledError (message : string)
| CyclesAccountingError (expected received : u128)
| UnsuccessfulHttpResponse (response : UnsuccessfulResponse)
| InvalidJsonResponse (e : InvalidJsonResponse)
| InvalidJsonResponseId (status : u16) (request_id response_id : Id).
End HttpClientError.
Abbreviation HttpClientError := HttpClientError.HttpClientError.

Section Errors.
Context `{CanhttpCrate}.

(** [impl From<HttpClientError> for RpcError]. *)
Definition RpcError_from_HttpClientError (error : HttpClientError) : RpcError :=
  match error with
  | HttpClientError.IcError e =>
      RpcError.HttpOutcallError (HttpOutcallError.IcError
        (LegacyRejectionCode.from_RejectCode (ic_code e)) (ic_message e))
  | HttpClientError.NotHandledError e => RpcError.ValidationError (ValidationError.Custom e)
  | HttpClientError.CyclesAccountingError expected received =>
      RpcError.ProviderError (ProviderError.TooFewCycles expected received)
  | HttpClientError.InvalidJsonResponse e =>
      RpcError.HttpOutcallError (HttpOutcallError.InvalidHttpJsonRpcResponse
        (invalid_status e) (invalid_body e) (Some (invalid_parsing_error e)))
  | HttpClientError.UnsuccessfulHttpResponse response =>
      RpcError.HttpOutcallError (HttpOutcallError.InvalidHttpJsonRpcResponse
        (unsuccessful_status response) (from_utf8_lossy (unsuccessful_body response)) None)
  | HttpClientError.InvalidJsonResponseId status request_id response_id =>
      RpcError.ValidationError (ValidationError.Custom
        (inconsistent_id_to_string status request_id response_id))
  end.

(** [impl HttpsOutcallError for HttpClientError]. *)
Definition HttpClientError_is_response_too_large (self : HttpClientError) : bool :=
  match self with
  | HttpClientError.IcError e => is_response_too_large e
  | HttpClientError.NotHandledError _ | HttpClientError.CyclesAccountingError _ _
  | HttpClientError.UnsuccessfulHttpResponse _ | HttpClientError.InvalidJsonResponse _
  | HttpClientError.InvalidJsonResponseId _ _ _ => false
  end.
End Errors.

(** [HttpJsonRpcResponse<O>]: the status and the body. *)
Record HttpJsonRpcResponse `{JsonRpcId} `{SerdeValue} (O : Type) := {
  http_status : u16; http_body : JsonRpcResponse O }.
Arguments http_status {_ _ O} _.
Arguments http_body {_ _ O} _.

(** ** Counters *)

Definition set_requests v (m : Metrics) : Metrics :=
  {| requests := v; responses := responses m;
     inconsistent_responses := inconsistent_responses m; cycles_charged := cycles_charged m;
     err_http_outcall := err_http_outcall m;
     err_max_response_size_exceeded := err_max_response_size_exceeded m |}.
Definition set_responses v (m : Metrics) : Metrics :=
  {| requests := requests m; responses := v;
     inconsistent_responses := inconsistent_responses m; cycles_charged := cycles_charged m;
     err_http_outcall := err_http_outcall m;
     err_max_response_size_exceeded := err_max_response_size_exceeded m |}.
Definition set_inconsistent_responses v (m : Metrics) : Metrics :=
  {| requests := requests m; responses := responses m;
     inconsistent_responses := v; cycles_charged := cycles_charged m;
     err_http_outcall := err_http_outcall m;
     err_max_response_size_exceeded := err_max_response_size_exceeded m |}.
Definition set_err_http_outcall v (m : Metrics) : Metrics :=
  {| requests := requests m; responses := responses m;
     inconsistent_responses := inconsistent_responses m; cycles_charged := cycles_charged m;
     err_http_outcall := v;
     err_max_response_size_exceeded := err_max_response_size_exceeded m |}.
Definition set_err_max_response_size_exceeded v (m : Metrics) : Metrics :=
  {| requests := requests m; responses := responses m;
     inconsistent_responses := inconsistent_responses m; cycles_charged := cycles_charged m;
     err_http_outcall := err_http_outcall m; err_max_response_size_exceeded := v |}.

Section Client.
Context `{TSM : TimedSizedMapApi SupportedRpcService unit} `{Canlog : CanlogCrate}.
Context `{JsonRpcId} `{SerdeValue} `{!CanhttpCrate} `{HttpCrate}.

Definition observe_response (method : MetricRpcMethod) (host : MetricRpcHost)
    (status : u16) : M unit :=
  update_metrics (fun m =>
    set_responses (add_metric_entry (method, host, MetricHttpStatusCode_from status) 1
      (responses m)) m).

(** What [unwrap] says of a URL without a host. *)
Definition NO_HOST : string := "called `Option::unwrap()` on a `None` value".

(** The three callbacks of the observability layer; what they log is left out. *)
Definition on_request {I} (rpc_method : MetricRpcMethod)
    (req : HttpRequest (JsonRpcRequest I)) : M (MetricRpcMethod * MetricRpcHost) :=
  match uri_host (req_uri req) with
  | None => panic NO_HOST
  | Some host =>
      update_metrics (fun m =>
        set_requests (add_metric_entry (rpc_method, host) 1 (requests m)) m) ;;
      mret (rpc_method, host)
  end.

Definition on_response {O} (req_data : MetricRpcMethod * MetricRpcHost)
    (response : HttpJsonRpcResponse O) : M unit :=
  observe_response req_data.1 req_data.2 (http_status response).

Definition on_error (req_data : MetricRpcMethod * MetricRpcHost) (error : HttpClientError) :
  M unit :=
  match error with
  | HttpClientError.IcError e =>
      if is_response_too_large e then
        update_metrics (fun m =>
          set_err_max_response_size_exceeded
            (add_metric_entry req_data 1 (err_max_response_size_exceeded m)) m)
      else
        update_metrics (fun m =>
          set_err_http_outcall
            (add_metric_entry
              (req_data.1, req_data.2, LegacyRejectionCode.from_RejectCode (ic_code e)) 1
              (err_http_outcall m)) m)
  | HttpClientError.UnsuccessfulHttpResponse response =>
      observe_response req_data.1 req_data.2 (unsuccessful_status response)
  | HttpClientError.InvalidJsonResponse e =>
      observe_response req_data.1 req_data.2 (invalid_status e)
  | HttpClientError.InvalidJsonResponseId status _ _ =>
      observe_response req_data.1 req_data.2 status
  | HttpClientError.NotHandledError _ => mret ()
  | HttpClientError.CyclesAccountingError _ _ => mret ()
  end.

(** [MapRequestLayer::new(generate_request_id)]. *)
Definition generate_request_id {I} (request : HttpRequest (JsonRpcRequest I)) :
  M (HttpRequest (JsonRpcRequest I)) :=
  id ← next_request_id;
  mret {| req_uri := req_uri request; req_headers := req_headers request;
          req_max_response_bytes := req_max_response_bytes request;
          req_transform_context := req_transform_context request;
          req_body := {| request_method := request_method (req_body request);
                         request_params := request_params (req_body request);
                         request_id := Id_from id |} |}.

(** The world outside during the [k]-th attempt of a call: how the outcall ends (with the
    layers below the observability layer: the id filter and the conversions), and what the
    canister's other messages do to its state while the outcall is under way. *)
Record Outside (I O : Type) := {
  answer : nat -> HttpRequest (JsonRpcRequest I) ->
    Result (HttpJsonRpcResponse O) HttpClientError;
  meanwhile : nat -> CanisterState -> CanisterState;
}.
Arguments answer {I O} _.
Arguments meanwhile {I O} _.

(** One attempt, through the observability layer. *)
Definition observed_call {I O} (rpc_method : MetricRpcMethod) (outside : Outside I O) (k : nat)
    (req : HttpRequest (JsonRpcRequest I)) :
    M (Result (HttpJsonRpcResponse O) HttpClientError) :=
  req_data ← on_request rpc_method req;
  modify (meanwhile outside k) ;;
  match answer outside k req with
  | Ok response => on_response req_data response ;; mret (Ok response)
  | Err error => on_error req_data error ;; mret (Err error)
  end.

(** The policy [DoubleMaxResponseBytes] of [canhttp]: the request to try next, if any. *)
Class RetryPolicy := next_request : forall {I O : Type},
  HttpRequest (JsonRpcRequest I) -> Result (HttpJsonRpcResponse O) HttpClientError ->
  option (HttpRequest (JsonRpcRequest I)).
Context `{RetryPolicy}.

Definition OUT_OF_FUEL : string := "out of fuel".

(** The retry layer around the layer that sets the id. *)
Fixpoint retry_call {I O} (fuel : nat) (rpc_method : MetricRpcMethod) (outside : Outside I O)
    (k : nat) (req : HttpRequest (JsonRpcRequest I)) :
    M (Result (HttpJsonRpcResponse O) HttpClientError) :=
  match fuel with
  | O => panic OUT_OF_FUEL
  | S fuel =>
      numbered ← generate_request_id req;
      result ← observed_call rpc_method outside k numbered;
      match next_request req result with
      | Some req => retry_call fuel rpc_method outside (S k) req
      | None => mret result
      end
  end.

(** Each retry doubles the size or reaches the limit of 2,000,000 bytes, which is less than
    2^21: 22 attempts are enough ([retry_call_terminates]). *)
Definition RETRY_FUEL : nat := 22.

(** [http_client(rpc_method, retry)] called on a request. *)
Definition http_client {I O} (rpc_method : MetricRpcMethod) (retry : bool)
    (outside : Outside I O) (req : HttpRequest (JsonRpcRequest I)) :
    M (RpcResult (HttpJsonRpcResponse O)) :=
  result ← (if retry then retry_call RETRY_FUEL rpc_method outside 0 req
            else observed_call rpc_method outside 0 req);
  mret (result_map_err RpcError_from_HttpClientError result).

(** ** The layers below: headers and conversions *)

Definition CONTENT_TYPE : string := "content-type".
(** [service_request_builder], around a service that returns the request it is given. *)
Definition service_request_builder `{!ConvertCrate} {I} (req : HttpRequest (JsonRpcRequest I)) :
  Result IcHttpRequest string :=
  let req := insert_request_header_if_not_present CONTENT_TYPE CONTENT_TYPE_VALUE req in
  let? req := json_request_convert req in
  http_request_convert req.

(** ** Raw JSON-RPC requests *)

Context `{RegexCrate} `{SerdeJson (JsonRpcRequest serde_Value)}.

Definition json_rpc_request_arg (service : ResolvedRpcService) (json_rpc_payload : string)
    (max_response_bytes : u64) : M (RpcResult (HttpRequest (JsonRpcRequest serde_Value))) :=
  let* body := mret (result_map_err (fun e =>
      RpcError.ValidationError (ValidationError.Custom ("Invalid JSON RPC request: " +:+ e)))
    (from_slice (T := JsonRpcRequest serde_Value) (bytes_of_string json_rpc_payload))) in
  override_provider ← get_override_provider;
  let* builder := ResolvedRpcService_post service override_provider in
  mret (result_map_err (fun e =>
      RpcError.ValidationError (ValidationError.Custom
        ("Invalid request: " +:+ http_Error_to_string e)))
    (Builder_body body
      (Builder_transform_context "__transform_json_rpc" []
        (Builder_max_response_bytes max_response_bytes builder)))).

Definition json_rpc_request (service : ResolvedRpcService) (json_rpc_payload : string)
    (max_response_bytes : u64) (outside : Outside serde_Value serde_Value) :
    M (RpcResult (HttpJsonRpcResponse serde_Value)) :=
  let* request := json_rpc_request_arg service json_rpc_payload max_response_bytes in
  http_client "request" false outside request.

(** ** Cycles *)

Record ChargingPolicyWithCollateral := { charge_user : bool; collateral_cycles : u128 }.
Definition ChargingPolicyWithCollateral_new (num_nodes_in_subnet : u32) (charge_user : bool)
    (collateral_cycles_per_node : u128) : ChargingPolicyWithCollateral :=
  let collateral_cycles := saturating_mul 128 collateral_cycles_per_node num_nodes_in_subnet in
  {| charge_user := charge_user; collateral_cycles := collateral_cycles |}.
Definition ChargingPolicyWithCollateral_default : M ChargingPolicyWithCollateral :=
  nodes ← get_num_subnet_nodes;
  demo ← is_demo_active;
  mret (ChargingPolicyWithCollateral_new nodes (negb demo) COLLATERAL_CYCLES_PER_NODE).
Definition cycles_to_charge (self : ChargingPolicyWithCollateral) (_request : IcHttpRequest)
    (attached_cycles : u128) : u128 :=
  if charge_user self then saturating_add 128 attached_cycles (collateral_cycles self) else 0.

(** ** The transformation of raw responses *)

(** [util::canonicalize_json]. *)
Definition canonicalize_json (text : list byte) : option (list byte) :=
  match from_slice (T := serde_Value) text with
  | Err _ => None
  | Ok json => Some (to_vec json)
  end.

Definition transform_http_request (args : TransformArgs) : IcHttpResponse :=
  let response := args_response args in
  {| resp_status := resp_status response;
     resp_body := default (resp_body response) (canonicalize_json (resp_body response));
     resp_headers := [] |}.
End Client.
Arguments answer {_ _ _ _ I O} _.
Arguments meanwhile {_ _ _ _ I O} _.

(** ** Termination of the retries *)

(** The documented behaviour of the policy: it retries a response that was too large, with
    a larger limit (twice the previous one, or the largest possible), and changes nothing
    else of the request. *)
Class RetryLaws `{CanhttpCrate} `{SerdeValue} `{!RetryPolicy} : Prop :=
  next_request_spec : forall {I O : Type} (req req' : HttpRequest (JsonRpcRequest I))
      (r : Result (HttpJsonRpcResponse O) HttpClientError),
    next_request req r = Some req' ->
    exists e n n',
      r = Err e /\ HttpClientError_is_response_too_large e = true /\
      req_max_response_bytes req = Some n /\ n < n' <= HTTP_MAX_SIZE /\
      (2 * n <= n' \/ n' = HTTP_MAX_SIZE) /\
      req' = {| req_uri := req_uri req; req_headers := req_headers req;
                req_max_response_bytes := Some n';
                req_transform_context := req_transform_context req;
                req_body := req_body req |}.

Section Retry.
Context `{TSM : TimedSizedMapApi SupportedRpcService unit} `{Canlog : CanlogCrate}.
Context `{Laws : RetryLaws} `{HttpCrate} {I O : Type}.
Implicit Types (req : HttpRequest (JsonRpcRequest I)) (outside : Outside I O).

(** The fuel is enough for the size that the request allows. *)
Definition enough_fuel (fuel : nat) req : Prop :=
  (1 <= fuel)%nat /\
  match req_max_response_bytes req with
  | None => True
  | Some n => HTTP_MAX_SIZE <= n * 2 ^ (Z.of_nat fuel - 1)
  end.

Definition allows_a_byte req : Prop :=
  match req_max_response_bytes req with Some n => 1 <= n | None => True end.

Lemma RETRY_FUEL_enough req : allows_a_byte req -> enough_fuel RETRY_FUEL req.
Proof.
  intros Hn. split; [unfold RETRY_FUEL; lia|]. unfold allows_a_byte in Hn.
  destruct (req_max_response_bytes req) as [n|]; [|done].
  change (2 ^ (Z.of_nat RETRY_FUEL - 1)) with 2097152. unfold HTTP_MAX_SIZE. lia.
Qed.

Lemma grow_enough (n n' P max : Z) :
  0 < P -> max <= n * (2 * P) -> 2 * n <= n' \/ n' = max -> 0 <= max -> max <= n' * P.
Proof. intros HP Hn [Hg| ->] Hmax; nia. Qed.

Lemma enough_fuel_next fuel req req' (r : Result (HttpJsonRpcResponse O) HttpClientError) :
  enough_fuel (S fuel) req -> next_request req r = Some req' -> enough_fuel fuel req'.
Proof.
  intros [_ Hn] (e & n & n' & -> & _ & En & Hlt & Hgrow & ->)%next_request_spec.
  rewrite En, Nat2Z.inj_succ, Z.sub_1_r, Z.pred_succ in Hn. unfold enough_fuel.
  cbn [req_max_response_bytes]. destruct fuel as [|fuel].
  - change (2 ^ Z.of_nat 0) with 1 in Hn. lia.
  - split; [lia|]. rewrite Nat2Z.inj_succ in *. rewrite Z.sub_1_r, Z.pred_succ.
    rewrite Z.pow_succ_r in Hn by lia.
    apply (grow_enough n); [apply Z.pow_pos_nonneg; lia|done..].
Qed.

Lemma observed_call_fuel method outside k req s :
  observed_call method outside k req s <> Panic OUT_OF_FUEL.
Proof.
  unfold observed_call, on_request, mbind, M_bind.
  destruct (uri_host (req_uri req)); [|by unfold panic]. simpl.
  destruct (answer outside k req) as [|[]]; simpl;
    unfold on_error, update_metrics, modify, mret, M_ret; try done; by destruct (is_response_too_large _).
Qed.

Lemma retry_call_enough fuel extra method outside k req s :
  enough_fuel fuel req ->
  retry_call (fuel + extra) method outside k req s = retry_call fuel method outside k req s /\
  retry_call fuel method outside k req s <> Panic OUT_OF_FUEL.
Proof.
  revert k req s. induction fuel as [|fuel IH]; intros k req s Hf; [by destruct Hf; lia|].
  cbn [Nat.add retry_call]. unfold mbind, M_bind.
  destruct (generate_request_id req s) as [[numbered s1]|msg] eqn:Eg; [|done].
  pose proof (observed_call_fuel method outside k numbered s1) as Ho.
  destruct (observed_call method outside k numbered s1) as [[result s2]|msg] eqn:Eo;
    [|split; congruence].
  destruct (next_request req result) as [req'|] eqn:En; [|done].
  apply IH. by eapply enough_fuel_next.
Qed.
End Retry.

(** Calling a provider ends: for a request that allows at least one byte, the 22 attempts
    of the model are enough. More of them change nothing, and they are never used up. *)
Theorem retry_call_terminates `{TimedSizedMapApi SupportedRpcService unit} `{CanlogCrate}
    `{RetryLaws} `{HttpCrate} {I O : Type} (extra : nat) (method : MetricRpcMethod)
    (outside : Outside I O) (k : nat) (req : HttpRequest (JsonRpcRequest I)) (s : CanisterState) :
  allows_a_byte req ->
  retry_call (RETRY_FUEL + extra) method outside k req s =
    retry_call RETRY_FUEL method outside k req s /\
  retry_call RETRY_FUEL method outside k req s <> Panic OUT_OF_FUEL.
Proof.
  intros Hn. by apply retry_call_enough, RETRY_FUEL_enough.
Qed.

(** ** Accounting *)

(** The sum of the counters of a map. *)
Definition total {K} `{Countable K} (m : gmap K u64) : Z := map_fold (fun _ v acc => v + acc) 0 m.

Section Accounting.
Context {K : Type} `{Countable K}.
Implicit Types m : gmap K u64.

Lemma total_insert_new k v m : m !! k = None -> total (<[k := v]> m) = v + total m.
Proof.
  intros Hk. unfold total. apply map_fold_insert_L; [|done]. intros. lia.
Qed.

(** A counter below its maximum grows by one, and the others do not change. *)
Lemma total_add_metric_entry k m :
  map_Forall (fun _ c => 0 <= c < 2 ^ 64 - 1) m ->
  total (add_metric_entry k 1 m) = total m + 1.
Proof.
  intros Hc. specialize (Hc k). unfold add_metric_entry. simpl. destruct (m !! k) as [c|] eqn:E.
  - rewrite wrap_small by (specialize (Hc c eq_refl); unfold in_range; lia).
    rewrite <- (insert_delete_id m k c E) at 2.
    rewrite <- insert_delete_eq.
    rewrite !total_insert_new by apply lookup_delete_eq. lia.
  - rewrite total_insert_new by done. lia.
Qed.
End Accounting.

(** No counter is at its maximum. *)
Definition counters_below_max (m : Metrics) : Prop :=
  map_Forall (fun _ c => 0 <= c < 2 ^ 64 - 1) (requests m) /\
  map_Forall (fun _ c => 0 <= c < 2 ^ 64 - 1) (responses m) /\
  map_Forall (fun _ c => 0 <= c < 2 ^ 64 - 1) (err_http_outcall m) /\
  map_Forall (fun _ c => 0 <= c < 2 ^ 64 - 1) (err_max_response_size_exceeded m).

(** The requests whose end is counted. *)
Definition total_ended (m : Metrics) : Z :=
  total (responses m) + total (err_http_outcall m) + total (err_max_response_size_exceeded m).

(** C24: an attempt that no other message interrupts counts one request, and its end is
    counted once, as a response or as one kind of error, unless the error is one that the
    client does not expect or a lack of cycles: then its end is not counted. *)
Theorem observed_call_accounting `{TimedSizedMapApi SupportedRpcService unit} `{CanlogCrate}
    `{CanhttpCrate} `{SerdeValue} `{HttpCrate} {I O : Type} (method : MetricRpcMethod)
    (outside : Outside I O) (k : nat) (req : HttpRequest (JsonRpcRequest I))
    (s s' : CanisterState) (r : Result (HttpJsonRpcResponse O) HttpClientError) :
  (forall t, meanwhile outside k t = t) ->
  counters_below_max (UNSTABLE_METRICS s) ->
  observed_call method outside k req s = Return (r, s') ->
  r = answer outside k req /\
  total (requests (UNSTABLE_METRICS s')) = total (requests (UNSTABLE_METRICS s)) + 1 /\
  total_ended (UNSTABLE_METRICS s') = total_ended (UNSTABLE_METRICS s) +
    match r with
    | Err (HttpClientError.NotHandledError _) | Err (HttpClientError.CyclesAccountingError _ _) => 0
    | _ => 1
    end.
Proof.
  intros Hm (Hreq & Hresp & Hout & Hmax). unfold observed_call, on_request.
  destruct (uri_host (req_uri req)) as [host|]; [|done].
  unfold mbind, M_bind, update_metrics, modify, mret, M_ret. rewrite Hm.
  destruct (answer outside k req) as [response|[]] eqn:Ea;
    cbn [on_response on_error]; unfold observe_response, update_metrics, modify;
    [| destruct (is_response_too_large e) | ..];
    intros [= <- <-]; unfold total_ended; cbn -[add_metric_entry];
    rewrite ?total_add_metric_entry by assumption;
    split_and!; try done; lia.
Qed.

(** C26: in demo mode nothing is charged. Otherwise the caller pays the cost of the outcall
    and a collateral of 10 million cycles per node of the subnet, up to the largest amount
    that can be represented; the collateral itself is always exact. *)
Theorem charging_policy `{TimedSizedMapApi SupportedRpcService unit} `{CanlogCrate}
    `{CanhttpCrate} (s : CanisterState) (request : IcHttpRequest) (cost : u128) :
  in_range 32 (NUM_SUBNET_NODES s) -> in_range 128 cost ->
  exists policy,
    ChargingPolicyWithCollateral_default s = Return (policy, s) /\
    collateral_cycles policy = 10000000 * NUM_SUBNET_NODES s /\
    in_range 128 (cycles_to_charge policy request cost) /\
    cycles_to_charge policy request cost =
      if IS_DEMO_ACTIVE s then 0
      else Z.min (cost + 10000000 * NUM_SUBNET_NODES s) (2 ^ 128 - 1).
Proof.
  intros Hn Hc. eexists. split; [done|].
  unfold cycles_to_charge, ChargingPolicyWithCollateral_new, collateral_cycles, charge_user.
  assert (E : saturating_mul 128 COLLATERAL_CYCLES_PER_NODE (NUM_SUBNET_NODES s) =
    10000000 * NUM_SUBNET_NODES s).
  { unfold saturating_mul, max_of, COLLATERAL_CYCLES_PER_NODE, in_range in *. lia. }
  rewrite E. split; [done|]. unfold saturating_add, max_of, in_range in *.
  destruct (IS_DEMO_ACTIVE s); cbn; lia.
Qed.

(** The transformation of a raw response removes the headers, which may differ between
    replicas, and rewrites a JSON body in canonical form: bodies with the same JSON value
    become equal, a body that is not JSON is kept, and a second transformation changes
    nothing. *)
Theorem transform_http_request_canonical `{SerdeValue} `{!SerdeJsonLaws serde_Value}
    (args : TransformArgs) (body : list byte) (v : serde_Value) :
  resp_headers (transform_http_request args) = [] /\
  resp_status (transform_http_request args) = resp_status (args_response args) /\
  (from_slice (resp_body (args_response args)) = Ok v -> from_slice body = Ok v ->
     Some (resp_body (transform_http_request args)) = canonicalize_json body) /\
  ((exists e, from_slice (T := serde_Value) (resp_body (args_response args)) = Err e) ->
     resp_body (transform_http_request args) = resp_body (args_response args)) /\
  transform_http_request {| args_response := transform_http_request args;
                            args_context := args_context args |} =
  transform_http_request args.
Proof.
  unfold transform_http_request, canonicalize_json. simpl.
  destruct (from_slice (T := serde_Value) (resp_body (args_response args))) as [w|e] eqn:E;
    simpl; split_and!; try done.
  - intros [= ->] ->. done.
  - by intros [].
  - by rewrite from_to_vec.
  - by rewrite E.
Qed.

(** ** The header of the content type *)

(** Names of headers do not distinguish capital letters. *)
Definition is_header (name : string) (h : HttpHeader) : bool :=
  String.eqb (to_ascii_lowercase (header_name h)) (to_ascii_lowercase name).
Definition is_content_type : HttpHeader -> bool := is_header CONTENT_TYPE.

(** What [tower_http] documents: a request that has the header is left alone, the others get
    it, and nothing else changes. *)
Class ConvertLaws `{ConvertCrate} := {
  header_present {B} name value (req : HttpRequest B) :
    existsb (is_header name) (req_headers req) = true ->
    insert_request_header_if_not_present name value req = req;
  header_absent {B} name value (req : HttpRequest B) :
    existsb (is_header name) (req_headers req) = false ->
    insert_request_header_if_not_present name value req =
    {| req_uri := req_uri req;
       req_headers := req_headers req ++ [{| header_name := name; header_value := value |}];
       req_max_response_bytes := req_max_response_bytes req;
       req_transform_context := req_transform_context req; req_body := req_body req |};
}.

(** Every request is sent with a content type: the one that the provider's configuration
    gives, in whatever letters, and otherwise exactly one more header, [application/json]; the
    URL, the other headers, the limit of the size, the transformation and the body are those
    of the request, and setting the header again changes nothing. *)
Theorem content_type_sent `{ConvertLaws} {B} (req : HttpRequest B) :
  let sent := insert_request_header_if_not_present CONTENT_TYPE CONTENT_TYPE_VALUE req in
  existsb is_content_type (req_headers sent) = true /\
  (existsb is_content_type (req_headers req) = true -> sent = req) /\
  (existsb is_content_type (req_headers req) = false ->
     List.filter is_content_type (req_headers sent) =
       [{| header_name := CONTENT_TYPE; header_value := CONTENT_TYPE_VALUE |}]) /\
  List.filter (fun h => negb (is_content_type h)) (req_headers sent) =
    List.filter (fun h => negb (is_content_type h)) (req_headers req) /\
  req_uri sent = req_uri req /\ req_max_response_bytes sent = req_max_response_bytes req /\
  req_transform_context sent = req_transform_context req /\ req_body sent = req_body req /\
  insert_request_header_if_not_present CONTENT_TYPE CONTENT_TYPE_VALUE sent = sent.
Proof.
  intros sent. unfold sent.
  destruct (existsb is_content_type (req_headers req)) eqn:E.
  - rewrite !(header_present CONTENT_TYPE CONTENT_TYPE_VALUE req E). by split_and!.
  - rewrite (header_absent CONTENT_TYPE CONTENT_TYPE_VALUE req E).
    rewrite header_present by (cbn [req_headers]; rewrite existsb_app; apply orb_true_r).
    cbn [req_headers]. rewrite existsb_app, E, !List.filter_app. simpl.
    assert (Hn : List.filter is_content_type (req_headers req) = []).
    { clear sent. induction (req_headers req) as [|h l IH]; [done|]. simpl in E |- *.
      apply orb_false_iff in E as [-> E]. by apply IH. }
    split_and!; try done; [by rewrite Hn|by rewrite app_nil_r].
Qed.

(** ** Concrete parameters and witnesses *)

Module HttpConcrete.
Import Instances.Concrete.

#[export] Instance canhttp_crate : CanhttpCrate := {
  is_response_too_large e := contains "too large" (ic_message e);
  inconsistent_id_to_string _ _ _ := "inconsistent id";
  IcHttpRequest := Z;
  cost_of_http_request nodes request := nodes * request;
  from_utf8_lossy _ := "body";
}.

#[export] Instance retry_policy : RetryPolicy := fun I O req r =>
  match r, req_max_response_bytes req with
  | Err e, Some n =>
      if HttpClientError_is_response_too_large e && (n <? HTTP_MAX_SIZE) then
        Some {| req_uri := req_uri req; req_headers := req_headers req;
                req_max_response_bytes := Some (Z.min (Z.max (2 * n) (n + 1)) HTTP_MAX_SIZE);
                req_transform_context := req_transform_context req; req_body := req_body req |}
      else None
  | _, _ => None
  end.
#[export] Instance retry_laws : RetryLaws.
Proof.
  intros I O req req' r. unfold next_request, retry_policy.
  destruct r as [|e]; [done|]. destruct (req_max_response_bytes req) as [n|]; [|done].
  destruct (HttpClientError_is_response_too_large e) eqn:Ee; [|done]. cbn [andb].
  destruct (Z.ltb_spec n HTTP_MAX_SIZE); [|done]. intros [= <-].
  exists e, n, (Z.min (Z.max (2 * n) (n + 1)) HTTP_MAX_SIZE).
  split_and!; [done..|lia|lia|lia|done].
Qed.

Definition ic_request : @IcHttpRequest _ canhttp_crate := 7.
(** Every request is converted to [ic_request]. *)
#[export] Instance convert_crate : ConvertCrate := {
  insert_request_header_if_not_present B name value req :=
    if existsb (is_header name) (req_headers req) then req
    else {| req_uri := req_uri req;
            req_headers := req_headers req ++ [{| header_name := name; header_value := value |}];
            req_max_response_bytes := req_max_response_bytes req;
            req_transform_context := req_transform_context req; req_body := req_body req |};
  json_request_convert I req := Ok {| req_uri := req_uri req; req_headers := req_headers req;
    req_max_response_bytes := req_max_response_bytes req;
    req_transform_context := req_transform_context req; req_body := [] |};
  http_request_convert _ := Ok ic_request;
}.
#[export] Instance convert_laws : ConvertLaws.
Proof. split; intros B name value req E; simpl; by rewrite E. Qed.

(** The outcall always fails with a response that is too large. *)
Definition too_large_outside : Outside serde_Value serde_Value := {|
  answer k req := Err (HttpClientError.IcError
    {| ic_code := RejectCode.SysFatal; ic_message := "response too large" |});
  meanwhile k s := s |}.
Definition raw_request : HttpRequest (JsonRpcRequest serde_Value) := {|
  req_uri := "https://example.com/path"; req_headers := [];
  req_max_response_bytes := Some 1; req_transform_context := None;
  req_body := {| request_method := "eth_call"; request_params := None; request_id := Id_ZERO |}
|}.
End HttpConcrete.

Section Witnesses.
Import Instances.Concrete HttpConcrete.

Lemma retry_call_terminates_witness :
  retry_call (RETRY_FUEL + 5) "request" too_large_outside 0 raw_request initial_state =
  retry_call RETRY_FUEL "request" too_large_outside 0 raw_request initial_state.
Proof.
  apply (retry_call_terminates 5 "request" too_large_outside 0 raw_request initial_state).
  simpl. unfold allows_a_byte; simpl; lia.
Defined.

Lemma observed_call_accounting_witness :
  exists r s', observed_call "request" too_large_outside 0 raw_request initial_state =
    Return (r, s') /\ total_ended (UNSTABLE_METRICS s') = 1.
Proof.
  eexists _, _. split; [reflexivity|].
  destruct (observed_call_accounting "request" too_large_outside 0 raw_request initial_state _ _
    ltac:(reflexivity) ltac:(split_and!; apply map_Forall_empty) ltac:(reflexivity))
    as (_ & _ & E).
  rewrite E. reflexivity.
Defined.

Lemma charging_policy_witness :
  exists policy, ChargingPolicyWithCollateral_default initial_state =
    Return (policy, initial_state) /\ cycles_to_charge policy ic_request 5 = 340000005.
Proof.
  destruct (charging_policy initial_state ic_request 5 ltac:(vm_compute; split; congruence)
    ltac:(vm_compute; split; congruence)) as (policy & E & _ & _ & Ec).
  exists policy. split; [exact E|]. rewrite Ec. reflexivity.
Defined.

Lemma transform_http_request_canonical_witness :
  let args := {| args_response := {| resp_status := 200; resp_headers := []; resp_body := [1] |};
                 args_context := [] |} in
  transform_http_request {| args_response := transform_http_request args; args_context := [] |} =
  transform_http_request args.
Proof.
  intros args.
  apply (@transform_http_request_canonical serde_value ltac:(done) args [1] [1]).
Defined.
End Witnesses.
