(* ===== verification/RpcClient.v ===== *)
(** The client that queries several providers ([src/rpc_client/mod.rs]): which providers are
    asked, how the requests are built and sent, and how the answers are reduced. *)

From S2P Require Import Prelude Collections EvmRpcTypes Externals Types Providers Memory.
From S2P Require Import ProviderApi Numbers Hex JsonTypes EthRpc Http.
From S2P Require Instances.
Open Scope Z_scope.
Open Scope canister_scope.

(** ** Networks and providers *)

Record EthereumNetwork := { network_0 : u64 }.
#[export] Instance EthereumNetwork_eq_dec : EqDecision EthereumNetwork.
Proof. solve_decision. Defined.
Definition EthereumNetwork_from (value : u64) : EthereumNetwork := {| network_0 := value |}.
Definition MAINNET : EthereumNetwork := {| network_0 := 1 |}.
Definition SEPOLIA : EthereumNetwork := {| network_0 := 11155111 |}.
Definition ARBITRUM : EthereumNetwork := {| network_0 := 42161 |}.
Definition BASE : EthereumNetwork := {| network_0 := 8453 |}.
Definition OPTIMISM : EthereumNetwork := {| network_0 := 10 |}.
Definition EthereumNetwork_chain_id (self : EthereumNetwork) : u64 := network_0 self.

(** [services] is the set in its iteration order. *)
Record Providers := { chain : EthereumNetwork; services : list RpcService }.

Definition DEFAULT_NUM_PROVIDERS_FOR_EQUALITY : nat := 3.

Definition map_services {T} (services : option (list T)) (f : T -> RpcService) :
  option (list RpcService) := option_map (map f) services.

Definition user_defined_providers (source : RpcServices) : option (list RpcService) :=
  match source with
  | RpcServices.Custom _ services => map_services (Some services) RpcService.Custom
  | RpcServices.EthMainnet services => map_services services RpcService.EthMainnet
  | RpcServices.EthSepolia services => map_services services RpcService.EthSepolia
  | RpcServices.ArbitrumOne services => map_services services RpcService.ArbitrumOne
  | RpcServices.BaseMainnet services => map_services services RpcService.BaseMainnet
  | RpcServices.OptimismMainnet services => map_services services RpcService.OptimismMainnet
  end.

Definition supported_providers (source : RpcServices) :
  EthereumNetwork * list SupportedRpcService :=
  match source with
  | RpcServices.Custom chain_id _ => (EthereumNetwork_from chain_id, [])
  | RpcServices.EthMainnet _ => (MAINNET, eth_mainnet)
  | RpcServices.EthSepolia _ => (SEPOLIA, eth_sepolia)
  | RpcServices.ArbitrumOne _ => (ARBITRUM, arbitrum_one)
  | RpcServices.BaseMainnet _ => (BASE, base_mainnet)
  | RpcServices.OptimismMainnet _ => (OPTIMISM, optimism_mainnet)
  end.

(** [len() as u8]. *)
Definition len_as_u8 {A} (l : list A) : u8 := wrap 8 (Z.of_nat (length l)).

Section Choose.
Context `{TSM : TimedSizedMapApi SupportedRpcService unit} `{Canlog : CanlogCrate}.
Context `{RustOrd HttpHeader}.

Definition choose_providers (user_input : option (list RpcService))
    (supported_providers : list SupportedRpcService) (strategy : ConsensusStrategy)
    (now : Timestamp) : M (Result (list RpcService) ProviderError) :=
  match strategy with
  | ConsensusStrategy.Equality =>
      input ← match user_input with
              | Some input => mret input
              | None =>
                  ranked ← rank_providers supported_providers now;
                  mret (map RpcService_from (take DEFAULT_NUM_PROVIDERS_FOR_EQUALITY ranked))
              end;
      mret (Ok (btree_from_iter input))
  | ConsensusStrategy.Threshold total min =>
      if min =? 0 then
        mret (Err (ProviderError.InvalidRpcConfig "min must be greater than 0"))
      else
        match user_input with
        | None =>
            match total with
            | None =>
                mret (Err (ProviderError.InvalidRpcConfig
                  "total must be specified when using default providers"))
            | Some total =>
                if total <? min then
                  mret (Err (ProviderError.InvalidRpcConfig
                    ("min " +:+ pretty min +:+ " is greater than total " +:+ pretty total)))
                else
                  let all_providers_len := length supported_providers in
                  if len_as_u8 supported_providers <? total then
                    mret (Err (ProviderError.InvalidRpcConfig
                      ("total " +:+ pretty total +:+
                       " is greater than the number of all supported providers " +:+
                       pretty all_providers_len)))
                  else
                    ranked ← rank_providers supported_providers now;
                    let providers :=
                      btree_from_iter (map RpcService_from (take (Z.to_nat total) ranked)) in
                    if (length providers =? Z.to_nat total)%nat then mret (Ok providers)
                    else panic "BUG: duplicate providers"
            end
        | Some providers =>
            if len_as_u8 providers <? min then
              mret (Err (ProviderError.InvalidRpcConfig
                ("min " +:+ pretty min +:+
                 " is greater than the number of specified providers " +:+
                 pretty (length providers))))
            else
              match total with
              | Some total =>
                  if negb (total =? len_as_u8 providers) then
                    mret (Err (ProviderError.InvalidRpcConfig
                      ("total " +:+ pretty total +:+
                       " is different than the number of specified providers " +:+
                       pretty (length providers))))
                  else mret (Ok (btree_from_iter providers))
              | None => mret (Ok (btree_from_iter providers))
              end
        end
  end.

Definition Providers_new (source : RpcServices) (strategy : ConsensusStrategy)
    (now : Timestamp) : M (Result Providers ProviderError) :=
  let '(chain, supported_providers) := supported_providers source in
  let user_input := user_defined_providers source in
  let* providers := choose_providers user_input supported_providers strategy now in
  mret match providers with
       | [] => Err ProviderError.ProviderNotFound
       | _ => Ok {| chain := chain; services := providers |}
       end.

(** ** The client *)

Record EthRpcClient := { providers : Providers; config : RpcConfig }.

Definition EthRpcClient_new (source : RpcServices) (config : option RpcConfig)
    (now : Timestamp) : M (Result EthRpcClient ProviderError) :=
  let config := default RpcConfig_default config in
  let strategy := default ConsensusStrategy.ConsensusStrategy_default
    (response_consensus config) in
  let* providers := Providers_new source strategy now in
  mret (Ok {| providers := providers; config := config |}).

Definition EthRpcClient_chain (self : EthRpcClient) : EthereumNetwork := chain (providers self).
Definition EthRpcClient_providers (self : EthRpcClient) : list RpcService :=
  services (providers self).

Definition response_size_estimate_or (self : EthRpcClient) (estimate : u64) :
  Outcome ResponseSizeEstimate :=
  ResponseSizeEstimate_new (default estimate (response_size_estimate (config self))).

Inductive ReductionStrategy := ByEquality | ByThreshold (min : u8).
Definition ReductionStrategy_from (value : ConsensusStrategy) : ReductionStrategy :=
  match value with
  | ConsensusStrategy.Equality => ByEquality
  | ConsensusStrategy.Threshold _ min => ByThreshold min
  end.

Definition consensus_strategy (self : EthRpcClient) : ReductionStrategy :=
  ReductionStrategy_from
    (default ConsensusStrategy.ConsensusStrategy_default (response_consensus (config self))).

Context `{JsonRpcId} `{SerdeValue} `{HttpCrate} `{RegexCrate} `{MinicborCrate}.
Context `{MR : MultiResultsApi RpcService}.

Definition MultiCallResults (O : Type) : Type := MultiResults O RpcError.
Definition ReducedResult (O : Type) : Type := Result O (ReductionError RpcService O RpcError).

Definition ReductionStrategy_reduce {O} `{!ReduceApi RpcService O RpcError}
    (self : ReductionStrategy) (results : MultiCallResults O) : ReducedResult O :=
  match self with
  | ByEquality => reduce_with_equality results
  | ByThreshold min => reduce_with_threshold min results
  end.

(** The world outside during a parallel call, once every call was polled for the first time:
    the end of each call (of [http_client(method, true)], with its retries), the changes made
    to the canister's state from then on, by the rest of the calls and by other messages, and
    the time at which the method goes on. The calls go on without traps (Interleaving.v): a
    retry keeps the URL of the request, whose host the first attempt has read. *)
Record World (I O : Type) := {
  outcall : RpcService -> HttpRequest (JsonRpcRequest I) -> RpcResult (HttpJsonRpcResponse O);
  during_await : CanisterState -> CanisterState;
  resumed_at : Timestamp;
}.
Arguments outcall {I O} _.
Arguments during_await {I O} _.
Arguments resumed_at {I O} _.

(** The request for one provider. *)
Definition provider_request {I} (method : string) (params : I) (transform_op : list byte)
    (effective_size_estimate : u64) (provider : RpcService) :
    M (RpcResult (HttpRequest (JsonRpcRequest I))) :=
  builder ← (let* rpc_service :=
               mret (result_map_err RpcError.ProviderError (resolve_rpc_service provider)) in
             override_provider ← get_override_provider;
             ResolvedRpcService_post rpc_service override_provider);
  match builder with
  | Err e => mret (Err e)
  | Ok builder =>
      match Builder_body (JsonRpcRequest_new method params)
              (Builder_transform_context "cleanup_response" transform_op
                (Builder_max_response_bytes effective_size_estimate builder)) with
      | Ok request => mret (Ok request)
      | Err _ => panic "BUG: invalid request"
      end
  end.

Fixpoint build_requests {I} (request : RpcService -> M (RpcResult (HttpRequest I)))
    (providers : list RpcService) (requests : MultiResults (HttpRequest I) RpcError) :
    M (MultiResults (HttpRequest I) RpcError) :=
  match providers with
  | [] => mret requests
  | provider :: providers =>
      r ← request provider;
      requests ← lift_outcome (mr_insert_once provider r requests);
      build_requests request providers requests
  end.

(** [map_result]: the value or the error of the JSON-RPC response. *)
Definition json_rpc_value {O} (r : RpcResult (HttpJsonRpcResponse O)) : RpcResult O :=
  let? response := r in
  match response_result (http_body response) with
  | Ok value => Ok value
  | Err json_rpc_error =>
      Err (RpcError.JsonRpcError {| EvmRpcTypes.code := error_code json_rpc_error;
                                    EvmRpcTypes.message := error_message json_rpc_error |})
  end.

(** The first poll of a call, up to the wait for its outcall: the request gets its id, and the
    observability layer reads the host of its URL and counts it. *)
Definition start_call {I} (method : MetricRpcMethod) (request : HttpRequest (JsonRpcRequest I)) :
  M unit :=
  numbered ← generate_request_id request;
  on_request method numbered ;;
  mret ().

Definition start_calls {I} (method : MetricRpcMethod)
    (requests : list (RpcService * HttpRequest (JsonRpcRequest I))) : M unit :=
  for_each requests (fun '(_, request) => start_call method request).

Definition parallel_call {I O} `{HttpResponsePayload O} (self : EthRpcClient)
    (method : string) (params : I) (response_size_estimate : ResponseSizeEstimate)
    (world : World I O) : M (MultiCallResults O) :=
  let providers := EthRpcClient_providers self in
  let transform_op := default [] (option_map minicbor_encode (response_transform (T := O))) in
  let effective_size_estimate := ResponseSizeEstimate_get response_size_estimate in
  requests ← build_requests
    (provider_request method params transform_op effective_size_estimate) providers mr_default;
  let '(requests, errors) := mr_into_inner requests in
  start_calls method requests ;;
  modify (during_await world) ;;
  let results := mr_parallel_call
    (fun provider request => json_rpc_value (outcall world provider request)) requests in
  let results := mr_add_errors errors results in
  let now := resumed_at world in
  for_each (omap SupportedRpcService_new (map fst (mr_ok_results results)))
    (fun service => record_ok_result service now) ;;
  if (mr_len results =? length providers)%nat then mret results
  else panic "BUG: expected 1 result per provider".

(** ** The methods *)

Section Methods.
Context `{!ReduceApi RpcService (list LogEntry) RpcError}.
Context `{!ReduceApi RpcService Block RpcError}.
Context `{!ReduceApi RpcService (option TransactionReceipt) RpcError}.
Context `{!ReduceApi RpcService FeeHistory RpcError}.
Context `{!ReduceApi RpcService SendRawTransactionResult RpcError}.
Context `{!ReduceApi RpcService TransactionCount RpcError}.
Context `{!ReduceApi RpcService Data RpcError}.

Definition eth_get_logs (self : EthRpcClient) (params : GetLogsParam)
    (world : World (list GetLogsParam) (list LogEntry)) : M (ReducedResult (list LogEntry)) :=
  estimate ← lift_outcome (response_size_estimate_or self (1024 + HEADER_SIZE_LIMIT));
  results ← parallel_call self "eth_getLogs" [params] estimate world;
  mret (ReductionStrategy_reduce (consensus_strategy self) results).

Definition eth_get_block_by_number (self : EthRpcClient) (block : BlockSpec)
    (world : World GetBlockByNumberParams Block) : M (ReducedResult Block) :=
  let expected_block_size :=
    if bool_decide (EthRpcClient_chain self = SEPOLIA) then 12 * 1024
    else if bool_decide (EthRpcClient_chain self = MAINNET) then 24 * 1024
    else 24 * 1024 in
  estimate ← lift_outcome
    (response_size_estimate_or self (expected_block_size + HEADER_SIZE_LIMIT));
  results ← parallel_call self "eth_getBlockByNumber"
    {| GetBlockByNumberParams.block := block;
       GetBlockByNumberParams.include_full_transactions := false |} estimate world;
  mret (ReductionStrategy_reduce (consensus_strategy self) results).

Definition eth_get_transaction_receipt (self : EthRpcClient) (tx_hash : Hash)
    (world : World (list Hash) (option TransactionReceipt)) :
    M (ReducedResult (option TransactionReceipt)) :=
  estimate ← lift_outcome (response_size_estimate_or self (700 + HEADER_SIZE_LIMIT));
  results ← parallel_call self "eth_getTransactionReceipt" [tx_hash] estimate world;
  mret (ReductionStrategy_reduce (consensus_strategy self) results).

Definition eth_fee_history (self : EthRpcClient) (params : FeeHistoryParams)
    (world : World FeeHistoryParams FeeHistory) : M (ReducedResult FeeHistory) :=
  estimate ← lift_outcome (response_size_estimate_or self (512 + HEADER_SIZE_LIMIT));
  results ← parallel_call self "eth_feeHistory" params estimate world;
  mret (ReductionStrategy_reduce (consensus_strategy self) results).

Definition eth_send_raw_transaction (self : EthRpcClient) (raw_signed_transaction_hex : string)
    (world : World (list string) SendRawTransactionResult) :
    M (ReducedResult SendRawTransactionResult) :=
  estimate ← lift_outcome (response_size_estimate_or self (256 + HEADER_SIZE_LIMIT));
  results ← parallel_call self "eth_sendRawTransaction" [raw_signed_transaction_hex] estimate
    world;
  mret (ReductionStrategy_reduce (consensus_strategy self) results).

Definition eth_get_transaction_count (self : EthRpcClient) (params : GetTransactionCountParams)
    (world : World GetTransactionCountParams TransactionCount) :
    M (ReducedResult TransactionCount) :=
  estimate ← lift_outcome (response_size_estimate_or self (50 + HEADER_SIZE_LIMIT));
  results ← parallel_call self "eth_getTransactionCount" params estimate world;
  mret (ReductionStrategy_reduce (consensus_strategy self) results).

Definition eth_call (self : EthRpcClient) (params : EthCallParams)
    (world : World EthCallParams Data) : M (ReducedResult Data) :=
  estimate ← lift_outcome (response_size_estimate_or self (256 + HEADER_SIZE_LIMIT));
  results ← parallel_call self "eth_call" params estimate world;
  mret (ReductionStrategy_reduce (consensus_strategy self) results).
End Methods.
End Choose.
Arguments outcall {_ _ _ _ I O} _.
Arguments during_await {_ _ _ _ I O} _.
Arguments resumed_at {_ _ _ _ I O} _.
