(* ===== verification/ProviderChoice.v ===== *)
(** Which providers a call asks: properties of [choose_providers] and [Providers::new]
    (RpcClient.v). *)

From S2P Require Import Prelude Collections EvmRpcTypes Externals Types Providers Memory.
From S2P Require Import RpcClient.
From S2P Require Instances.
Open Scope Z_scope.

(** The lists of supported services that the canister has. *)
Definition is_supported_list (l : list SupportedRpcService) : Prop :=
  l ∈ [eth_mainnet; eth_sepolia; arbitrum_one; base_mainnet; optimism_mainnet].

Lemma is_supported_list_spec l :
  is_supported_list l -> NoDup l /\ (5 <= length l <= 6)%nat /\
  len_as_u8 l = Z.of_nat (length l).
Proof.
  intros Hl. unfold is_supported_list in Hl. set_unfold.
  destruct Hl as [->|[->|[->|[->|[->|[]]]]]];
    (split_and!; [apply (bool_decide_unpack _); by vm_compute|simpl; lia|simpl; lia|done]).
Qed.

Section Choose.
Context `{Laws : TimedSizedMapLaws SupportedRpcService unit} `{Canlog : CanlogCrate}.
Context `{OrdLaws : RustOrdLaws HttpHeader}.

#[local] Instance RpcService_from_inj' : Inj (=) (=) RpcService_from := RpcService_from_inj.

(** The services in the order of the ranking, and the state after it. *)
Definition ranking (l : list SupportedRpcService) (now : Timestamp) (s : CanisterState) :
  list SupportedRpcService := (rank_ascending_evict
    (UNSTABLE_RPC_SERVICE_OK_RESULTS_TIMESTAMPS s) l now).1.
Definition after_ranking (l : list SupportedRpcService) (now : Timestamp) (s : CanisterState) :
  CanisterState := set_usage (rank_ascending_evict
    (UNSTABLE_RPC_SERVICE_OK_RESULTS_TIMESTAMPS s) l now).2 s.

Lemma rank_providers_eq l now s :
  rank_providers l now s = Return (ranking l now s, after_ranking l now s).
Proof. unfold rank_providers, ranking, after_ranking. by destruct (rank_ascending_evict _ l now). Qed.

Lemma ranking_Permutation l now s : ranking l now s ≡ₚ l.
Proof. apply rank_Permutation. Qed.

(** The first services of the ranking, as a set. *)
Definition best (k : nat) (l : list SupportedRpcService) (now : Timestamp) (s : CanisterState) :
  list RpcService := btree_from_iter (map RpcService_from (take k (ranking l now s))).

Lemma best_NoDup k l now s :
  NoDup l -> NoDup (map RpcService_from (take k (ranking l now s))).
Proof.
  intros Hl. apply NoDup_fmap; [apply _|].
  eapply sublist_NoDup; [|apply sublist_take]. by rewrite ranking_Permutation.
Qed.

Lemma best_length k l now s :
  NoDup l -> (k <= length l)%nat -> length (best k l now s) = k.
Proof.
  intros Hl Hk. unfold best. rewrite length_btree_from_iter by by apply best_NoDup.
  rewrite length_map, length_take, (Permutation_length (ranking_Permutation l now s)). lia.
Qed.

Lemma elem_of_best x k l now s :
  x ∈ best k l now s <-> exists y, x = RpcService_from y /\ y ∈ take k (ranking l now s).
Proof.
  unfold best. rewrite elem_of_btree_from_iter.
  change (map RpcService_from ?m) with (RpcService_from <$> m).
  rewrite list_elem_of_fmap. done.
Qed.

(** A chosen service has at least as many recent successes as one that was not chosen. *)
Lemma best_most_successful k l now s (y z : SupportedRpcService) :
  NoDup l -> RpcService_from y ∈ best k l now s -> z ∈ l ->
  RpcService_from z ∉ best k l now s ->
  num_elements (UNSTABLE_RPC_SERVICE_OK_RESULTS_TIMESTAMPS (after_ranking l now s)) z <=
  num_elements (UNSTABLE_RPC_SERVICE_OK_RESULTS_TIMESTAMPS (after_ranking l now s)) y.
Proof.
  intros Hl Hy Hz Hnz.
  apply elem_of_best in Hy as (y' & Ey & Hy). apply RpcService_from_inj in Ey as <-.
  assert (Hzd : z ∈ drop k (ranking l now s)).
  { rewrite <- (ranking_Permutation l now s), <- (take_drop k (ranking l now s)) in Hz.
    apply elem_of_app in Hz as [Hz|Hz]; [|done].
    contradict Hnz. apply elem_of_best. eauto. }
  unfold after_ranking, ranking in *.
  pose proof (rank_sorted (UNSTABLE_RPC_SERVICE_OK_RESULTS_TIMESTAMPS s) l now) as Hs.
  destruct (rank_ascending_evict _ l now) as [ranked u]. simpl in *.
  rewrite <- (take_drop k ranked) in Hs.
  rewrite StronglySorted_app in Hs. destruct Hs as (Hs & _ & _).
  exact (Hs y z Hy Hzd).
Qed.

(** What a choice by threshold among the default providers gives, in each case. *)
Lemma choose_default_threshold l total min now s :
  is_supported_list l -> 0 <= min < 256 -> (forall t, total = Some t -> 0 <= t < 256) ->
  match choose_providers None l (ConsensusStrategy.Threshold total min) now s with
  | Return (Ok set, s') =>
      exists t, total = Some t /\ 0 < min <= t /\ t <= Z.of_nat (length l) /\
        set = best (Z.to_nat t) l now s /\ length set = Z.to_nat t /\
        s' = after_ranking l now s
  | Return (Err (ProviderError.InvalidRpcConfig _), s') =>
      s' = s /\ ~ exists t, total = Some t /\ 0 < min <= t /\ t <= Z.of_nat (length l)
  | _ => False
  end.
Proof.
  intros (Hnd & Hlen & Hu8)%is_supported_list_spec Hmin Htotal. unfold choose_providers.
  destruct (Z.eqb_spec min 0); [split; [done|]; intros (t & _ & ? & _); lia|].
  destruct total as [t|]; [|split; [done|]; by intros (? & ? & _)].
  specialize (Htotal t eq_refl).
  destruct (Z.ltb_spec t min); [split; [done|]; intros (? & [= ->] & ? & _); lia|].
  rewrite Hu8. destruct (Z.ltb_spec (Z.of_nat (length l)) t);
    [split; [done|]; intros (? & [= ->] & _ & ?); lia|].
  unfold mbind, M_bind. rewrite rank_providers_eq.
  change (btree_from_iter _) with (best (Z.to_nat t) l now s).
  rewrite (best_length (Z.to_nat t) l now s Hnd) by lia. rewrite Nat.eqb_refl. simpl.
  exists t. split_and!; try done; try lia. apply best_length; [done|lia].
Qed.

Lemma choose_user_threshold l user total min now s :
  0 <= min < 256 ->
  match choose_providers (Some user) l (ConsensusStrategy.Threshold total min) now s with
  | Return (Ok set, s') =>
      s' = s /\ set = btree_from_iter user /\ 0 < min <= len_as_u8 user /\
      (total = None \/ total = Some (len_as_u8 user))
  | Return (Err (ProviderError.InvalidRpcConfig _), s') =>
      s' = s /\ ~ (0 < min <= len_as_u8 user /\
                   (total = None \/ total = Some (len_as_u8 user)))
  | _ => False
  end.
Proof.
  intros Hmin. unfold choose_providers.
  destruct (Z.eqb_spec min 0); [split; [done|]; intros [? _]; lia|].
  destruct (Z.ltb_spec (len_as_u8 user) min); [split; [done|]; intros [? _]; lia|].
  destruct total as [t|]; [|split_and!; try done; [lia|by left]].
  destruct (Z.eqb_spec t (len_as_u8 user)) as [->|Ht]; simpl.
  - split_and!; try done; [lia|by right].
  - split; [done|]. intros (_ & [E|E]); congruence.
Qed.

Lemma choose_equality l user now s :
  choose_providers user l ConsensusStrategy.Equality now s =
  match user with
  | Some user => Return (Ok (btree_from_iter user), s)
  | None => Return (Ok (best 3 l now s), after_ranking l now s)
  end.
Proof.
  unfold choose_providers, mbind, M_bind. destruct user as [user|]; [done|].
  by rewrite rank_providers_eq.
Qed.
End Choose.

Section Properties.
Context `{Laws : TimedSizedMapLaws SupportedRpcService unit} `{Canlog : CanlogCrate}.
Context `{OrdLaws : RustOrdLaws HttpHeader}.


(** C12: a list of providers given by the caller, without repetitions and with fewer than 256
    entries, is used as it is. With a threshold it is accepted exactly when [0 < min] and
    [min] is at most its length, and the optional [total] is its length: the threshold can
    then be reached by different providers. *)
Theorem user_selection (l : list SupportedRpcService) (user : list RpcService)
    (strategy : ConsensusStrategy) (now : Timestamp) (s : CanisterState) :
  NoDup user -> Z.of_nat (length user) < 256 ->
  match strategy with
  | ConsensusStrategy.Threshold total min => in_range 8 min
  | ConsensusStrategy.Equality => True
  end ->
  match choose_providers (Some user) l strategy now s with
  | Return (Ok set, s') =>
      s' = s /\ set ≡ₚ user /\
      match strategy with
      | ConsensusStrategy.Threshold total min =>
          0 < min <= Z.of_nat (length set) /\
          (total = None \/ total = Some (Z.of_nat (length set)))
      | ConsensusStrategy.Equality => True
      end
  | Return (Err _, s') =>
      s' = s /\ exists total min, strategy = ConsensusStrategy.Threshold total min /\
        ~ (0 < min <= Z.of_nat (length user) /\
           (total = None \/ total = Some (Z.of_nat (length user))))
  | Panic _ => False
  end.
Proof.
  intros Hnd Hlen Hmin.
  assert (Hu8 : len_as_u8 user = Z.of_nat (length user)).
  { apply wrap_small. unfold in_range. lia. }
  destruct strategy as [|total min].
  - rewrite choose_equality. split_and!; try done. by apply btree_from_iter_Permutation.
  - pose proof (choose_user_threshold l user total min now s Hmin) as Hc.
    destruct (choose_providers (Some user) l _ now s) as [[[set|[]] s']|msg]; try done.
    + destruct Hc as (-> & -> & Hm & Ht).
      rewrite Hu8 in *. rewrite btree_from_iter_Permutation by done. done.
    + destruct Hc as [-> Hc]. rewrite Hu8 in *. eauto 10.
Qed.

(** Outside of these limits the checks do not mean what they say. A service repeated [n]
    times passes as [n] providers, so that a threshold of [n] is accepted although a single
    provider is asked; and 256 different providers count as none, so that every threshold
    is refused. *)
Theorem user_selection_limits (l : list SupportedRpcService) (x : RpcService) (n : nat)
    (user : list RpcService) (total : option u8) (min : u8) (now : Timestamp)
    (s : CanisterState) :
  (1 <= n <= 255)%nat -> length user = 256%nat -> in_range 8 min ->
  choose_providers (Some (replicate n x)) l
    (ConsensusStrategy.Threshold (Some (Z.of_nat n)) (Z.of_nat n)) now s = Return (Ok [x], s) /\
  exists e, choose_providers (Some user) l (ConsensusStrategy.Threshold total min) now s =
    Return (Err e, s).
Proof.
  intros Hn Hlen Hmin. split.
  - pose proof (choose_user_threshold l (replicate n x) (Some (Z.of_nat n)) (Z.of_nat n) now s
      ltac:(lia)) as Hc.
    assert (Hu8 : len_as_u8 (replicate n x) = Z.of_nat n).
    { unfold len_as_u8. rewrite length_replicate. apply wrap_small. unfold in_range. lia. }
    destruct (choose_providers (Some (replicate n x)) l _ now s) as [[[set|[]] s']|msg];
      try done.
    + destruct Hc as (-> & -> & _). do 3 f_equal.
      apply sorted_ext; [apply btree_from_iter_sorted|repeat constructor|].
      intros y. rewrite elem_of_btree_from_iter, elem_of_replicate, list_elem_of_singleton.
      split; [by intros []|]. intros ->. split; [done|lia].
    + destruct Hc as [_ Hc]. contradict Hc. rewrite Hu8. split; [lia|by right].
  - pose proof (choose_user_threshold l user total min now s Hmin) as Hc.
    assert (Hu8 : len_as_u8 user = 0) by (unfold len_as_u8; by rewrite Hlen).
    destruct (choose_providers (Some user) l _ now s) as [[[set|[]] s']|msg]; try done.
    + destruct Hc as (_ & _ & Hm & _). lia.
    + destruct Hc as [-> _]. eauto.
Qed.

(** The services that a source of providers can lead to. *)
Definition belongs_to (source : RpcServices) (x : RpcService) : Prop :=
  match source with
  | RpcServices.Custom _ services => exists api, x = RpcService.Custom api /\ api ∈ services
  | _ => get_known_chain_id x = Some (network_0 (supported_providers source).1)
  end.

Lemma user_belongs_to source user x :
  user_defined_providers source = Some user -> x ∈ user -> belongs_to source x.
Proof.
  destruct source as [c api|[v|]|[v|]|[v|]|[v|]|[v|]]; simpl; try done; intros [= <-] Hx;
    apply list_elem_of_In, in_map_iff in Hx as (y & <- & Hy); try done.
  exists y. split; [done|]. by apply list_elem_of_In.
Qed.

Lemma supported_belongs_to source y :
  y ∈ (supported_providers source).2 -> belongs_to source (RpcService_from y).
Proof.
  intros Hy. assert (Hb : forallb (fun y => bool_decide
    (get_known_chain_id (RpcService_from y) = Some (network_0 (supported_providers source).1)))
    (supported_providers source).2 = true) by by destruct source.
  rewrite forallb_forall in Hb.
  assert (Hin := proj1 (list_elem_of_In _ _) Hy).
  apply Hb, bool_decide_eq_true in Hin. destruct source; [by inversion Hy|exact Hin..].
Qed.

(** Each chosen provider comes from the caller's list or from the supported ones. *)
Lemma chosen_belongs_to source strategy now s set s' x :
  choose_providers (user_defined_providers source) (supported_providers source).2 strategy now s =
    Return (Ok set, s') ->
  x ∈ set -> belongs_to source x.
Proof.
  assert (Hr : forall l k, x ∈ map RpcService_from (take k (ranking l now s)) ->
    l = (supported_providers source).2 -> belongs_to source x).
  { intros l k Hx ->. apply list_elem_of_In, in_map_iff in Hx as (y & <- & Hy).
    apply supported_belongs_to. rewrite <- (ranking_Permutation _ now s).
    eapply elem_of_take_inv. by apply list_elem_of_In. }
  assert (Hu : forall u, user_defined_providers source = Some u ->
    x ∈ btree_from_iter u -> belongs_to source x).
  { intros u Eu Hx. rewrite elem_of_btree_from_iter in Hx. eauto using user_belongs_to. }
  unfold choose_providers, mbind, M_bind, mret, M_ret, panic.
  intros E Hx. destruct strategy as [|total min].
  - destruct (user_defined_providers source) as [u|] eqn:Eu.
    + injection E as <- <-. eauto.
    + rewrite rank_providers_eq in E. injection E as <- <-.
      rewrite elem_of_btree_from_iter in Hx. eauto.
  - destruct (min =? 0); [done|].
    destruct (user_defined_providers source) as [u|] eqn:Eu.
    + repeat case_match; simplify_eq; eauto.
    + destruct total as [t|]; [|done]. destruct (t <? min); [done|].
      destruct (len_as_u8 _ <? t); [done|]. rewrite rank_providers_eq in E.
      destruct (_ =? _)%nat; [|done]. injection E as <- <-.
      rewrite elem_of_btree_from_iter in Hx. eauto.
Qed.

Lemma choose_sorted user l strategy now s set s' :
  choose_providers user l strategy now s = Return (Ok set, s') ->
  StronglySorted rlt set.
Proof.
  unfold choose_providers, mbind, M_bind, mret, M_ret, panic. intros E.
  repeat case_match; simplify_eq; apply btree_from_iter_sorted.
Qed.

(** Choosing changes the record of recent successes only, and only when it ranks. *)
Lemma choose_state user l strategy now s r s' :
  choose_providers user l strategy now s = Return (r, s') ->
  s' = s \/ s' = after_ranking l now s.
Proof.
  unfold choose_providers, mbind, M_bind, mret, M_ret, panic. intros E.
  destruct strategy as [|total min]; destruct user as [user|];
    rewrite ?rank_providers_eq in E; try (injection E as <- <-; auto);
    repeat (case_match; simplify_eq; auto).
  all: match goal with E : rank_providers _ _ _ = _ |- _ => rewrite rank_providers_eq in E end;
    simplify_eq; auto.
Qed.

(** The widths of the numbers in a strategy. *)
Definition strategy_in_range (strategy : ConsensusStrategy) : Prop :=
  match strategy with
  | ConsensusStrategy.Equality => True
  | ConsensusStrategy.Threshold total min =>
      in_range 8 min /\ forall t, total = Some t -> in_range 8 t
  end.

Lemma choose_no_panic source strategy now s msg :
  strategy_in_range strategy ->
  choose_providers (user_defined_providers source) (supported_providers source).2 strategy now s
    <> Panic msg.
Proof.
  intros Hs E. destruct (user_defined_providers source) as [user|] eqn:Eu;
    destruct strategy as [|total min]; rewrite ?choose_equality in E; try done.
  - destruct Hs as [Hmin _].
    pose proof (choose_user_threshold (supported_providers source).2 user total min now s Hmin)
      as Hc. by rewrite E in Hc.
  - destruct Hs as [Hmin Ht].
    assert (Hl : is_supported_list (supported_providers source).2).
    { unfold is_supported_list. destruct source; simpl; [done|set_solver..]. }
    pose proof (choose_default_threshold _ total min now s Hl Hmin Ht) as Hc.
    by rewrite E in Hc.
Qed.

(** An empty choice is possible only for an empty list of the caller. *)
Lemma choose_empty source strategy now s s' :
  strategy_in_range strategy ->
  choose_providers (user_defined_providers source) (supported_providers source).2 strategy now s
    = Return (Ok [], s') <->
  s' = s /\ user_defined_providers source = Some [] /\ strategy = ConsensusStrategy.Equality.
Proof.
  intros Hs. split; [|intros (-> & -> & ->); by rewrite choose_equality].
  intros E. destruct (user_defined_providers source) as [user|] eqn:Eu;
    destruct strategy as [|total min]; rewrite ?choose_equality in E.
  - injection E as E1 <-. by apply btree_from_iter_nil_inv in E1 as ->.
  - destruct Hs as [Hmin _].
    pose proof (choose_user_threshold (supported_providers source).2 user total min now s Hmin)
      as Hc. rewrite E in Hc. destruct Hc as (_ & Hu & Hm & _).
    symmetry in Hu. apply btree_from_iter_nil_inv in Hu as ->.
    change (len_as_u8 []) with 0 in Hm. lia.
  - injection E as E1 <-. exfalso.
    assert (Hlen : (3 <= length (supported_providers source).2)%nat /\
      NoDup (supported_providers source).2).
    { destruct source; try done; (split; [simpl; lia|]); by_compute. }
    pose proof (best_length 3 _ now s (proj2 Hlen) (proj1 Hlen)) as Hb. by rewrite E1 in Hb.
  - destruct Hs as [Hmin Ht].
    assert (Hl : is_supported_list (supported_providers source).2).
    { unfold is_supported_list. destruct source; simpl; [done|set_solver..]. }
    pose proof (choose_default_threshold _ total min now s Hl Hmin Ht) as Hc.
    rewrite E in Hc. destruct Hc as (t & _ & Hm & _ & _ & Hz & _). simpl in Hz. lia.
Qed.

(** C10: a client always has providers to ask: they are a non-empty set in increasing order,
    they belong to the chain of the source (and to the caller's list, when it is a custom
    one), and nothing but the record of recent successes changes. The choice never panics,
    and fails with [ProviderNotFound] exactly for an empty list without a threshold. *)
Theorem providers_new_invariant (source : RpcServices) (strategy : ConsensusStrategy)
    (now : Timestamp) (s : CanisterState) :
  strategy_in_range strategy ->
  match Providers_new source strategy now s with
  | Return (r, s') =>
      (s' = s \/ s' = after_ranking (supported_providers source).2 now s) /\
      match r with
      | Ok p =>
          services p <> [] /\ StronglySorted rlt (services p) /\
          chain p = (supported_providers source).1 /\ Forall (belongs_to source) (services p)
      | Err e =>
          e = ProviderError.ProviderNotFound <->
            user_defined_providers source = Some [] /\ strategy = ConsensusStrategy.Equality
      end
  | Panic _ => False
  end.
Proof.
  intros Hs. unfold Providers_new. destruct (supported_providers source) as [net l] eqn:El.
  unfold M_and_then, mbind, M_bind.
  pose proof (choose_no_panic source strategy now s) as Hp.
  pose proof (fun s' => choose_empty source strategy now s s' Hs) as He.
  pose proof (chosen_belongs_to source strategy now s) as Hb.
  rewrite El in *. simpl in *.
  destruct (choose_providers (user_defined_providers source) l strategy now s)
    as [[r s']|msg] eqn:E; [|by destruct (Hp msg)].
  pose proof (choose_state _ _ _ _ _ _ _ E) as Hst.
  destruct r as [[|x set]|e]; unfold mret, M_ret.
  - split; [done|]. split; [|done]. intros _.
    destruct (proj1 (He s') eq_refl) as (_ & ? & ?). done.
  - split; [done|]. split_and!; [done| |done|].
    + by eapply choose_sorted.
    + apply Forall_forall. intros y Hy. by eapply Hb.
  - split; [done|]. split.
    + intros ->. exfalso. destruct strategy as [|total min].
      * rewrite choose_equality in E. by destruct (user_defined_providers source).
      * unfold choose_providers, mbind, M_bind, mret, M_ret, panic in E.
        repeat case_match; simplify_eq.
    + intros [Eu ->]. rewrite Eu, choose_equality in E. done.
Qed.
End Properties.

Section Witnesses.
Import Instances.Concrete.


Lemma user_selection_witness :
  exists set, choose_providers
    (Some [RpcService.EthMainnet EthMainnetService.Llama;
           RpcService.EthMainnet EthMainnetService.Ankr]) eth_mainnet
    (ConsensusStrategy.Threshold None 2) 0 initial_state = Return (Ok set, initial_state) /\
    2 <= Z.of_nat (length set).
Proof.
  pose proof (user_selection eth_mainnet
    [RpcService.EthMainnet EthMainnetService.Llama; RpcService.EthMainnet EthMainnetService.Ankr]
    (ConsensusStrategy.Threshold None 2) 0 initial_state
    ltac:(by_compute) ltac:(simpl; lia) ltac:(vm_compute; split; congruence)) as Hc.
  destruct (choose_providers _ eth_mainnet _ 0 initial_state) as [[[set|e] s']|msg] eqn:E;
    vm_compute in E; try discriminate E.
  injection E as <- <-. eexists. split; [reflexivity|]. exact (proj2 (proj1 (proj2 (proj2 Hc)))).
Defined.

Lemma user_selection_limits_witness :
  choose_providers (Some (replicate 3 (RpcService.Provider 2))) eth_mainnet
    (ConsensusStrategy.Threshold (Some 3) 3) 0 initial_state =
  Return (Ok [RpcService.Provider 2], initial_state).
Proof.
  apply (user_selection_limits eth_mainnet (RpcService.Provider 2) 3
    (replicate 256 (RpcService.Provider 2)) None 1 0 initial_state).
  - lia.
  - reflexivity.
  - vm_compute; split; congruence.
Defined.

Lemma providers_new_invariant_witness :
  exists p s', Providers_new (RpcServices.ArbitrumOne None) ConsensusStrategy.Equality 0
    initial_state = Return (Ok p, s') /\ chain p = ARBITRUM.
Proof.
  pose proof (providers_new_invariant (RpcServices.ArbitrumOne None) ConsensusStrategy.Equality
    0 initial_state I) as Hc.
  destruct (Providers_new _ _ 0 initial_state) as [[[p|e] s']|msg] eqn:E;
    [|vm_compute in E; discriminate E..].
  exists p, s'. split; [reflexivity|]. exact (proj1 (proj2 (proj2 (proj2 Hc)))).
Defined.
End Witnesses.
