(* ===== verification/CandidRpc.v ===== *)
(** The adapter between the multi-provider client and the Candid interface
    ([src/candid_rpc/mod.rs]). *)

From S2P Require Import Prelude Collections EvmRpcTypes MultiRpcResult Externals Types Providers.
From S2P Require Import Memory ProviderApi Numbers Hex.
From S2P Require Import CandidTypes JsonTypes CkethConversion EthRpc Http RpcClient.
Open Scope Z_scope.
Open Scope canister_scope.

(** Equality of the Candid types: structural, except for the ratios of [FeeHistory]. *)
#[export] Instance peq_logs `{BigUintCrate} : PartialEq (list CandidTypes.LogEntry) :=
  PartialEq_dec.
#[export] Instance peq_block `{BigUintCrate} : PartialEq CandidTypes.Block := PartialEq_dec.
#[export] Instance peq_receipt `{BigUintCrate} :
  PartialEq (option CandidTypes.TransactionReceipt) := PartialEq_dec.
#[export] Instance peq_nat256 `{BigUintCrate} : PartialEq Nat256 := PartialEq_dec.
#[export] Instance peq_status : PartialEq SendRawTransactionStatus := PartialEq_dec.
#[export] Instance peq_hex : PartialEq Hex := PartialEq_dec.
(** They compare structurally. *)
#[export] Instance peq_logs_laws `{BigUintCrate} :
  PartialEqLaws (list CandidTypes.LogEntry) := PartialEq_dec_laws.
#[export] Instance peq_block_laws `{BigUintCrate} :
  PartialEqLaws CandidTypes.Block := PartialEq_dec_laws.
#[export] Instance peq_receipt_laws `{BigUintCrate} :
  PartialEqLaws (option CandidTypes.TransactionReceipt) := PartialEq_dec_laws.
#[export] Instance peq_nat256_laws `{BigUintCrate} : PartialEqLaws Nat256 := PartialEq_dec_laws.
#[export] Instance peq_status_laws : PartialEqLaws SendRawTransactionStatus := PartialEq_dec_laws.
#[export] Instance peq_hex_laws : PartialEqLaws Hex := PartialEq_dec_laws.

Section CandidRpc.
Context `{TSM : TimedSizedMapApi SupportedRpcService unit} `{Canlog : CanlogCrate}.
Context `{RustOrd HttpHeader} `{JsonRpcId} `{SerdeValue} `{HttpCrate} `{RegexCrate}.
Context `{MinicborCrate} `{MR : MultiResultsApi RpcService} `{UrlCrate} `{HexCrate}.
Context `{Big : BigUintLaws} `{EthnumCrate} `{EthersCrate}.

(** The metric entry of one of the inconsistent results. *)
Definition count_inconsistent (method : RpcMethod) (service : RpcService) : M unit :=
  match resolve_rpc_service service with
  | Ok (ResolvedRpcService.Provider provider) =>
      update_metrics (fun m =>
        set_inconsistent_responses
          (add_metric_entry
            (MetricRpcMethod_from method, default "(unknown)" (Provider_hostname provider)) 1
            (inconsistent_responses m)) m)
  | _ => mret ()
  end.

Definition process_result {T} (method : RpcMethod) (result : ReducedResult T) :
  M (MultiRpcResult T) :=
  match result with
  | Ok value => mret (Consistent (Ok value))
  | Err err =>
      match err with
      | ReductionError.ConsistentError err => mret (Consistent (Err err))
      | ReductionError.InconsistentResults multi_call_results =>
          let results := mr_into_iter multi_call_results in
          for_each results (fun '(service, _) => count_inconsistent method service) ;;
          mret (Inconsistent results)
      end
  end.

Record CandidRpcClient := { client : EthRpcClient }.

Definition CandidRpcClient_new (source : RpcServices) (config : option RpcConfig)
    (now : Timestamp) : M (RpcResult CandidRpcClient) :=
  client ← EthRpcClient_new source config now;
  mret (result_map Build_CandidRpcClient (result_map_err RpcError.ProviderError client)).

Definition get_transaction_hash (raw_signed_transaction_hex : Hex) : option Hex32 :=
  option_map Build_Hex32 (rlp_transaction_hash (Hex_0 raw_signed_transaction_hex)).

(** The size of the range of blocks, when both ends are numbers. *)
Definition block_count (args : GetLogsArgs) : option Z :=
  match GetLogsArgs.from_block args, GetLogsArgs.to_block args with
  | Some (CandidTypes.BlockTag.Number from), Some (CandidTypes.BlockTag.Number to) =>
      let from := nat256_0 from in
      let to := nat256_0 to in
      Some (if from <? to then to - from else from - to)
  | _, _ => None
  end.

Context `{!ReduceApi RpcService (list JsonTypes.LogEntry) RpcError}.
Context `{!ReduceApi RpcService JsonTypes.Block RpcError}.
Context `{!ReduceApi RpcService (option JsonTypes.TransactionReceipt) RpcError}.
Context `{!ReduceApi RpcService JsonTypes.FeeHistory RpcError}.
Context `{!ReduceApi RpcService SendRawTransactionResult RpcError}.
Context `{!ReduceApi RpcService TransactionCount RpcError}.
Context `{!ReduceApi RpcService Data RpcError}.

Definition candid_eth_get_logs (self : CandidRpcClient) (args : GetLogsArgs)
    (max_block_range : u32) (world : World (list GetLogsParam) (list JsonTypes.LogEntry)) :
    M (MultiRpcResult (list CandidTypes.LogEntry)) :=
  let query :=
    reduced ← eth_get_logs (client self) (into_get_logs_param args) world;
    result ← process_result RpcMethod.EthGetLogs reduced;
    mret (multi_map from_log_entries result) in
  match block_count args with
  | Some block_count =>
      if max_block_range <? block_count then
        mret (Consistent (Err (RpcError.ValidationError (ValidationError.Custom
          ("Requested " +:+ nat_display block_count +:+ " blocks; limited to " +:+
           pretty max_block_range +:+ " when specifying a start and end block")))))
      else query
  | None => query
  end.

Definition candid_eth_get_block_by_number (self : CandidRpcClient)
    (block : CandidTypes.BlockTag) (world : World GetBlockByNumberParams JsonTypes.Block) :
    M (MultiRpcResult CandidTypes.Block) :=
  reduced ← eth_get_block_by_number (client self) (into_block_spec block) world;
  result ← process_result RpcMethod.EthGetBlockByNumber reduced;
  mret (multi_map from_block result).

Definition candid_eth_get_transaction_receipt (self : CandidRpcClient) (hash : Hex32)
    (world : World (list Hash) (option JsonTypes.TransactionReceipt)) :
    M (MultiRpcResult (option CandidTypes.TransactionReceipt)) :=
  reduced ← eth_get_transaction_receipt (client self) (into_hash hash) world;
  result ← process_result RpcMethod.EthGetTransactionReceipt reduced;
  mret (multi_map (option_map from_transaction_receipt) result).

Definition candid_eth_get_transaction_count (self : CandidRpcClient)
    (args : GetTransactionCountArgs) (world : World GetTransactionCountParams TransactionCount) :
    M (MultiRpcResult Nat256) :=
  reduced ← eth_get_transaction_count (client self) (into_get_transaction_count_params args)
    world;
  result ← process_result RpcMethod.EthGetTransactionCount reduced;
  mret (multi_map Nat256_from_Amount result).

Definition candid_eth_fee_history (self : CandidRpcClient) (args : FeeHistoryArgs)
    (world : World FeeHistoryParams JsonTypes.FeeHistory) :
    M (MultiRpcResult CandidTypes.FeeHistory) :=
  reduced ← eth_fee_history (client self) (into_fee_history_params args) world;
  result ← process_result RpcMethod.EthFeeHistory reduced;
  mret (multi_map from_fee_history result).

Definition candid_eth_send_raw_transaction (self : CandidRpcClient)
    (raw_signed_transaction_hex : Hex) (world : World (list string) SendRawTransactionResult) :
    M (MultiRpcResult SendRawTransactionStatus) :=
  let transaction_hash := get_transaction_hash raw_signed_transaction_hex in
  reduced ← eth_send_raw_transaction (client self) (Hex_to_string raw_signed_transaction_hex)
    world;
  result ← process_result RpcMethod.EthSendRawTransaction reduced;
  mret (multi_map (from_send_raw_transaction_result transaction_hash) result).

Definition candid_eth_call (self : CandidRpcClient) (args : CallArgs)
    (world : World EthCallParams Data) : M (MultiRpcResult Hex) :=
  reduced ← eth_call (client self) (into_eth_call_params args) world;
  result ← process_result RpcMethod.EthCall reduced;
  mret (multi_map from_data result).
End CandidRpc.
