(* ===== verification/Replies.v ===== *)
(** The replies of the providers from their JSON text to the value that the canister reads:
    the text and the envelope of JSON-RPC around JsonCodec.v, what the transformations of
    [src/rpc_client/eth_rpc/mod.rs] make of texts that differ in layout, and which method
    asks for which transformation. *)

From S2P Require Import Prelude Collections EvmRpcTypes Externals Numbers Hex JsonTypes Json.
From S2P Require Import JsonCodec JsonLaws EthRpcError EthRpc Types Providers Memory ProviderApi.
From S2P Require Import Http RpcClient.
From S2P Require Instances JsonInstances.
Open Scope Z_scope.

(** ** Texts and envelopes *)

(** [serde_json]: [from_slice] and [to_vec] on values. The error is the text of the error. *)
Class JsonText `{JsonNumbers} := {
  json_parse : list byte -> option Json;
  json_print : Json -> list byte;
  json_error : list byte -> string;
}.
(** Arrays and objects are read up to a depth of 127. *)
Class JsonTextLaws `{JsonText} :=
  json_parse_print n j : (n <= 127)%nat -> plain n j -> json_parse (json_print j) = Some j.

(** [canhttp::http::json::JsonRpcResponse]: the id, and the value of [result] or the error. *)
Class JsonRpcEnvelope `{JsonNumbers} `{JsonRpcId} `{SerdeValue} := {
  read_response : Json -> option (Id * Result Json RpcErrorObject);
  write_response : Id -> Result Json RpcErrorObject -> Json;
}.
Class JsonRpcEnvelopeLaws `{JsonRpcEnvelope} := {
  read_write_response id r : read_response (write_response id r) = Some (id, r);
  write_response_plain n id j : plain n j -> plain (S n) (write_response id (Ok j));
  read_response_layout j k id x :
    same_json j k -> read_response j = Some (id, Ok x) ->
    exists y, read_response k = Some (id, Ok y) /\ same_json x y;
}.

Section Replies.
Context `{JsonScalars} `{!EthnumJson} `{HexCrate} `{!EthereumTypes}.
Context `{JsonRpcId} `{SerdeValue} `{!JsonText} `{!JsonRpcEnvelope}.

#[export] Instance serialize_response {T} `{!Serialize T} : Serialize (JsonRpcResponse T) :=
  fun r => write_response (response_id r) (result_map serialize (response_result r)).
#[export] Instance deserialize_response {T} `{!Deserialize T} : Deserialize (JsonRpcResponse T) :=
  fun j =>
    '(id, r) ← read_response j;
    match r with
    | Ok x => (fun t => Build_JsonRpcResponse id (Ok t)) <$> deserialize x
    | Err e => Some (Build_JsonRpcResponse id (Err e))
    end.

(** [serde_json::from_slice] and [serde_json::to_string(..).into_bytes()] of a type. *)
#[export] Instance json_serde {T} `{!Serialize T, !Deserialize T} : SerdeJson T := {
  from_slice body :=
    match json_parse body ≫= deserialize with
    | Some t => Ok t
    | None => Err (json_error body)
    end;
  to_vec t := json_print (serialize t);
}.

(** ** Lemmas *)

Lemma from_slice_Ok {T} `{!Serialize T, !Deserialize T} body (t : T) :
  from_slice body = Ok t <-> exists j, json_parse body = Some j /\ deserialize j = Some t.
Proof.
  unfold from_slice, json_serde. destruct (json_parse body) as [j|]; simpl.
  - destruct (deserialize j) eqn:E; naive_solver.
  - naive_solver.
Qed.

(** The result of a response is the value that is read from its member. *)
Lemma deserialize_response_Ok {T} `{!Deserialize T} j id (t : T) :
  deserialize j = Some (Build_JsonRpcResponse id (Ok t)) <->
  exists x, read_response j = Some (id, Ok x) /\ deserialize x = Some t.
Proof.
  unfold deserialize at 1, deserialize_response.
  destruct (read_response j) as [[id' [x|e]]|]; simpl; [|naive_solver..].
  destruct (deserialize x) eqn:E; simpl; naive_solver.
Qed.

Context `{!JsonRpcEnvelopeLaws}.

Lemma same_layout_reads {T} `{!Serialize T, !Deserialize T, !ReadsLayout T} b1 b2 j k id (t : T) :
  json_parse b1 = Some j -> json_parse b2 = Some k -> same_json j k ->
  from_slice b1 = Ok (Build_JsonRpcResponse id (Ok t)) ->
  from_slice b2 = Ok (Build_JsonRpcResponse id (Ok t)).
Proof.
  intros E1 E2 Hs (j' & Ej & E)%from_slice_Ok. simplify_eq.
  apply deserialize_response_Ok in E as (x & Ex & Et).
  destruct (read_response_layout _ _ _ _ Hs Ex) as (y & Ey & Hxy).
  apply from_slice_Ok. exists k. split; [done|]. apply deserialize_response_Ok.
  exists y. split; [done|]. by rewrite <- (deserialize_layout _ _ Hxy).
Qed.

Lemma response_readback {T} `{!Serialize T, !Deserialize T, !Representable T, !RoundTrip T}
    `{!ReadsRepresentable T} `{!JsonTextLaws} {n} `{!Plain T n} id (t : T) :
  (n < 127)%nat -> representable t ->
  from_slice (to_vec (Build_JsonRpcResponse id (Ok t))) = Ok (Build_JsonRpcResponse id (Ok t)).
Proof.
  intros Hn Ht. apply from_slice_Ok. exists (write_response id (Ok (serialize t))). split.
  - apply (json_parse_print (S n)); [lia|]. apply write_response_plain, serialize_plain.
  - apply deserialize_response_Ok. exists (serialize t).
    by rewrite read_write_response, deserialize_serialize.
Qed.

(** ** Properties *)

Context `{Sha256} `{Lowercase} `{MinicborCrate}.

(** A reply whose result the transformation can read. *)
Definition has_result (t : ResponseTransform) (body : list byte) : Prop :=
  match t with
  | ResponseTransform.Block =>
      exists id b, from_slice body = Ok (Build_JsonRpcResponse (T := Block) id (Ok b))
  | ResponseTransform.LogEntries =>
      exists id l, from_slice body = Ok (Build_JsonRpcResponse (T := list LogEntry) id (Ok l))
  | ResponseTransform.TransactionReceipt =>
      exists id r, from_slice body = Ok (Build_JsonRpcResponse (T := TransactionReceipt) id (Ok r))
  | ResponseTransform.FeeHistory =>
      exists id h, from_slice body = Ok (Build_JsonRpcResponse (T := FeeHistory) id (Ok h))
  | ResponseTransform.SendRawTransaction =>
      exists id h, from_slice body = Ok (Build_JsonRpcResponse (T := Hash) id (Ok h))
  end.

(** What the replicas compare when a request asked for the transformation [t]. *)
Definition cleaned (t : ResponseTransform) (r : IcHttpResponse) : IcHttpResponse :=
  cleanup_response {| args_response := r; args_context := minicbor_encode t |}.

Context `{!JsonScalarsLaws} `{!EthnumJsonLaws} `{!HexLaws} `{!EthereumTypesLaws}.

Lemma ResponseTransform_apply_layout t b1 b2 j k :
  json_parse b1 = Some j -> json_parse b2 = Some k -> same_json j k -> has_result t b1 ->
  ResponseTransform_apply t b1 = ResponseTransform_apply t b2.
Proof.
  intros E1 E2 Hs. destruct t; intros (id & x & Ex);
    pose proof (same_layout_reads _ _ _ _ _ _ E1 E2 Hs Ex) as Ey; simpl;
    unfold redact_response, redact_collection_response, sanitize_send_raw_transaction_result;
    by rewrite Ex, Ey.
Qed.

(** C18: two successful replies with the same JSON value up to the order of the members of its
    objects, in whatever layout of the text, are the same reply after the transformation that
    their request asked for, as long as it can read the result. *)
Theorem cleanup_ignores_layout `{!MinicborLaws} (t : ResponseTransform)
    (r1 r2 : IcHttpResponse) (j k : Json) :
  200 <= resp_status r1 < 300 -> resp_status r1 = resp_status r2 ->
  json_parse (resp_body r1) = Some j -> json_parse (resp_body r2) = Some k -> same_json j k ->
  has_result t (resp_body r1) ->
  cleaned t r1 = cleaned t r2.
Proof.
  intros Hs E E1 E2 Hjk Hr. unfold cleaned. rewrite !cleanup_response_transform by (congruence || lia).
  rewrite E. f_equal. eapply ResponseTransform_apply_layout; eauto.
Qed.

Lemma redact_response_reads {T} `{!Serialize T, !Deserialize T, !Representable T, !RoundTrip T}
    `{!ReadsRepresentable T} `{!JsonTextLaws} {n} `{!Plain T n} body id (t : T) :
  (n < 127)%nat -> from_slice body = Ok (Build_JsonRpcResponse id (Ok t)) ->
  from_slice (redact_response T body) = Ok (Build_JsonRpcResponse id (Ok t)).
Proof.
  intros Hn E. unfold redact_response. rewrite E. eapply response_readback; [exact Hn|].
  apply from_slice_Ok in E as (j & _ & E). apply deserialize_response_Ok in E as (x & _ & E).
  by eapply deserialize_representable.
Qed.

(** C19: the transformations lose nothing that the canister reads: the cleaned reply to a
    request for a block or a receipt is read as the original one, and cleaning it again
    changes nothing; the cleaned reply to a request for logs is read as the same logs in some
    order. *)
Theorem cleanup_keeps_result `{!MinicborLaws} `{!JsonTextLaws} (r : IcHttpResponse) (id : Id) :
  200 <= resp_status r < 300 ->
  (forall b : Block, from_slice (resp_body r) = Ok (Build_JsonRpcResponse id (Ok b)) ->
     from_slice (resp_body (cleaned ResponseTransform.Block r)) =
       Ok (Build_JsonRpcResponse id (Ok b)) /\
     cleaned ResponseTransform.Block (cleaned ResponseTransform.Block r) =
       cleaned ResponseTransform.Block r) /\
  (forall b : TransactionReceipt, from_slice (resp_body r) = Ok (Build_JsonRpcResponse id (Ok b)) ->
     from_slice (resp_body (cleaned ResponseTransform.TransactionReceipt r)) =
       Ok (Build_JsonRpcResponse id (Ok b)) /\
     cleaned ResponseTransform.TransactionReceipt (cleaned ResponseTransform.TransactionReceipt r) =
       cleaned ResponseTransform.TransactionReceipt r) /\
  (forall logs : list LogEntry, from_slice (resp_body r) = Ok (Build_JsonRpcResponse id (Ok logs)) ->
     exists sorted, sorted ≡ₚ logs /\
       from_slice (resp_body (cleaned ResponseTransform.LogEntries r)) =
         Ok (Build_JsonRpcResponse id (Ok sorted))).
Proof.
  intros Hs. unfold cleaned. split_and!.
  - intros b E. rewrite !cleanup_response_transform by (simpl; lia). simpl.
    pose proof (redact_response_reads (T := Block) (n := 2) _ _ _ ltac:(lia) E) as E'. split; [done|].
    f_equal. unfold redact_response at 1. rewrite E'. unfold redact_response. by rewrite E.
  - intros b E. rewrite !cleanup_response_transform by (simpl; lia). simpl.
    pose proof (redact_response_reads (T := TransactionReceipt) (n := 4) _ _ _ ltac:(lia) E) as E'. split; [done|].
    f_equal. unfold redact_response at 1. rewrite E'. unfold redact_response. by rewrite E.
  - intros logs E. rewrite !cleanup_response_transform by (simpl; lia). simpl.
    unfold redact_collection_response. rewrite E. exists (sort_by_hash logs).
    assert (Hp : sort_by_hash logs ≡ₚ logs) by (unfold sort_by_hash; by rewrite sort_by_Permutation).
    split; [done|]. apply (response_readback (T := list LogEntry) (n := 3)); [lia|].
    apply from_slice_Ok in E as (j & _ & E). apply deserialize_response_Ok in E as (x & _ & E).
    apply deserialize_representable in E. unfold representable, representable_list in *.
    by rewrite Hp.
Qed.
End Replies.

(** ** Which transformation a query asks for *)

(** [parallel_call] asks its client about the requests it is given, and about no other. *)
Class ParallelCallLaws (K : Type) `{MultiResultsApi K} := mr_parallel_call_asks :
  forall {I V E} (ask1 ask2 : K -> I -> Result V E) (requests : list (K * I)),
    (forall k i, (k, i) ∈ requests -> ask1 k i = ask2 k i) ->
    mr_parallel_call ask1 requests = mr_parallel_call ask2 requests.

Section Requests.
Context `{TSM : TimedSizedMapApi SupportedRpcService unit} `{Canlog : CanlogCrate}.
Context `{RustOrd HttpHeader} `{JsonRpcId} `{SerdeValue} `{HttpCrate} `{RegexCrate}.
Context `{MinicborCrate} `{Sha256} `{Lowercase}.
Context `{MRL : MultiResultsLaws RpcService} `{!ParallelCallLaws RpcService}.
Context `{SerdeJson LogEntry}.
Context `{SerdeJson (JsonRpcResponse Block)} `{SerdeJson (JsonRpcResponse (list LogEntry))}.
Context `{SerdeJson (JsonRpcResponse TransactionReceipt)}.
Context `{SerdeJson (JsonRpcResponse FeeHistory)} `{SerdeJson (JsonRpcResponse Hash)}.
Context `{SerdeJson (JsonRpcResponse SendRawTransactionResult)}.
Context `{!ReduceApi RpcService (list LogEntry) RpcError}.
Context `{!ReduceApi RpcService Block RpcError}.
Context `{!ReduceApi RpcService (option TransactionReceipt) RpcError}.
Context `{!ReduceApi RpcService FeeHistory RpcError}.
Context `{!ReduceApi RpcService SendRawTransactionResult RpcError}.
Context `{!ReduceApi RpcService TransactionCount RpcError}.
Context `{!ReduceApi RpcService Data RpcError}.

(** The replies as the providers send them, and what the client makes of a reply as the replicas
    agree on it: its value, or an error. An outcall that names another transformation than the
    canister has for its queries is rejected. A retry of a call names the transformation of the
    request that it repeats ([RetryLaws]). *)
Record Network (I O : Type) := {
  reply : RpcService -> HttpRequest (JsonRpcRequest I) -> IcHttpResponse;
  read : IcHttpResponse -> RpcResult (HttpJsonRpcResponse O);
  rejected : RpcResult (HttpJsonRpcResponse O);
  meanwhile_changed : CanisterState -> CanisterState;
  answered_at : Timestamp;
}.
Arguments reply {I O} _.
Arguments read {I O} _.
Arguments rejected {I O} _.
Arguments meanwhile_changed {I O} _.
Arguments answered_at {I O} _.

(** The world in which each reply goes through the function and the context that its request
    names. *)
Definition transformed {I O} (network : Network I O) : World I O := {|
  outcall provider request :=
    let response := reply network provider request in
    match req_transform_context request with
    | Some (name, context) =>
        if String.eqb name "cleanup_response"
        then read network
          (cleanup_response {| args_response := response; args_context := context |})
        else rejected network
    | None => read network response
    end;
  during_await := meanwhile_changed network;
  resumed_at := answered_at network |}.

(** A reply without its headers, and with the body that a transformation makes of it when its
    status is one of success. *)
Definition rewritten (transform : option ResponseTransform) (response : IcHttpResponse) :
  IcHttpResponse := {|
  resp_status := resp_status response; resp_headers := [];
  resp_body :=
    match transform with
    | Some t =>
        if (200 <=? resp_status response) && (resp_status response <? 300)
        then ResponseTransform_apply t (resp_body response) else resp_body response
    | None => resp_body response
    end |}.
(** The world in which each reply is rewritten, whatever its request says. *)
Definition rewriting {I O} (transform : option ResponseTransform) (network : Network I O) :
  World I O := {|
  outcall provider request :=
    read network (rewritten transform (reply network provider request));
  during_await := meanwhile_changed network;
  resumed_at := answered_at network |}.

Lemma cleanup_response_rewritten `{!MinicborLaws} transform response :
  cleanup_response {| args_response := response;
                      args_context := default [] (option_map minicbor_encode transform) |} =
  rewritten transform response.
Proof.
  unfold cleanup_response, rewritten. destruct transform as [t|]; cbn -[Z.leb Z.ltb].
  - rewrite minicbor_decode_encode, (bool_decide_eq_false_2 _ (minicbor_encode_nonempty t)).
    by rewrite andb_true_r.
  - by rewrite andb_false_r.
Qed.

Lemma provider_request_context {I} method (params : I) op size p s request s' :
  provider_request method params op size p s = Return (Ok request, s') ->
  req_transform_context request = Some ("cleanup_response", op).
Proof.
  unfold provider_request, mbind, M_bind, mret, M_ret, panic.
  destruct (M_and_then _ _ s) as [[[builder|e] s1]|msg]; [|by intros E; simplify_eq|done].
  unfold Builder_body. destruct (http_check _ _); [done|]. by intros [= <- _].
Qed.

(** What holds of each request that could be built. *)
Definition requests_ok {I} (P : HttpRequest I -> Prop)
    (m : MultiResults (HttpRequest I) RpcError) : Prop :=
  forall p request, (p, Ok request) ∈ mr_into_iter m -> P request.

Lemma build_requests_ok {I} (P : HttpRequest I -> Prop)
    (request : RpcService -> M (RpcResult (HttpRequest I))) ps m s m' s' :
  (forall p t q t', request p t = Return (Ok q, t') -> P q) ->
  NoDup (ps ++ (mr_into_iter m).*1) -> requests_ok P m ->
  build_requests request ps m s = Return (m', s') -> requests_ok P m'.
Proof.
  intros HP. revert m s. induction ps as [|p ps IH]; intros m s Hnd Hm; cbn [build_requests].
  { by intros [= <- _]. }
  unfold mbind, M_bind. destruct (request p s) as [[r s1]|msg] eqn:Er; [|done].
  apply NoDup_cons in Hnd as [Hp Hnd].
  destruct (mr_insert_once_entries p r m) as (m1 & -> & Hm1).
  { intros Hin. apply Hp, elem_of_app. by right. }
  apply IH.
  - rewrite Hm1. cbn. rewrite <- Permutation_middle. by apply NoDup_cons.
  - intros k q. rewrite Hm1, elem_of_cons. intros [[= <- <-]|Hin]; [by eapply HP|by eapply Hm].
Qed.

(** A parallel call depends on the answers to the requests that name the transformation of
    its type, and on no other. *)
Lemma parallel_call_asks {I O} `{HttpResponsePayload O} self method (params : I) size
    (w1 w2 : World I O) s :
  NoDup (EthRpcClient_providers self) ->
  during_await w1 = during_await w2 -> resumed_at w1 = resumed_at w2 ->
  (forall p request,
     req_transform_context request = Some ("cleanup_response",
       default [] (option_map minicbor_encode (response_transform (T := O)))) ->
     outcall w1 p request = outcall w2 p request) ->
  parallel_call self method params size w1 s = parallel_call self method params size w2 s.
Proof.
  intros Hnd Hd Hr Hw. unfold parallel_call. rewrite Hd, Hr. unfold mbind, M_bind.
  match goal with |- context [build_requests ?r ?ps ?m s] =>
    pose proof (build_requests_ok (fun q => req_transform_context q = Some ("cleanup_response",
      default [] (option_map minicbor_encode (response_transform (T := O))))) r ps m s) as Hb;
    destruct (build_requests r ps m s) as [[requests s1]|msg]; [|done] end.
  specialize (Hb requests s1).
  destruct (mr_into_inner requests) as [oks errors] eqn:Em.
  rewrite (mr_parallel_call_asks _
    (fun provider request => json_rpc_value (outcall w2 provider request)) oks); [done|].
  intros p q Hq. f_equal. apply Hw, (Hb ltac:(intros *; apply provider_request_context)) with p.
  - by rewrite mr_default_entries, app_nil_r.
  - intros k x. rewrite mr_default_entries. by intros ?%not_elem_of_nil.
  - done.
  - pose proof (proj1 (mr_into_inner_entries requests)) as Hok. rewrite Em in Hok.
    cbn [fst] in Hok. rewrite Hok in Hq. apply list_elem_of_omap in Hq as ([k [v|e]] & Hin & E);
      [|done]. by injection E as -> ->.
Qed.

Lemma parallel_call_rewrites `{!MinicborLaws} {I O} `{HttpResponsePayload O} self method
    (params : I) size (network : Network I O) s :
  NoDup (EthRpcClient_providers self) ->
  parallel_call self method params size (transformed network) s =
  parallel_call self method params size (rewriting (response_transform (T := O)) network) s.
Proof.
  intros Hnd. apply parallel_call_asks; [done..|]. intros p request E.
  cbn [outcall transformed rewriting]. rewrite E. cbn -[cleanup_response rewritten].
  by rewrite cleanup_response_rewritten.
Qed.

(** C38: a query reads each provider's reply as the transformation of its method leaves it: it
    gives the same answer, and leaves the same state, as if every successful reply were
    rewritten by that transformation and the others kept, all without headers. Blocks, logs,
    fee histories and sent transactions have a transformation. Receipts have none, since what
    is read is an optional receipt and no option has one: apart from its headers, the reply to
    [eth_getTransactionReceipt] is compared by the replicas as it was received, like those to
    [eth_getTransactionCount] and [eth_call]. The client is one that [Providers::new] can
    give: it has no provider twice. *)
Theorem queries_read_cleaned_replies `{!MinicborLaws} (self : EthRpcClient) (s : CanisterState)
    (logs : Network _ _) (block : Network _ _) (receipt : Network _ _) (count : Network _ _)
    (fees : Network _ _) (sent : Network _ _) (called : Network _ _)
    filter block_spec hash count_of fee_params raw call :
  NoDup (EthRpcClient_providers self) ->
  RpcClient.eth_get_logs self filter (transformed logs) s =
    RpcClient.eth_get_logs self filter
      (rewriting (Some ResponseTransform.LogEntries) logs) s /\
  RpcClient.eth_get_block_by_number self block_spec (transformed block) s =
    RpcClient.eth_get_block_by_number self block_spec
      (rewriting (Some ResponseTransform.Block) block) s /\
  RpcClient.eth_fee_history self fee_params (transformed fees) s =
    RpcClient.eth_fee_history self fee_params
      (rewriting (Some ResponseTransform.FeeHistory) fees) s /\
  RpcClient.eth_send_raw_transaction self raw (transformed sent) s =
    RpcClient.eth_send_raw_transaction self raw
      (rewriting (Some ResponseTransform.SendRawTransaction) sent) s /\
  RpcClient.eth_get_transaction_receipt self hash (transformed receipt) s =
    RpcClient.eth_get_transaction_receipt self hash (rewriting None receipt) s /\
  RpcClient.eth_get_transaction_count self count_of (transformed count) s =
    RpcClient.eth_get_transaction_count self count_of (rewriting None count) s /\
  RpcClient.eth_call self call (transformed called) s =
    RpcClient.eth_call self call (rewriting None called) s.
Proof.
  intros Hnd.
  unfold RpcClient.eth_get_logs, RpcClient.eth_get_block_by_number, RpcClient.eth_fee_history,
    RpcClient.eth_send_raw_transaction, RpcClient.eth_get_transaction_receipt,
    RpcClient.eth_get_transaction_count, RpcClient.eth_call, mbind, M_bind, lift_outcome.
  split_and!; (destruct (response_size_estimate_or self _) as [size|msg]; [|done]);
    by rewrite parallel_call_rewrites.
Qed.
End Requests.

Section Witnesses.
Import Instances.Concrete JsonInstances.
#[local] Existing Instance minicbor_crate.
#[local] Existing Instance minicbor_laws.

(** A text that is the number of its value. *)
Fixpoint to_tree (j : Json) : gen_tree (bool + (Z + string)) :=
  match j with
  | Null => GenNode 0 []
  | Bool b => GenLeaf (inl b)
  | Num n => GenLeaf (inr (inl n))
  | Str s => GenLeaf (inr (inr s))
  | Arr l => GenNode 1 (map to_tree l)
  | Obj ms => GenNode 2 (map (fun m => GenNode 3 [GenLeaf (inr (inr m.1)); to_tree m.2]) ms)
  end.
Fixpoint of_tree (t : gen_tree (bool + (Z + string))) : Json :=
  match t with
  | GenLeaf (inl b) => Bool b
  | GenLeaf (inr (inl n)) => Num n
  | GenLeaf (inr (inr s)) => Str s
  | GenNode 1 l => Arr (map of_tree l)
  | GenNode 2 l =>
      Obj (map (fun m => match m with
                         | GenNode 3 [GenLeaf (inr (inr n)); x] => (n, of_tree x)
                         | _ => (EmptyString, Null)
                         end) l)
  | GenNode _ _ => Null
  end.
Lemma of_to_tree j : of_tree (to_tree j) = j.
Proof.
  induction j as [| | | |l IH|ms IH] using json_rect_nested; simpl; try done; f_equal;
    rewrite map_map; induction IH as [|x l Hx _ IH]; simpl; [done| |done|]; rewrite IH, Hx; [done|].
  by destruct x.
Qed.
#[local] Instance json_eq_dec : EqDecision Json.
Proof. intros x y. destruct (decide (to_tree x = to_tree y)) as [E|E]; [left|right; congruence].
  by rewrite <- (of_to_tree x), E, of_to_tree. Defined.
#[local] Instance json_countable : Countable Json := inj_countable' to_tree of_tree of_to_tree.

#[local] Instance number_text : JsonText := {|
  json_parse body := match body with [z] => decode (Z.to_pos z) | _ => None end;
  json_print j := [Z.pos (encode j)];
  json_error _ := "not a value" |}.
#[local] Instance number_text_laws : JsonTextLaws.
Proof. intros n j _ _. cbv [json_print json_parse number_text]. simpl. apply decode_encode. Qed.

(** The envelope [{id, result}] or [{id, error}]. *)
#[local] Instance envelope : JsonRpcEnvelope := {|
  read_response j :=
    match j with
    | Obj ms =>
        match named "id" ms, named "result" ms, named "error" ms with
        | [Num id], [x], [] => Some (id, Ok x)
        | [Num id], [], [Arr [Num code; Str message; data]] =>
            Some (id, Err {| error_code := code; error_message := message;
                             error_data := match data with
                                           | Arr l => Some (omap (fun x => match x with
                                               Num b => Some b | _ => None end) l)
                                           | _ => None end |})
        | _, _, _ => None
        end
    | _ => None
    end;
  write_response id r :=
    match r with
    | Ok x => Obj [("id", Num id); ("result", x)]
    | Err e => Obj [("id", Num id); ("error",
        Arr [Num (error_code e); Str (error_message e);
             match error_data e with Some l => Arr (map Num l) | None => Null end])]
    end |}.
Lemma omap_numbers (l : list byte) :
  omap (fun x => match x with Num b => Some b | _ => None end) (map Num l) = l.
Proof. induction l as [|b l IH]; [done|]. exact (f_equal (cons b) IH). Qed.

(** The only value of a name, in another layout. *)
Lemma named_layout_singleton name l k x :
  same_json (Obj l) (Obj k) -> named name l = [x] -> exists y, named name k = [y] /\ same_json x y.
Proof.
  intros Hs E. destruct (named_layout name l k Hs) as (js & HF & Hp). rewrite E in HF.
  inversion HF as [|? y ? ? Hxy HF']; subst. inversion HF'; subst.
  apply Permutation_singleton_l in Hp. eauto.
Qed.
Lemma named_layout_nil name l k :
  same_json (Obj l) (Obj k) -> named name l = [] -> named name k = [].
Proof.
  intros Hs E. destruct (named_layout name l k Hs) as (js & HF & Hp). rewrite E in HF.
  inversion HF; subst. by apply Permutation_nil_l in Hp.
Qed.

#[local] Instance envelope_laws : JsonRpcEnvelopeLaws.
Proof.
  split.
  - intros id [x|[c m [l|]]]; try done.
    exact (f_equal (fun d => Some (id, Err {| error_code := c; error_message := m;
      error_data := Some d |})) (omap_numbers l)).
  - intros n id j Hj. repeat constructor; [by destruct n|done].
  - intros j k id x Hs E. destruct j as [| | | | |l]; try done.
    inversion Hs as [| | | | |? k' m HF Hp]; subst. simpl in E.
    destruct (named "id" l) as [|[| |n| | |] [|]] eqn:Ei; try done.
    destruct (named "result" l) as [|y [|]] eqn:Er, (named "error" l) as [|z [|]] eqn:Ee;
      try (by repeat case_match). simplify_eq.
    destruct (named_layout_singleton "id" l m _ Hs Ei) as (i & Ei' & Hi). inversion Hi; subst.
    destruct (named_layout_singleton "result" l m _ Hs Er) as (r & Er' & Hr).
    exists r. split; [|done]. simpl. by rewrite Ei', Er', (named_layout_nil "error" l m Hs Ee).
Qed.

(** A fee history, with its members in two orders. *)
Definition some_fee_history : FeeHistory := {|
  FeeHistory.oldest_block := Amount_ONE; FeeHistory.base_fee_per_gas := [Amount_TWO];
  FeeHistory.gas_used_ratio := []; FeeHistory.reward := [] |}.
Definition reply_of {T} `{!Serialize T} (t : T) : Json := write_response reply_id (Ok (serialize t)).
Definition reordered (j : Json) : Json :=
  match j with Obj ms => Obj (rev ms) | _ => j end.
Lemma reordered_same j : same_json j (reordered j).
Proof. destruct j; try reflexivity. apply same_json_perm, Permutation_rev. Qed.

Lemma cleanup_ignores_layout_witness :
  let j := reply_of some_fee_history in
  cleaned ResponseTransform.FeeHistory (http_ok [] (json_print j)) =
  cleaned ResponseTransform.FeeHistory (http_ok [] (json_print (reordered j))).
Proof.
  intros j. apply (cleanup_ignores_layout ResponseTransform.FeeHistory
    (http_ok [] (json_print j)) (http_ok [] (json_print (reordered j))) j (reordered j)).
  - unfold http_ok. simpl. lia.
  - reflexivity.
  - apply (decode_encode j).
  - apply (decode_encode (reordered j)).
  - apply reordered_same.
  - exists reply_id, some_fee_history. apply from_slice_Ok. exists j. split; [apply (decode_encode j)|].
    apply deserialize_response_Ok. exists (serialize some_fee_history). split; [reflexivity|].
    apply deserialize_serialize, Forall_nil_2.
Defined.

Definition some_logs : list LogEntry := [log_entry true].
Lemma cleanup_keeps_result_witness :
  exists sorted, sorted ≡ₚ some_logs /\
    from_slice (T := JsonRpcResponse (list LogEntry)) (resp_body (cleaned ResponseTransform.LogEntries
      (http_ok [] (json_print (reply_of some_logs))))) =
    Ok (Build_JsonRpcResponse (T := list LogEntry) reply_id (Ok sorted)).
Proof.
  apply (cleanup_keeps_result (http_ok [] (json_print (reply_of some_logs))) reply_id).
  - unfold http_ok. simpl. lia.
  - apply (response_readback (T := list LogEntry) (n := 3)); [lia|].
    repeat constructor.
Defined.

#[local] Instance parallel_call_laws : ParallelCallLaws RpcService.
Proof.
  intros I V E ask1 ask2 requests Hask. cbn [mr_parallel_call multi_results].
  apply map_ext_in. intros [k i] Hin%list_elem_of_In. by rewrite (Hask k i).
Qed.
(** The first result, when it is a value. *)
Definition first_value {V} (m : list (RpcService * RpcResult V)) :
  Result V (ReductionError RpcService V RpcError) :=
  match m with
  | (_, Ok v) :: _ => Ok v
  | _ => Err (ReductionError.InconsistentResults (M := multi_results) m)
  end.
#[local] Instance first_reduces {V} : ReduceApi RpcService V RpcError :=
  Build_ReduceApi RpcService V RpcError multi_results first_value (fun _ => first_value).

Definition one_provider : EthRpcClient := {|
  providers := {|
    chain := MAINNET;
    services := [RpcService.Custom {| url := "https://a.example"; headers := None |}] |};
  config := RpcConfig_default |}.
(** A reply with a header, and what is made of it: a value when there are no headers left. *)
Definition dated {I O} (value : option O) : Network I O := {|
  reply _ _ := http_ok [{| header_name := "date"; header_value := "today" |}] [7];
  read r := match resp_headers r, value with
            | [], Some v => Ok {| http_status := resp_status r;
                http_body := {| response_id := reply_id; response_result := Ok v |} |}
            | _, _ => Err (RpcError.ProviderError ProviderError.ProviderNotFound)
            end;
  rejected := Err (RpcError.ProviderError ProviderError.ProviderNotFound);
  meanwhile_changed s := s;
  answered_at := 0 |}.
Definition latest : BlockSpec := BlockSpec.Tag BlockTag.Latest.
Definition some_address : Address := LogEntry.address (log_entry true).
Definition some_hash : Hash := Hash_new (@Bytes_make 32 (replicate 32 0) eq_refl).
Definition empty_call : EthCallParams := {|
  EthCallParams.transaction := {|
    TransactionRequest.tx_type := None; TransactionRequest.nonce := None;
    TransactionRequest.to := None; TransactionRequest.from := None;
    TransactionRequest.gas := None; TransactionRequest.value := None;
    TransactionRequest.input := None; TransactionRequest.gas_price := None;
    TransactionRequest.max_priority_fee_per_gas := None;
    TransactionRequest.max_fee_per_gas := None;
    TransactionRequest.max_fee_per_blob_gas := None; TransactionRequest.access_list := None;
    TransactionRequest.blob_versioned_hashes := None; TransactionRequest.blobs := None;
    TransactionRequest.chain_id := None |};
  EthCallParams.block := latest |}.

Definition answer_of {A} (o : Outcome (A * CanisterState)) : option A :=
  match o with Return (a, _) => Some a | Panic _ => None end.

Lemma queries_read_cleaned_replies_witness :
  let ask := RpcClient.eth_get_transaction_receipt one_provider some_hash in
  ask (transformed (dated (Some None))) initial_state =
    ask (rewriting None (dated (Some None))) initial_state /\
  answer_of (ask (rewriting None (dated (Some None))) initial_state) = Some (Ok None).
Proof.
  intros ask. split; [|reflexivity].
  destruct (queries_read_cleaned_replies one_provider initial_state (dated None) (dated None)
    (dated (Some None)) (dated None) (dated None) (dated None) (dated None)
    {| GetLogsParam.from_block := latest; GetLogsParam.to_block := latest;
       GetLogsParam.address := []; GetLogsParam.topics := [] |}
    latest some_hash
    {| GetTransactionCountParams.address := some_address;
       GetTransactionCountParams.block := latest |}
    {| FeeHistoryParams.block_count := Amount_ONE; FeeHistoryParams.highest_block := latest;
       FeeHistoryParams.reward_percentiles := [] |} "0x00" empty_call)
    as (_ & _ & _ & _ & H & _).
  - apply NoDup_singleton.
  - exact H.
Defined.
End Witnesses.
