(* ===== verification/Parameters.v ===== *)
(** What is sent to the providers, from the arguments of a call to the canister to the JSON
    parameters of the request: the conversions of [src/candid_rpc/cketh_conversion.rs] and
    the JSON form of [src/rpc_client/json/requests.rs] together. *)

From S2P Require Import Prelude Collections EvmRpcTypes Externals Numbers Hex.
From S2P Require Import JsonTypes Json JsonCodec JsonLaws CkethConversion.
From S2P Require CandidTypes Instances JsonInstances.
Import CandidTypes JsonTypes.
Open Scope Z_scope.

Section Parameters.
Context `{BigUintLaws} `{EthnumLaws}.
Context `{JsonScalarsLaws} `{!EthnumJson, !EthnumJsonLaws}.
Context `{HexLaws} `{!EthereumTypes, !EthereumTypesLaws}.

(** The data that a caller sends is made of bytes. *)
Definition transaction_bytes (t : CandidTypes.TransactionRequest) : Prop :=
  representable (into_transaction_request t).

(** The block of a request, with its default. *)
Definition block_or_latest (block : option CandidTypes.BlockTag) : CandidTypes.BlockTag :=
  default CandidTypes.BlockTag.Latest block.

(** The parameters of [eth_getBlockByNumber]. *)
Definition block_params (block : CandidTypes.BlockTag) : GetBlockByNumberParams := {|
  GetBlockByNumberParams.block := into_block_spec block;
  GetBlockByNumberParams.include_full_transactions := false |}.

(** Data is shown as different texts when it differs. *)
Lemma hex_texts_injective (x y : Hex) :
  is_bytes (Hex_0 x) -> is_bytes (Hex_0 y) -> Hex_to_string x = Hex_to_string y -> x = y.
Proof.
  intros Hx Hy E. destruct x as [x], y as [y]. cbn [Hex_0] in *.
  apply (f_equal str_skip2) in E. unfold Hex_to_string, hex_string_display in E.
  rewrite !str_skip2_0x in E. apply (f_equal hex_decode) in E.
  rewrite !hex_decode_encode in E by done. by injection E as ->.
Qed.

(** The parameter of [eth_sendRawTransaction]: the transaction as the caller sent it, as text. *)
Definition raw_params (raw : Hex) : list string := [Hex_to_string raw].

(** C7: two calls of a method send the same JSON parameters exactly when their arguments are
    equal up to the defaults: an absent block is the latest one, absent topics and percentiles
    are empty lists. Otherwise the providers can tell the two requests apart, for each of the
    seven methods. The data of a transaction, for [eth_call] and [eth_sendRawTransaction], is
    made of bytes, as its type says. *)
Theorem sent_parameters :
  (forall x y : CallArgs,
     transaction_bytes (CallArgs.transaction x) -> transaction_bytes (CallArgs.transaction y) ->
     serialize (into_eth_call_params x) = serialize (into_eth_call_params y) <->
     CallArgs.transaction x = CallArgs.transaction y /\
     block_or_latest (CallArgs.block x) = block_or_latest (CallArgs.block y)) /\
  (forall x y : GetLogsArgs,
     serialize (into_get_logs_param x) = serialize (into_get_logs_param y) <->
     block_or_latest (GetLogsArgs.from_block x) = block_or_latest (GetLogsArgs.from_block y) /\
     block_or_latest (GetLogsArgs.to_block x) = block_or_latest (GetLogsArgs.to_block y) /\
     GetLogsArgs.addresses x = GetLogsArgs.addresses y /\
     default [] (GetLogsArgs.topics x) = default [] (GetLogsArgs.topics y)) /\
  (forall x y : FeeHistoryArgs,
     serialize (into_fee_history_params x) = serialize (into_fee_history_params y) <->
     FeeHistoryArgs.block_count x = FeeHistoryArgs.block_count y /\
     FeeHistoryArgs.newest_block x = FeeHistoryArgs.newest_block y /\
     default [] (FeeHistoryArgs.reward_percentiles x) =
       default [] (FeeHistoryArgs.reward_percentiles y)) /\
  (forall x y : GetTransactionCountArgs,
     serialize (into_get_transaction_count_params x) =
       serialize (into_get_transaction_count_params y) <-> x = y) /\
  (forall x y : CandidTypes.BlockTag, serialize (block_params x) = serialize (block_params y) <-> x = y) /\
  (forall x y : Hex32, serialize [into_hash x] = serialize [into_hash y] <-> x = y) /\
  (forall x y : Hex, is_bytes (Hex_0 x) -> is_bytes (Hex_0 y) ->
     serialize (raw_params x) = serialize (raw_params y) <-> x = y).
Proof.
  destruct requests_injective as (_ & Hspec & Hcount & Hcall & Hlogs & Hfee).
  destruct params_determine_request as (Pcount & Plogs & Pfee & Pblock & Pcall).
  split_and!.
  - intros x y Hx Hy. rewrite <- Hcall. split; [by apply Pcall|by intros ->].
  - intros x y. rewrite <- Hlogs. split; [by apply Plogs|by intros ->].
  - intros x y. rewrite <- Hfee. split; [by apply Pfee|by intros ->].
  - intros x y. split; [by intros E%Pcount%Hcount|by intros ->].
  - intros x y. split; [|by intros ->]. intros E%Pblock. injection E as E. by apply Hspec.
  - intros x y. split; [|by intros ->]. intros E.
    apply (serialize_inj (list Hash)) in E; [|apply all_representable..].
    destruct x, y. by injection E as ->.
  - intros x y Hx Hy. split; [|by intros ->]. intros E.
    apply hex_texts_injective; [done..|].
    exact (f_equal (fun j => match j with Arr [Str s] => s | _ => "" end) E).
Qed.
End Parameters.

Section Witnesses.
Import Instances.Concrete JsonInstances.

Lemma sent_parameters_witness :
  let args topics := {| GetLogsArgs.from_block := None;
    GetLogsArgs.to_block := Some CandidTypes.BlockTag.Latest;
    GetLogsArgs.addresses := []; GetLogsArgs.topics := topics |} in
  serialize (into_get_logs_param (args None)) = serialize (into_get_logs_param (args (Some []))) /\
  serialize (into_get_logs_param (args None)) <>
    serialize (into_get_logs_param (args (Some [[]]))).
Proof.
  intros args. destruct sent_parameters as (_ & Hlogs & _). split.
  - by apply Hlogs.
  - intros E. apply Hlogs in E as (_ & _ & _ & E). discriminate E.
Defined.
End Witnesses.
