(* ===== verification/Main.v ===== *)
(** The canister's endpoints ([src/main.rs]): the guard, the RPC methods, the raw requests,
    the queries on the static data, the management of API keys, and the life cycle. *)

From S2P Require Import Prelude Collections EvmRpcTypes MultiRpcResult Externals Types Providers.
From S2P Require Import Memory ProviderApi Numbers Hex.
From S2P Require Import CandidTypes JsonTypes CkethConversion EthRpc Http RpcClient CandidRpc.
Open Scope Z_scope.
Open Scope canister_scope.

(** The environment of a message: who sent it, and who controls the canister. *)
Record Env := { caller : Principal; is_controller : Principal -> bool }.

(** [evm_rpc_types::InstallArgs]; [override_provider] is the record with the single field
    [override_url]. *)
Record InstallArgs `{CanlogCrate} := {
  demo : option bool;
  manage_api_keys : option (list Principal);
  log_filter : option LogFilter;
  override_provider : option (option RegexSubstitution);
  nodes_in_subnet : option u32;
}.

(** [evm_rpc_types::RpcAuth], [RpcAccess] and [Provider]. *)
Module Candid.
Inductive RpcAuth :=
| BearerToken (url : string)
| UrlParameter (url_pattern : string).
Inductive RpcAccess :=
| Authenticated (auth : RpcAuth) (public_url : option string)
| Unauthenticated (public_url : string).
Record Provider := {
  provider_id : u64; chain_id : u64; access : RpcAccess; alias : option RpcService }.
End Candid.

Section Endpoints.
Context `{TSM : TimedSizedMapApi SupportedRpcService unit} `{Canlog : CanlogCrate}.

(** ** The guard and the API keys *)

Definition require_api_key_principal_or_controller (env : Env) : M (Result unit string) :=
  authorized ← is_api_key_principal (caller env);
  mret (if authorized || is_controller env (caller env) then Ok ()
        else Err "You are not authorized").

(** The body of the loop. *)
Definition update_api_key (entry : ProviderId * option string) : M unit :=
  let '(id, api_key) := entry in
  match find_provider (fun provider => provider_id provider =? id) with
  | None => panic ("Provider not found: " +:+ pretty id)
  | Some provider =>
      match access provider with
      | RpcAccess.Authenticated _ _ =>
          match api_key with
          | Some key =>
              match ApiKey_try_from key with
              | Ok key => insert_api_key id key
              | Err e => panic ("Invalid API key: " +:+ quoted e)
              end
          | None => remove_api_key id
          end
      | RpcAccess.Unauthenticated _ =>
          panic ("Trying to set API key for unauthenticated provider: " +:+ pretty id)
      end
  end.

Definition update_api_keys (api_keys : list (ProviderId * option string)) : M unit :=
  for_each api_keys update_api_key.

(** The endpoint with its guard: the message is rejected when the guard fails. *)
Definition update_api_keys_endpoint (env : Env) (api_keys : list (ProviderId * option string)) :
    M (Result unit string) :=
  guard ← require_api_key_principal_or_controller env;
  match guard with
  | Err e => mret (Err e)
  | Ok _ => update_api_keys api_keys ;; mret (Ok ())
  end.

(** ** Life cycle *)

Context `{RegexCrate}.

Definition when {A} (o : option A) (f : A -> M unit) : M unit :=
  match o with Some a => f a | None => mret () end.

Definition post_upgrade (args : InstallArgs) : M unit :=
  when (demo args) set_demo_active ;;
  when (manage_api_keys args) set_api_key_principals ;;
  when (log_filter args) set_log_filter ;;
  when (override_provider args) (fun override =>
    match OverrideProvider_try_from override with
    | Ok override => set_override_provider override
    | Err e => panic ("ERROR: invalid override provider: " +:+ regex_Error_debug e)
    end) ;;
  when (nodes_in_subnet args) set_num_subnet_nodes.

Definition init (args : InstallArgs) : M unit := post_upgrade args.

(** ** Queries on the static data *)

Definition into_provider (provider : Provider) : Candid.Provider := {|
  Candid.provider_id := provider_id provider;
  Candid.chain_id := chain_id provider;
  Candid.access :=
    match access provider with
    | RpcAccess.Authenticated auth public_url =>
        Candid.Authenticated
          match auth with
          | RpcAuth.BearerToken url => Candid.BearerToken url
          | RpcAuth.UrlParameter url_pattern => Candid.UrlParameter url_pattern
          end
          public_url
    | RpcAccess.Unauthenticated public_url => Candid.Unauthenticated public_url
    end;
  Candid.alias := option_map RpcService_from (alias provider);
|}.
Definition get_providers : list Candid.Provider := map into_provider PROVIDERS.
Definition get_service_provider_map : list (RpcService * ProviderId) :=
  map (fun '(k, v) => (RpcService_from k, v)) SERVICE_PROVIDER_MAP.
Definition get_nodes_in_subnet : M u32 := get_num_subnet_nodes.
Definition get_metrics : M Metrics := s ← get_state; mret (UNSTABLE_METRICS s).

(** ** The RPC methods *)

Context `{RustOrd HttpHeader} `{JsonRpcId} `{SerdeValue} `{HttpCrate}.
Context `{MinicborCrate} `{MR : MultiResultsApi RpcService} `{UrlCrate} `{HexCrate}.
Context `{Big : BigUintLaws} `{EthnumCrate} `{EthersCrate}.
Context `{!ReduceApi RpcService (list JsonTypes.LogEntry) RpcError}.
Context `{!ReduceApi RpcService JsonTypes.Block RpcError}.
Context `{!ReduceApi RpcService (option JsonTypes.TransactionReceipt) RpcError}.
Context `{!ReduceApi RpcService JsonTypes.FeeHistory RpcError}.
Context `{!ReduceApi RpcService SendRawTransactionResult RpcError}.
Context `{!ReduceApi RpcService TransactionCount RpcError}.
Context `{!ReduceApi RpcService Data RpcError}.

(** The common shape of the methods: the client's errors are consistent ones. *)
Definition with_client {R} (source : RpcServices) (config : option RpcConfig) (now : Timestamp)
    (query : CandidRpcClient -> M (MultiRpcResult R)) : M (MultiRpcResult R) :=
  client ← CandidRpcClient_new source config now;
  match client with
  | Ok source => query source
  | Err err => mret (MultiRpcResult_from_result (Err err))
  end.

Definition endpoint_eth_get_logs (source : RpcServices) (config : option GetLogsRpcConfig)
    (args : GetLogsArgs) (now : Timestamp)
    (world : World (list GetLogsParam) (list JsonTypes.LogEntry)) :
    M (MultiRpcResult (list CandidTypes.LogEntry)) :=
  let config := default GetLogsRpcConfig.GetLogsRpcConfig_default config in
  let max_block_range := GetLogsRpcConfig.max_block_range_or_default config in
  with_client source (Some (RpcConfig_from_GetLogsRpcConfig config)) now (fun source =>
    candid_eth_get_logs source args max_block_range world).

Definition endpoint_eth_get_block_by_number (source : RpcServices) (config : option RpcConfig)
    (block : CandidTypes.BlockTag) (now : Timestamp)
    (world : World GetBlockByNumberParams JsonTypes.Block) :
    M (MultiRpcResult CandidTypes.Block) :=
  with_client source config now (fun source =>
    candid_eth_get_block_by_number source block world).

Definition endpoint_eth_get_transaction_receipt (source : RpcServices)
    (config : option RpcConfig) (tx_hash : Hex32) (now : Timestamp)
    (world : World (list Hash) (option JsonTypes.TransactionReceipt)) :
    M (MultiRpcResult (option CandidTypes.TransactionReceipt)) :=
  with_client source config now (fun source =>
    candid_eth_get_transaction_receipt source tx_hash world).

Definition endpoint_eth_get_transaction_count (source : RpcServices)
    (config : option RpcConfig) (args : GetTransactionCountArgs) (now : Timestamp)
    (world : World GetTransactionCountParams TransactionCount) : M (MultiRpcResult Nat256) :=
  with_client source config now (fun source =>
    candid_eth_get_transaction_count source args world).

Definition endpoint_eth_fee_history (source : RpcServices) (config : option RpcConfig)
    (args : FeeHistoryArgs) (now : Timestamp)
    (world : World FeeHistoryParams JsonTypes.FeeHistory) :
    M (MultiRpcResult CandidTypes.FeeHistory) :=
  with_client source config now (fun source => candid_eth_fee_history source args world).

Definition endpoint_eth_send_raw_transaction (source : RpcServices) (config : option RpcConfig)
    (raw_signed_transaction_hex : Hex) (now : Timestamp)
    (world : World (list string) SendRawTransactionResult) :
    M (MultiRpcResult SendRawTransactionStatus) :=
  with_client source config now (fun source =>
    candid_eth_send_raw_transaction source raw_signed_transaction_hex world).

Definition endpoint_eth_call (source : RpcServices) (config : option RpcConfig)
    (args : CallArgs) (now : Timestamp) (world : World EthCallParams Data) :
    M (MultiRpcResult Hex) :=
  with_client source config now (fun source => candid_eth_call source args world).

(** ** Raw requests *)

Context `{!CanhttpCrate} `{!RetryPolicy} `{SerdeJson (JsonRpcRequest serde_Value)}.

(** [serde_json::to_string] of a response's body with its error as text, and [{:?}] of the
    body. *)
Class ResponseText := {
  response_to_string : JsonRpcResponse serde_Value -> Result string string;
  response_debug : JsonRpcResponse serde_Value -> string;
}.
Context `{ResponseText} `{!ConvertCrate}.

Definition request (service : RpcService) (json_rpc_payload : string)
    (max_response_bytes : u64) (outside : Outside serde_Value serde_Value) :
    M (RpcResult string) :=
  let* service := mret (result_map_err RpcError.ProviderError (resolve_rpc_service service)) in
  let* response := json_rpc_request service json_rpc_payload max_response_bytes outside in
  mret (result_map_err (fun e =>
      RpcError.HttpOutcallError (HttpOutcallError.InvalidHttpJsonRpcResponse
        (http_status response) (response_debug (http_body response)) (Some e)))
    (response_to_string (http_body response))).

Definition request_cost (service : RpcService) (json_rpc_payload : string)
    (max_response_bytes : u64) : M (RpcResult u128) :=
  demo ← is_demo_active;
  if (demo : bool) then mret (Ok 0)
  else
    let* service := mret (result_map_err RpcError.ProviderError (resolve_rpc_service service)) in
    let* request := json_rpc_request_arg service json_rpc_payload max_response_bytes in
    match service_request_builder request with
    | Err e => panic ("Error: invalid request: " +:+ e)
    | Ok request =>
        nodes ← get_num_subnet_nodes;
        let cycles_to_attach := cost_of_http_request nodes request in
        estimator ← ChargingPolicyWithCollateral_default;
        mret (Ok (cycles_to_charge estimator request cycles_to_attach))
    end.

(** [__transform_json_rpc]. *)
Definition transform (args : TransformArgs) : IcHttpResponse := transform_http_request args.
End Endpoints.
