(* ===== verification/Pages.v ===== *)
(** The pages of the canister: [http_request] of [src/main.rs] with the metrics
    ([src/metrics.rs], the labels and values of [src/types/mod.rs]) and the logs
    ([src/logs/mod.rs]). *)

From Stdlib Require Import Ascii.
From S2P Require Import Prelude Collections EvmRpcTypes Externals Types Providers Memory.
From S2P Require Import CandidTypes.
From S2P Require Instances.
Open Scope Z_scope.
Open Scope canister_scope.

(** ** Numbers of the standard library *)

(** [v as f64] for an unsigned integer: the nearest number with 53 significant bits, and of two
    equally near ones the one whose last bit is zero. *)
Definition f64_from_uint (v : Z) : f64 :=
  if v =? 0 then 0
  else
    let e := Z.log2 v in
    let m :=
      if e <=? 52 then Z.shiftl v (52 - e)
      else
        let q := Z.shiftr v (e - 52) in
        let r := v - Z.shiftl q (e - 52) in
        let half := 2 ^ (e - 53) in
        if (half <? r) || ((half =? r) && Z.odd q) then q + 1 else q
    in
    (e + 1023) * 2 ^ 52 + (m - 2 ^ 52).

(** [as i64], for an unsigned integer of 64 bits. *)
Definition as_i64 (v : u64) : i64 := if v <? 2 ^ 63 then v else v - 2 ^ 64.

(** [u64::from_str]: an optional sign [+] and at least one decimal digit, not above the
    maximum. *)
Definition digit_value (c : ascii) : option Z :=
  let n := Z.of_N (N_of_ascii c) in
  if (48 <=? n) && (n <=? 57) then Some (n - 48) else None.
Fixpoint parse_digits (acc : u64) (s : string) : option u64 :=
  match s with
  | EmptyString => Some acc
  | String c s =>
      match digit_value c with
      | Some d => if 10 * acc + d <? 2 ^ 64 then parse_digits (10 * acc + d) s else None
      | None => None
      end
  end.
Definition u64_from_str (s : string) : option u64 :=
  match s with
  | EmptyString => None
  | String c rest =>
      if Ascii.eqb c "+"%char then
        match rest with EmptyString => None | _ => parse_digits 0 rest end
      else parse_digits 0 s
  end.

(** ** Labels and values of the metrics ([src/types/mod.rs]) *)

(** [MetricValue], for [u32], [u64] and [u128]. *)
Definition metric_value (v : u128) : f64 := f64_from_uint v.

Class MetricLabels (K : Type) := metric_labels : K -> list (string * string).

Definition MetricRpcMethod_labels (self : MetricRpcMethod) : list (string * string) :=
  [("method", self)].
Definition MetricRpcHost_labels (self : MetricRpcHost) : list (string * string) :=
  [("host", self)].
Definition MetricHttpStatusCode_labels (self : MetricHttpStatusCode) : list (string * string) :=
  [("status", self)].
Definition LegacyRejectionCode_labels (self : LegacyRejectionCode) : list (string * string) :=
  let code :=
    match self with
    | LegacyRejectionCode.NoError => "NO_ERROR"
    | LegacyRejectionCode.SysFatal => "SYS_FATAL"
    | LegacyRejectionCode.SysTransient => "SYS_TRANSIENT"
    | LegacyRejectionCode.DestinationInvalid => "DESTINATION_INVALID"
    | LegacyRejectionCode.CanisterReject => "CANISTER_REJECT"
    | LegacyRejectionCode.CanisterError => "CANISTER_ERROR"
    | LegacyRejectionCode.Unknown => "UNKNOWN"
    end
  in [("code", code)].

(** The implementations for pairs and triples, at the keys of the counters. *)
#[export] Instance labels_method_host : MetricLabels (MetricRpcMethod * MetricRpcHost) :=
  fun '(method, host) => MetricRpcMethod_labels method ++ MetricRpcHost_labels host.
#[export] Instance labels_method_host_status :
  MetricLabels (MetricRpcMethod * MetricRpcHost * MetricHttpStatusCode) :=
  fun '(method, host, status) =>
    MetricRpcMethod_labels method ++ MetricRpcHost_labels host ++
    MetricHttpStatusCode_labels status.
#[export] Instance labels_method_host_code :
  MetricLabels (MetricRpcMethod * MetricRpcHost * LegacyRejectionCode) :=
  fun '(method, host, code) =>
    MetricRpcMethod_labels method ++ MetricRpcHost_labels host ++
    LegacyRejectionCode_labels code.

(** ** Parameters: the crates [ic_metrics_encoder], [ic_http_types] and [canlog] *)

(** The encoder that is written to, and the builder that remembers the metric to which values
    are added. The operations write to the encoder also when they fail. *)
Class MetricsEncoderCrate := {
  MetricsEncoder : Type;
  LabeledMetricsBuilder : Type;
  io_Error : Type;
  io_Error_to_string : io_Error -> string;
  MetricsEncoder_new (timestamp_millis : i64) : MetricsEncoder;
  encode_gauge (name : string) (value : f64) (help : string) :
    MetricsEncoder -> MetricsEncoder * Result unit io_Error;
  gauge_vec (name help : string) :
    MetricsEncoder -> MetricsEncoder * Result LabeledMetricsBuilder io_Error;
  counter_vec (name help : string) :
    MetricsEncoder -> MetricsEncoder * Result LabeledMetricsBuilder io_Error;
  labeled_value (builder : LabeledMetricsBuilder) (labels : list (string * string)) (value : f64) :
    MetricsEncoder -> MetricsEncoder * Result LabeledMetricsBuilder io_Error;
  into_inner : MetricsEncoder -> list byte;
}.
(** [HashMap::iter]: every entry once, in an order that is not specified. *)
Class HashMapIter := {
  hash_iter {K V : Type} `{Countable K} : gmap K V -> list (K * V) }.
Class HashMapIterLaws `{HashMapIter} := {
  hash_iter_permutation {K V : Type} `{Countable K} (m : gmap K V) :
    hash_iter m ≡ₚ map_to_list m }.

Class IcHttpTypes := {
  IcHttpRequest : Type;
  request_path : IcHttpRequest -> string;
  raw_query_param : IcHttpRequest -> string -> option string;
  IcHttpResponse : Type;
  HttpResponseBuilder : Type;
  builder_ok : HttpResponseBuilder;
  builder_bad_request : HttpResponseBuilder;
  builder_not_found : HttpResponseBuilder;
  builder_server_error : string -> HttpResponseBuilder;
  builder_header : string -> string -> HttpResponseBuilder -> HttpResponseBuilder;
  with_body_and_content_length : list byte -> HttpResponseBuilder -> HttpResponseBuilder;
  builder_build : HttpResponseBuilder -> IcHttpResponse;
}.

(** *** [Priority] ([src/logs/mod.rs]) *)
Module Priority.
Inductive Priority := Info | Debug | TraceHttp.
Definition Priority_from_str `{Lowercase} (s : string) : Result Priority string :=
  let s := to_lowercase s in
  if String.eqb s "info" then Ok Info
  else if String.eqb s "trace_http" then Ok TraceHttp
  else if String.eqb s "debug" then Ok Debug
  else Err "could not recognize priority".
End Priority.
Abbreviation Priority := Priority.Priority.

Module Sort.
Inductive Sort := Ascending | Descending.
End Sort.
Abbreviation Sort := Sort.Sort.

(** The buffers that [canlog] keeps for each priority, and the operations on a [Log], whose
    entries are a list; [log_json] is [serde_json::to_string] of a [Log]. *)
Class CanlogPages := {
  CanlogEntry : Type;
  entry_timestamp : CanlogEntry -> u64;
  CanlogBuffers : Type;
  buffered : CanlogBuffers -> Priority -> list CanlogEntry;
  push_logs : CanlogBuffers -> Priority -> list CanlogEntry -> list CanlogEntry;
  Sort_from_str : string -> option Sort;
  sort_logs : Sort -> list CanlogEntry -> list CanlogEntry;
  log_json : list CanlogEntry -> string;
  serialize_logs (max_body_size : Z) : list CanlogEntry -> string;
}.
Definition sorted_by_timestamp `{CanlogPages} (sort : Sort) : list CanlogEntry -> Prop :=
  Sorted (fun a b =>
    match sort with
    | Sort.Ascending => entry_timestamp a <= entry_timestamp b
    | Sort.Descending => entry_timestamp b <= entry_timestamp a
    end).
(** A log whose JSON text has no more than so many bytes. *)
Definition log_fits `{CanlogPages} (max_body_size : Z) (entries : list CanlogEntry) : Prop :=
  Z.of_nat (String.length (log_json entries)) <= max_body_size.
(** The text of a log without entries has 14 characters. A log that is too large is cut: its
    longest part from the beginning that fits is kept. *)
Class CanlogPagesLaws `{CanlogPages} := {
  push_logs_appends buffers priority entries :
    push_logs buffers priority entries = entries ++ buffered buffers priority;
  sort_logs_permutation sort entries : sort_logs sort entries ≡ₚ entries;
  sort_logs_sorted sort entries : sorted_by_timestamp sort (sort_logs sort entries);
  log_json_empty : log_fits 14 [];
  serialize_logs_cut n entries :
    log_fits n [] ->
    exists k, serialize_logs n entries = log_json (take k entries) /\
      log_fits n (take k entries) /\
      forall j, log_fits n (take j entries) -> take j entries `prefix_of` take k entries;
}.

(** ** The page of metrics ([src/metrics.rs]) *)

(** What the page asks the system for. *)
Record SystemInfo := {
  in_replicated_execution : bool;
  system_time : u64;
  canister_balance128 : u128;
  canister_version : u64;
  stable_size : u64;
  heap_memory_size_bytes : u64;
}.

Section Metrics.
Context `{MetricsEncoderCrate} `{HashMapIter}.

(** Writing to the encoder: the operator [?] stops at the first error. *)
Definition W (A : Type) : Type := MetricsEncoder -> MetricsEncoder * Result A io_Error.
Definition w_ret {A} (a : A) : W A := fun w => (w, Ok a).
Definition w_bind {A B} (m : W A) (f : A -> W B) : W B := fun w =>
  match m w with
  | (w, Ok a) => f a w
  | (w, Err e) => (w, Err e)
  end.
(** [.unwrap_or(())]. *)
Definition w_unwrap_or (m : W unit) : W unit := fun w => ((m w).1, Ok ()).
Fixpoint w_for_each {A} (l : list A) (f : A -> W unit) : W unit :=
  match l with
  | [] => w_ret ()
  | x :: l => w_bind (f x) (fun _ => w_for_each l f)
  end.

Definition counter_entries {K} `{Countable K, MetricLabels K} (name : string)
    (map : gmap K u128) (help : string) : W unit :=
  w_for_each (hash_iter map) (fun '(k, v) =>
    w_unwrap_or
      (w_bind (counter_vec name help) (fun m =>
       w_bind (labeled_value m (metric_labels k) (metric_value v)) (fun _ => w_ret ())))).

Definition WASM_PAGE_SIZE_IN_BYTES : Z := 65536.
Definition encode_metrics (info : SystemInfo) (m : Metrics) : W unit :=
  w_bind (gauge_vec "cycle_balance" "Cycle balance of this canister") (fun b =>
  w_bind (labeled_value b [("canister", "evmrpc")] (metric_value (canister_balance128 info)))
    (fun _ =>
  w_bind (encode_gauge "evmrpc_canister_version" (metric_value (canister_version info))
    "Canister version") (fun _ =>
  (* the product with a power of two is exact *)
  w_bind (encode_gauge "stable_memory_bytes"
    (f64_from_uint (stable_size info * WASM_PAGE_SIZE_IN_BYTES))
    "Size of the stable memory allocated by this canister.") (fun _ =>
  w_bind (encode_gauge "heap_memory_bytes" (f64_from_uint (heap_memory_size_bytes info))
    "Size of the heap memory allocated by this canister.") (fun _ =>
  w_bind (counter_entries "evmrpc_cycles_charged" (cycles_charged m)
    "Number of cycles charged for RPC calls") (fun _ =>
  w_bind (counter_entries "evmrpc_requests" (requests m)
    "Number of JSON-RPC requests") (fun _ =>
  w_bind (counter_entries "evmrpc_responses" (responses m)
    "Number of JSON-RPC responses") (fun _ =>
  w_bind (counter_entries "evmrpc_inconsistent_responses" (inconsistent_responses m)
    "Number of inconsistent RPC responses") (fun _ =>
  w_bind (counter_entries "evmrpc_err_http_outcall" (err_http_outcall m)
    "Number of unsuccessful HTTP outcalls") (fun _ =>
  w_ret ())))))))))).
End Metrics.

(** ** The pages ([http_request]) *)

Section HttpRequest.
Context `{TSM : TimedSizedMapApi SupportedRpcService unit} `{Canlog : CanlogCrate}.
Context `{MetricsEncoderCrate} `{HashMapIter} `{IcHttpTypes} `{CanlogPages} `{Lowercase}.

Definition ordering_from_query_params (sort : option string) (max_skip_timestamp : u64) : Sort :=
  match option_map Sort_from_str sort with
  | Some (Some order) => order
  | Some None | None =>
      if max_skip_timestamp =? 0 then Sort.Ascending else Sort.Descending
  end.

Definition MAX_BODY_SIZE : Z := 2000000.

Definition metrics_page (info : SystemInfo) (m : Metrics) : IcHttpResponse :=
  let writer := MetricsEncoder_new (Z.quot (as_i64 (system_time info)) 1000000) in
  match encode_metrics info m writer with
  | (writer, Ok _) =>
      builder_build (with_body_and_content_length (into_inner writer)
        (builder_header "Content-Type" "text/plain; version=0.0.4" builder_ok))
  | (_, Err err) =>
      builder_build
        (builder_server_error ("Failed to encode metrics: " +:+ io_Error_to_string err))
  end.

(** The entries of the page: those of the requested priority, or of all of them. *)
Definition pushed_logs (buffers : CanlogBuffers) (priority : option string) :
    list CanlogEntry :=
  match option_map Priority.Priority_from_str priority with
  | Some (Ok priority) =>
      match priority with
      | Priority.Info => push_logs buffers Priority.Info []
      | Priority.Debug => push_logs buffers Priority.Debug []
      | Priority.TraceHttp => push_logs buffers Priority.TraceHttp []
      end
  | Some (Err _) | None =>
      push_logs buffers Priority.TraceHttp
        (push_logs buffers Priority.Debug (push_logs buffers Priority.Info []))
  end.

Definition logs_page (buffers : CanlogBuffers) (request : IcHttpRequest) : IcHttpResponse :=
  match
    match raw_query_param request "time" with
    | Some arg => u64_from_str arg
    | None => Some 0
    end
  with
  | None =>
      builder_build (with_body_and_content_length
        (bytes_of_string "failed to parse the 'time' parameter") builder_bad_request)
  | Some max_skip_timestamp =>
      let log := pushed_logs buffers (raw_query_param request "priority") in
      let log := filter (fun entry => max_skip_timestamp <= entry_timestamp entry) log in
      let log := sort_logs
        (ordering_from_query_params (raw_query_param request "sort") max_skip_timestamp) log in
      builder_build (with_body_and_content_length
        (bytes_of_string (serialize_logs MAX_BODY_SIZE log))
        (builder_header "Content-Type" "application/json; charset=utf-8" builder_ok))
  end.

Definition http_request (info : SystemInfo) (buffers : CanlogBuffers) (request : IcHttpRequest) :
    M IcHttpResponse :=
  if in_replicated_execution info then panic "Update call rejected"
  else
    let path := request_path request in
    if String.eqb path "/metrics" then
      s ← get_state; mret (metrics_page info (UNSTABLE_METRICS s))
    else if String.eqb path "/logs" then mret (logs_page buffers request)
    else mret (builder_build builder_not_found).
End HttpRequest.

(** ** Properties *)

(** *** The numbers of the metrics *)

(** The value of a positive, normal floating-point number, if it is an integer. *)
Definition f64_value (x : f64) : Z :=
  if x =? 0 then 0
  else
    let e := Z.shiftr x 52 in
    let m := 2 ^ 52 + x mod 2 ^ 52 in
    if 1075 <=? e then m * 2 ^ (e - 1075) else m / 2 ^ (1075 - e).

(** A significand of 53 bits, or the first one of 54 bits, and an exponent. *)
Lemma f64_value_parts e m :
  0 <= e -> 2 ^ 52 <= m <= 2 ^ 53 ->
  f64_value ((e + 1023) * 2 ^ 52 + (m - 2 ^ 52)) =
  if 52 <=? e then m * 2 ^ (e - 52)
  else if m =? 2 ^ 53 then 2 ^ (e + 1) else m / 2 ^ (52 - e).
Proof.
  intros He Hm. unfold f64_value.
  destruct (Z.eqb_spec ((e + 1023) * 2 ^ 52 + (m - 2 ^ 52)) 0) as [E|_]; [nia|].
  rewrite Z.shiftr_div_pow2 by lia.
  destruct (Z.eqb_spec m (2 ^ 53)) as [->|Hne].
  - replace ((e + 1023) * 2 ^ 52 + (2 ^ 53 - 2 ^ 52)) with ((e + 1024) * 2 ^ 52) by lia.
    rewrite Z.div_mul, Z.mod_mul by lia. rewrite Z.add_0_r.
    destruct (Z.leb_spec 52 e).
    + destruct (Z.leb_spec 1075 (e + 1024)); [|lia].
      rewrite <- !Z.pow_add_r by lia. f_equal. lia.
    + destruct (Z.leb_spec 1075 (e + 1024)).
      * assert (e = 51) as -> by lia. done.
      * rewrite <- Z.pow_sub_r by lia. f_equal. lia.
  - rewrite Z.div_add_l, Z.div_small, Z.add_0_r by lia.
    rewrite (Z.add_comm ((e + 1023) * 2 ^ 52)), Z.mod_add, Z.mod_small by lia.
    replace (2 ^ 52 + (m - 2 ^ 52)) with m by lia.
    destruct (Z.leb_spec 52 e), (Z.leb_spec 1075 (e + 1023)); try lia; f_equal; f_equal; lia.
Qed.

(** At most 53 significant bits: the integer is its significand. *)
Lemma f64_from_uint_exact v : 0 < v -> Z.log2 v <= 52 -> f64_value (f64_from_uint v) = v.
Proof.
  intros Hv Hle. unfold f64_from_uint. destruct (Z.eqb_spec v 0) as [->|_]; [done|].
  pose proof (Z.log2_spec v Hv) as He. pose proof (Z.log2_nonneg v) as He0.
  set (e := Z.log2 v) in *. rewrite Z.pow_succ_r in He by lia.
  destruct (Z.leb_spec e 52); [|lia].
  assert (H52 : 2 ^ 52 = 2 ^ e * 2 ^ (52 - e)) by (rewrite <- Z.pow_add_r by lia; f_equal; lia).
  assert (0 < 2 ^ (52 - e)) by (apply Z.pow_pos_nonneg; lia).
  rewrite Z.shiftl_mul_pow2 by lia. rewrite f64_value_parts by nia.
  destruct (Z.leb_spec 52 e).
  - assert (e = 52) as -> by lia. change (2 ^ (52 - 52)) with 1. lia.
  - destruct (Z.eqb_spec (v * 2 ^ (52 - e)) (2 ^ 53)); [nia|].
    apply Z.div_mul. apply Z.pow_nonzero; lia.
Qed.

(** More bits: the significand is rounded to the nearest one. *)
Lemma f64_from_uint_rounds v :
  52 < Z.log2 v ->
  exists m, f64_value (f64_from_uint v) = m * 2 ^ (Z.log2 v - 52) /\
    Z.abs (m * 2 ^ (Z.log2 v - 52) - v) <= 2 ^ (Z.log2 v - 53).
Proof.
  intros Hgt. assert (Hv : 0 < v) by (apply Z.log2_lt_cancel; change (Z.log2 0) with 0; lia).
  unfold f64_from_uint. destruct (Z.eqb_spec v 0) as [->|_]; [done|].
  pose proof (Z.log2_spec v Hv) as He. set (e := Z.log2 v) in *.
  rewrite Z.pow_succ_r in He by lia. destruct (Z.leb_spec e 52); [lia|].
  rewrite Z.shiftr_div_pow2, !Z.shiftl_mul_pow2 by lia.
  set (p := 2 ^ (e - 52)). set (q := v / p). set (r := v - q * p).
  assert (Hp : 0 < p) by (apply Z.pow_pos_nonneg; lia).
  assert (Hr : 0 <= r < p).
  { unfold r, q. pose proof (Z.mod_pos_bound v p Hp). pose proof (Z.div_mod v p). lia. }
  assert (Hh : p = 2 * 2 ^ (e - 53)).
  { unfold p. rewrite <- Z.pow_succ_r by lia. f_equal. lia. }
  set (h := 2 ^ (e - 53)) in *.
  assert (Hpow : 2 ^ e = 2 ^ 52 * p) by (unfold p; rewrite <- Z.pow_add_r by lia; f_equal; lia).
  assert (Hq : 2 ^ 52 <= q < 2 ^ 53) by (unfold r in Hr; nia).
  set (m := if _ || _ then q + 1 else q).
  assert (Hm : 2 ^ 52 <= m <= 2 ^ 53 /\ Z.abs (m * p - v) <= h).
  { unfold m. destruct (Z.ltb_spec h r), (Z.eqb_spec h r), (Z.odd q); cbn [orb andb];
      unfold r in *; nia. }
  exists m. split; [|apply Hm]. rewrite f64_value_parts by lia.
  by destruct (Z.leb_spec 52 e); [|lia].
Qed.

(** The values of the metrics are exact up to 2^53, and above, for the 128-bit counters of
    cycles too, within one part in 2^53. *)
Theorem metric_value_precision (v : u128) :
  0 <= v < 2 ^ 128 ->
  (v <= 2 ^ 53 -> f64_value (metric_value v) = v) /\
  Z.abs (f64_value (metric_value v) - v) * 2 ^ 53 <= v.
Proof.
  intros Hv. unfold metric_value. destruct (Z.eq_dec v 0) as [->|Hnz]; [done|].
  destruct (Z.le_gt_cases (Z.log2 v) 52) as [Hle|Hgt].
  - rewrite f64_from_uint_exact by lia. split; [done|]. rewrite Z.sub_diag. lia.
  - destruct (f64_from_uint_rounds v Hgt) as (m & -> & Hm).
    pose proof (Z.log2_spec v ltac:(lia)) as He. set (e := Z.log2 v) in *.
    assert (Hpow : 2 ^ e = 2 ^ 53 * 2 ^ (e - 53)) by (rewrite <- Z.pow_add_r by lia; f_equal; lia).
    split; [|nia]. intros Hle. assert (e = 53) as E53.
    { destruct (Z.eq_dec e 53); [done|].
      assert (2 ^ 54 <= 2 ^ e) by (apply Z.pow_le_mono_r; lia). lia. }
    rewrite E53 in *. change (2 ^ (53 - 52)) with 2 in *. change (2 ^ (53 - 53)) with 1 in *. lia.
Qed.

(** *** The page of metrics *)

(** A line of the page: the metric, its labels and the value. *)
Definition Sample : Type := string * list (string * string) * f64.

(** Writing to a vector of bytes does not fail, and every operation adds at most one line. *)
Class MetricsEncoderLaws `{MetricsEncoderCrate} := {
  samples : MetricsEncoder -> list Sample;
  builder_name : LabeledMetricsBuilder -> string;
  samples_new t : samples (MetricsEncoder_new t) = [];
  encode_gauge_samples name value help w : exists w',
    encode_gauge name value help w = (w', Ok ()) /\
    samples w' = samples w ++ [(name, [], value)];
  gauge_vec_samples name help w : exists w' b,
    gauge_vec name help w = (w', Ok b) /\ builder_name b = name /\ samples w' = samples w;
  counter_vec_samples name help w : exists w' b,
    counter_vec name help w = (w', Ok b) /\ builder_name b = name /\ samples w' = samples w;
  labeled_value_samples b labels value w : exists w' b',
    labeled_value b labels value w = (w', Ok b') /\
    samples w' = samples w ++ [(builder_name b, labels, value)];
}.

(** The lines of the gauges, and those of a counter. *)
Definition gauges (info : SystemInfo) : list Sample := [
  ("cycle_balance", [("canister", "evmrpc")], metric_value (canister_balance128 info));
  ("evmrpc_canister_version", [], metric_value (canister_version info));
  ("stable_memory_bytes", [], metric_value (stable_size info * 65536));
  ("heap_memory_bytes", [], metric_value (heap_memory_size_bytes info))].
Definition counter_samples {K} `{Countable K, MetricLabels K} (name : string)
    (counter : gmap K u128) : list Sample :=
  map (fun '(k, v) => (name, metric_labels k, metric_value v)) (map_to_list counter).

Section Writing.
Context `{MetricsEncoderLaws} `{HashMapIterLaws}.

(** [m] returns and adds the lines [l]. *)
Definition writes (m : W unit) (l : list Sample) : Prop :=
  forall w, exists w', m w = (w', Ok ()) /\ samples w' = samples w ++ l.

Lemma writes_ret : writes (w_ret ()) [].
Proof. intros w. exists w. by rewrite app_nil_r. Qed.
Lemma writes_bind m f l k : writes m l -> writes (f ()) k -> writes (w_bind m f) (l ++ k).
Proof.
  intros Hm Hf w. destruct (Hm w) as (w1 & E1 & S1), (Hf w1) as (w2 & E2 & S2).
  exists w2. unfold w_bind. rewrite E1, E2. split; [done|]. by rewrite S2, S1, app_assoc.
Qed.
Lemma writes_labeled builder name labels value m k :
  (forall w, exists w' b, builder w = (w', Ok b) /\ builder_name b = name /\
     samples w' = samples w) ->
  writes m k ->
  writes (w_bind builder (fun b => w_bind (labeled_value b labels value) (fun _ => m)))
    ((name, labels, value) :: k).
Proof.
  intros Hb Hm w. destruct (Hb w) as (w1 & b & E1 & <- & S1).
  destruct (labeled_value_samples b labels value w1) as (w2 & b' & E2 & S2).
  destruct (Hm w2) as (w3 & E3 & S3). exists w3. unfold w_bind. rewrite E1, E2, E3.
  split; [done|]. by rewrite S3, S2, S1, <- app_assoc.
Qed.
Lemma writes_gauge name value help : writes (encode_gauge name value help) [(name, [], value)].
Proof. intros w. apply encode_gauge_samples. Qed.

Lemma writes_counter_entries {K} `{Countable K, MetricLabels K} name (counter : gmap K u128) help :
  exists l, writes (counter_entries name counter help) l /\ l ≡ₚ counter_samples name counter.
Proof.
  exists (map (fun '(k, v) => (name, metric_labels k, metric_value v)) (hash_iter counter)).
  split; [|by apply Permutation_map, hash_iter_permutation].
  unfold counter_entries. induction (hash_iter counter) as [|[k v] l IH]; [apply writes_ret|].
  apply (writes_bind _ _ [_]); [|exact IH]. intros w.
  destruct (writes_labeled (counter_vec name help) name (metric_labels k) (metric_value v)
    (w_ret ()) [] (fun w => counter_vec_samples name help w) writes_ret w) as (w' & E & S).
  exists w'. unfold w_unwrap_or. by rewrite E.
Qed.
End Writing.

(** Which page a request gets. *)
Section Paths.
Context `{TimedSizedMapApi SupportedRpcService unit} `{CanlogCrate} `{MetricsEncoderCrate}.
Context `{HashMapIter} `{IcHttpTypes} `{CanlogPages} `{Lowercase}.
Context (info : SystemInfo) (buffers : CanlogBuffers) (request : IcHttpRequest).
Hypothesis query : in_replicated_execution info = false.

Lemma http_request_metrics s :
  request_path request = "/metrics" ->
  http_request info buffers request s = Return (metrics_page info (UNSTABLE_METRICS s), s).
Proof. intros Hp. unfold http_request. by rewrite query, Hp. Qed.
Lemma http_request_logs s :
  request_path request = "/logs" ->
  http_request info buffers request s = Return (logs_page buffers request, s).
Proof. intros Hp. unfold http_request. by rewrite query, Hp. Qed.
End Paths.

(** C32: the page of metrics is never an error page, and changes nothing. It shows four gauges
    and then one line for each entry of five of the six counters, with the labels of the key
    and the value of the counter, and nothing else: the counter of responses that exceed the
    maximal size is not shown. *)
Theorem metrics_page_complete `{TimedSizedMapApi SupportedRpcService unit} `{CanlogCrate}
    `{MetricsEncoderLaws} `{HashMapIterLaws} `{IcHttpTypes} `{CanlogPages} `{Lowercase}
    (info : SystemInfo) (buffers : CanlogBuffers) (request : IcHttpRequest) (s : CanisterState) :
  in_replicated_execution info = false -> request_path request = "/metrics" ->
  let m := UNSTABLE_METRICS s in
  exists writer lines,
    http_request info buffers request s =
      Return (builder_build (with_body_and_content_length (into_inner writer)
        (builder_header "Content-Type" "text/plain; version=0.0.4" builder_ok)), s) /\
    samples writer = gauges info ++ lines /\
    lines ≡ₚ
      counter_samples "evmrpc_cycles_charged" (cycles_charged m) ++
      counter_samples "evmrpc_requests" (requests m) ++
      counter_samples "evmrpc_responses" (responses m) ++
      counter_samples "evmrpc_inconsistent_responses" (inconsistent_responses m) ++
      counter_samples "evmrpc_err_http_outcall" (err_http_outcall m).
Proof.
  intros Hr Hp m. rewrite http_request_metrics by done.
  destruct (writes_counter_entries "evmrpc_cycles_charged" (cycles_charged m)
    "Number of cycles charged for RPC calls") as (l1 & W1 & P1).
  destruct (writes_counter_entries "evmrpc_requests" (requests m)
    "Number of JSON-RPC requests") as (l2 & W2 & P2).
  destruct (writes_counter_entries "evmrpc_responses" (responses m)
    "Number of JSON-RPC responses") as (l3 & W3 & P3).
  destruct (writes_counter_entries "evmrpc_inconsistent_responses" (inconsistent_responses m)
    "Number of inconsistent RPC responses") as (l4 & W4 & P4).
  destruct (writes_counter_entries "evmrpc_err_http_outcall" (err_http_outcall m)
    "Number of unsuccessful HTTP outcalls") as (l5 & W5 & P5).
  assert (Hw : writes (encode_metrics info m) (gauges info ++ l1 ++ l2 ++ l3 ++ l4 ++ l5 ++ [])).
  { unfold encode_metrics, gauges. simpl app. apply writes_labeled.
    { intros w. apply gauge_vec_samples. }
    repeat first [ apply (writes_bind _ _ [_]); [apply writes_gauge|]
                 | apply writes_bind; [eassumption|] ].
    apply writes_ret. }
  set (t := Z.quot (as_i64 (system_time info)) 1000000).
  destruct (Hw (MetricsEncoder_new t)) as (writer & E & S).
  exists writer, (l1 ++ l2 ++ l3 ++ l4 ++ l5). split_and!.
  - unfold metrics_page. fold t. fold m. by rewrite E.
  - by rewrite S, samples_new, app_nil_r.
  - by rewrite P1, P2, P3, P4, P5.
Qed.

(** *** The page of logs *)

(** The priorities of the page, and the earliest time. *)
Definition shown_priorities `{IcHttpTypes} `{Lowercase} (request : IcHttpRequest) : list Priority :=
  match option_map Priority.Priority_from_str (raw_query_param request "priority") with
  | Some (Ok priority) => [priority]
  | _ => [Priority.Info; Priority.Debug; Priority.TraceHttp]
  end.

(** C33: the log of the page is made of the entries of the requested priority (of all of them
    when the parameter is absent or unknown) that are not older than the requested time, each
    once, in the requested order: without a valid one, the oldest entries come first, unless a
    time other than zero was given. The page shows the longest beginning of this log whose
    JSON text has no more than 2,000,000 bytes, so the last entries of a larger log are
    missing. A time that is not a 64-bit number is refused. The cut is what [canlog]
    promises ([serialize_logs_cut]). *)
Theorem logs_page_entries `{TimedSizedMapApi SupportedRpcService unit} `{CanlogCrate}
    `{MetricsEncoderCrate} `{HashMapIter} `{IcHttpTypes} `{CanlogPagesLaws} `{Lowercase}
    (info : SystemInfo) (buffers : CanlogBuffers) (request : IcHttpRequest) (s : CanisterState) :
  in_replicated_execution info = false -> request_path request = "/logs" ->
  match default (Some 0) (option_map u64_from_str (raw_query_param request "time")) with
  | Some since =>
      exists entries shown,
        http_request info buffers request s =
          Return (builder_build (with_body_and_content_length
            (bytes_of_string (log_json (take shown entries)))
            (builder_header "Content-Type" "application/json; charset=utf-8" builder_ok)), s) /\
        log_fits MAX_BODY_SIZE (take shown entries) /\
        (forall n, log_fits MAX_BODY_SIZE (take n entries) ->
           take n entries `prefix_of` take shown entries) /\
        entries ≡ₚ filter (fun entry => since <= entry_timestamp entry)
          (concat (map (buffered buffers) (shown_priorities request))) /\
        sorted_by_timestamp
          match option_map Sort_from_str (raw_query_param request "sort") with
          | Some (Some sort) => sort
          | _ => if since =? 0 then Sort.Ascending else Sort.Descending
          end entries
  | None =>
      http_request info buffers request s =
        Return (builder_build (with_body_and_content_length
          (bytes_of_string "failed to parse the 'time' parameter") builder_bad_request), s)
  end.
Proof.
  intros Hr Hp. rewrite http_request_logs by done. unfold logs_page.
  assert (Hlogs : pushed_logs buffers (raw_query_param request "priority") =
    concat (map (buffered buffers) (shown_priorities request))).
  { unfold pushed_logs, shown_priorities.
    destruct (option_map _ (raw_query_param request "priority")) as [[[]|e]|]; simpl;
      by rewrite !push_logs_appends, ?app_nil_r, ?app_nil_l, <- ?app_assoc. }
  rewrite Hlogs. clear Hlogs.
  assert (Hcut : forall entries, exists shown,
    serialize_logs MAX_BODY_SIZE entries = log_json (take shown entries) /\
    log_fits MAX_BODY_SIZE (take shown entries) /\
    forall n, log_fits MAX_BODY_SIZE (take n entries) ->
      take n entries `prefix_of` take shown entries).
  { intros entries. apply serialize_logs_cut. pose proof log_json_empty as Hl.
    unfold log_fits, MAX_BODY_SIZE in *. lia. }
  assert (Hpage : forall since, exists entries,
    (let log := filter (fun entry => since <= entry_timestamp entry)
        (concat (map (buffered buffers) (shown_priorities request))) in
     sort_logs (ordering_from_query_params (raw_query_param request "sort") since) log) = entries /\
    entries ≡ₚ filter (fun entry => since <= entry_timestamp entry)
      (concat (map (buffered buffers) (shown_priorities request))) /\
    sorted_by_timestamp (ordering_from_query_params (raw_query_param request "sort") since)
      entries).
  { intros since. eexists. split; [reflexivity|]. split; [apply sort_logs_permutation|].
    apply sort_logs_sorted. }
  destruct (raw_query_param request "time") as [arg|]; simpl;
    [destruct (u64_from_str arg) as [since|]; simpl; [|done]|].
  - destruct (Hpage since) as (entries & E & Hperm & Hsort).
    destruct (Hcut entries) as (shown & Ec & Hfit & Hmax). exists entries, shown.
    cbv zeta in E. rewrite E, Ec. split_and!; [done..|]. revert Hsort. unfold ordering_from_query_params.
    by destruct (option_map Sort_from_str _) as [[]|].
  - destruct (Hpage 0) as (entries & E & Hperm & Hsort).
    destruct (Hcut entries) as (shown & Ec & Hfit & Hmax). exists entries, shown.
    cbv zeta in E. rewrite E, Ec. split_and!; [done..|]. revert Hsort. unfold ordering_from_query_params.
    by destruct (option_map Sort_from_str _) as [[]|].
Qed.

(** ** Witnesses *)

(** Concrete functions for the parameters: the encoder is the list of its lines. *)
Module Concrete.
#[export] Instance metrics_encoder : MetricsEncoderCrate := {
  MetricsEncoder := list Sample;
  LabeledMetricsBuilder := string;
  io_Error := string;
  io_Error_to_string := id;
  MetricsEncoder_new _ := [];
  encode_gauge name value _ := fun w => (w ++ [(name, [], value)], Ok ());
  gauge_vec name _ := fun w => (w, Ok name);
  counter_vec name _ := fun w => (w, Ok name);
  labeled_value b labels value := fun w => (w ++ [(b, labels, value)], Ok b);
  into_inner w := concat (map (fun '(name, _, _) => bytes_of_string name) w);
}.
#[export] Instance metrics_encoder_laws : MetricsEncoderLaws.
Proof.
  unshelve econstructor; [exact (fun w => w)|exact (fun b => b)|..]; intros; by repeat eexists.
Defined.
#[export] Instance hash_map_iter : HashMapIter := { hash_iter K V _ _ m := map_to_list m }.
#[export] Instance hash_map_iter_laws : HashMapIterLaws.
Proof. by split. Qed.

(** A request is its path and its parameters, a response its status and its body. *)
#[export] Instance ic_http_types : IcHttpTypes := {
  IcHttpRequest := string * list (string * string);
  request_path r := r.1;
  raw_query_param r name :=
    option_map snd (find (fun '(n, _) => String.eqb n name) r.2);
  IcHttpResponse := Z * list byte;
  HttpResponseBuilder := Z * list byte;
  builder_ok := (200, []);
  builder_bad_request := (400, []);
  builder_not_found := (404, []);
  builder_server_error msg := (500, bytes_of_string msg);
  builder_header _ _ b := b;
  with_body_and_content_length body b := (b.1, body);
  builder_build b := b;
}.

(** An entry is its time and its text. *)
Definition earlier (a b : Z * string) : Prop := a.1 <= b.1.
Definition later (a b : Z * string) : Prop := b.1 <= a.1.
#[export] Instance earlier_dec : RelDecision earlier.
Proof. intros a b. unfold earlier. apply _. Defined.
#[export] Instance later_dec : RelDecision later.
Proof. intros a b. unfold later. apply _. Defined.
#[export] Instance earlier_total : Total earlier.
Proof. intros a b. unfold earlier. lia. Qed.
#[export] Instance later_total : Total later.
Proof. intros a b. unfold later. lia. Qed.
Definition joined (entries : list (Z * string)) : string :=
  String.concat "," (map snd entries).
(** The length of the longest beginning, of at most [k] entries, that fits. *)
Fixpoint cut (n : Z) (entries : list (Z * string)) (k : nat) : nat :=
  match k with
  | O => O
  | S k' =>
      if bool_decide (Z.of_nat (String.length (joined (take k entries))) <= n) then k
      else cut n entries k'
  end.
#[export] Instance canlog_pages : CanlogPages := {
  CanlogEntry := Z * string;
  entry_timestamp := fst;
  CanlogBuffers := Priority -> list (Z * string);
  buffered b priority := b priority;
  push_logs b priority entries := entries ++ b priority;
  Sort_from_str s :=
    if String.eqb s "asc" then Some Sort.Ascending
    else if String.eqb s "desc" then Some Sort.Descending else None;
  sort_logs sort entries :=
    match sort with
    | Sort.Ascending => merge_sort earlier entries
    | Sort.Descending => merge_sort later entries
    end;
  log_json := joined;
  serialize_logs n entries := joined (take (cut n entries (length entries)) entries);
}.
Lemma take_prefix_of {A} (l : list A) j k :
  (j <= k \/ length l <= k)%nat -> take j l `prefix_of` take k l.
Proof.
  intros [H|H].
  - rewrite <- (Nat.min_l j k H), <- take_take. apply prefix_take.
  - rewrite (take_ge l k H). apply prefix_take.
Qed.
Lemma cut_spec n entries k :
  log_fits n [] ->
  log_fits n (take (cut n entries k) entries) /\
  forall j, (j <= k)%nat -> log_fits n (take j entries) -> (j <= cut n entries k)%nat.
Proof.
  intros H0. induction k as [|k [IH1 IH2]]; cbn [cut].
  - split; [exact H0|]. lia.
  - case_bool_decide as Hk.
    + split; [exact Hk|]. done.
    + split; [exact IH1|]. intros j Hj Hf. destruct (decide (j = S k)) as [->|]; [done|].
      apply IH2; [lia|done].
Qed.
#[export] Instance canlog_pages_laws : CanlogPagesLaws.
Proof.
  split; [done|intros [] entries; apply merge_sort_Permutation| |done|].
  - intros [] entries; [exact (Sorted_merge_sort earlier entries)|
                        exact (Sorted_merge_sort later entries)].
  - intros n entries H0. exists (cut n entries (length entries)).
    destruct (cut_spec n entries (length entries) H0) as [Hfit Hmax].
    split_and!; [done|exact Hfit|]. intros j Hj. apply take_prefix_of.
    destruct (decide (j <= length entries)%nat) as [|Hn]; [auto|].
    right. rewrite (take_ge entries j) in Hj by lia. apply Hmax; [lia|].
    by rewrite take_ge.
Qed.
End Concrete.

Section Witnesses.
Import Instances.Concrete Concrete.

Lemma metric_value_precision_witness : f64_value (metric_value (2 ^ 53)) = 2 ^ 53.
Proof. apply (metric_value_precision (2 ^ 53)); [by vm_compute|reflexivity || lia]. Defined.

Definition quiet : SystemInfo := {|
  in_replicated_execution := false; system_time := 9000000; canister_balance128 := 1;
  canister_version := 2; stable_size := 3; heap_memory_size_bytes := 4 |}.
Definition page (path : string) (params : list (string * string)) : IcHttpRequest :=
  (path, params).
Definition response (status : Z) (body : list byte) : IcHttpResponse := (status, body).
Definition some_logs : CanlogBuffers := fun priority =>
  match priority with
  | Priority.Info => [(5, "b"); (1, "a")]
  | Priority.Debug => [(3, "c")]
  | Priority.TraceHttp => []
  end.

Lemma metrics_page_complete_witness :
  exists writer lines,
    http_request quiet some_logs (page "/metrics" []) initial_state =
      Return (response 200 (into_inner writer), initial_state) /\
    samples writer = gauges quiet ++ lines.
Proof.
  destruct (metrics_page_complete quiet some_logs (page "/metrics" []) initial_state eq_refl eq_refl)
    as (writer & lines & E & S & _).
  by exists writer, lines.
Defined.

Lemma logs_page_entries_witness :
  exists entries shown,
    http_request quiet some_logs (page "/logs" [("time", "3")]) initial_state =
      Return (response 200 (bytes_of_string (log_json (take shown entries))),
        initial_state) /\
    sorted_by_timestamp Sort.Descending entries.
Proof.
  destruct (logs_page_entries quiet some_logs (page "/logs" [("time", "3")]) initial_state
    eq_refl eq_refl) as (entries & shown & E & _ & _ & _ & S).
  by exists entries, shown.
Defined.
End Witnesses.
