(* ===== verification/Admin.v ===== *)
(** The management of the canister: who may change the API keys, what a change does, and what
    an upgrade does to the settings (operations of Main.v). *)

From S2P Require Import Prelude Collections EvmRpcTypes Externals Types Providers Memory.
From S2P Require Import ProviderApi Main.
From S2P Require Instances.
Open Scope Z_scope.
Open Scope canister_scope.

(** ** API keys *)

(** The provider with this id exists and takes an API key. *)
Definition takes_key (id : ProviderId) : Prop :=
  exists p auth public_url, p ∈ PROVIDERS /\ provider_id p = id /\
    access p = RpcAccess.Authenticated auth public_url.

Definition valid_entry (entry : ProviderId * option string) : Prop :=
  takes_key entry.1 /\ forall key, entry.2 = Some key -> validate_api_key key = Ok ().

(** What the last entry for a provider says. *)
Fixpoint last_entry (id : ProviderId) (entries : list (ProviderId * option string)) :
    option (option string) :=
  match entries with
  | [] => None
  | (id', key) :: entries =>
      match last_entry id entries with
      | Some key => Some key
      | None => if id' =? id then Some key else None
      end
  end.

Lemma find_provider_takes_key id :
  match find_provider (fun provider => provider_id provider =? id) with
  | Some p => match access p with
              | RpcAccess.Authenticated _ _ => takes_key id
              | RpcAccess.Unauthenticated _ => ~ takes_key id
              end
  | None => ~ takes_key id
  end.
Proof.
  unfold takes_key. destruct (find_provider _) as [p|] eqn:E.
  - pose proof (proj1 (find_provider_Some id p) E) as [Hp Hid].
    destruct (access p) as [auth public|public] eqn:Ea; [by exists p, auth, public|].
    intros (q & auth & public' & Hq & Hqid & Hqa).
    assert (find_provider (fun provider => provider_id provider =? id) = Some q)
      by by apply find_provider_Some.
    congruence.
  - intros (p & auth & public & Hp & Hid & _).
    assert (find_provider (fun provider => provider_id provider =? id) = Some p)
      by by apply find_provider_Some.
    congruence.
Qed.

Section Keys.
Context `{TSM : TimedSizedMapApi SupportedRpcService unit} `{Canlog : CanlogCrate}.

Lemma update_api_key_spec entry s :
  match update_api_key entry s with
  | Return (_, s') =>
      valid_entry entry /\
      s' = set_keys (partial_alter (fun _ => option_map Build_ApiKey entry.2) entry.1
                       (API_KEY_MAP s)) s
  | Panic _ => ~ valid_entry entry
  end.
Proof.
  destruct entry as [id key]. unfold update_api_key, valid_entry. cbn [fst snd].
  pose proof (find_provider_takes_key id) as Ht.
  destruct (find_provider _) as [p|]; [|naive_solver].
  destruct (access p) as [auth public|public]; [|naive_solver].
  destruct key as [key|]; [|split; [split; [done|by intros ?]|done]].
  destruct (ApiKey_try_from key) as [k|e] eqn:Ek.
  - apply ApiKey_try_from_Ok in Ek as [-> Hv]. split; [|done]. split; [done|]. by intros ? [= <-].
  - intros [_ Hk]. specialize (Hk key eq_refl).
    assert (ApiKey_try_from key = Ok {| api_key_0 := key |}) by by apply ApiKey_try_from_Ok.
    congruence.
Qed.

(** C13: [updateApiKeys] succeeds exactly when every entry names an existing provider that
    takes a key, with no key or a valid one. Then each named provider has the key of its last
    entry, or none, and nothing else has changed. Otherwise the message traps, and no key of
    the list is stored. *)
Theorem update_api_keys_spec (entries : list (ProviderId * option string))
    (s : CanisterState) :
  match update_api_keys entries s with
  | Return (_, s') =>
      Forall valid_entry entries /\ s' = set_keys (API_KEY_MAP s') s /\
      forall id, API_KEY_MAP s' !! id =
        match last_entry id entries with
        | Some key => option_map Build_ApiKey key
        | None => API_KEY_MAP s !! id
        end
  | Panic _ => ~ Forall valid_entry entries
  end.
Proof.
  unfold update_api_keys. revert s.
  induction entries as [|entry entries IH]; intros s; [by destruct s|].
  cbn [for_each]. unfold mbind, M_bind. pose proof (update_api_key_spec entry s) as He.
  destruct (update_api_key entry s) as [[[] s1]|msg]; [|by intros [? ?]%Forall_cons].
  destruct He as [Hv ->]. specialize (IH (set_keys (partial_alter
    (fun _ => option_map Build_ApiKey entry.2) entry.1 (API_KEY_MAP s)) s)).
  destruct (for_each entries update_api_key _) as [[[] s2]|msg];
    [|by intros [? ?]%Forall_cons].
  destruct IH as (Hvs & Es & Hk). split_and!; [by constructor| |].
  - rewrite Es. done.
  - intros id. rewrite Hk. destruct entry as [id' key]. cbn [last_entry fst snd API_KEY_MAP set_keys].
    destruct (last_entry id entries) as [key'|]; [done|].
    destruct (Z.eqb_spec id' id) as [->|Hne].
    + by rewrite lookup_partial_alter_eq.
    + by rewrite lookup_partial_alter_ne.
Qed.

(** C14: only the controllers of the canister and the principals of the last configuration
    can change API keys: for anyone else the message is refused and changes nothing. *)
Theorem update_api_keys_guarded (env : Env) (entries : list (ProviderId * option string))
    (principals : list Principal) (s : CanisterState) :
  let update := set_api_key_principals principals ;; update_api_keys_endpoint env entries in
  let allowed := caller env ∈ principals \/ is_controller env (caller env) = true in
  (allowed ->
     update s = (update_api_keys entries ;; mret (Ok ())) (set_principals principals s)) /\
  (~ allowed -> update s = Return (Err "You are not authorized", set_principals principals s)).
Proof.
  intros update allowed. subst update. unfold update_api_keys_endpoint,
    require_api_key_principal_or_controller, mbind, M_bind, mret, M_ret.
  rewrite set_api_key_principals_eq, is_api_key_principal_eq. cbn [MANAGE_API_KEYS set_principals].
  destruct (bool_decide (caller env ∈ principals)) eqn:Ed;
    [apply bool_decide_eq_true in Ed|apply bool_decide_eq_false in Ed];
    destruct (is_controller env (caller env)) eqn:Ec; simpl; subst allowed; split; naive_solver.
Qed.
End Keys.

(** ** Life cycle *)

Section Upgrade.
Context `{TSM : TimedSizedMapApi SupportedRpcService unit} `{Canlog : CanlogCrate}.
Context `{RegexCrate}.

Definition compiles (substitution : RegexSubstitution) : Prop :=
  exists regex, regex_compile (pattern substitution) = Ok regex.

Lemma OverrideProvider_try_from_spec value :
  match OverrideProvider_try_from value with
  | Ok override =>
      override = {| override_url := value |} /\
      forall substitution, value = Some substitution -> compiles substitution
  | Err _ => exists substitution, value = Some substitution /\ ~ compiles substitution
  end.
Proof.
  unfold OverrideProvider_try_from, compiles. destruct value as [sub|]; simpl; [|naive_solver].
  destruct (regex_compile (pattern sub)) as [r|e] eqn:E; simpl; [naive_solver|].
  exists sub. split; [done|]. intros [r Er]. congruence.
Qed.

Lemma post_upgrade_returns (args : InstallArgs) s :
  let valid := forall substitution,
    override_provider args = Some (Some substitution) -> compiles substitution in
  match post_upgrade args s with
  | Return (_, s') =>
      valid /\
      s' = {| UNSTABLE_METRICS := UNSTABLE_METRICS s;
              UNSTABLE_HTTP_REQUEST_COUNTER := UNSTABLE_HTTP_REQUEST_COUNTER s;
              UNSTABLE_RPC_SERVICE_OK_RESULTS_TIMESTAMPS :=
                UNSTABLE_RPC_SERVICE_OK_RESULTS_TIMESTAMPS s;
              IS_DEMO_ACTIVE := default (IS_DEMO_ACTIVE s) (demo args);
              API_KEY_MAP := API_KEY_MAP s;
              MANAGE_API_KEYS := default (MANAGE_API_KEYS s) (manage_api_keys args);
              LOG_FILTER := default (LOG_FILTER s) (log_filter args);
              OVERRIDE_PROVIDER :=
                match override_provider args with
                | Some value => {| override_url := value |}
                | None => OVERRIDE_PROVIDER s
                end;
              NUM_SUBNET_NODES := default (NUM_SUBNET_NODES s) (nodes_in_subnet args) |}
  | Panic _ => ~ valid
  end.
Proof.
  intros valid. subst valid. unfold post_upgrade, when, mbind, M_bind, mret, M_ret,
    set_demo_active, set_log_filter, set_override_provider, set_num_subnet_nodes, modify, panic.
  destruct s, args as [demo principals filter override nodes]. cbn [Main.demo Main.manage_api_keys
    Main.log_filter Main.override_provider Main.nodes_in_subnet].
  pose proof (OverrideProvider_try_from_spec (default None override)) as Ho.
  destruct demo, principals, filter, override as [value|], nodes;
    rewrite ?set_api_key_principals_eq; cbn in *;
    try (destruct (OverrideProvider_try_from value) as [o|e];
         [destruct Ho as [-> Ho]|destruct Ho as (sub & -> & Hn)]);
    first [split; [naive_solver|reflexivity] | intros Hv; apply Hn, Hv; reflexivity].
Qed.

(** C31: an upgrade keeps the stable settings and the API keys, resets the heap cells (the
    metrics, the counter of requests and the record of the successful calls), and replaces
    exactly the settings that its arguments give; a pattern that does not compile as a regular
    expression makes the upgrade trap, and the old version stays. *)
Theorem upgrade_spec (args : InstallArgs) (s : CanisterState) :
  let valid := forall substitution,
    override_provider args = Some (Some substitution) -> compiles substitution in
  match post_upgrade args (upgraded_state s) with
  | Return (_, s') =>
      valid /\
      UNSTABLE_METRICS s' = Metrics_default /\ UNSTABLE_HTTP_REQUEST_COUNTER s' = 0 /\
      UNSTABLE_RPC_SERVICE_OK_RESULTS_TIMESTAMPS s' = SupportedRpcServiceUsage_new /\
      API_KEY_MAP s' = API_KEY_MAP s /\
      IS_DEMO_ACTIVE s' = default (IS_DEMO_ACTIVE s) (demo args) /\
      MANAGE_API_KEYS s' = default (MANAGE_API_KEYS s) (manage_api_keys args) /\
      LOG_FILTER s' = default (LOG_FILTER s) (log_filter args) /\
      OVERRIDE_PROVIDER s' = match override_provider args with
                             | Some value => {| override_url := value |}
                             | None => OVERRIDE_PROVIDER s
                             end /\
      NUM_SUBNET_NODES s' = default (NUM_SUBNET_NODES s) (nodes_in_subnet args)
  | Panic _ => ~ valid
  end.
Proof.
  intros valid. pose proof (post_upgrade_returns args (upgraded_state s)) as Hp. simpl in Hp.
  destruct (post_upgrade args (upgraded_state s)) as [[[] s']|msg]; [|done].
  destruct Hp as [Hv ->]. done.
Qed.
End Upgrade.
