(* ===== verification/Consensus.v ===== *)
(** What the answer of an RPC method is worth: every method is one generic query of several
    providers, whose consistent results are backed by as many providers as the caller's
    strategy asks for. *)

From S2P Require Import Prelude Collections EvmRpcTypes MultiRpcResult Externals Types Providers.
From S2P Require Import Memory ProviderApi Numbers Hex.
From S2P Require Import CandidTypes JsonTypes CkethConversion EthRpc Http RpcClient.
From S2P Require Import ProviderChoice CandidRpc Main.
From S2P Require Instances.
Open Scope Z_scope.
Open Scope canister_scope.

Section Entries.
Context {K : Type} `{MRL : MultiResultsLaws K}.

(** The results of the requests that could be built and the errors of the others, together. *)
Lemma split_entries {I O E} (h : K -> I -> Result O E) (l : list (K * Result I E)) :
  map (fun '(k, e) => (k, Err e)) (omap err_entry l) ++
  map (fun '(k, i) => (k, h k i)) (omap ok_entry l) ≡ₚ
  map (fun '(k, r) => (k, result_and_then r (h k))) l.
Proof.
  induction l as [|[p [i|e]] l IH]; [done|cbn..].
  - rewrite <- Permutation_middle. by rewrite IH.
  - by rewrite IH.
Qed.

Lemma split_keys {I E} (l : list (K * Result I E)) :
  (omap err_entry l).*1 ++ (omap ok_entry l).*1 ≡ₚ l.*1.
Proof.
  induction l as [|[k [i|e]] l IH]; [done|cbn..].
  - rewrite <- Permutation_middle. by rewrite IH.
  - by rewrite IH.
Qed.

Lemma keys_map {I O E} (h : K -> I -> Result O E) (l : list (K * I)) :
  (map (fun '(k, i) => (k, h k i)) l).*1 = l.*1.
Proof. induction l as [|[k i] l IH]; cbn; [done|]. by rewrite IH. Qed.

Lemma keys_of {A} (g : K -> A) (ps : list K) : (map (fun p => (p, g p)) ps).*1 = ps.
Proof. induction ps as [|p ps IH]; cbn; [done|]. by rewrite IH. Qed.

(** The collection that [parallel_call] leaves: one entry per key. *)
Lemma combined_answers {I O E} (m : MultiResults I E) (h : K -> I -> Result O E) :
  NoDup (mr_into_iter m).*1 ->
  mr_into_iter (mr_add_errors (mr_into_inner m).2 (mr_parallel_call h (mr_into_inner m).1)) ≡ₚ
  map (fun '(k, r) => (k, result_and_then r (h k))) (mr_into_iter m).
Proof.
  intros Hnd. destruct (mr_into_inner_entries m) as [Hok Herr].
  assert (Hk : NoDup ((mr_into_inner m).2.*1 ++ (mr_into_inner m).1.*1)).
  { by rewrite Hok, Herr, split_keys. }
  assert (Hpc : mr_into_iter (mr_parallel_call h (mr_into_inner m).1) ≡ₚ
    map (fun '(k, i) => (k, h k i)) (mr_into_inner m).1).
  { apply mr_parallel_call_entries. by apply NoDup_app in Hk as (_ & _ & ?). }
  rewrite mr_add_errors_entries by (rewrite Hpc, keys_map; exact Hk).
  rewrite Hpc, Hok, Herr. apply split_entries.
Qed.
Lemma combined_entries {I O E} (m : MultiResults I E) (g : K -> Result I E)
    (h : K -> I -> Result O E) (ps : list K) :
  NoDup ps -> mr_into_iter m ≡ₚ map (fun p => (p, g p)) ps ->
  mr_into_iter (mr_add_errors (mr_into_inner m).2 (mr_parallel_call h (mr_into_inner m).1)) ≡ₚ
  map (fun p => (p, result_and_then (g p) (h p))) ps.
Proof.
  intros Hnd Hm. rewrite combined_answers by (by rewrite Hm, keys_of).
  by rewrite Hm, map_map.
Qed.
End Entries.

(** At least [n] of the providers, all different, gave an answer that satisfies [P]. *)
Definition agree {O} (providers : list RpcService) (answer : RpcService -> RpcResult O) (n : Z)
    (P : O -> Prop) : Prop :=
  exists ps, NoDup ps /\ ps ⊆ providers /\ n <= Z.of_nat (length ps) /\
    forall p, p ∈ ps -> exists x, answer p = Ok x /\ P x.

Section Reduce.
Context `{MRL : MultiResultsLaws RpcService} {O : Type}.
Context `{RL : !ReduceApi RpcService O RpcError} `{PE : PartialEq O} `{SJ : SerdeJson O}.
Context `{!ReduceLaws RpcService O RpcError}.
Context (providers : list RpcService) (answer : RpcService -> RpcResult O).
Context (results : MultiCallResults O).
Hypothesis Hnd : NoDup providers.
Hypothesis Hentries : mr_into_iter results ≡ₚ map (fun p => (p, answer p)) providers.

Lemma threshold_agree min v :
  reduce_with_threshold min results = Ok v ->
  agree providers answer min (fun x => to_vec x = to_vec v).
Proof.
  intros (entries & Hsub & Hlen & Hall)%threshold_Ok.
  rewrite Hentries in Hsub. exists entries.*1.
  assert (Hin : forall e, e ∈ entries -> e.1 ∈ providers /\ e.2 = answer e.1).
  { intros e He. eapply (elem_of_submseteq _ _ e) in Hsub; [|done].
    apply list_elem_of_In, in_map_iff in Hsub as (p & <- & Hp). simpl.
    by rewrite list_elem_of_In. }
  assert (Hk : entries.*1 ⊆+ providers).
  { rewrite <- (keys_of answer providers). by apply fmap_submseteq. }
  split_and!.
  - destruct (submseteq_Permutation _ _ Hk) as [k E].
    rewrite E in Hnd. by apply NoDup_app in Hnd as (? & _).
  - intros p Hp. by eapply elem_of_submseteq.
  - by rewrite length_fmap.
  - intros p (e & -> & He)%list_elem_of_fmap. destruct (Hin e He) as [_ Ea].
    rewrite Forall_forall in Hall. specialize (Hall e He). destruct e as [p r].
    destruct Hall as (x & -> & Hx). simpl in *. eauto.
Qed.

Lemma equality_agree v :
  reduce_with_equality results = Ok v ->
  providers <> [] /\
  forall p, p ∈ providers -> exists x, answer p = Ok x /\ peq x v = true.
Proof.
  intros [Hne Hall]%equality_Ok. split.
  - intros ->. apply Hne. by apply Permutation_nil_r in Hentries.
  - intros p Hp. rewrite Hentries, Forall_forall in Hall.
    specialize (Hall (p, answer p)). apply Hall, list_elem_of_In, in_map_iff.
    exists p. by rewrite list_elem_of_In in Hp.
Qed.
End Reduce.

Section Query.
Context `{TSM : TimedSizedMapApi SupportedRpcService unit} `{Canlog : CanlogCrate}.
Context `{RustOrd HttpHeader} `{JsonRpcId} `{SerdeValue} `{HttpCrate} `{RegexCrate}.
Context `{MinicborCrate} `{MRL : MultiResultsLaws RpcService}.

(** ** What is asked of a provider, and its answer *)

Lemma provider_request_state {I} method (params : I) op size p s r s' :
  provider_request method params op size p s = Return (r, s') -> s' = s.
Proof.
  unfold provider_request, M_and_then, get_override_provider, get_state,
    ResolvedRpcService_post, ResolvedRpcService_api, mbind, M_bind, mret, M_ret, panic.
  destruct (resolve_rpc_service p) as [[api|provider]|e]; simpl.
  - intros E. repeat case_match; simplify_eq; done.
  - destruct (Provider_api provider s) as [[api s1]|msg] eqn:Ea; [|done].
    apply Provider_api_state in Ea as ->. intros E. repeat case_match; simplify_eq; done.
  - intros E. repeat case_match; simplify_eq; done.
Qed.

(** The request built in a given state. *)
Definition built_request {I} (method : string) (params : I) (op : list byte) (size : u64)
    (s : CanisterState) (p : RpcService) : RpcResult (HttpRequest (JsonRpcRequest I)) :=
  match provider_request method params op size p s with
  | Return (r, _) => r
  | Panic _ => Err (RpcError.ProviderError ProviderError.ProviderNotFound)
  end.

(** The answer of a provider: the outcall's, for a request that could be built. *)
Definition provider_answer {I O} (method : string) (params : I) (op : list byte) (size : u64)
    (world : World I O) (s : CanisterState) (p : RpcService) : RpcResult O :=
  result_and_then (built_request method params op size s p)
    (fun request => json_rpc_value (outcall world p request)).

Definition transform_op_of (O : Type) `{HttpResponsePayload O} : list byte :=
  default [] (option_map minicbor_encode (response_transform (T := O))).

Lemma build_requests_entries {I} method (params : I) op size ps
    (m : MultiResults (HttpRequest (JsonRpcRequest I)) RpcError) s :
  NoDup (ps ++ (mr_into_iter m).*1) ->
  match build_requests (provider_request method params op size) ps m s with
  | Return (m', s') =>
      s' = s /\
      mr_into_iter m' ≡ₚ
        map (fun p => (p, built_request method params op size s p)) ps ++ mr_into_iter m
  | Panic msg =>
      exists p, p ∈ ps /\ provider_request method params op size p s = Panic msg
  end.
Proof.
  revert m. induction ps as [|p ps IH]; intros m Hnd; [done|].
  cbn [build_requests]. unfold mbind, M_bind.
  destruct (provider_request method params op size p s) as [[r s1]|msg] eqn:Er;
    [|exists p; split; [left|done]].
  pose proof (provider_request_state _ _ _ _ _ _ _ _ Er) as ->.
  apply NoDup_cons in Hnd as [Hp Hnd].
  destruct (mr_insert_once_entries p r m) as (m' & -> & Hm').
  { intros Hin. apply Hp, elem_of_app. by right. }
  simpl. specialize (IH m').
  destruct (build_requests (provider_request method params op size) ps m' s)
    as [[m'' s'']|msg].
  - destruct IH as [-> Hm''].
    { rewrite Hm'. cbn. rewrite <- Permutation_middle. by apply NoDup_cons. }
    split; [done|]. rewrite Hm'', Hm'. cbn. unfold built_request at 2. rewrite Er.
    by rewrite <- Permutation_middle.
  - destruct IH as (q & Hq & E).
    { rewrite Hm'. cbn. rewrite <- Permutation_middle. by apply NoDup_cons. }
    exists q. split; [by right|done].
Qed.

Lemma for_each_record_returns l now s :
  exists s', for_each l (fun service => record_ok_result service now) s = Return ((), s').
Proof.
  revert s. induction l as [|x l IH]; intros s; [by eexists|]. cbn [for_each].
  unfold mbind, M_bind, record_ok_result, modify. apply IH.
Qed.

(** A first poll traps exactly when the URL has no host; otherwise it takes an id and counts the
    request. *)
Definition started (method : MetricRpcMethod) (host : MetricRpcHost) (s : CanisterState) :
  CanisterState :=
  set_metrics (set_requests (add_metric_entry (method, host) 1 (requests (UNSTABLE_METRICS s)))
      (UNSTABLE_METRICS s))
    (set_counter (wrap 64 (UNSTABLE_HTTP_REQUEST_COUNTER s + 1)) s).

Lemma start_call_eq {I} method (q : HttpRequest (JsonRpcRequest I)) s :
  start_call method q s =
  match uri_host (req_uri q) with
  | Some host => Return ((), started method host s)
  | None => Panic NO_HOST
  end.
Proof.
  unfold start_call, generate_request_id, next_request_id, on_request, get_state, modify,
    update_metrics, mbind, M_bind, mret, M_ret. cbn [req_uri].
  by destruct (uri_host (req_uri q)).
Qed.

Lemma started_comm method h1 h2 s :
  started method h1 (started method h2 s) = started method h2 (started method h1 s).
Proof. unfold started. cbn -[add_metric_entry]. by rewrite add_metric_entry_comm. Qed.

Lemma start_calls_spec {I} method (l : list (RpcService * HttpRequest (JsonRpcRequest I))) s :
  match start_calls method l s with
  | Return (_, _) => Forall (fun e => uri_host (req_uri e.2) <> None) l
  | Panic msg => msg = NO_HOST /\ Exists (fun e => uri_host (req_uri e.2) = None) l
  end.
Proof.
  revert s. induction l as [|[p q] l IH]; intros s; [by constructor|].
  unfold start_calls in *. cbn [for_each]. unfold mbind, M_bind.
  rewrite start_call_eq. destruct (uri_host (req_uri q)) as [host|] eqn:Eh;
    [|split; [done|by constructor]].
  specialize (IH (started method host s)). destruct (for_each l _ _) as [[]|msg];
    [constructor; [cbn [snd]; by rewrite Eh|done]|].
  destruct IH as [-> IH]. split; [done|]. by apply Exists_cons_tl.
Qed.

(** The calls may start in any order. *)
Lemma start_calls_order {I} method (l1 l2 : list (RpcService * HttpRequest (JsonRpcRequest I))) s :
  l1 ≡ₚ l2 -> start_calls method l1 s = start_calls method l2 s.
Proof.
  unfold start_calls. intros Hp. revert s.
  induction Hp as [|[p q] l1 l2 _ IH|[p1 q1] [p2 q2] l|l1 l2 l3 _ IH1 _ IH2]; intros s; [done|..].
  - cbn [for_each]. unfold mbind, M_bind. destruct (start_call method q s) as [[]|]; [apply IH|done].
  - cbn [for_each]. unfold mbind, M_bind. rewrite !start_call_eq.
    destruct (uri_host (req_uri q1)) as [h1|] eqn:E1, (uri_host (req_uri q2)) as [h2|] eqn:E2;
      rewrite ?start_call_eq, ?E1, ?E2, ?(started_comm method h2); done.
  - by rewrite IH1, IH2.
Qed.

(** A parallel call gives exactly one result per provider, its answer, and only when the URL of
    every request has a host; it panics only when one of the requests cannot be built or has a
    URL without a host. *)
Lemma parallel_call_spec {I O} `{HttpResponsePayload O} (self : EthRpcClient) method
    (params : I) size (world : World I O) s :
  NoDup (EthRpcClient_providers self) ->
  let request := provider_request method params (transform_op_of O)
    (ResponseSizeEstimate_get size) in
  match parallel_call self method params size world s with
  | Return (results, _) =>
      mr_into_iter results ≡ₚ
      map (fun p => (p, provider_answer method params (transform_op_of O)
                          (ResponseSizeEstimate_get size) world s p))
        (EthRpcClient_providers self) /\
      forall p q, p ∈ EthRpcClient_providers self -> request p s = Return (Ok q, s) ->
        uri_host (req_uri q) <> None
  | Panic msg => exists p, p ∈ EthRpcClient_providers self /\
      (request p s = Panic msg \/
       exists q, request p s = Return (Ok q, s) /\ uri_host (req_uri q) = None)
  end.
Proof.
  intros Hnd request. unfold parallel_call, mbind, M_bind. fold (transform_op_of O).
  pose proof (build_requests_entries method params (transform_op_of O)
    (ResponseSizeEstimate_get size) (EthRpcClient_providers self) mr_default s) as Hb.
  rewrite mr_default_entries, !app_nil_r in Hb. specialize (Hb Hnd).
  destruct (build_requests _ _ _ s) as [[m s1]|msg]; [|naive_solver].
  destruct Hb as [-> Hm]. pose proof (proj1 (mr_into_inner_entries m)) as Hok.
  destruct (mr_into_inner m) as [oks errors] eqn:Em. cbn [fst] in Hok.
  assert (Hreq : forall p q, (p, q) ∈ oks <->
    p ∈ EthRpcClient_providers self /\ built_request method params (transform_op_of O)
      (ResponseSizeEstimate_get size) s p = Ok q).
  { intros p q. rewrite Hok, list_elem_of_omap. setoid_rewrite Hm.
    setoid_rewrite list_elem_of_fmap. split.
    - intros ([k r] & (p' & [= -> ->] & Hp) & E). unfold ok_entry in E.
      destruct (built_request _ _ _ _ s p') eqn:Eb; [|done]. by injection E as -> ->.
    - intros [Hp Eb]. exists (p, Ok q). split; [|done]. exists p. by rewrite Eb. }
  pose proof (start_calls_spec method oks s) as Hstart.
  destruct (start_calls method oks s) as [[u s1]|msg].
  - unfold modify. pose proof (combined_entries m _
      (fun provider request => json_rpc_value (outcall world provider request))
      (EthRpcClient_providers self) Hnd Hm) as Hc. rewrite Em in Hc. simpl in Hc.
    match goal with |- context [for_each ?l ?f ?s0] =>
      destruct (for_each_record_returns l (resumed_at world) s0) as (s2 & ->) end.
    rewrite mr_len_entries, (Permutation_length Hc), length_map, Nat.eqb_refl.
    split; [done|]. intros p q Hp Eq. rewrite Forall_forall in Hstart.
    apply (Hstart (p, q)), Hreq. split; [done|]. unfold built_request. fold request. by rewrite Eq.
  - destruct Hstart as [-> ([p q] & Hin & Hh)%Exists_exists]. apply Hreq in Hin as [Hp Eb].
    exists p. split; [done|]. right. exists q. split; [|done]. unfold built_request in Eb.
    fold request in Eb. destruct (request p s) as [[r s']|msg] eqn:Er; [|done].
    pose proof (provider_request_state _ _ _ _ _ _ _ _ Er) as ->. by subst r.
Qed.

(** ** The generic query *)

Context `{UrlCrate}.

Definition run_query {I O R} `{HttpResponsePayload O} `{!ReduceApi RpcService O RpcError}
    `{PartialEq R} (method : RpcMethod) (params : I) (estimate : EthRpcClient -> u64)
    (convert : O -> R) (world : World I O) (self : CandidRpcClient) : M (MultiRpcResult R) :=
  size ← lift_outcome (response_size_estimate_or (client self) (estimate (client self)));
  results ← parallel_call (client self) (RpcMethod.RpcMethod_name method) params size world;
  result ← process_result method
    (ReductionStrategy_reduce (consensus_strategy (client self)) results);
  mret (multi_map convert result).

(** The number of providers that must agree. *)
Definition required (strategy : ReductionStrategy) (providers : list RpcService) : Z :=
  match strategy with
  | ByEquality => Z.of_nat (length providers)
  | ByThreshold min => min
  end.

(** The number of providers that a caller asks to agree: all of them, or its minimum. *)
Definition agreement (strategy : ConsensusStrategy) (providers : list RpcService) : Z :=
  match strategy with
  | ConsensusStrategy.Equality => Z.of_nat (length providers)
  | ConsensusStrategy.Threshold _ min => min
  end.
Lemma required_agreement strategy providers :
  required (ReductionStrategy_from strategy) providers = agreement strategy providers.
Proof. by destruct strategy. Qed.

Lemma for_each_count_returns {T} method (l : list (RpcService * T)) s :
  exists s', for_each l (fun '(service, _) => count_inconsistent method service) s =
    Return ((), s').
Proof.
  revert s. induction l as [|[x t] l IH]; intros s; [by eexists|]. cbn [for_each].
  unfold mbind, M_bind, count_inconsistent, update_metrics, modify, mret, M_ret.
  repeat case_match; apply IH || (simplify_eq; apply IH).
Qed.

Section Agreement.
Context {I O R : Type} `{HttpResponsePayload O} `{RA : !ReduceApi RpcService O RpcError}.
Context `{PO : PartialEqLaws O} `{PR : PartialEqLaws R} `{SJ : SerdeJsonLaws O}.
Context `{RL : !ReduceLaws RpcService O RpcError}.

Lemma to_vec_inj (x y : O) : to_vec x = to_vec y -> x = y.
Proof.
  intros E. apply (f_equal (from_slice (T := O))) in E. rewrite !from_to_vec in E.
  by injection E.
Qed.

(** Results that the reducer found inconsistent and that the conversion makes equal are the
    answers of all providers. *)
Lemma collapsed_agree (m : MultiCallResults O) (providers : list RpcService)
    (answer : RpcService -> RpcResult O) (convert : O -> R) w :
  NoDup providers -> mr_into_iter m ≡ₚ map (fun p => (p, answer p)) providers ->
  multi_map convert (Inconsistent (mr_into_iter m)) = Consistent (Ok w) ->
  agree providers answer (Z.of_nat (length providers)) (fun x => convert x = w).
Proof.
  intros Hnd Hm. unfold multi_map. set (mapped := map _ _).
  destruct (collapse_Inconsistent_inv mapped) as [(r & _ & Hall & ->)|[-> _]]; [|done].
  intros [= ->]. exists providers. split_and!; [done..|]. intros p Hp.
  assert (Hin : (p, answer p) ∈ mr_into_iter m).
  { rewrite Hm. apply list_elem_of_In, in_map_iff. exists p. by rewrite list_elem_of_In in Hp. }
  rewrite Forall_forall in Hall.
  specialize (Hall (p, match answer p with Ok ok => Ok (convert ok) | Err err => Err err end)).
  assert (Ea : match answer p with Ok ok => Ok (convert ok) | Err err => Err err end = Ok w).
  { apply Hall, list_elem_of_In, in_map_iff. exists (p, answer p).
    split; [done|]. by apply list_elem_of_In. }
  destruct (answer p) as [x|]; [|done]. injection Ea as <-. eauto.
Qed.

Lemma agree_weaken {A} (providers : list RpcService) (answer : RpcService -> RpcResult A)
    (n n' : Z) (P Q : A -> Prop) :
  n' <= n -> (forall x, P x -> Q x) -> agree providers answer n P -> agree providers answer n' Q.
Proof.
  intros Hn HPQ (ps & Hnd & Hsub & Hlen & Hall). exists ps. split_and!; [done..|lia|].
  intros p Hp. destruct (Hall p Hp) as (x & Ex & Hx). eauto.
Qed.

(** A reduction is consistent because enough providers agree, or because all of them do
    after the conversion. *)
Lemma reduce_agree (strategy : ReductionStrategy) (results : MultiCallResults O)
    (providers : list RpcService) (answer : RpcService -> RpcResult O) (convert : O -> R)
    (method : RpcMethod) s s' r w :
  NoDup providers -> mr_into_iter results ≡ₚ map (fun p => (p, answer p)) providers ->
  required strategy providers <= Z.of_nat (length providers) ->
  process_result method (ReductionStrategy_reduce strategy results) s = Return (r, s') ->
  multi_map convert r = Consistent (Ok w) ->
  agree providers answer (required strategy providers) (fun x => convert x = w).
Proof.
  intros Hnd Hp Hn E Hr.
  destruct (ReductionStrategy_reduce strategy results) as [v|[e|m]] eqn:Er; cbn in E.
  - injection E as <- <-. cbn in Hr. injection Hr as <-. destruct strategy as [|min].
    + destruct (equality_agree providers answer results Hnd Hp v Er) as [_ Ha].
      exists providers. split_and!; [done..|]. intros p Hin.
      destruct (Ha p Hin) as (x & Ex & Hx). apply peq_spec in Hx as ->. eauto.
    + eapply agree_weaken; [| |by eapply threshold_agree]; [done|].
      intros x Hx. simpl in Hx. by apply to_vec_inj in Hx as ->.
  - injection E as <- <-. done.
  - destruct (for_each_count_returns method (mr_into_iter m) s) as (s2 & Es).
    unfold mbind, M_bind in E. rewrite Es in E. injection E as <- <-.
    eapply agree_weaken; [exact Hn|intros x Hx; exact Hx|].
    eapply collapsed_agree; [done| |exact Hr].
    rewrite <- Hp. apply reduce_Inconsistent. destruct strategy; [by left|right; eauto].
Qed.

(** Unanimous results stay so, whatever the reducer makes of them. *)
Lemma reduce_unanimous (strategy : ReductionStrategy) (results : MultiCallResults O)
    (providers : list RpcService) (answer : RpcService -> RpcResult O) (convert : O -> R)
    (method : RpcMethod) s s' r reduced result :
  0 < required strategy providers <= Z.of_nat (length providers) ->
  mr_into_iter results ≡ₚ map (fun p => (p, answer p)) providers ->
  (forall p, p ∈ providers -> answer p = r) ->
  process_result method (ReductionStrategy_reduce strategy results) s = Return (reduced, s') ->
  multi_map convert reduced = result ->
  result = Consistent (result_map convert r).
Proof.
  intros Hn Hp Hall E <-.
  assert (Hentry : forall e, e ∈ mr_into_iter results -> e.2 = r).
  { intros e He. rewrite Hp in He. apply list_elem_of_In, in_map_iff in He as (p & <- & Hin).
    by apply Hall, list_elem_of_In. }
  destruct (ReductionStrategy_reduce strategy results) as [v|[e|m]] eqn:Er; cbn in E.
  - injection E as <- <-. cbn. f_equal.
    assert (exists k x, (k, Ok x) ∈ mr_into_iter results /\ x = v) as (k & x & Hx & ->).
    { destruct strategy as [|min]; cbn in Er, Hn.
      - apply equality_Ok in Er as [Hne Hf]. destruct (mr_into_iter results) as [|[k a] l]; [done|].
        apply Forall_cons in Hf as [(x & -> & Hx) _]. apply peq_spec in Hx. exists k, x.
        split; [left|done].
      - apply threshold_Ok in Er as ([|[k a] l] & Hsub & Hlen & Hf); [simpl in Hlen; lia|].
        apply Forall_cons in Hf as [(x & -> & Hx) _]. apply to_vec_inj in Hx. exists k, x.
        split; [|done]. eapply elem_of_submseteq; [|exact Hsub]. left. }
    by rewrite <- (Hentry _ Hx).
  - injection E as <- <-. cbn. f_equal.
    destruct (reduce_ConsistentError results e) as [k Hk].
    { destruct strategy; [by left|right; eauto]. }
    by rewrite <- (Hentry _ Hk).
  - destruct (for_each_count_returns method (mr_into_iter m) s) as (s2 & Es).
    unfold mbind, M_bind in E. rewrite Es in E. injection E as <- <-.
    assert (Hm : mr_into_iter m ≡ₚ mr_into_iter results)
      by (apply reduce_Inconsistent; destruct strategy; [by left|right; eauto]).
    unfold multi_map. apply collapse_same.
    + intros Hnil. apply map_eq_nil in Hnil. rewrite Hnil, Hp in Hm.
      apply Permutation_nil_l in Hm. symmetry in Hm. apply map_eq_nil in Hm as ->. simpl in Hn. lia.
    + apply Forall_map, Forall_forall. intros [k a] Hin. rewrite Hm in Hin.
      apply Hentry in Hin. simpl in Hin. subst a. by destruct r.
Qed.

(** An inconsistent reduction holds the answers of all providers, and they are not all equal
    after the conversion. *)
Lemma reduce_inconsistent (strategy : ReductionStrategy) (results : MultiCallResults O)
    (providers : list RpcService) (answer : RpcService -> RpcResult O) (convert : O -> R)
    (method : RpcMethod) s s' r l :
  providers <> [] -> mr_into_iter results ≡ₚ map (fun p => (p, answer p)) providers ->
  process_result method (ReductionStrategy_reduce strategy results) s = Return (r, s') ->
  multi_map convert r = Inconsistent l ->
  l ≡ₚ map (fun p => (p, result_map convert (answer p))) providers /\
  ~ exists r', Forall (fun '(_, r'') => r'' = r') l.
Proof.
  intros Hne Hp E Hr.
  destruct (ReductionStrategy_reduce strategy results) as [v|[e|m]] eqn:Er; cbn in E;
    [injection E as <- <-; done..|].
  destruct (for_each_count_returns method (mr_into_iter m) s) as (s2 & Es).
  unfold mbind, M_bind in E. rewrite Es in E. injection E as <- <-.
  assert (Hm : mr_into_iter m ≡ₚ map (fun p => (p, answer p)) providers).
  { rewrite <- Hp. apply reduce_Inconsistent. destruct strategy; [by left|right; eauto]. }
  unfold multi_map in Hr. match type of Hr with collapse (Inconsistent ?l) = _ =>
    destruct (collapse_Inconsistent_inv l) as [(r & _ & _ & Er')|[Er' Hno]] end;
    rewrite Er' in Hr; [done|].
  injection Hr as <-. split.
  - rewrite Hm, map_map. by apply reflexive_eq, map_ext.
  - intros [r Hall]. apply Hno. exists r. split; [|done]. intros Hnil.
    apply map_eq_nil in Hnil. rewrite Hnil in Hm. apply Permutation_nil_l in Hm.
    symmetry in Hm. by apply map_eq_nil in Hm.
Qed.
End Agreement.
End Query.

(** ** The client of a query *)

Section Clients.
Context `{TSM : TimedSizedMapLaws SupportedRpcService unit} `{Canlog : CanlogCrate}.
Context `{HO : RustOrdLaws HttpHeader} `{JsonRpcId} `{SerdeValue} `{HttpCrate} `{RegexCrate}.
Context `{MinicborCrate} `{MRL : MultiResultsLaws RpcService} `{UrlCrate}.

Definition strategy_of (config : option RpcConfig) : ConsensusStrategy :=
  default ConsensusStrategy.ConsensusStrategy_default
    (response_consensus (default RpcConfig_default config)).

(** The caller's list of providers has no repetitions, and its length fits in a byte. *)
Definition proper_source (source : RpcServices) : Prop :=
  match user_defined_providers source with
  | Some user => NoDup user /\ Z.of_nat (length user) < 256
  | None => True
  end.

Lemma Providers_new_Ok source strategy now s p s1 :
  Providers_new source strategy now s = Return (Ok p, s1) ->
  choose_providers (user_defined_providers source) (supported_providers source).2 strategy now s
    = Return (Ok (services p), s1) /\ services p <> [] /\
  chain p = (supported_providers source).1.
Proof.
  unfold Providers_new. destruct (supported_providers source) as [net l].
  unfold M_and_then, mbind, M_bind, mret, M_ret. cbn [fst snd].
  destruct (choose_providers (user_defined_providers source) l strategy now s)
    as [[[[|x set]|e] s2]|msg]; intros E; simplify_eq; done.
Qed.

(** The providers of a client can reach the threshold. *)
Lemma providers_reach_threshold source strategy now s p s1 :
  proper_source source -> strategy_in_range strategy ->
  Providers_new source strategy now s = Return (Ok p, s1) ->
  NoDup (services p) /\
  0 < required (ReductionStrategy_from strategy) (services p) <= Z.of_nat (length (services p)).
Proof.
  intros Hs Hr (E & Hne & _)%Providers_new_Ok.
  split; [by eapply sorted_NoDup, choose_sorted|].
  assert (Hlen : 0 < Z.of_nat (length (services p))).
  { destruct (services p); [done|]. simpl. lia. }
  destruct strategy as [|total min]; cbn [ReductionStrategy_from required]; [lia|].
  destruct Hr as [Hmin Ht]. unfold proper_source in Hs.
  destruct (user_defined_providers source) as [user|] eqn:Eu.
  - destruct Hs as [Hnd Hlt].
    pose proof (choose_user_threshold (supported_providers source).2 user total min now s Hmin)
      as Hc. rewrite E in Hc. destruct Hc as (_ & Eset & Hm & _).
    rewrite Eset, length_btree_from_iter by done.
    unfold len_as_u8 in Hm. rewrite wrap_small in Hm by (unfold in_range; lia). done.
  - assert (Hl : is_supported_list (supported_providers source).2).
    { unfold is_supported_list. destruct source; simpl in *; [done|set_solver..]. }
    pose proof (choose_default_threshold _ total min now s Hl Hmin Ht) as Hc.
    rewrite E in Hc. destruct Hc as (t & _ & Hm & _ & _ & Et & _). lia.
Qed.

Lemma EthRpcClient_new_Ok source config now s c s1 :
  EthRpcClient_new source config now s = Return (Ok c, s1) ->
  Providers_new source (strategy_of config) now s = Return (Ok (providers c), s1) /\
  RpcClient.config c = default RpcConfig_default config.
Proof.
  unfold EthRpcClient_new, M_and_then, mbind, M_bind, mret, M_ret, strategy_of.
  destruct (Providers_new _ _ now s) as [[[p|e] s2]|msg]; intros E; simplify_eq; done.
Qed.

(** How a query that returns came to its result: the client could not be made, or its
    providers were asked, one result each, and the results reduced and converted. *)
Lemma query_steps {I O R : Type} `{HttpResponsePayload O} `{!ReduceApi RpcService O RpcError}
    `{PartialEq O} `{PartialEq R} `{SerdeJson O} (method : RpcMethod) (params : I)
    (estimate : EthRpcClient -> u64) (convert : O -> R) source config now (world : World I O)
    s s' result :
  with_client source config now (run_query method params estimate convert world) s =
    Return (result, s') ->
  (exists e s1, EthRpcClient_new source config now s = Return (Err e, s1) /\
    result = Consistent (Err (RpcError.ProviderError e))) \/
  exists p s1 size m s2 reduced,
    Providers_new source (strategy_of config) now s = Return (Ok p, s1) /\
    NoDup (services p) /\ services p <> [] /\
    mr_into_iter m ≡ₚ map (fun x => (x, provider_answer (RpcMethod.RpcMethod_name method) params
      (transform_op_of O) size world s1 x)) (services p) /\
    process_result method
      (ReductionStrategy_reduce (ReductionStrategy_from (strategy_of config)) m) s2 =
      Return (reduced, s') /\
    multi_map convert reduced = result.
Proof.
  unfold with_client, CandidRpcClient_new, mbind, M_bind.
  destruct (EthRpcClient_new source config now s) as [[[c|e] s1]|msg] eqn:En; cbn; [|intros E..].
  2: { injection E as <- <-. left. eauto. }
  2: done.
  intros E. right. apply EthRpcClient_new_Ok in En as [Hp Hc].
  assert (Hcs : consensus_strategy c = ReductionStrategy_from (strategy_of config)).
  { unfold consensus_strategy, strategy_of. by rewrite Hc. }
  destruct (Providers_new_Ok _ _ _ _ _ _ Hp) as (Hch & Hne & _).
  assert (Hnd : NoDup (services (providers c))) by by eapply sorted_NoDup, choose_sorted.
  unfold run_query, mbind, M_bind, lift_outcome in E. cbn [client] in E. rewrite Hcs in E.
  destruct (response_size_estimate_or _ _) as [size|msg]; [|done].
  pose proof (parallel_call_spec c (RpcMethod.RpcMethod_name method) params size world s1 Hnd)
    as Hpc. simpl in Hpc.
  destruct (parallel_call _ _ _ _ _ s1) as [[m s2]|msg]; [|done]. destruct Hpc as [Hpc _].
  destruct (process_result _ _ s2) as [[reduced s3]|msg] eqn:Er; [|done].
  injection E as E <-. exists (providers c), s1, (ResponseSizeEstimate_get size), m, s2, reduced.
  by split_and!.
Qed.

End Clients.

(** ** The endpoints *)

Section Endpoints.
Context `{TSM : TimedSizedMapLaws SupportedRpcService unit} `{Canlog : CanlogCrate}.
Context `{HO : RustOrdLaws HttpHeader} `{JsonRpcId} `{SerdeValue} `{HttpCrate} `{RegexCrate}.
Context `{MinicborCrate} `{MRL : MultiResultsLaws RpcService} `{UrlCrate} `{HexCrate}.
Context `{Big : BigUintLaws} `{EthnumCrate} `{EthersCrate}.

(** Both sides make the same client, the same request and the same calls. *)
Tactic Notation "same_query" reference(endpoint) reference(candid) reference(method) :=
  unfold endpoint, candid, method, with_client, run_query, mbind, M_bind, mret, M_ret,
    lift_outcome;
  cbn [RpcMethod.RpcMethod_name]; cbv beta;
  destruct (CandidRpcClient_new _ _ _ _) as [[[?|?] ?]|?]; [|reflexivity..];
  repeat match goal with |- context [bool_decide ?P] => destruct (bool_decide P) end;
  (destruct (response_size_estimate_or _ _); [|reflexivity]);
  destruct (parallel_call _ _ _ _ _ _) as [[? ?]|?]; reflexivity.

(** Every endpoint is the generic query of its method. *)
Section Queries.
Context (source : RpcServices) (config : option RpcConfig) (now : Timestamp) (s : CanisterState).

Lemma get_block_by_number_is_query `{!ReduceApi RpcService JsonTypes.Block RpcError} block world :
  endpoint_eth_get_block_by_number source config block now world s =
  with_client source config now (run_query RpcMethod.EthGetBlockByNumber
     {| GetBlockByNumberParams.block := into_block_spec block;
        GetBlockByNumberParams.include_full_transactions := false |}
     (fun c => (if bool_decide (EthRpcClient_chain c = SEPOLIA) then 12 * 1024 else 24 * 1024)
               + HEADER_SIZE_LIMIT) from_block world) s.
Proof.
  same_query endpoint_eth_get_block_by_number candid_eth_get_block_by_number
    eth_get_block_by_number.
Qed.

Lemma get_transaction_receipt_is_query
    `{!ReduceApi RpcService (option JsonTypes.TransactionReceipt) RpcError} hash world :
  endpoint_eth_get_transaction_receipt source config hash now world s =
  with_client source config now (run_query RpcMethod.EthGetTransactionReceipt
     [into_hash hash] (fun _ => 700 + HEADER_SIZE_LIMIT)
     (option_map from_transaction_receipt) world) s.
Proof.
  same_query endpoint_eth_get_transaction_receipt candid_eth_get_transaction_receipt
    eth_get_transaction_receipt.
Qed.

Lemma get_transaction_count_is_query `{!ReduceApi RpcService TransactionCount RpcError} args world :
  endpoint_eth_get_transaction_count source config args now world s =
  with_client source config now (run_query RpcMethod.EthGetTransactionCount
     (into_get_transaction_count_params args) (fun _ => 50 + HEADER_SIZE_LIMIT)
     Nat256_from_Amount world) s.
Proof.
  same_query endpoint_eth_get_transaction_count candid_eth_get_transaction_count
    eth_get_transaction_count.
Qed.

Lemma fee_history_is_query `{!ReduceApi RpcService JsonTypes.FeeHistory RpcError} args world :
  endpoint_eth_fee_history source config args now world s =
  with_client source config now (run_query RpcMethod.EthFeeHistory
     (into_fee_history_params args) (fun _ => 512 + HEADER_SIZE_LIMIT)
     from_fee_history world) s.
Proof.
  same_query endpoint_eth_fee_history candid_eth_fee_history eth_fee_history.
Qed.

Lemma send_raw_transaction_is_query
    `{!ReduceApi RpcService SendRawTransactionResult RpcError} raw world :
  endpoint_eth_send_raw_transaction source config raw now world s =
  with_client source config now (run_query RpcMethod.EthSendRawTransaction
     [Hex_to_string raw] (fun _ => 256 + HEADER_SIZE_LIMIT)
     (from_send_raw_transaction_result (get_transaction_hash raw)) world) s.
Proof.
  same_query endpoint_eth_send_raw_transaction candid_eth_send_raw_transaction
    eth_send_raw_transaction.
Qed.

Lemma call_is_query `{!ReduceApi RpcService Data RpcError} args world :
  endpoint_eth_call source config args now world s =
  with_client source config now (run_query RpcMethod.EthCall
     (into_eth_call_params args) (fun _ => 256 + HEADER_SIZE_LIMIT) from_data world) s.
Proof.
  same_query endpoint_eth_call candid_eth_call eth_call.
Qed.

Lemma get_logs_is_query `{!ReduceApi RpcService (list JsonTypes.LogEntry) RpcError}
    logs_config args world :
  let limit := GetLogsRpcConfig.max_block_range_or_default
     (default GetLogsRpcConfig.GetLogsRpcConfig_default logs_config) in
  match block_count args with Some count => count <= limit | None => True end ->
  endpoint_eth_get_logs source logs_config args now world s =
  with_client source (Some (RpcConfig_from_GetLogsRpcConfig
       (default GetLogsRpcConfig.GetLogsRpcConfig_default logs_config))) now
     (run_query RpcMethod.EthGetLogs [into_get_logs_param args]
       (fun _ => 1024 + HEADER_SIZE_LIMIT) from_log_entries world) s.
Proof.
  intros limit Hl. unfold endpoint_eth_get_logs, candid_eth_get_logs. fold limit.
  destruct (block_count args) as [count|]; [destruct (Z.ltb_spec limit count); [lia|]|];
    same_query endpoint_eth_get_logs candid_eth_get_logs eth_get_logs.
Qed.

(** A range that is too large is an error. *)
Lemma get_logs_refused `{!ReduceApi RpcService (list JsonTypes.LogEntry) RpcError}
    logs_config args count world w s' :
  block_count args = Some count ->
  GetLogsRpcConfig.max_block_range_or_default
    (default GetLogsRpcConfig.GetLogsRpcConfig_default logs_config) < count ->
  endpoint_eth_get_logs source logs_config args now world s = Return (w, s') ->
  exists e, w = Consistent (Err e).
Proof.
  intros Ec Hl. unfold endpoint_eth_get_logs, candid_eth_get_logs. rewrite Ec.
  destruct (Z.ltb_spec (GetLogsRpcConfig.max_block_range_or_default
    (default GetLogsRpcConfig.GetLogsRpcConfig_default logs_config)) count); [|lia].
  unfold with_client, mbind, M_bind, mret, M_ret.
  destruct (CandidRpcClient_new _ _ _ _) as [[[?|?] ?]|?]; intros; simplify_eq; by eexists.
Qed.
End Queries.

(** Every endpoint is the generic query of several providers: it makes a client of the caller's
    source and configuration (whose errors it returns), asks the client's providers for the
    method with the converted parameters, reduces the answers by the strategy, counts the
    inconsistent ones, and converts the results; [eth_getLogs] does so for a range of numbered
    blocks that is within its limit. *)
Theorem endpoints_are_queries
    `{!ReduceApi RpcService (list JsonTypes.LogEntry) RpcError}
    `{!ReduceApi RpcService JsonTypes.Block RpcError}
    `{!ReduceApi RpcService (option JsonTypes.TransactionReceipt) RpcError}
    `{!ReduceApi RpcService JsonTypes.FeeHistory RpcError}
    `{!ReduceApi RpcService SendRawTransactionResult RpcError}
    `{!ReduceApi RpcService TransactionCount RpcError} `{!ReduceApi RpcService Data RpcError}
    (source : RpcServices) (config : option RpcConfig) (now : Timestamp) (s : CanisterState) :
  (forall block world,
     endpoint_eth_get_block_by_number source config block now world s =
     with_client source config now (run_query RpcMethod.EthGetBlockByNumber
       {| GetBlockByNumberParams.block := into_block_spec block;
          GetBlockByNumberParams.include_full_transactions := false |}
       (fun c => (if bool_decide (EthRpcClient_chain c = SEPOLIA) then 12 * 1024 else 24 * 1024)
                 + HEADER_SIZE_LIMIT) from_block world) s) /\
  (forall hash world,
     endpoint_eth_get_transaction_receipt source config hash now world s =
     with_client source config now (run_query RpcMethod.EthGetTransactionReceipt
       [into_hash hash] (fun _ => 700 + HEADER_SIZE_LIMIT)
       (option_map from_transaction_receipt) world) s) /\
  (forall args world,
     endpoint_eth_get_transaction_count source config args now world s =
     with_client source config now (run_query RpcMethod.EthGetTransactionCount
       (into_get_transaction_count_params args) (fun _ => 50 + HEADER_SIZE_LIMIT)
       Nat256_from_Amount world) s) /\
  (forall args world,
     endpoint_eth_fee_history source config args now world s =
     with_client source config now (run_query RpcMethod.EthFeeHistory
       (into_fee_history_params args) (fun _ => 512 + HEADER_SIZE_LIMIT)
       from_fee_history world) s) /\
  (forall raw world,
     endpoint_eth_send_raw_transaction source config raw now world s =
     with_client source config now (run_query RpcMethod.EthSendRawTransaction
       [Hex_to_string raw] (fun _ => 256 + HEADER_SIZE_LIMIT)
       (from_send_raw_transaction_result (get_transaction_hash raw)) world) s) /\
  (forall args world,
     endpoint_eth_call source config args now world s =
     with_client source config now (run_query RpcMethod.EthCall
       (into_eth_call_params args) (fun _ => 256 + HEADER_SIZE_LIMIT) from_data world) s) /\
  (forall logs_config args world,
     let limit := GetLogsRpcConfig.max_block_range_or_default
       (default GetLogsRpcConfig.GetLogsRpcConfig_default logs_config) in
     match block_count args with Some count => count <= limit | None => True end ->
     endpoint_eth_get_logs source logs_config args now world s =
     with_client source (Some (RpcConfig_from_GetLogsRpcConfig
         (default GetLogsRpcConfig.GetLogsRpcConfig_default logs_config))) now
       (run_query RpcMethod.EthGetLogs [into_get_logs_param args]
         (fun _ => 1024 + HEADER_SIZE_LIMIT) from_log_entries world) s).
Proof.
  split_and!; intros.
  - apply get_block_by_number_is_query.
  - apply get_transaction_receipt_is_query.
  - apply get_transaction_count_is_query.
  - apply fee_history_is_query.
  - apply send_raw_transaction_is_query.
  - apply call_is_query.
  - by apply get_logs_is_query.
Qed.

(** C1: a consistent answer is worth what the caller asked for. The condition is on the caller:
    a list of providers that it gives has no repetitions and fewer than 256 entries
    ([proper_source]; with the same provider twice and a minimum of 2, one provider is enough),
    and the numbers of its strategy are bytes. When a method then returns a consistent value,
    the providers of the source were chosen as the strategy says, and at least as many
    different ones as the strategy requires (all of them for equality, [min] for a threshold;
    never none) answered with a value that converts to it, although results that differ before
    the conversion may be equal after it. The methods are those whose results, before and after
    the conversion, are equal exactly when [==] says so: all but [eth_feeHistory], whose ratios
    are floating-point numbers. *)
Theorem consistent_answer_backed {I O R : Type} `{HttpResponsePayload O}
    `{!ReduceApi RpcService O RpcError} `{PartialEqLaws O} `{PartialEqLaws R}
    `{SerdeJsonLaws O} `{!ReduceLaws RpcService O RpcError}
    (method : RpcMethod) (params : I) (estimate : EthRpcClient -> u64) (convert : O -> R)
    (source : RpcServices) (config : option RpcConfig) (now : Timestamp) (world : World I O)
    (s s' : CanisterState) (w : R) :
  proper_source source -> strategy_in_range (strategy_of config) ->
  with_client source config now (run_query method params estimate convert world) s =
    Return (Consistent (Ok w), s') ->
  exists p s1 size,
    Providers_new source (strategy_of config) now s = Return (Ok p, s1) /\
    let n := agreement (strategy_of config) (services p) in
    0 < n <= Z.of_nat (length (services p)) /\
    agree (services p)
      (provider_answer (RpcMethod.RpcMethod_name method) params (transform_op_of O) size world s1)
      n (fun x => convert x = w).
Proof.
  intros Hs Hr [(e & s1 & _ & Ee)|(p & s1 & size & m & s2 & reduced & Hp & _ & _ & Hm & E & Ew)]
    %query_steps; [done|].
  destruct (providers_reach_threshold _ _ _ _ _ _ Hs Hr Hp) as [Hnd Hn].
  rewrite required_agreement in Hn.
  exists p, s1, size. split; [exact Hp|]. intros n. split; [exact Hn|].
  unfold n. rewrite <- required_agreement in *.
  eapply reduce_agree; [exact Hnd|exact Hm|apply Hn|exact E|exact Ew].
Qed.

(** C2: when all the chosen providers give the same answer, value or error, that is the answer
    of the method, converted, for equality and for every threshold. The conditions are those of
    the strategy's own numbers: a list of providers that the caller gives has no repetitions
    and fewer than 256 entries ([proper_source]), and [total] and [min] are bytes; and the
    method is one whose results are equal exactly when [==] says so, before and after the
    conversion, that is, not [eth_feeHistory], whose ratios are floating-point numbers. *)
Theorem unanimous_answer {I O R : Type} `{HttpResponsePayload O}
    `{!ReduceApi RpcService O RpcError} `{PartialEqLaws O} `{PartialEqLaws R}
    `{SerdeJsonLaws O} `{!ReduceLaws RpcService O RpcError}
    (method : RpcMethod) (params : I) (estimate : EthRpcClient -> u64) (convert : O -> R)
    (source : RpcServices) (config : option RpcConfig) (now : Timestamp) (world : World I O)
    (s s1 s' : CanisterState) (p : Providers) (result : MultiRpcResult R) :
  proper_source source -> strategy_in_range (strategy_of config) ->
  Providers_new source (strategy_of config) now s = Return (Ok p, s1) ->
  with_client source config now (run_query method params estimate convert world) s =
    Return (result, s') ->
  exists size, forall r,
    (forall x, x ∈ services p -> provider_answer (RpcMethod.RpcMethod_name method) params
       (transform_op_of O) size world s1 x = r) ->
    result = Consistent (result_map convert r).
Proof.
  intros Hs Hr Hp
    [(e & s2 & Ee & _)|(p' & s1' & size & m & s2 & reduced & Hp' & _ & _ & Hm & E & Ew)]%query_steps.
  - exfalso. unfold EthRpcClient_new, M_and_then, mbind, M_bind in Ee. unfold strategy_of in Hp.
    by rewrite Hp in Ee.
  - rewrite Hp in Hp'. injection Hp' as <- <-. exists size. intros r Hall.
    destruct (providers_reach_threshold _ _ _ _ _ _ Hs Hr Hp) as [_ Hn].
    by eapply reduce_unanimous.
Qed.

(** C3: a method never loses a provider: when it returns inconsistent results, they are the
    converted answers of all the chosen providers, one each, and they are not all equal. The
    equality of the converted results is that of [==], which leaves out [eth_feeHistory], whose
    ratios are floating-point numbers. *)
Theorem inconsistent_answer_complete {I O R : Type} `{HttpResponsePayload O}
    `{RA : !ReduceApi RpcService O RpcError} `{PE : PartialEq O} `{PartialEqLaws R}
    `{SJ : SerdeJson O} `{!ReduceLaws RpcService O RpcError}
    (method : RpcMethod) (params : I) (estimate : EthRpcClient -> u64) (convert : O -> R)
    (source : RpcServices) (config : option RpcConfig) (now : Timestamp) (world : World I O)
    (s s' : CanisterState) (results : list (RpcService * RpcResult R)) :
  with_client source config now (run_query method params estimate convert world) s =
    Return (Inconsistent results, s') ->
  exists p s1 size,
    Providers_new source (strategy_of config) now s = Return (Ok p, s1) /\
    results ≡ₚ map (fun x => (x, result_map convert (provider_answer
      (RpcMethod.RpcMethod_name method) params (transform_op_of O) size world s1 x)))
      (services p) /\
    ~ exists r, Forall (fun '(_, r') => r' = r) results.
Proof.
  intros [(e & s1 & _ & Ee)|(p & s1 & size & m & s2 & reduced & Hp & _ & Hne & Hm & E & Ew)]
    %query_steps; [done|].
  exists p, s1, size. split; [done|]. by eapply reduce_inconsistent.
Qed.
End Endpoints.

(** ** Witnesses *)

Section Witnesses.
Import Instances.Concrete.
#[local] Existing Instance minicbor_crate.
#[local] Instance data_peq : PartialEq Data := PartialEq_dec.
#[local] Instance data_peq_laws : PartialEqLaws Data := PartialEq_dec_laws.
#[local] Instance data_serde : SerdeJson Data := {| from_slice b := Ok (Data_from b); to_vec := Data_0 |}.
#[local] Instance data_serde_laws : SerdeJsonLaws Data.
Proof. by intros []. Qed.

Definition three_apis : RpcServices := RpcServices.Custom 1
  [ {| url := "https://a.example"; headers := None |};
    {| url := "https://b.example"; headers := None |};
    {| url := "https://c.example"; headers := None |} ].
Definition two_of_three : RpcConfig := {|
  response_size_estimate := None;
  response_consensus := Some (ConsensusStrategy.Threshold (Some 3) 2) |}.

(** Two of the hosts answer [one], the third answers [other]. *)
Definition split_world (one other : byte) : World (list string) Data := {|
  outcall provider req := Ok {| http_status := 200; http_body := {|
    response_id := 0;
    response_result := Ok (Data_from
      [if bool_decide (req_uri req = "https://b.example") then other else one]) |} |};
  during_await s := s;
  resumed_at := 5 |}.
Definition query_split (config : RpcConfig) (one other : byte) :=
  with_client (TSM := timed_sized_map) three_apis (Some config) 0
    (run_query RpcMethod.EthCall ["x"] (fun _ => 256 + HEADER_SIZE_LIMIT) from_data
       (split_world one other)) initial_state.

Lemma consistent_answer_backed_witness :
  exists w s' ps (answer : RpcService -> RpcResult Data),
    query_split two_of_three 7 9 = Return (Consistent (Ok w), s') /\
    agree ps answer 2 (fun x => from_data x = w).
Proof.
  destruct (query_split two_of_three 7 9) as [[[[w|e]|l] s']|msg] eqn:E;
    [|vm_compute in E; discriminate E..].
  destruct (consistent_answer_backed RpcMethod.EthCall ["x"]
    (fun _ => 256 + HEADER_SIZE_LIMIT) from_data three_apis (Some two_of_three) 0
    (split_world 7 9) initial_state s' w
    ltac:(split; [by_compute|simpl; lia])
    ltac:(split; [vm_compute; split; congruence|];
          intros t [= <-]; vm_compute; split; congruence) E)
    as (p & s1 & size & _ & _ & Ha).
  exists w, s', (services p), (provider_answer
    (RpcMethod.RpcMethod_name RpcMethod.EthCall) ["x"] (transform_op_of Data) size
    (split_world 7 9) s1).
  split; [reflexivity|exact Ha].
Defined.

Lemma unanimous_answer_witness :
  exists p s1 size w s',
    Providers_new three_apis (strategy_of (Some two_of_three)) 0 initial_state = Return (Ok p, s1) /\
    query_split two_of_three 7 7 = Return (w, s') /\
    forall r, (forall x, x ∈ services p -> provider_answer
      (RpcMethod.RpcMethod_name RpcMethod.EthCall) ["x"] (transform_op_of Data) size
      (split_world 7 7) s1 x = r) -> w = Consistent (result_map from_data r).
Proof.
  destruct (Providers_new three_apis (strategy_of (Some two_of_three)) 0 initial_state)
    as [[[p|e] s1]|msg] eqn:Ep; [|vm_compute in Ep; discriminate Ep..].
  destruct (query_split two_of_three 7 7) as [[w s']|msg] eqn:E;
    [|vm_compute in E; discriminate E].
  destruct (unanimous_answer RpcMethod.EthCall ["x"] (fun _ => 256 + HEADER_SIZE_LIMIT) from_data
    three_apis (Some two_of_three) 0 (split_world 7 7) initial_state s1 s' p w
    ltac:(split; [by_compute|simpl; lia])
    ltac:(split; [vm_compute; split; congruence|];
          intros t [= <-]; vm_compute; split; congruence) Ep E) as [size Ha].
  exists p, s1, size, w, s'. split; [reflexivity|]. split; [reflexivity|exact Ha].
Defined.

Lemma inconsistent_answer_complete_witness :
  exists results s', query_split RpcConfig_default 7 9 = Return (Inconsistent results, s') /\
    length results = 3%nat /\ ~ exists r, Forall (fun '(_, r') => r' = r) results.
Proof.
  destruct (query_split RpcConfig_default 7 9) as [[[[w|e]|l] s']|msg] eqn:E;
    [vm_compute in E; discriminate E..| |vm_compute in E; discriminate E].
  destruct (inconsistent_answer_complete RpcMethod.EthCall ["x"]
    (fun _ => 256 + HEADER_SIZE_LIMIT) from_data three_apis (Some RpcConfig_default) 0
    (split_world 7 9) initial_state s' l E) as (p & s1 & size & _ & _ & Hno).
  exists l, s'. split; [reflexivity|]. split; [|exact Hno].
  vm_compute in E. by injection E as <- _.
Defined.

(** Endpoints that never read or write a value as JSON. *)
#[local] Instance silent_serde {T} : SerdeJson T | 100 :=
  {| from_slice _ := Err "not used"; to_vec _ := [] |}.
#[local] Instance structural_peq {T} `{EqDecision T} : PartialEq T | 100 := PartialEq_dec.

(** No provider can be reached. *)
Definition failing_world {I O} : World I O := {|
  outcall _ _ := Err (RpcError.HttpOutcallError
    (HttpOutcallError.IcError LegacyRejectionCode.SysTransient "unreachable"));
  during_await s := s;
  resumed_at := 0 |}.

Lemma endpoints_are_queries_witness :
  let args := {| GetLogsArgs.from_block := None; GetLogsArgs.to_block := None;
                 GetLogsArgs.addresses := []; GetLogsArgs.topics := None |} in
  let world : World (list GetLogsParam) (list JsonTypes.LogEntry) := failing_world in
  endpoint_eth_get_logs three_apis None args 0 world initial_state =
  with_client three_apis (Some (RpcConfig_from_GetLogsRpcConfig
      GetLogsRpcConfig.GetLogsRpcConfig_default)) 0
    (run_query RpcMethod.EthGetLogs [into_get_logs_param args]
      (fun _ => 1024 + HEADER_SIZE_LIMIT) from_log_entries world) initial_state.
Proof.
  intros args world.
  apply (endpoints_are_queries three_apis None 0 initial_state). exact I.
Defined.
End Witnesses.
