(* ===== verification/Invariant.v ===== *)
(** The states that the canister can reach: a relation on states with one rule per kind of
    message, whose waits let any other messages run, and the invariant of these states. *)

From S2P Require Import Prelude Collections EvmRpcTypes MultiRpcResult Externals Types Providers.
From S2P Require Import Memory ProviderApi Numbers Hex.
From S2P Require Import CandidTypes JsonTypes CkethConversion EthRpc Http RpcClient.
From S2P Require Import ProviderChoice CandidRpc Main Admin Consensus.
From S2P Require Instances.
Open Scope Z_scope.
Open Scope canister_scope.

Section Invariant.
Context `{TSM : TimedSizedMapApi SupportedRpcService unit} `{Canlog : CanlogCrate}.
Context `{RegexCrate}.

(** ** The invariant *)

Definition counters_in_range {K} `{Countable K} (m : gmap K u64) : Prop :=
  map_Forall (fun _ c => in_range 64 c) m.

Record metrics_ok (m : Metrics) : Prop := {
  requests_ok : counters_in_range (requests m);
  responses_ok : counters_in_range (responses m);
  inconsistent_responses_ok : counters_in_range (inconsistent_responses m);
  err_http_outcall_ok : counters_in_range (err_http_outcall m);
  err_max_response_size_ok : counters_in_range (err_max_response_size_exceeded m);
}.

Record state_ok (s : CanisterState) : Prop := {
  (** stored keys are valid and belong to providers that take one *)
  keys_ok : map_Forall (fun id key => takes_key id /\ validate_api_key (ApiKey_read key) = Ok ())
    (API_KEY_MAP s);
  (** the pattern of the override compiles *)
  override_ok : forall substitution,
    override_url (OVERRIDE_PROVIDER s) = Some substitution -> compiles substitution;
  request_counter_ok : in_range 64 (UNSTABLE_HTTP_REQUEST_COUNTER s);
  nodes_ok : in_range 32 (NUM_SUBNET_NODES s);
  all_metrics_ok : metrics_ok (UNSTABLE_METRICS s);
}.

(** A computation that keeps the invariant. *)
Definition preserves {A} (m : M A) : Prop :=
  forall s a s', state_ok s -> m s = Return (a, s') -> state_ok s'.

Lemma preserves_ret {A} (a : A) : preserves (mret a).
Proof. intros s x s' Hs [= <- <-]. done. Qed.
Lemma preserves_panic {A} msg : preserves (panic (A := A) msg).
Proof. intros s x s' Hs [=]. Qed.
Lemma preserves_get : preserves get_state.
Proof. intros s x s' Hs [= <- <-]. done. Qed.
Lemma preserves_lift {A} (o : Outcome A) : preserves (lift_outcome o).
Proof. intros s x s' Hs. unfold lift_outcome. destruct o; [by intros [= <- <-]|done]. Qed.
Lemma preserves_modify f : (forall s, state_ok s -> state_ok (f s)) -> preserves (modify f).
Proof. intros Hf s x s' Hs [= <- <-]. by apply Hf. Qed.
Lemma preserves_bind {A B} (m : M A) (f : A -> M B) :
  preserves m -> (forall a, preserves (f a)) -> preserves (m ≫= f).
Proof.
  intros Hm Hf s b s' Hs (a & s1 & E1 & E2)%M_bind_inv. eapply Hf; [|exact E2].
  by eapply Hm.
Qed.
Lemma preserves_and_then {A B E} (m : M (Result A E)) (f : A -> M (Result B E)) :
  preserves m -> (forall a, preserves (f a)) -> preserves (M_and_then m f).
Proof.
  intros Hm Hf. apply preserves_bind; [done|]. intros [a|e]; [apply Hf|apply preserves_ret].
Qed.
Lemma preserves_for_each {A} (l : list A) f :
  (forall x, preserves (f x)) -> preserves (for_each l f).
Proof.
  intros Hf. induction l as [|x l IH]; [apply preserves_ret|].
  apply preserves_bind; [apply Hf|done].
Qed.

#[local] Hint Resolve preserves_ret preserves_panic preserves_get preserves_lift : canister.

(** Follows the structure of a computation; stops at what the hints do not know. *)
Ltac preserve :=
  repeat first
    [ solve [eauto with canister]
    | apply preserves_bind; intros
    | apply preserves_and_then; intros
    | apply preserves_for_each; intros
    | match goal with |- preserves (match ?x with _ => _ end) => destruct x end ].

(** ** Field updates *)

Lemma add_metric_entry_in_range {K} `{Countable K} (k : K) (m : gmap K u64) :
  counters_in_range m -> counters_in_range (add_metric_entry k 1 m).
Proof.
  intros Hm k' c. rewrite lookup_add_metric_entry by done. case_decide; [|apply Hm].
  intros [= <-]. destruct (m !! k); [by apply wrap_in_range|by vm_compute].
Qed.

Lemma preserves_metrics f :
  (forall m, metrics_ok m -> metrics_ok (f m)) -> preserves (update_metrics f).
Proof. intros Hf. apply preserves_modify. intros s []. split; [done..|]. by apply Hf. Qed.

Lemma preserves_usage f :
  preserves (modify (fun s => set_usage (f s) s)).
Proof. apply preserves_modify. by intros s []. Qed.

Lemma preserves_rank l now : preserves (rank_providers l now).
Proof.
  intros s x s' []. unfold rank_providers. destruct (rank_ascending_evict _ l now).
  by intros [= <- <-].
Qed.

Lemma preserves_next_request_id : preserves next_request_id.
Proof.
  unfold next_request_id. preserve. apply preserves_modify. intros t []. split; try done.
  by apply wrap_in_range.
Qed.
#[local] Hint Resolve preserves_rank preserves_next_request_id : canister.

Lemma preserves_update_api_keys entries : preserves (update_api_keys entries).
Proof.
  apply preserves_for_each. intros [id key] s x s' [] E.
  pose proof (update_api_key_spec (id, key) s) as Hu. rewrite E in Hu.
  destruct Hu as [[Ht Hkey] ->]. split; try done. cbn [API_KEY_MAP set_keys fst snd] in *.
  intros id' k'. destruct (decide (id = id')) as [<-|Hne].
  - rewrite lookup_partial_alter_eq. destruct key as [k|]; [|done]. intros [= <-].
    split; [done|]. by apply Hkey.
  - rewrite lookup_partial_alter_ne by done. apply keys_ok0.
Qed.
#[local] Hint Resolve preserves_update_api_keys : canister.

Lemma preserves_update_api_keys_endpoint env entries :
  preserves (update_api_keys_endpoint env entries).
Proof.
  unfold update_api_keys_endpoint, require_api_key_principal_or_controller,
    is_api_key_principal. preserve.
Qed.

(** The arguments of the life cycle are well typed. *)
Definition args_ok (args : InstallArgs) : Prop :=
  forall nodes, nodes_in_subnet args = Some nodes -> in_range 32 nodes.

Lemma preserves_post_upgrade args : args_ok args -> preserves (post_upgrade args).
Proof.
  intros Ha s x s' Hs E. destruct Hs as [Hk Ho Hc Hn Hm].
  pose proof (post_upgrade_returns args s) as Hp. simpl in Hp. rewrite E in Hp.
  destruct Hp as [Hv ->]. split; try done; simpl.
  - intros sub. destruct (override_provider args) as [v|]; [|apply Ho].
    intros Ev. apply Hv. simpl in Ev. by rewrite Ev.
  - destruct (nodes_in_subnet args) as [n|] eqn:En; [by apply Ha|done].
Qed.

Lemma initial_state_ok : state_ok initial_state.
Proof.
  split; simpl; [apply map_Forall_empty|done|by vm_compute|by vm_compute|].
  split; apply map_Forall_empty.
Qed.

Lemma upgraded_state_ok s : state_ok s -> state_ok (upgraded_state s).
Proof.
  intros []. split; simpl; try done.
  all: first [by vm_compute | by apply initial_state_ok].
Qed.

(** ** The messages *)

Context `{RustOrd HttpHeader} `{JsonRpcId} `{SerdeValue} `{HttpCrate}.
Context `{MinicborCrate} `{MR : MultiResultsApi RpcService} `{UrlCrate}.

Lemma preserves_choose user l strategy now :
  preserves (choose_providers user l strategy now).
Proof. unfold choose_providers. preserve. Qed.
#[local] Hint Resolve preserves_choose : canister.

Lemma preserves_client source config now : preserves (CandidRpcClient_new source config now).
Proof.
  unfold CandidRpcClient_new, EthRpcClient_new, Providers_new.
  destruct (supported_providers source). preserve.
Qed.
#[local] Hint Resolve preserves_client : canister.

Lemma preserves_count {T} method (l : list (RpcService * T)) :
  preserves (for_each l (fun '(service, _) => count_inconsistent method service)).
Proof.
  apply preserves_for_each. intros [service t]. unfold count_inconsistent. preserve.
  apply preserves_metrics. intros m []. split; try done. by apply add_metric_entry_in_range.
Qed.
#[local] Hint Resolve preserves_count : canister.

Lemma preserves_request {I} method (params : I) op size p :
  preserves (provider_request method params op size p).
Proof. intros s r s' Hs E. by apply provider_request_state in E as ->. Qed.
#[local] Hint Resolve preserves_request : canister.

Lemma preserves_build {I} (request : RpcService -> M (RpcResult (HttpRequest I))) ps m :
  (forall p, preserves (request p)) -> preserves (build_requests request ps m).
Proof.
  intros Hr. revert m. induction ps as [|p ps IH]; intros m; cbn [build_requests]; preserve.
Qed.

Lemma preserves_on_request {I} method (q : HttpRequest (JsonRpcRequest I)) :
  preserves (on_request method q).
Proof.
  unfold on_request. preserve. apply preserves_metrics. intros m []. split; try done.
  by apply add_metric_entry_in_range.
Qed.
#[local] Hint Resolve preserves_on_request : canister.

Lemma preserves_start {I} method (q : HttpRequest (JsonRpcRequest I)) :
  preserves (start_call method q).
Proof. unfold start_call, generate_request_id. preserve. Qed.
#[local] Hint Resolve preserves_start : canister.

Lemma preserves_query {I O R} `{HttpResponsePayload O} `{!ReduceApi RpcService O RpcError}
    `{PartialEq R} (method : RpcMethod) (params : I) estimate (convert : O -> R)
    (world : World I O) self :
  (forall t, state_ok t -> state_ok (during_await world t)) ->
  preserves (run_query method params estimate convert world self).
Proof.
  intros Hw. unfold run_query, parallel_call, start_calls, process_result, record_ok_result. preserve.
  - apply preserves_build. eauto with canister.
  - by apply preserves_modify.
  - apply preserves_usage.
Qed.

Context `{!CanhttpCrate} `{!RetryPolicy}.

Lemma preserves_on_response {O} data (response : HttpJsonRpcResponse O) :
  preserves (on_response data response).
Proof.
  apply preserves_metrics. intros m []. split; try done. by apply add_metric_entry_in_range.
Qed.
Lemma preserves_on_error data error : preserves (on_error data error).
Proof.
  unfold on_error, observe_response. preserve;
    (apply preserves_metrics; intros m []; split; try done; by apply add_metric_entry_in_range).
Qed.
#[local] Hint Resolve preserves_on_response preserves_on_error : canister.

Lemma preserves_observed {I O} method (outside : Outside I O) k req :
  (forall j t, state_ok t -> state_ok (meanwhile outside j t)) ->
  preserves (observed_call method outside k req).
Proof.
  intros Ho. unfold observed_call. preserve. apply preserves_modify; auto.
Qed.

#[local] Hint Resolve preserves_observed : canister.

Lemma preserves_retry {I O} fuel method (outside : Outside I O) k req :
  (forall j t, state_ok t -> state_ok (meanwhile outside j t)) ->
  preserves (retry_call fuel method outside k req).
Proof.
  intros Ho. revert k req. induction fuel as [|fuel IH]; intros k req; [apply preserves_panic|].
  cbn [retry_call]. unfold generate_request_id. preserve.
Qed.

(** [evolves s s']: the canister can go from [s] to [s'] by whole messages, by an upgrade, or
    by the calls to providers that a message waits for. What happens during a wait is again
    such an evolution: other messages, and what the calls under way do between their waits,
    that is, count the end of an attempt and start the next one. *)
Inductive evolves : CanisterState -> CanisterState -> Prop :=
| evolves_refl s : evolves s s
| evolves_trans s1 s2 s3 : evolves s1 s2 -> evolves s2 s3 -> evolves s1 s3
| evolves_update_api_keys env entries s r s' :
    update_api_keys_endpoint env entries s = Return (r, s') -> evolves s s'
| evolves_upgrade args s s' :
    args_ok args -> post_upgrade args (upgraded_state s) = Return ((), s') -> evolves s s'
| evolves_client source config now s r s' :
    CandidRpcClient_new source config now s = Return (r, s') -> evolves s s'
| evolves_query {I O R} `{HttpResponsePayload O} `{!ReduceApi RpcService O RpcError}
    `{PartialEq R} (method : RpcMethod) (params : I) estimate (convert : O -> R)
    (world : World I O) source config now s r s' :
    (forall t, evolves t (during_await world t)) ->
    with_client source config now (run_query method params estimate convert world) s =
      Return (r, s') ->
    evolves s s'
| evolves_call {I O} rpc_method retry (outside : Outside I O) req s r s' :
    (forall j t, evolves t (meanwhile outside j t)) ->
    http_client rpc_method retry outside req s = Return (r, s') -> evolves s s'
| evolves_response {O} data (response : HttpJsonRpcResponse O) s r s' :
    on_response data response s = Return (r, s') -> evolves s s'
| evolves_error data error s r s' : on_error data error s = Return (r, s') -> evolves s s'
| evolves_attempt {I} method (q : HttpRequest (JsonRpcRequest I)) s r s' :
    start_call method q s = Return (r, s') -> evolves s s'.

(** The states after an installation. *)
Definition reachable (s : CanisterState) : Prop :=
  exists args s0, args_ok args /\ init args initial_state = Return ((), s0) /\ evolves s0 s.

Lemma evolves_ok s s' : evolves s s' -> state_ok s -> state_ok s'.
Proof.
  induction 1 as [s|s1 s2 s3 _ IH1 _ IH2|env entries s r s' E|args s s' Ha E
    |source config now s r s' E|I O R pl ra pe method params estimate convert world source config
      now s r s' _ IH E|I O rpc_method retry outside req s r s' _ IH E
    |O data response s r s' E|data error s r s' E|I method q s r s' E]; intros Hs.
  - done.
  - auto.
  - by eapply preserves_update_api_keys_endpoint.
  - eapply preserves_post_upgrade; [done| |done]. by apply upgraded_state_ok.
  - by eapply preserves_client.
  - eapply (preserves_bind _ _ (preserves_client source config now)); [|exact Hs|exact E].
    intros [c|e]; [|apply preserves_ret]. apply preserves_query. auto.
  - unfold http_client in E. eapply preserves_bind; [| |exact Hs|exact E]; [|intros a; apply preserves_ret].
    destruct retry; [apply preserves_retry|apply preserves_observed]; auto.
  - by eapply preserves_on_response.
  - by eapply preserves_on_error.
  - by eapply preserves_start.
Qed.

Lemma reachable_ok s : reachable s -> state_ok s.
Proof.
  intros (args & s0 & Ha & Ei & He). eapply evolves_ok; [exact He|].
  eapply preserves_post_upgrade; [done|apply initial_state_ok|exact Ei].
Qed.

(** C8: in every state that the canister can reach, whatever messages interleave and however
    often it is upgraded: each stored API key is valid and belongs to a provider of the table
    that takes a key, it fits the bound of its stable storage, the pattern of the override
    compiles, and the counters are in the range of their types. *)
Theorem reachable_invariant (s : CanisterState) :
  reachable s ->
  (forall id key, API_KEY_MAP s !! id = Some key ->
     takes_key id /\ validate_api_key (ApiKey_read key) = Ok () /\
     Z.of_nat (length (ApiKey_to_bytes key)) <= API_KEY_MAX_SIZE) /\
  (forall substitution, override_url (OVERRIDE_PROVIDER s) = Some substitution ->
     compiles substitution) /\
  in_range 64 (UNSTABLE_HTTP_REQUEST_COUNTER s) /\ in_range 32 (NUM_SUBNET_NODES s) /\
  metrics_ok (UNSTABLE_METRICS s).
Proof.
  intros [Hk Ho Hc Hn Hm]%reachable_ok. split_and!; try done.
  intros id key Ek. destruct (Hk id key Ek) as [Ht Hv]. split_and!; [done..|].
  by apply valid_key_bytes.
Qed.

(** The error "regex should have been validated when initially set" cannot occur: in a
    reachable state the override applies to every service, and giving the service's URL never
    fails except by a trap for a missing key. *)
Theorem override_never_fails (service : ResolvedRpcService) (s s' : CanisterState)
    (r : RpcResult RpcApi) :
  reachable s ->
  (override ← get_override_provider; ResolvedRpcService_api service override) s =
    Return (r, s') ->
  exists api, r = Ok api.
Proof.
  intros Hs%reachable_ok E. destruct Hs as [_ Ho _ _ _].
  unfold get_override_provider, ResolvedRpcService_api in E.
  apply M_bind_inv in E as (o & s1 & Eo & E). injection Eo as <- <-.
  apply M_bind_inv in E as (api & s2 & _ & E). injection E as <- <-.
  unfold OverrideProvider_apply.
  destruct (override_url (OVERRIDE_PROVIDER s)) as [sub|]; [|by eexists].
  destruct (Ho sub eq_refl) as [regex ->]. by eexists.
Qed.
End Invariant.

(** ** Witnesses *)

Section Witnesses.
Import Instances.Concrete HttpConcrete.
#[local] Existing Instance minicbor_crate.

Definition controller_message : Env := {| caller := [7]; is_controller p := bool_decide (p = [7]) |}.
Definition install : InstallArgs := {|
  demo := Some true; manage_api_keys := None; log_filter := None;
  override_provider := Some (Some {| pattern := "rpc"; replacement := "proxy" |});
  nodes_in_subnet := Some 28 |}.
(** The state after an installation and a first API key. *)
Definition configured : CanisterState :=
  set_keys (<[1 := {| api_key_0 := "key-1" |}]> ∅)
    (set_nodes 28 (set_override {| override_url := override_provider install ≫= id |}
      (set_demo true initial_state))).

Lemma configured_reachable : reachable configured.
Proof.
  exists install. eexists. split; [|split; [reflexivity|]].
  - intros nodes [= <-]. by_compute.
  - eapply (evolves_update_api_keys controller_message [(1, Some "key-1")]). reflexivity.
Defined.

Lemma reachable_invariant_witness :
  API_KEY_MAP configured !! 1 = Some {| api_key_0 := "key-1" |} /\ takes_key 1.
Proof.
  split; [reflexivity|].
  destruct (reachable_invariant configured configured_reachable) as (Hk & _).
  exact (proj1 (Hk 1 {| api_key_0 := "key-1" |} eq_refl)).
Defined.

Lemma override_never_fails_witness :
  let apply := override ← get_override_provider;
    ResolvedRpcService_api (ResolvedRpcService.Provider provider_1) override in
  exists r s', apply configured = Return (r, s') /\ exists api, r = Ok api.
Proof.
  intros apply. eexists _, _. split; [vm_compute; reflexivity|].
  eapply (override_never_fails (ResolvedRpcService.Provider provider_1) configured);
    [exact configured_reachable|vm_compute; reflexivity].
Defined.
End Witnesses.
