(* ===== verification/Storage.v ===== *)
(** Stable memory ([src/memory.rs], the [Storable] types of [src/types/mod.rs]): the regions in
    which the canister's configuration survives upgrades, the encodings of the values, and the
    refinement of the operations of Memory.v by their effects on the regions. *)

From S2P Require Import Prelude Collections EvmRpcTypes Externals Types Providers Memory.
From S2P Require Import ProviderApi Numbers Hex.
From S2P Require Import CandidTypes JsonTypes CkethConversion EthRpc Http RpcClient.
From S2P Require Import ProviderChoice CandidRpc Main Admin Consensus Invariant.
From S2P Require Instances.
Open Scope Z_scope.
Open Scope canister_scope.

(** ** The traits and types of [ic_stable_structures] *)

(** [Bound], of the trait [Storable]. *)
Inductive Bound :=
| Bounded (max_size : u32) (is_fixed_size : bool)
| Unbounded.

Class Storable (T : Type) := {
  to_bytes : T -> list byte;
  from_bytes : list byte -> Outcome T;
  BOUND : Bound;
}.
Class StorableLaws (T : Type) `{Storable T} :=
  from_to_bytes (t : T) : from_bytes (to_bytes t) = Return t.

(** What the crate does with encoded values: strings are read back from their bytes, a cell may
    refuse a value, and a map panics on a value above its bound. *)
Class StableStructures := {
  String_from_bytes : list byte -> Outcome string;
  cell_refuses : Bound -> list byte -> option string;
  btree_refuses : Bound -> list byte -> option string;
}.
Class StableStructuresLaws `{StableStructures} := {
  String_from_to_bytes s : String_from_bytes (bytes_of_string s) = Return s;
  btree_accepts max fixed bytes :
    Z.of_nat (length bytes) <= max -> btree_refuses (Bounded max fixed) bytes = None;
}.

(** What a region holds: the value of a cell (encoded, where its type is the canister's), the
    encoded values of a map by their keys, or the elements of a vector. *)
Inductive Region :=
| BoolCell (value : bool)
| U32Cell (value : u32)
| BytesCell (bytes : list byte)
| KeyTree (values : gmap ProviderId (list byte))
| PrincipalVec (principals : list Principal).
Abbreviation MemoryId := Z (only parsing).
Abbreviation StableMemory := (gmap Z Region).

Definition IS_DEMO_ACTIVE_MEMORY_ID : MemoryId := 4.
Definition API_KEY_MAP_MEMORY_ID : MemoryId := 5.
Definition MANAGE_API_KEYS_MEMORY_ID : MemoryId := 6.
Definition LOG_FILTER_MEMORY_ID : MemoryId := 7.
Definition OVERRIDE_PROVIDER_MEMORY_ID : MemoryId := 8.
Definition NUM_SUBNET_NODES_MEMORY_ID : MemoryId := 9.

(** Computations on stable memory. *)
Definition Stored (A : Type) : Type := StableMemory -> Outcome (A * StableMemory).
#[export] Instance Stored_ret : MRet Stored := fun A a m => Return (a, m).
#[export] Instance Stored_bind : MBind Stored := fun A B f c m =>
  match c m with
  | Return (a, m') => f a m'
  | Panic msg => Panic msg
  end.

Definition stored_lift {A} (o : Outcome A) : Stored A := fun m =>
  match o with
  | Return a => Return (a, m)
  | Panic msg => Panic msg
  end.

(** [init]: an empty region gets the initial contents; [get] of the region's kind. *)
Definition region_init {A} (id : MemoryId) (initial : Region) (get : Region -> Outcome A) :
    Stored A :=
  fun m =>
    match m !! id with
    | Some region => a ← get region; Return (a, m)
    | None => a ← get initial; Return (a, <[id := initial]> m)
    end.
Definition region_set (id : MemoryId) (region : Region) : Stored unit :=
  fun m => Return ((), <[id := region]> m).
(** [set(..).expect(msg)] of a cell. *)
Definition cell_set `{StableStructures} {T} `{Storable T} (msg : string) (id : MemoryId)
    (value : T) : Stored unit :=
  match cell_refuses (BOUND (T := T)) (to_bytes value) with
  | Some e => stored_lift (Panic (msg +:+ ": " +:+ e))
  | None => region_set id (BytesCell (to_bytes value))
  end.

Definition other_region {A} (msg : string) : Outcome A := Panic msg.
Definition get_bool msg (r : Region) : Outcome bool :=
  match r with BoolCell b => Return b | _ => other_region msg end.
Definition get_u32 msg (r : Region) : Outcome u32 :=
  match r with U32Cell n => Return n | _ => other_region msg end.
Definition get_value {T} `{Storable T} msg (r : Region) : Outcome T :=
  match r with BytesCell bytes => from_bytes bytes | _ => other_region msg end.
Definition get_tree (r : Region) : Outcome (gmap ProviderId (list byte)) :=
  match r with KeyTree values => Return values | _ => other_region "Not a BTreeMap" end.
Definition get_vec msg (r : Region) : Outcome (list Principal) :=
  match r with PrincipalVec ps => Return ps | _ => other_region msg end.

Section Storage.
Context `{TSM : TimedSizedMapApi SupportedRpcService unit} `{Canlog : CanlogCrate}.
Context `{StableStructures} `{SerdeJson LogFilter} `{SerdeJson OverrideProvider}.

(** ** The encodings of [src/types/mod.rs] *)

#[export] Instance Storable_ApiKey : Storable ApiKey := {
  to_bytes := ApiKey_to_bytes;
  from_bytes bytes := key ← String_from_bytes bytes; Return {| api_key_0 := key |};
  BOUND := Bounded API_KEY_MAX_SIZE false;
}.
(** [StorableLogFilter], a wrapper of [LogFilter]. *)
#[export] Instance Storable_LogFilter : Storable LogFilter := {
  to_bytes := to_vec;
  from_bytes bytes := expect "Error while deserializing `LogFilter`" (from_slice bytes);
  BOUND := Bounded MESSAGE_FILTER_MAX_SIZE true;
}.
#[export] Instance Storable_OverrideProvider : Storable OverrideProvider := {
  to_bytes := to_vec;
  from_bytes bytes := expect "Error while deserializing `Storable`" (from_slice bytes);
  BOUND := Unbounded;
}.

(** ** The operations of [src/memory.rs] on the regions *)

Definition stored_is_demo_active : Stored bool :=
  region_init IS_DEMO_ACTIVE_MEMORY_ID (BoolCell false)
    (get_bool "Unable to read demo status from stable memory").
Definition stored_set_demo_active (is_active : bool) : Stored unit :=
  stored_is_demo_active ;; region_set IS_DEMO_ACTIVE_MEMORY_ID (BoolCell is_active).

Definition stored_api_keys : Stored (gmap ProviderId (list byte)) :=
  region_init API_KEY_MAP_MEMORY_ID (KeyTree ∅) get_tree.
Definition stored_get_api_key (provider_id : ProviderId) : Stored (option ApiKey) :=
  values ← stored_api_keys;
  match values !! provider_id with
  | Some bytes => key ← stored_lift (from_bytes bytes); mret (Some key)
  | None => mret None
  end.
Definition stored_insert_api_key (provider_id : ProviderId) (api_key : ApiKey) : Stored unit :=
  values ← stored_api_keys;
  match btree_refuses (BOUND (T := ApiKey)) (to_bytes api_key) with
  | Some e => stored_lift (Panic e)
  | None => region_set API_KEY_MAP_MEMORY_ID (KeyTree (<[provider_id := to_bytes api_key]> values))
  end.
Definition stored_remove_api_key (provider_id : ProviderId) : Stored unit :=
  values ← stored_api_keys;
  region_set API_KEY_MAP_MEMORY_ID (KeyTree (delete provider_id values)).

Definition stored_principals : Stored (list Principal) :=
  region_init MANAGE_API_KEYS_MEMORY_ID (PrincipalVec [])
    (get_vec "Unable to read API key principals from stable memory").
Definition stored_is_api_key_principal (principal : Principal) : Stored bool :=
  principals ← stored_principals;
  mret (existsb (fun other => bool_decide (other = principal)) principals).
Definition stored_set_api_key_principals (new_principals : list Principal) : Stored unit :=
  principals ← stored_principals;
  region_set MANAGE_API_KEYS_MEMORY_ID (PrincipalVec
    (foldl (fun ps principal => ps ++ [principal]) (pop_all (length principals) principals)
       new_principals)).

Definition stored_get_log_filter : Stored LogFilter :=
  region_init LOG_FILTER_MEMORY_ID (BytesCell (to_bytes LogFilter_default))
    (get_value "Unable to read log message filter from stable memory").
Definition stored_set_log_filter (filter : LogFilter) : Stored unit :=
  stored_get_log_filter ;;
  cell_set "Error while updating log message filter" LOG_FILTER_MEMORY_ID filter.

Definition stored_get_override_provider : Stored OverrideProvider :=
  region_init OVERRIDE_PROVIDER_MEMORY_ID (BytesCell (to_bytes OverrideProvider_default))
    (get_value "Unable to read provider override from stable memory").
Definition stored_set_override_provider (provider : OverrideProvider) : Stored unit :=
  stored_get_override_provider ;;
  cell_set "Error while updating override provider" OVERRIDE_PROVIDER_MEMORY_ID provider.

Definition stored_get_num_subnet_nodes : Stored u32 :=
  region_init NUM_SUBNET_NODES_MEMORY_ID (U32Cell NODES_IN_SUBNET)
    (get_u32 "Unable to read number of subnet nodes from stable memory").
Definition stored_set_num_subnet_nodes (nodes : u32) : Stored unit :=
  stored_get_num_subnet_nodes ;; region_set NUM_SUBNET_NODES_MEMORY_ID (U32Cell nodes).

(** ** Properties *)

(** The regions of a state: one that was never used stands for its initial contents. *)
Definition holds (m : StableMemory) (id : MemoryId) (initial region : Region) : Prop :=
  default initial (m !! id) = region.
Record represents (m : StableMemory) (s : CanisterState) : Prop := {
  demo_region : holds m IS_DEMO_ACTIVE_MEMORY_ID (BoolCell false) (BoolCell (IS_DEMO_ACTIVE s));
  keys_region : holds m API_KEY_MAP_MEMORY_ID (KeyTree ∅) (KeyTree (to_bytes <$> API_KEY_MAP s));
  principals_region :
    holds m MANAGE_API_KEYS_MEMORY_ID (PrincipalVec []) (PrincipalVec (MANAGE_API_KEYS s));
  filter_region : holds m LOG_FILTER_MEMORY_ID (BytesCell (to_bytes LogFilter_default))
    (BytesCell (to_bytes (LOG_FILTER s)));
  override_region : holds m OVERRIDE_PROVIDER_MEMORY_ID
    (BytesCell (to_bytes OverrideProvider_default)) (BytesCell (to_bytes (OVERRIDE_PROVIDER s)));
  nodes_region :
    holds m NUM_SUBNET_NODES_MEMORY_ID (U32Cell NODES_IN_SUBNET) (U32Cell (NUM_SUBNET_NODES s));
}.

(** A computation on the regions does what the operation on the state does. *)
Definition refines {A} (stored : Stored A) (op : M A) : Prop :=
  forall m s, represents m s ->
    exists a m' s', stored m = Return (a, m') /\ op s = Return (a, s') /\ represents m' s'.

Context `{!StableStructuresLaws} `{!SerdeJsonLaws LogFilter} `{!SerdeJsonLaws OverrideProvider}.

#[export] Instance ApiKey_laws : StorableLaws ApiKey.
Proof.
  intros [key]. unfold from_bytes, to_bytes, Storable_ApiKey, ApiKey_to_bytes.
  by rewrite String_from_to_bytes.
Qed.
#[export] Instance LogFilter_laws : StorableLaws LogFilter.
Proof. intros f. cbn. by rewrite from_to_vec. Qed.
#[export] Instance OverrideProvider_laws : StorableLaws OverrideProvider.
Proof. intros p. cbn. by rewrite from_to_vec. Qed.

(** The initial contents of the regions. *)
Definition regions : list (MemoryId * Region) :=
  [(IS_DEMO_ACTIVE_MEMORY_ID, BoolCell false); (API_KEY_MAP_MEMORY_ID, KeyTree ∅);
   (MANAGE_API_KEYS_MEMORY_ID, PrincipalVec []);
   (LOG_FILTER_MEMORY_ID, BytesCell (to_bytes LogFilter_default));
   (OVERRIDE_PROVIDER_MEMORY_ID, BytesCell (to_bytes OverrideProvider_default));
   (NUM_SUBNET_NODES_MEMORY_ID, U32Cell NODES_IN_SUBNET)].

(** No two regions share an id, so that a change to one leaves the others. *)
Ltac other_regions :=
  constructor; unfold holds in *;
  rewrite ?lookup_insert_eq; rewrite ?lookup_insert_ne by done; try done.

Lemma represents_touch m s id initial :
  (id, initial) ∈ regions -> m !! id = None -> represents m s ->
  represents (<[id := initial]> m) s.
Proof.
  unfold regions. rewrite !elem_of_cons, elem_of_nil. intros Hin Hm [Hd Hk Hp Hf Ho Hn].
  destruct_or! Hin; try done; injection Hin as -> ->; other_regions;
    match goal with H : default _ (m !! _) = _ |- _ => rewrite Hm in H; exact H end.
Qed.

(** Reading a region gives what the state has. *)
Lemma region_init_reads {A} id initial (get : Region -> Outcome A) (field : CanisterState -> A)
    (region : CanisterState -> Region) m s :
  (id, initial) ∈ regions -> (forall s, get (region s) = Return (field s)) ->
  holds m id initial (region s) -> represents m s ->
  exists m', region_init id initial get m = Return (field s, m') /\ represents m' s.
Proof.
  intros Hin Hg Hr Hm. unfold holds, region_init in *. destruct (m !! id) as [r|] eqn:Er;
    simpl in Hr.
  - subst r. rewrite Hg. by eauto.
  - rewrite Hr, Hg. eexists. split; [done|]. rewrite <- Hr. by apply represents_touch.
Qed.

Lemma stored_bind_Return {A B} (c : Stored A) (f : A -> Stored B) m a m' :
  c m = Return (a, m') -> (c ≫= f) m = f a m'.
Proof. intros E. unfold mbind, Stored_bind. by rewrite E. Qed.

Lemma is_demo_active_reads m s : represents m s ->
  exists m', stored_is_demo_active m = Return (IS_DEMO_ACTIVE s, m') /\ represents m' s.
Proof.
  intros Hr. apply (region_init_reads _ _ _ _ (fun s => BoolCell (IS_DEMO_ACTIVE s)));
    [unfold regions; set_solver|done|apply Hr|done].
Qed.
Lemma api_keys_reads m s : represents m s ->
  exists m', stored_api_keys m = Return (to_bytes <$> API_KEY_MAP s, m') /\ represents m' s.
Proof.
  intros Hr. apply (region_init_reads _ _ _ (fun s => to_bytes <$> API_KEY_MAP s)
    (fun s => KeyTree (to_bytes <$> API_KEY_MAP s)));
    [unfold regions; set_solver|done|apply Hr|done].
Qed.
Lemma principals_reads m s : represents m s ->
  exists m', stored_principals m = Return (MANAGE_API_KEYS s, m') /\ represents m' s.
Proof.
  intros Hr. apply (region_init_reads _ _ _ _ (fun s => PrincipalVec (MANAGE_API_KEYS s)));
    [unfold regions; set_solver|done|apply Hr|done].
Qed.
Lemma log_filter_reads m s : represents m s ->
  exists m', stored_get_log_filter m = Return (LOG_FILTER s, m') /\ represents m' s.
Proof.
  intros Hr. apply (region_init_reads _ _ _ _ (fun s => BytesCell (to_bytes (LOG_FILTER s))));
    [unfold regions; set_solver| |apply Hr|done].
  intros s'. unfold get_value. apply from_to_bytes.
Qed.
Lemma override_provider_reads m s : represents m s ->
  exists m', stored_get_override_provider m = Return (OVERRIDE_PROVIDER s, m') /\
    represents m' s.
Proof.
  intros Hr. apply (region_init_reads _ _ _ _
    (fun s => BytesCell (to_bytes (OVERRIDE_PROVIDER s))));
    [unfold regions; set_solver| |apply Hr|done].
  intros s'. unfold get_value. apply from_to_bytes.
Qed.
Lemma num_subnet_nodes_reads m s : represents m s ->
  exists m', stored_get_num_subnet_nodes m = Return (NUM_SUBNET_NODES s, m') /\
    represents m' s.
Proof.
  intros Hr. apply (region_init_reads _ _ _ _ (fun s => U32Cell (NUM_SUBNET_NODES s)));
    [unfold regions; set_solver|done|apply Hr|done].
Qed.

(** Reading operations, and operations that read their region and change it. *)
Lemma refines_get {A B} (read : Stored A) (f : CanisterState -> A) (h : A -> B) :
  (forall m s, represents m s -> exists m', read m = Return (f s, m') /\ represents m' s) ->
  refines (a ← read; mret (h a)) (s ← get_state; mret (h (f s))).
Proof.
  intros Hread m s Hr. destruct (Hread m s Hr) as (m' & E & Hr').
  rewrite (stored_bind_Return _ _ _ _ _ E). by exists (h (f s)), m', s.
Qed.
Lemma refines_read {A} (read : Stored A) (f : CanisterState -> A) :
  (forall m s, represents m s -> exists m', read m = Return (f s, m') /\ represents m' s) ->
  refines read (s ← get_state; mret (f s)).
Proof.
  intros Hread m s Hr. destruct (Hread m s Hr) as (m' & E & Hr'). by exists (f s), m', s.
Qed.
Lemma refines_update {A} (read : Stored A) (f : CanisterState -> A) (write : A -> Stored unit) g :
  (forall m s, represents m s -> exists m', read m = Return (f s, m') /\ represents m' s) ->
  (forall m s, represents m s ->
     exists m', write (f s) m = Return ((), m') /\ represents m' (g s)) ->
  refines (a ← read; write a) (modify g).
Proof.
  intros Hread Hwrite m s Hr. destruct (Hread m s Hr) as (m' & E & Hr').
  rewrite (stored_bind_Return _ _ _ _ _ E). destruct (Hwrite m' s Hr') as (m'' & E' & Hr'').
  by exists (), m'', (g s).
Qed.

Lemma get_api_key_refines id : refines (stored_get_api_key id) (get_api_key id).
Proof.
  intros m s Hr. destruct (api_keys_reads m s Hr) as (m' & E & Hr').
  unfold stored_get_api_key. rewrite (stored_bind_Return _ _ _ _ _ E), lookup_fmap.
  exists (API_KEY_MAP s !! id), m', s. split; [|done].
  destruct (API_KEY_MAP s !! id) as [key|]; [|done]. cbn [fmap option_fmap option_map].
  by rewrite from_to_bytes.
Qed.

Lemma valid_key_fits text key :
  ApiKey_try_from text = Ok key -> btree_refuses (BOUND (T := ApiKey)) (to_bytes key) = None.
Proof.
  intros [-> Hv]%ApiKey_try_from_Ok. apply btree_accepts. by apply valid_key_bytes.
Qed.

Lemma insert_api_key_refines id text key :
  ApiKey_try_from text = Ok key -> refines (stored_insert_api_key id key) (insert_api_key id key).
Proof.
  intros Hkey. apply (refines_update _ _ _ _ api_keys_reads). intros m s [Hd Hk Hp Hf Ho Hn].
  rewrite (valid_key_fits _ _ Hkey). eexists. split; [done|]. other_regions.
  cbn [API_KEY_MAP set_keys default]. by rewrite fmap_insert.
Qed.
Lemma remove_api_key_refines id : refines (stored_remove_api_key id) (remove_api_key id).
Proof.
  apply (refines_update _ _ _ _ api_keys_reads). intros m s [Hd Hk Hp Hf Ho Hn].
  eexists. split; [done|]. other_regions.
  cbn [API_KEY_MAP set_keys default]. by rewrite fmap_delete.
Qed.

(** A cell accepts a value. *)
Definition accepted {T} `{Storable T} (value : T) : Prop :=
  cell_refuses (BOUND (T := T)) (to_bytes value) = None.

(** C9: stable memory keeps what the code of the canister says. The empty memory stands for the
    initial state, and a memory that stands for a state also stands for the state after an
    upgrade, which resets what is not stored. Every operation on the stored configuration, done
    on the encoded regions, returns what the operation of the model returns and leaves regions
    that stand for its new state: no operation changes another one's region, a stored value is
    read back without loss, and a valid API key never exceeds the bound of its map. A filter or
    an override is stored when its cell accepts it. *)
Theorem stable_memory_refines :
  represents ∅ initial_state /\
  (forall m s, represents m s -> represents m (upgraded_state s)) /\
  refines stored_is_demo_active is_demo_active /\
  (forall b, refines (stored_set_demo_active b) (set_demo_active b)) /\
  (forall id, refines (stored_get_api_key id) (get_api_key id)) /\
  (forall id text key, ApiKey_try_from text = Ok key ->
     refines (stored_insert_api_key id key) (insert_api_key id key)) /\
  (forall id, refines (stored_remove_api_key id) (remove_api_key id)) /\
  (forall principal,
     refines (stored_is_api_key_principal principal) (is_api_key_principal principal)) /\
  (forall principals,
     refines (stored_set_api_key_principals principals) (set_api_key_principals principals)) /\
  refines stored_get_log_filter get_log_filter /\
  (forall filter, accepted filter ->
     refines (stored_set_log_filter filter) (set_log_filter filter)) /\
  refines stored_get_override_provider get_override_provider /\
  (forall provider, accepted provider ->
     refines (stored_set_override_provider provider) (set_override_provider provider)) /\
  refines stored_get_num_subnet_nodes get_num_subnet_nodes /\
  (forall nodes, refines (stored_set_num_subnet_nodes nodes) (set_num_subnet_nodes nodes)).
Proof.
  split_and!.
  - by constructor.
  - intros m s [Hd Hk Hp Hf Ho Hn]. by constructor.
  - exact (refines_read _ _ is_demo_active_reads).
  - intros b. apply (refines_update _ _ (fun _ => _) _ is_demo_active_reads).
    intros m s [Hd Hk Hp Hf Ho Hn]. eexists. split; [done|]. other_regions.
  - exact get_api_key_refines.
  - exact insert_api_key_refines.
  - exact remove_api_key_refines.
  - intros principal. exact (refines_get _ _ _ principals_reads).
  - intros principals. apply (refines_update _ _ _ _ principals_reads).
    intros m s [Hd Hk Hp Hf Ho Hn]. eexists. split; [done|]. other_regions.
  - exact (refines_read _ _ log_filter_reads).
  - intros filter Ha. apply (refines_update _ _ (fun _ => _) _ log_filter_reads).
    intros m s [Hd Hk Hp Hf Ho Hn]. unfold cell_set. rewrite Ha. eexists. split; [done|].
    other_regions.
  - exact (refines_read _ _ override_provider_reads).
  - intros provider Ha. apply (refines_update _ _ (fun _ => _) _ override_provider_reads).
    intros m s [Hd Hk Hp Hf Ho Hn]. unfold cell_set. rewrite Ha. eexists. split; [done|].
    other_regions.
  - exact (refines_read _ _ num_subnet_nodes_reads).
  - intros nodes. apply (refines_update _ _ (fun _ => _) _ num_subnet_nodes_reads).
    intros m s [Hd Hk Hp Hf Ho Hn]. eexists. split; [done|]. other_regions.
Qed.
End Storage.

(** ** Witness *)

Section Witnesses.
Import Instances.Concrete.
#[local] Instance stable_structures : StableStructures := {
  String_from_bytes bytes := Return (string_of_bytes bytes);
  cell_refuses _ bytes := if 2 ^ 32 <=? Z.of_nat (length bytes) then Some "ValueTooLarge" else None;
  btree_refuses bound bytes :=
    match bound with
    | Bounded max _ => if max <? Z.of_nat (length bytes) then Some "value too large" else None
    | Unbounded => None
    end;
}.
#[local] Instance stable_structures_laws : StableStructuresLaws.
Proof.
  split.
  - intros s. cbn. by rewrite string_of_bytes_of_string.
  - intros max fixed bytes Hle. simpl.
    destruct (Z.ltb_spec max (Z.of_nat (length bytes))); done || lia.
Qed.
#[local] Instance OverrideProvider_eq_dec : EqDecision OverrideProvider.
Proof. solve_decision. Defined.
#[local] Instance OverrideProvider_countable : Countable OverrideProvider.
Proof.
  apply (inj_countable' (fun p => (fun r => (pattern r, replacement r)) <$> override_url p)
    (fun o => {| override_url := (fun '(p, r) => Build_RegexSubstitution p r) <$> o |})).
  by intros [[[]|]].
Defined.
#[local] Existing Instances number_serde number_serde_laws.
#[local] Instance filter_serde : SerdeJson LogFilter := number_serde (T := unit).
#[local] Instance filter_serde_laws : SerdeJsonLaws LogFilter := number_serde_laws (T := unit).

Definition some_key : ApiKey := {| api_key_0 := "key-1" |}.

(** The first key of a new canister. *)
Lemma stable_memory_refines_witness :
  exists m, stored_insert_api_key 1 some_key ∅ = Return ((), m) /\
    represents m (set_keys {[1 := some_key]} initial_state).
Proof.
  pose proof stable_memory_refines as (H0 & Hu & _ & _ & _ & Hi & _).
  destruct (Hi 1 "key-1" some_key eq_refl ∅ initial_state H0) as ([] & m & s & E & Es & Hm).
  injection Es as <-. exists m. split; [exact E|]. exact Hm.
Defined.
End Witnesses.
