(* ===== verification/Endpoints.v ===== *)
(** What the endpoints do beyond the queries of Consensus.v: the range of blocks of
    [eth_getLogs], the accounting of inconsistent answers, the price of a raw request, and the
    one provider of the table that makes a query trap. *)

From S2P Require Import Prelude Collections EvmRpcTypes MultiRpcResult Externals Types Providers.
From S2P Require Import Memory ProviderApi Numbers Hex.
From S2P Require Import CandidTypes JsonTypes CkethConversion EthRpc Http RpcClient.
From S2P Require Import ProviderChoice CandidRpc Main Consensus.
From S2P Require Instances.
Open Scope Z_scope.
Open Scope canister_scope.

(** ** The provider without a public URL *)

Section Trap.
Context `{TSM : TimedSizedMapApi SupportedRpcService unit} `{Canlog : CanlogCrate}.
Context `{RustOrd HttpHeader} `{JsonRpcId} `{SerdeValue} `{HttpCrate} `{RegexCrate}.
Context `{MinicborCrate} `{MRL : MultiResultsApi RpcService}.

(** One request that traps makes all of them trap. *)
Lemma build_requests_trap {I} (request : RpcService -> M (RpcResult (HttpRequest I))) ps m s p msg :
  (forall q r s', request q s = Return (r, s') -> s' = s) ->
  p ∈ ps -> request p s = Panic msg ->
  exists msg', build_requests request ps m s = Panic msg'.
Proof.
  intros Hr Hp Ep. revert m. induction ps as [|q ps IH]; intros m; [by apply not_elem_of_nil in Hp|].
  cbn [build_requests]. unfold mbind, M_bind.
  destruct (request q s) as [[r s1]|msg1] eqn:Eq; [|by eexists].
  pose proof (Hr _ _ _ Eq) as ->. unfold lift_outcome.
  destruct (mr_insert_once q r m) as [m'|msg']; [|by eexists].
  apply elem_of_cons in Hp as [->|Hp]; [congruence|]. by apply IH.
Qed.

Definition sepolia_block_pi : RpcService := RpcService.EthSepolia EthSepoliaService.BlockPi.

Lemma sepolia_block_pi_request {I} method (params : I) op size s :
  API_KEY_MAP s !! provider_id provider_6 = None ->
  exists msg, provider_request method params op size sepolia_block_pi s = Panic msg.
Proof.
  intros Hk. unfold provider_request, M_and_then, get_override_provider, get_state,
    ResolvedRpcService_post, ResolvedRpcService_api, mbind, M_bind, mret, M_ret.
  assert (E : resolve_rpc_service sepolia_block_pi = Ok (ResolvedRpcService.Provider provider_6))
    by by_compute.
  rewrite E. cbn. unfold Provider_api, get_api_key, get_state, panic, mbind, M_bind, mret, M_ret.
  change (API_KEY_MAP s !! 6 = None) in Hk. cbn [access provider_6 provider_id]. rewrite Hk.
  by eexists.
Qed.

Context `{UrlCrate}.

Lemma run_query_trap {I O R} `{HttpResponsePayload O} `{!ReduceApi RpcService O RpcError}
    `{PartialEq R} (method : RpcMethod) (params : I) estimate (convert : O -> R)
    (world : World I O) self s :
  sepolia_block_pi ∈ EthRpcClient_providers (client self) ->
  API_KEY_MAP s !! provider_id provider_6 = None ->
  exists msg, run_query method params estimate convert world self s = Panic msg.
Proof.
  intros Hp Hk. unfold run_query, mbind, M_bind, lift_outcome.
  destruct (response_size_estimate_or _ _) as [size|msg]; [|by eexists].
  unfold parallel_call, mbind, M_bind. fold (transform_op_of O).
  destruct (sepolia_block_pi_request (RpcMethod.RpcMethod_name method) params
    (transform_op_of O) (ResponseSizeEstimate_get size) s Hk) as [msg Em].
  destruct (build_requests_trap
    (provider_request (RpcMethod.RpcMethod_name method) params (transform_op_of O)
      (ResponseSizeEstimate_get size)) _ mr_default s sepolia_block_pi msg
    ltac:(intros; by eapply provider_request_state) Hp Em) as [msg' ->].
  by eexists.
Qed.
End Trap.

Lemma sort_by_equal {A} (cmp : A -> A -> comparison) (l : list A) :
  (forall x y, cmp x y = Eq) -> sort_by cmp l = l.
Proof.
  intros Hc. induction l as [|x l IH]; simpl; [done|]. rewrite IH.
  destruct l as [|y l]; simpl; [done|]. by rewrite Hc.
Qed.

(** Without any recorded success the services are ranked in the order of their list. *)
Lemma ranking_fresh `{TimedSizedMapLaws SupportedRpcService unit} `{CanlogCrate} l now :
  ranking l now initial_state = l.
Proof.
  unfold ranking. pose proof (rank_is_stable_sort SupportedRpcServiceUsage_new l now) as E.
  cbn [UNSTABLE_RPC_SERVICE_OK_RESULTS_TIMESTAMPS initial_state].
  unfold rank_ascending_evict in *. cbn [fst]. rewrite E. apply sort_by_equal.
  intros x y. unfold usage_cmp, num_elements. cbn [usage_0 SupportedRpcServiceUsage_new].
  by rewrite !tsm_get_evict by apply tsm_get_new.
Qed.

Section Endpoints.
Context `{TSM : TimedSizedMapLaws SupportedRpcService unit} `{Canlog : CanlogCrate}.
Context `{HO : RustOrdLaws HttpHeader} `{JsonRpcId} `{SerdeValue} `{HttpCrate} `{RegexCrate}.
Context `{MinicborCrate} `{MRL : MultiResultsApi RpcService} `{UrlCrate} `{HexCrate}.
Context `{Big : BigUintLaws} `{EthnumCrate} `{EthersCrate}.

(** A query traps, whatever the other providers would answer, when BlockPi's Sepolia
    endpoint is among the chosen providers and no API key is stored for it. That endpoint is
    among the default providers of Sepolia, so on a newly installed canister every query of
    Sepolia with the default configuration traps. *)
Theorem default_sepolia_traps {I O R} `{HttpResponsePayload O}
    `{!ReduceApi RpcService O RpcError} `{PartialEq R} (method : RpcMethod) (params : I)
    (estimate : EthRpcClient -> u64) (convert : O -> R) (world : World I O) (now : Timestamp) :
  (forall source config s p s1,
     Providers_new source (strategy_of config) now s = Return (Ok p, s1) ->
     sepolia_block_pi ∈ services p -> API_KEY_MAP s1 !! provider_id provider_6 = None ->
     exists msg, with_client source config now
       (run_query method params estimate convert world) s = Panic msg) /\
  exists msg, with_client (RpcServices.EthSepolia None) None now
    (run_query method params estimate convert world) initial_state = Panic msg.
Proof.
  assert (Hgen : forall source config s p s1,
    Providers_new source (strategy_of config) now s = Return (Ok p, s1) ->
    sepolia_block_pi ∈ services p -> API_KEY_MAP s1 !! provider_id provider_6 = None ->
    exists msg, with_client source config now
      (run_query method params estimate convert world) s = Panic msg).
  { intros source config s p s1 Ep Hp Hk. unfold with_client, CandidRpcClient_new,
      EthRpcClient_new, M_and_then, mbind, M_bind, mret, M_ret.
    unfold strategy_of in Ep. rewrite Ep. simpl. by apply run_query_trap. }
  split; [done|].
  eapply (Hgen (RpcServices.EthSepolia None) None initial_state
    {| chain := SEPOLIA; services := best 3 eth_sepolia now initial_state |}
    (after_ranking eth_sepolia now initial_state)); [|..|done].
  - unfold Providers_new, M_and_then, mbind, M_bind. cbn [supported_providers].
    change (strategy_of None) with ConsensusStrategy.Equality.
    rewrite choose_equality. unfold mret, M_ret. simpl.
    assert (Hl : length (best 3 eth_sepolia now initial_state) = 3%nat).
    { apply best_length; [by apply supported_lists_NoDup|simpl; lia]. }
    by destruct (best 3 eth_sepolia now initial_state).
  - cbn [services]. apply elem_of_best.
    exists (SupportedRpcService.EthSepolia EthSepoliaService.BlockPi). split; [done|].
    rewrite ranking_fresh. simpl. set_solver.
Qed.

(** ** The range of [eth_getLogs] *)

(** C28: [eth_getLogs] refuses a range whose two ends are numbers and differ by more than the
    limit, in either order, whatever the providers would answer: it does what creating the
    client does and returns the validation error. *)
Theorem get_logs_range_refused
    `{!ReduceApi RpcService (list JsonTypes.LogEntry) RpcError}
    (source : RpcServices) (config : option GetLogsRpcConfig) (args : GetLogsArgs)
    (from to : Nat256) (now : Timestamp)
    (world : World (list GetLogsParam) (list JsonTypes.LogEntry)) (s : CanisterState) :
  GetLogsArgs.from_block args = Some (CandidTypes.BlockTag.Number from) ->
  GetLogsArgs.to_block args = Some (CandidTypes.BlockTag.Number to) ->
  let config' := default GetLogsRpcConfig.GetLogsRpcConfig_default config in
  let limit := GetLogsRpcConfig.max_block_range_or_default config' in
  let difference := Z.abs (nat256_0 from - nat256_0 to) in
  limit < difference ->
  endpoint_eth_get_logs source config args now world s =
  with_client source (Some (RpcConfig_from_GetLogsRpcConfig config')) now (fun _ =>
    mret (Consistent (Err (RpcError.ValidationError (ValidationError.Custom
      ("Requested " +:+ nat_display difference +:+ " blocks; limited to " +:+
       pretty limit +:+ " when specifying a start and end block")))))) s.
Proof.
  intros Ef Et config' limit difference Hd.
  unfold endpoint_eth_get_logs, candid_eth_get_logs, block_count. rewrite Ef, Et.
  fold config' limit.
  assert (E : (if nat256_0 from <? nat256_0 to then nat256_0 to - nat256_0 from
               else nat256_0 from - nat256_0 to) = difference).
  { unfold difference. destruct (Z.ltb_spec (nat256_0 from) (nat256_0 to)); lia. }
  rewrite E. by destruct (Z.ltb_spec limit difference); [|lia].
Qed.

(** ** Inconsistent answers *)

(** The answer comes from a provider of the table. *)
Definition from_table {T} (entry : RpcService * T) : bool :=
  match resolve_rpc_service entry.1 with
  | Ok (ResolvedRpcService.Provider _) => true
  | _ => false
  end.

Lemma count_inconsistent_total {T} method (l : list (RpcService * T)) s :
  Z.of_nat (length l) < 2 ^ 64 ->
  map_Forall (fun _ c => 0 <= c < 2 ^ 64 - Z.of_nat (length l))
    (inconsistent_responses (UNSTABLE_METRICS s)) ->
  exists counters,
    for_each l (fun '(service, _) => count_inconsistent method service) s =
      Return ((), set_metrics (set_inconsistent_responses counters (UNSTABLE_METRICS s)) s) /\
    total counters = total (inconsistent_responses (UNSTABLE_METRICS s)) +
      Z.of_nat (length (List.filter from_table l)).
Proof.
  revert s. induction l as [|[service t] l IH]; intros s Hlen Hc.
  { exists (inconsistent_responses (UNSTABLE_METRICS s)). simpl. split; [|lia].
    by destruct s as [[]]. }
  cbn [length] in Hlen. cbn [for_each List.filter]. unfold mbind, M_bind.
  destruct (from_table (service, t)) eqn:Et; unfold from_table in Et; cbn [fst] in Et;
    destruct (resolve_rpc_service service) as [[api|provider]|e] eqn:Er; try done.
  1: {
    set (k := (MetricRpcMethod_from method, default "(unknown)" (Provider_hostname provider))).
    set (m := UNSTABLE_METRICS s). set (counters1 := add_metric_entry k 1 (inconsistent_responses m)).
    set (s1 := set_metrics (set_inconsistent_responses counters1 m) s).
    assert (E1 : count_inconsistent method service s = Return ((), s1))
      by (unfold count_inconsistent; by rewrite Er).
    rewrite E1. destruct (IH s1) as (counters & E & Ht); [lia|..].
    { intros k' c. cbn -[add_metric_entry]. unfold counters1.
      rewrite lookup_add_metric_entry by done. cbn [length] in Hc. case_decide as Hk.
      - intros [= <-]. destruct (inconsistent_responses m !! k) as [c|] eqn:Ec.
        + specialize (Hc k c Ec). simpl in Hc. rewrite wrap_small; [lia|]. unfold in_range. lia.
        + lia.
      - intros Ec. specialize (Hc k' c Ec). simpl in Hc. lia. }
    exists counters. rewrite E. split; [done|]. rewrite Ht.
    change (inconsistent_responses (UNSTABLE_METRICS s1)) with counters1. unfold counters1.
    rewrite total_add_metric_entry; [cbn [length]; lia|].
    eapply map_Forall_impl; [exact Hc|]. intros ? ?. cbn [length]. lia. }
  all: assert (E1 : count_inconsistent method service s = Return ((), s))
      by (unfold count_inconsistent; by rewrite Er);
    rewrite E1; apply IH; [lia|]; eapply map_Forall_impl; [exact Hc|]; intros ? ?;
    cbn [length]; lia.
Qed.

(** How a reduction becomes a result. Consistent values and errors pass without an
    effect. Inconsistent answers are all returned, and each of them that comes from a provider
    of the table is counted once for the method; nothing else changes. *)
Theorem process_result_counts {T} `{!MultiResultsLaws RpcService} (method : RpcMethod)
    (result : ReducedResult T) (s : CanisterState) :
  (forall m, result = Err (ReductionError.InconsistentResults m) ->
     Z.of_nat (length (mr_into_iter m)) < 2 ^ 64 /\
     map_Forall (fun _ c => 0 <= c < 2 ^ 64 - Z.of_nat (length (mr_into_iter m)))
       (inconsistent_responses (UNSTABLE_METRICS s))) ->
  match result with
  | Ok value => process_result method result s = Return (Consistent (Ok value), s)
  | Err (ReductionError.ConsistentError err) =>
      process_result method result s = Return (Consistent (Err err), s)
  | Err (ReductionError.InconsistentResults m) =>
      exists counters,
        process_result method result s = Return (Inconsistent (mr_into_iter m),
          set_metrics (set_inconsistent_responses counters (UNSTABLE_METRICS s)) s) /\
        total counters = total (inconsistent_responses (UNSTABLE_METRICS s)) +
          Z.of_nat (length (List.filter from_table (mr_into_iter m)))
  end.
Proof.
  destruct result as [v|[e|m]]; [done..|]. intros Hm. destruct (Hm m eq_refl) as [Hl Hc].
  destruct (count_inconsistent_total method (mr_into_iter m) s Hl Hc) as (counters & E & Ht).
  exists counters. split; [|done]. unfold process_result, mbind, M_bind. by rewrite E.
Qed.

(** ** The price of a raw request *)

Context `{!CanhttpCrate} `{SerdeJson (JsonRpcRequest serde_Value)} `{!ResponseText} `{!ConvertCrate}.

(** The request of [request] and [requestCost]. *)
Definition raw_request_of (service : RpcService) (json_rpc_payload : string)
    (max_response_bytes : u64) : M (RpcResult (HttpRequest (JsonRpcRequest serde_Value))) :=
  let* service := mret (result_map_err RpcError.ProviderError (resolve_rpc_service service)) in
  json_rpc_request_arg service json_rpc_payload max_response_bytes.

Lemma raw_request_of_state service payload n s r s' :
  raw_request_of service payload n s = Return (r, s') -> s' = s.
Proof.
  unfold raw_request_of, json_rpc_request_arg, M_and_then, get_override_provider, get_state,
    ResolvedRpcService_post, ResolvedRpcService_api, mbind, M_bind, mret, M_ret.
  destruct (resolve_rpc_service service) as [[api|provider]|e]; simpl; [| |by intros [=]];
    (destruct (from_slice (bytes_of_string payload)); simpl; [|by intros [=]]).
  - intros E. repeat case_match; simplify_eq; done.
  - destruct (Provider_api provider s) as [[api s1]|msg] eqn:Ea; [|done].
    apply Provider_api_state in Ea as ->. intros E. repeat case_match; simplify_eq; done.
Qed.

(** [requestCost] announces what [request] with the same arguments is charged: nothing in
    demo mode; otherwise the error of building the request, or the cost of the outcall of the
    request that [request] would send, with the collateral, up to the largest amount. *)
Theorem request_cost_announces (service : RpcService) (json_rpc_payload : string)
    (max_response_bytes : u64) (s s' : CanisterState)
    (r : RpcResult (HttpRequest (JsonRpcRequest serde_Value))) :
  in_range 32 (NUM_SUBNET_NODES s) ->
  raw_request_of service json_rpc_payload max_response_bytes s = Return (r, s') ->
  if IS_DEMO_ACTIVE s
  then request_cost service json_rpc_payload max_response_bytes s = Return (Ok 0, s)
  else
    match r with
    | Err e => request_cost service json_rpc_payload max_response_bytes s = Return (Err e, s)
    | Ok request =>
        match service_request_builder request with
        | Err _ =>
            exists msg, request_cost service json_rpc_payload max_response_bytes s = Panic msg
        | Ok ic_request =>
            let cost := cost_of_http_request (NUM_SUBNET_NODES s) ic_request in
            exists policy,
              ChargingPolicyWithCollateral_default s = Return (policy, s) /\
              request_cost service json_rpc_payload max_response_bytes s =
                Return (Ok (cycles_to_charge policy ic_request cost), s) /\
              (in_range 128 cost ->
               cycles_to_charge policy ic_request cost =
                 Z.min (cost + 10000000 * NUM_SUBNET_NODES s) (2 ^ 128 - 1))
        end
    end.
Proof.
  intros Hn E. pose proof (raw_request_of_state _ _ _ _ _ _ E) as ->.
  unfold raw_request_of in E. unfold request_cost, is_demo_active, get_num_subnet_nodes,
    get_state. unfold M_and_then, mbind, M_bind, mret, M_ret in E |- *.
  destruct (IS_DEMO_ACTIVE s) eqn:Hd; [done|].
  destruct (resolve_rpc_service service) as [svc|e]; cbn in *; [|by simplify_eq].
  destruct (json_rpc_request_arg svc json_rpc_payload max_response_bytes s) as [[r' s2]|msg];
    [|done].
  injection E as -> ->. destruct r as [request|e]; cbn; [|done].
  destruct (service_request_builder request) as [ic|e]; [|by eexists].
  eexists. split; [done|]. split; [done|]. intros Hc.
  unfold cycles_to_charge, ChargingPolicyWithCollateral_new, charge_user, collateral_cycles.
  rewrite Hd. cbn [negb]. unfold saturating_add, saturating_mul, max_of, in_range,
    COLLATERAL_CYCLES_PER_NODE in *. lia.
Qed.
End Endpoints.

(** ** Witnesses *)

Section Witnesses.
Import Instances.Concrete HttpConcrete.
#[local] Existing Instance minicbor_crate.
#[local] Existing Instance data_peq.
#[local] Existing Instance data_serde.
#[local] Existing Instance silent_serde | 100.
#[local] Existing Instance structural_peq | 100.

Lemma default_sepolia_traps_witness :
  exists msg, with_client (RpcServices.EthSepolia None) None 0
    (run_query RpcMethod.EthCall ["x"] (fun _ => 256) from_data (split_world 7 7))
    initial_state = Panic msg.
Proof.
  apply (default_sepolia_traps RpcMethod.EthCall ["x"] (fun _ => 256) from_data
    (split_world 7 7) 0).
Defined.

Definition number (z : Z) (H : Nat256_fits z = true) : Nat256 := {| nat256_0 := z; nat256_fits := H |}.

Lemma get_logs_range_refused_witness :
  let args := {|
    GetLogsArgs.from_block := Some (CandidTypes.BlockTag.Number (number 1000 eq_refl));
    GetLogsArgs.to_block := Some (CandidTypes.BlockTag.Number (number 499 eq_refl));
    GetLogsArgs.addresses := []; GetLogsArgs.topics := None |} in
  endpoint_eth_get_logs three_apis None args 0 failing_world initial_state =
  Return (Consistent (Err (RpcError.ValidationError (ValidationError.Custom
    "Requested 501 blocks; limited to 500 when specifying a start and end block"))),
    initial_state).
Proof.
  intros args. eapply eq_trans.
  - apply (get_logs_range_refused three_apis None args (number 1000 eq_refl)
      (number 499 eq_refl) 0 failing_world initial_state eq_refl eq_refl).
    vm_compute. reflexivity.
  - reflexivity.
Defined.

Lemma process_result_counts_witness :
  let answers : @MultiResults _ multi_results Data RpcError :=
    [(RpcService.Provider 0, Ok (Data_from [1])); (RpcService.Provider 99, Ok (Data_from [2]))] in
  exists counters,
    process_result RpcMethod.EthCall (Err (ReductionError.InconsistentResults answers))
      initial_state =
    Return (Inconsistent answers,
      set_metrics (set_inconsistent_responses counters Metrics_default) initial_state) /\
    total counters = 1.
Proof.
  intros answers.
  apply (process_result_counts RpcMethod.EthCall
    (Err (ReductionError.InconsistentResults answers)) initial_state).
  intros m [= <-]. split; [by vm_compute|apply map_Forall_empty].
Defined.

#[local] Instance plain_text : ResponseText := {|
  response_to_string _ := Ok "text"; response_debug _ := "debug" |}.
#[local] Instance raw_serde : SerdeJson (JsonRpcRequest serde_Value) := {|
  from_slice _ := Ok (req_body raw_request); to_vec _ := [] |}.

Lemma request_cost_announces_witness :
  request_cost (RpcService.Provider 1) "payload" 100 initial_state =
  Return (Ok 340000238, initial_state).
Proof.
  destruct (raw_request_of (RpcService.Provider 1) "payload" 100 initial_state)
    as [[[req|e] s']|msg] eqn:E; [|vm_compute in E; discriminate E..].
  destruct (request_cost_announces (RpcService.Provider 1) "payload" 100 initial_state s' _
    ltac:(by vm_compute) E) as (policy & _ & Er & Ec).
  rewrite Er, Ec by (vm_compute; split; congruence). reflexivity.
Defined.
End Witnesses.
