(* ===== verification/Liveness.v ===== *)
(** When a query is answered: the exact condition under which a multi-provider method returns a
    result, value or error, instead of trapping. *)

From S2P Require Import Prelude Collections EvmRpcTypes MultiRpcResult Externals Types Providers.
From S2P Require Import Memory ProviderApi Numbers Hex.
From S2P Require Import CandidTypes JsonTypes CkethConversion EthRpc Http RpcClient.
From S2P Require Import ProviderChoice CandidRpc Main Admin Consensus Invariant Endpoints.
From S2P Require Instances.
Open Scope Z_scope.
Open Scope canister_scope.

Section Liveness.
Context `{TSM : TimedSizedMapApi SupportedRpcService unit} `{Canlog : CanlogCrate}.
Context `{RustOrd HttpHeader} `{JsonRpcId} `{SerdeValue} `{HttpCrate} `{RegexCrate}.
Context `{MinicborCrate} `{MRL : MultiResultsLaws RpcService} `{UrlCrate}.

(** ** One provider *)

(** Where a service is reached, before the override: a provider that takes a key by its stored
    key or else by its public URL; nowhere, when it has neither. *)
Definition address (s : CanisterState) (service : ResolvedRpcService) : option RpcApi :=
  match service with
  | ResolvedRpcService.Api api => Some api
  | ResolvedRpcService.Provider provider =>
      let public u := {| url := u; headers := None |} in
      match access provider, API_KEY_MAP s !! provider_id provider with
      | RpcAccess.Unauthenticated public_url, _ => Some (public public_url)
      | RpcAccess.Authenticated _ public_url, None => option_map public public_url
      | RpcAccess.Authenticated (RpcAuth.BearerToken url) _, Some key =>
          Some {| url := url; headers := Some [
            {| header_name := "Authorization"; header_value := "Bearer " +:+ ApiKey_read key |}] |}
      | RpcAccess.Authenticated (RpcAuth.UrlParameter pattern) _, Some key =>
          Some (public (replace pattern API_KEY_REPLACE_STRING (ApiKey_read key)))
      end
  end.
Lemma Provider_api_address provider s :
  match address s (ResolvedRpcService.Provider provider) with
  | Some api => Provider_api provider s = Return (api, s)
  | None => exists msg, Provider_api provider s = Panic msg
  end.
Proof.
  unfold address, Provider_api, get_api_key, get_state, panic, mbind, M_bind, mret, M_ret.
  destruct (access provider) as [[u|u] [public|]|public]; try done;
    destruct (API_KEY_MAP s !! provider_id provider) eqn:E; simpl; by eauto || by rewrite E; eauto.
Qed.

(** A provider that can be asked: its service has an address, and of the URL and the headers
    that the override makes of it, the [http] crate accepts both and finds a host in the URL.
    A provider that is not known counts too: its answer is an error. *)
Definition askable (s : CanisterState) (p : RpcService) : Prop :=
  match resolve_rpc_service p with
  | Err _ => True
  | Ok service =>
      exists api, address s service = Some api /\
        forall api', OverrideProvider_apply (OVERRIDE_PROVIDER s) api = Ok api' ->
          http_check (url api') (default [] (headers api')) = None /\ uri_host (url api') <> None
  end.

Lemma ResolvedRpcService_api_address service s o :
  match address s service with
  | Some api => ResolvedRpcService_api service o s = Return (result_map_err
      (fun regex_error => RpcError.ValidationError (ValidationError.Custom
        ("BUG: regex should have been validated when initially set. Error: "
           +:+ regex_Error_to_string regex_error)))
      (OverrideProvider_apply o api), s)
  | None => exists msg, ResolvedRpcService_api service o s = Panic msg
  end.
Proof.
  destruct service as [api|provider]; [done|].
  pose proof (Provider_api_address provider s) as Hp.
  destruct (address s _) as [api|]; [|destruct Hp as [msg Hp]];
    unfold ResolvedRpcService_api, mbind, M_bind; rewrite Hp; [done|by eexists].
Qed.

(** The request of a provider is built, and its first attempt starts. *)
Lemma provider_request_returns {I} method (params : I) op size s p :
  (exists r, provider_request method params op size p s = Return (r, s) /\
     forall q, r = Ok q -> uri_host (req_uri q) <> None) <-> askable s p.
Proof.
  unfold provider_request, askable, M_and_then, get_override_provider, get_state,
    ResolvedRpcService_post, mbind, M_bind, mret, M_ret.
  destruct (resolve_rpc_service p) as [service|e]; simpl; [|split; [done|by eexists]].
  pose proof (ResolvedRpcService_api_address service s (OVERRIDE_PROVIDER s)) as Ha.
  destruct (address s service) as [api|]; [rewrite Ha|].
  - split.
    + intros (r & Er & Hh). exists api. split; [done|]. intros api' Eo. rewrite Eo in Er.
      simpl in Er. rewrite post_headers in Er. unfold Builder_body in Er. simpl in Er.
      destruct (http_check (url api') _); [done|]. split; [done|]. injection Er as <-.
      by apply (Hh _ eq_refl).
    + intros (api0 & [= <-] & Hc).
      destruct (OverrideProvider_apply _ api) as [api'|e]; simpl; [|by eexists].
      destruct (Hc _ eq_refl) as [Ek Hh]. rewrite post_headers. unfold Builder_body. simpl.
      rewrite Ek. eexists. split; [done|]. by intros q [= <-].
  - destruct Ha as [msg ->]. naive_solver.
Qed.

Lemma provider_request_cases {I} method (params : I) op size s p :
  (exists r, provider_request method params op size p s = Return (r, s)) \/
  exists msg, provider_request method params op size p s = Panic msg.
Proof.
  destruct (provider_request method params op size p s) as [[r s']|msg] eqn:E; [left|right; eauto].
  apply provider_request_state in E as ->. eauto.
Qed.

(** ** The parallel call and the query *)

Context {I O R : Type} `{HttpResponsePayload O} `{!ReduceApi RpcService O RpcError}.
Context `{PartialEq R}.

Lemma parallel_call_returns (self : EthRpcClient) method (params : I) size (world : World I O) s :
  NoDup (EthRpcClient_providers self) ->
  (exists results s', parallel_call self method params size world s = Return (results, s')) <->
  Forall (askable s) (EthRpcClient_providers self).
Proof.
  intros Hnd. rewrite Forall_forall. split.
  - intros (results & s' & E) p Hp. apply (provider_request_returns method params
      (transform_op_of O) (ResponseSizeEstimate_get size)).
    pose proof (parallel_call_spec self method params size world s Hnd) as Hc. simpl in Hc.
    destruct (provider_request_cases method params (transform_op_of O)
      (ResponseSizeEstimate_get size) s p) as [[r Hr]|[msg Em]].
    + rewrite E in Hc. exists r. split; [done|]. intros q ->. by eapply Hc.
    + exfalso. destruct (build_requests_trap (provider_request method params (transform_op_of O)
        (ResponseSizeEstimate_get size)) (EthRpcClient_providers self) mr_default s p msg
        ltac:(intros; by eapply provider_request_state) Hp Em) as [msg' Eb].
      unfold parallel_call, mbind, M_bind in E. fold (transform_op_of O) in E.
      by rewrite Eb in E.
  - intros Hall. pose proof (parallel_call_spec self method params size world s Hnd) as Hp.
    simpl in Hp. destruct (parallel_call self method params size world s) as [[results s']|msg];
      [by eexists _, _|].
    destruct Hp as (p & Hin & Hp). specialize (Hall p Hin).
    apply (provider_request_returns method params (transform_op_of O)
      (ResponseSizeEstimate_get size)) in Hall as (r & Er & Hh).
    destruct Hp as [Em|(q & Eq & En)]; [by rewrite Er in Em|].
    rewrite Er in Eq. injection Eq as ->. by destruct (Hh q).
Qed.

Lemma process_result_returns method (result : ReducedResult O) s :
  exists r s', process_result method result s = Return (r, s').
Proof.
  destruct result as [v|[e|m]]; cbn; [by eexists _, _..|].
  destruct (for_each_count_returns method (mr_into_iter m) s) as (s' & E).
  unfold mbind, M_bind. rewrite E. by eexists _, _.
Qed.

Lemma run_query_returns (method : RpcMethod) (params : I) estimate (convert : O -> R)
    (world : World I O) (self : CandidRpcClient) s :
  NoDup (EthRpcClient_providers (client self)) ->
  (exists r s', run_query method params estimate convert world self s = Return (r, s')) <->
  1 <= default (estimate (client self)) (response_size_estimate (RpcClient.config (client self)))
    <= MAX_PAYLOAD_SIZE /\
  Forall (askable s) (EthRpcClient_providers (client self)).
Proof.
  intros Hnd. unfold run_query, mbind, M_bind, lift_outcome, response_size_estimate_or,
    ResponseSizeEstimate_new.
  set (n := default _ _).
  destruct (Z.ltb_spec 0 n); simpl; [|split; [naive_solver|lia]].
  destruct (Z.leb_spec n MAX_PAYLOAD_SIZE); simpl; [|split; [naive_solver|lia]].
  pose proof (parallel_call_returns (client self) (RpcMethod.RpcMethod_name method) params
    {| estimate_0 := n |} world s Hnd) as Hp.
  destruct (parallel_call _ _ _ _ _ s) as [[results s1]|msg].
  - destruct (process_result_returns method
      (ReductionStrategy_reduce (consensus_strategy (client self)) results) s1)
      as (r & s2 & ->).
    split; [|by eexists _, _]. intros _. split; [lia|]. apply Hp. by eexists _, _.
  - split; [naive_solver|]. intros [_ Ha]. apply Hp in Ha. naive_solver.
Qed.
End Liveness.

(** ** Properties *)

Section Properties.
Context `{TSM : TimedSizedMapLaws SupportedRpcService unit} `{Canlog : CanlogCrate}.
Context `{HO : RustOrdLaws HttpHeader} `{JsonRpcId} `{SerdeValue} `{HttpCrate} `{RegexCrate}.
Context `{MinicborCrate} `{MRL : MultiResultsLaws RpcService} `{UrlCrate}.

(** C5: a query is answered, by a value or an error, in exactly the states in which each of the
    chosen providers can be asked and the estimate of the response size is allowed, whatever
    the providers answer, however long they take, and whatever other messages do meanwhile;
    an invalid choice of providers is always answered. So a query traps only for one of four
    reasons: an estimate of zero or above the maximum, a provider without a public URL and
    without a stored key, a URL or header that is not valid HTTP, or a valid URL without a
    host, which the metrics of the first attempt unwrap. The numbers of the strategy are
    bytes, as their type says. *)
Theorem query_is_answered {I O R : Type} `{HttpResponsePayload O}
    `{!ReduceApi RpcService O RpcError} `{PartialEq R} (method : RpcMethod) (params : I)
    (estimate : EthRpcClient -> u64) (convert : O -> R) (source : RpcServices)
    (config : option RpcConfig) (now : Timestamp) (world : World I O) (s : CanisterState) :
  strategy_in_range (strategy_of config) ->
  (exists r s', with_client source config now
     (run_query method params estimate convert world) s = Return (r, s')) <->
  forall p s1, Providers_new source (strategy_of config) now s = Return (Ok p, s1) ->
    let client := {| providers := p; RpcClient.config := default RpcConfig_default config |} in
    1 <= default (estimate client) (response_size_estimate (RpcClient.config client))
      <= MAX_PAYLOAD_SIZE /\
    Forall (askable s1) (services p).
Proof.
  intros Hr. unfold with_client, CandidRpcClient_new, EthRpcClient_new, M_and_then, mbind, M_bind,
    mret, M_ret.
  change (default ConsensusStrategy.ConsensusStrategy_default
    (response_consensus (default RpcConfig_default config))) with (strategy_of config).
  destruct (Providers_new source (strategy_of config) now s) as [[[p|e] s1]|msg] eqn:Ep; simpl.
  - rewrite run_query_returns; cbn [client EthRpcClient_providers providers].
    + split; [|intros Ha; by apply Ha]. intros Ha p' s1' E. injection E as -> ->. exact Ha.
    + apply Providers_new_Ok in Ep as (Ec & _ & _). by eapply sorted_NoDup, choose_sorted.
  - split; [naive_solver|by eexists _, _].
  - exfalso. unfold Providers_new, M_and_then, mbind, M_bind in Ep.
    pose proof (choose_no_panic source (strategy_of config) now s) as Hp.
    destruct (supported_providers source) as [net l]. cbn [snd] in Hp.
    destruct (choose_providers _ l _ now s) as [[[[|x set]|e] s2]|msg'] eqn:Ec;
      unfold mret, M_ret in Ep; try discriminate. by apply (Hp msg').
Qed.
End Properties.

(** ** Witnesses *)

Section Witnesses.
Import Instances.Concrete HttpConcrete.
#[local] Existing Instance minicbor_crate.
#[local] Existing Instance data_peq.
#[local] Existing Instance data_serde.

Lemma query_is_answered_witness :
  exists r s', with_client three_apis (Some two_of_three) 0
    (run_query RpcMethod.EthCall ["x"] (fun _ => 256) from_data (split_world 7 9)) initial_state =
    Return (r, s').
Proof.
  apply (query_is_answered RpcMethod.EthCall ["x"] (fun _ => 256) from_data three_apis
    (Some two_of_three) 0 (split_world 7 9) initial_state).
  - split; [vm_compute; split; congruence|]. intros t [= <-]. vm_compute. split; congruence.
  - intros p s1 E. vm_compute in E. injection E as <- <-. split; [by_compute|].
    repeat constructor; (eexists; split; [reflexivity|]; intros api' [= <-]; split; [done|by vm_compute]).
Defined.
End Witnesses.
