(* ===== verification/Secrecy.v ===== *)
(** API keys are secrets: what the canister shows, counts and decides does not depend on them.
    A relation of states that differ in their keys only, kept by the operations that use keys;
    and the texts that the source prints in place of an API. *)

From Stdlib Require Import Ascii.
From S2P Require Import Prelude Collections EvmRpcTypes MultiRpcResult Externals Types Providers.
From S2P Require Import Memory ProviderApi Numbers Hex.
From S2P Require Import CandidTypes JsonTypes CkethConversion EthRpc Http RpcClient.
From S2P Require Import ProviderChoice CandidRpc Main Admin Consensus.
From S2P Require Instances.
Open Scope Z_scope.
Open Scope canister_scope.

(** ** The printed forms ([evm_rpc_types/src/rpc_client/mod.rs]) *)

Section Debug.
Context `{UrlCrate}.

Definition RpcApi_host_str (self : RpcApi) : option string :=
  match url_parse (url self) with
  | Some u => url_host_str u
  | None => None
  end.
(** [impl Debug for RpcApi]. *)
Definition RpcApi_debug (self : RpcApi) : string :=
  let host := default "N/A" (RpcApi_host_str self) in
  "RpcApi { host: " +:+ host +:+ ", url/headers: *** }".
End Debug.

(** [impl Debug for RpcService]; the names of services are printed by their derived [Debug]. *)
Definition RpcService_debug (eth_mainnet : EthMainnetService -> string)
    (eth_sepolia : EthSepoliaService -> string) (l2 : L2MainnetService -> string)
    (self : RpcService) : string :=
  match self with
  | RpcService.Provider provider_id => "Provider(" +:+ pretty provider_id +:+ ")"
  | RpcService.Custom _ => "Custom(..)"
  | RpcService.EthMainnet service => eth_mainnet service
  | RpcService.EthSepolia service => eth_sepolia service
  | RpcService.ArbitrumOne service | RpcService.BaseMainnet service
  | RpcService.OptimismMainnet service => l2 service
  end.

(** ** What the crates [url] and [http] make of the text of a URL *)

Definition all_chars (allowed s : string) : bool :=
  forallb (fun c => contains_char c allowed) (String.list_ascii_of_string s).
Definition host_chars : string :=
  "0123456789ABCDEFGHIJKLMNOPQRSTUVWXYZabcdefghijklmnopqrstuvwxyz-.".
Definition path_chars : string := VALID_API_KEY_CHARS +:+ "/".

(** The longest URL that the [http] crate takes, in bytes. *)
Definition URI_MAX_LEN : Z := 65534.

(** A URL with a plain host, which is not empty, and a plain path, that is not too long. *)
Definition https_url (host path : string) : string := "https://" +:+ host +:+ "/" +:+ path.
Definition plain_url (host path : string) : Prop :=
  host <> "" /\ all_chars host_chars host = true /\ all_chars path_chars path = true /\
  str_len (https_url host path) <= URI_MAX_LEN.

(** The host of such a URL is that of its authority, whatever the path, which may hold any of
    the characters of API keys, and so does the check of the builder; a header may hold these
    characters as well. *)
Class HostLaws `{UrlCrate} `{HttpCrate} := {
  url_host_of host path path' :
    plain_url host path -> plain_url host path' ->
    RpcApi_host_str {| url := https_url host path; headers := None |} =
    RpcApi_host_str {| url := https_url host path'; headers := None |};
  uri_host_of host path path' :
    plain_url host path -> plain_url host path' ->
    uri_host (https_url host path) = uri_host (https_url host path');
  http_check_path host path path' hs :
    plain_url host path -> plain_url host path' ->
    http_check (https_url host path) hs = http_check (https_url host path') hs;
  http_check_bearer uri key key' :
    all_chars path_chars key = true -> all_chars path_chars key' = true ->
    http_check uri [{| header_name := "Authorization"; header_value := "Bearer " +:+ key |}] =
    http_check uri [{| header_name := "Authorization"; header_value := "Bearer " +:+ key' |}];
}.

Lemma all_chars_app allowed s t :
  all_chars allowed (s +:+ t) = all_chars allowed s && all_chars allowed t.
Proof.
  unfold all_chars. induction s as [|c s IH]; [done|]. simpl. rewrite IH. apply andb_assoc.
Qed.

Lemma valid_key_chars key :
  validate_api_key (ApiKey_read key) = Ok () -> all_chars path_chars (ApiKey_read key) = true.
Proof.
  intros (_ & _ & Hall)%validate_api_key_Ok. unfold all_chars. apply forallb_forall.
  intros c Hc. apply list_elem_of_In in Hc. rewrite Forall_forall in Hall.
  unfold path_chars. rewrite contains_char_app. by rewrite Hall.
Qed.

(** What precedes the key in a URL of the table: a host, and the start of a path; 1,000 bytes at
    most. *)
Lemma url_prefix_table p pattern public prefix :
  p ∈ PROVIDERS -> access p = RpcAccess.Authenticated (RpcAuth.UrlParameter pattern) public ->
  pattern = prefix +:+ API_KEY_REPLACE_STRING ->
  exists host path, prefix = https_url host path /\ host <> "" /\
    all_chars host_chars host = true /\ all_chars path_chars path = true /\
    str_len prefix <= 1000.
Proof.
  intros Hp Ha ->.
  pose (host s := default "" (Instances.Concrete.https_host s)).
  pose (path s := let n := (9 + String.length (host s))%nat in
    String.substring n (String.length s - n - 9) s).
  exists (host (prefix +:+ API_KEY_REPLACE_STRING)), (path (prefix +:+ API_KEY_REPLACE_STRING)).
  pose proof (PROVIDERS_forall (fun p =>
    match access p with
    | RpcAccess.Authenticated (RpcAuth.UrlParameter s) _ =>
        String.eqb s (https_url (host s) (path s) +:+ API_KEY_REPLACE_STRING) &&
        negb (String.eqb (host s) "") &&
        all_chars host_chars (host s) && all_chars path_chars (path s) && (str_len s <=? 1000)
    | _ => true
    end) ltac:(by vm_compute) p Hp) as Hb. cbv beta in Hb. rewrite Ha in Hb.
  apply andb_true_iff in Hb as [[[[Hb%String.eqb_eq Hne]%andb_true_iff Hh]%andb_true_iff
    Hpath]%andb_true_iff Hl%Z.leb_le].
  split_and!; [by apply (string_app_inv_tail API_KEY_REPLACE_STRING)| |done..|].
  - intros E. by rewrite E in Hne.
  - unfold str_len in *. rewrite string_length_app in Hl. lia.
Qed.

(** The URL of a provider with a valid key. *)
Lemma keyed_url host path key :
  host <> "" -> all_chars host_chars host = true -> all_chars path_chars path = true ->
  str_len (https_url host path) <= 1000 -> validate_api_key (ApiKey_read key) = Ok () ->
  plain_url host (path +:+ ApiKey_read key) /\
  https_url host path +:+ ApiKey_read key = https_url host (path +:+ ApiKey_read key).
Proof.
  intros Hne Hh Hpath Hl Hk.
  assert (E : https_url host path +:+ ApiKey_read key = https_url host (path +:+ ApiKey_read key))
    by (unfold https_url; by rewrite !string_app_assoc).
  split; [|done]. split_and!; [done..| |].
  - by rewrite all_chars_app, Hpath, valid_key_chars.
  - apply validate_api_key_Ok in Hk as (_ & Hk & _). rewrite <- E. unfold str_len, URI_MAX_LEN in *.
    rewrite string_length_app. lia.
Qed.

(** ** States that differ in their keys *)

Section Secrecy.
Context `{TSM : TimedSizedMapApi SupportedRpcService unit} `{Canlog : CanlogCrate}.
Context `{RustOrd HttpHeader} `{JsonRpcId} `{SerdeValue} `{RegexCrate}.
Context `{HostLaws}.

(** The same providers have a key, all keys are valid, everything else is equal, and no
    override, which may put anything in a URL, is set. *)
Record same_but_keys (s1 s2 : CanisterState) : Prop := {
  same_rest : set_keys ∅ s1 = set_keys ∅ s2;
  valid_keys : forall id,
    match API_KEY_MAP s1 !! id, API_KEY_MAP s2 !! id with
    | Some k1, Some k2 =>
        validate_api_key (ApiKey_read k1) = Ok () /\ validate_api_key (ApiKey_read k2) = Ok ()
    | None, None => True
    | _, _ => False
    end;
  no_override : override_url (OVERRIDE_PROVIDER s1) = None;
}.

(** Two computations that cannot be told apart from such states: both give related values or
    both panic with the same message. *)
Definition alike {A} (R : A -> A -> Prop) (m1 m2 : M A) : Prop :=
  forall s1 s2, same_but_keys s1 s2 ->
    match m1 s1, m2 s2 with
    | Return (a1, s1'), Return (a2, s2') => R a1 a2 /\ same_but_keys s1' s2'
    | Panic msg1, Panic msg2 => msg1 = msg2
    | _, _ => False
    end.

Lemma alike_ret {A} (R : A -> A -> Prop) a1 a2 : R a1 a2 -> alike R (mret a1) (mret a2).
Proof. intros Ha s1 s2 Hs. by split. Qed.
Lemma alike_panic {A} (R : A -> A -> Prop) msg : alike R (panic msg) (panic msg).
Proof. intros s1 s2 Hs. done. Qed.
Lemma alike_bind {A B} (Q : A -> A -> Prop) (R : B -> B -> Prop) m1 m2 f1 f2 :
  alike Q m1 m2 -> (forall a1 a2, Q a1 a2 -> alike R (f1 a1) (f2 a2)) ->
  alike R (m1 ≫= f1) (m2 ≫= f2).
Proof.
  intros Hm Hf s1 s2 Hs. specialize (Hm s1 s2 Hs). unfold mbind, M_bind.
  destruct (m1 s1) as [[a1 s1']|msg1], (m2 s2) as [[a2 s2']|msg2]; try done.
  destruct Hm as [Ha Hs']. by apply Hf.
Qed.
Lemma alike_weaken {A} (Q R : A -> A -> Prop) m1 m2 :
  (forall a1 a2, Q a1 a2 -> R a1 a2) -> alike Q m1 m2 -> alike R m1 m2.
Proof.
  intros HQR Hm s1 s2 Hs. specialize (Hm s1 s2 Hs).
  destruct (m1 s1) as [[]|], (m2 s2) as [[]|]; naive_solver.
Qed.

(** Reading a field other than the keys. *)
Lemma alike_field {A} (f : CanisterState -> A) :
  (forall s, f (set_keys ∅ s) = f s) -> alike eq (s ← get_state; mret (f s))
    (s ← get_state; mret (f s)).
Proof.
  intros Hf s1 s2 Hs. unfold get_state, mbind, M_bind, mret, M_ret. split; [|done].
  rewrite <- (Hf s1), <- (Hf s2). by rewrite (same_rest _ _ Hs).
Qed.
(** Changing a field other than the keys and the override. *)
Lemma alike_modify (g : CanisterState -> CanisterState) :
  (forall s, g (set_keys ∅ s) = set_keys ∅ (g s)) ->
  (forall s, API_KEY_MAP (g s) = API_KEY_MAP s) ->
  (forall s, OVERRIDE_PROVIDER (g s) = OVERRIDE_PROVIDER s) ->
  alike eq (modify g) (modify g).
Proof.
  intros Hg Hk Ho s1 s2 [Hr Hv Hn]. unfold modify. split; [done|]. split.
  - rewrite <- !Hg. by rewrite Hr.
  - intros id. rewrite !Hk. apply Hv.
  - by rewrite Ho.
Qed.

(** ** What does not read the keys *)

Lemma alike_rank l now : alike eq (rank_providers l now) (rank_providers l now).
Proof.
  assert (E : forall s, rank_providers l now s =
    (s ← get_state; modify (set_usage (rank_ascending_evict
        (UNSTABLE_RPC_SERVICE_OK_RESULTS_TIMESTAMPS s) l now).2) ;;
      mret (rank_ascending_evict (UNSTABLE_RPC_SERVICE_OK_RESULTS_TIMESTAMPS s) l now).1) s).
  { intros s. unfold rank_providers, get_state, modify, mbind, M_bind, mret, M_ret.
    by destruct (rank_ascending_evict _ _ _). }
  intros s1 s2 Hs. rewrite !E. revert s1 s2 Hs.
  assert (Ha : alike eq
    (s ← get_state; mret (rank_ascending_evict
       (UNSTABLE_RPC_SERVICE_OK_RESULTS_TIMESTAMPS s) l now) : M _)
    (s ← get_state; mret (rank_ascending_evict
       (UNSTABLE_RPC_SERVICE_OK_RESULTS_TIMESTAMPS s) l now) : M _)) by by apply alike_field.
  intros s1 s2 Hs. specialize (Ha s1 s2 Hs).
  unfold get_state, modify, mbind, M_bind, mret, M_ret in *. destruct Ha as [-> _].
  split; [done|]. exact (proj2 (alike_modify (set_usage _) ltac:(done) ltac:(done) ltac:(done)
    s1 s2 Hs)).
Qed.

Ltac alike_steps :=
  repeat match goal with
  | |- alike _ (mret _) (mret _) => apply alike_ret; reflexivity
  | |- alike _ (panic _) (panic _) => apply alike_panic
  | |- alike _ (rank_providers _ _) (rank_providers _ _) => apply alike_rank
  | |- alike _ (_ ≫= _) (_ ≫= _) => eapply (alike_bind eq); [|intros ? ? <-]
  | |- alike _ (if ?b then _ else _) _ => destruct b
  | |- alike _ (match ?x with _ => _ end) _ => destruct x
  end.

(** The providers are chosen without regard to the keys. *)
Lemma alike_providers source strategy now :
  alike eq (Providers_new source strategy now) (Providers_new source strategy now).
Proof.
  unfold Providers_new, M_and_then, choose_providers. destruct (supported_providers source).
  alike_steps.
Qed.

(** ** What reads them *)

(** APIs that look the same: the texts that are printed and counted for them, and what is
    checked of them. *)
Definition same_api (a1 a2 : RpcApi) : Prop :=
  RpcApi_debug a1 = RpcApi_debug a2 /\ uri_host (url a1) = uri_host (url a2) /\
  http_check (url a1) (default [] (headers a1)) = http_check (url a2) (default [] (headers a2)).

Lemma alike_api p : p ∈ PROVIDERS -> alike same_api (Provider_api p) (Provider_api p).
Proof.
  intros Hp s1 s2 Hs. pose proof (valid_keys _ _ Hs (provider_id p)) as Hk.
  unfold Provider_api, get_api_key, get_state, panic, mbind, M_bind, mret, M_ret.
  destruct (access p) as [auth public|public] eqn:Ea; [|done].
  destruct (API_KEY_MAP s1 !! provider_id p) as [k1|] eqn:E1,
    (API_KEY_MAP s2 !! provider_id p) as [k2|] eqn:E2; try done; [|by destruct public].
  destruct Hk as [Hk1 Hk2]. split; [|done].
  destruct auth as [fixed|pattern].
  - split_and!; [done..|]. by apply http_check_bearer; apply valid_key_chars.
  - destruct (url_pattern_table _ _ _ Hp Ea) as (prefix & Epat & _ & Hr).
    destruct (url_prefix_table _ _ _ _ Hp Ea Epat) as (host & path & -> & Hne & Hh & Hpath & Hl).
    destruct (keyed_url host path k1 Hne Hh Hpath Hl Hk1) as [Hu1 E1'].
    destruct (keyed_url host path k2 Hne Hh Hpath Hl Hk2) as [Hu2 E2'].
    unfold same_api, RpcApi_debug. cbn [url headers default]. rewrite !Hr, E1', E2'.
    split_and!.
    + by rewrite (url_host_of host _ _ Hu1 Hu2).
    + by apply uri_host_of.
    + by apply http_check_path.
Qed.

(** Related values, or the same error. *)
Definition same_result {A E} (R : A -> A -> Prop) (r1 r2 : Result A E) : Prop :=
  match r1, r2 with
  | Ok a1, Ok a2 => R a1 a2
  | Err e1, Err e2 => e1 = e2
  | _, _ => False
  end.

Lemma alike_and_then {A B E} (Q : A -> A -> Prop) (R : B -> B -> Prop)
    (m1 m2 : M (Result A E)) f1 f2 :
  alike (same_result Q) m1 m2 ->
  (forall a1 a2, Q a1 a2 -> alike (same_result R) (f1 a1) (f2 a2)) ->
  alike (same_result R) (M_and_then m1 f1) (M_and_then m2 f2).
Proof.
  intros Hm Hf. unfold M_and_then. eapply alike_bind; [exact Hm|].
  intros [a1|e1] [a2|e2] Ha; [by apply Hf|done|done|]. simpl in Ha. subst. by apply alike_ret.
Qed.

Lemma alike_override :
  alike (fun o1 o2 => o1 = o2 /\ override_url o1 = None) get_override_provider
    get_override_provider.
Proof.
  intros s1 s2 Hs. pose proof (alike_field OVERRIDE_PROVIDER ltac:(done) s1 s2 Hs) as [E _].
  unfold get_override_provider, get_state, mbind, M_bind, mret, M_ret in *.
  split; [|done]. split; [exact E|]. apply (no_override _ _ Hs).
Qed.

(** A service of the table, or an API given by the caller. *)
Definition in_table (service : ResolvedRpcService) : Prop :=
  match service with
  | ResolvedRpcService.Api _ => True
  | ResolvedRpcService.Provider p => p ∈ PROVIDERS
  end.

Lemma resolve_in_table p service : resolve_rpc_service p = Ok service -> in_table service.
Proof.
  assert (Hmap : forall id p, btree_map_get id PROVIDER_MAP = Some p -> p ∈ PROVIDERS).
  { intros id q. rewrite provider_map_get. intros E. by apply find_provider_Some in E as []. }
  assert (Hlookup : forall s q, lookup_provider_for_service s = Ok q -> q ∈ PROVIDERS).
  { intros s q. unfold lookup_provider_for_service, result_and_then, ok_or.
    destruct (btree_map_get s SERVICE_PROVIDER_MAP); [|done].
    destruct (btree_map_get _ PROVIDER_MAP) eqn:E; [|done]. intros [= <-]. by eapply Hmap. }
  unfold resolve_rpc_service, result_map, ok_or.
  destruct p as [id|[u hs]|svc|svc|svc|svc|svc]; intros E;
    repeat (case_match; simplify_eq); simplify_eq; simpl; try done; eauto.
Qed.

(** Builders and requests that look the same. *)
Definition same_builder (b1 b2 : Builder) : Prop :=
  uri_host (builder_uri b1) = uri_host (builder_uri b2) /\
  http_check (builder_uri b1) (builder_headers b1) =
    http_check (builder_uri b2) (builder_headers b2) /\
  builder_max_response_bytes b1 = builder_max_response_bytes b2 /\
  builder_transform_context b1 = builder_transform_context b2.
Definition same_request {B} (q1 q2 : HttpRequest B) : Prop :=
  uri_host (req_uri q1) = uri_host (req_uri q2) /\
  req_max_response_bytes q1 = req_max_response_bytes q2 /\
  req_transform_context q1 = req_transform_context q2 /\ req_body q1 = req_body q2.

Lemma same_body {B} (body : B) b1 b2 :
  same_builder b1 b2 -> same_result same_request (Builder_body body b1) (Builder_body body b2).
Proof.
  intros (Hu & Hc & Hm & Ht). unfold Builder_body. rewrite Hc.
  by destruct (http_check (builder_uri b2) (builder_headers b2)).
Qed.

Lemma alike_post service o :
  in_table service -> override_url o = None ->
  alike (same_result same_builder) (ResolvedRpcService_post service o)
    (ResolvedRpcService_post service o).
Proof.
  intros Ht Ho. unfold ResolvedRpcService_post.
  eapply (alike_bind (same_result same_api)).
  - unfold ResolvedRpcService_api. eapply (alike_bind same_api).
    + destruct service as [api|p]; [by apply alike_ret|by apply alike_api].
    + intros a1 a2 Ha. apply alike_ret. unfold OverrideProvider_apply. by rewrite Ho.
  - intros [a1|e1] [a2|e2] Ha; [|done|done|]; apply alike_ret; [|exact Ha].
    destruct Ha as (_ & Hu & Hc). simpl. rewrite !post_headers. done.
Qed.

(** The requests built for a provider, by the methods of several providers and for raw
    JSON-RPC. *)
Lemma alike_request {I} method (params : I) op size p :
  alike (same_result same_request) (provider_request method params op size p)
    (provider_request method params op size p).
Proof.
  unfold provider_request. eapply (alike_bind (same_result same_builder)).
  - eapply (alike_and_then (fun s1 s2 => s1 = s2 /\ in_table s1)).
    + apply alike_ret. destruct (resolve_rpc_service p) as [service|e] eqn:E; [|done].
      split; [done|]. by eapply resolve_in_table.
    + intros s1 s2 [<- Ht]. eapply alike_bind; [apply alike_override|].
      intros o1 o2 [<- Ho]. by apply alike_post.
  - intros [b1|e1] [b2|e2] Hb; [|done|done|by apply alike_ret].
    destruct Hb as (Hu & Hc & Hm & Ht).
    assert (Hr : forall body : JsonRpcRequest I, same_result same_request
      (Builder_body body (Builder_transform_context "cleanup_response" op
        (Builder_max_response_bytes size b1)))
      (Builder_body body (Builder_transform_context "cleanup_response" op
        (Builder_max_response_bytes size b2)))) by (intros body; by apply same_body).
    specialize (Hr (JsonRpcRequest_new method params)).
    destruct (Builder_body _ _), (Builder_body _ _); try done;
      first [by apply alike_ret|apply alike_panic].
Qed.

Context `{!CanhttpCrate} `{SerdeJson (JsonRpcRequest serde_Value)}.

Lemma alike_raw_request service payload size :
  in_table service ->
  alike (same_result same_request) (json_rpc_request_arg service payload size)
    (json_rpc_request_arg service payload size).
Proof.
  intros Ht. unfold json_rpc_request_arg. eapply (alike_and_then eq).
  - apply alike_ret. by destruct (from_slice (bytes_of_string payload)).
  - intros body ? <-. eapply alike_bind; [apply alike_override|]. intros o1 o2 [<- Ho].
    eapply alike_and_then; [by apply alike_post|]. intros b1 b2 Hb. apply alike_ret.
    assert (Hr : same_result same_request
      (Builder_body body (Builder_transform_context "__transform_json_rpc" []
        (Builder_max_response_bytes size b1)))
      (Builder_body body (Builder_transform_context "__transform_json_rpc" []
        (Builder_max_response_bytes size b2)))).
    { apply same_body. by destruct Hb as (Hu & Hc & Hm & Htc). }
    destruct (Builder_body _ _), (Builder_body _ _); try done. simpl in *. by subst.
Qed.

(** The counter of requests, and what the later counters are given. *)
Lemma alike_on_request {I} method (q1 q2 : HttpRequest (JsonRpcRequest I)) :
  same_request q1 q2 -> alike eq (on_request method q1) (on_request method q2).
Proof.
  intros [Hu _]. unfold on_request. rewrite Hu.
  destruct (uri_host (req_uri q2)) as [host|]; [|apply alike_panic].
  eapply (alike_bind eq); [by apply alike_modify|]. intros ? ? _. by apply alike_ret.
Qed.

(** C16: API keys stay secret, as long as the canister has no override of the providers: an
    override is made for tests, and the source warns that it may extract keys. Two states that
    have valid keys for the same providers, no override, and differ in nothing but the keys
    cannot be told apart by the choice of providers, nor by a request to a
    provider but for the path of its URL and its authorization header, which the provider gets:
    the requests go to the same host, with the same body, limit and transformation, or fail
    with the same error or message; they are counted under the same host; and an API is printed
    as the same text. *)
Theorem keys_stay_secret (s1 s2 : CanisterState) :
  same_but_keys s1 s2 ->
  (forall source strategy now,
     match Providers_new source strategy now s1, Providers_new source strategy now s2 with
     | Return (r1, s1'), Return (r2, s2') => r1 = r2 /\ same_but_keys s1' s2'
     | Panic msg1, Panic msg2 => msg1 = msg2
     | _, _ => False
     end) /\
  (forall p, p ∈ PROVIDERS ->
     match Provider_api p s1, Provider_api p s2 with
     | Return (api1, _), Return (api2, _) => RpcApi_debug api1 = RpcApi_debug api2
     | Panic msg1, Panic msg2 => msg1 = msg2
     | _, _ => False
     end) /\
  (forall I method (params : I) op size p,
     match provider_request method params op size p s1,
           provider_request method params op size p s2 with
     | Return (r1, _), Return (r2, _) => same_result same_request r1 r2
     | Panic msg1, Panic msg2 => msg1 = msg2
     | _, _ => False
     end) /\
  (forall service payload size, in_table service ->
     match json_rpc_request_arg service payload size s1,
           json_rpc_request_arg service payload size s2 with
     | Return (r1, _), Return (r2, _) => same_result same_request r1 r2
     | Panic msg1, Panic msg2 => msg1 = msg2
     | _, _ => False
     end) /\
  (forall I method (q1 q2 : HttpRequest (JsonRpcRequest I)), same_request q1 q2 ->
     match on_request method q1 s1, on_request method q2 s2 with
     | Return (counted1, s1'), Return (counted2, s2') =>
         counted1 = counted2 /\ UNSTABLE_METRICS s1' = UNSTABLE_METRICS s2'
     | Panic msg1, Panic msg2 => msg1 = msg2
     | _, _ => False
     end).
Proof.
  intros Hs.
  assert (Hfst : forall A (R : A -> A -> Prop) (m : M A), alike R m m ->
    match m s1, m s2 with
    | Return (a1, _), Return (a2, _) => R a1 a2
    | Panic msg1, Panic msg2 => msg1 = msg2
    | _, _ => False
    end).
  { intros A R m Hm. specialize (Hm s1 s2 Hs).
    destruct (m s1) as [[]|], (m s2) as [[]|]; try done. by destruct Hm. }
  split_and!.
  - intros source strategy now. by apply alike_providers.
  - intros p Hp. apply (Hfst _ (fun a1 a2 => RpcApi_debug a1 = RpcApi_debug a2)).
    eapply alike_weaken; [|by apply alike_api]. by intros a1 a2 [? _].
  - intros I method params op size p. apply Hfst, alike_request.
  - intros service payload size Ht. by apply Hfst, alike_raw_request.
  - intros I method q1 q2 Hq. pose proof (alike_on_request method q1 q2 Hq s1 s2 Hs) as Ha.
    destruct (on_request method q1 s1) as [[]|], (on_request method q2 s2) as [[]|]; try done.
    destruct Ha as [-> [Hr _ _]]. split; [done|]. exact (f_equal UNSTABLE_METRICS Hr).
Qed.
End Secrecy.

(** ** Witness *)

Section Witnesses.
Import Instances.Concrete HttpConcrete.
#[local] Instance raw_serde : SerdeJson (JsonRpcRequest serde_Value) := {|
  from_slice _ := Err "not used"; to_vec _ := [] |}.

Lemma https_host_of (s : string) : https_host ("https://" +:+ s) = Some (until_slash s).
Proof.
  assert (Hs : forall x, String.substring 0 (String.length x) x = x).
  { induction x as [|c x IH]; simpl; [done|]. by rewrite IH. }
  assert (Hp : starts_with "https://" ("https://" +:+ s) = true) by by destruct s.
  unfold https_host. rewrite Hp.
  change (Some (until_slash (String.substring 0 (String.length s - 0) s)) = Some (until_slash s)).
  by rewrite Nat.sub_0_r, Hs.
Qed.
Lemma https_url_host host path :
  all_chars host_chars host = true -> https_host (https_url host path) = Some host.
Proof.
  intros Hh. unfold https_url. rewrite https_host_of. f_equal. revert Hh. unfold all_chars.
  induction host as [|c host IH]; [done|].
  cbn [String.list_ascii_of_string forallb]. intros [Hc Hall]%andb_true_iff.
  rewrite string_app_cons. cbn [until_slash]. destruct (Ascii.eqb_spec c "/"%char) as [->|];
    [by vm_compute in Hc|]. by rewrite IH.
Qed.

#[local] Instance host_laws : HostLaws.
Proof.
  split; cbn [uri_host http_check http_crate]; unfold RpcApi_host_str; cbn [url];
    unfold url_parse, url_host_str, url_crate.
  - intros host path path' (_ & Hh & _) _. by rewrite !https_url_host.
  - intros host path path' (_ & Hh & _) _. by rewrite !https_url_host.
  - done.
  - done.
Qed.

Definition with_key (key : string) : CanisterState :=
  set_keys {[1 := {| api_key_0 := key |}]} initial_state.

Lemma two_keys : same_but_keys (with_key "key-1") (with_key "another").
Proof.
  split; [reflexivity| |reflexivity]. intros id. cbn [API_KEY_MAP set_keys with_key].
  destruct (decide (id = 1)) as [->|Hne]; [split; reflexivity|].
  by rewrite !lookup_singleton_ne.
Qed.

Lemma keys_stay_secret_witness :
  same_but_keys (with_key "key-1") (with_key "another") /\
  match Provider_api provider_1 (with_key "key-1"),
        Provider_api provider_1 (with_key "another") with
  | Return (api1, _), Return (api2, _) =>
      url api1 = "https://rpc.ankr.com/eth/key-1" /\
      url api2 = "https://rpc.ankr.com/eth/another" /\
      RpcApi_debug api1 = RpcApi_debug api2
  | _, _ => False
  end.
Proof.
  split; [exact two_keys|].
  destruct (keys_stay_secret _ _ two_keys) as (_ & Hd & _).
  specialize (Hd provider_1 ltac:(by_compute)).
  split; [reflexivity|]. split; [reflexivity|]. exact Hd.
Defined.
End Witnesses.
