(* ===== verification/Privacy.v ===== *)
(** API keys stay secret in whole messages: from states that differ in their keys only, the
    endpoints give the same answers and go on to such states, as long as the outside world
    answers requests that differ in nothing but the key in the same way. *)

From S2P Require Import Prelude Collections EvmRpcTypes MultiRpcResult Externals Types Providers.
From S2P Require Import Memory ProviderApi Numbers Hex.
From S2P Require Import CandidTypes JsonTypes CkethConversion EthRpc Http RpcClient.
From S2P Require Import ProviderChoice CandidRpc Main Admin Consensus Secrecy.
From S2P Require Instances.
Open Scope Z_scope.
Open Scope canister_scope.

(** ** What the crates promise *)

(** A collection of results is two maps by key: its entries determine it. *)
Class MultiResultsExt (K : Type) `{MultiResultsApi K} := multi_results_ext :
  forall {V E} (m1 m2 : MultiResults V E), mr_into_iter m1 ≡ₚ mr_into_iter m2 -> m1 = m2.

(** Whether and how a call is retried depends on its limit and on its result. *)
Class RetryBlind `{CanhttpCrate} `{SerdeValue} `{HttpCrate} `{!RetryPolicy} : Prop :=
  next_request_blind : forall {I O : Type} (q1 q2 : HttpRequest (JsonRpcRequest I))
      (r : Result (HttpJsonRpcResponse O) HttpClientError),
    same_request q1 q2 ->
    match next_request q1 r, next_request q2 r with
    | Some q1', Some q2' => same_request q1' q2'
    | None, None => True
    | _, _ => False
    end.

(** ** Collections of requests *)

Section Collections.
Context {K : Type} `{MRL : MultiResultsLaws K}.

(** The same keys, with related results. *)
Definition related_results {V E} (R : V -> V -> Prop) (m1 m2 : MultiResults V E) : Prop :=
  exists l1 l2, mr_into_iter m1 ≡ₚ l1 /\ mr_into_iter m2 ≡ₚ l2 /\
    Forall2 (fun e1 e2 => e1.1 = e2.1 /\ same_result R e1.2 e2.2) l1 l2.

Lemma related_default {V E} (R : V -> V -> Prop) :
  related_results (E := E) R mr_default mr_default.
Proof. exists [], []. by rewrite mr_default_entries. Qed.

Lemma related_keys {V E} (R : V -> V -> Prop) (m1 m2 : MultiResults V E) :
  related_results R m1 m2 -> (mr_into_iter m1).*1 ≡ₚ (mr_into_iter m2).*1.
Proof.
  intros (l1 & l2 & -> & -> & Hl). induction Hl as [|e1 e2 l1 l2 [He _] _ IH]; [done|].
  cbn. by rewrite He, IH.
Qed.

Lemma related_insert {V E} (R : V -> V -> Prop) k (r1 r2 : Result V E) m1 m2 :
  related_results R m1 m2 -> same_result R r1 r2 -> k ∉ (mr_into_iter m1).*1 ->
  exists m1' m2', mr_insert_once k r1 m1 = Return m1' /\ mr_insert_once k r2 m2 = Return m2' /\
    related_results R m1' m2' /\ mr_into_iter m1' ≡ₚ (k, r1) :: mr_into_iter m1.
Proof.
  intros Hm Hr Hk. pose proof (related_keys _ _ _ Hm) as Hkeys.
  destruct (mr_insert_once_entries k r1 m1 Hk) as (m1' & E1 & H1).
  destruct (mr_insert_once_entries k r2 m2 ltac:(by rewrite <- Hkeys)) as (m2' & E2 & H2).
  exists m1', m2'. split_and!; [done..| |done].
  destruct Hm as (l1 & l2 & Hl1 & Hl2 & Hl). exists ((k, r1) :: l1), ((k, r2) :: l2).
  rewrite H1, H2, Hl1, Hl2. split_and!; [done..|]. by constructor.
Qed.

(** The requests that could be built are related, in some order. *)
Lemma related_oks {V E} (R : V -> V -> Prop) (m1 m2 : MultiResults V E) :
  related_results R m1 m2 ->
  exists oks1 oks2, (mr_into_inner m1).1 ≡ₚ oks1 /\ (mr_into_inner m2).1 ≡ₚ oks2 /\
    Forall2 (fun e1 e2 => R e1.2 e2.2) oks1 oks2.
Proof.
  intros (l1 & l2 & H1 & H2 & Hl). exists (omap ok_entry l1), (omap ok_entry l2).
  rewrite !(proj1 (mr_into_inner_entries _)), H1, H2. split_and!; [done..|].
  clear H1 H2. induction Hl as [|[k1 [v1|e1]] [k2 [v2|e2]] l1 l2 [_ Hr] _ IH]; try done.
  by constructor.
Qed.

(** What the answers to related requests leave, when they do not depend on what differs. *)
Lemma related_answers `{!MultiResultsExt K} {I O E} (R : I -> I -> Prop)
    (h : K -> I -> Result O E) (m1 m2 : MultiResults I E) :
  NoDup (mr_into_iter m1).*1 -> related_results R m1 m2 ->
  (forall k i1 i2, R i1 i2 -> h k i1 = h k i2) ->
  mr_add_errors (mr_into_inner m1).2 (mr_parallel_call h (mr_into_inner m1).1) =
  mr_add_errors (mr_into_inner m2).2 (mr_parallel_call h (mr_into_inner m2).1).
Proof.
  intros Hnd Hm Hh. pose proof (related_keys _ _ _ Hm) as Hkeys.
  apply multi_results_ext. rewrite !combined_answers by (by rewrite <- ?Hkeys).
  destruct Hm as (l1 & l2 & -> & -> & Hl). clear Hnd Hkeys.
  induction Hl as [|[k1 r1] [k2 r2] l1 l2 [Hk Hr] _ IH]; [done|]. cbn in *. subst k2.
  rewrite IH. destruct r1 as [i1|e1], r2 as [i2|e2]; try done; cbn in *.
  - by rewrite (Hh k1 i1 i2 Hr).
  - by rewrite Hr.
Qed.
End Collections.

(** ** What an observer may see *)

Section Privacy.
Context `{TSM : TimedSizedMapLaws SupportedRpcService unit} `{Canlog : CanlogCrate}.
Context `{HO : RustOrdLaws HttpHeader} `{JsonRpcId} `{SerdeValue} `{RegexCrate} `{HostLaws}.

Lemma alike_lift {A} (R : A -> A -> Prop) (o1 o2 : Outcome A) :
  match o1, o2 with
  | Return a1, Return a2 => R a1 a2
  | Panic msg1, Panic msg2 => msg1 = msg2
  | _, _ => False
  end -> alike R (lift_outcome o1) (lift_outcome o2).
Proof. intros Ho s1 s2 Hs. by destruct o1, o2. Qed.

Lemma alike_for_each {A} (l : list A) f :
  (forall x, alike eq (f x) (f x)) -> alike eq (for_each l f) (for_each l f).
Proof.
  intros Hf. induction l as [|x l IH]; [by apply alike_ret|]. cbn [for_each].
  eapply (alike_bind eq); [apply Hf|done].
Qed.

Lemma alike_update_metrics f : alike eq (update_metrics f) (update_metrics f).
Proof. by apply alike_modify. Qed.

Lemma alike_run (g : CanisterState -> CanisterState) :
  (forall s1 s2, same_but_keys s1 s2 -> same_but_keys (g s1) (g s2)) ->
  alike eq (modify g) (modify g).
Proof. intros Hg s1 s2 Hs. split; [done|by apply Hg]. Qed.

(** Steps through two copies of the same code. *)
Ltac alike :=
  repeat match goal with
  | |- alike _ (mret _) (mret _) => apply alike_ret; reflexivity
  | |- alike _ (panic _) (panic _) => apply alike_panic
  | |- alike _ (update_metrics _) (update_metrics _) => apply alike_update_metrics
  | |- alike _ (for_each _ _) (for_each _ _) => apply alike_for_each; intros ?
  | |- alike _ (_ ≫= _) (_ ≫= _) => eapply (alike_bind eq); [|intros ? ? <-]
  | |- alike _ (match ?x with _ => _ end) (match ?x with _ => _ end) => destruct x
  end.

(** ** Queries of several providers *)

Context `{MinicborCrate} `{MRL : MultiResultsLaws RpcService} `{!MultiResultsExt RpcService}.

(** The outside world cannot tell requests apart that differ in nothing but the key, and what
    other messages do meanwhile keeps the states the same but for the keys. *)
Record blind_world {I O} (world : World I O) : Prop := {
  blind_outcall p q1 q2 : same_request q1 q2 -> outcall world p q1 = outcall world p q2;
  blind_await s1 s2 : same_but_keys s1 s2 ->
    same_but_keys (during_await world s1) (during_await world s2);
}.

Lemma alike_build_requests {I} (request : RpcService -> M (RpcResult (HttpRequest I))) ps m1 m2 :
  (forall p, alike (same_result same_request) (request p) (request p)) ->
  NoDup (ps ++ (mr_into_iter m1).*1) -> related_results same_request m1 m2 ->
  alike (fun m1' m2' => related_results same_request m1' m2' /\
      (mr_into_iter m1').*1 ≡ₚ ps ++ (mr_into_iter m1).*1)
    (build_requests request ps m1) (build_requests request ps m2).
Proof.
  intros Hreq. revert m1 m2. induction ps as [|p ps IH]; intros m1 m2 Hnd Hm;
    [by apply alike_ret|].
  cbn [build_requests]. eapply alike_bind; [apply Hreq|]. intros r1 r2 Hr.
  apply NoDup_cons in Hnd as [Hp Hnd].
  destruct (related_insert same_request p r1 r2 m1 m2 Hm Hr) as (m1' & m2' & E1 & E2 & Hm' & Hk).
  { intros Hin. apply Hp, elem_of_app. by right. }
  eapply (alike_bind (fun a1 a2 => a1 = m1' /\ a2 = m2')).
  { apply alike_lift. by rewrite E1, E2. }
  intros ? ? [-> ->]. eapply alike_weaken; [|apply IH; [|exact Hm']].
  - intros a1 a2 [Ha Hka]. split; [done|]. rewrite Hka, Hk. cbn. by rewrite <- Permutation_middle.
  - rewrite Hk. cbn. rewrite <- Permutation_middle. by apply NoDup_cons.
Qed.

Lemma alike_generate_request_id {I} (q1 q2 : HttpRequest (JsonRpcRequest I)) :
  same_request q1 q2 ->
  alike same_request (generate_request_id q1) (generate_request_id q2).
Proof.
  intros (Hu & Hm & Ht & Hb). unfold generate_request_id.
  eapply (alike_bind eq).
  - unfold next_request_id. intros s1 s2 Hs.
    pose proof (alike_field UNSTABLE_HTTP_REQUEST_COUNTER ltac:(done) s1 s2 Hs) as [E _].
    unfold get_state, mbind, M_bind, mret, M_ret in *. rewrite E. split; [done|].
    by apply (alike_modify (set_counter _) ltac:(done) ltac:(done) ltac:(done) s1 s2 Hs).
  - intros id ? <-. apply alike_ret. unfold same_request. cbn. by rewrite Hu, Hm, Ht, Hb.
Qed.

Lemma alike_start_calls {I} method
    (l1 l2 k1 k2 : list (RpcService * HttpRequest (JsonRpcRequest I))) :
  l1 ≡ₚ k1 -> l2 ≡ₚ k2 -> Forall2 (fun e1 e2 => same_request e1.2 e2.2) k1 k2 ->
  alike eq (start_calls method l1) (start_calls method l2).
Proof.
  intros Hl1 Hl2 Hk s1 s2. rewrite (start_calls_order method _ _ s1 Hl1).
  rewrite (start_calls_order method _ _ s2 Hl2). clear l1 l2 Hl1 Hl2. revert s1 s2.
  change (alike eq (start_calls method k1) (start_calls method k2)). unfold start_calls.
  induction Hk as [|[p1 q1] [p2 q2] k1 k2 Hq _ IH]; [by apply alike_ret|].
  cbn [for_each]. eapply (alike_bind eq); [|by intros _ _ _].
  unfold start_call. eapply alike_bind; [by apply alike_generate_request_id|].
  intros n1 n2 Hn. eapply (alike_bind eq); [by apply alike_on_request|]. intros _ _ _.
  by apply alike_ret.
Qed.

Lemma alike_parallel_call {I O} `{HttpResponsePayload O} (self : EthRpcClient) method
    (params : I) size (world : World I O) :
  NoDup (EthRpcClient_providers self) -> blind_world world ->
  alike eq (parallel_call self method params size world)
    (parallel_call self method params size world).
Proof.
  intros Hnd [Hout Hawait]. unfold parallel_call. eapply alike_bind.
  - apply alike_build_requests; [|by rewrite mr_default_entries, app_nil_r|apply related_default].
    intros p. apply alike_request.
  - intros m1 m2 [Hm Hk]. rewrite mr_default_entries, app_nil_r in Hk.
    assert (Hstart : alike eq (start_calls method (mr_into_inner m1).1)
      (start_calls method (mr_into_inner m2).1)).
    { destruct (related_oks _ _ _ Hm) as (oks1 & oks2 & Hl1 & Hl2 & Hf).
      by apply (alike_start_calls method _ _ oks1 oks2). }
    pose proof (related_answers same_request
      (fun provider request => json_rpc_value (outcall world provider request)) m1 m2) as E.
    rewrite Hk in E. specialize (E Hnd Hm). 
    destruct (mr_into_inner m1) as [oks1 errors1], (mr_into_inner m2) as [oks2 errors2].
    cbn [fst snd] in E, Hstart. rewrite E by (intros p q1 q2 Hq; by rewrite (Hout p q1 q2 Hq)).
    eapply (alike_bind eq); [exact Hstart|intros _ _ _].
    eapply (alike_bind eq); [by apply alike_run|intros _ _ _].
    alike. by apply alike_modify.
Qed.

Lemma alike_process_result {T} method (result : ReducedResult T) :
  alike eq (process_result method result) (process_result method result).
Proof. unfold process_result, count_inconsistent. alike. Qed.

Lemma alike_run_query {I O R} `{HttpResponsePayload O} `{!ReduceApi RpcService O RpcError}
    `{PartialEq R} method (params : I) estimate (convert : O -> R) (world : World I O) self :
  NoDup (EthRpcClient_providers (client self)) -> blind_world world ->
  alike eq (run_query method params estimate convert world self)
    (run_query method params estimate convert world self).
Proof.
  intros Hnd Hw. unfold run_query. eapply (alike_bind eq).
  { apply alike_lift. by destruct (response_size_estimate_or _ _). }
  intros size ? <-. eapply (alike_bind eq); [by apply alike_parallel_call|].
  intros results ? <-. eapply (alike_bind eq); [apply alike_process_result|].
  intros result ? <-. alike.
Qed.

Lemma alike_returns {A} (P : A -> Prop) (m : M A) :
  alike eq m m -> (forall s a s', m s = Return (a, s') -> P a) ->
  alike (fun a1 a2 => a1 = a2 /\ P a1) m m.
Proof.
  intros Hm HP s1 s2 Hs. specialize (Hm s1 s2 Hs).
  destruct (m s1) as [[a1 s1']|] eqn:E, (m s2) as [[a2 s2']|]; try done.
  destruct Hm as [-> Hs']. apply HP in E. done.
Qed.

Lemma alike_with_client {R} source config now (query : CandidRpcClient -> M (MultiRpcResult R)) :
  (forall c, NoDup (EthRpcClient_providers (client c)) -> alike eq (query c) (query c)) ->
  alike eq (with_client source config now query) (with_client source config now query).
Proof.
  intros Hq. unfold with_client. eapply alike_bind.
  - apply (alike_returns (fun r => match r with
      | Ok c => NoDup (EthRpcClient_providers (client c))
      | Err _ => True
      end)).
    + unfold CandidRpcClient_new, EthRpcClient_new, M_and_then. alike. apply alike_providers.
    + intros s [c|e] s' E; [|done]. unfold CandidRpcClient_new, mbind, M_bind in E.
      destruct (EthRpcClient_new source config now s) as [[[c'|e] s1]|] eqn:En; [|done..].
      injection E as <- _. apply EthRpcClient_new_Ok in En as [En _].
      apply Providers_new_Ok in En as (En & _). by eapply sorted_NoDup, choose_sorted.
  - intros [c|e] ? [<- Hnd]; [by apply Hq|alike].
Qed.

Lemma alike_query {I O R} `{HttpResponsePayload O} `{!ReduceApi RpcService O RpcError}
    `{PartialEq R} source config now method (params : I) estimate (convert : O -> R)
    (world : World I O) (endpoint : M (MultiRpcResult R)) :
  (forall s, endpoint s =
     with_client source config now (run_query method params estimate convert world) s) ->
  blind_world world -> alike eq endpoint endpoint.
Proof.
  intros He Hw s1 s2. rewrite !He. revert s1 s2. apply alike_with_client.
  intros c Hnd. by apply alike_run_query.
Qed.

(** ** Single outcalls and raw requests *)

Context `{!CanhttpCrate} `{!RetryPolicy} `{!RetryBlind}.

Record blind_outside {I O} (outside : Outside I O) : Prop := {
  blind_answer k q1 q2 : same_request q1 q2 -> answer outside k q1 = answer outside k q2;
  blind_meanwhile k s1 s2 : same_but_keys s1 s2 ->
    same_but_keys (meanwhile outside k s1) (meanwhile outside k s2);
}.

Lemma alike_observed_call {I O} method (outside : Outside I O) k q1 q2 :
  blind_outside outside -> same_request q1 q2 ->
  alike eq (observed_call method outside k q1) (observed_call method outside k q2).
Proof.
  intros [Ha Hm] Hq. unfold observed_call. rewrite (Ha k q1 q2 Hq).
  eapply (alike_bind eq); [by apply alike_on_request|]. intros data ? <-.
  eapply (alike_bind eq); [apply alike_run, Hm|]. intros _ _ _.
  unfold on_response, on_error, observe_response. alike.
Qed.

Lemma alike_retry_call {I O} fuel method (outside : Outside I O) k q1 q2 :
  blind_outside outside -> same_request q1 q2 ->
  alike eq (retry_call fuel method outside k q1) (retry_call fuel method outside k q2).
Proof.
  intros Ho. revert k q1 q2. induction fuel as [|fuel IH]; intros k q1 q2 Hq; [apply alike_panic|].
  cbn [retry_call]. eapply alike_bind; [by apply alike_generate_request_id|].
  intros n1 n2 Hn. eapply (alike_bind eq); [by apply alike_observed_call|]. intros r ? <-.
  pose proof (next_request_blind q1 q2 r Hq) as Hnext.
  destruct (next_request q1 r), (next_request q2 r); try done. by apply IH.
Qed.

Lemma alike_http_client {I O} method retry (outside : Outside I O) q1 q2 :
  blind_outside outside -> same_request q1 q2 ->
  alike eq (http_client method retry outside q1) (http_client method retry outside q2).
Proof.
  intros Ho Hq. unfold http_client. eapply (alike_bind eq).
  - destruct retry; [by apply alike_retry_call|by apply alike_observed_call].
  - intros r ? <-. alike.
Qed.
(** ** The endpoints *)

Context `{HexCrate} `{Big : BigUintLaws} `{EthnumCrate} `{EthersCrate}.
Context `{!ReduceApi RpcService (list JsonTypes.LogEntry) RpcError}.
Context `{!ReduceApi RpcService JsonTypes.Block RpcError}.
Context `{!ReduceApi RpcService (option JsonTypes.TransactionReceipt) RpcError}.
Context `{!ReduceApi RpcService JsonTypes.FeeHistory RpcError}.
Context `{!ReduceApi RpcService SendRawTransactionResult RpcError}.
Context `{!ReduceApi RpcService TransactionCount RpcError}.
Context `{!ReduceApi RpcService Data RpcError}.
Context `{SerdeJson (JsonRpcRequest serde_Value)} `{!ResponseText}.

Lemma alike_get_logs source config args now world :
  blind_world world ->
  alike eq (endpoint_eth_get_logs source config args now world)
    (endpoint_eth_get_logs source config args now world).
Proof.
  intros Hw. destruct (block_count args) as [count|] eqn:Ec;
    [destruct (Z.ltb_spec (GetLogsRpcConfig.max_block_range_or_default
      (default GetLogsRpcConfig.GetLogsRpcConfig_default config)) count) as [Hl|Hl]|].
  - unfold endpoint_eth_get_logs, candid_eth_get_logs. rewrite Ec, (proj2 (Z.ltb_lt _ _) Hl).
    apply alike_with_client. intros c _. alike.
  - eapply alike_query with (world := world); [|exact Hw]. intros s. apply get_logs_is_query. by rewrite Ec.
  - eapply alike_query with (world := world); [|exact Hw]. intros s. apply get_logs_is_query. by rewrite Ec.
Qed.

Lemma alike_raw service payload size outside :
  blind_outside outside ->
  alike eq (request service payload size outside) (request service payload size outside).
Proof.
  intros Ho. unfold request, M_and_then.
  destruct (resolve_rpc_service service) as [resolved|e] eqn:Er; [|by apply alike_ret].
  eapply (alike_bind (fun r1 r2 => r1 = Ok resolved /\ r2 = Ok resolved)); [by apply alike_ret|].
  intros ? ? [-> ->]. eapply (alike_bind eq); [|intros ? ? <-; alike].
  unfold json_rpc_request. eapply (alike_bind (same_result same_request)).
  - by eapply alike_raw_request, resolve_in_table.
  - intros [q1|e1] [q2|e2] Hq; try done; [by apply alike_http_client|].
    simpl in Hq. subst. alike.
Qed.

(** C15: no message of a user gives anything about an API key away, as long as the canister has no
    override of the providers (the source warns that keys may be extracted by one). From two
    states that have valid keys for the same providers, no override, and differ in nothing but
    the keys, every endpoint that asks
    providers gives the same answer or traps with the same message, and goes on to two such
    states: the same metrics, the same request ids, the same record of the providers'
    successes. The providers' answers may depend on everything in a request but the path of
    its URL and its headers, where the keys are. The price that [request_cost] announces is
    not among these answers: it is computed from the whole request, and may show how long a
    key is. *)
Theorem messages_keep_keys_secret (source : RpcServices) (config : option RpcConfig)
    (now : Timestamp) :
  (forall logs_config args world, blind_world world ->
     alike eq (endpoint_eth_get_logs source logs_config args now world)
       (endpoint_eth_get_logs source logs_config args now world)) /\
  (forall block world, blind_world world ->
     alike eq (endpoint_eth_get_block_by_number source config block now world)
       (endpoint_eth_get_block_by_number source config block now world)) /\
  (forall hash world, blind_world world ->
     alike eq (endpoint_eth_get_transaction_receipt source config hash now world)
       (endpoint_eth_get_transaction_receipt source config hash now world)) /\
  (forall args world, blind_world world ->
     alike eq (endpoint_eth_get_transaction_count source config args now world)
       (endpoint_eth_get_transaction_count source config args now world)) /\
  (forall args world, blind_world world ->
     alike eq (endpoint_eth_fee_history source config args now world)
       (endpoint_eth_fee_history source config args now world)) /\
  (forall raw world, blind_world world ->
     alike eq (endpoint_eth_send_raw_transaction source config raw now world)
       (endpoint_eth_send_raw_transaction source config raw now world)) /\
  (forall args world, blind_world world ->
     alike eq (endpoint_eth_call source config args now world)
       (endpoint_eth_call source config args now world)) /\
  (forall service payload size outside, blind_outside outside ->
     alike eq (request service payload size outside) (request service payload size outside)) /\
  (forall I O method retry (outside : Outside I O) q1 q2,
     blind_outside outside -> same_request q1 q2 ->
     alike eq (http_client method retry outside q1) (http_client method retry outside q2)).
Proof.
  split_and!.
  - intros logs_config args world Hw. by apply alike_get_logs.
  - intros block world Hw. eapply alike_query with (world := world); [|exact Hw]. intros s.
    apply get_block_by_number_is_query.
  - intros hash world Hw. eapply alike_query with (world := world); [|exact Hw]. intros s.
    apply get_transaction_receipt_is_query.
  - intros args world Hw. eapply alike_query with (world := world); [|exact Hw]. intros s.
    apply get_transaction_count_is_query.
  - intros args world Hw. eapply alike_query with (world := world); [|exact Hw]. intros s.
    apply fee_history_is_query.
  - intros raw world Hw. eapply alike_query with (world := world); [|exact Hw]. intros s.
    apply send_raw_transaction_is_query.
  - intros args world Hw. eapply alike_query with (world := world); [|exact Hw]. intros s.
    apply call_is_query.
  - intros service payload size outside Ho. by apply alike_raw.
  - intros I O method retry outside q1 q2 Ho Hq. by apply alike_http_client.
Qed.
End Privacy.

(** ** Collections by key *)

Module ByKey.
Definition number_of (s : RpcService) :
  (u64 + (string * option (list (string * string)))) + (nat * Z) :=
  match s with
  | RpcService.Provider id => inl (inl id)
  | RpcService.Custom api =>
      inl (inr (url api, map (fun h => (header_name h, header_value h)) <$> headers api))
  | RpcService.EthMainnet s => inr (2%nat, EthMainnetService.discriminant s)
  | RpcService.EthSepolia s => inr (3%nat, EthSepoliaService.discriminant s)
  | RpcService.ArbitrumOne s => inr (4%nat, L2MainnetService.discriminant s)
  | RpcService.BaseMainnet s => inr (5%nat, L2MainnetService.discriminant s)
  | RpcService.OptimismMainnet s => inr (6%nat, L2MainnetService.discriminant s)
  end.
Definition l2_of (z : Z) : option L2MainnetService :=
  List.find (fun s => L2MainnetService.discriminant s =? z)
    L2MainnetService.L2MainnetService_all.
Definition of_number (x : (u64 + (string * option (list (string * string)))) + (nat * Z)) :
  option RpcService :=
  match x with
  | inl (inl id) => Some (RpcService.Provider id)
  | inl (inr (u, hs)) => Some (RpcService.Custom {| url := u;
      headers := map (fun h => {| header_name := h.1; header_value := h.2 |}) <$> hs |})
  | inr (2%nat, z) => RpcService.EthMainnet <$>
      List.find (fun s => EthMainnetService.discriminant s =? z)
        EthMainnetService.EthMainnetService_all
  | inr (3%nat, z) => RpcService.EthSepolia <$>
      List.find (fun s => EthSepoliaService.discriminant s =? z)
        EthSepoliaService.EthSepoliaService_all
  | inr (4%nat, z) => RpcService.ArbitrumOne <$> l2_of z
  | inr (5%nat, z) => RpcService.BaseMainnet <$> l2_of z
  | inr (6%nat, z) => RpcService.OptimismMainnet <$> l2_of z
  | inr _ => None
  end.
#[export] Instance service_countable : Countable RpcService.
Proof.
  refine (inj_countable number_of of_number _).
  intros [id|[u hs]|[]|[]|[]|[]|[]]; try reflexivity. simpl. do 3 f_equal.
  destruct hs as [hs|]; [|done]. simpl. f_equal. rewrite map_map.
  rewrite (map_ext _ (fun h => h)) by (by intros [n v]). apply map_id.
Defined.

(** One map from keys to results. *)
#[export] Instance multi_results : MultiResultsApi RpcService := {
  MultiResults V E := gmap RpcService (Result V E);
  mr_default V E := ∅;
  mr_insert_once V E k r m :=
    match m !! k with Some _ => Panic "duplicate key" | None => Return (<[k := r]> m) end;
  mr_into_inner V E m := (omap ok_entry (map_to_list m), omap err_entry (map_to_list m));
  mr_add_errors V E es m := list_to_map (map (fun '(k, e) => (k, Err e)) es ++ map_to_list m);
  mr_ok_results V E m := omap ok_entry (map_to_list m);
  mr_len V E m := length (map_to_list m);
  mr_into_iter V E m := map_to_list m;
  mr_parallel_call I V E f requests := list_to_map (map (fun '(k, i) => (k, f k i)) requests);
}.
#[export] Instance multi_results_laws : MultiResultsLaws RpcService.
Proof.
  split; simpl; try done.
  - intros V E k r m Hk. destruct (m !! k) as [x|] eqn:El.
    + destruct Hk. apply (list_elem_of_fmap_2 fst _ (k, x)). by apply elem_of_map_to_list.
    + eexists. split; [done|by apply map_to_list_insert].
  - intros V E es m Hnd. apply map_to_list_to_map. rewrite fmap_app.
    replace ((map _ es).*1) with es.*1; [done|].
    clear Hnd. induction es as [|[k e] es IH]; [done|]. cbn. by rewrite IH.
  - intros I V E f requests Hnd. apply map_to_list_to_map. by rewrite keys_map.
Qed.
#[export] Instance multi_results_extensional : MultiResultsExt RpcService.
Proof. intros V E m1 m2. exact (map_to_list_inj (M := gmap RpcService) m1 m2). Qed.

(** The value that all results share. *)
Definition all_equal {V} `{EqDecision V} (m : gmap RpcService (RpcResult V)) :
  Result V (ReductionError RpcService V RpcError) :=
  match map_to_list m with
  | (_, Ok v) :: l =>
      if forallb (fun e => bool_decide (e.2 = Ok v)) l then Ok v
      else Err (ReductionError.InconsistentResults (M := multi_results) m)
  | _ => Err (ReductionError.InconsistentResults (M := multi_results) m)
  end.
#[export] Instance reduce_api {V} `{EqDecision V} : ReduceApi RpcService V RpcError := {
  reduce_with_equality := all_equal; reduce_with_threshold _ := all_equal }.
End ByKey.

(** ** Witness *)

Section Witnesses.
Import Instances.Concrete HttpConcrete ByKey.
#[local] Existing Instances host_laws raw_serde minicbor_crate.

#[local] Instance retry_blind : RetryBlind.
Proof.
  intros I O q1 q2 r (Hu & Hm & Ht & Hb). unfold next_request, retry_policy. rewrite Hm.
  destruct r as [|e]; [done|]. destruct (req_max_response_bytes q2); [|done].
  destruct (_ && _); [|done]. by split_and!.
Qed.

#[local] Instance silent_serde {T} : SerdeJson T | 100 :=
  {| from_slice _ := Err "not used"; to_vec _ := [] |}.
#[local] Instance plain_text : ResponseText := {|
  response_to_string _ := Ok "text"; response_debug _ := "debug" |}.

#[local] Instance never_agree {V} : ReduceApi RpcService V RpcError | 100 := {
  reduce_with_equality m := Err (ReductionError.InconsistentResults m);
  reduce_with_threshold _ m := Err (ReductionError.InconsistentResults m) }.

(** Every provider answers a call with one byte. *)
Definition one_byte : World EthCallParams Data := {|
  outcall _ _ := Ok {| http_status := 200; http_body := {|
    response_id := 0; response_result := Ok (Data_from [7]) |} |};
  during_await s := s; resumed_at := 5 |}.
Definition a_call : CallArgs := {|
  CallArgs.transaction := CandidTypes.TransactionRequest_default;
  CallArgs.block := None |}.
Definition ankr : RpcServices := RpcServices.EthMainnet (Some [EthMainnetService.Ankr]).
Definition ask_ankr : M (MultiRpcResult Hex) :=
  endpoint_eth_call (TSM := timed_sized_map) (MR := ByKey.multi_results) ankr None a_call 0
    one_byte.

Lemma messages_keep_keys_secret_witness :
  match ask_ankr (with_key "key-1"), ask_ankr (with_key "another") with
  | Return (answer1, _), Return (answer2, _) =>
      answer1 = answer2 /\ answer1 = Consistent (Ok {| Hex_0 := [7] |})
  | _, _ => False
  end.
Proof.
  destruct (messages_keep_keys_secret (H := timed_sized_map) (H8 := ByKey.multi_results)
    ankr None 0)
    as (_ & _ & _ & _ & _ & _ & Hcall & _).
  specialize (Hcall a_call one_byte ltac:(by split) (with_key "key-1") (with_key "another")).
  fold ask_ankr in Hcall.
  destruct (ask_ankr (with_key "key-1")) as [[answer1 s1]|msg] eqn:E1;
    [|vm_compute in E1; discriminate E1].
  destruct (ask_ankr (with_key "another")) as [[answer2 s2]|msg] eqn:E2;
    [|vm_compute in E2; discriminate E2].
  destruct Hcall as [He _]; [exact two_keys|]. split; [exact He|].
  vm_compute in E1. by injection E1 as <- _.
Defined.
End Witnesses.
