(* ===== verification/Alloy.v ===== *)
(** The conversions to and from the types of the crate [alloy] ([evm_rpc_types/src/alloy.rs]
    and the three modules [alloy.rs] of [request], [response] and [result]): the primitive
    types, the requests that are read from alloy types, and the responses and results that the
    client library gives to its users as alloy types. *)

From S2P Require Import Prelude Collections EvmRpcTypes MultiRpcResult Externals.
From S2P Require Import Numbers Hex CandidTypes.
From S2P Require Instances.
Open Scope Z_scope.
Open Scope canister_scope.

(** ** Parameters: [alloy_primitives], and the [TryFrom] of [num_bigint] *)

(** An unsigned integer of a field of an alloy type. *)
Definition uint_ok (bits z : Z) : bool := (0 <=? z) && (z <? 2 ^ bits).
Definition Uint (bits : Z) : Type := { z : Z | uint_ok bits z = true }.
Lemma uint_in_range {bits} (v : Uint bits) : in_range bits (`v).
Proof. destruct v as [z H]. unfold uint_ok in H. unfold in_range. simpl. lia. Qed.
Lemma Uint_eq {bits} (x y : Uint bits) : `x = `y -> x = y.
Proof. apply eq_sig_hprop. intros z H1 H2. apply proof_irrel. Qed.

Class AlloyPrimitives := {
  alloy_Address : Type;
  Address_from : Bytes 20 -> alloy_Address;
  Address_into_array : alloy_Address -> Bytes 20;
  (** [FixedBytes<N>], whose only field is public *)
  alloy_FixedBytes : nat -> Type;
  FixedBytes_from {n} : Bytes n -> alloy_FixedBytes n;
  FixedBytes_0 {n} : alloy_FixedBytes n -> Bytes n;
  FixedBytes_to_vec {n} : alloy_FixedBytes n -> list byte;
  B64_from_u64 : Uint 64 -> alloy_FixedBytes 8;
  u64_from_B64 : alloy_FixedBytes 8 -> Uint 64;
  alloy_Bytes : Type;
  Bytes_from_iter : list byte -> alloy_Bytes;
  Bytes_to_vec : alloy_Bytes -> list byte;
  alloy_U256 : Type;
  alloy_U256_eq_dec :: EqDecision alloy_U256;
  alloy_U256_from_be_bytes : Bytes 32 -> alloy_U256;
  alloy_U256_to_be_bytes : alloy_U256 -> Bytes 32;
  alloy_U256_ZERO : alloy_U256;
  alloy_U256_ONE : alloy_U256;
  alloy_Bloom : Type;
  Bloom_from : Bytes 256 -> alloy_Bloom;
  Bloom_into_array : alloy_Bloom -> Bytes 256;
  alloy_LogData : Type;
  LogData_new : list (alloy_FixedBytes 32) -> alloy_Bytes -> option alloy_LogData;
}.
(** [B256], [B64]; [BlockHash] and [TxHash] are other names of [B256]. *)
Abbreviation alloy_B256 := (alloy_FixedBytes 32).
Abbreviation alloy_B64 := (alloy_FixedBytes 8).

Class AlloyPrimitivesLaws `{AlloyPrimitives} := {
  Address_into_from b : Address_into_array (Address_from b) = b;
  Address_from_into a : Address_from (Address_into_array a) = a;
  FixedBytes_0_from {n} (b : Bytes n) : FixedBytes_0 (FixedBytes_from b) = b;
  FixedBytes_from_0 {n} (v : alloy_FixedBytes n) : FixedBytes_from (FixedBytes_0 v) = v;
  FixedBytes_to_vec_0 {n} (v : alloy_FixedBytes n) :
    FixedBytes_to_vec v = proj1_sig (FixedBytes_0 v);
  u64_from_B64_from v : u64_from_B64 (B64_from_u64 v) = v;
  B64_from_u64_from v : B64_from_u64 (u64_from_B64 v) = v;
  Bytes_to_vec_from l : is_bytes l -> Bytes_to_vec (Bytes_from_iter l) = l;
  Bytes_from_to_vec b : Bytes_from_iter (Bytes_to_vec b) = b;
  alloy_U256_to_from b : alloy_U256_to_be_bytes (alloy_U256_from_be_bytes b) = b;
  alloy_U256_from_to u : alloy_U256_from_be_bytes (alloy_U256_to_be_bytes u) = u;
  alloy_U256_ZERO_value : be_value (proj1_sig (alloy_U256_to_be_bytes alloy_U256_ZERO)) = 0;
  alloy_U256_ONE_value : be_value (proj1_sig (alloy_U256_to_be_bytes alloy_U256_ONE)) = 1;
  Bloom_into_from b : Bloom_into_array (Bloom_from b) = b;
  Bloom_from_into b : Bloom_from (Bloom_into_array b) = b;
  (** a log has at most four topics *)
  LogData_new_None topics data : LogData_new topics data = None <-> (4 < length topics)%nat;
  LogData_new_inj topics data topics' data' l :
    LogData_new topics data = Some l -> LogData_new topics' data' = Some l ->
    topics = topics' /\ data = data';
}.

(** The integer types of the fields, with [std::any::type_name]. *)
Inductive IntType := U64 | U128.
Definition int_bits (t : IntType) : Z := match t with U64 => 64 | U128 => 128 end.
Definition type_name (t : IntType) : string := match t with U64 => "u64" | U128 => "u128" end.

(** [T: TryFrom<BigUint>], with the error as [{:?}] shows it. *)
Class BigUintTryFrom := biguint_try_into : IntType -> Z -> Result Z string.
Class BigUintTryFromLaws `{BigUintTryFrom} := biguint_try_into_Ok t n z :
  0 <= n -> biguint_try_into t n = Ok z <-> z = n /\ n < 2 ^ int_bits t.

(** ** The primitive types ([alloy.rs]) *)

Section Primitives.
Context `{BigUintLaws} `{AlloyPrimitives}.

Definition Address_from_Hex20 (value : Hex20) : alloy_Address := Address_from (Hex20_0 value).
Definition Hex20_from_Address (value : alloy_Address) : Hex20 :=
  {| Hex20_0 := Address_into_array value |}.
Definition B256_from_Hex32 (value : Hex32) : alloy_B256 := FixedBytes_from (Hex32_0 value).
Definition Hex32_from_B256 (value : alloy_B256) : Hex32 := {| Hex32_0 := FixedBytes_0 value |}.
Definition Hex_from_FixedBytes {n} (value : alloy_FixedBytes n) : Hex :=
  {| Hex_0 := FixedBytes_to_vec value |}.
Definition Bytes_from_Hex (value : Hex) : alloy_Bytes := Bytes_from_iter (Hex_0 value).
Definition Hex_from_Bytes (value : alloy_Bytes) : Hex := {| Hex_0 := Bytes_to_vec value |}.
(** The conversions of [Nat256] on the way return, as Numbers.v shows. *)
Definition Nat256_from_alloy_U256 (value : alloy_U256) : Nat256 :=
  let bytes := alloy_U256_to_be_bytes value in
  the_value (Nat256_from_be_bytes bytes) (from_be_bytes_returns bytes).
Definition alloy_U256_from_Nat256 (value : Nat256) : alloy_U256 :=
  alloy_U256_from_be_bytes
    (the_value (Nat256_into_be_bytes value) (into_be_bytes_returns value)).
Definition Bloom_from_Hex256 (value : Hex256) : alloy_Bloom := Bloom_from (Hex256_0 value).
Definition Hex256_from_Bloom (value : alloy_Bloom) : Hex256 :=
  {| Hex256_0 := Bloom_into_array value |}.

(** The [u64] of a successful [u64::try_from]. *)
Lemma u64_try_from_Nat256_Ok n z :
  u64_try_from_Nat256 n = Ok z <-> z = nat256_0 n /\ nat256_0 n < 2 ^ 64.
Proof.
  rewrite <- (u64_try_from_Ok _ z (proj1 (nat256_range n))).
  unfold u64_try_from_Nat256. destruct (u64_try_from _); simpl; naive_solver.
Qed.
Lemma u64_try_from_Nat256_range n z : u64_try_from_Nat256 n = Ok z -> uint_ok 64 z = true.
Proof.
  intros [-> Hlt]%u64_try_from_Nat256_Ok. pose proof (nat256_range n). unfold uint_ok. lia.
Qed.
Definition checked_u64 (r : RpcResult u64) :
    (forall z, r = Ok z -> uint_ok 64 z = true) -> RpcResult (Uint 64) :=
  match r with
  | Ok z => fun H => Ok (exist _ z (H z eq_refl))
  | Err e => fun _ => Err e
  end.
Definition uint64_try_from_Nat256 (value : Nat256) : RpcResult (Uint 64) :=
  checked_u64 (u64_try_from_Nat256 value) (u64_try_from_Nat256_range value).
Lemma uint64_try_from_Nat256_Ok n (v : Uint 64) :
  uint64_try_from_Nat256 n = Ok v <-> proj1_sig v = nat256_0 n.
Proof.
  unfold uint64_try_from_Nat256. generalize (u64_try_from_Nat256_range n).
  pose proof (u64_try_from_Nat256_Ok n) as Hs.
  destruct (u64_try_from_Nat256 n) as [z|e]; simpl; intros H'.
  - destruct (proj1 (Hs z) eq_refl) as [-> Hlt]. split; [by intros [= <-]|].
    intros E. f_equal. by apply Uint_eq.
  - split; [done|]. intros E. pose proof (uint_in_range v) as [_ Hv]. rewrite E in Hv.
    by specialize (proj2 (Hs (nat256_0 n)) (conj eq_refl Hv)).
Qed.

Definition B64_try_from_Nat256 (value : Nat256) : RpcResult alloy_B64 :=
  let? v := uint64_try_from_Nat256 value in Ok (B64_from_u64 v).

(** [Nat256::from] for an integer of at most 128 bits. *)
Lemma uint_returns {bits} (v : Uint bits) :
  (bits <=? 128) = true -> is_return (Nat256_from (`v)) = true.
Proof.
  intros Hb. apply Nat256_from_returns. pose proof (uint_in_range v) as Hv.
  unfold in_range in *. apply Z.leb_le in Hb.
  pose proof (Z.pow_le_mono_r 2 bits 128 ltac:(lia) Hb). lia.
Qed.
Definition Nat256_from_uint {bits} (Hb : (bits <=? 128) = true) (v : Uint bits) : Nat256 :=
  the_value (Nat256_from (`v)) (uint_returns v Hb).
Definition Nat256_from_u64 : Uint 64 -> Nat256 := Nat256_from_uint (bits := 64) eq_refl.
Definition Nat256_from_u128 : Uint 128 -> Nat256 := Nat256_from_uint (bits := 128) eq_refl.
Definition Nat256_from_B64 (value : alloy_B64) : Nat256 := Nat256_from_u64 (u64_from_B64 value).
End Primitives.

(** ** Requests ([request/alloy.rs]) *)

(** The types of [alloy_rpc_types] which the source takes apart: their variants, and the
    fields that it reads. *)
Module BlockNumberOrTag.
Inductive BlockNumberOrTag :=
| Latest | Finalized | Safe | Earliest | Pending
| Number (n : Uint 64).
End BlockNumberOrTag.
Abbreviation BlockNumberOrTag := BlockNumberOrTag.BlockNumberOrTag.

Module TxKind.
Inductive TxKind `{AlloyPrimitives} :=
| Create
| Call (address : alloy_Address).
End TxKind.
Abbreviation TxKind := TxKind.TxKind.

Module AlloyAccessListItem.
Record AccessListItem `{AlloyPrimitives} := {
  address : alloy_Address;
  storage_keys : list alloy_B256;
}.
End AlloyAccessListItem.

(** [TransactionInput], and the blobs of a [BlobTransactionSidecar]. *)
Class AlloyRequestTypes `{AlloyPrimitives} := {
  TransactionInput : Type;
  (** the error is what [to_string] makes of it *)
  try_into_unique_input : TransactionInput -> Result (option alloy_Bytes) string;
  BYTES_PER_BLOB : nat;
}.

Module AlloyTransactionRequest.
Record TransactionRequest `{AlloyRequestTypes} := {
  transaction_type : option (Uint 8);
  nonce : option (Uint 64);
  to : option TxKind;
  from : option alloy_Address;
  gas : option (Uint 64);
  value : option alloy_U256;
  input : TransactionInput;
  gas_price : option (Uint 128);
  max_priority_fee_per_gas : option (Uint 128);
  max_fee_per_gas : option (Uint 128);
  max_fee_per_blob_gas : option (Uint 128);
  access_list : option (list AlloyAccessListItem.AccessListItem);
  blob_versioned_hashes : option (list alloy_B256);
  (** [sidecar], as its field [blobs] *)
  sidecar_blobs : option (list (alloy_FixedBytes BYTES_PER_BLOB));
  chain_id : option (Uint 64);
}.
End AlloyTransactionRequest.

Section Requests.
Context `{BigUintLaws} `{AlloyRequestTypes}.

Definition BlockTag_from_BlockNumberOrTag (tag : BlockNumberOrTag) : BlockTag :=
  match tag with
  | BlockNumberOrTag.Latest => BlockTag.Latest
  | BlockNumberOrTag.Finalized => BlockTag.Finalized
  | BlockNumberOrTag.Safe => BlockTag.Safe
  | BlockNumberOrTag.Earliest => BlockTag.Earliest
  | BlockNumberOrTag.Pending => BlockTag.Pending
  | BlockNumberOrTag.Number n => BlockTag.Number (Nat256_from_u64 n)
  end.

Definition BlockNumberOrTag_try_from (tag : BlockTag) : RpcResult BlockNumberOrTag :=
  match tag with
  | BlockTag.Latest => Ok BlockNumberOrTag.Latest
  | BlockTag.Finalized => Ok BlockNumberOrTag.Finalized
  | BlockTag.Safe => Ok BlockNumberOrTag.Safe
  | BlockTag.Earliest => Ok BlockNumberOrTag.Earliest
  | BlockTag.Pending => Ok BlockNumberOrTag.Pending
  | BlockTag.Number n => let? n := uint64_try_from_Nat256 n in Ok (BlockNumberOrTag.Number n)
  end.

(** [impl<T: IntoIterator<Item = S>, S: Into<Hex20>> From<T> for GetLogsArgs]. *)
Definition GetLogsArgs_from_addresses {S} (into_hex20 : S -> Hex20) (addresses : list S) :
  GetLogsArgs := {|
  GetLogsArgs.from_block := None;
  GetLogsArgs.to_block := None;
  GetLogsArgs.addresses := map into_hex20 addresses;
  GetLogsArgs.topics := None
|}.

Definition AccessList_from (access_list : list AlloyAccessListItem.AccessListItem) :
  AccessList := {|
  AccessList_0 := map (fun item => {|
    AccessListEntry.address := Hex20_from_Address (AlloyAccessListItem.address item);
    AccessListEntry.storage_keys :=
      map Hex32_from_B256 (AlloyAccessListItem.storage_keys item) |}) access_list
|}.

(** [HexByte::from(u8)]. *)
Lemma uint8_ok (v : Uint 8) : bytes_ok 1 [`v] = true.
Proof.
  apply bytes_ok_spec. split; [done|]. constructor; [apply uint_in_range|constructor].
Qed.
Definition HexByte_from_uint (v : Uint 8) : HexByte := HexByte_from (`v) (uint8_ok v).

Import AlloyTransactionRequest.
Definition TransactionRequest_try_from (tx_request : AlloyTransactionRequest.TransactionRequest) :
    RpcResult CandidTypes.TransactionRequest :=
  let? input' := result_map_err
      (fun e => RpcError.ValidationError (ValidationError.Custom e))
      (try_into_unique_input (input tx_request)) in
  Ok {|
    TransactionRequest.tx_type := option_map HexByte_from_uint (transaction_type tx_request);
    TransactionRequest.nonce := option_map Nat256_from_u64 (nonce tx_request);
    TransactionRequest.to :=
      match to tx_request with
      | Some kind =>
          match kind with
          | TxKind.Create => None
          | TxKind.Call address => Some (Hex20_from_Address address)
          end
      | None => None
      end;
    TransactionRequest.from := option_map Hex20_from_Address (from tx_request);
    TransactionRequest.gas := option_map Nat256_from_u64 (gas tx_request);
    TransactionRequest.value := option_map Nat256_from_alloy_U256 (value tx_request);
    TransactionRequest.input := option_map Hex_from_Bytes input';
    TransactionRequest.gas_price :=
      option_map Nat256_from_u128 (gas_price tx_request);
    TransactionRequest.max_priority_fee_per_gas :=
      option_map Nat256_from_u128 (max_priority_fee_per_gas tx_request);
    TransactionRequest.max_fee_per_gas :=
      option_map Nat256_from_u128 (max_fee_per_gas tx_request);
    TransactionRequest.max_fee_per_blob_gas :=
      option_map Nat256_from_u128 (max_fee_per_blob_gas tx_request);
    TransactionRequest.access_list := option_map AccessList_from (access_list tx_request);
    TransactionRequest.blob_versioned_hashes :=
      option_map (map Hex32_from_B256) (blob_versioned_hashes tx_request);
    TransactionRequest.blobs := option_map (map Hex_from_FixedBytes) (sidecar_blobs tx_request);
    TransactionRequest.chain_id := option_map Nat256_from_u64 (chain_id tx_request)
  |}.

Definition CallArgs_try_from (request : AlloyTransactionRequest.TransactionRequest) :
    RpcResult CallArgs :=
  let? transaction := TransactionRequest_try_from request in
  Ok {| CallArgs.transaction := transaction; CallArgs.block := None |}.
End Requests.

(** ** Responses ([response/alloy.rs]) *)

(** The fields which the source gives to the types of [alloy_rpc_types] and
    [alloy_consensus], with the integer types of these crates. *)
Module AlloyLog.
Record Log `{AlloyPrimitives} := {
  (** [inner], an [alloy_primitives::Log] *)
  address : alloy_Address;
  data : alloy_LogData;
  block_hash : option alloy_B256;
  block_number : option u64;
  block_timestamp : option u64;
  transaction_hash : option alloy_B256;
  transaction_index : option u64;
  log_index : option u64;
  removed : bool;
}.
End AlloyLog.
Abbreviation AlloyLog := AlloyLog.Log.

Module AlloyHeader.
(** [alloy_consensus::Header]. *)
Record Header `{AlloyPrimitives} := {
  parent_hash : alloy_B256;
  ommers_hash : alloy_B256;
  beneficiary : alloy_Address;
  state_root : alloy_B256;
  transactions_root : alloy_B256;
  receipts_root : alloy_B256;
  logs_bloom : alloy_Bloom;
  difficulty : alloy_U256;
  number : u64;
  gas_limit : u64;
  gas_used : u64;
  timestamp : u64;
  extra_data : alloy_Bytes;
  mix_hash : alloy_B256;
  nonce : alloy_B64;
  base_fee_per_gas : option u64;
  withdrawals_root : option alloy_B256;
  blob_gas_used : option u64;
  excess_blob_gas : option u64;
  parent_beacon_block_root : option alloy_B256;
  requests_hash : option alloy_B256;
}.
End AlloyHeader.
Abbreviation AlloyHeader := AlloyHeader.Header.

(** The types of which the source uses one constructor or none. *)
Class AlloyResponseTypes `{AlloyPrimitives} := {
  BlockTransactions : Type;
  BlockTransactions_Hashes : list alloy_B256 -> BlockTransactions;
  Withdrawals : Type;
  TxType : Type;
  (** the error as [{:?}] shows it *)
  TxType_try_from_u8 : u8 -> Result TxType string;
}.
Class AlloyResponseLaws `{AlloyResponseTypes} :=
  BlockTransactions_Hashes_inj :: Inj (=) (=) BlockTransactions_Hashes.

Module AlloyBlock.
Record Block `{AlloyResponseTypes} := {
  (** [header], an [alloy_rpc_types::Header] *)
  hash : alloy_B256;
  inner : AlloyHeader;
  total_difficulty : option alloy_U256;
  size : option alloy_U256;
  uncles : list alloy_B256;
  transactions : BlockTransactions;
  withdrawals : option Withdrawals;
}.
End AlloyBlock.
Abbreviation AlloyBlock := AlloyBlock.Block.

Module AlloyFeeHistory.
Record FeeHistory := {
  base_fee_per_gas : list u128;
  gas_used_ratio : list f64;
  base_fee_per_blob_gas : list u128;
  blob_gas_used_ratio : list f64;
  oldest_block : u64;
  reward : option (list (list u128));
}.
End AlloyFeeHistory.
Abbreviation AlloyFeeHistory := AlloyFeeHistory.FeeHistory.

Module Eip658Value.
Inductive Eip658Value `{AlloyPrimitives} :=
| Eip658 (status : bool)
| PostState (root : alloy_B256).
End Eip658Value.
Abbreviation Eip658Value := Eip658Value.Eip658Value.

Module AlloyReceipt.
(** [alloy_consensus::ReceiptWithBloom] with its [Receipt]. *)
Record ReceiptWithBloom `{AlloyPrimitives} := {
  status : Eip658Value;
  cumulative_gas_used : u64;
  logs : list AlloyLog;
  logs_bloom : alloy_Bloom;
}.
End AlloyReceipt.

Class AlloyReceiptTypes `{AlloyResponseTypes} := {
  ReceiptEnvelope : Type;
  ReceiptEnvelope_from_typed : TxType -> AlloyReceipt.ReceiptWithBloom -> ReceiptEnvelope;
}.
(** A type is its number, and an envelope holds its type and its receipt. *)
Class AlloyReceiptLaws `{AlloyReceiptTypes} := {
  TxType_try_from_u8_inj v w t :
    TxType_try_from_u8 v = Ok t -> TxType_try_from_u8 w = Ok t -> v = w;
  ReceiptEnvelope_from_typed_inj t x t' x' :
    ReceiptEnvelope_from_typed t x = ReceiptEnvelope_from_typed t' x' -> t = t' /\ x = x';
}.

Module AlloyTransactionReceipt.
Record TransactionReceipt `{AlloyReceiptTypes} := {
  inner : ReceiptEnvelope;
  transaction_hash : alloy_B256;
  transaction_index : option u64;
  block_hash : option alloy_B256;
  block_number : option u64;
  gas_used : u64;
  effective_gas_price : u128;
  blob_gas_used : option u64;
  blob_gas_price : option u128;
  from : alloy_Address;
  to : option alloy_Address;
  contract_address : option alloy_Address;
}.
End AlloyTransactionReceipt.
Abbreviation AlloyTransactionReceipt := AlloyTransactionReceipt.TransactionReceipt.

(** [RpcError::ValidationError(ValidationError::Custom(..))]. *)
Definition invalid (msg : string) : RpcError :=
  RpcError.ValidationError (ValidationError.Custom msg).

Section Responses.
Context `{BigUintLaws} `{BigUintTryFrom} `{AlloyPrimitives}.

Definition try_from_nat256 (t : IntType) (field_name : string) (value : Nat256) :
    RpcResult Z :=
  result_map_err
    (fun err => invalid ("Failed to convert field `" +:+ field_name +:+ "` to `" +:+
       type_name t +:+ "`: " +:+ err))
    (biguint_try_into t (nat256_0 value)).
Definition try_from_nat256_opt (t : IntType) (field_name : string) (value : option Nat256) :
    RpcResult (option Z) :=
  option_transpose (option_map (try_from_nat256 t field_name) value).

Definition Log_try_from (entry : LogEntry) : RpcResult AlloyLog :=
  let? data := ok_or
      (LogData_new (map B256_from_Hex32 (LogEntry.topics entry))
         (Bytes_from_Hex (LogEntry.data entry)))
      (invalid "Invalid log data") in
  let? block_number := try_from_nat256_opt U64 "block_number" (LogEntry.block_number entry) in
  let? transaction_index :=
      try_from_nat256_opt U64 "transaction_index" (LogEntry.transaction_index entry) in
  let? log_index := try_from_nat256_opt U64 "log_index" (LogEntry.log_index entry) in
  Ok {|
    AlloyLog.address := Address_from_Hex20 (LogEntry.address entry);
    AlloyLog.data := data;
    AlloyLog.block_hash := option_map B256_from_Hex32 (LogEntry.block_hash entry);
    AlloyLog.block_number := block_number;
    AlloyLog.block_timestamp := None;
    AlloyLog.transaction_hash := option_map B256_from_Hex32 (LogEntry.transaction_hash entry);
    AlloyLog.transaction_index := transaction_index;
    AlloyLog.log_index := log_index;
    AlloyLog.removed := LogEntry.removed entry
  |}.

Definition PARIS_BLOCK : u64 := 15537394.
Definition validate_difficulty (number : Nat256) (difficulty : option Nat256) :
    RpcResult alloy_U256 :=
  if nat256_0 number <? PARIS_BLOCK then
    ok_or (option_map alloy_U256_from_Nat256 difficulty)
      (invalid "Missing difficulty field in pre Paris upgrade block")
  else
    match option_map alloy_U256_from_Nat256 difficulty with
    | None => Ok alloy_U256_ZERO
    | Some d =>
        if decide (d = alloy_U256_ZERO) then Ok alloy_U256_ZERO
        else Err (invalid "Post Paris upgrade block has non-zero difficulty")
    end.

Definition BYZANTIUM_BLOCK : u64 := 4370000.
Definition validate_receipt_status (number : Nat256) (root : option Hex32)
    (status : option Nat256) : RpcResult Eip658Value :=
  if nat256_0 number <? BYZANTIUM_BLOCK then
    match root with
    | None =>
        Err (invalid "Missing root field in transaction included before the Byzantium upgrade")
    | Some root => Ok (Eip658Value.PostState (B256_from_Hex32 root))
    end
  else
    match option_map alloy_U256_from_Nat256 status with
    | None =>
        Err (invalid "Missing status field in transaction included after the Byzantium upgrade")
    | Some s =>
        if decide (s = alloy_U256_ZERO) then Ok (Eip658Value.Eip658 false)
        else if decide (s = alloy_U256_ONE) then Ok (Eip658Value.Eip658 true)
        else Err (invalid "Post-Byzantium receipt has invalid status (expected 0 or 1)")
    end.

Definition validate_transactions_root (transactions_root : option Hex32) :
    RpcResult alloy_B256 :=
  ok_or (option_map B256_from_Hex32 transactions_root)
    (invalid "Block does not have a transactions root field").

(** The [alloy_consensus::Header] inside the header of a block. *)
Definition Header_try_from (value : Block) : RpcResult AlloyHeader :=
  let? transactions_root := validate_transactions_root (Block.transactions_root value) in
  let? difficulty := validate_difficulty (Block.number value) (Block.difficulty value) in
  let? number := try_from_nat256 U64 "number" (Block.number value) in
  let? gas_limit := try_from_nat256 U64 "gas_limit" (Block.gas_limit value) in
  let? gas_used := try_from_nat256 U64 "gas_used" (Block.gas_used value) in
  let? timestamp := try_from_nat256 U64 "timestamp" (Block.timestamp value) in
  let? nonce := B64_try_from_Nat256 (Block.nonce value) in
  let? base_fee_per_gas :=
      try_from_nat256_opt U64 "base_fee_per_gas" (Block.base_fee_per_gas value) in
  Ok {|
    AlloyHeader.parent_hash := B256_from_Hex32 (Block.parent_hash value);
    AlloyHeader.ommers_hash := B256_from_Hex32 (Block.sha3_uncles value);
    AlloyHeader.beneficiary := Address_from_Hex20 (Block.miner value);
    AlloyHeader.state_root := B256_from_Hex32 (Block.state_root value);
    AlloyHeader.transactions_root := transactions_root;
    AlloyHeader.receipts_root := B256_from_Hex32 (Block.receipts_root value);
    AlloyHeader.logs_bloom := Bloom_from_Hex256 (Block.logs_bloom value);
    AlloyHeader.difficulty := difficulty;
    AlloyHeader.number := number;
    AlloyHeader.gas_limit := gas_limit;
    AlloyHeader.gas_used := gas_used;
    AlloyHeader.timestamp := timestamp;
    AlloyHeader.extra_data := Bytes_from_Hex (Block.extra_data value);
    AlloyHeader.mix_hash := B256_from_Hex32 (Block.mix_hash value);
    AlloyHeader.nonce := nonce;
    AlloyHeader.base_fee_per_gas := base_fee_per_gas;
    AlloyHeader.withdrawals_root := None;
    AlloyHeader.blob_gas_used := None;
    AlloyHeader.excess_blob_gas := None;
    AlloyHeader.parent_beacon_block_root := None;
    AlloyHeader.requests_hash := None
  |}.

Definition Block_try_from `{!AlloyResponseTypes} (value : Block) : RpcResult AlloyBlock :=
  let? inner := Header_try_from value in
  Ok {|
    AlloyBlock.hash := B256_from_Hex32 (Block.hash value);
    AlloyBlock.inner := inner;
    AlloyBlock.total_difficulty :=
      option_map alloy_U256_from_Nat256 (Block.total_difficulty value);
    AlloyBlock.size := Some (alloy_U256_from_Nat256 (Block.size value));
    AlloyBlock.uncles := map B256_from_Hex32 (Block.uncles value);
    AlloyBlock.transactions :=
      BlockTransactions_Hashes (map B256_from_Hex32 (Block.transactions value));
    AlloyBlock.withdrawals := None
  |}.

Definition FeeHistory_try_from (value : FeeHistory) : RpcResult AlloyFeeHistory :=
  let? base_fee_per_gas :=
      result_collect (try_from_nat256 U128 "base_fee_per_gas")
        (FeeHistory.base_fee_per_gas value) in
  let? oldest_block := try_from_nat256 U64 "oldest_block" (FeeHistory.oldest_block value) in
  let? reward :=
      result_collect (result_collect (try_from_nat256 U128 "reward"))
        (FeeHistory.reward value) in
  Ok {|
    AlloyFeeHistory.base_fee_per_gas := base_fee_per_gas;
    AlloyFeeHistory.gas_used_ratio := FeeHistory.gas_used_ratio value;
    AlloyFeeHistory.base_fee_per_blob_gas := [];
    AlloyFeeHistory.blob_gas_used_ratio := [];
    AlloyFeeHistory.oldest_block := oldest_block;
    AlloyFeeHistory.reward := Some reward
  |}.

Definition TxType_try_from `{!AlloyResponseTypes} (value : HexByte) : RpcResult TxType :=
  result_map_err (fun e => invalid ("Unable to parse transaction type: " +:+ e))
    (TxType_try_from_u8 (HexByte_into_byte value)).

Definition TransactionReceipt_try_from `{!AlloyResponseTypes, !AlloyReceiptTypes}
    (receipt : TransactionReceipt) : RpcResult AlloyTransactionReceipt :=
  let? tx_type := TxType_try_from (TransactionReceipt.tx_type receipt) in
  let? status := validate_receipt_status (TransactionReceipt.block_number receipt)
      (TransactionReceipt.root receipt) (TransactionReceipt.status receipt) in
  let? cumulative_gas_used := try_from_nat256 U64 "cumulative_gas_used"
      (TransactionReceipt.cumulative_gas_used receipt) in
  let? logs := result_collect Log_try_from (TransactionReceipt.logs receipt) in
  let? transaction_index := try_from_nat256 U64 "transaction_index"
      (TransactionReceipt.transaction_index receipt) in
  let? block_number := try_from_nat256 U64 "block_number"
      (TransactionReceipt.block_number receipt) in
  let? gas_used := try_from_nat256 U64 "gas_used" (TransactionReceipt.gas_used receipt) in
  let? effective_gas_price := try_from_nat256 U128 "effective_gas_price"
      (TransactionReceipt.effective_gas_price receipt) in
  Ok {|
    AlloyTransactionReceipt.inner := ReceiptEnvelope_from_typed tx_type {|
      AlloyReceipt.status := status;
      AlloyReceipt.cumulative_gas_used := cumulative_gas_used;
      AlloyReceipt.logs := logs;
      AlloyReceipt.logs_bloom := Bloom_from_Hex256 (TransactionReceipt.logs_bloom receipt)
    |};
    AlloyTransactionReceipt.transaction_hash :=
      B256_from_Hex32 (TransactionReceipt.transaction_hash receipt);
    AlloyTransactionReceipt.transaction_index := Some transaction_index;
    AlloyTransactionReceipt.block_hash :=
      Some (B256_from_Hex32 (TransactionReceipt.block_hash receipt));
    AlloyTransactionReceipt.block_number := Some block_number;
    AlloyTransactionReceipt.gas_used := gas_used;
    AlloyTransactionReceipt.effective_gas_price := effective_gas_price;
    AlloyTransactionReceipt.blob_gas_used := None;
    AlloyTransactionReceipt.blob_gas_price := None;
    AlloyTransactionReceipt.from := Address_from_Hex20 (TransactionReceipt.from receipt);
    AlloyTransactionReceipt.to :=
      option_map Address_from_Hex20 (TransactionReceipt.to receipt);
    AlloyTransactionReceipt.contract_address :=
      option_map Address_from_Hex20 (TransactionReceipt.contract_address receipt)
  |}.
End Responses.

(** ** Results of several providers ([result/alloy.rs]) *)

Section Results.
Context `{BigUintLaws} `{BigUintTryFrom} `{AlloyPrimitives}.

Definition results_into_logs `{PartialEq (list AlloyLog)}
    (result : MultiRpcResult (list LogEntry)) : MultiRpcResult (list AlloyLog) :=
  multi_and_then (result_collect Log_try_from) result.

Definition results_into_fee_history `{PartialEq AlloyFeeHistory}
    (result : MultiRpcResult FeeHistory) : MultiRpcResult AlloyFeeHistory :=
  multi_and_then FeeHistory_try_from result.

Definition results_into_block `{!AlloyResponseTypes} `{PartialEq AlloyBlock}
    (result : MultiRpcResult Block) : MultiRpcResult AlloyBlock :=
  multi_and_then Block_try_from result.

Definition results_into_u256 `{PartialEq alloy_U256} (result : MultiRpcResult Nat256) :
    MultiRpcResult alloy_U256 :=
  multi_map alloy_U256_from_Nat256 result.

Definition results_into_bytes `{PartialEq alloy_Bytes} (result : MultiRpcResult Hex) :
    MultiRpcResult alloy_Bytes :=
  multi_map Bytes_from_Hex result.

(** The closure of the conversion of [SendRawTransactionStatus]. *)
Definition transaction_hash_of (status : SendRawTransactionStatus) : RpcResult alloy_B256 :=
  match status with
  | SendRawTransactionStatus.Ok maybe_hash =>
      match maybe_hash with
      | Some hash => Ok (B256_from_Hex32 hash)
      | None => Err (invalid "Unable to compute transaction hash")
      end
  | SendRawTransactionStatus.InsufficientFunds =>
      Err (RpcError.JsonRpcError {| code := -32000; message := "Insufficient funds" |})
  | SendRawTransactionStatus.NonceTooLow =>
      Err (RpcError.JsonRpcError {| code := -32000; message := "Nonce too low" |})
  | SendRawTransactionStatus.NonceTooHigh =>
      Err (RpcError.JsonRpcError {| code := -32000; message := "Nonce too high" |})
  end.
Definition results_into_b256 `{PartialEq alloy_B256}
    (result : MultiRpcResult SendRawTransactionStatus) : MultiRpcResult alloy_B256 :=
  multi_and_then transaction_hash_of result.

Definition results_into_receipt `{!AlloyResponseTypes, !AlloyReceiptTypes}
    `{PartialEq (option AlloyTransactionReceipt)}
    (result : MultiRpcResult (option TransactionReceipt)) :
    MultiRpcResult (option AlloyTransactionReceipt) :=
  multi_and_then
    (fun maybe_receipt => option_transpose (option_map TransactionReceipt_try_from maybe_receipt))
    result.
End Results.

(** ** Lemmas *)

(** *** Results *)

Lemma result_and_then_Ok {T U E} (r : Result T E) (f : T -> Result U E) u :
  result_and_then r f = Ok u <-> exists t, r = Ok t /\ f t = Ok u.
Proof. destruct r; simpl; naive_solver. Qed.
Lemma ok_or_Ok {T E} (o : option T) (e : E) t : ok_or o e = Ok t <-> o = Some t.
Proof. destruct o; simpl; naive_solver. Qed.
Lemma result_collect_Ok {T U E} (f : T -> Result U E) l k :
  result_collect f l = Ok k <-> Forall2 (fun x y => f x = Ok y) l k.
Proof.
  revert k. induction l as [|x l IH]; intros k; cbn [result_collect].
  - split; [by intros [= <-]|]. by intros ->%Forall2_nil_inv_l.
  - rewrite result_and_then_Ok. split.
    + intros (y & Ey & (ys & Es%IH & [= <-])%result_and_then_Ok). by constructor.
    + intros (y & ys & Ey & Es%IH & ->)%Forall2_cons_inv_l. exists y. split; [done|].
      by rewrite Es.
Qed.
Lemma result_collect_inj {T U E} (f : T -> Result U E) (P : T -> Prop) l l' k :
  (forall x x' y, P x -> P x' -> f x = Ok y -> f x' = Ok y -> x = x') ->
  Forall P l -> Forall P l' ->
  result_collect f l = Ok k -> result_collect f l' = Ok k -> l = l'.
Proof.
  intros Hf Hl Hl' Ek%result_collect_Ok Ek'%result_collect_Ok. revert l' Hl' Ek'.
  induction Ek as [|x y l k Exy Ek IH]; intros l' Hl' Ek'.
  - by apply Forall2_nil_inv_r in Ek' as ->.
  - apply Forall2_cons_inv_r in Ek' as (x' & l0 & E' & Ek' & ->).
    apply Forall_cons in Hl as [Hx Hl], Hl' as [Hx' Hl']. f_equal; eauto.
Qed.

(** Takes apart a sequence of [let?] that returned. *)
Ltac destruct_results E :=
  repeat match type of E with
  | result_and_then _ _ = Ok _ =>
      let x := fresh "x" in let Ex := fresh "Ex" in
      apply result_and_then_Ok in E as (x & Ex & E)
  end.

(** *** Big-endian numbers *)

Lemma be_value_inj (l k : list byte) :
  is_bytes l -> is_bytes k -> length l = length k -> be_value l = be_value k -> l = k.
Proof.
  revert k. induction l as [|x l IH] using rev_ind; intros k Hl Hk Hlen Hv.
  - by destruct k.
  - destruct k as [|y k _] using rev_ind; [rewrite length_app in Hlen; simpl in Hlen; lia|].
    rewrite !length_app in Hlen. simpl in Hlen.
    apply Forall_app in Hl as [Hl [Hx _]%Forall_cons_1], Hk as [Hk [Hy _]%Forall_cons_1].
    unfold in_range in Hx, Hy. change (2 ^ 8) with 256 in Hx, Hy.
    rewrite !Instances.be_value_snoc in Hv.
    assert (x = y) as -> by lia. f_equal. apply IH; [done..|lia|lia].
Qed.
Lemma Bytes_value_inj {n} (x y : Bytes n) : be_value (`x) = be_value (`y) -> x = y.
Proof.
  intros E. apply Bytes_eq. destruct x as [x Hx], y as [y Hy]. simpl in *.
  apply bytes_ok_spec in Hx as [Hx ?], Hy as [Hy ?]. apply be_value_inj; [done..| |done].
  by rewrite Hx, Hy.
Qed.

Section ConversionLemmas.
Context `{BigUintLaws} `{AlloyPrimitivesLaws}.

Lemma Nat256_from_uint_value {bits} (Hb : (bits <=? 128) = true) (v : Uint bits) :
  nat256_0 (Nat256_from_uint Hb v) = `v.
Proof.
  unfold Nat256_from_uint. pose proof (the_value_Return _ (uint_returns v Hb)) as E.
  revert E. generalize (the_value (Nat256_from (`v)) (uint_returns v Hb)). intros n.
  unfold Nat256_from, expect. destruct (Nat256_try_from (`v)) as [m|] eqn:Em; [|done].
  intros [= ->]. by apply Nat256_try_from_Ok in Em.
Qed.
#[export] Instance Nat256_from_uint_inj {bits} (Hb : (bits <=? 128) = true) :
  Inj (=) (=) (Nat256_from_uint (bits := bits) Hb).
Proof.
  intros v w E. apply Uint_eq. apply (f_equal nat256_0) in E.
  by rewrite !Nat256_from_uint_value in E.
Qed.

Lemma alloy_U256_from_Nat256_value n :
  be_value (proj1_sig (alloy_U256_to_be_bytes (alloy_U256_from_Nat256 n))) = nat256_0 n.
Proof.
  destruct (into_be_bytes_value n) as (bs & E & Hv).
  unfold alloy_U256_from_Nat256. by rewrite (the_value_eq _ _ _ E), alloy_U256_to_from.
Qed.
Lemma Nat256_from_alloy_U256_value u :
  nat256_0 (Nat256_from_alloy_U256 u) = be_value (proj1_sig (alloy_U256_to_be_bytes u)).
Proof.
  destruct (from_be_bytes_value (alloy_U256_to_be_bytes u)) as (n & E & Hv).
  unfold Nat256_from_alloy_U256. by rewrite (the_value_eq _ _ _ E), Hv.
Qed.
Lemma alloy_U256_eq (u v : alloy_U256) :
  be_value (proj1_sig (alloy_U256_to_be_bytes u)) =
    be_value (proj1_sig (alloy_U256_to_be_bytes v)) <-> u = v.
Proof.
  split; [|by intros ->]. intros E%Bytes_value_inj.
  by rewrite <- (alloy_U256_from_to u), E, alloy_U256_from_to.
Qed.
Lemma alloy_U256_is n (u : alloy_U256) :
  alloy_U256_from_Nat256 n = u <->
  nat256_0 n = be_value (proj1_sig (alloy_U256_to_be_bytes u)).
Proof. by rewrite <- alloy_U256_eq, alloy_U256_from_Nat256_value. Qed.

#[export] Instance B256_from_Hex32_inj : Inj (=) (=) B256_from_Hex32.
Proof.
  intros [x] [y] E. unfold B256_from_Hex32 in E. apply (f_equal FixedBytes_0) in E.
  rewrite !FixedBytes_0_from in E. simpl in E. by subst.
Qed.
#[export] Instance Address_from_Hex20_inj : Inj (=) (=) Address_from_Hex20.
Proof.
  intros [x] [y] E. unfold Address_from_Hex20 in E. apply (f_equal Address_into_array) in E.
  rewrite !Address_into_from in E. simpl in E. by subst.
Qed.
#[export] Instance Bloom_from_Hex256_inj : Inj (=) (=) Bloom_from_Hex256.
Proof.
  intros [x] [y] E. unfold Bloom_from_Hex256 in E. apply (f_equal Bloom_into_array) in E.
  rewrite !Bloom_into_from in E. simpl in E. by subst.
Qed.
#[export] Instance alloy_U256_from_Nat256_inj : Inj (=) (=) alloy_U256_from_Nat256.
Proof. intros x y E%alloy_U256_is. apply Nat256_eq. by rewrite E, alloy_U256_from_Nat256_value. Qed.
Lemma Bytes_from_Hex_inj x y :
  is_bytes (Hex_0 x) -> is_bytes (Hex_0 y) -> Bytes_from_Hex x = Bytes_from_Hex y -> x = y.
Proof.
  destruct x as [x], y as [y]. unfold Bytes_from_Hex. simpl. intros Hx Hy E.
  apply (f_equal Bytes_to_vec) in E. by rewrite !Bytes_to_vec_from in E by done; subst.
Qed.

Lemma B64_try_from_Nat256_Ok n b :
  B64_try_from_Nat256 n = Ok b <-> Nat256_from_B64 b = n.
Proof.
  unfold B64_try_from_Nat256. rewrite result_and_then_Ok.
  setoid_rewrite uint64_try_from_Nat256_Ok. split.
  - intros (v & Ev & [= <-]). apply Nat256_eq. unfold Nat256_from_B64, Nat256_from_u64.
    by rewrite Nat256_from_uint_value, u64_from_B64_from.
  - intros <-. exists (u64_from_B64 b). unfold Nat256_from_B64, Nat256_from_u64.
    by rewrite Nat256_from_uint_value, B64_from_u64_from.
Qed.
Lemma uint64_try_from_Nat256_fits n :
  (exists v, uint64_try_from_Nat256 n = Ok v) <-> nat256_0 n < 2 ^ 64.
Proof.
  setoid_rewrite uint64_try_from_Nat256_Ok. split.
  - intros [v <-]. apply uint_in_range.
  - intros Hlt. assert (Hok : uint_ok 64 (nat256_0 n) = true).
    { pose proof (nat256_range n). unfold uint_ok. lia. }
    by exists (exist (fun z => uint_ok 64 z = true) (nat256_0 n) Hok).
Qed.
Lemma B64_try_from_Nat256_fits n :
  (exists b, B64_try_from_Nat256 n = Ok b) <-> nat256_0 n < 2 ^ 64.
Proof.
  rewrite <- uint64_try_from_Nat256_fits. unfold B64_try_from_Nat256.
  setoid_rewrite result_and_then_Ok. naive_solver.
Qed.
End ConversionLemmas.

(** *** The conversions of fields *)

(** A number fits into an integer type. *)
Definition fits `{BigUintCrate} (t : IntType) (n : Nat256) : Prop := nat256_0 n < 2 ^ int_bits t.
Definition fits_opt `{BigUintCrate} (t : IntType) (o : option Nat256) : Prop :=
  match o with Some n => fits t n | None => True end.

Section FieldLemmas.
Context `{BigUintLaws} `{BigUintTryFromLaws}.

Lemma try_from_nat256_Ok t field n z :
  try_from_nat256 t field n = Ok z <-> z = nat256_0 n /\ fits t n.
Proof.
  unfold try_from_nat256, fits. rewrite <- (biguint_try_into_Ok t _ z (proj1 (nat256_range n))).
  destruct (biguint_try_into _ _); simpl; naive_solver.
Qed.
Lemma try_from_nat256_fits t field n :
  fits t n -> try_from_nat256 t field n = Ok (nat256_0 n).
Proof. intros Hf. by apply try_from_nat256_Ok. Qed.
Lemma try_from_nat256_opt_Ok t field o r :
  try_from_nat256_opt t field o = Ok r <-> r = option_map nat256_0 o /\ fits_opt t o.
Proof.
  unfold try_from_nat256_opt. destruct o as [n|]; simpl; [|naive_solver].
  pose proof (fun z => try_from_nat256_Ok t field n z) as Hs.
  destruct (try_from_nat256 t field n) as [z|e].
  - destruct (proj1 (Hs z) eq_refl) as [-> Hf]. naive_solver.
  - split; [done|]. intros [-> Hf]. by specialize (proj2 (Hs (nat256_0 n)) (conj eq_refl Hf)).
Qed.
Lemma try_from_nat256_opt_fits t field o :
  fits_opt t o -> try_from_nat256_opt t field o = Ok (option_map nat256_0 o).
Proof. intros Hf. by apply try_from_nat256_opt_Ok. Qed.
Lemma try_from_nat256_list_Ok t field l k :
  result_collect (try_from_nat256 t field) l = Ok k <->
  k = map nat256_0 l /\ Forall (fits t) l.
Proof.
  rewrite result_collect_Ok. split.
  - induction 1 as [|n z l k [-> Hf]%try_from_nat256_Ok Hl [-> IH]]; [done|]. split; [done|].
    by constructor.
  - intros [-> Hl]. induction Hl as [|n l Hf Hl IH]; simpl; constructor; [|done].
    by apply try_from_nat256_Ok.
Qed.
Lemma try_from_nat256_matrix_Ok t field l k :
  result_collect (result_collect (try_from_nat256 t field)) l = Ok k <->
  k = map (map nat256_0) l /\ Forall (Forall (fits t)) l.
Proof.
  rewrite result_collect_Ok. split.
  - induction 1 as [|ns zs l k [-> Hf]%try_from_nat256_list_Ok Hl [-> IH]]; [done|].
    split; [done|]. by constructor.
  - intros [-> Hl]. induction Hl as [|ns l Hf Hl IH]; simpl; constructor; [|done].
    by apply try_from_nat256_list_Ok.
Qed.
Lemma nat256_map_inj (l k : list Nat256) : map nat256_0 l = map nat256_0 k -> l = k.
Proof. apply (list_fmap_eq_inj nat256_0). intros x y. apply Nat256_eq. Qed.
Lemma nat256_option_inj (o p : option Nat256) :
  option_map nat256_0 o = option_map nat256_0 p -> o = p.
Proof. destruct o, p; simpl; intros E; simplify_eq; [|done]. f_equal. by apply Nat256_eq. Qed.
End FieldLemmas.

(** ** Properties *)

(** *** Primitive types *)

(** The conversions between the primitive types of the interface and those of alloy lose
    nothing in either direction; the only ones that can fail are those of a number into an
    integer of fewer bits, which fail exactly when the number has more. *)
Theorem alloy_primitives_roundtrip `{BigUintLaws} `{AlloyPrimitivesLaws}
    (h20 : Hex20) (address : alloy_Address) (h32 : Hex32) (b256 : alloy_B256) (h : Hex)
    (bytes : alloy_Bytes) (n : Nat256) (u : alloy_U256) (h256 : Hex256) (bloom : alloy_Bloom)
    (b64 : alloy_B64) :
  Hex20_from_Address (Address_from_Hex20 h20) = h20 /\
  Address_from_Hex20 (Hex20_from_Address address) = address /\
  Hex32_from_B256 (B256_from_Hex32 h32) = h32 /\
  B256_from_Hex32 (Hex32_from_B256 b256) = b256 /\
  (is_bytes (Hex_0 h) -> Hex_from_Bytes (Bytes_from_Hex h) = h) /\
  Bytes_from_Hex (Hex_from_Bytes bytes) = bytes /\
  Nat256_from_alloy_U256 (alloy_U256_from_Nat256 n) = n /\
  alloy_U256_from_Nat256 (Nat256_from_alloy_U256 u) = u /\
  Hex256_from_Bloom (Bloom_from_Hex256 h256) = h256 /\
  Bloom_from_Hex256 (Hex256_from_Bloom bloom) = bloom /\
  B64_try_from_Nat256 (Nat256_from_B64 b64) = Ok b64 /\
  (forall b, B64_try_from_Nat256 n = Ok b -> Nat256_from_B64 b = n) /\
  ((exists b, B64_try_from_Nat256 n = Ok b) <-> nat256_0 n < 2 ^ 64).
Proof.
  split_and!.
  - unfold Hex20_from_Address, Address_from_Hex20. rewrite Address_into_from. by destruct h20.
  - apply Address_from_into.
  - unfold Hex32_from_B256, B256_from_Hex32. rewrite FixedBytes_0_from. by destruct h32.
  - apply FixedBytes_from_0.
  - destruct h as [l]. unfold Hex_from_Bytes, Bytes_from_Hex. simpl. intros Hl.
    by rewrite Bytes_to_vec_from.
  - apply Bytes_from_to_vec.
  - apply Nat256_eq. by rewrite Nat256_from_alloy_U256_value, alloy_U256_from_Nat256_value.
  - apply alloy_U256_is. by rewrite Nat256_from_alloy_U256_value.
  - unfold Hex256_from_Bloom, Bloom_from_Hex256. rewrite Bloom_into_from. by destruct h256.
  - apply Bloom_from_into.
  - by apply B64_try_from_Nat256_Ok.
  - intros b. apply B64_try_from_Nat256_Ok.
  - apply B64_try_from_Nat256_fits.
Qed.

(** *** Requests *)

(** The recipient of a transaction. *)
Definition recipient `{AlloyPrimitives} (to : option TxKind) : option alloy_Address :=
  match to with Some (TxKind.Call address) => Some address | _ => None end.
Lemma recipient_eq `{AlloyPrimitives} (to : option TxKind) :
  match to with
  | Some kind =>
      match kind with
      | TxKind.Create => None
      | TxKind.Call address => Some (Hex20_from_Address address)
      end
  | None => None
  end = option_map Hex20_from_Address (recipient to).
Proof. by destruct to as [[|a]|]. Qed.

(** What a request says: the recipient is absent for the creation of a contract, and the input
    is the one that the two input fields agree on. *)
Definition request_content `{AlloyRequestTypes}
    (r : AlloyTransactionRequest.TransactionRequest) :=
  (AlloyTransactionRequest.transaction_type r,
   AlloyTransactionRequest.nonce r,
   recipient (AlloyTransactionRequest.to r),
   AlloyTransactionRequest.from r,
   AlloyTransactionRequest.gas r,
   AlloyTransactionRequest.value r,
   try_into_unique_input (AlloyTransactionRequest.input r),
   AlloyTransactionRequest.gas_price r,
   AlloyTransactionRequest.max_priority_fee_per_gas r,
   AlloyTransactionRequest.max_fee_per_gas r,
   AlloyTransactionRequest.max_fee_per_blob_gas r,
   AlloyTransactionRequest.access_list r,
   AlloyTransactionRequest.blob_versioned_hashes r,
   AlloyTransactionRequest.sidecar_blobs r,
   AlloyTransactionRequest.chain_id r).

Section RequestLemmas.
Context `{BigUintLaws} `{AlloyPrimitivesLaws}.

#[export] Instance option_map_inj {A B} (f : A -> B) `{!Inj (=) (=) f} :
  Inj (=) (=) (option_map f).
Proof. intros [x|] [y|]; simpl; naive_solver. Qed.
#[export] Instance list_map_inj {A B} (f : A -> B) `{!Inj (=) (=) f} : Inj (=) (=) (map f).
Proof. intros l k. by apply list_fmap_eq_inj. Qed.
#[export] Instance Hex32_from_B256_inj : Inj (=) (=) Hex32_from_B256.
Proof.
  intros x y [= E]. by rewrite <- (FixedBytes_from_0 x), E, FixedBytes_from_0.
Qed.
#[export] Instance Hex20_from_Address_inj : Inj (=) (=) Hex20_from_Address.
Proof.
  intros x y [= E]. by rewrite <- (Address_from_into x), E, Address_from_into.
Qed.
#[export] Instance Hex_from_Bytes_inj : Inj (=) (=) Hex_from_Bytes.
Proof. intros x y [= E]. by rewrite <- (Bytes_from_to_vec x), E, Bytes_from_to_vec. Qed.
#[export] Instance Hex_from_FixedBytes_inj {n} : Inj (=) (=) (Hex_from_FixedBytes (n := n)).
Proof.
  intros x y [= E]. rewrite !FixedBytes_to_vec_0 in E. apply Bytes_eq in E.
  by rewrite <- (FixedBytes_from_0 x), E, FixedBytes_from_0.
Qed.
#[export] Instance Nat256_from_alloy_U256_inj : Inj (=) (=) Nat256_from_alloy_U256.
Proof.
  intros x y E%(f_equal nat256_0). rewrite !Nat256_from_alloy_U256_value in E.
  by apply alloy_U256_eq.
Qed.
#[export] Instance HexByte_from_uint_inj : Inj (=) (=) HexByte_from_uint.
Proof.
  intros x y E%(f_equal (fun h => proj1_sig (byte_0 (HexByte_0 h)))). simpl in E.
  apply Uint_eq. by injection E.
Qed.
#[export] Instance AccessList_from_inj : Inj (=) (=) AccessList_from.
Proof.
  intros x y [= E]. revert E. apply list_map_inj. intros [a k] [a' k'] E.
  pose proof (f_equal AccessListEntry.address E) as Ea.
  pose proof (f_equal AccessListEntry.storage_keys E) as Ek. simpl in Ea, Ek.
  apply (inj _) in Ea, Ek. by subst.
Qed.
End RequestLemmas.

(** A tag is read from alloy without loss, and written back exactly when its number, if it
    has one, fits into 64 bits. A request is read from alloy exactly when its two input fields
    do not contradict each other (otherwise the error shows alloy's message), without loss
    but for the difference between the creation of a contract and an absent recipient; the
    result calls the latest block, as it names none. *)
Theorem requests_from_alloy `{BigUintLaws} `{AlloyRequestTypes} `{!AlloyPrimitivesLaws}
    (tag : BlockTag) (request request' : AlloyTransactionRequest.TransactionRequest) :
  (forall t, BlockNumberOrTag_try_from tag = Ok t <-> BlockTag_from_BlockNumberOrTag t = tag) /\
  ((exists t, BlockNumberOrTag_try_from tag = Ok t) <->
     forall n, tag = BlockTag.Number n -> nat256_0 n < 2 ^ 64) /\
  (forall e, TransactionRequest_try_from request = Err e <->
     exists msg, try_into_unique_input (AlloyTransactionRequest.input request) = Err msg /\
       e = RpcError.ValidationError (ValidationError.Custom msg)) /\
  (forall r, TransactionRequest_try_from request = Ok r ->
     (TransactionRequest_try_from request' = Ok r <->
        request_content request' = request_content request) /\
     CallArgs_try_from request = Ok {| CallArgs.transaction := r; CallArgs.block := None |}).
Proof.
  split_and!.
  - intros t. destruct tag as [| | | | |n];
      try by (destruct t; simpl; split; intros E; simplify_eq).
    cbn [BlockNumberOrTag_try_from]. rewrite result_and_then_Ok.
    setoid_rewrite uint64_try_from_Nat256_Ok. destruct t as [| | | | |v]; simpl;
      try by (split; [intros (? & _ & ?)|]).
    split; [intros (w & Ew & [= ->])|intros [= <-]].
    + f_equal. apply Nat256_eq. unfold Nat256_from_u64. by rewrite Nat256_from_uint_value.
    + exists v. unfold Nat256_from_u64. by rewrite Nat256_from_uint_value.
  - destruct tag as [| | | | |n]; try by (split; [intros _ ? [=]|simpl; eauto]).
    cbn [BlockNumberOrTag_try_from]. setoid_rewrite result_and_then_Ok.
    pose proof (uint64_try_from_Nat256_fits n). naive_solver.
  - intros e. unfold TransactionRequest_try_from. destruct (try_into_unique_input _); simpl;
      naive_solver.
  - intros r E. split; [|unfold CallArgs_try_from; by rewrite E].
    revert E. unfold TransactionRequest_try_from, request_content.
    destruct (try_into_unique_input (AlloyTransactionRequest.input request)) as [i|msg];
      simpl; [|done]. intros [= <-].
    destruct (try_into_unique_input (AlloyTransactionRequest.input request')) as [i'|msg'];
      simpl; [|split; intros E; discriminate E || by injection E].
    rewrite !recipient_eq. split.
    + intros [= ]. repeat match goal with
      | E : option_map ?f _ = option_map ?f _ |- _ => apply (inj (option_map f)) in E
      end. congruence.
    + intros [= ]. congruence.
Qed.

(** *** Responses *)

(** The difficulty of a block: zero when it is absent. *)
Definition difficulty_value `{BigUintCrate} (b : Block) : Z :=
  default 0 (option_map nat256_0 (Block.difficulty b)).
(** Before the Paris upgrade a block has a difficulty, and after it none but zero. *)
Definition difficulty_ok `{BigUintCrate} (b : Block) : Prop :=
  if nat256_0 (Block.number b) <? PARIS_BLOCK then is_Some (Block.difficulty b)
  else difficulty_value b = 0.
(** The blocks that alloy can represent. *)
Definition block_convertible `{BigUintCrate} (b : Block) : Prop :=
  is_Some (Block.transactions_root b) /\ difficulty_ok b /\
  Forall (fits U64) [Block.number b; Block.gas_limit b; Block.gas_used b; Block.timestamp b;
                     Block.nonce b] /\
  fits_opt U64 (Block.base_fee_per_gas b).

Section ResponseLemmas.
Context `{BigUintLaws} `{BigUintTryFromLaws} `{AlloyPrimitivesLaws}.

Lemma validate_difficulty_Ok b d :
  validate_difficulty (Block.number b) (Block.difficulty b) = Ok d <->
  difficulty_ok b /\ be_value (proj1_sig (alloy_U256_to_be_bytes d)) = difficulty_value b.
Proof.
  assert (Hz : be_value (proj1_sig (alloy_U256_to_be_bytes d)) = 0 <-> d = alloy_U256_ZERO).
  { by rewrite <- alloy_U256_eq, alloy_U256_ZERO_value. }
  unfold validate_difficulty, difficulty_ok, difficulty_value.
  destruct (nat256_0 (Block.number b) <? PARIS_BLOCK); destruct (Block.difficulty b) as [n|];
    simpl.
  - rewrite <- (alloy_U256_from_Nat256_value n), alloy_U256_eq. split; [|by intros [_ ->]].
    intros [= <-]. by split.
  - split; [done|]. by intros [[? ?] _].
  - case_decide as Hd.
    + rewrite alloy_U256_is, alloy_U256_ZERO_value in Hd. rewrite Hd, Hz.
      split; [by intros [= <-]|by intros [_ ->]].
    + rewrite alloy_U256_is, alloy_U256_ZERO_value in Hd. by split; [|intros [? _]].
  - rewrite Hz. naive_solver.
Qed.

Lemma validate_difficulty_exists b :
  (exists d, validate_difficulty (Block.number b) (Block.difficulty b) = Ok d) <->
  difficulty_ok b.
Proof.
  setoid_rewrite validate_difficulty_Ok. split; [by intros (d & Hd & _)|]. intros Hd.
  unfold difficulty_value. destruct (Block.difficulty b) as [n|]; simpl.
  - exists (alloy_U256_from_Nat256 n). by rewrite alloy_U256_from_Nat256_value.
  - exists alloy_U256_ZERO. by rewrite alloy_U256_ZERO_value.
Qed.

(** The header of a block: what it needs, and what it says. *)
Lemma Header_try_from_Ok b h :
  Header_try_from b = Ok h ->
  block_convertible b /\
  Block.transactions_root b = Some (Hex32_from_B256 (AlloyHeader.transactions_root h)) /\
  be_value (proj1_sig (alloy_U256_to_be_bytes (AlloyHeader.difficulty h))) =
    difficulty_value b /\
  AlloyHeader.number h = nat256_0 (Block.number b) /\
  AlloyHeader.gas_limit h = nat256_0 (Block.gas_limit b) /\
  AlloyHeader.gas_used h = nat256_0 (Block.gas_used b) /\
  AlloyHeader.timestamp h = nat256_0 (Block.timestamp b) /\
  Nat256_from_B64 (AlloyHeader.nonce h) = Block.nonce b /\
  AlloyHeader.base_fee_per_gas h = option_map nat256_0 (Block.base_fee_per_gas b).
Proof.
  intros E. unfold Header_try_from in E. destruct_results E. injection E as <-. simpl.
  repeat match goal with
  | E : try_from_nat256 _ _ _ = Ok _ |- _ => apply try_from_nat256_Ok in E as [-> ?]
  | E : try_from_nat256_opt _ _ _ = Ok _ |- _ => apply try_from_nat256_opt_Ok in E as [-> ?]
  | E : validate_difficulty _ _ = Ok _ |- _ => apply validate_difficulty_Ok in E as [? ?]
  | E : validate_transactions_root _ = Ok _ |- _ => apply ok_or_Ok in E
  end.
  destruct (Block.transactions_root b) as [root|] eqn:Er; simpl in *; simplify_eq.
  match goal with E : B64_try_from_Nat256 _ = Ok _ |- _ => rename E into En end.
  assert (fits U64 (Block.nonce b)) by (apply B64_try_from_Nat256_fits; eauto).
  apply B64_try_from_Nat256_Ok in En.
  split_and!; [|do 2 f_equal|done..].
  - unfold block_convertible. rewrite Er. split_and!; [done..| |done].
    by repeat constructor.
  - unfold Hex32_from_B256, B256_from_Hex32. rewrite FixedBytes_0_from. by destruct root.
Qed.

Lemma Header_try_from_exists b : block_convertible b -> exists h, Header_try_from b = Ok h.
Proof.
  intros ([root Er] & Hd & Hf & Hb). unfold Header_try_from.
  apply validate_difficulty_exists in Hd as [d ->].
  rewrite !Forall_cons in Hf. destruct Hf as (H1' & H2' & H3' & H4' & H5' & _).
  apply B64_try_from_Nat256_fits in H5' as [n ->].
  rewrite !try_from_nat256_fits, try_from_nat256_opt_fits by done.
  unfold validate_transactions_root. rewrite Er. simpl. by eexists.
Qed.
End ResponseLemmas.

(** [Block] with another difficulty. *)
Definition set_difficulty `{BigUintCrate} (d : option Nat256) (b : Block) : Block := {|
  Block.base_fee_per_gas := Block.base_fee_per_gas b;
  Block.number := Block.number b;
  Block.difficulty := d;
  Block.extra_data := Block.extra_data b;
  Block.gas_limit := Block.gas_limit b;
  Block.gas_used := Block.gas_used b;
  Block.hash := Block.hash b;
  Block.logs_bloom := Block.logs_bloom b;
  Block.miner := Block.miner b;
  Block.mix_hash := Block.mix_hash b;
  Block.nonce := Block.nonce b;
  Block.parent_hash := Block.parent_hash b;
  Block.receipts_root := Block.receipts_root b;
  Block.sha3_uncles := Block.sha3_uncles b;
  Block.size := Block.size b;
  Block.state_root := Block.state_root b;
  Block.timestamp := Block.timestamp b;
  Block.total_difficulty := Block.total_difficulty b;
  Block.transactions := Block.transactions b;
  Block.transactions_root := Block.transactions_root b;
  Block.uncles := Block.uncles b;
|}.
(** The same block but for the way a difficulty of zero is written. *)
Definition same_block `{BigUintCrate} (b c : Block) : Prop :=
  set_difficulty None b = set_difficulty None c /\ difficulty_value b = difficulty_value c.

(** A log that alloy can represent. *)
Definition log_convertible `{BigUintCrate} (l : LogEntry) : Prop :=
  (length (LogEntry.topics l) <= 4)%nat /\
  fits_opt U64 (LogEntry.block_number l) /\ fits_opt U64 (LogEntry.transaction_index l) /\
  fits_opt U64 (LogEntry.log_index l).

Section LossLemmas.
Context `{BigUintLaws} `{BigUintTryFromLaws} `{AlloyPrimitivesLaws}.

(** The fields of a header which are conversions that cannot fail. *)
Lemma Header_try_from_fields b h :
  Header_try_from b = Ok h ->
  AlloyHeader.parent_hash h = B256_from_Hex32 (Block.parent_hash b) /\
  AlloyHeader.ommers_hash h = B256_from_Hex32 (Block.sha3_uncles b) /\
  AlloyHeader.beneficiary h = Address_from_Hex20 (Block.miner b) /\
  AlloyHeader.state_root h = B256_from_Hex32 (Block.state_root b) /\
  AlloyHeader.receipts_root h = B256_from_Hex32 (Block.receipts_root b) /\
  AlloyHeader.logs_bloom h = Bloom_from_Hex256 (Block.logs_bloom b) /\
  AlloyHeader.extra_data h = Bytes_from_Hex (Block.extra_data b) /\
  AlloyHeader.mix_hash h = B256_from_Hex32 (Block.mix_hash b).
Proof.
  intros E. unfold Header_try_from in E. destruct_results E. injection E as <-. done.
Qed.

Lemma Block_try_from_fields `{!AlloyResponseTypes} b a :
  Block_try_from b = Ok a ->
  Header_try_from b = Ok (AlloyBlock.inner a) /\
  AlloyBlock.hash a = B256_from_Hex32 (Block.hash b) /\
  AlloyBlock.total_difficulty a =
    option_map alloy_U256_from_Nat256 (Block.total_difficulty b) /\
  AlloyBlock.size a = Some (alloy_U256_from_Nat256 (Block.size b)) /\
  AlloyBlock.uncles a = map B256_from_Hex32 (Block.uncles b) /\
  AlloyBlock.transactions a =
    BlockTransactions_Hashes (map B256_from_Hex32 (Block.transactions b)).
Proof.
  intros E. unfold Block_try_from in E. destruct_results E. injection E as <-. done.
Qed.

Lemma Header_try_from_same b c h :
  is_bytes (Hex_0 (Block.extra_data b)) -> is_bytes (Hex_0 (Block.extra_data c)) ->
  Header_try_from b = Ok h -> Header_try_from c = Ok h ->
  Block.parent_hash b = Block.parent_hash c /\ Block.sha3_uncles b = Block.sha3_uncles c /\
  Block.miner b = Block.miner c /\ Block.state_root b = Block.state_root c /\
  Block.receipts_root b = Block.receipts_root c /\ Block.logs_bloom b = Block.logs_bloom c /\
  Block.extra_data b = Block.extra_data c /\ Block.mix_hash b = Block.mix_hash c.
Proof.
  intros Hb Hc Eb%Header_try_from_fields Ec%Header_try_from_fields.
  revert Ec. destruct Eb as (-> & -> & -> & -> & -> & -> & -> & ->).
  intros (E1%(inj _) & E2%(inj _) & E3%(inj _) & E4%(inj _) & E5%(inj _) & E6%(inj _) &
    E7%(Bytes_from_Hex_inj _ _ Hb Hc) & E8%(inj _)).
  split_and!; done.
Qed.

Lemma Block_try_from_same `{!AlloyResponseTypes, !AlloyResponseLaws} b c a :
  is_bytes (Hex_0 (Block.extra_data b)) -> is_bytes (Hex_0 (Block.extra_data c)) ->
  Block_try_from b = Ok a -> Block_try_from c = Ok a -> same_block b c.
Proof.
  intros Hb Hc (Hhb & Eb)%Block_try_from_fields (Hhc & Ec)%Block_try_from_fields.
  destruct (Header_try_from_same b c _ Hb Hc Hhb Hhc) as (? & ? & ? & ? & ? & ? & ? & ?).
  apply Header_try_from_Ok in Hhb as (_ & Eb1 & Eb2 & Eb3 & Eb4 & Eb5 & Eb6 & Eb7 & Eb8).
  apply Header_try_from_Ok in Hhc as (_ & Ec1 & Ec2 & Ec3 & Ec4 & Ec5 & Ec6 & Ec7 & Ec8).
  revert Ec. destruct Eb as (-> & -> & -> & -> & ->).
  intros (E1%(inj _) & E2%(inj _) & [= E3%(inj _)] & E4%(inj _) & E5%(inj _)%(inj _)).
  split; [|congruence]. unfold set_difficulty.
  f_equal; try congruence; try (apply Nat256_eq; congruence).
  apply nat256_option_inj. congruence.
Qed.

(** A log: what it needs, and what it says. *)
Lemma Log_try_from_Ok l a :
  Log_try_from l = Ok a ->
  log_convertible l /\
  AlloyLog.address a = Address_from_Hex20 (LogEntry.address l) /\
  LogData_new (map B256_from_Hex32 (LogEntry.topics l)) (Bytes_from_Hex (LogEntry.data l)) =
    Some (AlloyLog.data a) /\
  AlloyLog.block_hash a = option_map B256_from_Hex32 (LogEntry.block_hash l) /\
  AlloyLog.transaction_hash a = option_map B256_from_Hex32 (LogEntry.transaction_hash l) /\
  AlloyLog.block_number a = option_map nat256_0 (LogEntry.block_number l) /\
  AlloyLog.transaction_index a = option_map nat256_0 (LogEntry.transaction_index l) /\
  AlloyLog.log_index a = option_map nat256_0 (LogEntry.log_index l) /\
  AlloyLog.removed a = LogEntry.removed l /\ AlloyLog.block_timestamp a = None.
Proof.
  intros E. unfold Log_try_from in E. destruct_results E. injection E as <-. simpl.
  repeat match goal with
  | E : try_from_nat256_opt _ _ _ = Ok _ |- _ => apply try_from_nat256_opt_Ok in E as [-> ?]
  | E : ok_or _ _ = Ok _ |- _ => apply ok_or_Ok in E
  end.
  split_and!; [|done..]. split_and!; [|done..].
  apply Nat.nlt_ge. intros Hlt. rewrite (proj2 (LogData_new_None _ _)) in Ex; [done|].
  by rewrite length_map.
Qed.

Lemma Log_try_from_exists l : log_convertible l -> exists a, Log_try_from l = Ok a.
Proof.
  intros (Ht & Hb & Hi & Hl). unfold Log_try_from.
  destruct (LogData_new _ _) as [d|] eqn:E.
  - simpl. rewrite !try_from_nat256_opt_fits by done. simpl. by eexists.
  - apply LogData_new_None in E. rewrite length_map in E. lia.
Qed.

Lemma Log_try_from_same l k a :
  is_bytes (Hex_0 (LogEntry.data l)) -> is_bytes (Hex_0 (LogEntry.data k)) ->
  Log_try_from l = Ok a -> Log_try_from k = Ok a -> l = k.
Proof.
  intros Hl Hk (_ & E1 & E2 & E3 & E4 & E5 & E6 & E7 & E8 & _)%Log_try_from_Ok
    (_ & F1 & F2 & F3 & F4 & F5 & F6 & F7 & F8 & _)%Log_try_from_Ok.
  destruct (LogData_new_inj _ _ _ _ _ E2 F2) as [Et%(inj _) Ed%(Bytes_from_Hex_inj _ _ Hl Hk)].
  rewrite E1 in F1. rewrite E3 in F3. rewrite E4 in F4. apply (inj _) in F1, F3, F4.
  destruct l, k. simpl in *. f_equal; try congruence; apply nat256_option_inj; congruence.
Qed.
End LossLemmas.

(** *** From a block, a receipt, a fee history and a log *)

(** A block becomes an alloy block exactly when it has a transactions root, its numbers fit
    into 64 bits, and its difficulty is present before the Paris upgrade and zero or absent
    after it. Its numbers are kept, an absent difficulty is zero, and nothing else is lost: two
    blocks become the same alloy block only if they are the same but for the way a difficulty
    of zero is written. *)
Theorem block_into_alloy `{BigUintLaws} `{BigUintTryFromLaws} `{AlloyPrimitivesLaws}
    `{!AlloyResponseTypes, !AlloyResponseLaws} (b : Block) :
  ((exists a, Block_try_from b = Ok a) <-> block_convertible b) /\
  (forall a, Block_try_from b = Ok a ->
     let h := AlloyBlock.inner a in
     AlloyHeader.number h = nat256_0 (Block.number b) /\
     AlloyHeader.gas_limit h = nat256_0 (Block.gas_limit b) /\
     AlloyHeader.gas_used h = nat256_0 (Block.gas_used b) /\
     AlloyHeader.timestamp h = nat256_0 (Block.timestamp b) /\
     AlloyHeader.base_fee_per_gas h = option_map nat256_0 (Block.base_fee_per_gas b) /\
     nat256_0 (Nat256_from_alloy_U256 (AlloyHeader.difficulty h)) = difficulty_value b /\
     Hex32_from_B256 (AlloyBlock.hash a) = Block.hash b) /\
  (forall c a, is_bytes (Hex_0 (Block.extra_data b)) -> is_bytes (Hex_0 (Block.extra_data c)) ->
     Block_try_from b = Ok a -> Block_try_from c = Ok a -> same_block b c).
Proof.
  split_and!.
  - split.
    + intros (a & (Eh%Header_try_from_Ok & _)%Block_try_from_fields). apply Eh.
    + intros [h E]%Header_try_from_exists. unfold Block_try_from. rewrite E. simpl. by eexists.
  - intros a (Eh%Header_try_from_Ok & -> & _)%Block_try_from_fields.
    cbv zeta. rewrite Nat256_from_alloy_U256_value. split_and!; try apply Eh.
    unfold Hex32_from_B256, B256_from_Hex32. rewrite FixedBytes_0_from. by destruct (Block.hash b).
  - intros c a. apply Block_try_from_same.
Qed.

(** What a receipt says of the transaction: before the Byzantium upgrade the root of the state
    after it, and since then whether it succeeded. *)
Definition receipt_outcome `{BigUintCrate} (r : TransactionReceipt) : option (bool + Hex32) :=
  if nat256_0 (TransactionReceipt.block_number r) <? BYZANTIUM_BLOCK then
    option_map inr (TransactionReceipt.root r)
  else
    match option_map nat256_0 (TransactionReceipt.status r) with
    | Some 0 => Some (inl false)
    | Some 1 => Some (inl true)
    | _ => None
    end.
Definition receipt_convertible `{BigUintCrate} `{AlloyResponseTypes}
    (r : TransactionReceipt) : Prop :=
  (exists t, TxType_try_from_u8 (HexByte_into_byte (TransactionReceipt.tx_type r)) = Ok t) /\
  is_Some (receipt_outcome r) /\
  Forall (fits U64)
    [TransactionReceipt.cumulative_gas_used r; TransactionReceipt.transaction_index r;
     TransactionReceipt.block_number r; TransactionReceipt.gas_used r] /\
  fits U128 (TransactionReceipt.effective_gas_price r) /\
  Forall log_convertible (TransactionReceipt.logs r).

Section ReceiptLemmas.
Context `{BigUintLaws} `{BigUintTryFromLaws} `{AlloyPrimitivesLaws}.

Definition outcome_of (v : Eip658Value) : bool + Hex32 :=
  match v with
  | Eip658Value.Eip658 status => inl status
  | Eip658Value.PostState root => inr (Hex32_from_B256 root)
  end.

Lemma validate_receipt_status_Ok r v :
  validate_receipt_status (TransactionReceipt.block_number r) (TransactionReceipt.root r)
    (TransactionReceipt.status r) = Ok v <->
  receipt_outcome r = Some (outcome_of v).
Proof.
  unfold validate_receipt_status, receipt_outcome.
  destruct (nat256_0 (TransactionReceipt.block_number r) <? BYZANTIUM_BLOCK).
  - destruct (TransactionReceipt.root r) as [[root]|]; simpl; [|done].
    unfold outcome_of, Hex32_from_B256, B256_from_Hex32. split.
    + intros [= <-]. by rewrite FixedBytes_0_from.
    + destruct v as [status|b]; intros [= ->]. simpl. by rewrite FixedBytes_from_0.
  - destruct (TransactionReceipt.status r) as [s|]; simpl; [|done].
    pose proof (alloy_U256_is s alloy_U256_ZERO) as H0'.
    pose proof (alloy_U256_is s alloy_U256_ONE) as H1'.
    rewrite alloy_U256_ZERO_value in H0'. rewrite alloy_U256_ONE_value in H1'.
    case_decide as Hz; [|case_decide as Ho].
    + rewrite (proj1 H0' Hz). destruct v; simpl; naive_solver.
    + rewrite (proj1 H1' Ho). destruct v; simpl; naive_solver.
    + assert (nat256_0 s <> 0) by tauto. assert (nat256_0 s <> 1) by tauto.
      split; [done|]. destruct (nat256_0 s) as [|[p|p|]|p]; naive_solver.
Qed.
Lemma validate_receipt_status_exists r :
  (exists v, validate_receipt_status (TransactionReceipt.block_number r)
     (TransactionReceipt.root r) (TransactionReceipt.status r) = Ok v) <->
  is_Some (receipt_outcome r).
Proof.
  setoid_rewrite validate_receipt_status_Ok. split.
  - intros [v E]. by eexists.
  - intros [[b|[h]] E].
    + by exists (Eip658Value.Eip658 b).
    + exists (Eip658Value.PostState (FixedBytes_from h)). rewrite E. simpl.
      unfold Hex32_from_B256. by rewrite FixedBytes_0_from.
Qed.

Lemma logs_try_from_exists logs :
  (exists k, result_collect Log_try_from logs = Ok k) <-> Forall log_convertible logs.
Proof.
  setoid_rewrite result_collect_Ok. split.
  - intros [k Hk]. induction Hk as [|l a logs k E%Log_try_from_Ok Hk IH]; constructor; [|done].
    apply E.
  - induction 1 as [|l logs Hl Hlogs [k Hk]]; [by exists []|].
    destruct (Log_try_from_exists l Hl) as [a Ea]. exists (a :: k). by constructor.
Qed.
Lemma logs_try_from_same logs logs' k :
  Forall (fun l => is_bytes (Hex_0 (LogEntry.data l))) logs ->
  Forall (fun l => is_bytes (Hex_0 (LogEntry.data l))) logs' ->
  result_collect Log_try_from logs = Ok k -> result_collect Log_try_from logs' = Ok k ->
  logs = logs'.
Proof. apply result_collect_inj. intros. by eapply Log_try_from_same. Qed.

(** What a receipt needs, and the parts of its alloy receipt. *)
Lemma TransactionReceipt_try_from_Ok `{!AlloyResponseTypes, !AlloyReceiptTypes} r a :
  TransactionReceipt_try_from r = Ok a ->
  receipt_convertible r /\ exists t s logs,
    TxType_try_from_u8 (HexByte_into_byte (TransactionReceipt.tx_type r)) = Ok t /\
    receipt_outcome r = Some (outcome_of s) /\
    result_collect Log_try_from (TransactionReceipt.logs r) = Ok logs /\
    AlloyTransactionReceipt.inner a = ReceiptEnvelope_from_typed t {|
      AlloyReceipt.status := s;
      AlloyReceipt.cumulative_gas_used :=
        nat256_0 (TransactionReceipt.cumulative_gas_used r);
      AlloyReceipt.logs := logs;
      AlloyReceipt.logs_bloom := Bloom_from_Hex256 (TransactionReceipt.logs_bloom r) |} /\
    AlloyTransactionReceipt.transaction_index a =
      Some (nat256_0 (TransactionReceipt.transaction_index r)) /\
    AlloyTransactionReceipt.block_number a =
      Some (nat256_0 (TransactionReceipt.block_number r)) /\
    AlloyTransactionReceipt.gas_used a = nat256_0 (TransactionReceipt.gas_used r) /\
    AlloyTransactionReceipt.effective_gas_price a =
      nat256_0 (TransactionReceipt.effective_gas_price r).
Proof.
  intros E. unfold TransactionReceipt_try_from in E. destruct_results E. injection E as <-.
  repeat match goal with
  | E : try_from_nat256 _ _ _ = Ok _ |- _ => apply try_from_nat256_Ok in E as [-> ?]
  end.
  match goal with E : validate_receipt_status _ _ _ = Ok _ |- _ =>
    apply validate_receipt_status_Ok in E as Es end.
  match goal with E : TxType_try_from _ = Ok _ |- _ => rename E into Et end.
  assert (Et' : TxType_try_from_u8 (HexByte_into_byte (TransactionReceipt.tx_type r)) = Ok x).
  { unfold TxType_try_from in Et. destruct (TxType_try_from_u8 _); simpl in Et; congruence. }
  split; [|by repeat eexists].
  split_and!; [by eexists|by rewrite Es|by repeat constructor|done|].
  apply logs_try_from_exists. by eexists.
Qed.
(** What a receipt says beyond the outcome of its transaction. *)
Definition without_outcome (r : TransactionReceipt) : TransactionReceipt := {|
  TransactionReceipt.block_hash := TransactionReceipt.block_hash r;
  TransactionReceipt.block_number := TransactionReceipt.block_number r;
  TransactionReceipt.effective_gas_price := TransactionReceipt.effective_gas_price r;
  TransactionReceipt.gas_used := TransactionReceipt.gas_used r;
  TransactionReceipt.cumulative_gas_used := TransactionReceipt.cumulative_gas_used r;
  TransactionReceipt.status := None; TransactionReceipt.root := None;
  TransactionReceipt.transaction_hash := TransactionReceipt.transaction_hash r;
  TransactionReceipt.contract_address := TransactionReceipt.contract_address r;
  TransactionReceipt.from := TransactionReceipt.from r;
  TransactionReceipt.logs := TransactionReceipt.logs r;
  TransactionReceipt.logs_bloom := TransactionReceipt.logs_bloom r;
  TransactionReceipt.to := TransactionReceipt.to r;
  TransactionReceipt.transaction_index := TransactionReceipt.transaction_index r;
  TransactionReceipt.tx_type := TransactionReceipt.tx_type r |}.
(** The same receipt but for the member that does not tell the outcome of the transaction: the
    status before the Byzantium upgrade, and the root since then. *)
Definition same_receipt (r c : TransactionReceipt) : Prop :=
  without_outcome r = without_outcome c /\ receipt_outcome r = receipt_outcome c.

Definition receipt_bytes (r : TransactionReceipt) : Prop :=
  Forall (fun l => is_bytes (Hex_0 (LogEntry.data l))) (TransactionReceipt.logs r).

Lemma TransactionReceipt_try_from_fields `{!AlloyResponseTypes, !AlloyReceiptTypes} r a :
  TransactionReceipt_try_from r = Ok a ->
  AlloyTransactionReceipt.transaction_hash a =
    B256_from_Hex32 (TransactionReceipt.transaction_hash r) /\
  AlloyTransactionReceipt.block_hash a =
    Some (B256_from_Hex32 (TransactionReceipt.block_hash r)) /\
  AlloyTransactionReceipt.from a = Address_from_Hex20 (TransactionReceipt.from r) /\
  AlloyTransactionReceipt.to a = option_map Address_from_Hex20 (TransactionReceipt.to r) /\
  AlloyTransactionReceipt.contract_address a =
    option_map Address_from_Hex20 (TransactionReceipt.contract_address r).
Proof.
  intros E. unfold TransactionReceipt_try_from in E. destruct_results E. by injection E as <-.
Qed.

Lemma HexByte_into_byte_inj (x y : HexByte) :
  HexByte_into_byte x = HexByte_into_byte y -> x = y.
Proof.
  destruct x as [x], y as [y]. unfold HexByte_into_byte. cbn [HexByte_0]. intros E. f_equal.
  rewrite <- (Byte_from_into x (Byte_ok x)), <- (Byte_from_into y (Byte_ok y)).
  unfold Byte_from. f_equal. apply Bytes_eq. simpl. by rewrite E.
Qed.

Lemma TransactionReceipt_try_from_same `{!AlloyResponseTypes, !AlloyReceiptTypes}
    `{!AlloyReceiptLaws} r c a :
  receipt_bytes r -> receipt_bytes c ->
  TransactionReceipt_try_from r = Ok a -> TransactionReceipt_try_from c = Ok a ->
  same_receipt r c.
Proof.
  intros Hr Hc Er Ec.
  pose proof (TransactionReceipt_try_from_fields r a Er) as Fr.
  pose proof (TransactionReceipt_try_from_fields c a Ec) as Fc.
  apply TransactionReceipt_try_from_Ok in Er
    as (_ & t & st & logs & Et & Es & El & Ei & E1 & E2 & E3 & E4).
  apply TransactionReceipt_try_from_Ok in Ec
    as (_ & t' & st' & logs' & Et' & Es' & El' & Ei' & E1' & E2' & E3' & E4').
  rewrite Ei in Ei'. apply ReceiptEnvelope_from_typed_inj in Ei' as [<- Ex].
  injection Ex as Ex1 Ex2 Ex3 Ex4. subst st' logs'. apply (inj _) in Ex4.
  pose proof (HexByte_into_byte_inj _ _ (TxType_try_from_u8_inj _ _ _ Et Et')) as Ety.
  pose proof (logs_try_from_same _ _ _ Hr Hc El El') as Elogs.
  revert Fc. destruct Fr as (-> & -> & -> & -> & ->).
  intros (F1%(inj _) & [= F2%(inj _)] & F3%(inj _) & F4%(inj _) & F5%(inj _)).
  split; [|congruence]. unfold without_outcome.
  f_equal; try congruence; apply Nat256_eq; congruence.
Qed.
End ReceiptLemmas.

(** C30: a receipt becomes an alloy receipt exactly when its transaction type is known to alloy,
    its integers fit, its logs can be converted, and it has a root if its block precedes the
    Byzantium upgrade (whatever its status) and the status 0 or 1 otherwise (whatever its
    root). The alloy receipt says the same of the transaction and keeps all the numbers. *)
Theorem receipt_into_alloy `{BigUintLaws} `{BigUintTryFromLaws} `{AlloyPrimitivesLaws}
    `{!AlloyResponseTypes, !AlloyReceiptTypes} (r : TransactionReceipt) :
  ((exists a, TransactionReceipt_try_from r = Ok a) <-> receipt_convertible r) /\
  forall a, TransactionReceipt_try_from r = Ok a ->
    (exists t inner,
       AlloyTransactionReceipt.inner a = ReceiptEnvelope_from_typed t inner /\
       TxType_try_from_u8 (HexByte_into_byte (TransactionReceipt.tx_type r)) = Ok t /\
       receipt_outcome r = Some (outcome_of (AlloyReceipt.status inner)) /\
       AlloyReceipt.cumulative_gas_used inner =
         nat256_0 (TransactionReceipt.cumulative_gas_used r) /\
       Forall2 (fun l k => Log_try_from l = Ok k) (TransactionReceipt.logs r)
         (AlloyReceipt.logs inner)) /\
    AlloyTransactionReceipt.transaction_index a =
      Some (nat256_0 (TransactionReceipt.transaction_index r)) /\
    AlloyTransactionReceipt.block_number a =
      Some (nat256_0 (TransactionReceipt.block_number r)) /\
    AlloyTransactionReceipt.gas_used a = nat256_0 (TransactionReceipt.gas_used r) /\
    AlloyTransactionReceipt.effective_gas_price a =
      nat256_0 (TransactionReceipt.effective_gas_price r).
Proof.
  split; [split|].
  - intros [a Ea]. apply (TransactionReceipt_try_from_Ok _ _ Ea).
  - intros ((t & Et) & Hs & Hf & Hp & Hl). unfold TransactionReceipt_try_from, TxType_try_from.
    rewrite Et. apply validate_receipt_status_exists in Hs as [s ->].
    apply logs_try_from_exists in Hl as [k ->]. rewrite !Forall_cons in Hf. simpl.
    rewrite !try_from_nat256_fits by tauto. simpl. by eexists.
  - intros a (_ & t & s & logs & Et & Es & El%result_collect_Ok & -> & Hrest)
      %TransactionReceipt_try_from_Ok.
    split; [|done]. by repeat eexists.
Qed.

(** The fees of an alloy fee history are 128-bit integers and its oldest block a 64-bit one:
    the conversion succeeds exactly when all of them fit, with the same numbers and ratios.
    A log becomes an alloy log exactly when it has at most four topics and its numbers fit
    into 64 bits, and different logs become different alloy logs. *)
Theorem fees_and_logs_into_alloy `{BigUintLaws} `{BigUintTryFromLaws} `{AlloyPrimitivesLaws}
    (f : FeeHistory) (l : LogEntry) :
  (forall a, FeeHistory_try_from f = Ok a <->
     (Forall (fits U128) (FeeHistory.base_fee_per_gas f) /\
      fits U64 (FeeHistory.oldest_block f) /\
      Forall (Forall (fits U128)) (FeeHistory.reward f)) /\
     a = {| AlloyFeeHistory.base_fee_per_gas := map nat256_0 (FeeHistory.base_fee_per_gas f);
            AlloyFeeHistory.gas_used_ratio := FeeHistory.gas_used_ratio f;
            AlloyFeeHistory.base_fee_per_blob_gas := [];
            AlloyFeeHistory.blob_gas_used_ratio := [];
            AlloyFeeHistory.oldest_block := nat256_0 (FeeHistory.oldest_block f);
            AlloyFeeHistory.reward := Some (map (map nat256_0) (FeeHistory.reward f)) |}) /\
  ((exists a, Log_try_from l = Ok a) <-> log_convertible l) /\
  (forall k a, is_bytes (Hex_0 (LogEntry.data l)) -> is_bytes (Hex_0 (LogEntry.data k)) ->
     Log_try_from l = Ok a -> Log_try_from k = Ok a -> l = k).
Proof.
  split_and!.
  - intros a. split.
    + intros E. unfold FeeHistory_try_from in E. destruct_results E. injection E as <-.
      apply try_from_nat256_list_Ok in Ex as [-> ?].
      apply try_from_nat256_Ok in Ex0 as [-> ?].
      by apply try_from_nat256_matrix_Ok in Ex1 as [-> ?].
    + intros ((Hb & Ho & Hr) & ->). unfold FeeHistory_try_from.
      rewrite (proj2 (try_from_nat256_list_Ok _ _ _ _) (conj eq_refl Hb)). simpl.
      rewrite try_from_nat256_fits by done. simpl.
      by rewrite (proj2 (try_from_nat256_matrix_Ok _ _ _ _) (conj eq_refl Hr)).
  - split; [|apply Log_try_from_exists]. intros [a E]. apply (Log_try_from_Ok _ _ E).
  - intros k a. apply Log_try_from_same.
Qed.

(** *** Results of several providers *)

(** The answers of the providers: one for all of them, or one for each. *)
Definition answers {T} (r : MultiRpcResult T) : list (RpcResult T) :=
  match r with
  | Consistent result => [result]
  | Inconsistent results => map snd results
  end.

Lemma and_then_agreed {T R} `{PartialEqLaws R} (f : T -> RpcResult R) (r : MultiRpcResult T) a :
  multi_and_then f r = Consistent (Ok a) ->
  answers r <> [] /\ Forall (fun x => exists y, x = Ok y /\ f y = Ok a) (answers r).
Proof.
  destruct r as [x|v]; cbn [multi_and_then answers].
  - intros [= (y & -> & Ey)%result_and_then_Ok]. split; [done|]. constructor; [by eexists|done].
  - intros E. destruct (collapse_Inconsistent_inv
      (map (fun '(s, r) => (s, match r with Ok y => f y | Err e => Err e end)) v))
      as [(r & Hne & Hall & Ec)|[Ec _]]; rewrite Ec in E; [|done]. injection E as ->.
    split; [by destruct v|]. apply Forall_map in Hall. apply Forall_map.
    eapply Forall_impl; [exact Hall|]. intros [s [y|e]]; simpl; [eauto|done].
Qed.

(** Values that convert to the same one are all related to one of them. *)
Lemma agreed_values {T R} (f : T -> RpcResult R) (P : T -> Prop) (same : T -> T -> Prop)
    (l : list (RpcResult T)) a :
  (forall x y, P x -> P y -> f x = Ok a -> f y = Ok a -> same x y) ->
  l <> [] -> Forall (fun x => exists y, x = Ok y /\ f y = Ok a) l ->
  (forall x, Ok x ∈ l -> P x) ->
  exists x, f x = Ok a /\ Forall (fun r => exists y, r = Ok y /\ same x y) l.
Proof.
  intros Hf Hne Hl HP. destruct l as [|r0 l]; [done|]. clear Hne.
  pose proof Hl as Hl'. apply Forall_cons in Hl' as [(x & -> & Ex) _].
  exists x. split; [done|]. apply Forall_forall. intros r Hr.
  destruct (proj1 (Forall_forall _ _) Hl r Hr) as (y & -> & Ey). exists y. split; [done|].
  apply Hf; [| |done..]; apply HP; [apply list_elem_of_here|done].
Qed.

Lemma optional_receipt_same `{BigUintLaws} `{BigUintTryFromLaws} `{AlloyPrimitivesLaws}
    `{!AlloyResponseTypes, !AlloyReceiptTypes, !AlloyReceiptLaws} r c a :
  (forall x, r = Some x -> receipt_bytes x) -> (forall x, c = Some x -> receipt_bytes x) ->
  option_transpose (option_map TransactionReceipt_try_from r) = Ok (Some a) ->
  option_transpose (option_map TransactionReceipt_try_from c) = Ok (Some a) ->
  exists x y, r = Some x /\ c = Some y /\ same_receipt x y.
Proof.
  intros Hr Hc Er Ec. destruct r as [x|], c as [y|]; try done. simpl in Er, Ec.
  destruct (TransactionReceipt_try_from x) eqn:Ex; [|done].
  destruct (TransactionReceipt_try_from y) eqn:Ey; [|done].
  injection Er as ->. injection Ec as ->. exists x, y. split_and!; [done..|].
  eapply TransactionReceipt_try_from_same; [by apply Hr|by apply Hc|done..].
Qed.

(** Bytes are bytes in all the answers. *)
Definition bytes_in_answers {T} (data : T -> list Hex) (l : list (RpcResult T)) : Prop :=
  forall x, Ok x ∈ l -> Forall (fun h => is_bytes (Hex_0 h)) (data x).

(** C29: the conversions of the results of several providers to alloy types never make up an
    agreement, but for what alloy types cannot show. When the converted result is a consistent
    value, every provider had answered with a value that converts to it, and these answers were
    the same for logs, transaction counts, the data of calls and transaction hashes. For blocks
    they were the same but for the way a difficulty of zero is written, and for receipts, or
    their absence, the same but for the root of a block since the Byzantium upgrade and the
    status of one before it, which alloy receipts do not hold: a disagreement about these alone
    is lost. The data of logs, blocks and calls is made of bytes, as its type says; the sixth
    conversion, of fee histories, is left out, since its results are compared as floating-point
    numbers. *)
Theorem conversion_keeps_disagreement `{BigUintLaws} `{BigUintTryFromLaws}
    `{AlloyPrimitivesLaws} `{!AlloyResponseTypes, !AlloyResponseLaws}
    `{!AlloyReceiptTypes, !AlloyReceiptLaws}
    `{PartialEqLaws (list AlloyLog)} `{PartialEqLaws AlloyBlock} `{PartialEqLaws alloy_U256}
    `{PartialEqLaws alloy_Bytes} `{PartialEqLaws alloy_B256}
    `{PartialEqLaws (option AlloyTransactionReceipt)}
    (logs : MultiRpcResult (list LogEntry)) (block : MultiRpcResult Block)
    (count : MultiRpcResult Nat256) (data : MultiRpcResult Hex)
    (status : MultiRpcResult SendRawTransactionStatus)
    (receipt : MultiRpcResult (option TransactionReceipt)) :
  (forall a, bytes_in_answers (map LogEntry.data) (answers logs) ->
     results_into_logs logs = Consistent (Ok a) ->
     exists l, result_collect Log_try_from l = Ok a /\ Forall (fun r => r = Ok l) (answers logs)) /\
  (forall a, bytes_in_answers (fun b => [Block.extra_data b]) (answers block) ->
     results_into_block block = Consistent (Ok a) ->
     exists b, Block_try_from b = Ok a /\
       Forall (fun r => exists c, r = Ok c /\ same_block b c) (answers block)) /\
  (forall a, results_into_u256 count = Consistent (Ok a) ->
     Forall (fun r => r = Ok (Nat256_from_alloy_U256 a)) (answers count)) /\
  (forall a, bytes_in_answers (fun h => [h]) (answers data) ->
     results_into_bytes data = Consistent (Ok a) ->
     Forall (fun r => r = Ok (Hex_from_Bytes a)) (answers data)) /\
  (forall a, results_into_b256 status = Consistent (Ok a) ->
     Forall (fun r => r = Ok (SendRawTransactionStatus.Ok (Some (Hex32_from_B256 a))))
       (answers status)) /\
  (results_into_receipt receipt = Consistent (Ok None) ->
     Forall (fun r => r = Ok None) (answers receipt)) /\
  (forall a, bytes_in_answers (fun r => match r with
       | Some r => map LogEntry.data (TransactionReceipt.logs r)
       | None => []
       end) (answers receipt) ->
     results_into_receipt receipt = Consistent (Ok (Some a)) ->
     exists r, TransactionReceipt_try_from r = Ok a /\
       Forall (fun x => exists c, x = Ok (Some c) /\ same_receipt r c) (answers receipt)).
Proof.
  split_and!.
  - intros a Hb [Hne Hl]%and_then_agreed.
    destruct (agreed_values _ (fun l => Forall (fun h => is_bytes (Hex_0 (LogEntry.data h))) l)
      eq _ _ (fun x y Hx Hy => logs_try_from_same x y a Hx Hy) Hne Hl) as (l & El & Hall).
    { intros x Hx. exact (proj1 (Forall_map _ _ _) (Hb x Hx)). }
    exists l. split; [done|]. eapply Forall_impl; [exact Hall|]. by intros r (y & -> & <-).
  - intros a Hb [Hne Hl]%and_then_agreed.
    apply (agreed_values _ (fun b => is_bytes (Hex_0 (Block.extra_data b))) same_block _ _
      (fun x y Hx Hy => Block_try_from_same x y a Hx Hy) Hne Hl).
    intros x Hx. exact (proj1 (Forall_singleton _ _) (Hb x Hx)).
  - intros a. unfold results_into_u256. rewrite map_is_and_then. intros [_ Hl]%and_then_agreed.
    eapply Forall_impl; [exact Hl|]. intros r (n & -> & [= <-]). f_equal. apply Nat256_eq.
    by rewrite Nat256_from_alloy_U256_value, alloy_U256_from_Nat256_value.
  - intros a Hb. unfold results_into_bytes. rewrite map_is_and_then. intros [_ Hl]%and_then_agreed.
    rewrite Forall_forall in Hl |- *. intros r Hr. destruct (Hl r Hr) as (h & -> & [= <-]).
    pose proof (proj1 (Forall_singleton _ _) (Hb h Hr)) as Hh. destruct h as [h].
    unfold Hex_from_Bytes, Bytes_from_Hex.
    simpl in *. by rewrite Bytes_to_vec_from.
  - intros a [_ Hl]%and_then_agreed. eapply Forall_impl; [exact Hl|].
    intros r (s & -> & Es). destruct s as [[h|]| | |]; simpl in Es; try done.
    injection Es as <-. unfold Hex32_from_B256, B256_from_Hex32. rewrite FixedBytes_0_from.
    by destruct h.
  - intros [_ Hl]%and_then_agreed. eapply Forall_impl; [exact Hl|].
    intros x ([r|] & -> & E); [|done]. simpl in E. by destruct (TransactionReceipt_try_from r).
  - intros a Hb [Hne Hl]%and_then_agreed.
    destruct (agreed_values _ (fun r => forall c, r = Some c -> receipt_bytes c)
      (fun r c => exists x y, r = Some x /\ c = Some y /\ same_receipt x y) _ (Some a)
      (fun r c => optional_receipt_same r c a) Hne Hl) as (r & Er & Hall).
    { intros x Hx c ->. exact (proj1 (Forall_map _ _ _) (Hb _ Hx)). }
    destruct r as [r|]; [|done]. simpl in Er. exists r. split.
    { destruct (TransactionReceipt_try_from r); [|done]. by injection Er as ->. }
    eapply Forall_impl; [exact Hall|]. intros x (y & -> & x' & c & [= <-] & -> & Hs). by exists c.
Qed.

(** ** Witnesses *)

(** Concrete functions for the parameters, with proofs of their laws: arrays of bytes, and
    numbers as their big-endian bytes. *)
Module Concrete.
Lemma be_value_fits (b : Bytes 8) : uint_ok 64 (be_value (`b)) = true.
Proof.
  destruct b as [b H]. simpl. apply bytes_ok_spec in H as [Hl Hb].
  pose proof (Instances.be_value_bound b Hb) as Hv. rewrite Hl in Hv.
  unfold uint_ok. change (256 ^ Z.of_nat 8) with (2 ^ 64) in Hv. lia.
Qed.

Definition b64_of_u64 (v : Uint 64) : Bytes 8 :=
  Bytes_make (rev (Instances.le_bytes 8 (proj1_sig v))) (Instances.le_bytes_ok 8 _).
Definition u64_of_b64 (b : Bytes 8) : Uint 64 := exist _ (be_value (proj1_sig b)) (be_value_fits b).
Lemma u64_of_b64_of_u64 v : u64_of_b64 (b64_of_u64 v) = v.
Proof. apply Uint_eq. exact (Instances.le_bytes_value 8 _ (uint_in_range v)). Qed.
Lemma b64_of_u64_of_b64 b : b64_of_u64 (u64_of_b64 b) = b.
Proof.
  apply Bytes_value_inj. exact (Instances.le_bytes_value 8 _ (uint_in_range (u64_of_b64 b))).
Qed.

#[export] Instance alloy_primitives : AlloyPrimitives := {
  alloy_Address := Bytes 20;
  Address_from b := b;
  Address_into_array b := b;
  alloy_FixedBytes := Bytes;
  FixedBytes_from n b := b;
  FixedBytes_0 n b := b;
  FixedBytes_to_vec n b := proj1_sig b;
  B64_from_u64 := b64_of_u64;
  u64_from_B64 := u64_of_b64;
  alloy_Bytes := list byte;
  Bytes_from_iter l := l;
  Bytes_to_vec l := l;
  alloy_U256 := Bytes 32;
  alloy_U256_from_be_bytes b := b;
  alloy_U256_to_be_bytes b := b;
  alloy_U256_ZERO := Bytes_make (rev (Instances.le_bytes 32 0)) (Instances.le_bytes_ok 32 0);
  alloy_U256_ONE := Bytes_make (rev (Instances.le_bytes 32 1)) (Instances.le_bytes_ok 32 1);
  alloy_Bloom := Bytes 256;
  Bloom_from b := b;
  Bloom_into_array b := b;
  alloy_LogData := list (Bytes 32) * list byte;
  LogData_new topics data := if (length topics <=? 4)%nat then Some (topics, data) else None;
}.
#[export] Instance alloy_primitives_laws : AlloyPrimitivesLaws.
Proof.
  split; try done.
  - apply u64_of_b64_of_u64.
  - apply b64_of_u64_of_b64.
  - intros topics data. change (list (Bytes 32)) in topics. simpl.
    destruct (Nat.leb_spec (length topics) 4); split; intros; simplify_eq;
      done || lia.
  - intros t d t' d' l. simpl. do 2 case_match; naive_solver.
Qed.
#[export] Instance biguint_try_from : BigUintTryFrom := fun t n =>
  if n <? 2 ^ int_bits t then Ok n else Err "TryFromBigIntError { original: () }".
#[export] Instance biguint_try_from_laws : BigUintTryFromLaws.
Proof.
  intros t n z Hn. unfold biguint_try_into, biguint_try_from.
  destruct (Z.ltb_spec n (2 ^ int_bits t)); split; try done; intros; simplify_eq; try lia;
    naive_solver lia.
Qed.
(** The input of a request: [input] and [data]. *)
#[export] Instance alloy_request_types : AlloyRequestTypes := {
  TransactionInput := option (list byte) * option (list byte);
  try_into_unique_input i :=
    match i with
    | (Some x, Some y) => if decide (x = y) then Ok (Some x) else Err "input and data differ"
    | (Some x, None) | (None, Some x) => Ok (Some x)
    | (None, None) => Ok None
    end;
  BYTES_PER_BLOB := 4;
}.
#[export] Instance alloy_response_types : AlloyResponseTypes := {
  BlockTransactions := list (Bytes 32);
  BlockTransactions_Hashes l := l;
  Withdrawals := unit;
  TxType := Z;
  TxType_try_from_u8 v := if v <=? 4 then Ok v else Err "Eip2718Error";
}.
#[export] Instance alloy_response_laws : AlloyResponseLaws.
Proof. intros l k E. exact E. Qed.
#[export] Instance alloy_receipt_types : AlloyReceiptTypes := {
  ReceiptEnvelope := Z * AlloyReceipt.ReceiptWithBloom;
  ReceiptEnvelope_from_typed t r := (t, r);
}.
#[export] Instance alloy_receipt_laws : AlloyReceiptLaws.
Proof.
  split.
  - intros v w t. cbn. destruct (v <=? 4), (w <=? 4); congruence.
  - intros t x t' x' E. cbn in E. by injection E.
Qed.

(** Their equality is decidable. *)
#[export] Instance address_eq_dec : EqDecision alloy_Address := Bytes_eq_dec 20.
#[export] Instance fixed_bytes_eq_dec n : EqDecision (alloy_FixedBytes n) := Bytes_eq_dec n.
#[export] Instance bytes_eq_dec : EqDecision alloy_Bytes.
Proof. intros x y. apply (decide_rel (A := list byte) (B := list byte) (=)). Defined.
#[export] Instance bloom_eq_dec : EqDecision alloy_Bloom := Bytes_eq_dec 256.
#[export] Instance log_data_eq_dec : EqDecision alloy_LogData.
Proof.
  intros x y. apply (decide_rel (A := list (Bytes 32) * list byte)
    (B := list (Bytes 32) * list byte) (=)).
Defined.
#[export] Instance transactions_eq_dec : EqDecision BlockTransactions.
Proof. intros x y. apply (decide_rel (A := list (Bytes 32)) (B := list (Bytes 32)) (=)). Defined.
#[export] Instance withdrawals_eq_dec : EqDecision Withdrawals := unit_eq_dec.
#[export] Instance log_eq_dec : EqDecision AlloyLog.
Proof. solve_decision. Defined.
#[export] Instance header_eq_dec : EqDecision AlloyHeader.
Proof. solve_decision. Defined.
#[export] Instance block_eq_dec : EqDecision AlloyBlock.
Proof. solve_decision. Defined.
#[export] Instance envelope_eq_dec : EqDecision ReceiptEnvelope.
Proof.
  assert (EqDecision Eip658Value) by solve_decision.
  assert (EqDecision AlloyReceipt.ReceiptWithBloom) by solve_decision.
  intros x y. apply (decide_rel (A := Z * AlloyReceipt.ReceiptWithBloom)
    (B := Z * AlloyReceipt.ReceiptWithBloom) (=)).
Defined.
#[export] Instance receipt_eq_dec : EqDecision AlloyTransactionReceipt.
Proof. solve_decision. Defined.
End Concrete.

Section Witnesses.
Import Instances.Concrete Concrete.

Definition nat_of (z : Z) (H : Nat256_fits z = true) : Nat256 :=
  {| nat256_0 := z; nat256_fits := H |}.
Definition hash_of (z : Z) : Hex32 :=
  {| Hex32_0 := Bytes_make (rev (Instances.le_bytes 32 z)) (Instances.le_bytes_ok 32 z) |}.
Definition account_of (z : Z) : Hex20 :=
  {| Hex20_0 := Bytes_make (rev (Instances.le_bytes 20 z)) (Instances.le_bytes_ok 20 z) |}.
Definition no_bloom : Hex256 :=
  {| Hex256_0 := Bytes_make (rev (Instances.le_bytes 256 0)) (Instances.le_bytes_ok 256 0) |}.
Definition five : Nat256 := nat_of 5 eq_refl.
Definition late : Nat256 := nat_of 20000000 eq_refl.

(** A block after the Paris upgrade, without a difficulty. *)
Definition late_block : Block := {|
  Block.base_fee_per_gas := Some five; Block.number := late; Block.difficulty := None;
  Block.extra_data := {| Hex_0 := [1; 2] |}; Block.gas_limit := five; Block.gas_used := five;
  Block.hash := hash_of 9; Block.logs_bloom := no_bloom; Block.miner := account_of 7;
  Block.mix_hash := hash_of 1; Block.nonce := five; Block.parent_hash := hash_of 8;
  Block.receipts_root := hash_of 2; Block.sha3_uncles := hash_of 3; Block.size := five;
  Block.state_root := hash_of 4; Block.timestamp := five; Block.total_difficulty := None;
  Block.transactions := [hash_of 5]; Block.transactions_root := Some (hash_of 6);
  Block.uncles := []
|}.
(** A receipt of a transaction in that block, which succeeded. *)
Definition late_receipt : TransactionReceipt := {|
  TransactionReceipt.block_hash := hash_of 9; TransactionReceipt.block_number := late;
  TransactionReceipt.effective_gas_price := five; TransactionReceipt.gas_used := five;
  TransactionReceipt.cumulative_gas_used := five;
  TransactionReceipt.status := Some (nat_of 1 eq_refl); TransactionReceipt.root := None;
  TransactionReceipt.transaction_hash := hash_of 5; TransactionReceipt.contract_address := None;
  TransactionReceipt.from := account_of 7; TransactionReceipt.logs := [];
  TransactionReceipt.logs_bloom := no_bloom; TransactionReceipt.to := Some (account_of 8);
  TransactionReceipt.transaction_index := five;
  TransactionReceipt.tx_type := HexByte_from 2 eq_refl
|}.
Definition some_fees : FeeHistory := {|
  FeeHistory.oldest_block := late; FeeHistory.base_fee_per_gas := [five; five];
  FeeHistory.gas_used_ratio := [0]; FeeHistory.reward := [[five]]
|}.
Definition some_log : LogEntry := {|
  LogEntry.address := account_of 7; LogEntry.topics := [hash_of 1; hash_of 2];
  LogEntry.data := {| Hex_0 := [1; 2; 3] |}; LogEntry.block_number := Some late;
  LogEntry.transaction_hash := None; LogEntry.transaction_index := Some five;
  LogEntry.block_hash := None; LogEntry.log_index := None; LogEntry.removed := false
|}.

Definition uint_of (bits z : Z) (H : uint_ok bits z = true) : Uint bits := exist _ z H.

Lemma alloy_primitives_roundtrip_witness :
  Nat256_from_alloy_U256 (alloy_U256_from_Nat256 late) = late /\
  Hex_from_Bytes (Bytes_from_Hex {| Hex_0 := [1; 2] |}) = {| Hex_0 := [1; 2] |}.
Proof.
  pose proof (alloy_primitives_roundtrip (account_of 1) (Address_from_Hex20 (account_of 1))
    (hash_of 1) (B256_from_Hex32 (hash_of 1)) {| Hex_0 := [1; 2] |}
    (Bytes_from_Hex {| Hex_0 := [1; 2] |}) late (alloy_U256_from_Nat256 late) no_bloom
    (Bloom_from_Hex256 no_bloom) (B64_from_u64 (uint_of 64 5 eq_refl)))
    as (_ & _ & _ & _ & Hb & _ & Hn & _).
  split; [exact Hn|]. apply Hb. apply (bool_decide_unpack _). by vm_compute.
Defined.

(** A request to create a contract, with its code as [data]. *)
Definition creation : AlloyTransactionRequest.TransactionRequest := {|
  AlloyTransactionRequest.transaction_type := Some (uint_of 8 2 eq_refl);
  AlloyTransactionRequest.nonce := Some (uint_of 64 5 eq_refl);
  AlloyTransactionRequest.to := Some TxKind.Create; AlloyTransactionRequest.from := None;
  AlloyTransactionRequest.gas := None; AlloyTransactionRequest.value := None;
  AlloyTransactionRequest.input := (None, Some [1; 2]) : option (list byte) * option (list byte);
  AlloyTransactionRequest.gas_price := None;
  AlloyTransactionRequest.max_priority_fee_per_gas := None;
  AlloyTransactionRequest.max_fee_per_gas := None;
  AlloyTransactionRequest.max_fee_per_blob_gas := None;
  AlloyTransactionRequest.access_list := None;
  AlloyTransactionRequest.blob_versioned_hashes := None;
  AlloyTransactionRequest.sidecar_blobs := None; AlloyTransactionRequest.chain_id := None
|}.

Lemma requests_from_alloy_witness :
  (exists t, BlockNumberOrTag_try_from (BlockTag.Number late) = Ok t) /\
  exists r, TransactionRequest_try_from creation = Ok r /\
    CallArgs_try_from creation = Ok {| CallArgs.transaction := r; CallArgs.block := None |}.
Proof.
  split.
  - apply (requests_from_alloy (BlockTag.Number late) creation creation).
    intros n [= <-]. reflexivity.
  - eexists. split; [reflexivity|].
    apply (requests_from_alloy (BlockTag.Number late) creation creation). reflexivity.
Defined.

Lemma block_into_alloy_witness :
  (exists a, Block_try_from late_block = Ok a) /\
  forall a, Block_try_from late_block = Ok a ->
    AlloyHeader.number (AlloyBlock.inner a) = 20000000.
Proof.
  split.
  - apply block_into_alloy. split_and!; [by eexists|reflexivity| |reflexivity].
    repeat constructor.
  - intros a Ea. exact (proj1 (proj1 (proj2 (block_into_alloy late_block)) a Ea)).
Defined.

Lemma receipt_into_alloy_witness :
  (exists a, TransactionReceipt_try_from late_receipt = Ok a) /\
  forall a, TransactionReceipt_try_from late_receipt = Ok a ->
    AlloyTransactionReceipt.gas_used a = 5.
Proof.
  split.
  - apply receipt_into_alloy. split_and!; [by exists 2|by eexists| |reflexivity|constructor].
    repeat constructor.
  - intros a Ea. by apply (proj2 (receipt_into_alloy late_receipt)) in Ea as (_ & _ & _ & -> & _).
Defined.

Lemma fees_and_logs_into_alloy_witness :
  (exists a, FeeHistory_try_from some_fees = Ok a) /\ exists a, Log_try_from some_log = Ok a.
Proof.
  split.
  - eexists. apply (fees_and_logs_into_alloy some_fees some_log).
    split; [|reflexivity]. split_and!; repeat constructor.
  - apply (fees_and_logs_into_alloy some_fees some_log).
    split_and!; [simpl; lia|reflexivity..|exact I].
Defined.

#[local] Instance structural_peq {T} `{EqDecision T} : PartialEq T | 100 := PartialEq_dec.
#[local] Instance structural_peq_laws {T} `{EqDecision T} : PartialEqLaws T | 100 :=
  PartialEq_dec_laws.
(** Two providers that disagree on the root of a late receipt: alloy shows no difference. *)
Definition rooted_receipt : TransactionReceipt := {|
  TransactionReceipt.block_hash := hash_of 9; TransactionReceipt.block_number := late;
  TransactionReceipt.effective_gas_price := five; TransactionReceipt.gas_used := five;
  TransactionReceipt.cumulative_gas_used := five;
  TransactionReceipt.status := Some (nat_of 1 eq_refl);
  TransactionReceipt.root := Some (hash_of 3);
  TransactionReceipt.transaction_hash := hash_of 5; TransactionReceipt.contract_address := None;
  TransactionReceipt.from := account_of 7; TransactionReceipt.logs := [];
  TransactionReceipt.logs_bloom := no_bloom; TransactionReceipt.to := Some (account_of 8);
  TransactionReceipt.transaction_index := five;
  TransactionReceipt.tx_type := HexByte_from 2 eq_refl
|}.
Definition rooted_receipts : MultiRpcResult (option TransactionReceipt) := Inconsistent
  [(RpcService.Provider 1, Ok (Some late_receipt));
   (RpcService.Provider 2, Ok (Some rooted_receipt))].

Definition agreed (r : MultiRpcResult (option TransactionReceipt)) : bool :=
  match results_into_receipt r with Consistent (Ok (Some _)) => true | _ => false end.

Lemma conversion_keeps_disagreement_witness :
  (exists v, results_into_u256 (Inconsistent
    [(RpcService.Provider 1, Ok five); (RpcService.Provider 2, Ok five)]) = Consistent (Ok v) /\
    Forall (fun r : RpcResult Nat256 => r = Ok (Nat256_from_alloy_U256 v)) [Ok five; Ok five]) /\
  exists a r, results_into_receipt rooted_receipts = Consistent (Ok (Some a)) /\
    Forall (fun x => exists c, x = Ok (Some c) /\ same_receipt r c) (answers rooted_receipts).
Proof.
  destruct (conversion_keeps_disagreement (Consistent (Ok []))
    (Consistent (Ok late_block))
    (Inconsistent [(RpcService.Provider 1, Ok five); (RpcService.Provider 2, Ok five)])
    (Consistent (Ok {| Hex_0 := [] |})) (Consistent (Ok SendRawTransactionStatus.NonceTooLow))
    rooted_receipts) as (_ & _ & Hcount & _ & _ & _ & Hreceipt).
  split; [eexists; split; [reflexivity|by apply Hcount]|].
  assert (agreed rooted_receipts = true) as Hc by (vm_compute; reflexivity).
  unfold agreed in Hc.
  destruct (results_into_receipt rooted_receipts) as [[[a|]|e]|l] eqn:E; try discriminate Hc.
  destruct (Hreceipt a) as (r & _ & Hr); [|reflexivity|].
  - intros x Hx. cbn in Hx. repeat (apply elem_of_cons in Hx as [[= ->]|Hx]); [constructor..|].
    exfalso. exact (not_elem_of_nil _ Hx).
  - exists a, r. split; [reflexivity|exact Hr].
Defined.
End Witnesses.
