(* ===== verification/ClientLibrary.v ===== *)
(** The client library ([evm_rpc_client/src]): the builders of a client and of its requests,
    the runtimes that make the calls to the canister, and the stub runtime of unit tests. *)

From S2P Require Import Prelude Collections EvmRpcTypes MultiRpcResult Externals.
From S2P Require Import Numbers Hex CandidTypes Alloy.
From S2P Require Instances.
Open Scope Z_scope.
Open Scope canister_scope.

(** ** Parameters: Candid encoding and the calls of [ic_cdk] *)

Class CandidType (T : Type) := {
  candid_encode : T -> Result (list byte) string;
  candid_decode : list byte -> Result T string;
}.
Class CandidLaws (T : Type) `{CandidType T} := candid_decode_encode (t : T) bytes :
  candid_encode t = Ok bytes -> candid_decode bytes = Ok t.

(** [ic_cdk::api::call::RejectionCode]. *)
Module IcCdkRejectionCode.
Inductive IcCdkRejectionCode :=
| NoError | SysFatal | SysTransient | DestinationInvalid | CanisterReject | CanisterError
| Unknown.
End IcCdkRejectionCode.
Abbreviation IcCdkRejectionCode := IcCdkRejectionCode.IcCdkRejectionCode.

(** How the Internet Computer answers a call: [call_with_payment128] and [call]. *)
Class IcCdk := {
  call_with_payment128 {In Out : Type} :
    Principal -> string -> In -> u128 -> Result Out (IcCdkRejectionCode * string);
  ic_call {In Out : Type} :
    Principal -> string -> In -> Result Out (IcCdkRejectionCode * string);
}.

(** [Into]. *)
Class Into (A B : Type) := into : A -> B.

(** The conversions of Alloy.v: the results that a client gets, and the parts of requests. *)
Section AlloyConversions.
Context `{BigUintLaws} `{BigUintTryFrom} `{AlloyReceiptTypes}.
#[export] Instance Into_logs `{PartialEq (list AlloyLog)} :
  Into (MultiRpcResult (list LogEntry)) (MultiRpcResult (list AlloyLog)) := results_into_logs.
#[export] Instance Into_block `{PartialEq AlloyBlock} :
  Into (MultiRpcResult CandidTypes.Block) (MultiRpcResult AlloyBlock) := results_into_block.
#[export] Instance Into_fee_history `{PartialEq AlloyFeeHistory} :
  Into (MultiRpcResult CandidTypes.FeeHistory) (MultiRpcResult AlloyFeeHistory) :=
  results_into_fee_history.
#[export] Instance Into_count `{PartialEq alloy_U256} :
  Into (MultiRpcResult Nat256) (MultiRpcResult alloy_U256) := results_into_u256.
#[export] Instance Into_data `{PartialEq alloy_Bytes} :
  Into (MultiRpcResult Hex) (MultiRpcResult alloy_Bytes) := results_into_bytes.
#[export] Instance Into_hash `{PartialEq alloy_B256} :
  Into (MultiRpcResult SendRawTransactionStatus) (MultiRpcResult alloy_B256) :=
  results_into_b256.
#[export] Instance Into_receipt `{PartialEq (option AlloyTransactionReceipt)} :
  Into (MultiRpcResult (option CandidTypes.TransactionReceipt))
    (MultiRpcResult (option AlloyTransactionReceipt)) := results_into_receipt.
#[export] Instance Into_address : Into alloy_Address Hex20 := Hex20_from_Address.
#[export] Instance Into_topic : Into alloy_B256 Hex32 := Hex32_from_B256.
#[export] Instance Into_tag : Into BlockNumberOrTag CandidTypes.BlockTag :=
  BlockTag_from_BlockNumberOrTag.
#[export] Instance Into_get_logs {S} `{Into S Hex20} : Into (list S) GetLogsArgs :=
  GetLogsArgs_from_addresses into.
End AlloyConversions.

(** ** Runtimes ([runtime/mod.rs]) *)

Class Runtime (R : Type) := {
  update_call {In Out : Type} `{CandidType Out} :
    R -> Principal -> string -> In -> u128 -> Outcome (Result Out (RejectCode * string));
  query_call {In Out : Type} `{CandidType Out} :
    R -> Principal -> string -> In -> Outcome (Result Out (RejectCode * string));
}.

Definition convert_reject_code (code : IcCdkRejectionCode) : Outcome RejectCode :=
  match code with
  | IcCdkRejectionCode.SysFatal => Return RejectCode.SysFatal
  | IcCdkRejectionCode.SysTransient => Return RejectCode.SysTransient
  | IcCdkRejectionCode.DestinationInvalid => Return RejectCode.DestinationInvalid
  | IcCdkRejectionCode.CanisterReject => Return RejectCode.CanisterReject
  | IcCdkRejectionCode.CanisterError => Return RejectCode.CanisterError
  | IcCdkRejectionCode.Unknown => Return RejectCode.SysFatal
  | IcCdkRejectionCode.NoError =>
      Panic ("internal error: entered unreachable code: " +:+
        "inter-canister calls should never produce a RejectionCode::NoError error")
  end.

(** [.map_err(|(code, message)| (convert_reject_code(code), message))]. *)
Definition convert_rejection {Out} (r : Result Out (IcCdkRejectionCode * string)) :
    Outcome (Result Out (RejectCode * string)) :=
  match r with
  | Ok out => Return (Ok out)
  | Err (code, message) => code ← convert_reject_code code; Return (Err (code, message))
  end.

Inductive IcRuntime := IcRuntime_.
#[export] Instance Runtime_IcRuntime `{IcCdk} : Runtime IcRuntime := {
  update_call In Out _ self id method args cycles :=
    convert_rejection (call_with_payment128 id method args cycles);
  query_call In Out _ self id method args := convert_rejection (ic_call id method args);
}.

(** ** The client and its builder ([lib.rs]) *)

Definition EVM_RPC_CANISTER : Principal := [0; 0; 0; 0; 2; 48; 0; 204; 1; 1].

Section Client.
Context {R : Type}.

Record ClientConfig := {
  runtime : R;
  evm_rpc_canister : Principal;
  rpc_config : option RpcConfig;
  rpc_services : RpcServices;
}.
(** The configuration is shared by the clones of a client, and never changes. *)
Record EvmRpcClient := { client_config : ClientConfig }.
Record ClientBuilder := { builder_config : ClientConfig }.

Definition ClientBuilder_new (runtime : R) (evm_rpc_canister : Principal) : ClientBuilder :=
  {| builder_config := {|
       runtime := runtime; evm_rpc_canister := evm_rpc_canister; rpc_config := None;
       rpc_services := RpcServices.EthMainnet None |} |}.
Definition EvmRpcClient_builder : R -> Principal -> ClientBuilder := ClientBuilder_new.

Definition with_rpc_sources (rpc_services : RpcServices) (self : ClientBuilder) :
  ClientBuilder :=
  let c := builder_config self in
  {| builder_config := {|
       runtime := runtime c; evm_rpc_canister := evm_rpc_canister c;
       rpc_config := rpc_config c; rpc_services := rpc_services |} |}.

(** [self.config.rpc_config = Some(..)]. *)
Definition set_rpc_config (rpc_config : RpcConfig) (self : ClientBuilder) : ClientBuilder :=
  let c := builder_config self in
  {| builder_config := {|
       runtime := runtime c; evm_rpc_canister := evm_rpc_canister c;
       rpc_config := Some rpc_config; rpc_services := rpc_services c |} |}.
Definition with_rpc_config (rpc_config : RpcConfig) (self : ClientBuilder) : ClientBuilder :=
  set_rpc_config rpc_config self.

Definition with_consensus_strategy (consensus_strategy : ConsensusStrategy)
    (self : ClientBuilder) : ClientBuilder :=
  let old := default RpcConfig_default (rpc_config (builder_config self)) in
  set_rpc_config {| response_consensus := Some consensus_strategy;
                    response_size_estimate := response_size_estimate old |} self.
Definition with_response_size_estimate (response_size_estimate : u64)
    (self : ClientBuilder) : ClientBuilder :=
  let old := default RpcConfig_default (rpc_config (builder_config self)) in
  set_rpc_config {| response_size_estimate := Some response_size_estimate;
                    response_consensus := response_consensus old |} self.
Definition build (self : ClientBuilder) : EvmRpcClient :=
  {| client_config := builder_config self |}.
End Client.
Arguments ClientConfig R : clear implicits.
Arguments EvmRpcClient R : clear implicits.
Arguments ClientBuilder R : clear implicits.

Definition builder_for_ic : ClientBuilder IcRuntime :=
  ClientBuilder_new IcRuntime_ EVM_RPC_CANISTER.

Definition with_runtime {R S} (other_runtime : R -> S) (self : ClientBuilder R) :
  ClientBuilder S :=
  let c := builder_config self in
  {| builder_config := {|
       runtime := other_runtime (runtime c); evm_rpc_canister := evm_rpc_canister c;
       rpc_config := rpc_config c; rpc_services := rpc_services c |} |}.

(** ** Requests ([request/mod.rs]) *)

Module EvmRpcEndpoint.
Inductive EvmRpcEndpoint :=
| Call | FeeHistory | GetBlockByNumber | GetLogs | GetTransactionCount | GetTransactionReceipt
| SendRawTransaction.
#[global] Instance eq_dec : EqDecision EvmRpcEndpoint.
Proof. solve_decision. Defined.
Definition rpc_method (self : EvmRpcEndpoint) : string :=
  match self with
  | Call => "eth_call"
  | FeeHistory => "eth_feeHistory"
  | GetBlockByNumber => "eth_getBlockByNumber"
  | GetLogs => "eth_getLogs"
  | GetTransactionCount => "eth_getTransactionCount"
  | GetTransactionReceipt => "eth_getTransactionReceipt"
  | SendRawTransaction => "eth_sendRawTransaction"
  end.
End EvmRpcEndpoint.
Abbreviation EvmRpcEndpoint := EvmRpcEndpoint.EvmRpcEndpoint.

Module Request.
Record Request {Config Params CandidOutput Output : Type} := {
  endpoint : EvmRpcEndpoint;
  rpc_services : RpcServices;
  rpc_config : option Config;
  params : Params;
  cycles : u128;
}.
Arguments Request : clear implicits.
End Request.
Abbreviation Request := Request.Request.

(** The trait [EvmRpcRequest]: a type of requests with its associated types. *)
Class EvmRpcRequest (T Config Params CandidOutput Output : Type) := {
  request_endpoint : T -> EvmRpcEndpoint;
  request_params : T -> Params;
}.
(** [Config: From<RpcConfig>]. *)
Class FromRpcConfig (Config : Type) := from_rpc_config : RpcConfig -> Config.
#[export] Instance FromRpcConfig_RpcConfig : FromRpcConfig RpcConfig := fun config => config.
#[export] Instance FromRpcConfig_GetLogsRpcConfig : FromRpcConfig GetLogsRpcConfig :=
  GetLogsRpcConfig_from_RpcConfig.

Record RequestBuilder {R Config Params CandidOutput Output : Type} := {
  builder_client : EvmRpcClient R;
  builder_request : Request Config Params CandidOutput Output;
}.
Arguments RequestBuilder : clear implicits.

Section Requests.
Context {R Config Params CandidOutput Output : Type}.
Implicit Types self : RequestBuilder R Config Params CandidOutput Output.

Definition RequestBuilder_new {T} `{!EvmRpcRequest T Config Params CandidOutput Output}
    `{!FromRpcConfig Config} (client : EvmRpcClient R) (rpc_request : T) (cycles : u128) :
    RequestBuilder R Config Params CandidOutput Output :=
  let endpoint := request_endpoint rpc_request in
  let params := request_params rpc_request in
  {| builder_client := client;
     builder_request := {|
       Request.endpoint := endpoint;
       Request.rpc_services := rpc_services (client_config client);
       Request.rpc_config := option_map from_rpc_config (rpc_config (client_config client));
       Request.params := params;
       Request.cycles := cycles |} |}.

(** [Request::cycles_mut] and [Request::params_mut]: what a writer through the reference does. *)
Definition cycles_mut (f : u128 -> u128) (r : Request Config Params CandidOutput Output) :
  Request Config Params CandidOutput Output :=
  {| Request.endpoint := Request.endpoint r; Request.rpc_services := Request.rpc_services r;
     Request.rpc_config := Request.rpc_config r; Request.params := Request.params r;
     Request.cycles := f (Request.cycles r) |}.
Definition params_mut (f : Params -> Params) (r : Request Config Params CandidOutput Output) :
  Request Config Params CandidOutput Output :=
  {| Request.endpoint := Request.endpoint r; Request.rpc_services := Request.rpc_services r;
     Request.rpc_config := Request.rpc_config r; Request.params := f (Request.params r);
     Request.cycles := Request.cycles r |}.

Definition with_cycles (cycles : u128) self : RequestBuilder R Config Params CandidOutput Output :=
  {| builder_client := builder_client self;
     builder_request := cycles_mut (fun _ => cycles) (builder_request self) |}.
(** [mutator(self.request.params_mut())]. *)
Definition modify_params (mutator : Params -> Params) self :
  RequestBuilder R Config Params CandidOutput Output :=
  {| builder_client := builder_client self;
     builder_request := params_mut mutator (builder_request self) |}.
Definition with_params (params : Params) self :
  RequestBuilder R Config Params CandidOutput Output := modify_params (fun _ => params) self.
(** [*self.request.rpc_config_mut() = rpc_config]. *)
Definition set_request_config (rpc_config : option Config) self :
  RequestBuilder R Config Params CandidOutput Output :=
  let r := builder_request self in
  {| builder_client := builder_client self;
     builder_request := {|
       Request.endpoint := Request.endpoint r; Request.rpc_services := Request.rpc_services r;
       Request.rpc_config := rpc_config; Request.params := Request.params r;
       Request.cycles := Request.cycles r |} |}.
Definition request_with_rpc_config (rpc_config : Config) self :
  RequestBuilder R Config Params CandidOutput Output := set_request_config (Some rpc_config) self.

Context `{Runtime R} `{CandidType CandidOutput} `{Into CandidOutput Output}.

Definition try_execute_request (self : EvmRpcClient R)
    (request : Request Config Params CandidOutput Output) :
    Outcome (Result Output (RejectCode * string)) :=
  result ← update_call (Out := CandidOutput) (runtime (client_config self))
    (evm_rpc_canister (client_config self))
    (EvmRpcEndpoint.rpc_method (Request.endpoint request))
    (Request.rpc_services request, Request.rpc_config request, Request.params request)
    (Request.cycles request);
  Return (result_map into result).

(** The rejection is shown by [{:?}], which is a parameter. *)
Definition execute_request (debug : RejectCode * string -> string) (self : EvmRpcClient R)
    (request : Request Config Params CandidOutput Output) : Outcome Output :=
  let rpc_method := EvmRpcEndpoint.rpc_method (Request.endpoint request) in
  result ← try_execute_request self request;
  match result with
  | Ok output => Return output
  | Err e => Panic ("Client error: failed to call `" +:+ rpc_method +:+ "`: " +:+ debug e)
  end.

Definition try_send self : Outcome (Result Output (RejectCode * string)) :=
  try_execute_request (builder_client self) (builder_request self).
Definition send (debug : RejectCode * string -> string) self : Outcome Output :=
  execute_request debug (builder_client self) (builder_request self).
End Requests.

(** ** Copies, comparisons and texts of clients and requests *)

(** The traits [Clone] and [Debug] of a type. *)
Class Clone (T : Type) := clone : T -> T.
Class Debug (T : Type) := debug : T -> string.

(** [f.debug_struct(name).field(..)...finish()] of the standard library, in one line. *)
Definition debug_struct (name : string) (fields : list (string * string)) : string :=
  match fields with
  | [] => name
  | _ => name +:+ " { " +:+ String.concat ", " (map (fun f => f.1 +:+ ": " +:+ f.2) fields) +:+ " }"
  end.

(** A clone shares the configuration ([Arc::clone]); the builder of a client copies it. *)
Definition EvmRpcClient_clone {R} (self : EvmRpcClient R) : EvmRpcClient R :=
  {| client_config := client_config self |}.
Definition ClientBuilder_clone {R} `{Clone (ClientConfig R)} (self : ClientBuilder R) :
  ClientBuilder R := {| builder_config := clone (builder_config self) |}.

Section Copies.
Context {R Config Params CandidOutput Output : Type}.

Definition Request_clone `{Clone (option Config)} `{Clone Params}
    (self : Request Config Params CandidOutput Output) :
  Request Config Params CandidOutput Output :=
  {| Request.endpoint := Request.endpoint self; Request.rpc_services := Request.rpc_services self;
     Request.rpc_config := clone (Request.rpc_config self);
     Request.params := clone (Request.params self); Request.cycles := Request.cycles self |}.
Definition RequestBuilder_clone `{Clone (option Config)} `{Clone Params}
    (self : RequestBuilder R Config Params CandidOutput Output) :
  RequestBuilder R Config Params CandidOutput Output :=
  {| builder_client := EvmRpcClient_clone (builder_client self);
     builder_request := Request_clone (builder_request self) |}.

#[export] Instance RpcServices_eq_dec : EqDecision RpcServices.
Proof. solve_decision. Defined.
(** [impl PartialEq for Request]; the markers are always equal. *)
Definition Request_eq `{PartialEq (option Config)} `{PartialEq Params}
    (self other : Request Config Params CandidOutput Output) : bool :=
  bool_decide (Request.endpoint self = Request.endpoint other) &&
  bool_decide (Request.rpc_services self = Request.rpc_services other) &&
  peq (Request.rpc_config self) (Request.rpc_config other) &&
  peq (Request.params self) (Request.params other) &&
  (Request.cycles self =? Request.cycles other).

(** [marker] is the text of a [PhantomData]. *)
Definition Request_debug `{Debug EvmRpcEndpoint} `{Debug RpcServices} `{Debug (option Config)}
    `{Debug Params} (candid_marker output_marker : string)
    (self : Request Config Params CandidOutput Output) : string :=
  debug_struct "Request"
    [("endpoint", debug (Request.endpoint self));
     ("rpc_services", debug (Request.rpc_services self));
     ("rpc_config", debug (Request.rpc_config self));
     ("params", debug (Request.params self));
     ("cycles", pretty (Request.cycles self));
     ("_candid_marker", candid_marker);
     ("_output_marker", output_marker)].
Definition RequestBuilder_debug `{Debug (EvmRpcClient R)}
    `{Debug (Request Config Params CandidOutput Output)}
    (self : RequestBuilder R Config Params CandidOutput Output) : string :=
  debug_struct "RequestBuilder"
    [("client", debug (builder_client self)); ("request", debug (builder_request self))].

(** Requests are compared as a whole: equal requests make the same call, with the same cycles,
    and a clone of a request is equal to it. *)
Theorem request_equality `{Clone (option Config)} `{Clone Params}
    `{PartialEqLaws (option Config)} `{PartialEqLaws Params}
    (r1 r2 : Request Config Params CandidOutput Output) :
  (Request_eq r1 r2 = true <-> r1 = r2) /\
  ((forall c : option Config, clone c = c) -> (forall p : Params, clone p = p) ->
   Request_clone r1 = r1 /\ Request_eq r1 (Request_clone r1) = true).
Proof.
  assert (Hs : forall r1 r2, Request_eq r1 r2 = true <-> r1 = r2).
  { intros [e s c p n] [e' s' c' p' n']. unfold Request_eq. simpl.
    rewrite !andb_true_iff, !bool_decide_eq_true, !peq_spec, Z.eqb_eq. split; [naive_solver|].
    by intros [= -> -> -> -> ->]. }
  split; [apply Hs|]. intros Hc Hp.
  assert (E : Request_clone r1 = r1) by (destruct r1; unfold Request_clone; simpl; by rewrite Hc, Hp).
  split; [done|]. rewrite E. by apply Hs.
Qed.
End Copies.

(** [with_max_block_range], for the requests with a configuration of [eth_getLogs]:
    [get_or_insert_default] and an assignment. *)
Definition with_max_block_range {R Params CandidOutput Output} (max_block_range : u32)
    (self : RequestBuilder R GetLogsRpcConfig Params CandidOutput Output) :
    RequestBuilder R GetLogsRpcConfig Params CandidOutput Output :=
  let config := default GetLogsRpcConfig.GetLogsRpcConfig_default
    (Request.rpc_config (builder_request self)) in
  set_request_config (Some {|
    GetLogsRpcConfig.response_size_estimate := GetLogsRpcConfig.response_size_estimate config;
    GetLogsRpcConfig.response_consensus := GetLogsRpcConfig.response_consensus config;
    GetLogsRpcConfig.max_block_range := Some max_block_range |}) self.

(** ** The seven requests, their builders and the methods of the client *)

Section Methods.
Context `{BigUintCrate} `{AlloyReceiptTypes}.

Record CallRequest := { call_request_0 : CallArgs }.
#[export] Instance EvmRpcRequest_Call : EvmRpcRequest CallRequest RpcConfig CallArgs
    (MultiRpcResult Hex) (MultiRpcResult alloy_Bytes) := {
  request_endpoint _ := EvmRpcEndpoint.Call;
  request_params := call_request_0 }.
Definition CallRequestBuilder (R : Type) : Type :=
  RequestBuilder R RpcConfig CallArgs (MultiRpcResult Hex)
    (MultiRpcResult alloy_Bytes).

Record FeeHistoryRequest := { fee_history_request_0 : FeeHistoryArgs }.
#[export] Instance EvmRpcRequest_FeeHistory : EvmRpcRequest FeeHistoryRequest RpcConfig FeeHistoryArgs
    (MultiRpcResult CandidTypes.FeeHistory) (MultiRpcResult AlloyFeeHistory) := {
  request_endpoint _ := EvmRpcEndpoint.FeeHistory;
  request_params := fee_history_request_0 }.
Definition FeeHistoryRequestBuilder (R : Type) : Type :=
  RequestBuilder R RpcConfig FeeHistoryArgs (MultiRpcResult CandidTypes.FeeHistory)
    (MultiRpcResult AlloyFeeHistory).

Record GetBlockByNumberRequest := { get_block_by_number_request_0 : CandidTypes.BlockTag }.
#[export] Instance EvmRpcRequest_GetBlockByNumber : EvmRpcRequest GetBlockByNumberRequest RpcConfig CandidTypes.BlockTag
    (MultiRpcResult CandidTypes.Block) (MultiRpcResult AlloyBlock) := {
  request_endpoint _ := EvmRpcEndpoint.GetBlockByNumber;
  request_params := get_block_by_number_request_0 }.
Definition GetBlockByNumberRequestBuilder (R : Type) : Type :=
  RequestBuilder R RpcConfig CandidTypes.BlockTag (MultiRpcResult CandidTypes.Block)
    (MultiRpcResult AlloyBlock).

Record GetLogsRequest := { get_logs_request_0 : GetLogsArgs }.
#[export] Instance EvmRpcRequest_GetLogs : EvmRpcRequest GetLogsRequest GetLogsRpcConfig GetLogsArgs
    (MultiRpcResult (list CandidTypes.LogEntry)) (MultiRpcResult (list AlloyLog)) := {
  request_endpoint _ := EvmRpcEndpoint.GetLogs;
  request_params := get_logs_request_0 }.
Definition GetLogsRequestBuilder (R : Type) : Type :=
  RequestBuilder R GetLogsRpcConfig GetLogsArgs (MultiRpcResult (list CandidTypes.LogEntry))
    (MultiRpcResult (list AlloyLog)).

Record GetTransactionCountRequest := { get_transaction_count_request_0 : GetTransactionCountArgs }.
#[export] Instance EvmRpcRequest_GetTransactionCount : EvmRpcRequest GetTransactionCountRequest RpcConfig GetTransactionCountArgs
    (MultiRpcResult Nat256) (MultiRpcResult alloy_U256) := {
  request_endpoint _ := EvmRpcEndpoint.GetTransactionCount;
  request_params := get_transaction_count_request_0 }.
Definition GetTransactionCountRequestBuilder (R : Type) : Type :=
  RequestBuilder R RpcConfig GetTransactionCountArgs (MultiRpcResult Nat256)
    (MultiRpcResult alloy_U256).

Record GetTransactionReceiptRequest := { get_transaction_receipt_request_0 : Hex32 }.
#[export] Instance EvmRpcRequest_GetTransactionReceipt : EvmRpcRequest GetTransactionReceiptRequest RpcConfig Hex32
    (MultiRpcResult (option CandidTypes.TransactionReceipt)) (MultiRpcResult (option AlloyTransactionReceipt)) := {
  request_endpoint _ := EvmRpcEndpoint.GetTransactionReceipt;
  request_params := get_transaction_receipt_request_0 }.
Definition GetTransactionReceiptRequestBuilder (R : Type) : Type :=
  RequestBuilder R RpcConfig Hex32 (MultiRpcResult (option CandidTypes.TransactionReceipt))
    (MultiRpcResult (option AlloyTransactionReceipt)).

Record SendRawTransactionRequest := { send_raw_transaction_request_0 : Hex }.
#[export] Instance EvmRpcRequest_SendRawTransaction : EvmRpcRequest SendRawTransactionRequest RpcConfig Hex
    (MultiRpcResult SendRawTransactionStatus) (MultiRpcResult alloy_B256) := {
  request_endpoint _ := EvmRpcEndpoint.SendRawTransaction;
  request_params := send_raw_transaction_request_0 }.
Definition SendRawTransactionRequestBuilder (R : Type) : Type :=
  RequestBuilder R RpcConfig Hex (MultiRpcResult SendRawTransactionStatus)
    (MultiRpcResult alloy_B256).

Context {R : Type}.

(** *** The parameters of a request *)

Definition call_with_block (block : CandidTypes.BlockTag) (self : CallRequestBuilder R) :
  CallRequestBuilder R :=
  modify_params (fun p => {| CallArgs.transaction := CallArgs.transaction p;
                             CallArgs.block := Some block |}) self.

Definition with_block_count (block_count : Nat256) (self : FeeHistoryRequestBuilder R) :
  FeeHistoryRequestBuilder R :=
  modify_params (fun p => {|
    FeeHistoryArgs.block_count := block_count;
    FeeHistoryArgs.newest_block := FeeHistoryArgs.newest_block p;
    FeeHistoryArgs.reward_percentiles := FeeHistoryArgs.reward_percentiles p |}) self.
Definition with_newest_block (newest_block : CandidTypes.BlockTag)
    (self : FeeHistoryRequestBuilder R) : FeeHistoryRequestBuilder R :=
  modify_params (fun p => {|
    FeeHistoryArgs.block_count := FeeHistoryArgs.block_count p;
    FeeHistoryArgs.newest_block := newest_block;
    FeeHistoryArgs.reward_percentiles := FeeHistoryArgs.reward_percentiles p |}) self.
Definition with_reward_percentiles (reward_percentiles : list u8)
    (self : FeeHistoryRequestBuilder R) : FeeHistoryRequestBuilder R :=
  modify_params (fun p => {|
    FeeHistoryArgs.block_count := FeeHistoryArgs.block_count p;
    FeeHistoryArgs.newest_block := FeeHistoryArgs.newest_block p;
    FeeHistoryArgs.reward_percentiles := Some reward_percentiles |}) self.

Definition with_from_block (from_block : CandidTypes.BlockTag) (self : GetLogsRequestBuilder R) :
  GetLogsRequestBuilder R :=
  modify_params (fun p => {|
    GetLogsArgs.from_block := Some from_block; GetLogsArgs.to_block := GetLogsArgs.to_block p;
    GetLogsArgs.addresses := GetLogsArgs.addresses p;
    GetLogsArgs.topics := GetLogsArgs.topics p |}) self.
Definition with_to_block (to_block : CandidTypes.BlockTag) (self : GetLogsRequestBuilder R) :
  GetLogsRequestBuilder R :=
  modify_params (fun p => {|
    GetLogsArgs.from_block := GetLogsArgs.from_block p; GetLogsArgs.to_block := Some to_block;
    GetLogsArgs.addresses := GetLogsArgs.addresses p;
    GetLogsArgs.topics := GetLogsArgs.topics p |}) self.
Definition with_addresses {A} `{Into A Hex20} (addresses : list A)
    (self : GetLogsRequestBuilder R) : GetLogsRequestBuilder R :=
  modify_params (fun p => {|
    GetLogsArgs.from_block := GetLogsArgs.from_block p;
    GetLogsArgs.to_block := GetLogsArgs.to_block p;
    GetLogsArgs.addresses := map into addresses;
    GetLogsArgs.topics := GetLogsArgs.topics p |}) self.
Definition with_topics {A} `{Into A Hex32} (topics : list (list A))
    (self : GetLogsRequestBuilder R) : GetLogsRequestBuilder R :=
  modify_params (fun p => {|
    GetLogsArgs.from_block := GetLogsArgs.from_block p;
    GetLogsArgs.to_block := GetLogsArgs.to_block p;
    GetLogsArgs.addresses := GetLogsArgs.addresses p;
    GetLogsArgs.topics := Some (map (map into) topics) |}) self.

Definition with_address (address : Hex20) (self : GetTransactionCountRequestBuilder R) :
  GetTransactionCountRequestBuilder R :=
  modify_params (fun p => {|
    GetTransactionCountArgs.address := address;
    GetTransactionCountArgs.block := GetTransactionCountArgs.block p |}) self.
Definition count_with_block (block : CandidTypes.BlockTag)
    (self : GetTransactionCountRequestBuilder R) : GetTransactionCountRequestBuilder R :=
  modify_params (fun p => {|
    GetTransactionCountArgs.address := GetTransactionCountArgs.address p;
    GetTransactionCountArgs.block := block |}) self.

(** *** The methods of the client *)

(** The conversion of the transaction may fail; its error is shown by [debug]. *)
Definition client_call {E} (debug : E -> string) (params : Result CallArgs E)
    (self : EvmRpcClient R) : Outcome (CallRequestBuilder R) :=
  match params with
  | Ok params => Return (RequestBuilder_new self {| call_request_0 := params |} 10000000000)
  | Err e => Panic ("Invalid transaction request: " +:+ debug e)
  end.
Definition client_get_block_by_number {A} `{Into A CandidTypes.BlockTag} (params : A)
    (self : EvmRpcClient R) : GetBlockByNumberRequestBuilder R :=
  RequestBuilder_new self {| get_block_by_number_request_0 := into params |} 10000000000.
Definition client_fee_history {A} `{Into A FeeHistoryArgs} (params : A)
    (self : EvmRpcClient R) : FeeHistoryRequestBuilder R :=
  RequestBuilder_new self {| fee_history_request_0 := into params |} 10000000000.
Definition client_get_logs {A} `{Into A GetLogsArgs} (params : A)
    (self : EvmRpcClient R) : GetLogsRequestBuilder R :=
  RequestBuilder_new self {| get_logs_request_0 := into params |} 10000000000.
Definition client_get_transaction_count {A} `{Into A GetTransactionCountArgs} (params : A)
    (self : EvmRpcClient R) : GetTransactionCountRequestBuilder R :=
  RequestBuilder_new self {| get_transaction_count_request_0 := into params |} 10000000000.
Definition client_get_transaction_receipt {A} `{Into A Hex32} (params : A)
    (self : EvmRpcClient R) : GetTransactionReceiptRequestBuilder R :=
  RequestBuilder_new self {| get_transaction_receipt_request_0 := into params |} 10000000000.
Definition client_send_raw_transaction {A} `{Into A Hex} (params : A)
    (self : EvmRpcClient R) : SendRawTransactionRequestBuilder R :=
  RequestBuilder_new self {| send_raw_transaction_request_0 := into params |} 10000000000.
End Methods.

(** ** The stub runtime ([fixtures/mod.rs]) *)

Record StubRuntime := {
  default_call_result : option (list byte);
  method_to_call_result_map : gmap string (list byte);
}.
Definition StubRuntime_new : StubRuntime :=
  {| default_call_result := None; method_to_call_result_map := ∅ |}.

Definition encode_stub {Out} `{CandidType Out} (stub_response : Out) : Outcome (list byte) :=
  expect "Failed to encode Candid stub response" (candid_encode stub_response).

Definition with_default_response {Out} `{CandidType Out} (stub_response : Out)
    (self : StubRuntime) : Outcome StubRuntime :=
  result ← encode_stub stub_response;
  Return {| default_call_result := Some result;
            method_to_call_result_map := method_to_call_result_map self |}.
Definition with_response_for_method {Out} `{CandidType Out} (method : string)
    (stub_response : Out) (self : StubRuntime) : Outcome StubRuntime :=
  result ← encode_stub stub_response;
  Return {| default_call_result := default_call_result self;
            method_to_call_result_map := <[method := result]> (method_to_call_result_map self) |}.

Definition StubRuntime_call {Out} `{CandidType Out} (self : StubRuntime) (method : string) :
    Outcome (Result Out (RejectCode * string)) :=
  match method_to_call_result_map self !! method with
  | Some bytes => out ← expect "Failed to decode Candid stub response" (candid_decode bytes);
                  Return (Ok out)
  | None =>
      match default_call_result self with
      | Some bytes =>
          out ← expect "Failed to decode Candid stub response" (candid_decode bytes);
          Return (Ok out)
      | None => Panic ("No available call response value for method `" +:+ method +:+ "`")
      end
  end.
#[export] Instance Runtime_StubRuntime : Runtime StubRuntime := {
  update_call In Out _ self id method args cycles := StubRuntime_call self method;
  query_call In Out _ self id method args := StubRuntime_call self method;
}.

Definition with_stub_responses {R} (self : ClientBuilder R) : ClientBuilder StubRuntime :=
  with_runtime (fun _ => StubRuntime_new) self.

(** The closures given to [with_runtime] may panic. *)
Definition builder_with_default_response {Out} `{CandidType Out} (stub_response : Out)
    (self : ClientBuilder StubRuntime) : Outcome (ClientBuilder StubRuntime) :=
  r ← with_default_response stub_response (runtime (builder_config self));
  Return (with_runtime (fun _ => r) self).
Definition builder_with_response_for_method {Out} `{CandidType Out} (method_name : string)
    (stub_response : Out) (self : ClientBuilder StubRuntime) :
    Outcome (ClientBuilder StubRuntime) :=
  r ← with_response_for_method method_name stub_response (runtime (builder_config self));
  Return (with_runtime (fun _ => r) self).
Definition with_default_stub_response {R Out} `{CandidType Out} (stub_response : Out)
    (self : ClientBuilder R) : Outcome (ClientBuilder StubRuntime) :=
  builder_with_default_response stub_response (with_stub_responses self).

(** ** Properties *)

(** *** The settings of a client *)

Inductive Setting :=
| SetSources (rpc_services : RpcServices)
| SetConfig (rpc_config : RpcConfig)
| SetStrategy (consensus_strategy : ConsensusStrategy)
| SetEstimate (response_size_estimate : u64).
Definition apply_setting {R} (self : ClientBuilder R) (setting : Setting) : ClientBuilder R :=
  match setting with
  | SetSources services => with_rpc_sources services self
  | SetConfig config => with_rpc_config config self
  | SetStrategy strategy => with_consensus_strategy strategy self
  | SetEstimate estimate => with_response_size_estimate estimate self
  end.

(** The last of the values that a function finds in a list. *)
Definition last_of {A B} (f : A -> option B) (l : list A) : option B :=
  foldl (fun acc a => match f a with Some b => Some b | None => acc end) None l.
(** What a setting says of a field: nothing, or the new value of the optional field. *)
Definition says_sources (s : Setting) : option RpcServices :=
  match s with SetSources services => Some services | _ => None end.
Definition says_strategy (s : Setting) : option (option ConsensusStrategy) :=
  match s with
  | SetConfig config => Some (response_consensus config)
  | SetStrategy strategy => Some (Some strategy)
  | _ => None
  end.
Definition says_estimate (s : Setting) : option (option u64) :=
  match s with
  | SetConfig config => Some (response_size_estimate config)
  | SetEstimate estimate => Some (Some estimate)
  | _ => None
  end.

Lemma last_of_app {A B} (f : A -> option B) l a :
  last_of f (l ++ [a]) = match f a with Some b => Some b | None => last_of f l end.
Proof. unfold last_of. by rewrite foldl_app. Qed.

(** What the canister makes of an absent configuration is what it makes of the default one. *)
Definition effective (config : option RpcConfig) : RpcConfig := default RpcConfig_default config.

(** The settings of a client are independent and the last one wins: whatever the order of
    the builder's calls, the sources, the strategy and the size estimate of the client are
    those of the last call that says something of them ([with_rpc_config] says both), and the
    default otherwise; the runtime and the canister stay those the builder was made with. *)
Theorem client_settings {R} (runtime0 : R) (canister : Principal) (settings : list Setting) :
  let c := client_config
    (build (foldl apply_setting (EvmRpcClient_builder runtime0 canister) settings)) in
  runtime c = runtime0 /\ evm_rpc_canister c = canister /\
  rpc_services c = default (RpcServices.EthMainnet None) (last_of says_sources settings) /\
  response_consensus (effective (rpc_config c)) = default None (last_of says_strategy settings) /\
  response_size_estimate (effective (rpc_config c)) =
    default None (last_of says_estimate settings).
Proof.
  induction settings as [|setting l IH] using rev_ind; [done|].
  rewrite foldl_app, !last_of_app. revert IH. cbn [foldl].
  generalize (foldl apply_setting (EvmRpcClient_builder runtime0 canister) l).
  intros [[r p config services]]. simpl. intros (-> & -> & -> & Hc & He).
  destruct setting; simpl; rewrite ?Hc, ?He; done.
Qed.

(** *** The configuration of [eth_getLogs] *)

(** A request for logs keeps the settings of its client: the canister, which reads an
    absent configuration as the default one, gets the client's strategy and size estimate
    and a range of 500 blocks, and [with_max_block_range] replaces the range only, also for a
    client without a configuration. *)
Theorem get_logs_request_config `{BigUintCrate} `{AlloyReceiptTypes} {R} (self : EvmRpcClient R)
    {A} `{Into A GetLogsArgs} (args : A) (max_block_range : u32) :
  let request b :=
    default GetLogsRpcConfig.GetLogsRpcConfig_default (Request.rpc_config (builder_request b)) in
  let b := client_get_logs args self in
  let b' := with_max_block_range max_block_range b in
  RpcConfig_from_GetLogsRpcConfig (request b) = effective (rpc_config (client_config self)) /\
  GetLogsRpcConfig.max_block_range_or_default (request b) = 500 /\
  RpcConfig_from_GetLogsRpcConfig (request b') = effective (rpc_config (client_config self)) /\
  GetLogsRpcConfig.max_block_range_or_default (request b') = max_block_range /\
  Request.params (builder_request b') = into args /\
  Request.rpc_services (builder_request b') = rpc_services (client_config self).
Proof.
  simpl. unfold RpcConfig_from_GetLogsRpcConfig, effective.
  destruct (rpc_config (client_config self)) as [[estimate strategy]|]; split_and!; done.
Qed.

(** *** The stub runtime *)

Record Response := { resp_type : Type; resp_candid : CandidType resp_type; resp_value : resp_type }.
(** A step of its construction: a response for one method, or for all the others. *)
Definition stub_step (step : option string * Response) (self : StubRuntime) :
  Outcome StubRuntime :=
  let '(method, r) := step in
  match method with
  | Some method => @with_response_for_method _ (resp_candid r) method (resp_value r) self
  | None => @with_default_response _ (resp_candid r) (resp_value r) self
  end.
Definition build_stub (steps : list (option string * Response)) : Outcome StubRuntime :=
  foldl (fun acc step => self ← acc; stub_step step self) (Return StubRuntime_new) steps.

Definition last_response (method : option string) (steps : list (option string * Response)) :
  option Response :=
  last_of (fun step => if bool_decide (step.1 = method) then Some step.2 else None) steps.
(** The response for the method, or else the default one. *)
Definition chosen (method : string) (steps : list (option string * Response)) :
  option Response :=
  match last_response (Some method) steps with
  | Some r => Some r
  | None => last_response None steps
  end.

Definition encodes (r : Response) (bytes : list byte) : Prop :=
  @candid_encode _ (resp_candid r) (resp_value r) = Ok bytes.

Lemma stub_step_Return method r self self' :
  stub_step (method, r) self = Return self' ->
  exists bytes, encodes r bytes /\
    self' = match method with
            | Some m => {| default_call_result := default_call_result self;
                           method_to_call_result_map :=
                             <[m := bytes]> (method_to_call_result_map self) |}
            | None => {| default_call_result := Some bytes;
                         method_to_call_result_map := method_to_call_result_map self |}
            end.
Proof.
  unfold encodes, stub_step, with_response_for_method, with_default_response, encode_stub, expect.
  destruct method; destruct (candid_encode _) as [bytes|e]; cbn; intros E; simplify_eq; eauto.
Qed.

(** What the runtime holds is what the last steps say. *)
Lemma build_stub_holds steps self :
  build_stub steps = Return self ->
  (forall method, match last_response (Some method) steps with
                  | Some r => exists bytes, encodes r bytes /\
                      method_to_call_result_map self !! method = Some bytes
                  | None => method_to_call_result_map self !! method = None
                  end) /\
  match last_response None steps with
  | Some r => exists bytes, encodes r bytes /\ default_call_result self = Some bytes
  | None => default_call_result self = None
  end.
Proof.
  revert self. induction steps as [|[method r] steps IH] using rev_ind; intros self.
  { intros [= <-]. done. }
  unfold build_stub, last_response in *. rewrite foldl_app. cbn [foldl].
  destruct (foldl _ _ steps) as [self0|msg]; [|done]. cbn [mbind Outcome_bind].
  intros (bytes & Eb & ->)%stub_step_Return. destruct (IH self0 eq_refl) as [Hm Hd].
  split; [intros m|]; rewrite last_of_app; cbn [fst snd].
  - case_bool_decide as Em; [subst method; by exists bytes; simplify_map_eq|].
    specialize (Hm m). destruct method as [m'|]; [|exact Hm]. cbn [method_to_call_result_map].
    rewrite lookup_insert_ne by congruence. exact Hm.
  - case_bool_decide as Em; [subst method; by exists bytes|].
    by destruct method.
Qed.

(** A stub runtime answers every call with the response given last for the called method,
    with the last default response for a method without one, and traps without either. *)
Theorem stub_runtime_answers (steps : list (option string * Response)) (self : StubRuntime)
    (id : Principal) (method : string) (cycles : u128) {In} (args : In) :
  build_stub steps = Return self ->
  match chosen method steps with
  | Some r =>
      @CandidLaws _ (resp_candid r) ->
      @update_call _ _ In _ (resp_candid r) self id method args cycles =
        Return (Ok (resp_value r)) /\
      @query_call _ _ In _ (resp_candid r) self id method args = Return (Ok (resp_value r))
  | None => forall Out (candid : CandidType Out),
      exists msg, update_call (In := In) (Out := Out) self id method args cycles = Panic msg
  end.
Proof.
  intros [Hm Hd]%build_stub_holds. specialize (Hm method). unfold chosen.
  cbn [update_call query_call Runtime_StubRuntime]. unfold StubRuntime_call, expect.
  destruct (last_response (Some method) steps) as [r|].
  - destruct Hm as (bytes & Eb & ->). intros Hl. by rewrite (candid_decode_encode _ _ Eb).
  - rewrite Hm. destruct (last_response None steps) as [r|].
    + destruct Hd as (bytes & Eb & ->). intros Hl. by rewrite (candid_decode_encode _ _ Eb).
    + rewrite Hd. intros. by eexists.
Qed.

(** ** Witnesses *)

Section Witnesses.
#[local] Instance candid_string : CandidType string := {
  candid_encode s := Ok (bytes_of_string s);
  candid_decode bytes := Ok (string_of_bytes bytes) }.
#[local] Instance candid_string_laws : CandidLaws string.
Proof.
  intros t bytes [= <-]. cbn [candid_decode candid_string]. by rewrite string_of_bytes_of_string.
Qed.

Definition text (s : string) : Response :=
  {| resp_type := string; resp_candid := candid_string; resp_value := s |}.

Lemma stub_runtime_answers_witness :
  let steps := [(None, text "any"); (Some "eth_call", text "first"); (Some "eth_call", text "last")] in
  exists self, build_stub steps = Return self /\
    update_call (Out := string) self EVM_RPC_CANISTER "eth_call" () 0 = Return (Ok "last").
Proof.
  intros steps. eexists. split; [reflexivity|].
  exact (proj1 (stub_runtime_answers steps _ EVM_RPC_CANISTER "eth_call" 0 () eq_refl
    candid_string_laws)).
Defined.
End Witnesses.
