(* ===== verification/EndToEnd.v ===== *)
(** From end to end: what a value that a user gets from the client library is worth, when its
    request is answered by the canister. Composes the endpoints and the consensus of the
    canister with the requests and the conversions of the client library. *)

From S2P Require Import Prelude Collections EvmRpcTypes MultiRpcResult Externals Types Providers.
From S2P Require Import Memory ProviderApi Numbers Hex.
From S2P Require Import CandidTypes JsonTypes CkethConversion EthRpc Http RpcClient.
From S2P Require Import ProviderChoice CandidRpc Main Consensus Alloy ClientLibrary.
From S2P Require Instances.
Open Scope Z_scope.
Open Scope canister_scope.

(** A caller's source and configuration that the canister takes as they are meant: a list of
    providers has no repetition and fewer than 256 entries, and the numbers of a threshold are
    bytes. *)
Definition proper_request (source : RpcServices) (config : option RpcConfig) : Prop :=
  proper_source source /\ strategy_in_range (strategy_of config).

Section Backing.
Context `{TSM : TimedSizedMapLaws SupportedRpcService unit} `{Canlog : CanlogCrate}.
Context `{HO : RustOrdLaws HttpHeader} `{JsonRpcId} `{SerdeValue} `{HttpCrate} `{RegexCrate}.
Context `{MinicborCrate} `{MRL : MultiResultsLaws RpcService} `{UrlCrate}.

(** At least as many of the providers chosen for the caller as its strategy requires, all
    different and not zero of them, answered the request with a value that satisfies [P]. *)
Definition backed {I O} `{HttpResponsePayload O} (method : RpcMethod) (params : I)
    (source : RpcServices) (config : option RpcConfig) (now : Timestamp) (world : World I O)
    (s : CanisterState) (P : O -> Prop) : Prop :=
  exists p s1 size,
    Providers_new source (strategy_of config) now s = Return (Ok p, s1) /\
    let n := agreement (strategy_of config) (services p) in
    0 < n <= Z.of_nat (length (services p)) /\
    agree (services p)
      (provider_answer (RpcMethod.RpcMethod_name method) params (transform_op_of O) size world s1)
      n P.

(** A converted answer is backed by the answers that the conversion takes to it, also when the
    conversion makes an agreement of results that the canister found inconsistent. *)
Lemma converted_answer_backed {I O R Out : Type} `{HttpResponsePayload O}
    `{!ReduceApi RpcService O RpcError} `{PartialEqLaws O} `{PartialEqLaws R} `{PartialEqLaws Out}
    `{SerdeJsonLaws O} `{!ReduceLaws RpcService O RpcError}
    (method : RpcMethod) (params : I) (estimate : EthRpcClient -> u64) (convert : O -> R)
    (f : R -> RpcResult Out) source config now (world : World I O) s s' w a :
  proper_request source config ->
  with_client source config now (run_query method params estimate convert world) s =
    Return (w, s') ->
  multi_and_then f w = Consistent (Ok a) ->
  backed method params source config now world s (fun x => f (convert x) = Ok a).
Proof.
  intros [Hs Hr] [(e & s1 & _ & ->)|(p & s1 & size & m & s2 & reduced & Hp & _ & Hne & Hm & E & Ew)]
    %query_steps Ea; [done|].
  destruct (providers_reach_threshold _ _ _ _ _ _ Hs Hr Hp) as [Hnd Hn].
  rewrite required_agreement in Hn.
  exists p, s1, size. split; [exact Hp|]. intros n. split; [exact Hn|].
  destruct w as [[r|e]|l]; [|done|].
  - eapply (agree_weaken _ _ n n (fun x => convert x = r)); [done| |].
    + intros x ->. by injection Ea.
    + unfold n. rewrite <- required_agreement in *.
      eapply reduce_agree; [exact Hnd|exact Hm|apply Hn|exact E|exact Ew].
  - eapply reduce_inconsistent in Ew as [Hl _]; [|exact Hne|exact Hm|exact E].
    apply and_then_agreed in Ea as [_ Hall]. cbn [answers] in Hall.
    exists (services p). split_and!; [done..|lia|]. intros x Hx.
    rewrite Hl, map_map, Forall_map, Forall_forall in Hall.
    destruct (Hall x) as (y & Ey & Ef); [by rewrite list_elem_of_In in Hx; apply list_elem_of_In|].
    cbn in Ey. destruct (provider_answer _ _ _ _ _ _ x) as [v|e]; [|done].
    injection Ey as <-. eauto.
Qed.

(** The same for a conversion that never fails. *)
Lemma mapped_answer_backed {I O R Out : Type} `{HttpResponsePayload O}
    `{!ReduceApi RpcService O RpcError} `{PartialEqLaws O} `{PartialEqLaws R} `{PartialEqLaws Out}
    `{SerdeJsonLaws O} `{!ReduceLaws RpcService O RpcError}
    (method : RpcMethod) (params : I) (estimate : EthRpcClient -> u64) (convert : O -> R)
    (f : R -> Out) source config now (world : World I O) s s' w a :
  proper_request source config ->
  with_client source config now (run_query method params estimate convert world) s =
    Return (w, s') ->
  multi_map f w = Consistent (Ok a) ->
  backed method params source config now world s (fun x => f (convert x) = a).
Proof.
  rewrite map_is_and_then. intros Hr E Ea.
  destruct (converted_answer_backed _ _ _ _ (fun r => Ok (f r)) _ _ _ _ _ _ _ _ Hr E Ea)
    as (p & s1 & size & Hp & Hn & Ha).
  exists p, s1, size. split; [exact Hp|]. split; [exact Hn|].
  eapply agree_weaken; [done| |exact Ha]. by intros x [= <-].
Qed.

(** The results that a request of the client gets are those that the endpoint returns in the
    state [s] of the canister; rejections may come from anywhere. *)
Definition results_from {Rt Config Params CandidOutput Output} `{Runtime Rt}
    `{CandidType CandidOutput} (b : RequestBuilder Rt Config Params CandidOutput Output)
    (endpoint : RpcServices -> option Config -> Params -> M CandidOutput)
    (s : CanisterState) : Prop :=
  let config := client_config (builder_client b) in
  let request := builder_request b in
  forall w,
    update_call (Out := CandidOutput) (runtime config) (evm_rpc_canister config)
      (EvmRpcEndpoint.rpc_method (Request.endpoint request))
      (Request.rpc_services request, Request.rpc_config request, Request.params request)
      (Request.cycles request) = Return (Ok w) ->
    exists s', endpoint (Request.rpc_services request) (Request.rpc_config request)
      (Request.params request) s = Return (w, s').

Lemma try_send_results {Rt Config Params CandidOutput Output} `{Runtime Rt}
    `{CandidType CandidOutput} `{Into CandidOutput Output}
    (b : RequestBuilder Rt Config Params CandidOutput Output) endpoint s output :
  results_from b endpoint s -> try_send b = Return (Ok output) ->
  exists w s', endpoint (Request.rpc_services (builder_request b))
      (Request.rpc_config (builder_request b)) (Request.params (builder_request b)) s =
      Return (w, s') /\ into w = output.
Proof.
  unfold results_from, try_send, try_execute_request. intros Hb.
  destruct (update_call _ _ _ _ _) as [[w|e]|msg] eqn:Eu; cbn; [|done..].
  intros [= <-]. destruct (Hb w eq_refl) as [s' E]. eauto.
Qed.

End Backing.

Section Client.
Context `{TSM : TimedSizedMapLaws SupportedRpcService unit} `{Canlog : CanlogCrate}.
Context `{HO : RustOrdLaws HttpHeader} `{JsonRpcId} `{SerdeValue} `{HttpCrate} `{RegexCrate}.
Context `{MinicborCrate} `{MRL : MultiResultsLaws RpcService} `{UrlCrate} `{HexCrate}.
Context `{Big : BigUintLaws} `{EthnumCrate} `{EthersCrate}.
Context `{BigUintTryFrom} `{AlloyReceiptTypes} `{Rt : Runtime R}.

(** The types of the answers and of the converted results compare structurally. *)
#[local] Instance peq_answer {T} `{EqDecision T} : PartialEq T | 100 := PartialEq_dec.
#[local] Instance peq_answer_laws {T} `{EqDecision T} : PartialEqLaws T | 100 := PartialEq_dec_laws.
Context `{PartialEqLaws AlloyBlock} `{PartialEqLaws (list AlloyLog)}.
Context `{PartialEqLaws (option AlloyTransactionReceipt)} `{PartialEqLaws alloy_Bytes}.
Context `{PartialEqLaws alloy_U256} `{PartialEqLaws alloy_B256}.
(** What is serialized by the reducer. *)
Context `{SerdeJsonLaws JsonTypes.Block} `{SerdeJsonLaws (list JsonTypes.LogEntry)}.
Context `{SerdeJsonLaws (option JsonTypes.TransactionReceipt)} `{SerdeJsonLaws Data}.
Context `{SerdeJsonLaws TransactionCount} `{SerdeJsonLaws SendRawTransactionResult}.
Context `{RB : !ReduceApi RpcService JsonTypes.Block RpcError,
  !ReduceLaws RpcService JsonTypes.Block RpcError}.
Context `{RL : !ReduceApi RpcService (list JsonTypes.LogEntry) RpcError,
  !ReduceLaws RpcService (list JsonTypes.LogEntry) RpcError}.
Context `{RR : !ReduceApi RpcService (option JsonTypes.TransactionReceipt) RpcError,
  !ReduceLaws RpcService (option JsonTypes.TransactionReceipt) RpcError}.
Context `{RD : !ReduceApi RpcService Data RpcError, !ReduceLaws RpcService Data RpcError}.
Context `{RC : !ReduceApi RpcService TransactionCount RpcError,
  !ReduceLaws RpcService TransactionCount RpcError}.
Context `{RS : !ReduceApi RpcService SendRawTransactionResult RpcError,
  !ReduceLaws RpcService SendRawTransactionResult RpcError}.
(** What travels. *)
Context `{CandidType (MultiRpcResult CandidTypes.Block)}.
Context `{CandidType (MultiRpcResult (list CandidTypes.LogEntry))}.
Context `{CandidType (MultiRpcResult (option CandidTypes.TransactionReceipt))}.
Context `{CandidType (MultiRpcResult Hex)} `{CandidType (MultiRpcResult Nat256)}.
Context `{CandidType (MultiRpcResult SendRawTransactionStatus)}.

(** C4: the user of the client library can rely on the consensus that it asked for, as long as
    a list of providers that it gives has no repetitions and fewer than 256 entries and its
    threshold is of bytes ([proper_request]; the library does not check the list, and with one
    provider twice the answer of one can pass for that of two). When such a request is answered
    by the canister and the converted result is a consistent value, then at least as many
    different providers as the request's strategy requires, of those chosen for its sources,
    answered the canister with a value that the canister's conversion and the library's take
    to this value: for blocks, receipts, logs, transaction counts, the data of calls and the
    hashes of sent transactions; not for fee histories, whose ratios are floating-point numbers
    and have no structural equality. *)
Theorem client_answer_backed (now : Timestamp) (s : CanisterState) :
  (forall (b : GetBlockByNumberRequestBuilder R) world a,
     let r := builder_request b in
     results_from b (fun source config block =>
       endpoint_eth_get_block_by_number source config block now world) s ->
     proper_request (Request.rpc_services r) (Request.rpc_config r) ->
     try_send b = Return (Ok (Consistent (Ok a))) ->
     backed RpcMethod.EthGetBlockByNumber
       {| GetBlockByNumberParams.block := into_block_spec (Request.params r);
          GetBlockByNumberParams.include_full_transactions := false |}
       (Request.rpc_services r) (Request.rpc_config r) now world s
       (fun x => Block_try_from (from_block x) = Ok a)) /\
  (forall (b : GetTransactionReceiptRequestBuilder R) world a,
     let r := builder_request b in
     results_from b (fun source config hash =>
       endpoint_eth_get_transaction_receipt source config hash now world) s ->
     proper_request (Request.rpc_services r) (Request.rpc_config r) ->
     try_send b = Return (Ok (Consistent (Ok a))) ->
     backed RpcMethod.EthGetTransactionReceipt [into_hash (Request.params r)]
       (Request.rpc_services r) (Request.rpc_config r) now world s
       (fun x => option_transpose (option_map TransactionReceipt_try_from
          (option_map from_transaction_receipt x)) = Ok a)) /\
  (forall (b : GetTransactionCountRequestBuilder R) world a,
     let r := builder_request b in
     results_from b (fun source config args =>
       endpoint_eth_get_transaction_count source config args now world) s ->
     proper_request (Request.rpc_services r) (Request.rpc_config r) ->
     try_send b = Return (Ok (Consistent (Ok a))) ->
     backed RpcMethod.EthGetTransactionCount (into_get_transaction_count_params (Request.params r))
       (Request.rpc_services r) (Request.rpc_config r) now world s
       (fun x => alloy_U256_from_Nat256 (Nat256_from_Amount x) = a)) /\
  (forall (b : CallRequestBuilder R) world a,
     let r := builder_request b in
     results_from b (fun source config args => endpoint_eth_call source config args now world) s ->
     proper_request (Request.rpc_services r) (Request.rpc_config r) ->
     try_send b = Return (Ok (Consistent (Ok a))) ->
     backed RpcMethod.EthCall (into_eth_call_params (Request.params r))
       (Request.rpc_services r) (Request.rpc_config r) now world s
       (fun x => Bytes_from_Hex (from_data x) = a)) /\
  (forall (b : SendRawTransactionRequestBuilder R) world a,
     let r := builder_request b in
     results_from b (fun source config raw =>
       endpoint_eth_send_raw_transaction source config raw now world) s ->
     proper_request (Request.rpc_services r) (Request.rpc_config r) ->
     try_send b = Return (Ok (Consistent (Ok a))) ->
     backed RpcMethod.EthSendRawTransaction [Hex_to_string (Request.params r)]
       (Request.rpc_services r) (Request.rpc_config r) now world s
       (fun x => transaction_hash_of (from_send_raw_transaction_result
          (get_transaction_hash (Request.params r)) x) = Ok a)) /\
  (forall (b : GetLogsRequestBuilder R) world a,
     let r := builder_request b in
     let config := Some (RpcConfig_from_GetLogsRpcConfig
       (default GetLogsRpcConfig.GetLogsRpcConfig_default (Request.rpc_config r))) in
     results_from b (fun source config args =>
       endpoint_eth_get_logs source config args now world) s ->
     proper_request (Request.rpc_services r) config ->
     try_send b = Return (Ok (Consistent (Ok a))) ->
     backed RpcMethod.EthGetLogs [into_get_logs_param (Request.params r)]
       (Request.rpc_services r) config now world s
       (fun x => result_collect Log_try_from (from_log_entries x) = Ok a)).
Proof.
  split_and!; intros b world a; cbn zeta; intros Hb Hr Hsend;
    destruct (try_send_results _ _ _ _ Hb Hsend) as (w & s' & E & Ea); unfold into in Ea.
  - rewrite get_block_by_number_is_query in E.
    eapply converted_answer_backed; [exact Hr|exact E|exact Ea].
  - rewrite get_transaction_receipt_is_query in E.
    eapply (converted_answer_backed _ _ _ _ (fun r =>
      option_transpose (option_map TransactionReceipt_try_from r)));
      [exact Hr|exact E|exact Ea].
  - rewrite get_transaction_count_is_query in E.
    eapply mapped_answer_backed; [exact Hr|exact E|exact Ea].
  - rewrite call_is_query in E. eapply mapped_answer_backed; [exact Hr|exact E|exact Ea].
  - rewrite send_raw_transaction_is_query in E.
    eapply converted_answer_backed; [exact Hr|exact E|exact Ea].
  - destruct (block_count (Request.params (builder_request b))) as [count|] eqn:Ec.
    1: destruct (Z.lt_ge_cases (GetLogsRpcConfig.max_block_range_or_default
      (default GetLogsRpcConfig.GetLogsRpcConfig_default (Request.rpc_config (builder_request b))))
      count).
    1: by apply (get_logs_refused _ _ _ _ _ count) in E as [e ->].
    all: rewrite get_logs_is_query in E by (by rewrite Ec);
      eapply converted_answer_backed; [exact Hr|exact E|exact Ea].
Qed.
End Client.

(** ** Witness *)

Section Witnesses.
Import Instances.Concrete Alloy.Concrete.

(** A serialization of the answers: the number of a value. *)
#[local] Program Instance Bytes_countable n : Countable (Bytes n) :=
  inj_countable proj1_sig (fun bs =>
    match bool_dec (bytes_ok n bs) true with left H => Some (exist _ bs H) | right _ => None end) _.
Next Obligation.
  intros n [bs H]. simpl. destruct (bool_dec _ _) as [H'|]; [|done]. f_equal. by apply Bytes_eq.
Qed.
#[local] Program Instance U256_countable : Countable U256 :=
  inj_countable proj1_sig (fun z =>
    match bool_dec (is_u256 z) true with left H => Some (exist _ z H) | right _ => None end) _.
Next Obligation.
  intros [z H]. simpl. destruct (bool_dec _ _) as [H'|]; [|done]. f_equal. by apply U256_eq.
Qed.
#[local] Instance Address_countable : Countable Address.
Proof. by apply (inj_countable' Address_into_bytes Address_new); intros []. Defined.
#[local] Instance FixedSizeData_countable : Countable FixedSizeData.
Proof. by apply (inj_countable' FixedSizeData_into_bytes FixedSizeData_new); intros []. Defined.
#[local] Instance Hash_countable : Countable Hash.
Proof. by apply (inj_countable' Hash_into_bytes Hash_new); intros []. Defined.
#[local] Instance LogsBloom_countable : Countable LogsBloom.
Proof. by apply (inj_countable' LogsBloom_into_bytes LogsBloom_new); intros []. Defined.
#[local] Instance Byte_countable : Countable Byte.
Proof. by apply (inj_countable' byte_0 Build_Byte); intros []. Defined.
#[local] Instance JsonByte_countable : Countable JsonByte.
Proof. by apply (inj_countable' JsonByte_0 Build_JsonByte); intros []. Defined.
#[local] Instance Data_countable : Countable Data.
Proof. by apply (inj_countable' Data_0 Data_from); intros []. Defined.
#[local] Instance Amount_countable {Unit} : Countable (Amount Unit).
Proof. by apply (inj_countable' amount_0 Build_Amount); intros []. Defined.
#[local] Instance TransactionStatus_countable : Countable TransactionStatus.
Proof.
  by apply (inj_countable' (fun s => bool_decide (s = TransactionStatus.Success))
    (fun b => if b then TransactionStatus.Success else TransactionStatus.Failure)); intros [].
Defined.
#[local] Instance SendRawTransactionResult_countable : Countable SendRawTransactionResult.
Proof.
  apply (inj_countable' (fun r => match r with
      | SendRawTransactionResult.Ok => (true, true)
      | SendRawTransactionResult.InsufficientFunds => (true, false)
      | SendRawTransactionResult.NonceTooLow => (false, true)
      | SendRawTransactionResult.NonceTooHigh => (false, false)
      end) (fun p => match p with
      | (true, true) => SendRawTransactionResult.Ok
      | (true, false) => SendRawTransactionResult.InsufficientFunds
      | (false, true) => SendRawTransactionResult.NonceTooLow
      | (false, false) => SendRawTransactionResult.NonceTooHigh
      end)). by intros [].
Defined.
#[local] Instance LogEntry_countable : Countable JsonTypes.LogEntry.
Proof.
  apply (inj_countable' (fun r => (
    JsonTypes.LogEntry.address r, JsonTypes.LogEntry.topics r, JsonTypes.LogEntry.data r,
    JsonTypes.LogEntry.block_number r, JsonTypes.LogEntry.transaction_hash r,
    JsonTypes.LogEntry.transaction_index r, JsonTypes.LogEntry.block_hash r,
    JsonTypes.LogEntry.log_index r, JsonTypes.LogEntry.removed r))
    (fun '(a0, a1, a2, a3, a4, a5, a6, a7, a8) =>
      JsonTypes.LogEntry.Build_LogEntry a0 a1 a2 a3 a4 a5 a6 a7 a8)).
  by intros [].
Defined.
#[local] Instance TransactionReceipt_countable : Countable JsonTypes.TransactionReceipt.
Proof.
  apply (inj_countable' (fun r => (
    JsonTypes.TransactionReceipt.block_hash r, JsonTypes.TransactionReceipt.block_number r,
    JsonTypes.TransactionReceipt.effective_gas_price r,
    JsonTypes.TransactionReceipt.cumulative_gas_used r, JsonTypes.TransactionReceipt.gas_used r,
    JsonTypes.TransactionReceipt.status r, JsonTypes.TransactionReceipt.root r,
    JsonTypes.TransactionReceipt.transaction_hash r,
    JsonTypes.TransactionReceipt.contract_address r, JsonTypes.TransactionReceipt.from r,
    JsonTypes.TransactionReceipt.logs r, JsonTypes.TransactionReceipt.logs_bloom r,
    JsonTypes.TransactionReceipt.to r, JsonTypes.TransactionReceipt.transaction_index r,
    JsonTypes.TransactionReceipt.tx_type r))
    (fun '(a0, a1, a2, a3, a4, a5, a6, a7, a8, a9, a10, a11, a12, a13, a14) =>
      JsonTypes.TransactionReceipt.Build_TransactionReceipt a0 a1 a2 a3 a4 a5 a6 a7 a8 a9 a10 a11 a12 a13 a14)).
  by intros [].
Defined.
#[local] Instance Block_countable : Countable JsonTypes.Block.
Proof.
  apply (inj_countable' (fun r => (
    JsonTypes.Block.base_fee_per_gas r, JsonTypes.Block.number r, JsonTypes.Block.difficulty r,
    JsonTypes.Block.extra_data r, JsonTypes.Block.gas_limit r, JsonTypes.Block.gas_used r,
    JsonTypes.Block.hash r, JsonTypes.Block.logs_bloom r, JsonTypes.Block.miner r,
    JsonTypes.Block.mix_hash r, JsonTypes.Block.nonce r, JsonTypes.Block.parent_hash r,
    JsonTypes.Block.receipts_root r, JsonTypes.Block.sha3_uncles r, JsonTypes.Block.size r,
    JsonTypes.Block.state_root r, JsonTypes.Block.timestamp r, JsonTypes.Block.transactions r,
    JsonTypes.Block.transactions_root r, JsonTypes.Block.uncles r))
    (fun '(a0, a1, a2, a3, a4, a5, a6, a7, a8, a9, a10, a11, a12, a13, a14, a15, a16, a17, a18, a19) =>
      JsonTypes.Block.Build_Block a0 a1 a2 a3 a4 a5 a6 a7 a8 a9 a10 a11 a12 a13 a14 a15 a16 a17 a18 a19)).
  by intros [].
Defined.
#[local] Existing Instances number_serde number_serde_laws.
#[local] Existing Instances minicbor_crate peq_answer peq_answer_laws.
(** The data of a call travels as it is; the other results are not used. *)
#[local] Instance candid_nothing {T} : CandidType T | 100 :=
  {| candid_encode _ := Err "not used"; candid_decode _ := Err "not used" |}.
#[local] Instance candid_data : CandidType (MultiRpcResult Hex) := {|
  candid_encode r := match r with Consistent (Ok h) => Ok (Hex_0 h) | _ => Err "not used" end;
  candid_decode bytes := Ok (Consistent (Ok {| Hex_0 := bytes |})) |}.

(** Two of three hosts answer a call with 7, the third with 9. *)
Definition call_world : World EthCallParams Data := {|
  outcall provider req := Ok {| http_status := 200; http_body := {|
    response_id := 0;
    response_result := Ok (Data_from
      [if bool_decide (req_uri req = "https://b.example") then 9 else 7]) |} |};
  during_await s := s;
  resumed_at := 5 |}.
Definition some_call : CallArgs := {|
  CallArgs.transaction := {|
    CandidTypes.TransactionRequest.tx_type := None;
    CandidTypes.TransactionRequest.nonce := None;
    CandidTypes.TransactionRequest.to := Some (account_of 7);
    CandidTypes.TransactionRequest.from := None;
    CandidTypes.TransactionRequest.gas := None;
    CandidTypes.TransactionRequest.value := None;
    CandidTypes.TransactionRequest.input := None;
    CandidTypes.TransactionRequest.gas_price := None;
    CandidTypes.TransactionRequest.max_priority_fee_per_gas := None;
    CandidTypes.TransactionRequest.max_fee_per_gas := None;
    CandidTypes.TransactionRequest.max_fee_per_blob_gas := None;
    CandidTypes.TransactionRequest.access_list := None;
    CandidTypes.TransactionRequest.blob_versioned_hashes := None;
    CandidTypes.TransactionRequest.blobs := None;
    CandidTypes.TransactionRequest.chain_id := None |};
  CallArgs.block := None |}.

(** A client of the three hosts with a threshold of two, whose runtime returns what the canister
    does. *)
Definition call_request : CallRequestBuilder StubRuntime := {|
  builder_client := build (with_runtime (fun _ : StubRuntime =>
      {| default_call_result := Some [7]; method_to_call_result_map := ∅ |})
    (EvmRpcClient_builder StubRuntime_new EVM_RPC_CANISTER));
  builder_request := {|
    Request.endpoint := EvmRpcEndpoint.Call; Request.rpc_services := three_apis;
    Request.rpc_config := Some two_of_three; Request.params := some_call;
    Request.cycles := 10000000000 |} |}.

Lemma call_request_results :
  results_from call_request
    (fun source config args => endpoint_eth_call source config args 0 call_world) initial_state.
Proof.
  intros w [= <-]. eexists. vm_compute. reflexivity.
Qed.

Lemma client_answer_backed_witness :
  try_send call_request = Return (Ok (Consistent (Ok ([7] : alloy_Bytes)))) /\
  backed RpcMethod.EthCall (into_eth_call_params some_call) three_apis (Some two_of_three) 0
    call_world initial_state (fun x => Bytes_from_Hex (from_data x) = ([7] : alloy_Bytes)).
Proof.
  split; [reflexivity|].
  pose proof (client_answer_backed (R := StubRuntime) 0 initial_state) as (_ & _ & _ & Hc & _).
  apply (Hc call_request call_world); [| |reflexivity].
  - exact call_request_results.
  - split; [split; [by_compute|simpl; lia]|].
    split; [vm_compute; split; congruence|]. intros t [= <-]. vm_compute; split; congruence.
Defined.
End Witnesses.
