(* ===== verification/Interleaving.v ===== *)
(** The outcalls of one query at the same time: the calls to the providers, each through the
    layers of [src/http.rs], as threads that share the state of the canister and are cut at
    their waits, with the steps of other messages in between. The trace of an execution,
    projected to one call, is a call of [http_client] in the world that the trace describes;
    the ids in flight differ, and the calls end. *)

From S2P Require Import Prelude Collections EvmRpcTypes Externals Types Providers Memory.
From S2P Require Import ProviderApi EthRpc Http RpcClient.
From S2P Require Instances.
Open Scope Z_scope.
Open Scope canister_scope.

Section Interleaving.
Context `{TSM : TimedSizedMapApi SupportedRpcService unit} `{Canlog : CanlogCrate}.
Context `{Laws : RetryLaws} `{HttpCrate} {I O : Type}.

(** ** Threads *)

(** A call that was not polled yet, one that waits for the outcall of an attempt (the request
    that a retry starts from, the request that was sent, with its id, and what the
    observability layer keeps), and one that ended. *)
Inductive Call :=
| Pending (req : HttpRequest (JsonRpcRequest I))
| Waiting (req numbered : HttpRequest (JsonRpcRequest I)) (data : MetricRpcMethod * MetricRpcHost)
| Done (result : Result (HttpJsonRpcResponse O) HttpClientError).

Context (method : MetricRpcMethod).
Implicit Types (req numbered : HttpRequest (JsonRpcRequest I)) (outside : Outside I O).
Implicit Types (data : MetricRpcMethod * MetricRpcHost).
Implicit Types (a result : Result (HttpJsonRpcResponse O) HttpClientError).

(** From the start of an attempt to its wait. *)
Definition begin_attempt (req : HttpRequest (JsonRpcRequest I)) : M Call :=
  numbered ← generate_request_id req;
  data ← on_request method numbered;
  mret (Waiting req numbered data).

Definition observe (data : MetricRpcMethod * MetricRpcHost)
    (a : Result (HttpJsonRpcResponse O) HttpClientError) : M unit :=
  match a with
  | Ok response => on_response data response
  | Err error => on_error data error
  end.

(** From the answer to the end of the call, or to the wait of the next attempt. *)
Definition end_attempt (req : HttpRequest (JsonRpcRequest I))
    (data : MetricRpcMethod * MetricRpcHost)
    (a : Result (HttpJsonRpcResponse O) HttpClientError) : M Call :=
  observe data a ;;
  match next_request req a with
  | Some req => begin_attempt req
  | None => mret (Done a)
  end.

(** The calls and the state they share. *)
Definition System : Type := list Call * CanisterState.

(** What happens: the [i]-th call is polled for the first time, it gets the answer [a] to its
    current attempt, or another message does something. *)
Inductive Event :=
| Begin (i : nat)
| End (i : nat) (a : Result (HttpJsonRpcResponse O) HttpClientError)
| Other.

(** What other messages may do to the state meanwhile. *)
Context (others : relation CanisterState).

Inductive labelled_step : Event -> System -> System -> Prop :=
| step_begin i req c' calls s s' :
    calls !! i = Some (Pending req) -> begin_attempt req s = Return (c', s') ->
    labelled_step (Begin i) (calls, s) (<[i := c']> calls, s')
| step_end i req numbered data a c' calls s s' :
    calls !! i = Some (Waiting req numbered data) -> end_attempt req data a s = Return (c', s') ->
    labelled_step (End i a) (calls, s) (<[i := c']> calls, s')
| step_other calls s s' : others s s' -> labelled_step Other (calls, s) (calls, s').

Definition step (x y : System) : Prop := exists e, labelled_step e x y.

(** One item of a trace: the event, with the states of the canister before and after it. *)
Record Item := { before : CanisterState; event : Event; after : CanisterState }.

Inductive execution : System -> list Item -> System -> Prop :=
| execution_nil x : execution x [] x
| execution_cons e x y trace z :
    labelled_step e x y -> execution y trace z ->
    execution x ({| before := x.2; event := e; after := y.2 |} :: trace) z.

(** The step of the [i]-th call, which gets the answer [a] if it waits for one. *)
Definition advance (i : nat) (a : Result (HttpJsonRpcResponse O) HttpClientError) (x : System) :
  option (Event * System) :=
  c ← x.1 !! i;
  '(e, m) ← match c with
      | Pending req => Some (Begin i, begin_attempt req)
      | Waiting req _ data => Some (End i a, end_attempt req data a)
      | Done _ => None
      end;
  match m x.2 with Return (c', s') => Some (e, (<[i := c']> x.1, s')) | Panic _ => None end.

Lemma advance_step i a x e y : advance i a x = Some (e, y) -> labelled_step e x y.
Proof.
  destruct x as [calls s]. unfold advance, mbind, option_bind. cbn [fst snd].
  destruct (calls !! i) as [[req|req numbered data|r]|] eqn:Ei; try done; intros E.
  - destruct (begin_attempt req s) as [[c' s']|] eqn:Es; [|done]. injection E as <- <-.
    by eapply step_begin.
  - destruct (end_attempt req data a s) as [[c' s']|] eqn:Es; [|done]. injection E as <- <-.
    by eapply step_end.
Qed.

(** The execution in which the calls go on in a given order. *)
Fixpoint execute (l : list (nat * Result (HttpJsonRpcResponse O) HttpClientError)) (x : System) :
  option (list Item * System) :=
  match l with
  | [] => Some ([], x)
  | (i, a) :: l =>
      '(e, y) ← advance i a x;
      '(trace, z) ← execute l y;
      Some ({| before := x.2; event := e; after := y.2 |} :: trace, z)
  end.

Lemma execute_execution l x trace z : execute l x = Some (trace, z) -> execution x trace z.
Proof.
  revert x trace. induction l as [|[i a] l IH]; intros x trace E; cbn in E.
  { injection E as <- <-. apply execution_nil. }
  destruct (advance i a x) as [[e y]|] eqn:Ey; [|done]. cbn in E.
  destruct (execute l y) as [[trace' z']|] eqn:Ez; [|done]. injection E as <- <-.
  eapply execution_cons; [by eapply advance_step|by apply IH].
Qed.

(** ** The projection of a trace to one call *)

Definition start_item (i : nat) (item : Item) : option CanisterState :=
  match event item with
  | Begin j => if decide (j = i) then Some (before item) else None
  | _ => None
  end.
Definition answer_item (i : nat) (item : Item) :
  option (CanisterState * Result (HttpJsonRpcResponse O) HttpClientError) :=
  match event item with
  | End j a => if decide (j = i) then Some (before item, a) else None
  | _ => None
  end.
Definition end_item (i : nat) (item : Item) : option CanisterState :=
  match event item with
  | End j _ => if decide (j = i) then Some (after item) else None
  | _ => None
  end.

(** The state in which the call starts, the answers that it gets with the states in which they
    arrive, the state that the last of them leaves, and the number of the call's steps. *)
Definition start_of (i : nat) (trace : list Item) : option CanisterState :=
  head (omap (start_item i) trace).
Definition answers_of (i : nat) (trace : list Item) :
  list (CanisterState * Result (HttpJsonRpcResponse O) HttpClientError) :=
  omap (answer_item i) trace.
Definition end_of (i : nat) (trace : list Item) : option CanisterState :=
  last (omap (end_item i) trace).
Definition steps_of (i : nat) (trace : list Item) : nat :=
  length (omap (start_item i) trace) + length (answers_of i trace).

(** The world of attempts that get the given answers, from the [k]-th one on. *)
Definition outside_from (k : nat)
    (answers : list (CanisterState * Result (HttpJsonRpcResponse O) HttpClientError)) :
    Outside I O := {|
  answer j _ := match answers !! (j - k)%nat with
                | Some (_, a) => a
                | None => Err (HttpClientError.NotHandledError "")
                end;
  meanwhile j s := match answers !! (j - k)%nat with Some (t, _) => t | None => s end |}.

(** The world that a trace describes to a call: its [k]-th attempt gets the [k]-th answer of the
    trace, in the state of the canister that the trace has then. *)
Definition outside_of (i : nat) (trace : list Item) : Outside I O :=
  outside_from 0 (answers_of i trace).

(** ** Each call is a call of [http_client] *)

(** The rest of a call that waits for its [k]-th attempt. *)
Definition resume (fuel : nat) (outside : Outside I O) (k : nat)
    (req numbered : HttpRequest (JsonRpcRequest I)) (data : MetricRpcMethod * MetricRpcHost) :
    M (Result (HttpJsonRpcResponse O) HttpClientError) :=
  modify (meanwhile outside k) ;;
  observe data (answer outside k numbered) ;;
  match next_request req (answer outside k numbered) with
  | Some req => retry_call fuel method outside (S k) req
  | None => mret (answer outside k numbered)
  end.

Lemma retry_call_begin fuel outside k req s :
  retry_call (S fuel) method outside k req s =
  match begin_attempt req s with
  | Return (Waiting req numbered data, s') => resume fuel outside k req numbered data s'
  | Return (_, _) => Panic OUT_OF_FUEL
  | Panic msg => Panic msg
  end.
Proof.
  cbn [retry_call]. unfold observed_call, begin_attempt, resume, observe, mbind, M_bind, mret, M_ret.
  destruct (generate_request_id req s) as [[numbered s1]|]; [|done].
  destruct (on_request method numbered s1) as [[data s2]|]; [|done]. unfold modify.
  destruct (answer outside k numbered) as [response|error].
  - by destruct (on_response _ _ _) as [[]|].
  - by destruct (on_error _ _ _) as [[]|].
Qed.

(** A call looks at the world from its current attempt on. *)
Lemma retry_call_world fuel outside outside' k req s :
  (forall j, (k <= j)%nat ->
     answer outside j = answer outside' j /\ meanwhile outside j = meanwhile outside' j) ->
  retry_call fuel method outside k req s = retry_call fuel method outside' k req s.
Proof.
  revert k req s. induction fuel as [|fuel IH]; intros k req s Hw; [done|].
  rewrite !retry_call_begin. destruct (begin_attempt req s) as [[[|req' numbered data|] s']|]; try done.
  unfold resume, mbind, M_bind, modify. destruct (Hw k ltac:(lia)) as [-> ->].
  destruct (observe _ _ _) as [[]|]; [|done].
  destruct (next_request _ _); [|done]. apply IH. intros j Hj. apply Hw. lia.
Qed.

Lemma outside_from_next k x l j :
  (S k <= j)%nat ->
  answer (outside_from k (x :: l)) j = answer (outside_from (S k) l) j /\
  meanwhile (outside_from k (x :: l)) j = meanwhile (outside_from (S k) l) j.
Proof.
  intros Hj. assert (E : (j - k)%nat = S (j - S k)) by lia.
  unfold outside_from. cbn [answer meanwhile]. by rewrite E.
Qed.

Lemma begin_attempt_waits req s c s' :
  begin_attempt req s = Return (c, s') -> exists numbered data, c = Waiting req numbered data.
Proof.
  unfold begin_attempt, mbind, M_bind, mret, M_ret.
  destruct (generate_request_id req s) as [[numbered s1]|]; [|done].
  destruct (on_request method numbered s1) as [[data s2]|]; [|done]. intros [= <- _]. eauto.
Qed.

(** How a thread that ends with [result] goes on in the rest of the trace. *)
Definition goes_on (i : nat) (trace : list Item) (c : Call)
    (result : Result (HttpJsonRpcResponse O) HttpClientError) : Prop :=
  let l := answers_of i trace in
  match c with
  | Pending req => exists s s', start_of i trace = Some s /\ end_of i trace = Some s' /\
      forall k, retry_call (S (length l)) method (outside_from k l) k req s = Return (result, s')
  | Waiting req numbered data => exists s', end_of i trace = Some s' /\
      forall k s, resume (length l) (outside_from k l) k req numbered data s = Return (result, s')
  | Done r => r = result /\ end_of i trace = None
  end.

Lemma end_of_cons_None i item trace :
  end_item i item = None -> end_of i (item :: trace) = end_of i trace.
Proof. intros E. unfold end_of. cbn. by rewrite E. Qed.
Lemma end_of_cons_Some i item trace s :
  end_item i item = Some s ->
  end_of i (item :: trace) = match end_of i trace with Some s' => Some s' | None => Some s end.
Proof. intros E. unfold end_of. cbn. by rewrite E, last_cons. Qed.

(** The first poll of a call, before the rest of it. *)
Lemma goes_on_begin i req s c s' trace result :
  begin_attempt req s = Return (c, s') -> goes_on i trace c result ->
  goes_on i ({| before := s; event := Begin i; after := s' |} :: trace) (Pending req) result.
Proof.
  intros Eb Hg. destruct (begin_attempt_waits _ _ _ _ Eb) as (numbered & data & ->).
  destruct Hg as (s'' & Ee & Hr). exists s, s''. split_and!.
  - unfold start_of. cbn. by rewrite decide_True.
  - by rewrite end_of_cons_None.
  - intros k. rewrite retry_call_begin, Eb. apply Hr.
Qed.

(** The end of an attempt, before the rest of the call. *)
Lemma goes_on_end i req numbered data a s c s' trace result :
  end_attempt req data a s = Return (c, s') -> goes_on i trace c result ->
  goes_on i ({| before := s; event := End i a; after := s' |} :: trace)
    (Waiting req numbered data) result.
Proof.
  intros Es Hg.
  assert (El : answers_of i ({| before := s; event := End i a; after := s' |} :: trace) =
    (s, a) :: answers_of i trace) by (unfold answers_of; cbn; by rewrite decide_True).
  unfold goes_on. rewrite El, (end_of_cons_Some _ _ _ s') by (cbn; by rewrite decide_True).
  assert (Ea : forall k, answer (outside_from k ((s, a) :: answers_of i trace)) k numbered = a /\
    forall t, meanwhile (outside_from k ((s, a) :: answers_of i trace)) k t = s)
    by (intros k; cbn; by rewrite Nat.sub_diag).
  unfold end_attempt, mbind, M_bind in Es.
  destruct (observe data a s) as [[u s1]|] eqn:Eo; [|done].
  destruct (next_request req a) as [req'|] eqn:En.
  - destruct (begin_attempt_waits _ _ _ _ Es) as (numbered' & data' & ->).
    destruct Hg as (s'' & -> & Hr). exists s''. split; [done|]. intros k t.
    unfold resume, mbind, M_bind, modify. destruct (Ea k) as [-> ->].
    rewrite Eo, En, (retry_call_world _ _ (outside_from (S k) (answers_of i trace)))
      by apply outside_from_next.
    cbn [length]. rewrite retry_call_begin, Es. apply Hr.
  - injection Es as <- <-. destruct Hg as [-> ->]. exists s1. split; [done|]. intros k t.
    unfold resume, mbind, M_bind, modify. destruct (Ea k) as [-> ->]. by rewrite Eo, En.
Qed.

(** The step of another thread or of another message. *)
Lemma goes_on_other i item trace c result :
  start_item i item = None -> answer_item i item = None -> end_item i item = None ->
  goes_on i trace c result -> goes_on i (item :: trace) c result.
Proof.
  intros Es Ea Ee. unfold goes_on, start_of, answers_of. rewrite end_of_cons_None by done.
  cbn. by rewrite Es, Ea.
Qed.

Lemma goes_on_execution x trace y i c result :
  execution x trace y -> x.1 !! i = Some c -> y.1 !! i = Some (Done result) ->
  goes_on i trace c result.
Proof.
  intros Hx. revert c. induction Hx as [x|e x y trace z Hs _ IH]; intros c Hc Hz.
  { rewrite Hc in Hz. by injection Hz as ->. }
  destruct Hs as [j req c' calls s s' Hj Es|j req numbered data a c' calls s s' Hj Es|calls s s' _];
    cbn [fst snd] in *; [..|by apply goes_on_other, IH].
  all: destruct (decide (j = i)) as [->|Hne];
    [rewrite Hj in Hc; injection Hc as <-
    |apply goes_on_other; cbn; rewrite ?decide_False by done; try done;
     apply IH; [by rewrite list_lookup_insert_ne|done]].
  all: assert (Hi : <[i := c']> calls !! i = Some c')
    by (apply list_lookup_insert_eq; by eapply lookup_lt_Some).
  - by eapply goes_on_begin, IH.
  - by eapply goes_on_end, IH.
Qed.

Lemma retry_call_more fuel extra outside k req s r :
  retry_call fuel method outside k req s = Return r ->
  retry_call (fuel + extra) method outside k req s = Return r.
Proof.
  revert k req s. induction fuel as [|fuel IH]; intros k req s; [done|].
  cbn [Nat.add]. rewrite !retry_call_begin.
  destruct (begin_attempt req s) as [[[|req' numbered data|] s']|]; try done.
  unfold resume, mbind, M_bind, modify. destruct (observe _ _ _) as [[]|]; [|done].
  destruct (next_request _ _); [|done]. apply IH.
Qed.

(** ** The attempts are limited *)

(** The number of steps that a call may still take. *)
Definition may_take (n : nat) (c : Call) : Prop :=
  match c with
  | Pending req => exists fuel, n = S fuel /\ enough_fuel fuel req
  | Waiting req _ _ => enough_fuel n req
  | Done _ => True
  end.

(** What is left of a call for a request: as long as it has steps before it, its URL is that of
    the request, and once it has started, the URL has a host. *)
Definition call_of (req : HttpRequest (JsonRpcRequest I)) (c : Call) : Prop :=
  match c with
  | Pending req' => req' = req
  | Waiting req' _ _ => req_uri req' = req_uri req /\ uri_host (req_uri req) <> None
  | Done _ => uri_host (req_uri req) <> None
  end.

Lemma next_request_uri req req' a :
  next_request req a = Some req' -> req_uri req' = req_uri req.
Proof. by intros (e & n & n' & _ & _ & _ & _ & _ & ->)%next_request_spec. Qed.

Lemma begin_attempt_spec req s :
  match uri_host (req_uri req) with
  | Some _ => exists numbered data s', begin_attempt req s = Return (Waiting req numbered data, s')
  | None => begin_attempt req s = Panic NO_HOST
  end.
Proof.
  unfold begin_attempt, generate_request_id, on_request, mbind, M_bind, mret, M_ret.
  simpl. destruct (uri_host (req_uri req)) as [host|]; simpl; eauto.
Qed.

Lemma observe_returns data a s : exists s', observe data a s = Return ((), s').
Proof.
  unfold observe, on_response, on_error, observe_response, update_metrics, modify, mret, M_ret.
  destruct a as [|[]]; eauto. case_match; eauto.
Qed.

(** The first poll, and the end of an attempt, take one step of a call. *)
Lemma begin_attempt_step n req0 req s c s' :
  may_take n (Pending req) -> call_of req0 (Pending req) -> begin_attempt req s = Return (c, s') ->
  exists n', n = S n' /\ may_take n' c /\ call_of req0 c.
Proof.
  intros (fuel & -> & Hf) <- E. exists fuel. split; [done|].
  pose proof (begin_attempt_spec req s) as Hb.
  destruct (uri_host (req_uri req)) eqn:Eh; [|by rewrite Hb in E].
  destruct Hb as (numbered & data & s1 & Hb). rewrite Hb in E. injection E as <- <-.
  split; [done|]. simpl. by rewrite Eh.
Qed.

Lemma end_attempt_step n req0 req numbered data a s c s' :
  may_take n (Waiting req numbered data) -> call_of req0 (Waiting req numbered data) ->
  end_attempt req data a s = Return (c, s') ->
  exists n', n = S n' /\ may_take n' c /\ call_of req0 c.
Proof.
  intros Hf [Hu Hh] E. destruct n as [|n]; [by destruct Hf; lia|]. exists n. split; [done|].
  unfold end_attempt, mbind, M_bind in E. destruct (observe_returns data a s) as (s1 & Eo).
  rewrite Eo in E. destruct (next_request req a) as [req'|] eqn:En; [|by injection E as <- <-].
  destruct (begin_attempt_waits _ _ _ _ E) as (numbered' & data' & ->).
  split; [by eapply enough_fuel_next|]. simpl. by rewrite (next_request_uri _ _ _ En).
Qed.

(** A call that can start, or that waits, goes on whatever answer it gets. *)
Lemma advance_returns x i c req0 a :
  x.1 !! i = Some c -> call_of req0 c -> uri_host (req_uri req0) <> None ->
  (exists r, c = Done r) \/ exists e y, advance i a x = Some (e, y).
Proof.
  intros Hi Hc Hh. unfold advance, mbind, option_bind. rewrite Hi.
  destruct c as [req|req numbered data|r]; [right|right|left; eauto].
  - simpl in Hc. subst req. pose proof (begin_attempt_spec req0 x.2) as Hb.
    destruct (uri_host (req_uri req0)); [|done]. destruct Hb as (numbered & data & s' & ->). eauto.
  - destruct Hc as [Hu _]. unfold end_attempt, mbind, M_bind.
    destruct (observe_returns data a x.2) as (s1 & ->).
    destruct (next_request req a) as [req'|] eqn:En; [|by eexists _, _].
    pose proof (begin_attempt_spec req' s1) as Hb.
    rewrite (next_request_uri _ _ _ En), Hu in Hb.
    destruct (uri_host (req_uri req0)); [|done].
    destruct Hb as (numbered' & data' & s' & ->). by eexists _, _.
Qed.

(** A call takes no more steps than it may, and stays the call of its request. *)
Lemma execution_steps x trace y i c n req0 :
  execution x trace y -> x.1 !! i = Some c -> may_take n c -> call_of req0 c ->
  (steps_of i trace <= n)%nat /\ exists c', y.1 !! i = Some c' /\ call_of req0 c'.
Proof.
  intros Hx. revert c n. induction Hx as [x|e x y trace z Hs _ IH]; intros c n Hc Hn Hreq.
  { unfold steps_of. simpl. split; [lia|eauto]. }
  destruct Hs as [j req c' calls s s' Hj Es|j req numbered data a c' calls s s' Hj Es|calls s s' _];
    cbn [fst snd] in *; [..|by eapply IH].
  all: destruct (decide (j = i)) as [->|Hne];
    [rewrite Hj in Hc; injection Hc as <-
    |unfold steps_of, answers_of; cbn; rewrite decide_False by done; eapply IH;
     [by rewrite list_lookup_insert_ne|done..]].
  all: assert (Hi : <[i := c']> calls !! i = Some c')
    by (apply list_lookup_insert_eq; by eapply lookup_lt_Some).
  - destruct (begin_attempt_step _ _ _ _ _ _ Hn Hreq Es) as (n' & -> & Hn' & Hreq').
    destruct (IH c' n' Hi Hn' Hreq') as [Hle Hex]. split; [|done].
    unfold steps_of, answers_of in *. cbn. rewrite decide_True by done. cbn. lia.
  - destruct (end_attempt_step _ _ _ _ _ _ _ _ _ Hn Hreq Es) as (n' & -> & Hn' & Hreq').
    destruct (IH c' n' Hi Hn' Hreq') as [Hle Hex]. split; [|done].
    unfold steps_of, answers_of in *. cbn. rewrite decide_True by done. cbn. lia.
Qed.

(** ** Ids *)

(** Ids of different numbers are different. *)
Class JsonRpcIdLaws := Id_from_inj : forall m n : u64,
  0 <= m < 2 ^ 64 -> 0 <= n < 2 ^ 64 -> Id_from m = Id_from n -> m = n.

Notation counter s := (UNSTABLE_HTTP_REQUEST_COUNTER s).

(** The id of a call that waits was given out before, and to it alone. *)
Definition ids_given (x : System) : Prop :=
  (forall i req numbered data, x.1 !! i = Some (Waiting req numbered data) ->
     exists n, 0 <= n < counter x.2 /\ request_id (req_body numbered) = Id_from n) /\
  (forall i j req numbered data req' numbered' data', i <> j ->
     x.1 !! i = Some (Waiting req numbered data) ->
     x.1 !! j = Some (Waiting req' numbered' data') ->
     request_id (req_body numbered) <> request_id (req_body numbered')).

Lemma update_metrics_counter f s s' :
  update_metrics f s = Return ((), s') -> counter s' = counter s.
Proof. by intros [= <-]. Qed.

Lemma begin_attempt_id req s req' numbered data s' :
  0 <= counter s < 2 ^ 64 - 1 ->
  begin_attempt req s = Return (Waiting req' numbered data, s') ->
  request_id (req_body numbered) = Id_from (counter s) /\ counter s' = counter s + 1.
Proof.
  intros Hc. unfold begin_attempt, generate_request_id, next_request_id, on_request,
    get_state, modify, mbind, M_bind, mret, M_ret. cbn [req_uri].
  destruct (uri_host (req_uri req)) as [host|]; [|done]. unfold update_metrics, modify.
  intros [= _ <- _ <-]. cbn. split; [done|]. apply wrap_small. unfold in_range. lia.
Qed.

Lemma observe_counter data a s s' : observe data a s = Return ((), s') -> counter s' = counter s.
Proof.
  unfold observe, on_response, on_error, observe_response.
  destruct a as [response|[]]; intros E;
    repeat case_match; first [by eapply update_metrics_counter|by injection E as <-].
Qed.

(** What a call's step does to the counter: it stays, or it gives out the id of the attempt. *)
Definition counted (s s' : CanisterState) (c' : Call) : Prop :=
  match c' with
  | Waiting _ numbered _ =>
      request_id (req_body numbered) = Id_from (counter s) /\ counter s' = counter s + 1
  | _ => counter s' = counter s
  end.

Lemma begin_attempt_counter req s c' s' :
  begin_attempt req s = Return (c', s') -> 0 <= counter s < 2 ^ 64 - 1 -> counted s s' c'.
Proof.
  intros Es Hc. destruct (begin_attempt_waits _ _ _ _ Es) as (numbered & data & ->).
  by eapply begin_attempt_id.
Qed.

Lemma end_attempt_counter req data a s c' s' :
  end_attempt req data a s = Return (c', s') -> 0 <= counter s < 2 ^ 64 - 1 -> counted s s' c'.
Proof.
  intros Es Hc. unfold end_attempt, mbind, M_bind in Es.
  destruct (observe data a s) as [[[] s1]|] eqn:Eo; [|done].
  apply observe_counter in Eo. unfold counted. rewrite <- Eo. rewrite <- Eo in Hc.
  destruct (next_request req a) as [req'|]; [|by injection Es as <- <-].
  by eapply begin_attempt_counter.
Qed.

(** One call goes on, and gets an id or not. *)
Lemma ids_given_insert `{!JsonRpcIdLaws} calls i c' s s' :
  0 <= counter s < 2 ^ 64 - 1 -> is_Some (calls !! i) -> counted s s' c' ->
  ids_given (calls, s) -> ids_given (<[i := c']> calls, s') /\ counter s <= counter s'.
Proof.
  intros Hc [c Hi] Hr [Hgiven Hdiffer]. unfold counted in Hr. cbn [fst snd] in *.
  assert (Hle : counter s <= counter s') by (destruct c'; lia).
  assert (Hnew : forall j req numbered data, <[i := c']> calls !! j = Some (Waiting req numbered data) ->
    (j = i /\ request_id (req_body numbered) = Id_from (counter s) /\ counter s' = counter s + 1) \/
    (j <> i /\ calls !! j = Some (Waiting req numbered data))).
  { intros j req numbered data Hj. destruct (decide (j = i)) as [->|Hne].
    - rewrite list_lookup_insert_eq in Hj by (by eapply lookup_lt_Some).
      injection Hj as ->. by left.
    - right. by rewrite list_lookup_insert_ne in Hj. }
  assert (Hold : forall j req numbered data, calls !! j = Some (Waiting req numbered data) ->
    request_id (req_body numbered) <> Id_from (counter s)).
  { intros j req numbered data Hj E. destruct (Hgiven _ _ _ _ Hj) as (n & Hn & En).
    rewrite E in En. apply Id_from_inj in En; lia. }
  split; [split|done]; cbn [fst snd].
  - intros j req numbered data Hj. destruct (Hnew _ _ _ _ Hj) as [(_ & E & Ec)|[_ Hj']].
    + exists (counter s). split; [lia|done].
    + destruct (Hgiven _ _ _ _ Hj') as (n & Hn & En). exists n. split; [lia|done].
  - intros j k req numbered data req' numbered' data' Hjk Hj Hk.
    destruct (Hnew _ _ _ _ Hj) as [(-> & -> & _)|[_ Hj']],
      (Hnew _ _ _ _ Hk) as [(-> & E & _)|[_ Hk']]; [done|..].
    + intros E. symmetry in E. by eapply Hold.
    + rewrite E. by eapply Hold.
    + by eapply Hdiffer.
Qed.

Lemma ids_given_step `{!JsonRpcIdLaws} x y :
  0 <= counter x.2 < 2 ^ 64 - 1 -> (forall s1 s2, others s1 s2 -> counter s1 <= counter s2) ->
  step x y -> ids_given x -> ids_given y /\ counter x.2 <= counter y.2.
Proof.
  intros Hc Ho [e Hs] Hx. destruct Hs as [i req c' calls s s' Hi Es
    |i req numbered data a c' calls s s' Hi Es|calls s s' Hs]; cbn [snd] in *.
  - eapply ids_given_insert; [done|by eexists| |done]. by eapply begin_attempt_counter.
  - eapply ids_given_insert; [done|by eexists| |done]. by eapply end_attempt_counter.
  - apply Ho in Hs as Hle. split; [|done]. destruct Hx as [Hg Hd]. split; [|exact Hd].
    intros j req numbered data Hj. destruct (Hg j req numbered data Hj) as (n & Hn & E).
    exists n. cbn [snd] in *. split; [lia|done].
Qed.

(** ** Theorems *)

Definition ended (c : Call) : Prop := match c with Done _ => True | _ => False end.

(** C23: the calls to the providers end, in whatever order they go on and whatever answers they
    get, for requests that allow at least one byte, as those of the canister do: each of them
    takes at most 23 steps, its start and the ends of at most 22 attempts. A call whose URL has
    a host never traps: as long as it has not ended, it goes on with every answer, so that the
    query waits for nothing but answers. A call whose URL has no host never starts: its first
    poll traps. *)
Theorem interleaved_calls_end (reqs : list (HttpRequest (JsonRpcRequest I))) s trace x i req :
  Forall allows_a_byte reqs ->
  execution (map Pending reqs, s) trace x ->
  reqs !! i = Some req ->
  (steps_of i trace <= 23)%nat /\
  match uri_host (req_uri req) with
  | Some _ =>
      (exists r, x.1 !! i = Some (Done r)) \/
      forall a, exists e y, advance i a x = Some (e, y) /\ labelled_step e x y
  | None =>
      x.1 !! i = Some (Pending req) /\ begin_attempt req x.2 = Panic NO_HOST
  end.
Proof.
  intros Hreqs Hx Hi. rewrite Forall_forall in Hreqs.
  assert (Hb : allows_a_byte req) by (apply Hreqs; by eapply list_elem_of_lookup_2).
  destruct (execution_steps _ _ _ i (Pending req) (S RETRY_FUEL) req Hx) as [Hle (c & Hc & Hreq)].
  { cbn [fst]. by rewrite list_lookup_fmap, Hi. }
  { exists RETRY_FUEL. split; [done|by apply RETRY_FUEL_enough]. }
  { done. }
  split; [exact Hle|]. destruct (uri_host (req_uri req)) as [host|] eqn:Eh.
  - destruct (advance_returns x i c req (Err (HttpClientError.NotHandledError "")) Hc Hreq)
      as [[r ->]|_]; [by rewrite Eh|by left; exists r|].
    destruct c as [req'|req' numbered data|r]; [..|by left; exists r]; right; intros a;
      (destruct (advance_returns x i _ req a Hc Hreq) as [[r [=]]|(e & y & E)];
        [by rewrite Eh|]; exists e, y; split; [exact E|by eapply advance_step]).
  - destruct c as [req'|req' numbered data|r]; simpl in Hreq.
    + subst req'. split; [done|]. pose proof (begin_attempt_spec req x.2) as Hp.
      by rewrite Eh in Hp.
    + destruct Hreq as [_ Hh]. by rewrite Eh in Hh.
    + by rewrite Eh in Hreq.
Qed.

(** C25: the outcalls in flight have different ids, under any interleaving with other messages,
    as long as those only give out ids as well and no 2^64 ids are used up: an answer cannot be
    taken for that of another outcall of the query. *)
Theorem ids_in_flight_differ `{!JsonRpcIdLaws} (reqs : list (HttpRequest (JsonRpcRequest I))) s x :
  0 <= counter s ->
  (forall s1 s2, others s1 s2 -> counter s1 <= counter s2) ->
  rtc (fun x y => step x y /\ counter x.2 < 2 ^ 64 - 1) (map Pending reqs, s) x ->
  (forall i req numbered data, x.1 !! i = Some (Waiting req numbered data) ->
     exists n, 0 <= n < counter x.2 /\ request_id (req_body numbered) = Id_from n) /\
  (forall i j req numbered data req' numbered' data', i <> j ->
     x.1 !! i = Some (Waiting req numbered data) ->
     x.1 !! j = Some (Waiting req' numbered' data') ->
     request_id (req_body numbered) <> request_id (req_body numbered')).
Proof.
  intros Hs Ho Hr. cut (ids_given x /\ 0 <= counter x.2); [by intros [[] _]|].
  revert x Hr. apply rtc_ind_r.
  - assert (Hp : forall i req numbered data,
      map Pending reqs !! i <> Some (Waiting req numbered data)).
    { intros i req numbered data. rewrite list_lookup_fmap. by destruct (reqs !! i). }
    split; [|done]. split; cbn [fst]; intros; exfalso; by eapply Hp.
  - intros x y _ [Hstep Hc] [Hx Hx0].
    destruct (ids_given_step x y) as [Hy Hle]; [done..|]. split; [done|lia].
Qed.

(** An execution can be cut. *)
Lemma execution_app x l1 l2 z :
  execution x (l1 ++ l2) z -> exists y, execution x l1 y /\ execution y l2 z.
Proof.
  revert x. induction l1 as [|item l1 IH]; intros x Hx; [exists x; split; [constructor|done]|].
  inversion Hx as [|e x' y trace z' Hs Hrest]; subst.
  destruct (IH y Hrest) as (y' & Hl1 & Hl2). exists y'. split; [by eapply execution_cons|done].
Qed.

Lemma execution_length x trace y : execution x trace y -> length y.1 = length x.1.
Proof.
  induction 1 as [x|e x y trace z [] _ IH]; [done|..]; rewrite IH; cbn;
    by rewrite ?length_insert.
Qed.

Lemma start_call_begin req s :
  start_call method req s =
  match begin_attempt req s with Return (_, s') => Return ((), s') | Panic msg => Panic msg end.
Proof.
  unfold start_call, begin_attempt, mbind, M_bind, mret, M_ret.
  destruct (generate_request_id req s) as [[numbered s1]|]; [|done].
  by destruct (on_request method numbered s1) as [[]|].
Qed.

(** The first polls, one call after the other. *)
Lemma polls_start (requests : list (RpcService * HttpRequest (JsonRpcRequest I))) calls s polls y :
  execution (calls ++ map (fun e => Pending e.2) requests, s) polls y ->
  map event polls = map Begin (seq (length calls) (length requests)) ->
  start_calls method requests s = Return ((), y.2).
Proof.
  revert calls s polls. induction requests as [|[p q] requests IH]; intros calls s polls Hx He.
  - destruct polls as [|]; [|done]. by inversion Hx.
  - destruct polls as [|item polls]; [done|].
    inversion Hx as [|e x' y' trace z Hs Hrest]; subst. cbn in He. injection He as -> He.
    inversion Hs as [i req c' calls' s' s'' Hi Eb| |]; subst.
    rewrite lookup_app_r, Nat.sub_diag in Hi by lia. injection Hi as <-.
    unfold start_calls. cbn [for_each]. unfold mbind, M_bind. rewrite start_call_begin, Eb.
    eapply (IH (calls ++ [c'])).
    + rewrite <- app_assoc. cbn [app]. rewrite insert_app_r_alt, Nat.sub_diag in Hrest by lia.
      exact Hrest.
    + rewrite length_app. cbn. by rewrite Nat.add_1_r.
Qed.

End Interleaving.

(** ** Witnesses *)

Section Witnesses.
Import Instances.Concrete HttpConcrete.

Definition answer_of (n : Z) : Result (HttpJsonRpcResponse Z) HttpClientError :=
  Ok {| http_status := 200; http_body := {| response_id := 0; response_result := Ok n |} |}.
Definition too_large : Result (HttpJsonRpcResponse Z) HttpClientError :=
  Err (HttpClientError.IcError
    {| ic_code := RejectCode.SysFatal; ic_message := "response too large" |}).
Definition two_calls : list (RpcService * HttpRequest (JsonRpcRequest serde_Value)) :=
  [(RpcService.Provider 0, raw_request); (RpcService.Provider 1, raw_request)].
Definition started : System (I := serde_Value) (O := Z) :=
  (map (fun e => Pending e.2) two_calls, initial_state).
(** The calls start in order, and the first one is answered last, after a retry. *)
Definition order : list (nat * Result (HttpJsonRpcResponse Z) HttpClientError) :=
  [(0%nat, too_large); (1%nat, too_large); (0%nat, too_large); (1%nat, answer_of 7);
   (0%nat, answer_of 9)].
Definition finished : option (list Item * System) := execute "eth_call" order started.

Lemma finished_calls :
  exists trace s, finished = Some (trace, ([Done (answer_of 9); Done (answer_of 7)], s)) /\
    map event (take 2 trace) = [Begin 0; Begin 1] /\
    map snd (answers_of 0 trace) = [too_large; answer_of 9].
Proof.
  assert (E : option_map (fun '(trace, x) =>
      (x.1, map event (take 2 trace), map snd (answers_of 0 trace))) finished =
    Some ([Done (answer_of 9); Done (answer_of 7)], [Begin 0; Begin 1], [too_large; answer_of 9]))
    by (vm_compute; reflexivity).
  destruct finished as [[trace [calls s]]|]; [|done]. injection E as -> Ee Ea.
  by exists trace, s.
Qed.


(** A third request has a URL without a host. *)
Definition no_host_request : HttpRequest (JsonRpcRequest serde_Value) := {|
  req_uri := "/path"; req_headers := []; req_max_response_bytes := Some 1;
  req_transform_context := None; req_body := req_body raw_request |}.

Definition third_waits : option (list Item * System) := execute "eth_call" order
  ([Pending raw_request; Pending raw_request; Pending no_host_request], initial_state).

Lemma interleaved_calls_end_witness :
  exists trace x,
    third_waits = Some (trace, x) /\
    (steps_of 0 trace <= 23)%nat /\
    begin_attempt (O := Z) "eth_call" no_host_request x.2 = Panic NO_HOST.
Proof.
  assert (Er : option_map (fun _ => ()) third_waits = Some ()) by (vm_compute; reflexivity).
  destruct third_waits as [[trace x]|] eqn:E; [|discriminate Er].
  exists trace, x. split; [reflexivity|].
  assert (Hb : Forall allows_a_byte [raw_request; raw_request; no_host_request])
    by (repeat constructor; by vm_compute).
  unfold third_waits in E. apply execute_execution with (others := eq) in E.
  split.
  - apply (interleaved_calls_end "eth_call" eq [raw_request; raw_request; no_host_request]
      initial_state trace x 0 raw_request Hb E eq_refl).
  - apply (interleaved_calls_end "eth_call" eq [raw_request; raw_request; no_host_request]
      initial_state trace x 2 no_host_request Hb E eq_refl).
Defined.

#[local] Instance json_rpc_id_laws : JsonRpcIdLaws.
Proof. by intros m n _ _. Qed.

(** Both calls have been sent. *)
Lemma ids_in_flight_differ_witness :
  exists trace req1 sent1 data1 req2 sent2 data2 s,
    execute "eth_call" [(0%nat, too_large); (1%nat, too_large)] started =
      Some (trace, ([Waiting req1 sent1 data1; Waiting req2 sent2 data2], s)) /\
    request_id (req_body sent1) <> request_id (req_body sent2).
Proof.
  assert (Ex : exists e1 mid s1 e2 req1 sent1 data1 req2 sent2 data2 s,
    advance "eth_call" 0 too_large started = Some (e1, (mid, s1)) /\
    UNSTABLE_HTTP_REQUEST_COUNTER s1 = 1 /\
    advance "eth_call" 1 too_large (mid, s1) =
      Some (e2, ([Waiting req1 sent1 data1; Waiting req2 sent2 data2], s)))
    by (repeat eexists).
  destruct Ex as (e1 & mid & s1 & e2 & req1 & sent1 & data1 & req2 & sent2 & data2 & s & E1 & Ec & E2).
  eexists _, req1, sent1, data1, req2, sent2, data2, s. split.
  { cbn [execute]. rewrite E1. cbn [mbind option_bind]. rewrite E2. reflexivity. }
  destruct (ids_in_flight_differ (O := Z) "eth_call" eq [raw_request; raw_request] initial_state
    ([Waiting req1 sent1 data1; Waiting req2 sent2 data2], s)) as [_ Hd].
  - done.
  - by intros ? ? <-.
  - eapply rtc_l; [split; [by eexists; eapply advance_step|by vm_compute]|].
    eapply rtc_l; [split; [by eexists; eapply advance_step|cbn; rewrite Ec; by vm_compute]|].
    apply rtc_refl.
  - by eapply (Hd 0%nat 1%nat).
Defined.
End Witnesses.
