(* ===== verification/UnitTests.v ===== *)
(** The unit tests of the repository ([tests.rs] beside the modules, and the test modules in
    them), evaluated on the model: each example has the name of its test. Where a test draws
    its inputs at random, the property is a lemma about all of them. *)

From S2P Require Import Prelude Collections EvmRpcTypes MultiRpcResult Externals Types Providers.
From S2P Require Import Memory ProviderApi Numbers Hex JsonTypes Json JsonCodec EthRpcError.
From S2P Require Import EthRpc Http RpcClient ProviderChoice CandidRpc Secrecy.
From S2P Require Instances JsonInstances.
Import Instances.Concrete JsonInstances.
Open Scope Z_scope.

(** The value that a computation returns in the initial state. *)
Definition returned {A} (m : M A) : option A :=
  match m initial_state with Return (a, _) => Some a | Panic _ => None end.

(** ** [src/validate.rs] *)

Example test_validate_api_key :
  validate_api_key "abc" = Ok () /\
  map validate_api_key ["?a=b"; "/"; "abc/def"; "../def"; "abc/:key"] =
    replicate 5 (Err "Invalid character in API key").
Proof. by vm_compute. Qed.

(** ** [src/memory.rs] *)

Example test_api_key_principals :
  let asked a b := x ← is_api_key_principal a; y ← is_api_key_principal b; mret (x, y) in
  returned (
    none ← asked [1] [2];
    set_api_key_principals [[1]] ;;
    first ← asked [1] [2];
    set_api_key_principals [[2]] ;;
    second ← asked [1] [2];
    set_api_key_principals [[1]; [2]] ;;
    both ← asked [1] [2];
    set_api_key_principals [] ;;
    cleared ← asked [1] [2];
    mret [none; first; second; both; cleared]) =
  Some [(false, false); (true, false); (false, true); (true, true); (false, false)].
Proof. by vm_compute. Qed.

(** ** [src/providers/tests.rs] *)

Example test_provider_id_sequence :
  map provider_id PROVIDERS = map Z.of_nat (seq 0 (length PROVIDERS)).
Proof. by vm_compute. Qed.

Definition has_key_pattern (s : string) : bool := contains API_KEY_REPLACE_STRING s.
Example test_rpc_provider_url_patterns :
  forallb (fun p =>
    match access p with
    | RpcAccess.Authenticated auth public =>
        match auth with
        | RpcAuth.BearerToken s => negb (has_key_pattern s)
        | RpcAuth.UrlParameter s => has_key_pattern s
        end && forallb (fun s => negb (has_key_pattern s)) (option_list public)
    | RpcAccess.Unauthenticated s => negb (has_key_pattern s)
    end) PROVIDERS = true.
Proof. by vm_compute. Qed.

Example test_no_duplicate_service_providers :
  NoDup SERVICE_PROVIDER_MAP.*1 /\ NoDup SERVICE_PROVIDER_MAP.*2.
Proof. split; by_compute. Qed.

Example test_service_provider_coverage :
  forall p, p ∈ PROVIDERS -> provider_id p ∈ SERVICE_PROVIDER_MAP.*2.
Proof.
  intros p Hp. apply (bool_decide_eq_true_1 _).
  by apply (PROVIDERS_forall (fun p => bool_decide (provider_id p ∈ SERVICE_PROVIDER_MAP.*2))
    ltac:(by vm_compute)).
Qed.

Example should_have_all_supported_providers :
  map SupportedRpcService.EthMainnet EthMainnetService.EthMainnetService_all ≡ₚ eth_mainnet /\
  map SupportedRpcService.EthSepolia EthSepoliaService.EthSepoliaService_all ≡ₚ eth_sepolia /\
  map SupportedRpcService.ArbitrumOne L2MainnetService.L2MainnetService_all ≡ₚ arbitrum_one /\
  map SupportedRpcService.BaseMainnet L2MainnetService.L2MainnetService_all ≡ₚ base_mainnet /\
  map SupportedRpcService.OptimismMainnet L2MainnetService.L2MainnetService_all ≡ₚ
    optimism_mainnet.
Proof. split_and!; by_compute. Qed.

Definition all_supported_providers : list (list SupportedRpcService) :=
  [eth_mainnet; eth_sepolia; arbitrum_one; base_mainnet; optimism_mainnet].

Example should_have_default_ordering_when_no_data :
  map (fun l => (rank_ascending_evict SupportedRpcServiceUsage_new l 0).1)
    all_supported_providers = all_supported_providers.
Proof. by vm_compute. Qed.

(** Three successes of the second provider and one of the first: the second comes first. *)
Example should_rank_based_on_non_expired_data :
  Forall (fun l =>
    match l with
    | x :: y :: rest =>
        let usage := foldl (fun u s => record_evict u s 0) SupportedRpcServiceUsage_new
          [y; x; y; y] in
        (rank_ascending_evict usage l 0).1 = y :: x :: rest
    | _ => False
    end) all_supported_providers.
Proof. repeat constructor. Qed.

(** ** [src/rpc_client/tests.rs] *)

Definition default_services : list RpcServices :=
  [RpcServices.EthMainnet None; RpcServices.EthSepolia None; RpcServices.ArbitrumOne None;
   RpcServices.BaseMainnet None; RpcServices.OptimismMainnet None].
Definition no_services : list RpcServices :=
  [RpcServices.Custom 1 []; RpcServices.EthMainnet (Some []); RpcServices.EthSepolia (Some []);
   RpcServices.ArbitrumOne (Some []); RpcServices.BaseMainnet (Some []);
   RpcServices.OptimismMainnet (Some [])].

(** The providers of the client that is made for a source, or the error. *)
Definition client_of (source : RpcServices) : option (Result (list RpcService) ProviderError) :=
  result_map EthRpcClient_providers <$> returned (EthRpcClient_new source None 0).
Definition providers_of (source : RpcServices) (strategy : ConsensusStrategy) :
  option (Result (list RpcService) ProviderError) :=
  result_map services <$> returned (Providers_new source strategy 0).
Definition invalid_config {A} (r : option (Result A ProviderError)) : bool :=
  match r with Some (Err (ProviderError.InvalidRpcConfig _)) => true | _ => false end.
Definition threshold (total : option u8) (min : u8) : ConsensusStrategy :=
  ConsensusStrategy.Threshold total min.

Example should_fail_when_providers_explicitly_set_to_empty :
  map client_of no_services = replicate 6 (Some (Err ProviderError.ProviderNotFound)).
Proof. by vm_compute. Qed.

Example should_use_default_providers :
  Forall (fun source => match client_of source with Some (Ok (_ :: _)) => True | _ => False end)
    default_services.
Proof. by repeat constructor. Qed.

Example should_use_specified_provider :
  client_of (RpcServices.EthMainnet (Some [EthMainnetService.Alchemy; EthMainnetService.PublicNode])) =
  Some (Ok [RpcService.EthMainnet EthMainnetService.Alchemy;
            RpcService.EthMainnet EthMainnetService.PublicNode]).
Proof. by vm_compute. Qed.

Example should_have_stable_number_of_providers :
  length EthMainnetService.EthMainnetService_all = 6%nat /\
  length EthSepoliaService.EthSepoliaService_all = 5%nat /\
  length L2MainnetService.L2MainnetService_all = 5%nat.
Proof. done. Qed.

(** Custom services with different hosts. *)
Definition custom (n : nat) : RpcServices := RpcServices.Custom 1
  (map (fun i => {| url := "https://" +:+ pretty i +:+ ".example"; headers := None |}) (seq 0 n)).
Example should_choose_custom_providers :
  map (fun n => invalid_config (providers_of (custom n) (threshold (Some 4) 3))) (seq 0 11) =
    replicate 4 true ++ [false] ++ replicate 6 true /\
  (match providers_of (custom 4) (threshold (Some 4) 3) with
   | Some (Ok l) => length l = 4%nat | _ => False end).
Proof. by vm_compute. Qed.

Example should_fail_when_threshold_unspecified_with_default_providers :
  map (fun source => invalid_config (providers_of source (threshold None 3))) default_services =
  replicate 5 true.
Proof. by vm_compute. Qed.

Lemma should_fail_when_threshold_larger_than_number_of_supported_providers (min : u8) :
  Forall (fun '(source, max_total) =>
      invalid_config (providers_of source (threshold (Some (max_total + 1)) min)) = true)
    [(RpcServices.EthMainnet None, 6); (RpcServices.EthSepolia None, 5);
     (RpcServices.ArbitrumOne None, 5); (RpcServices.BaseMainnet None, 5);
     (RpcServices.OptimismMainnet None, 5)].
Proof.
  repeat constructor; unfold providers_of, returned, Providers_new, M_and_then, choose_providers,
    threshold, mbind, M_bind, mret, M_ret;
    cbn -[Z.ltb Z.eqb]; destruct (min =? 0); try done; destruct (_ <? min); done.
Qed.

Lemma should_fail_when_threshold_invalid (source : RpcServices) :
  invalid_config (providers_of source (threshold (Some 4) 5)) = true /\
  invalid_config (providers_of source (threshold (Some 4) 0)) = true.
Proof.
  unfold providers_of, returned, Providers_new, M_and_then, choose_providers, threshold.
  destruct (supported_providers source) as [chain l].
  destruct (user_defined_providers source) as [user|]; [|done].
  split; [|done]. change (5 =? 0) with false. cbn -[len_as_u8 Z.ltb Z.eqb].
  destruct (Z.ltb_spec (len_as_u8 user) 5); [done|].
  destruct (Z.eqb_spec 4 (len_as_u8 user)); [lia|done].
Qed.

Example should_deserialize_transaction_status :
  map (fun s => deserialize (T := TransactionStatus) (Str s)) ["0x01"; "0x1"; "0x0"; "0x00"] =
  [Some TransactionStatus.Success; Some TransactionStatus.Success;
   Some TransactionStatus.Failure; Some TransactionStatus.Failure].
Proof. by vm_compute. Qed.

Example should_deserialize_serialized_transaction_status :
  Forall (fun s : TransactionStatus => deserialize (serialize s) = Some s)
    [TransactionStatus.Success; TransactionStatus.Failure].
Proof. repeat constructor; by vm_compute. Qed.

Lemma should_fail_deserializing_wrong_transaction_status (z : U256) :
  2 <= proj1_sig z ->
  TransactionStatus.TransactionStatus_try_from z =
    Err ("invalid transaction status: " +:+ pretty (proj1_sig z)).
Proof.
  intros Hz. unfold TransactionStatus.TransactionStatus_try_from.
  destruct (Z.eqb_spec (proj1_sig z) 0); [lia|]. destruct (Z.eqb_spec (proj1_sig z) 1); [lia|done].
Qed.

(** The body of a receipt before Byzantium, which has a root in place of a status. *)
Definition zeros (n : nat) : string := String.concat "" (replicate n "0").
Definition pre_byzantium : Json := Obj
  [("blockHash", Str "0x9b3c1d182975fdaa5797879cbc45d6b00a84fb3b13980a107645b2491bcca899");
   ("blockNumber", Str "0x3d08ff"); ("contractAddress", Null);
   ("cumulativeGasUsed", Str "0x3a827d"); ("effectiveGasPrice", Str "0x4e3b29200");
   ("from", Str "0xcaf8925d8e825ebe0cb3fc34a2be2c8c737c1ecc"); ("gasUsed", Str "0x5208");
   ("logs", Arr []); ("logsBloom", Str ("0x" +:+ zeros 512));
   ("root", Str "0xc13704a89e282b166ecf5ac93f7f7c1be7141572c1ce4cc8aae28d526d535b4d");
   ("to", Str "0x0f1f8a981160a93da959484216b0b8db0ce2cd8e");
   ("transactionHash", Str "0x48614dab7303dda8ecfa52c6f583a3e09b3bc1724fb5a1512c361f2b36ed242d");
   ("transactionIndex", Str "0x14"); ("type", Str "0x0")].
Example should_deserialize_pre_byzantium_transaction_receipt :
  match deserialize (T := TransactionReceipt) pre_byzantium with
  | Some r =>
      let amount {U} (a : Amount U) := proj1_sig (amount_0 a) in
      amount (TransactionReceipt.block_number r) = 3999999 /\
      amount (TransactionReceipt.effective_gas_price r) = 21000000000 /\
      amount (TransactionReceipt.gas_used r) = 21000 /\
      amount (TransactionReceipt.transaction_index r) = 20 /\
      TransactionReceipt.status r = None /\
      Ok <$> TransactionReceipt.root r = Some (Hash_from_str
        "0xc13704a89e282b166ecf5ac93f7f7c1be7141572c1ce4cc8aae28d526d535b4d") /\
      TransactionReceipt.contract_address r = None /\ TransactionReceipt.logs r = [] /\
      JsonByte_into_byte (TransactionReceipt.tx_type r) = 0
  | None => False
  end.
Proof.
  vm_compute. by repeat split.
Qed.

Example should_serialize_get_transaction_count_params_as_tuple :
  match Hex20_from_str "0x407d73d8a49eeb85d32cf465507dd71d507100c1" with
  | Ok address => serialize {|
      GetTransactionCountParams.address := Address_new (Hex20_0 address);
      GetTransactionCountParams.block := BlockSpec.Tag BlockTag.Finalized |} =
      Arr [Str "0x407d73d8a49eeb85d32cf465507dd71d507100c1"; Str "finalized"]
  | Err _ => False
  end.
Proof. by vm_compute. Qed.

Example should_deserialize_transaction_count :
  (fun a : Amount _ => proj1_sig (amount_0 a)) <$> deserialize (T := TransactionCount) (Str "0x3d8") =
  Some 984.
Proof. by vm_compute. Qed.

(** ** [src/rpc_client/eth_rpc_error/tests.rs] *)

Definition error_object (code : i64) (message : string) : RpcErrorObject :=
  {| error_code := code; error_message := message; error_data := None |}.
Definition sanitized (code : i64) (message : string) :
  Result SendRawTransactionResult RpcErrorObject :=
  sanitize_result (Parser_try_parse Parser_new) (Err (error_object code message)).

Example should_sanitize_ok_response (h : Hash) :
  sanitize_result (Parser_try_parse Parser_new) (Ok h) = Ok SendRawTransactionResult.Ok.
Proof. done. Qed.
Example should_ignore_already_known_error :
  sanitized (-32000) "ALREADY_EXISTS: already known" = Ok SendRawTransactionResult.Ok.
Proof. by vm_compute. Qed.
Example should_sanitize_insufficient_funds_error :
  sanitized (-32000) "out of gas" = Ok SendRawTransactionResult.InsufficientFunds.
Proof. by vm_compute. Qed.
Example should_keep_unknown_error_and_normalize_response :
  sanitized (-32000) "weird unknown error" =
  Err (error_object (-32000) "weird unknown error").
Proof. by vm_compute. Qed.

(** ** [src/candid_rpc/tests.rs] *)

Definition ankr : RpcService := RpcService.EthMainnet EthMainnetService.Ankr.
Definition cloudflare : RpcService := RpcService.EthMainnet EthMainnetService.Cloudflare.
Definition llama : RpcService := RpcService.EthMainnet EthMainnetService.Llama.
Definition process (result : ReducedResult Z) : option (MultiRpcResult Z) :=
  returned (process_result RpcMethod.EthGetTransactionCount result).
Definition inconsistent_error (l : list (RpcService * RpcResult Z)) : ReducedResult Z :=
  Err (ReductionError.InconsistentResults (M := multi_results) l).

Example test_process_result_mapping :
  let missing := RpcError.ProviderError ProviderError.MissingRequiredProvider in
  let some := [(ankr, Ok 5)] in
  let more := [(ankr, Ok 5);
    (cloudflare, Err (RpcError.ProviderError ProviderError.NoPermission))] in
  process (Ok 5) = Some (Consistent (Ok 5)) /\
  process (Err (ReductionError.ConsistentError missing)) = Some (Consistent (Err missing)) /\
  process (inconsistent_error []) = Some (Inconsistent []) /\
  process (inconsistent_error some) = Some (Inconsistent some) /\
  process (inconsistent_error more) = Some (Inconsistent more).
Proof. by vm_compute. Qed.

(** ** [evm_rpc_types/src/result/tests.rs] *)

Section Results.
#[local] Instance peq_Z : PartialEq Z := PartialEq_dec.
#[local] Instance peq_unit : PartialEq unit := PartialEq_dec.

Definition not_found : RpcError := RpcError.ProviderError ProviderError.ProviderNotFound.
Definition message : RpcError :=
  RpcError.ValidationError (ValidationError.Custom "error message").

Example test_multi_rpc_result_map :
  multi_map (fun n => n + 1) (Consistent (Ok 5)) = Consistent (Ok 6) /\
  multi_map (T := unit) (fun _ => 0) (Consistent (Err not_found)) = Consistent (Err not_found) /\
  multi_map (fun n => n + 1) (Inconsistent [(ankr, Ok 5); (ankr, Ok 6)]) =
    Inconsistent [(ankr, Ok 6); (ankr, Ok 7)] /\
  multi_map (fun n => n + 1) (Inconsistent [(ankr, Ok 5); (llama, Err not_found)]) =
    Inconsistent [(ankr, Ok 6); (llama, Err not_found)] /\
  multi_map (fun n => n / 2) (Inconsistent [(ankr, Ok 2)]) = Consistent (Ok 1) /\
  multi_map (fun n => n / 2) (Inconsistent [(ankr, Ok 2); (llama, Ok 3)]) = Consistent (Ok 1) /\
  multi_and_then (T := unit) (fun _ => Ok ())
    (Inconsistent [(ankr, Err message); (llama, Err message)]) = Consistent (Err message).
Proof. by vm_compute. Qed.

Example test_multi_rpc_result_and_then :
  let even n := if n mod 2 =? 0 then Ok n else Err not_found in
  multi_and_then (fun n => Ok (n + 1)) (Consistent (Ok 5)) = Consistent (Ok 6) /\
  multi_and_then (fun n => Ok (n + 1)) (Inconsistent [(ankr, Ok 5); (ankr, Ok 6)]) =
    Inconsistent [(ankr, Ok 6); (ankr, Ok 7)] /\
  multi_and_then even (Inconsistent [(ankr, Ok 1); (llama, Ok 2)]) =
    Inconsistent [(ankr, Err not_found); (llama, Ok 2)] /\
  multi_and_then even (Inconsistent [(ankr, Ok 1); (llama, Ok 3)]) = Consistent (Err not_found) /\
  multi_and_then (fun n => Ok (n / 2)) (Inconsistent [(ankr, Ok 2); (llama, Ok 3)]) =
    Consistent (Ok 1).
Proof. by vm_compute. Qed.
End Results.

(** ** [evm_rpc_types/src/rpc_client/tests.rs] and [evm_rpc_types/src/tests.rs] *)

Example should_contain_host_without_sensitive_information :
  map RpcApi_debug
    [{| url := "https://eth-mainnet.g.alchemy.com/v2"; headers := None |};
     {| url := "https://eth-mainnet.g.alchemy.com/v2/key"; headers := None |};
     {| url := "https://eth-mainnet.g.alchemy.com/v2";
        headers := Some [{| header_name := "authorization"; header_value := "Bearer key" |}] |}] =
  replicate 3 "RpcApi { host: eth-mainnet.g.alchemy.com, url/headers: *** }".
Proof. by vm_compute. Qed.

Example should_decode_single_hex_char_into_hex_byte :
  map (fun c => HexByte_from_str ("0x" +:+ c))
    ["0"; "1"; "9"; "a"; "b"; "c"; "d"; "e"; "f"; "A"; "B"; "C"; "D"; "E"; "F"] =
  map (fun c => HexByte_from_str ("0x0" +:+ c))
    ["0"; "1"; "9"; "a"; "b"; "c"; "d"; "e"; "f"; "A"; "B"; "C"; "D"; "E"; "F"] /\
  map (fun c => result_map HexByte_into_byte (HexByte_from_str ("0x" +:+ c)))
    ["0"; "1"; "9"; "a"; "b"; "c"; "d"; "e"; "f"; "A"; "B"; "C"; "D"; "E"; "F"] =
  map Ok [0; 1; 9; 10; 11; 12; 13; 14; 15; 10; 11; 12; 13; 14; 15].
Proof. by vm_compute. Qed.
